(* ===== verification/_CoqProject ===== *)
-Q . S2P
Prelude.v
Crypto.v
Structures.v
Sample.v
FileSystem.v
Chain.v
Blockchain.v
Identities.v
BlockchainService.v
BlockchainEvents.v
Sql.v
SqlSample.v
Model.v
Text.v
TransparencyLog.v
EventLoop.v
Client.v
Build.v
Registry.v
Artifact.v
Verification.v
BuildEvents.v
Api.v
Protocols.v
Metrics.v
Util.v
Regex.v
Config.v
Cli.v
Grammar.v
Swarm.v
Node.v
Exchange.v
Tasks.v
Quiescence.v
Scripts.v
