(* ===== verification/Prelude.v ===== *)
(** * Pyrsia: a verification library

    Pyrsia is a decentralized package network.  A node keeps a blockchain of signed
    blocks, a transparency log of artifacts and authorized nodes that is replicated
    through the blockchain, a store of artifacts that are shared over a libp2p network,
    and, on authorized nodes, a service that builds packages from source and one that
    verifies the builds of others.  Docker and Maven clients fetch artifacts from a node over
    HTTP; a command line tool configures a node and asks it over HTTP.  This library models
    the node and the tool, src/src, src/pyrsia_node and src/pyrsia_cli, and proves what makes
    their parts correct.

    ** Conventions

    A Rust function that can fail or panic returns an [outcome]; a method that changes
    state is a [stm], a function from the state to an outcome and a new state, in which
    what was changed before an error stays changed.  [unwrap], [expect], an index out of
    range and [todo!] are the outcome [Panic].  Machine integers are [Z] with their
    width written out; additions wrap as in the release profile.  Strings are byte strings.
    Fresh values (UUIDs, nonces, the clock) are arguments.  Logging is left out.

    Code that is not in the repository is a class of operations with a second class
    of the laws the code relies on, each with a concrete instance in the file that
    introduces it or in a sample file, by which every theorem with hypotheses is applied to
    a concrete input: signatures, hashes, peer ids and bincode ([Crypto]), SQLite
    ([Sqlite]), serde_json ([LogJson], [BuildJson], [ApiJson], [CliJson]), the swarm of libp2p ([Libp2p],
    [SwarmBuild]), its addresses ([Multiaddrs]) and frames ([SocketIo]), HTTP ([Http], [Reqwest], [Bootstrap]),
    SHA-256 ([Sha256]), the encoding of key pairs ([KeypairCodec]), the load of the system ([Sysinfo]),
    regular expressions ([RegexEngine]), the command line ([Clap]), what gossipsub remembers ([Gossip]) and the
    configuration file of the tool ([Confy]).  The file system is modelled, with an oracle for outside faults ([Fs]); the
    database of the transparency log is on a disk of its own, since no other service writes into its directory.
    oneshot senders are numbers; what is sent on them is recorded.

    ** Files

    - Prelude: outcomes, the state monad, integers, a stable sort, shared lemmas.
    - Crypto, Structures (src/blockchain/src: crypto, signature.rs, error.rs,
      structures/header.rs, transaction.rs and block.rs), Sample (a concrete
      cryptography and codec), FileSystem (what is used of std::fs).
    - Chain and Blockchain (structures/chain.rs, blockchain.rs): blocks are appended, saved,
      loaded and pulled.  The invariant is a chain that is numbered from zero, linked
      by hashes and, block for block, on disk.  Adding a block extends it by exactly one
      block.  A chain only grows; through restarts it does as long as the blocks of peers carry the
      next ordinal, which the code does not check, and so long a restart restores it; a misnumbered block is
      shown to be lost.  Pulls return the right ranges, startup never panics.
    - Identities (identities/): pens, verifiers and key boxes; two quorums intersect.
    - BlockchainService and BlockchainEvents (blockchain_service/service.rs, event.rs and
      the handler of commands of pyrsia_node): announcing, accepting and pulling
      blocks over the interface [BlockchainNet].  A node that pulls from a peer, whose blocks
      must fit into one message of 10 MiB, or receives its announcement, ends with the chain of the peer,
      the bytes of the messages included; every event is answered once.
    - Sql, SqlSample: the statements of the transparency log, character for character, and
      what SQLite documents of them; a concrete engine.
    - Model, Text: package types and builds; the methods of str.
    - TransparencyLog (transparency_log/log.rs): the relation [holds] between a service and the list of
      its logs; every operation is specified on that list.
    - EventLoop, Client (network/event_loop.rs, client/command.rs, client.rs): the loop between the
      commands of clients and the events of the swarm.  Every sender is accounted for: pending,
      answered, or lost by one of the commands that are named; how providers are collected, how responses are
      routed, which peer is chosen.
    - Build (build_service/: error.rs, mapping, pipeline, service.rs): starting, polling and
      processing builds.
    - Registry (the ids of docker/v2/handlers and java/maven2/handlers): clients ask for
      the ids under which builds are stored.
    - Artifact (artifact_service/: storage.rs, service.rs): storing, fetching, verifying and
      publishing artifacts.
    - Verification (verification_service/service.rs): transactions of a package wait for each
      other, start one build and are answered by its result; every sender waits, was answered or was
      forgotten for a reason that is stated.
    - BuildEvents (build_service/event.rs): the client and the loop over the build,
      artifact and verification services, which share the disk, the log and the network
      client.  A finished build becomes artifacts that are served with their hashes.

    - Api (docker/v2, java/maven2, node_api, docker/error_util.rs and the composition of routes
      in pyrsia_node/src/main.rs): what a node answers to an HTTP request.  A pull is
      served with the logged hash or becomes one build; authorizing, building and
      inspecting over HTTP have the statuses and effects that are stated.
    - Protocols (network/*_protocol.rs): the readers and writers of the five request-response
      protocols, over sockets that cut bytes anywhere.  What is written is read, accepted messages
      are bounded, and which bytes make a reader panic.
    - Metrics (peer_metrics/metrics.rs): the load of a node in IEEE doubles; it is never a NaN.
    - Util (util/env_util.rs, util/keypair_util.rs and the directory of artifact_service/storage.rs):
      environment variables and the key file.
    - Regex, Config (cli_commands/config.rs): regular expressions, by derivatives; the configuration of
      the tool, which host names, ports and disk spaces are accepted, edits that are all or nothing.
    - Cli (cli_commands/node.rs, pyrsia_cli/src): the commands of the tool and what they print.
      Run against the node of Api, a command changes the node as its handler does.
    - Grammar (pyrsia_cli/src/cli/parser.rs and main.rs): the declaration of the commands to clap and the main function
      on what clap matched.  Every accepted line runs the command that it says on the values it gives, without a panic on a
      missing argument.
    - Swarm (network/p2p.rs, network/behaviour.rs): the settings of the transport and of the behaviours, and the ids of gossip
      messages, with the hasher of the standard library.  The announcement of a build that was seen is refused, and the
      build with it.
    - Node (pyrsia_node/src, network/p2p.rs): the setup of the services, the identity of a node, joining
      the network and the loop over the events of the network.  A newcomer ends with the chain of
      its peer and the records of the chain, or panics when the chain is too large for one message; every
      request of a peer is answered with what is due.
    - Exchange: the event loops of two nodes, the codecs and the handlers of the node that is asked,
      composed.  A request comes back with what the peer has, or is refused by a limit.
    - Tasks (pyrsia_node/src/main.rs and the loops): the four loops of a node with their bounded channels and their clients as
      a step relation on waits.  With room in the channels a node that stops has nothing left to do; two cycles
      of full channels stop it for good.
    - Quiescence: the work that is left in the tasks decreases with every step of their own, in the multiset order, so a node
      that is left alone comes to rest.
    - Scripts: the handlers of the other files, over channels that remember, use the channels as Tasks says, operation by
      operation: a handler that panics has done a first part of its script, up to a call.

    ** Interfaces

    [BlockchainNet] is what the blockchain service uses of the network; [Client] makes an
    instance of it from the channel of commands ([CommandChannel]).  [BlockAdder] is
    what the transparency log uses of the blockchain, [BlockAddedHandler] what the blockchain event
    loop uses of the artifact service, which has an instance of it; [BuildClient] is what the artifact
    and verification services use of the build event loop, with an instance in BuildEvents.
    [Reqwest] is what the tool uses of a node; Cli makes an instance of it from the node
    of Api.  [LoopChannel] is a channel of commands whose commands the event loop handles, with an instance in Swarm.
    [AskedChannel], [AddedBlocks], [RequestedBuilds] and [ToldChannel] are clients that remember what was sent; the
    build client of BuildEvents is one when its channel is.

    ** Bounds and fuel

    Loading blocks runs with one unit of fuel more than the disk has nodes: a chain of files
    numbered one by one cannot be longer, and the proof that startup does not panic shows that the fuel is not
    exhausted.  It assumes fewer than 2^31 nodes, where the i32 counter of the source would
    wrap.  Timestamps of logs are below 2^63, the range rusqlite stores.  Values
    that are put into SQL text have no apostrophe; peer ids, UUIDs and package types
    never have one.  The polling of a build is bounded by the number of ticks that are
    considered; the theorem on it holds for every number.  A question of the command line tool is asked at
    most as often as the fuel says; the theorem on it shows that one more than the number of
    the first valid line is enough, and that without a valid line no fuel is.  Lengths of frames are
    decoded within ten bytes, enough for 64 bits.  The words of a hash are read with one unit of fuel more than there are
    bytes.  A channel holds 32 messages, as in the code.  The runs of the tasks have no fuel: they are shown to end
    by a well-founded order.

    ** What is not modelled

    Logging, the texts of the help of the command line, the grammar of the arguments of the node (the parsed arguments and
    their defaults are modelled), the helpers of the tests, and time: when gossipsub forgets a message, and polls
    have no period.  Outside of Tasks, loops are modelled by the events they handle, one after the other, in every
    order; Tasks has the interleavings of all tasks, with the handlers as their uses of channels, and there a
    handler that panics is not considered.  What is left of the code besides is derived implementations, conversions
    between error types and messages for people.  The constructors of libp2p, clap, SQLite and the other libraries are
    parameters. *)

From stdpp Require Export base option list numbers gmap strings pretty sorting.
From Stdlib Require Export ZArith Lia.
From Stdlib Require Export Strings.Byte.
From Stdlib Require Strings.Ascii.
Export Ascii.AsciiSyntax.
Delimit Scope char_scope with char.

(** ** Outcomes: [Result], [Option] and panics

    A Rust function that returns [Result<A, E>] either returns a value, returns
    an error or panics ([unwrap], [expect], an index out of range, [todo!]).
    A function that returns a plain value and may panic is an [outcome] at any
    error type. *)
Inductive outcome (E A : Type) : Type :=
| Ok (a : A)
| Err (e : E)
| Panic.
Arguments Ok {E A} a.
Arguments Err {E A} e.
Arguments Panic {E A}.

(** The [?] operator. *)
Definition obind {E A B} (c : outcome E A) (k : A -> outcome E B) : outcome E B :=
  match c with Ok a => k a | Err e => Err e | Panic => Panic end.

(** [Result::map_err]. *)
Definition map_err {E F A} (f : E -> F) (c : outcome E A) : outcome F A :=
  match c with Ok a => Ok a | Err e => Err (f e) | Panic => Panic end.

(** [Option::ok_or]. *)
Definition ok_or {E A} (o : option A) (e : E) : outcome E A :=
  match o with Some a => Ok a | None => Err e end.

(** [Option::unwrap] and [Option::expect]. *)
Definition unwrap {E A} (o : option A) : outcome E A :=
  match o with Some a => Ok a | None => Panic end.

Definition is_ok {E A} (c : outcome E A) : bool :=
  match c with Ok _ => true | _ => false end.

(** ** State and outcomes

    A [&mut self] method is a function from the state to an outcome and a new
    state; what was changed before an error or a panic stays changed. *)
Definition stm (S E A : Type) : Type := S -> outcome E A * S.

Definition sret {S E A} (a : A) : stm S E A := fun s => (Ok a, s).
Definition sbind {S E A B} (c : stm S E A) (k : A -> stm S E B) : stm S E B :=
  fun s => match c s with
           | (Ok a, s') => k a s'
           | (Err e, s') => (Err e, s')
           | (Panic, s') => (Panic, s')
           end.
Definition serr {S E A} (e : E) : stm S E A := fun s => (Err e, s).
Definition spanic {S E A} : stm S E A := fun s => (Panic, s).
Definition sget {S E} : stm S E S := fun s => (Ok s, s).
Definition sput {S E} (s' : S) : stm S E unit := fun _ => (Ok tt, s').
Definition smodify {S E} (f : S -> S) : stm S E unit := fun s => (Ok tt, f s).
(** A computation that does not touch the state. *)
Definition slift {S E A} (c : outcome E A) : stm S E A := fun s => (c, s).
Definition smap_err {S E F A} (f : E -> F) (c : stm S E A) : stm S F A :=
  fun s => let '(o, s') := c s in (map_err f o, s').
(** The outcome as a value: [match self.op() { Ok(a) => .., Err(e) => .. }];
    a panic is not caught. *)
Definition scatch {S E F A} (c : stm S E A) : stm S F (A + E) :=
  fun s => match c s with
           | (Ok a, s') => (Ok (inl a), s')
           | (Err e, s') => (Ok (inr e), s')
           | (Panic, s') => (Panic, s')
           end.
(** Runs the method of a field of the state. *)
Definition szoom {S T E A} (get : S -> T) (put : T -> S -> S) (c : stm T E A) : stm S E A :=
  fun s => let '(o, t) := c (get s) in (o, put t s).

(** [for x in xs { body(x)? }]. *)
Fixpoint sfor {S E A} (xs : list A) (body : A -> stm S E unit) : stm S E unit :=
  match xs with
  | [] => sret tt
  | x :: xs' => sbind (body x) (fun _ => sfor xs' body)
  end.

Declare Scope rust_scope.
Delimit Scope rust_scope with rust.
Notation "'let?' x ':=' c 'in' k" := (obind c (fun x => k))
  (at level 10, x pattern, c at level 100, k at level 200) : rust_scope.
Notation "'let!' x ':=' c 'in' k" := (sbind c (fun x => k))
  (at level 10, x pattern, c at level 100, k at level 200) : rust_scope.
Open Scope rust_scope.

(** ** Machine integers

    An unsigned integer of [w] bits is a [Z] in [0, 2^w).  The release profile of
    Cargo.toml has overflow-checks = false, so additions wrap. *)
Definition fits (w z : Z) : Prop := (0 <= z < 2 ^ w)%Z.
Definition wrap (w z : Z) : Z := (z mod 2 ^ w)%Z.
Abbreviation u32 := (fits 32).
Abbreviation u64 := (fits 64).
Abbreviation u128 := (fits 128).
(** Signed wrap-around of [i32]. *)
Definition wrap_i32 (z : Z) : Z := ((z + 2 ^ 31) mod 2 ^ 32 - 2 ^ 31)%Z.

Abbreviation bytes := (list byte).

(** [str::as_bytes]: a string is its UTF-8 bytes. *)
Definition as_bytes (s : string) : bytes := String.list_byte_of_string s.

#[export] Instance byte_eq_decision : EqDecision byte := Byte.byte_eq_dec.

(** ** Tactics and hints *)
Create HintDb rust.

(** Inverts equations between outcomes. *)
Ltac inv_outcome :=
  repeat (unfold obind, map_err, ok_or, unwrap in *;
          match goal with
          | H : Ok _ = Ok _ |- _ => injection H as H; subst
          | H : Err _ = Err _ |- _ => injection H as H; subst
          | H : (_, _) = (_, _) |- _ => apply pair_equal_spec in H; destruct H; subst
          | H : Ok _ = Err _ |- _ => discriminate H
          | H : Err _ = Ok _ |- _ => discriminate H
          | H : Ok _ = Panic |- _ => discriminate H
          | H : Panic = Ok _ |- _ => discriminate H
          | H : Err _ = Panic |- _ => discriminate H
          | H : Panic = Err _ |- _ => discriminate H
          end).

(** Computes one layer of the monads. *)
Ltac unfold_stm :=
  unfold sbind, sret, serr, spanic, sget, sput, smodify, slift, smap_err, scatch, szoom in *.

(** ** Lemmas on outcomes *)
Lemma obind_Ok {E A B} (c : outcome E A) (k : A -> outcome E B) b :
  obind c k = Ok b <-> exists a, c = Ok a /\ k a = Ok b.
Proof. destruct c; simpl; naive_solver. Qed.

Lemma map_err_Ok {E F A} (f : E -> F) (c : outcome E A) a :
  map_err f c = Ok a <-> c = Ok a.
Proof. destruct c; simpl; naive_solver. Qed.

Lemma sbind_Ok {S E A B} (c : stm S E A) (k : A -> stm S E B) s b s' :
  sbind c k s = (Ok b, s') <-> exists a s1, c s = (Ok a, s1) /\ k a s1 = (Ok b, s').
Proof. unfold sbind. destruct (c s) as [[] ?]; naive_solver. Qed.

Lemma sfor_app {S E A} (xs ys : list A) (body : A -> stm S E unit) s :
  sfor (xs ++ ys) body s = sbind (sfor xs body) (fun _ => sfor ys body) s.
Proof.
  revert s; induction xs as [|x xs IH]; intros s; simpl; [done|].
  unfold sbind. destruct (body x s) as [[] s1]; [apply IH|done|done].
Qed.

(** A loop preserves what its body preserves, whatever the outcome. *)
Lemma sfor_preserves {S E A} (I : S -> Prop) (xs : list A) (body : A -> stm S E unit) :
  (forall x s, I s -> I (snd (body x s))) ->
  forall s, I s -> I (snd (sfor xs body s)).
Proof.
  intros Hb; induction xs as [|x xs IH]; intros s Hs; simpl; [done|].
  unfold sbind. specialize (Hb x s Hs). destruct (body x s) as [[] s1]; simpl in *; auto.
Qed.

(** *** Frames: a computation that leaves a part of the state alone, whatever its outcome *)
Definition frames {S E A T} (f : S -> T) (c : stm S E A) : Prop := forall s, f (snd (c s)) = f s.

Section Frames.
Context {S T : Type} (f : S -> T).

Lemma frames_ret {E A} (a : A) : frames f (sret (E := E) a).
Proof. done. Qed.
Lemma frames_err {E A} (e : E) : frames f (serr (A := A) e).
Proof. done. Qed.
Lemma frames_panic {E A} : frames f (spanic (E := E) (A := A)).
Proof. done. Qed.
Lemma frames_get {E} : frames f (sget (E := E)).
Proof. done. Qed.
Lemma frames_lift {E A} (o : outcome E A) : frames f (slift o).
Proof. done. Qed.
Lemma frames_bind {E A B} (c : stm S E A) (k : A -> stm S E B) :
  frames f c -> (forall a, frames f (k a)) -> frames f (sbind c k).
Proof.
  intros Hc Hk s. unfold sbind. specialize (Hc s).
  destruct (c s) as [[a| |] s1]; simpl in *; [|done..]. by rewrite Hk.
Qed.
Lemma frames_map_err {E F A} (g : E -> F) (c : stm S E A) : frames f c -> frames f (smap_err g c).
Proof. intros Hc s. unfold smap_err. specialize (Hc s). by destruct (c s). Qed.
Lemma frames_catch {E F A} (c : stm S E A) : frames f c -> frames f (scatch (F := F) c).
Proof. intros Hc s. unfold scatch. specialize (Hc s). by destruct (c s) as [[] ?]. Qed.
Lemma frames_zoom {U E A} (get : S -> U) put (c : stm U E A) :
  (forall x s, f (put x s) = f s) -> frames f (szoom get put c).
Proof. intros Hp s. unfold szoom. destruct (c (get s)). apply Hp. Qed.
Lemma frames_for {E A} (xs : list A) (body : A -> stm S E unit) :
  (forall x, frames f (body x)) -> frames f (sfor xs body).
Proof. intros Hb. induction xs; simpl; [apply frames_ret|by apply frames_bind]. Qed.
End Frames.

#[export] Hint Resolve frames_ret frames_err frames_panic frames_get frames_lift frames_bind
  frames_map_err frames_catch frames_zoom frames_for : rust.

(** ** Lemmas on integers *)
Lemma wrap_fits w z : (0 <= w)%Z -> fits w (wrap w z).
Proof. intros. unfold fits, wrap. apply Z.mod_pos_bound. lia. Qed.

Lemma wrap_small w z : fits w z -> wrap w z = z.
Proof. unfold fits, wrap. apply Z.mod_small. Qed.

Lemma wrap_i32_small z : (0 <= z < 2 ^ 31)%Z -> wrap_i32 z = z.
Proof. intros. unfold wrap_i32. rewrite Z.mod_small; lia. Qed.

#[export] Hint Resolve wrap_fits : rust.

(** ** Lemmas on lists *)
Lemma last_lookup_length {A} (l : list A) : last l = l !! pred (length l).
Proof. apply last_lookup. Qed.

Lemma lookup_snoc_Some_inv {A} (l : list A) x i y :
  (l ++ [x]) !! i = Some y -> (l !! i = Some y) \/ (i = length l /\ x = y).
Proof.
  intros H. destruct (decide (i < length l)) as [Hi|Hi].
  - left. by rewrite lookup_app_l in H.
  - right. rewrite lookup_app_r in H by lia.
    apply list_lookup_singleton_Some in H as [? ?]. split; [lia|done].
Qed.

Lemma Forall_filter_keep {A} (P Q : A -> Prop) `{!forall x, Decision (Q x)} (l : list A) :
  Forall P l -> Forall P (filter Q l).
Proof.
  intros Hl. rewrite Forall_forall in *. intros x [_ Hx]%list_elem_of_filter. by apply Hl.
Qed.

Lemma filter_ext_elem {A} (P Q : A -> Prop) `{!forall x, Decision (P x), !forall x, Decision (Q x)} (l : list A) :
  (forall x, x ∈ l -> P x <-> Q x) -> filter P l = filter Q l.
Proof.
  induction l as [|x l IH]; intros Hl; [done|]. rewrite !filter_cons, IH by (intros; apply Hl; by right).
  assert (P x <-> Q x) as Hx by (apply Hl; by left).
  destruct (decide (P x)), (decide (Q x)); naive_solver.
Qed.

Lemma filter_none {A} (P : A -> Prop) `{!forall x, Decision (P x)} (l : list A) :
  (forall x, x ∈ l -> ~ P x) -> filter P l = [].
Proof.
  intros Hn. destruct (filter P l) as [|x k] eqn:E; [done|].
  assert (x ∈ filter P l) as [Hx Hin]%list_elem_of_filter by (rewrite E; by left).
  by destruct (Hn x Hin).
Qed.

(** ** Lemmas on strings *)
Lemma string_length_app (s t : string) :
  String.length (s +:+ t) = String.length s + String.length t.
Proof. induction s as [|a s IH]; simpl; [done|]. by rewrite IH. Qed.

Lemma string_app_inj_r (s t u : string) : s +:+ u = t +:+ u -> s = t.
Proof.
  revert t; induction s as [|a s IH]; intros [|b t] Heq; simpl in *; [done| | |].
  - apply (f_equal String.length) in Heq. rewrite !string_length_app in Heq. simpl in Heq. lia.
  - apply (f_equal String.length) in Heq. rewrite !string_length_app in Heq. simpl in Heq. lia.
  - injection Heq as -> Heq. f_equal. by apply IH.
Qed.

(** ** A stable sort

    [slice::sort_by] keeps the order of elements that compare equal. *)
Section StableSort.
Context {A : Type} (R : A -> A -> Prop) `{!forall x y, Decision (R x y)}.

Fixpoint insert_sorted (x : A) (l : list A) : list A :=
  match l with
  | [] => [x]
  | y :: l' => if decide (R x y) then x :: l else y :: insert_sorted x l'
  end.

Definition stable_sort (l : list A) : list A := foldr insert_sorted [] l.

Lemma insert_sorted_perm x l : insert_sorted x l ≡ₚ x :: l.
Proof.
  induction l as [|y l IH]; simpl; [done|]. case_decide; [done|]. rewrite IH. apply Permutation_swap.
Qed.

Lemma stable_sort_perm l : stable_sort l ≡ₚ l.
Proof. induction l as [|x l IH]; simpl; [done|]. by rewrite insert_sorted_perm, IH. Qed.

Context `{!Transitive R, !Total R}.

Lemma insert_sorted_sorted x l : StronglySorted R l -> StronglySorted R (insert_sorted x l).
Proof.
  induction 1 as [|y l Hs IH Hy]; simpl; [repeat constructor|]. case_decide as Hxy.
  - constructor; [by constructor|]. constructor; [done|].
    eapply Forall_impl; [done|]. intros z Hz. by trans y.
  - constructor; [done|]. rewrite insert_sorted_perm. constructor; [|done].
    by destruct (total R x y).
Qed.

Lemma stable_sort_sorted l : StronglySorted R (stable_sort l).
Proof. induction l; simpl; [constructor|by apply insert_sorted_sorted]. Qed.

(** Its head is a smallest element. *)
Lemma stable_sort_head l x :
  head (stable_sort l) = Some x -> x ∈ l /\ forall y, y ∈ l -> R x y.
Proof.
  intros Hx. pose proof (stable_sort_perm l) as Hp. pose proof (stable_sort_sorted l) as Hs.
  destruct (stable_sort l) as [|z l'] eqn:E; simplify_eq/=. split.
  - rewrite <- Hp. by left.
  - intros y Hy. rewrite <- Hp in Hy. apply elem_of_cons in Hy as [->|Hy].
    + by destruct (total R x x).
    + apply StronglySorted_inv in Hs as [_ Hf]. rewrite Forall_forall in Hf. by apply Hf.
Qed.

Lemma stable_sort_head_None l : head (stable_sort l) = None -> l = [].
Proof.
  intros Hn. pose proof (stable_sort_perm l) as Hp.
  destruct (stable_sort l); [by apply Permutation_nil_l in Hp|done].
Qed.
End StableSort.
