(* ===== verification/Crypto.v ===== *)
(** * Crypto: hashes, signatures and serialization

    The cryptographic crates (multihash, ed25519-dalek, libp2p's identity) and
    bincode are not part of the repository.  Their operations are the fields of
    the classes [Crypto] and [Bincode]; what the code relies on is stated by the
    law classes [CryptoOk] and [BincodeOk].  The definitions model
    src/blockchain/src/crypto/hash_algorithm.rs and src/blockchain/src/signature.rs. *)

From S2P Require Import Prelude.

(** ** The crates *)
Class Crypto := {
  (** multihash *)
  Multihash : Type;
  Multihash_eq_dec :: EqDecision Multihash;
  keccak256 : bytes -> Multihash;
  multihash_digest : Multihash -> bytes;
  (** libp2p's ed25519 key pairs *)
  Keypair : Type;
  PublicKey : Type;
  PublicKey_eq_dec :: EqDecision PublicKey;
  public : Keypair -> PublicKey;
  encode_public_key : PublicKey -> bytes;
  decode_public_key : bytes -> option PublicKey;
  keypair_sign : Keypair -> bytes -> bytes;
  public_key_verify : PublicKey -> bytes -> bytes -> bool;
  (** ed25519-dalek's signatures *)
  DalekSignature : Type;
  DalekSignature_eq_dec :: EqDecision DalekSignature;
  dalek_from_bytes : bytes -> option DalekSignature;
  dalek_to_bytes : DalekSignature -> bytes;
  (** libp2p's peer ids *)
  PeerId : Type;
  PeerId_eq_dec :: EqDecision PeerId;
  PeerId_countable :: Countable PeerId;
  peer_id_from_public_key : PublicKey -> PeerId;
  peer_id_to_multihash : PeerId -> Multihash;
  peer_id_to_string : PeerId -> string;
  peer_id_from_str : string -> option PeerId;
}.

(** What the crates document: a Keccak-256 digest has 32 bytes, a public key is
    decoded from its encoding, a signature made by a key pair is a signature,
    keeps its bytes, and is accepted by the public key, a peer id is parsed from
    its text. *)
Class CryptoOk `{Crypto} : Prop := {
  keccak256_size m : length (multihash_digest (keccak256 m)) = 32;
  decode_encode_public_key pk : decode_public_key (encode_public_key pk) = Some pk;
  sign_is_signature kp msg :
    exists s, dalek_from_bytes (keypair_sign kp msg) = Some s
              /\ dalek_to_bytes s = keypair_sign kp msg;
  sign_verifies kp msg : public_key_verify (public kp) msg (keypair_sign kp msg) = true;
  peer_id_text p : peer_id_from_str (peer_id_to_string p) = Some p;
}.

(** ** bincode

    [bincode::serialize] and [bincode::deserialize] at one type.  [deserialize]
    accepts trailing bytes. *)
Class Bincode (A : Type) := {
  serialize : A -> option bytes;
  deserialize : bytes -> option A;
}.

(** Values whose integers are in range are serialized, and read back whatever
    bytes follow them. *)
Class BincodeOk (A : Type) `{Bincode A} (ok : A -> Prop) : Prop :=
  bincode_roundtrip a :
    ok a -> exists bs, serialize a = Some bs /\ forall rest, deserialize (bs ++ rest) = Some a.

Section Crypto.
Context `{Crypto}.

(** ** hash_algorithm.rs *)
Record HashDigest := { multihash : Multihash }.

#[export] Instance HashDigest_eq_dec : EqDecision HashDigest.
Proof. solve_decision. Defined.

Definition HashDigest_new (msg : bytes) : HashDigest := {| multihash := keccak256 msg |}.

(** [try_into().expect(..)]: panics on a digest that has not 32 bytes. *)
Definition HashDigest_to_slice {E} (h : HashDigest) : outcome E bytes :=
  let d := multihash_digest (multihash h) in
  if decide (length d = 32) then Ok d else Panic.

(** [aleph_bft::Hasher::hash]. *)
Definition Hasher_hash {E} (x : bytes) : outcome E bytes :=
  HashDigest_to_slice (HashDigest_new x).

(** ** signature.rs *)
Record Signature := { signature : DalekSignature }.

#[export] Instance Signature_eq_dec : EqDecision Signature.
Proof. solve_decision. Defined.

Definition Signature_from_bytes (msg : bytes) : option Signature :=
  match dalek_from_bytes msg with
  | Some sig => Some {| signature := sig |}
  | None => None
  end.

Definition Signature_to_bytes (s : Signature) : bytes := dalek_to_bytes (signature s).

Definition Signature_new {E} (msg : bytes) (kp : Keypair) : outcome E Signature :=
  let signed := keypair_sign kp msg in
  unwrap (Signature_from_bytes signed).

(** ** Lemmas *)
Context `{!CryptoOk}.

Lemma Hasher_hash_total {E} (x : bytes) :
  exists d, @Hasher_hash E x = Ok d /\ length d = 32.
Proof.
  unfold Hasher_hash, HashDigest_to_slice, HashDigest_new; simpl.
  rewrite decide_True by apply keccak256_size.
  eexists; split; [done|apply keccak256_size].
Qed.

(** Making a signature never panics, and the public key accepts its bytes. *)
Lemma Signature_new_spec {E} (msg : bytes) (kp : Keypair) :
  exists s, @Signature_new E msg kp = Ok s
            /\ Signature_to_bytes s = keypair_sign kp msg
            /\ public_key_verify (public kp) msg (Signature_to_bytes s) = true.
Proof.
  unfold Signature_new, Signature_from_bytes, Signature_to_bytes.
  destruct (sign_is_signature kp msg) as (s & -> & Hs); simpl.
  eexists; repeat split; simpl; [done|]. rewrite Hs. apply sign_verifies.
Qed.
End Crypto.

#[export] Hint Resolve Signature_new_spec Hasher_hash_total : rust.
