(* ===== verification/Structures.v ===== *)
(** * Structures: addresses, headers, transactions and blocks

    Models src/blockchain/src/structures/{header,transaction,block}.rs and the
    error type of src/blockchain/src/error.rs.  What a constructor takes from the
    clock and from the random generator is its [draw] argument. *)

From S2P Require Import Prelude Crypto.

(** [std::io::ErrorKind], the kinds the code can see. *)
Inductive io_error :=
| NotFound | AlreadyExists | PermissionDenied | UnexpectedEof | InvalidData | IoOther.

#[export] Instance io_error_eq_dec : EqDecision io_error.
Proof. solve_decision. Defined.

(** error.rs; an [anyhow::Error] is its message. *)
Inductive BlockchainError :=
| AnyhowError (msg : string)
| ChannelClosed
| SerializationError
| IOError (e : io_error)
| EmptyBlockchain
| InvalidBlockchainArgument
| InvalidBlockchainCmd
| InvalidBlockchainLength (len : nat)
| InvalidBlockchainPosition (start end_ : nat)
| InvalidBlockchainOrdinal (ordinal : Z)
| InvalidKey (key : string)
| LaggingBlockchainData
| InvalidStoragePath (path : string)
| InvalidTopic.

#[export] Instance BlockchainError_eq_dec : EqDecision BlockchainError.
Proof. solve_decision. Defined.

(** One reading of the clock (seconds since the Unix epoch, a [u64]) and of the
    random generator (a [u128]). *)
Record draw := { draw_secs : Z; draw_nonce : Z }.
Definition draw_ok (d : draw) : Prop := u64 (draw_secs d) /\ u128 (draw_nonce d).

Section Structures.
Context `{Crypto}.

(** ** header.rs *)
Record Address := { address_peer_id : Multihash }.

Definition Address_from_public_key (key : PublicKey) : Address :=
  {| address_peer_id := peer_id_to_multihash (peer_id_from_public_key key) |}.

Definition Address_from_peer_id (p : PeerId) : Address :=
  {| address_peer_id := peer_id_to_multihash p |}.

(** [type Ordinal = u128]. *)
Definition Ordinal : Type := Z.

Record PartialHeader := {
  ph_parent_hash : HashDigest;
  ph_transactions_hash : HashDigest;
  ph_committer : Address;
  ph_timestamp : Z;
  ph_ordinal : Ordinal;
  ph_nonce : Z;
}.

Record Header := {
  header_parent_hash : HashDigest;
  header_transactions_hash : HashDigest;
  header_committer : Address;
  header_timestamp : Z;
  header_ordinal : Ordinal;
  header_nonce : Z;
  header_hash : HashDigest;
}.

Definition PartialHeader_from (h : Header) : PartialHeader := {|
  ph_parent_hash := header_parent_hash h;
  ph_transactions_hash := header_transactions_hash h;
  ph_committer := header_committer h;
  ph_timestamp := header_timestamp h;
  ph_ordinal := header_ordinal h;
  ph_nonce := header_nonce h;
|}.

(** ** transaction.rs *)
Inductive TransactionType := Create.

Record PartialTransaction := {
  pt_type_id : TransactionType;
  pt_submitter : Address;
  pt_timestamp : Z;
  pt_payload : bytes;
  pt_nonce : Z;
}.

Record Transaction := {
  tx_type_id : TransactionType;
  tx_submitter : Address;
  tx_timestamp : Z;
  tx_payload : bytes;
  tx_nonce : Z;
  tx_hash : HashDigest;
  tx_signature : Signature;
}.

Definition PartialTransaction_from (t : Transaction) : PartialTransaction := {|
  pt_type_id := tx_type_id t;
  pt_submitter := tx_submitter t;
  pt_timestamp := tx_timestamp t;
  pt_payload := tx_payload t;
  pt_nonce := tx_nonce t;
|}.

(** ** block.rs *)
Record BlockSignature := {
  bs_signature : Signature;
  bs_public_key : bytes;
}.

Record Block := {
  block_header : Header;
  block_transactions : list Transaction;
  block_block_signature : BlockSignature;
}.

#[export] Instance Address_eq_dec : EqDecision Address.
Proof. solve_decision. Defined.
#[export] Instance Header_eq_dec : EqDecision Header.
Proof. solve_decision. Defined.
#[export] Instance TransactionType_eq_dec : EqDecision TransactionType.
Proof. solve_decision. Defined.
#[export] Instance Transaction_eq_dec : EqDecision Transaction.
Proof. solve_decision. Defined.
#[export] Instance BlockSignature_eq_dec : EqDecision BlockSignature.
Proof. solve_decision. Defined.
#[export] Instance Block_eq_dec : EqDecision Block.
Proof. solve_decision. Defined.

(** ** The bincode encodings these files use *)
Class BlockBincode := {
  bincode_ordinal :: Bincode Ordinal;
  bincode_hash :: Bincode HashDigest;
  bincode_partial_header :: Bincode PartialHeader;
  bincode_partial_transaction :: Bincode PartialTransaction;
  bincode_transactions :: Bincode (list Transaction);
  bincode_block :: Bincode Block;
  bincode_blocks :: Bincode (list Block);
}.

(** The integers of a value are in the range of their Rust type. *)
Definition partial_header_ok (h : PartialHeader) : Prop :=
  u64 (ph_timestamp h) /\ u128 (ph_ordinal h) /\ u128 (ph_nonce h).
Definition partial_transaction_ok (t : PartialTransaction) : Prop :=
  u64 (pt_timestamp t) /\ u128 (pt_nonce t).
Definition header_ok (h : Header) : Prop := partial_header_ok (PartialHeader_from h).
Definition transaction_ok (t : Transaction) : Prop :=
  partial_transaction_ok (PartialTransaction_from t).
Definition block_ok (b : Block) : Prop :=
  header_ok (block_header b) /\ Forall transaction_ok (block_transactions b).

(** A [u128] is encoded on 16 bytes; every value in range round trips. *)
Class BlockBincodeOk `{BlockBincode} : Prop := {
  ordinal_bincode_ok :: BincodeOk Ordinal u128;
  hash_bincode_ok :: BincodeOk HashDigest (fun _ => True);
  partial_header_bincode_ok :: BincodeOk PartialHeader partial_header_ok;
  partial_transaction_bincode_ok :: BincodeOk PartialTransaction partial_transaction_ok;
  transactions_bincode_ok :: BincodeOk (list Transaction) (Forall transaction_ok);
  block_bincode_ok :: BincodeOk Block block_ok;
  blocks_bincode_ok :: BincodeOk (list Block) (Forall block_ok);
  ordinal_bincode_size (n : Ordinal) bs :
    u128 n -> serialize n = Some bs -> length bs = 16;
}.

Context `{!BlockBincode}.

(** *** header.rs, functions *)
Definition header_calculate_hash {E} (p : PartialHeader) (bincode_error : E) : outcome E HashDigest :=
  let? bs := ok_or (serialize p) bincode_error in
  Ok (HashDigest_new bs).

Definition Header_new {E} (parent_hash transactions_hash : HashDigest) (committer : Address)
    (ordinal : Ordinal) (d : draw) : outcome E Header :=
  let partial := {|
    ph_parent_hash := parent_hash;
    ph_transactions_hash := transactions_hash;
    ph_committer := committer;
    ph_timestamp := draw_secs d;
    ph_ordinal := ordinal;
    ph_nonce := draw_nonce d;
  |} in
  (* calculate_hash(&partial).unwrap() *)
  match header_calculate_hash partial SerializationError with
  | Ok h => Ok {|
      header_parent_hash := ph_parent_hash partial;
      header_transactions_hash := ph_transactions_hash partial;
      header_committer := ph_committer partial;
      header_timestamp := ph_timestamp partial;
      header_ordinal := ph_ordinal partial;
      header_nonce := ph_nonce partial;
      header_hash := h;
    |}
  | _ => Panic
  end.

(** *** transaction.rs, functions *)
Definition transaction_calculate_hash {E} (p : PartialTransaction) (bincode_error : E) :
    outcome E HashDigest :=
  let? bs := ok_or (serialize p) bincode_error in
  Ok (HashDigest_new bs).

Definition convert_to_transaction {E} (p : PartialTransaction) (kp : Keypair) (bincode_error : E) :
    outcome E Transaction :=
  let? hash := transaction_calculate_hash p bincode_error in
  let? hash_bytes := ok_or (serialize hash) bincode_error in
  let? sig := Signature_new hash_bytes kp in
  Ok {|
    tx_type_id := pt_type_id p;
    tx_submitter := pt_submitter p;
    tx_timestamp := pt_timestamp p;
    tx_payload := pt_payload p;
    tx_nonce := pt_nonce p;
    tx_hash := hash;
    tx_signature := sig;
  |}.

Definition Transaction_new {E} (type_id : TransactionType) (submitter : Address)
    (payload : bytes) (kp : Keypair) (d : draw) : outcome E Transaction :=
  let partial := {|
    pt_type_id := type_id;
    pt_submitter := submitter;
    pt_timestamp := draw_secs d;
    pt_payload := payload;
    pt_nonce := draw_nonce d;
  |} in
  match convert_to_transaction partial kp SerializationError with
  | Ok t => Ok t
  | _ => Panic
  end.

(** *** block.rs, functions *)
Definition Block_new {E} (parent_hash : HashDigest) (ordinal : Ordinal)
    (transactions : list Transaction) (signing_key : Keypair) (d : draw) : outcome E Block :=
  let? tx_bytes := unwrap (serialize transactions) in
  let transaction_root := HashDigest_new tx_bytes in
  let? header := Header_new parent_hash transaction_root
                   (Address_from_public_key (public signing_key)) ordinal d in
  let? hash_bytes := unwrap (serialize (header_hash header)) in
  let? sig := Signature_new hash_bytes signing_key in
  Ok {|
    block_header := header;
    block_transactions := transactions;
    block_block_signature := {|
      bs_signature := sig;
      bs_public_key := encode_public_key (public signing_key);
    |};
  |}.

Definition Block_verify {E} (b : Block) : outcome E bool :=
  match decode_public_key (bs_public_key (block_block_signature b)) with
  | Some pub_key =>
      let? hash_bytes := unwrap (serialize (header_hash (block_header b))) in
      Ok (public_key_verify pub_key hash_bytes
            (Signature_to_bytes (bs_signature (block_block_signature b))))
  | None => Ok false
  end.

Definition fetch_payload (b : Block) : list bytes :=
  map tx_payload (block_transactions b).

Definition Block_partial_cmp (b other : Block) : option comparison :=
  Some (Z.compare (header_ordinal (block_header b)) (header_ordinal (block_header other))).

(** ** Integrity

    What the constructors establish: every stored hash is the hash of the fields
    it stands for. *)
Definition header_hashed (h : Header) : Prop :=
  header_calculate_hash (PartialHeader_from h) SerializationError = Ok (header_hash h).

Definition block_sealed (b : Block) : Prop :=
  header_hashed (block_header b)
  /\ (exists bs, serialize (block_transactions b) = Some bs
                 /\ header_transactions_hash (block_header b) = HashDigest_new bs)
  /\ Block_verify b = @Ok BlockchainError bool true.

(** A decidable form of [block_sealed]. *)
Definition block_sealed_b (b : Block) : bool :=
  match @header_calculate_hash BlockchainError (PartialHeader_from (block_header b))
          SerializationError,
        serialize (block_transactions b), @Block_verify BlockchainError b with
  | Ok h, Some bs, Ok true =>
      bool_decide (h = header_hash (block_header b))
      && bool_decide (header_transactions_hash (block_header b) = HashDigest_new bs)
  | _, _, _ => false
  end.

(** ** Lemmas *)
Lemma block_sealed_b_spec b : block_sealed_b b = true <-> block_sealed b.
Proof.
  unfold block_sealed_b, block_sealed, header_hashed.
  destruct (header_calculate_hash _ _) as [h| |]; [|naive_solver..].
  destruct (serialize (block_transactions b)) as [bs|]; [|naive_solver].
  destruct (Block_verify b) as [[]| |]; [|naive_solver..].
  rewrite andb_true_iff, !bool_decide_eq_true. naive_solver.
Qed.

Context `{!CryptoOk, !BlockBincodeOk}.

Lemma serialize_hash_total (h : HashDigest) : exists bs, serialize h = Some bs.
Proof. destruct (bincode_roundtrip h) as (bs & ? & _); [done|eauto]. Qed.

Lemma Header_new_spec {E} ph th a n d :
  u128 n -> draw_ok d ->
  exists h, @Header_new E ph th a n d = Ok h
            /\ header_parent_hash h = ph /\ header_transactions_hash h = th
            /\ header_committer h = a /\ header_ordinal h = n
            /\ header_ok h /\ header_hashed h.
Proof.
  intros Hn [Hs Hr]. unfold Header_new, header_calculate_hash; simpl.
  set (p := {| ph_parent_hash := ph |}).
  destruct (bincode_roundtrip p) as (bs & Hbs & _); [done|].
  rewrite Hbs; simpl. eexists; split; [done|]; simpl.
  repeat (split; [done|]). unfold header_hashed, header_calculate_hash; simpl.
  unfold PartialHeader_from; simpl. fold p. by rewrite Hbs.
Qed.

Lemma Transaction_new_spec {E} ty a payload kp d :
  draw_ok d ->
  exists t, @Transaction_new E ty a payload kp d = Ok t
            /\ tx_type_id t = ty /\ tx_submitter t = a /\ tx_payload t = payload
            /\ transaction_ok t
            /\ transaction_calculate_hash (PartialTransaction_from t) SerializationError
               = Ok (tx_hash t)
            /\ exists bs, serialize (tx_hash t) = Some bs
               /\ public_key_verify (public kp) bs (Signature_to_bytes (tx_signature t)) = true.
Proof.
  intros [Hs Hr]. unfold Transaction_new, convert_to_transaction, transaction_calculate_hash.
  set (p := {| pt_type_id := ty |}).
  destruct (bincode_roundtrip p) as (bs & Hbs & _); [done|].
  rewrite Hbs; simpl.
  destruct (serialize_hash_total (HashDigest_new bs)) as [hb Hhb]. rewrite Hhb; simpl.
  destruct (@Signature_new_spec _ _ BlockchainError hb kp) as (s & Hs' & _ & Hv).
  rewrite Hs'; simpl. eexists; split; [done|]; simpl.
  unfold transaction_ok, PartialTransaction_from; simpl. fold p.
  repeat (split; [done|]). rewrite Hbs; simpl. split; [done|]. eauto.
Qed.

(** Making a block of in-range transactions never panics: the block carries the
    parent hash, the ordinal and the transactions it was given, is in range, and
    is sealed. *)
Lemma Block_new_spec {E} ph n txs kp d :
  u128 n -> draw_ok d -> Forall transaction_ok txs ->
  exists b, @Block_new E ph n txs kp d = Ok b
            /\ header_parent_hash (block_header b) = ph
            /\ header_ordinal (block_header b) = n
            /\ block_transactions b = txs
            /\ header_committer (block_header b) = Address_from_public_key (public kp)
            /\ block_ok b /\ block_sealed b.
Proof.
  intros Hn Hd Htx. unfold Block_new.
  destruct (bincode_roundtrip txs) as (tb & Htb & _); [done|]. rewrite Htb; simpl.
  destruct (@Header_new_spec E ph (HashDigest_new tb)
              (Address_from_public_key (public kp)) n d)
    as (h & Hh & Hph & Hth & Ha & Ho & Hok & Hhash); [done..|]. rewrite Hh; simpl.
  destruct (serialize_hash_total (header_hash h)) as [hb Hhb]. rewrite Hhb; simpl.
  destruct (@Signature_new_spec _ _ E hb kp) as (s & Hs & Hsb & Hv). rewrite Hs; simpl.
  eexists; split; [done|]; simpl. do 4 (split; [done|]). split; [by split|].
  unfold block_sealed, Block_verify; simpl. split; [done|]. split; [eauto|].
  rewrite decode_encode_public_key, Hhb; simpl. by rewrite Hv.
Qed.
End Structures.

#[export] Hint Resolve Block_new_spec Transaction_new_spec : rust.
