(* ===== verification/Sample.v ===== *)
(** * Sample: concrete crates, to evaluate the model

    Small executable functions that satisfy the laws of [Crypto], [Bincode] and
    their users.  They stand in for the crates where a theorem is applied to
    concrete data; nothing about the program depends on them. *)

From S2P Require Import Prelude Crypto Structures.

(** ** Prefix codecs *)
Definition enc_t (A : Type) : Type := A -> bytes.
Definition dec_t (A : Type) : Type := bytes -> option (A * bytes).

(** Decoding gives back what was encoded and leaves what follows. *)
Definition codec_ok {A} (ok : A -> Prop) (enc : enc_t A) (dec : dec_t A) : Prop :=
  forall a rest, ok a -> dec (enc a ++ rest) = Some (a, rest).

Definition codec_bincode {A} (enc : enc_t A) (dec : dec_t A) : Bincode A :=
  {| serialize a := Some (enc a);
     deserialize bs := match dec bs with Some (a, _) => Some a | None => None end |}.

Lemma codec_bincode_ok {A} (ok : A -> Prop) enc dec :
  codec_ok ok enc dec -> @BincodeOk A (codec_bincode enc dec) ok.
Proof. intros Hc a Ha. exists (enc a). split; [done|]. intros rest. simpl. by rewrite Hc. Qed.

(** Little-endian integers of [n] bytes. *)
Definition byte_of_Z (z : Z) : byte := default x00 (Byte.of_N (Z.to_N (z mod 256))).
Definition Z_of_byte (b : byte) : Z := Z.of_N (Byte.to_N b).

Fixpoint enc_le (n : nat) (z : Z) : bytes :=
  match n with O => [] | S n' => byte_of_Z z :: enc_le n' (z / 256) end.

Fixpoint dec_le (n : nat) (bs : bytes) : option (Z * bytes) :=
  match n, bs with
  | O, _ => Some (0%Z, bs)
  | S n', b :: bs' =>
      match dec_le n' bs' with
      | Some (z, rest) => Some (Z_of_byte b + 256 * z, rest)%Z
      | None => None
      end
  | S _, [] => None
  end.

(** Sequences with a marker before each element and at the end. *)
Fixpoint enc_list {A} (enc : enc_t A) (xs : list A) : bytes :=
  match xs with [] => [x00] | x :: xs' => x01 :: enc x ++ enc_list enc xs' end.

Fixpoint dec_list {A} (fuel : nat) (dec : dec_t A) (bs : bytes) : option (list A * bytes) :=
  match fuel, bs with
  | S fuel', x01 :: bs' =>
      match dec bs' with
      | Some (x, bs2) =>
          match dec_list fuel' dec bs2 with
          | Some (xs, rest) => Some (x :: xs, rest)
          | None => None
          end
      | None => None
      end
  | _, x00 :: bs' => Some ([], bs')
  | _, _ => None
  end.
Definition dec_seq {A} (dec : dec_t A) : dec_t (list A) := fun bs => dec_list (length bs) dec bs.

Definition enc_byte : enc_t byte := fun b => [b].
Definition dec_byte : dec_t byte := fun bs =>
  match bs with b :: bs' => Some (b, bs') | [] => None end.
Definition enc_bytes : enc_t bytes := enc_list enc_byte.
Definition dec_bytes : dec_t bytes := dec_seq dec_byte.

Lemma byte_of_Z_to_Z z : Z_of_byte (byte_of_Z z) = (z mod 256)%Z.
Proof.
  unfold Z_of_byte, byte_of_Z.
  assert (0 <= z mod 256 < 256)%Z as Hz by (apply Z.mod_pos_bound; lia).
  destruct (Byte.of_N (Z.to_N (z mod 256))) as [b|] eqn:E; simpl.
  - apply Byte.to_of_N in E. rewrite E. lia.
  - apply Byte.of_N_None_iff in E. lia.
Qed.

Lemma enc_le_length n z : length (enc_le n z) = n.
Proof. revert z; induction n as [|n IH]; intros z; simpl; [done|]. by rewrite IH. Qed.

Lemma enc_le_ok n : codec_ok (fits (8 * Z.of_nat n)) (enc_le n) (dec_le n).
Proof.
  induction n as [|n IH]; intros z rest Hz.
  - assert (z = 0)%Z as -> by (unfold fits in Hz; simpl in Hz; lia). done.
  - simpl. rewrite IH.
    + rewrite byte_of_Z_to_Z. pose proof (Z.div_mod z 256 ltac:(lia)).
      replace (z mod 256 + 256 * (z / 256))%Z with z by lia. done.
    + unfold fits in *. replace (8 * Z.of_nat (S n))%Z with (8 + 8 * Z.of_nat n)%Z in Hz by lia.
      rewrite Z.pow_add_r in Hz by lia. change (2 ^ 8)%Z with 256%Z in Hz.
      split; [apply Z.div_pos; lia|apply Z.div_lt_upper_bound; lia].
Qed.

Lemma enc_list_ok {A} (ok : A -> Prop) enc dec :
  codec_ok ok enc dec -> codec_ok (Forall ok) (enc_list enc) (dec_seq dec).
Proof.
  intros Hc xs rest Hok. unfold dec_seq.
  assert (forall fuel, length xs < fuel -> dec_list fuel dec (enc_list enc xs ++ rest)
                                           = Some (xs, rest)) as Hgo.
  { induction Hok as [|x xs Hx Hxs IH]; intros [|fuel] Hf; simpl in *; [lia|done|lia|].
    rewrite <- app_assoc, Hc by done. rewrite IH by lia. done. }
  apply Hgo. rewrite length_app.
  assert (length xs < length (enc_list enc xs)); [|lia].
  clear Hok Hgo. induction xs as [|x xs IH]; simpl; [lia|]. rewrite length_app. lia.
Qed.

Lemma enc_bytes_ok : codec_ok (fun _ => True) enc_bytes dec_bytes.
Proof.
  intros bs rest _. apply (enc_list_ok (fun _ => True)); [|by apply Forall_true].
  by intros b r _.
Qed.

(** ** Keys, hashes, peer ids *)
Definition pad (n : nat) (bs : bytes) : bytes := take n (bs ++ replicate n x00).

Lemma pad_length n bs : length (pad n bs) = n.
Proof. unfold pad. rewrite length_take, length_app, length_replicate. lia. Qed.

Definition strip_prefix (s : string) : option string :=
  match s with
  | String.String "1" (String.String "2" s') => Some s'
  | _ => None
  end%char.

#[export] Instance sample_crypto : Crypto := {|
  Multihash := bytes;
  keccak256 := pad 32;
  multihash_digest := fun m => m;
  Keypair := byte;
  PublicKey := byte;
  public := fun kp => kp;
  encode_public_key := fun pk => replicate 32 pk;
  decode_public_key := fun bs => if decide (length bs = 32) then head bs else None;
  keypair_sign := fun kp msg => pad 64 (kp :: msg);
  public_key_verify := fun pk msg sig => bool_decide (sig = pad 64 (pk :: msg));
  DalekSignature := bytes;
  dalek_from_bytes := fun bs => if decide (length bs = 64) then Some bs else None;
  dalek_to_bytes := fun s => s;
  PeerId := string;
  peer_id_from_public_key := fun pk => String.string_of_list_byte [pk];
  peer_id_to_multihash := fun p => as_bytes p;
  peer_id_to_string := fun p => "12" +:+ p;
  peer_id_from_str := strip_prefix;
|}.

#[local] Opaque pad.

#[export] Instance sample_crypto_ok : CryptoOk.
Proof.
  split; simpl.
  - intros m. apply pad_length.
  - done.
  - intros kp msg. exists (pad 64 (kp :: msg)). by rewrite decide_True by apply pad_length.
  - intros kp msg. by apply bool_decide_eq_true.
  - done.
Qed.
#[local] Transparent pad.

(** ** Blocks *)
Definition and_then {A B} (o : option (A * bytes)) (k : A -> bytes -> option B) : option B :=
  match o with Some (a, r) => k a r | None => None end.

Definition enc_hash : enc_t HashDigest := fun h => enc_bytes (multihash h).
Definition dec_hash : dec_t HashDigest := fun bs =>
  and_then (dec_bytes bs) (fun m m_r =>
  Some ({| multihash := m |}, m_r)).
Definition enc_addr : enc_t Address := fun a => enc_bytes (address_peer_id a).
Definition dec_addr : dec_t Address := fun bs =>
  and_then (dec_bytes bs) (fun m m_r =>
  Some ({| address_peer_id := m |}, m_r)).
Definition enc_sig : enc_t Signature := fun s => enc_bytes (signature s).
Definition dec_sig : dec_t Signature := fun bs =>
  and_then (dec_bytes bs) (fun m m_r =>
  Some ({| signature := m |}, m_r)).

Definition enc_partial_header : enc_t PartialHeader := fun p =>
  enc_hash (ph_parent_hash p) ++ enc_hash (ph_transactions_hash p) ++ enc_addr (ph_committer p)
  ++ enc_le 8 (ph_timestamp p) ++ enc_le 16 (ph_ordinal p) ++ enc_le 16 (ph_nonce p).
Definition dec_partial_header : dec_t PartialHeader := fun bs =>
  and_then (dec_hash bs) (fun h1 h1_r =>
  and_then (dec_hash h1_r) (fun h2 h2_r =>
  and_then (dec_addr h2_r) (fun a a_r =>
  and_then (dec_le 8 a_r) (fun t t_r =>
  and_then (dec_le 16 t_r) (fun o o_r =>
  and_then (dec_le 16 o_r) (fun n n_r =>
  Some ({| ph_parent_hash := h1; ph_transactions_hash := h2; ph_committer := a;
           ph_timestamp := t; ph_ordinal := o; ph_nonce := n |}, n_r))))))).

Definition enc_partial_transaction : enc_t PartialTransaction := fun p =>
  enc_addr (pt_submitter p) ++ enc_le 8 (pt_timestamp p) ++ enc_bytes (pt_payload p)
  ++ enc_le 16 (pt_nonce p).
Definition dec_partial_transaction : dec_t PartialTransaction := fun bs =>
  and_then (dec_addr bs) (fun a a_r =>
  and_then (dec_le 8 a_r) (fun t t_r =>
  and_then (dec_bytes t_r) (fun p p_r =>
  and_then (dec_le 16 p_r) (fun n n_r =>
  Some ({| pt_type_id := Create; pt_submitter := a; pt_timestamp := t; pt_payload := p;
           pt_nonce := n |}, n_r))))).

Definition enc_header : enc_t Header := fun h =>
  enc_partial_header (PartialHeader_from h) ++ enc_hash (header_hash h).
Definition dec_header : dec_t Header := fun bs =>
  and_then (dec_partial_header bs) (fun p p_r =>
  and_then (dec_hash p_r) (fun h h_r =>
  Some ({| header_parent_hash := ph_parent_hash p;
           header_transactions_hash := ph_transactions_hash p;
           header_committer := ph_committer p; header_timestamp := ph_timestamp p;
           header_ordinal := ph_ordinal p; header_nonce := ph_nonce p;
           header_hash := h |}, h_r))).

Definition enc_transaction : enc_t Transaction := fun t =>
  enc_partial_transaction (PartialTransaction_from t) ++ enc_hash (tx_hash t)
  ++ enc_sig (tx_signature t).
Definition dec_transaction : dec_t Transaction := fun bs =>
  and_then (dec_partial_transaction bs) (fun p p_r =>
  and_then (dec_hash p_r) (fun h h_r =>
  and_then (dec_sig h_r) (fun sg s_r =>
  Some ({| tx_type_id := pt_type_id p; tx_submitter := pt_submitter p;
           tx_timestamp := pt_timestamp p; tx_payload := pt_payload p;
           tx_nonce := pt_nonce p; tx_hash := h; tx_signature := sg |}, s_r)))).

Definition enc_block : enc_t Block := fun b =>
  enc_header (block_header b) ++ enc_list enc_transaction (block_transactions b)
  ++ enc_sig (bs_signature (block_block_signature b))
  ++ enc_bytes (bs_public_key (block_block_signature b)).
Definition dec_block : dec_t Block := fun bs =>
  and_then (dec_header bs) (fun h h_r =>
  and_then (dec_seq dec_transaction h_r) (fun t t_r =>
  and_then (dec_sig t_r) (fun sg s_r =>
  and_then (dec_bytes s_r) (fun k k_r =>
  Some ({| block_header := h; block_transactions := t;
           block_block_signature := {| bs_signature := sg; bs_public_key := k |} |}, k_r))))).

#[local] Opaque enc_le dec_le.

(** Runs the next decoder of a sequence. *)
#[local] Ltac dec_step L := rewrite <- ?app_assoc; rewrite L by done; simpl.

Lemma enc_hash_ok : codec_ok (fun _ => True) enc_hash dec_hash.
Proof. intros [m] rest _. unfold enc_hash, dec_hash; simpl. by dec_step enc_bytes_ok. Qed.
Lemma enc_addr_ok : codec_ok (fun _ => True) enc_addr dec_addr.
Proof. intros [m] rest _. unfold enc_addr, dec_addr; simpl. by dec_step enc_bytes_ok. Qed.
Lemma enc_sig_ok : codec_ok (fun _ => True) enc_sig dec_sig.
Proof. intros [m] rest _. unfold enc_sig, dec_sig; simpl. by dec_step enc_bytes_ok. Qed.

Lemma enc_partial_header_ok : codec_ok partial_header_ok enc_partial_header dec_partial_header.
Proof.
  intros [h1 h2 a t o n] rest (Ht & Ho & Hn); simpl in *.
  unfold enc_partial_header, dec_partial_header; simpl.
  dec_step enc_hash_ok. dec_step enc_hash_ok. dec_step enc_addr_ok.
  dec_step (enc_le_ok 8). dec_step (enc_le_ok 16). by dec_step (enc_le_ok 16).
Qed.

Lemma enc_partial_transaction_ok :
  codec_ok partial_transaction_ok enc_partial_transaction dec_partial_transaction.
Proof.
  intros [[] a t p n] rest (Ht & Hn); simpl in *.
  unfold enc_partial_transaction, dec_partial_transaction; simpl.
  dec_step enc_addr_ok. dec_step (enc_le_ok 8). dec_step enc_bytes_ok.
  by dec_step (enc_le_ok 16).
Qed.

Lemma enc_header_ok : codec_ok header_ok enc_header dec_header.
Proof.
  intros [h1 h2 a t o n h] rest Hok. unfold enc_header, dec_header.
  dec_step enc_partial_header_ok. by dec_step enc_hash_ok.
Qed.

Lemma enc_transaction_ok : codec_ok transaction_ok enc_transaction dec_transaction.
Proof.
  intros [ty a t p n h s] rest Hok. unfold enc_transaction, dec_transaction.
  dec_step enc_partial_transaction_ok. dec_step enc_hash_ok. by dec_step enc_sig_ok.
Qed.

Lemma enc_block_ok : codec_ok block_ok enc_block dec_block.
Proof.
  intros [h txs [s k]] rest [Hh Ht]. unfold enc_block, dec_block; simpl in *.
  dec_step enc_header_ok. dec_step (enc_list_ok _ _ _ enc_transaction_ok).
  dec_step enc_sig_ok. by dec_step enc_bytes_ok.
Qed.

#[local] Transparent enc_le dec_le.

#[export] Instance sample_bincode : BlockBincode := {|
  bincode_ordinal := codec_bincode (enc_le 16) (dec_le 16);
  bincode_hash := codec_bincode enc_hash dec_hash;
  bincode_partial_header := codec_bincode enc_partial_header dec_partial_header;
  bincode_partial_transaction := codec_bincode enc_partial_transaction dec_partial_transaction;
  bincode_transactions := codec_bincode (enc_list enc_transaction) (dec_seq dec_transaction);
  bincode_block := codec_bincode enc_block dec_block;
  bincode_blocks := codec_bincode (enc_list enc_block) (dec_seq dec_block);
|}.

#[export] Instance sample_bincode_ok : BlockBincodeOk.
Proof.
  split; try apply codec_bincode_ok.
  - apply (enc_le_ok 16).
  - apply enc_hash_ok.
  - apply enc_partial_header_ok.
  - apply enc_partial_transaction_ok.
  - apply enc_list_ok, enc_transaction_ok.
  - apply enc_block_ok.
  - apply enc_list_ok, enc_block_ok.
  - intros n bs _ [= <-]. apply (enc_le_length 16).
Qed.
