(* ===== verification/FileSystem.v ===== *)
(** * FileSystem: the part of std::fs, tokio::fs and std::path the code uses

    A file system maps path names to nodes.  Whatever makes an operation fail for
    a reason outside the program (permissions, a missing parent directory, a full
    disk) is the fault oracle [fs_fault]. *)

From S2P Require Import Prelude Structures.

Inductive node :=
| NFile (content : bytes)
| NDir.

Inductive io_op :=
| OpMetadata | OpRead | OpOpen | OpWrite | OpSync | OpCreateDir | OpReadDir | OpRemoveDir.

Record Fs := {
  fs_nodes : gmap string node;
  fs_fault : io_op -> string -> option io_error;
}.

Definition fs_set (n : gmap string node) (s : Fs) : Fs :=
  {| fs_nodes := n; fs_fault := fs_fault s |}.

(** Fails when the oracle says so. *)
Definition fs_check (op : io_op) (p : string) : stm Fs io_error unit := fun s =>
  match fs_fault s op p with Some e => (Err e, s) | None => (Ok tt, s) end.

(** [fs::metadata]: says whether the path is a file. *)
Definition fs_metadata (p : string) : stm Fs io_error node :=
  let! _ := fs_check OpMetadata p in
  let! s := sget in
  slift (ok_or (fs_nodes s !! p) NotFound).

(** [fs::read] and [File::open] followed by [read_to_end]. *)
Definition fs_read (p : string) : stm Fs io_error bytes :=
  let! _ := fs_check OpRead p in
  let! s := sget in
  match fs_nodes s !! p with
  | Some (NFile content) => sret content
  | Some NDir => serr IoOther
  | None => serr NotFound
  end.

(** [OpenOptions::new().create(true).write(true).append(false).open(p)]: an
    existing file is not truncated. *)
Definition fs_open_create (p : string) : stm Fs io_error unit :=
  let! _ := fs_check OpOpen p in
  let! s := sget in
  match fs_nodes s !! p with
  | Some (NFile _) => sret tt
  | Some NDir => serr IoOther
  | None => sput (fs_set (<[p := NFile []]> (fs_nodes s)) s)
  end.

(** [OpenOptions::new().write(true).create_new(true).open(p)]. *)
Definition fs_create_new (p : string) : stm Fs io_error unit :=
  let! _ := fs_check OpOpen p in
  let! s := sget in
  match fs_nodes s !! p with
  | Some _ => serr AlreadyExists
  | None => sput (fs_set (<[p := NFile []]> (fs_nodes s)) s)
  end.

(** [write_all] on a file that was just opened: overwrites from the start and
    keeps what an older, longer content has behind it. *)
Definition fs_write_all (p : string) (data : bytes) : stm Fs io_error unit :=
  let! _ := fs_check OpWrite p in
  let! s := sget in
  match fs_nodes s !! p with
  | Some (NFile old) =>
      sput (fs_set (<[p := NFile (data ++ drop (length data) old)]> (fs_nodes s)) s)
  | _ => serr NotFound
  end.

(** [sync_all] and [flush]. *)
Definition fs_sync_all (p : string) : stm Fs io_error unit := fs_check OpSync p.

(** [fs::create_dir_all], for a path that is not a file. *)
Definition fs_create_dir_all (p : string) : stm Fs io_error unit :=
  let! _ := fs_check OpCreateDir p in
  let! s := sget in
  match fs_nodes s !! p with
  | Some (NFile _) => serr AlreadyExists
  | Some NDir => sret tt
  | None => sput (fs_set (<[p := NDir]> (fs_nodes s)) s)
  end.

(** [File::create] followed by [io::copy]: an existing file is truncated, and stays so when nothing can be written. *)
Definition fs_create_write (p : string) (data : bytes) : stm Fs io_error unit :=
  let! _ := fs_check OpOpen p in
  let! s := sget in
  match fs_nodes s !! p with
  | Some NDir => serr IoOther
  | _ =>
      let! _ := sput (fs_set (<[p := NFile []]> (fs_nodes s)) s) in
      let! _ := fs_check OpWrite p in
      sput (fs_set (<[p := NFile data]> (fs_nodes s)) s)
  end.

(** Whether a path is a directory or below it. *)
Definition below_dir (dir p : string) : bool :=
  bool_decide (p = dir) || String.prefix (dir +:+ "/") p.

(** [fs::remove_dir_all]. *)
Definition fs_remove_dir_all (dir : string) : stm Fs io_error unit :=
  let! _ := fs_check OpRemoveDir dir in
  let! s := sget in
  match fs_nodes s !! dir with
  | Some NDir => sput (fs_set (filter (fun '(p, _) => below_dir dir p = false) (fs_nodes s)) s)
  | _ => serr NotFound
  end.

(** [Path::join] on Unix: an absolute right side replaces the left one, and a
    separator is added unless the left side is empty or ends with one. *)
Definition ends_with_char (c : Ascii.ascii) (s : string) : bool :=
  match last (String.list_ascii_of_string s) with
  | Some a => bool_decide (a = c)
  | None => false
  end.
Definition starts_with_char (c : Ascii.ascii) (s : string) : bool :=
  match s with String.String a _ => bool_decide (a = c) | String.EmptyString => false end.

Definition slash : Ascii.ascii := "/"%char.

Definition path_join (dir file : string) : string :=
  if starts_with_char slash file then file
  else if bool_decide (dir = "") || ends_with_char slash dir then dir +:+ file
  else dir +:+ "/" +:+ file.

(** No operation fails for an outside reason. *)
Definition fs_reliable (s : Fs) : Prop := forall op p, fs_fault s op p = None.

Lemma fs_check_reliable s op p : fs_reliable s -> fs_check op p s = (Ok tt, s).
Proof. intros Hr. unfold fs_check. by rewrite Hr. Qed.

Lemma fs_set_reliable s n : fs_reliable s -> fs_reliable (fs_set n s).
Proof. done. Qed.

#[export] Hint Resolve fs_set_reliable : rust.

(** Joining a file name that is not absolute is injective in the name. *)
Lemma path_join_inj dir f g :
  starts_with_char slash f = false -> starts_with_char slash g = false ->
  path_join dir f = path_join dir g -> f = g.
Proof.
  intros Hf Hg. unfold path_join. rewrite Hf, Hg.
  destruct (_ || _); intros Hj; by repeat apply (inj (String.append _)) in Hj.
Qed.

(** A decimal number does not start with a separator. *)
Lemma pretty_N_go_not_slash x s :
  starts_with_char slash s = false -> starts_with_char slash (pretty_N_go x s) = false.
Proof.
  revert s. induction (N.lt_wf_0 x) as [x _ IH]; intros s Hs.
  assert (x = 0 \/ 0 < x)%N as [->|Hx] by lia; [by rewrite pretty_N_go_0|].
  rewrite pretty_N_go_step by done. apply IH; [by apply N.div_lt|].
  unfold pretty_N_char, slash; simpl. apply bool_decide_eq_false. by repeat case_match.
Qed.

Lemma pretty_N_go_nonempty n s : s <> "" -> pretty_N_go n s <> "".
Proof.
  revert s. induction (N.lt_wf_0 n) as [n _ IH]; intros s Hs.
  assert (n = 0 \/ 0 < n)%N as [->|Hn] by lia; [by rewrite pretty_N_go_0|].
  rewrite pretty_N_go_step by done. apply IH; [by apply N.div_lt|done].
Qed.

Lemma pretty_Z_not_slash (z : Z) t : starts_with_char slash (pretty z +:+ t) = false.
Proof.
  destruct z as [|p|p]; [by vm_compute| |by vm_compute].
  change (pretty (Z.pos p)) with (pretty_N_go (N.pos p) "").
  pose proof (pretty_N_go_not_slash (N.pos p) "" eq_refl) as Hs.
  rewrite pretty_N_go_step in * by lia.
  pose proof (pretty_N_go_nonempty (N.pos p `div` 10)
    (String.String (pretty_N_char (N.pos p `mod` 10)) "")) as Hne.
  destruct (pretty_N_go _ _); [by destruct Hne|done].
Qed.

(** The file a save leaves behind: written from the start of a file that exists
    or is created. *)
Lemma fs_save_spec s p data :
  fs_reliable s -> fs_nodes s !! p <> Some NDir ->
  exists old,
    sbind (fs_open_create p) (fun _ => sbind (fs_write_all p data) (fun _ => fs_sync_all p)) s
    = (Ok tt, fs_set (<[p := NFile (data ++ drop (length data) old)]> (fs_nodes s)) s)
    /\ default (NFile []) (fs_nodes s !! p) = NFile old.
Proof.
  intros Hr Hp. unfold fs_open_create, fs_write_all, fs_sync_all. unfold_stm.
  rewrite !fs_check_reliable by done.
  destruct (fs_nodes s !! p) as [[old|]|] eqn:E; [|done|].
  - rewrite fs_check_reliable, E, fs_check_reliable by done. by exists old.
  - rewrite fs_check_reliable by done; simpl. rewrite lookup_insert_eq.
    rewrite fs_check_reliable by done. exists []. unfold fs_set; simpl.
    by rewrite insert_insert_eq.
Qed.
