(* ===== verification/Chain.v ===== *)
(** * Chain: the block sequence, in memory and on disk

    Models src/blockchain/src/structures/chain.rs: positions and ranges of blocks,
    saving one block to a file and loading the files of a directory, with the
    invariant of the in-memory sequence ([chain_valid]) and its correspondence
    with the directory ([stored]). *)

From S2P Require Import Prelude Crypto Structures FileSystem.

Section Chain.
Context `{Crypto} `{!BlockBincode}.

Record Chain := { blocks : list Block }.

Definition Chain_default : Chain := {| blocks := [] |}.
Definition Chain_len (c : Chain) : nat := length (blocks c).
Definition Chain_is_empty (c : Chain) : bool := bool_decide (blocks c = []).
Definition Chain_add_block (c : Chain) (b : Block) : Chain := {| blocks := blocks c ++ [b] |}.
Definition Chain_last_block (c : Chain) : option Block := last (blocks c).

Definition block_ordinal (b : Block) : Ordinal := header_ordinal (block_header b).

Definition get_block_position {E} (c : Chain) (ordinal : Ordinal) : outcome E (option nat) :=
  if (Z.of_nat (Chain_len c) <=? ordinal)%Z then Ok None
  else
    let? last_block := unwrap (Chain_last_block c) in
    if (block_ordinal last_block <? ordinal)%Z then Ok None
    else
      let? b := unwrap (blocks c !! Z.to_nat ordinal) in
      if negb (block_ordinal b =? ordinal)%Z then Ok None
      else Ok (Some (Z.to_nat ordinal)).

(** [self.blocks[start..=end].to_vec()]. *)
Definition slice_inclusive {E A} (l : list A) (start end_ : nat) : outcome E (list A) :=
  if decide (start <= S end_ <= length l) then Ok (take (S end_ - start) (drop start l)) else Panic.

Definition retrieve_blocks {E} (c : Chain) (start end_ : Ordinal) : outcome E (list Block) :=
  let? start_pos := get_block_position c start in
  let? end_pos := get_block_position c end_ in
  match start_pos, end_pos with
  | Some s, Some e => if (s <=? e)%nat then slice_inclusive (blocks c) s e else Ok []
  | _, _ => Ok []
  end.

Definition Chain_save_block (c : Chain) (ordinal : Ordinal) (file_path : string) :
    stm Fs BlockchainError unit :=
  let! pos := slift (get_block_position c ordinal) in
  let! block_position := slift (ok_or pos (InvalidBlockchainLength (Chain_len c))) in
  let! file := scatch (fs_open_create file_path) in
  match file with
  | inl _ =>
      let! b := slift (unwrap (blocks c !! block_position)) in
      let! bs := slift (ok_or (serialize b) SerializationError) in
      let! _ := smap_err IOError (fs_write_all file_path bs) in
      smap_err IOError (fs_sync_all file_path)
  | inr e => serr (IOError e)
  end.

(** [blockchain_path.join(format!("{}.ser", ordinal))]. *)
Definition block_file (dir : string) (ordinal : Z) : string :=
  path_join dir (pretty ordinal +:+ ".ser").

(** The [loop] of [load_blocks]; its counter is an [i32].  Running out of fuel is
    a panic, which [load_blocks_terminates] excludes. *)
Fixpoint load_loop (fuel : nat) (s : Fs) (dir : string) (ordinal : Z) : stm Chain BlockchainError unit :=
  match fuel with
  | O => spanic
  | S fuel' =>
      let block_path := block_file dir ordinal in
      match fst (fs_metadata block_path s) with
      | Ok (NFile _) =>
          let! block_bytes := slift (map_err IOError (fst (fs_read block_path s))) in
          let! b := slift (ok_or (deserialize block_bytes) SerializationError) in
          let! _ := smodify (fun c => Chain_add_block c b) in
          load_loop fuel' s dir (wrap_i32 (ordinal + 1))
      | Ok NDir => sret tt
      | Err _ => sret tt
      | Panic => spanic
      end
  end.

Definition load_blocks (s : Fs) (dir : string) : stm Chain BlockchainError unit :=
  load_loop (S (size (fs_nodes s))) s dir 0.

(** ** The invariant of the sequence

    The comment of [Chain] says that the sequence is sorted by the ordinal,
    guaranteed by the hash and the parent hash. *)
Record chain_valid (c : Chain) : Prop := {
  cv_ordered : forall i b, blocks c !! i = Some b -> block_ordinal b = Z.of_nat i;
  cv_linked : forall i a b, blocks c !! i = Some a -> blocks c !! S i = Some b ->
    header_parent_hash (block_header b) = header_hash (block_header a);
  cv_ok : Forall block_ok (blocks c);
  cv_sealed : Forall block_sealed (blocks c);
}.

(** ** The invariant of the directory

    Block [i] is readable from file [i].ser, possibly with stale bytes behind it,
    and no file has a later number. *)
Definition stored (s : Fs) (dir : string) (c : Chain) : Prop :=
  (forall i b, blocks c !! i = Some b ->
     exists bs rest, serialize b = Some bs
       /\ fs_nodes s !! block_file dir (Z.of_nat i) = Some (NFile (bs ++ rest)))
  /\ (forall i, Chain_len c <= i -> fs_nodes s !! block_file dir (Z.of_nat i) = None).

(** ** Positions *)
Lemma get_block_position_valid {E} c n :
  chain_valid c -> (0 <= n)%Z ->
  @get_block_position E c n
  = Ok (if decide (n < Z.of_nat (Chain_len c))%Z then Some (Z.to_nat n) else None).
Proof.
  intros Hv Hn. unfold get_block_position.
  destruct (Z.leb_spec (Z.of_nat (Chain_len c)) n) as [Hle|Hlt].
  { by rewrite decide_False by lia. }
  rewrite decide_True by lia.
  unfold Chain_last_block, Chain_len in *. rewrite last_lookup.
  destruct (lookup_lt_is_Some_2 (blocks c) (pred (length (blocks c)))) as [l Hl]; [lia|].
  rewrite Hl; simpl. rewrite (cv_ordered c Hv _ _ Hl).
  destruct (Z.ltb_spec (Z.of_nat (pred (length (blocks c)))) n); [lia|].
  destruct (lookup_lt_is_Some_2 (blocks c) (Z.to_nat n)) as [b Hb]; [lia|].
  rewrite Hb; simpl. rewrite (cv_ordered c Hv _ _ Hb), Z2Nat.id by lia.
  by rewrite Z.eqb_refl.
Qed.

(** On any chain, valid or not, looking up an ordinal does not panic, and a
    position that is found holds a block with that ordinal. *)
Lemma get_block_position_sound {E} c n :
  (0 <= n)%Z ->
  exists o, @get_block_position E c n = Ok o
    /\ forall p, o = Some p ->
         Z.of_nat p = n /\ exists b, blocks c !! p = Some b /\ block_ordinal b = n.
Proof.
  intros Hn. unfold get_block_position, Chain_last_block, Chain_len.
  destruct (Z.leb_spec (Z.of_nat (length (blocks c))) n) as [Hle|Hlt]; [by eexists|].
  rewrite last_lookup.
  destruct (lookup_lt_is_Some_2 (blocks c) (pred (length (blocks c)))) as [l Hl]; [lia|].
  rewrite Hl; simpl. case_match; [by eexists|].
  destruct (lookup_lt_is_Some_2 (blocks c) (Z.to_nat n)) as [b Hb]; [lia|].
  rewrite Hb; simpl. destruct (Z.eqb_spec (block_ordinal b) n); simpl; [|by eexists].
  eexists; split; [done|]. intros p [= <-]. split; [lia|eauto].
Qed.

Lemma get_block_position_last {E} c b :
  block_ordinal b = Z.of_nat (Chain_len c) ->
  @get_block_position E (Chain_add_block c b) (block_ordinal b) = Ok (Some (Chain_len c)).
Proof.
  intros Hb. unfold get_block_position, Chain_last_block, Chain_len in *; simpl.
  rewrite length_app, last_snoc; simpl. rewrite Hb, Nat2Z.id.
  destruct (Z.leb_spec (Z.of_nat (length (blocks c) + 1)) (Z.of_nat (length (blocks c)))); [lia|].
  rewrite Z.ltb_irrefl, lookup_app_r, Nat.sub_diag by lia; simpl.
  by rewrite Hb, Z.eqb_refl.
Qed.

(** On a valid chain, [retrieve_blocks] returns exactly the blocks whose ordinals
    are between the bounds, and nothing when a bound is outside the chain. *)
Lemma retrieve_blocks_valid {E} c start end_ :
  chain_valid c -> (0 <= start)%Z -> (0 <= end_)%Z ->
  @retrieve_blocks E c start end_
  = Ok (if decide (start <= end_ < Z.of_nat (Chain_len c))%Z
        then take (Z.to_nat (end_ - start + 1)) (drop (Z.to_nat start) (blocks c)) else []).
Proof.
  intros Hv Hs He. unfold retrieve_blocks. rewrite !get_block_position_valid by done; simpl.
  unfold Chain_len.
  destruct (decide (start < Z.of_nat (length (blocks c)))%Z) as [Hs'|];
    [|by rewrite decide_False by lia].
  destruct (decide (end_ < Z.of_nat (length (blocks c)))%Z) as [He'|];
    [|by rewrite decide_False by lia].
  destruct (Nat.leb_spec (Z.to_nat start) (Z.to_nat end_)) as [Hle|Hlt];
    [rewrite decide_True by lia|by rewrite decide_False by lia].
  unfold slice_inclusive. rewrite decide_True by lia. do 2 f_equal. lia.
Qed.

(** ** Extension *)
Lemma chain_valid_default : chain_valid Chain_default.
Proof. split; [done|done|constructor..]. Qed.

Lemma chain_valid_snoc c b :
  chain_valid c ->
  block_ordinal b = Z.of_nat (Chain_len c) ->
  (forall l, Chain_last_block c = Some l ->
     header_parent_hash (block_header b) = header_hash (block_header l)) ->
  block_ok b -> block_sealed b ->
  chain_valid (Chain_add_block c b).
Proof.
  intros [Ho Hl Hok Hs] Hb Hp Hbok Hbs. split; simpl.
  - intros i b' [Hi|[-> ->]]%lookup_snoc_Some_inv; eauto.
  - intros i a b' Ha [Hi|[Hi ->]]%lookup_snoc_Some_inv.
    + rewrite lookup_app_l in Ha by (apply lookup_lt_Some in Hi; lia). eauto.
    + apply Hp. unfold Chain_last_block. rewrite last_lookup, <- Hi; simpl.
      by rewrite lookup_app_l in Ha by lia.
  - apply Forall_app_2; [done|by constructor].
  - apply Forall_app_2; [done|by constructor].
Qed.

(** ** Files *)
Lemma block_file_inj dir m n : block_file dir m = block_file dir n -> m = n.
Proof.
  unfold block_file. intros Hj%path_join_inj; [|apply pretty_Z_not_slash..].
  apply string_app_inj_r in Hj. by apply (inj pretty) in Hj.
Qed.

(** Consecutively numbered files are at most as many as there are nodes. *)
Lemma files_le_size s dir n :
  (forall i, i < n -> is_Some (fs_nodes s !! block_file dir (Z.of_nat i))) ->
  n <= size (fs_nodes s).
Proof.
  intros Hf. set (l := (fun i => block_file dir (Z.of_nat i)) <$> seq 0 n).
  assert (NoDup l) as Hnd.
  { apply NoDup_fmap_2; [|apply NoDup_seq]. intros i j Hij%block_file_inj. lia. }
  rewrite <- (size_dom (D := gset string)).
  transitivity (size (list_to_set l : gset string)).
  - rewrite size_list_to_set by done. unfold l. by rewrite length_fmap, length_seq.
  - apply subseteq_size. intros q Hq%elem_of_list_to_set. unfold l in Hq.
    apply list_elem_of_fmap in Hq as (i & -> & Hi). apply elem_of_dom, Hf.
    apply elem_of_seq in Hi. lia.
Qed.

(** What the loop does on a file and on the absence of a file. *)
Lemma load_loop_step fuel s dir n c content :
  fs_reliable s -> fs_nodes s !! block_file dir n = Some (NFile content) ->
  load_loop (S fuel) s dir n c
  = match deserialize content with
    | Some b => load_loop fuel s dir (wrap_i32 (n + 1)) (Chain_add_block c b)
    | None => (Err SerializationError, c)
    end.
Proof.
  intros Hr Hn. simpl. unfold fs_metadata, fs_read. unfold_stm.
  rewrite !fs_check_reliable, Hn by done; simpl. by destruct (deserialize content).
Qed.

Lemma load_loop_end fuel s dir n c :
  fs_nodes s !! block_file dir n = None -> load_loop (S fuel) s dir n c = (Ok tt, c).
Proof.
  intros Hn. simpl. unfold fs_metadata, fs_check. unfold_stm.
  destruct (fs_fault _ _ _); simpl; [done|]. by rewrite Hn.
Qed.

(** The loop stops: in a directory with fewer than [2^31] nodes the number of
    iterations is at most the number of nodes. *)
Lemma load_loop_terminates fuel s dir i c :
  (Z.of_nat (size (fs_nodes s)) < 2 ^ 31)%Z ->
  (forall j, j < i -> is_Some (fs_nodes s !! block_file dir (Z.of_nat j))) ->
  size (fs_nodes s) < fuel + i ->
  fst (load_loop fuel s dir (Z.of_nat i) c) <> Panic.
Proof.
  intros Hsz. revert i c; induction fuel as [|fuel IH]; intros i c Hf Hfuel.
  { pose proof (files_le_size s dir i Hf). lia. }
  simpl. unfold fs_metadata, fs_read, fs_check. unfold_stm.
  destruct (fs_fault s OpMetadata _); simpl; [done|].
  destruct (fs_nodes s !! block_file dir (Z.of_nat i)) as [[content|]|] eqn:Hi; simpl; [|done..].
  destruct (fs_fault s OpRead _); simpl; [done|]. rewrite Hi; simpl.
  destruct (deserialize content) as [b|]; simpl; [|done].
  assert (forall j, j < S i -> is_Some (fs_nodes s !! block_file dir (Z.of_nat j))) as Hf'.
  { intros j Hj. destruct (decide (j = i)) as [->|]; [by rewrite Hi|apply Hf; lia]. }
  pose proof (files_le_size s dir (S i) Hf').
  rewrite wrap_i32_small by lia.
  replace (Z.of_nat i + 1)%Z with (Z.of_nat (S i)) by lia. apply IH; [done|lia].
Qed.

Lemma load_blocks_total s dir c :
  (Z.of_nat (size (fs_nodes s)) < 2 ^ 31)%Z -> fst (load_blocks s dir c) <> Panic.
Proof.
  intros Hsz. unfold load_blocks. apply (load_loop_terminates _ s dir 0); [done|lia|lia].
Qed.

Context `{!BlockBincodeOk}.

(** Loading a stored chain appends its blocks, in order. *)
Lemma load_loop_stored fuel s dir c pre i :
  fs_reliable s -> stored s dir c -> Forall block_ok (blocks c) ->
  (Z.of_nat (Chain_len c) < 2 ^ 31)%Z ->
  i <= Chain_len c -> Chain_len c < fuel + i ->
  load_loop fuel s dir (Z.of_nat i) {| blocks := pre ++ take i (blocks c) |}
  = (Ok tt, {| blocks := pre ++ blocks c |}).
Proof.
  intros Hr [Hst Hfree] Hok Hlen. unfold Chain_len in *.
  revert i; induction fuel as [|fuel IH]; intros i Hi Hfuel; [lia|].
  destruct (blocks c !! i) as [b|] eqn:Hb.
  - destruct (Hst i b Hb) as (bs & rest & Hbs & Hf).
    erewrite load_loop_step by done.
    destruct (bincode_roundtrip b) as (bs' & Hbs' & Hrt).
    { by eapply Forall_lookup_1 in Hok. }
    rewrite Hbs in Hbs'; injection Hbs' as <-. rewrite Hrt.
    apply lookup_lt_Some in Hb as Hlt. rewrite wrap_i32_small by lia.
    replace (Z.of_nat i + 1)%Z with (Z.of_nat (S i)) by lia.
    unfold Chain_add_block; simpl. rewrite <- app_assoc.
    rewrite <- (take_S_r _ _ _ Hb). apply IH; lia.
  - apply lookup_ge_None in Hb. rewrite take_ge by lia. apply load_loop_end, Hfree. lia.
Qed.

Lemma load_blocks_stored s dir c c0 :
  fs_reliable s -> stored s dir c -> Forall block_ok (blocks c) ->
  (Z.of_nat (Chain_len c) < 2 ^ 31)%Z ->
  load_blocks s dir c0 = (Ok tt, {| blocks := blocks c0 ++ blocks c |}).
Proof.
  intros Hr Hst Hok Hlen. unfold load_blocks.
  replace c0 with {| blocks := blocks c0 ++ take 0 (blocks c) |} at 1
    by (destruct c0; simpl; by rewrite app_nil_r).
  apply (load_loop_stored _ s dir c (blocks c0) 0); [done..|lia|].
  enough (Chain_len c <= size (fs_nodes s)) by lia.
  apply (files_le_size s dir). intros i Hi.
  destruct (lookup_lt_is_Some_2 (blocks c) i Hi) as [b Hb].
  destruct Hst as [Hst _]. destruct (Hst i b Hb) as (bs & rest & _ & Hf). by rewrite Hf.
Qed.

(** Saving the block just added succeeds on a reliable disk and keeps the
    directory in step with the chain. *)
Lemma save_last_stored s dir c b :
  fs_reliable s -> stored s dir c -> block_ok b ->
  block_ordinal b = Z.of_nat (Chain_len c) ->
  exists s', Chain_save_block (Chain_add_block c b) (block_ordinal b)
               (block_file dir (block_ordinal b)) s = (Ok tt, s')
             /\ fs_reliable s' /\ stored s' dir (Chain_add_block c b).
Proof.
  intros Hr [Hst Hfree] Hok Hb. unfold Chain_save_block. unfold_stm.
  rewrite get_block_position_last by done; simpl. rewrite Hb.
  set (p := block_file dir (Z.of_nat (Chain_len c))).
  unfold Chain_len. rewrite lookup_app_r, Nat.sub_diag by lia; simpl.
  destruct (bincode_roundtrip b) as (bs & Hbs & _); [done|]. rewrite Hbs; simpl.
  destruct (fs_save_spec s p bs Hr) as (old & Hsave & Hold).
  { unfold p. by rewrite Hfree. }
  unfold_stm. destruct (fs_open_create p s) as [[]s1]; [|done..].
  destruct (fs_write_all p bs s1) as [[]s2]; [|done..]. simpl.
  destruct (fs_sync_all p s2) as [[[]| |]s3]; simpl in *; [|done..].
  injection Hsave as ->. eexists; split; [done|]. split; [by auto with rust|]. split; simpl.
  - intros i b' [Hi|[-> <-]]%lookup_snoc_Some_inv.
    + rewrite lookup_insert_ne; [eauto|]. intros Heq%block_file_inj.
      apply lookup_lt_Some in Hi. unfold Chain_len in Heq. lia.
    + rewrite lookup_insert_eq. eauto.
  - intros i Hi. unfold Chain_len in Hi; simpl in Hi. rewrite length_app in Hi; simpl in Hi.
    rewrite lookup_insert_ne; [apply Hfree; unfold Chain_len; lia|].
    intros Heq%block_file_inj. unfold Chain_len in Heq. lia.
Qed.
End Chain.
