(* ===== verification/Blockchain.v ===== *)
(** * Blockchain: the local blockchain and its directory

    Models src/blockchain/src/blockchain.rs.  The state of the methods is the
    blockchain together with the disk; [bc_inv] says that the chain is valid and
    that the directory holds it. *)

From S2P Require Import Prelude Crypto Structures Sample FileSystem Chain.

Section Blockchain.
Context `{Crypto} `{!BlockBincode}.

Record Blockchain := {
  chain : Chain;
  blockchain_path : string;
}.

Record BcState := {
  bc : Blockchain;
  disk : Fs;
}.

(** [Blockchain::save_block], on a chain and a disk. *)
Definition Blockchain_save_block (b : Block) (dir : string) :
    stm (Chain * Fs) BlockchainError unit :=
  let ordinal := header_ordinal (block_header b) in
  let! _ := smodify (fun '(c, s) => (Chain_add_block c b, s)) in
  fun '(c, s) =>
    let '(o, s') := Chain_save_block c ordinal (block_file dir ordinal) s in (o, (c, s')).

(** [Blockchain::new]; the two draws are those of the genesis transaction and of
    the genesis block. *)
Definition Blockchain_new (kp : Keypair) (dir : string) (d_tx d_block : draw) :
    stm Fs BlockchainError Blockchain := fun s =>
  match load_blocks s dir Chain_default with
  | (Err e, _) => (Err e, s)
  | (Panic, _) => (Panic, s)
  | (Ok _, c) =>
      if Chain_is_empty c then
        let local_id := Address_from_public_key (public kp) in
        match
          (let? transaction := Transaction_new Create local_id
             (as_bytes "this is the first reserved transaction") kp d_tx in
           Block_new (HashDigest_new []) 0%Z [transaction] kp d_block)
        with
        | Ok block =>
            match Blockchain_save_block block dir (c, s) with
            | (Ok _, (c', s')) => (Ok {| chain := c'; blockchain_path := dir |}, s')
            | (Err e, (_, s')) => (Err e, s')
            | (Panic, (_, s')) => (Panic, s')
            end
        | Err e => (Err e, s)
        | Panic => (Panic, s)
        end
      else (Ok {| chain := c; blockchain_path := dir |}, s)
  end.

Definition Blockchain_empty_new (dir : string) : Blockchain :=
  {| chain := Chain_default; blockchain_path := dir |}.

Definition Blockchain_last_block (b : Blockchain) : option Block := Chain_last_block (chain b).

(** [commit_block]: runs [save_block] on the chain of the blockchain. *)
Definition commit_block (b : Block) : stm BcState BlockchainError unit := fun st =>
  let dir := blockchain_path (bc st) in
  let '(o, (c, s)) := Blockchain_save_block b dir (chain (bc st), disk st) in
  (o, {| bc := {| chain := c; blockchain_path := dir |}; disk := s |}).

Definition Blockchain_add_block (payload : bytes) (kp : Keypair) (d_tx d_block : draw) :
    stm BcState BlockchainError unit :=
  let submitter := Address_from_public_key (public kp) in
  let! tx := slift (Transaction_new Create submitter payload kp d_tx) in
  let! st := sget in
  match Blockchain_last_block (bc st) with
  | None => serr EmptyBlockchain
  | Some last_block =>
      let! block := slift (Block_new (header_hash (block_header last_block))
                             (wrap 128 (header_ordinal (block_header last_block) + 1))
                             [tx] kp d_block) in
      commit_block block
  end.

Definition update_block_from_peers (b : Block) : stm BcState BlockchainError unit :=
  commit_block b.

Definition pull_blocks (b : Blockchain) (start end_ : Ordinal) :
    outcome BlockchainError (list Block) :=
  retrieve_blocks (chain b) start end_.

(** ** The invariant *)
Record bc_inv (st : BcState) : Prop := {
  inv_valid : chain_valid (chain (bc st));
  inv_stored : stored (disk st) (blockchain_path (bc st)) (chain (bc st));
  inv_reliable : fs_reliable (disk st);
}.

(** What the directory needs: the blocks are numbered one by one and stored; their seals and links do not matter. *)
Record bc_stored (st : BcState) : Prop := {
  st_ordered : forall i b, blocks (chain (bc st)) !! i = Some b -> block_ordinal b = Z.of_nat i;
  st_ok : Forall block_ok (blocks (chain (bc st)));
  st_stored : stored (disk st) (blockchain_path (bc st)) (chain (bc st));
  st_reliable : fs_reliable (disk st);
}.

(** ** Steps of a node

    A node adds its own payloads, commits the blocks that peers send, and is restarted on its directory.
    [update_block_from_peers] checks nothing of a block: which blocks peers send is an argument of the steps. *)
Definition numbered_block (st : BcState) (b : Block) : Prop :=
  block_ok b /\ block_ordinal b = Z.of_nat (Chain_len (chain (bc st))).
Definition next_block (st : BcState) (b : Block) : Prop :=
  numbered_block st b /\ block_sealed b
  /\ forall l, Blockchain_last_block (bc st) = Some l ->
       header_parent_hash (block_header b) = header_hash (block_header l).

Inductive session_step (sent : BcState -> Block -> Prop) : BcState -> BcState -> Prop :=
| node_add payload kp d_tx d_block st o st' :
    draw_ok d_tx -> draw_ok d_block ->
    Blockchain_add_block payload kp d_tx d_block st = (o, st') ->
    session_step sent st st'
| node_peer b st o st' :
    sent st b -> update_block_from_peers b st = (o, st') -> session_step sent st st'.

Inductive node_step (sent : BcState -> Block -> Prop) : BcState -> BcState -> Prop :=
| node_session st st' : session_step sent st st' -> node_step sent st st'
| node_restart kp d_tx d_block st b s' :
    draw_ok d_tx -> draw_ok d_block ->
    Blockchain_new kp (blockchain_path (bc st)) d_tx d_block (disk st) = (Ok b, s') ->
    node_step sent st {| bc := b; disk := s' |}.

(** The directory of a node that was never started. *)
Definition fresh_dir (s : Fs) (dir : string) : Prop :=
  fs_reliable s /\ forall i : nat, fs_nodes s !! block_file dir (Z.of_nat i) = None.

(** ** Lemmas *)
Context `{!CryptoOk, !BlockBincodeOk}.

Lemma bc_inv_stored st : bc_inv st -> bc_stored st.
Proof. intros [Hv Hs Hr]. split; [apply Hv|apply Hv|done|done]. Qed.
#[local] Hint Resolve bc_inv_stored : core.

Lemma last_ordinal c l :
  (forall i b, blocks c !! i = Some b -> block_ordinal b = Z.of_nat i) -> Chain_last_block c = Some l ->
  block_ordinal l = (Z.of_nat (Chain_len c) - 1)%Z /\ 0 < Chain_len c.
Proof.
  intros Hs Hl. unfold Chain_last_block in Hl. rewrite last_lookup in Hl.
  pose proof (lookup_lt_Some _ _ _ Hl). unfold Chain_len. rewrite (Hs _ _ Hl). lia.
Qed.

(** Committing a block appends it, whatever it is. *)
Lemma commit_block_appends b st :
  blocks (chain (bc (snd (commit_block b st)))) = blocks (chain (bc st)) ++ [b]
  /\ blockchain_path (bc (snd (commit_block b st))) = blockchain_path (bc st).
Proof.
  unfold commit_block, Blockchain_save_block. unfold_stm.
  by destruct (Chain_save_block _ _ _ _) as [[] ?].
Qed.

(** Committing the block with the next number extends chain and directory by it. *)
Lemma commit_block_numbered st b :
  bc_stored st -> numbered_block st b ->
  exists st', commit_block b st = (Ok tt, st') /\ bc_stored st'
    /\ blocks (chain (bc st')) = blocks (chain (bc st)) ++ [b]
    /\ blockchain_path (bc st') = blockchain_path (bc st).
Proof.
  intros [Ho Hb Hst Hr] [Hok Hn]. unfold commit_block, Blockchain_save_block. unfold_stm.
  destruct (save_last_stored (disk st) (blockchain_path (bc st)) (chain (bc st)) b)
    as (s' & Hsave & Hr' & Hst'); [done..|].
  unfold block_ordinal in Hsave. rewrite Hsave.
  eexists; split; [done|]; simpl. split; [|done]. split; simpl; [| |done|done].
  - intros i b' [Hi|[-> <-]]%lookup_snoc_Some_inv; [by apply Ho|done].
  - apply Forall_app. split; [done|by constructor].
Qed.

Lemma commit_block_next st b :
  bc_inv st -> next_block st b ->
  exists st', commit_block b st = (Ok tt, st')
    /\ bc_inv st'
    /\ blocks (chain (bc st')) = blocks (chain (bc st)) ++ [b]
    /\ blockchain_path (bc st') = blockchain_path (bc st).
Proof.
  intros Hi (Hn & Hs & Hp). destruct (commit_block_numbered st b) as (st' & Hc & [_ _ Hst Hr] & Hb & Hpath); [by auto|done|].
  exists st'. split_and!; [done| |done|done]. split; [|done|done]. destruct st' as [[[bs] ?] ?]. simpl in *. subst bs.
  apply (chain_valid_snoc (chain (bc st))); [apply Hi|apply Hn|done|apply Hn|done].
Qed.

(** The block [add_block] makes. *)
Lemma add_block_makes st payload kp d_tx d_block :
  bc_stored st -> 0 < Chain_len (chain (bc st)) ->
  (Z.of_nat (Chain_len (chain (bc st))) < 2 ^ 128)%Z ->
  draw_ok d_tx -> draw_ok d_block ->
  exists b, Blockchain_add_block payload kp d_tx d_block st = commit_block b st
    /\ next_block st b /\ fetch_payload b = [payload]
    /\ header_committer (block_header b) = Address_from_public_key (public kp).
Proof.
  intros Hi Hlen Hsmall Hdt Hdb. unfold Blockchain_add_block. unfold_stm.
  destruct (@Transaction_new_spec _ _ _ _ BlockchainError Create
    (Address_from_public_key (public kp)) payload kp d_tx)
    as (tx & Htx & _ & _ & Hpay & Htok & _); [done|]. rewrite Htx.
  destruct (Blockchain_last_block (bc st)) as [l|] eqn:Hl; last first.
  { apply last_None in Hl. unfold Chain_len in Hlen. rewrite Hl in Hlen. simpl in Hlen. lia. }
  destruct (last_ordinal _ _ (st_ordered _ Hi) Hl) as [Hord _].
  unfold block_ordinal in Hord. rewrite Hord.
  replace (Z.of_nat (Chain_len (chain (bc st))) - 1 + 1)%Z
    with (Z.of_nat (Chain_len (chain (bc st)))) by lia.
  rewrite wrap_small by (unfold fits; lia).
  destruct (@Block_new_spec _ _ _ _ BlockchainError (header_hash (block_header l))
    (Z.of_nat (Chain_len (chain (bc st)))) [tx] kp d_block)
    as (b & Hb & Hph & Hbo & Htxs & Hcom & Hok & Hsl); [unfold fits; lia|done|by constructor|].
  rewrite Hb. exists b. split; [done|]. split; [|unfold fetch_payload; rewrite Htxs; simpl; by rewrite Hpay].
  split; [done|]. split; [done|]. intros l' Hl'. congruence.
Qed.

Lemma add_block_next st payload kp d_tx d_block :
  bc_inv st -> 0 < Chain_len (chain (bc st)) ->
  (Z.of_nat (Chain_len (chain (bc st))) < 2 ^ 128)%Z ->
  draw_ok d_tx -> draw_ok d_block ->
  exists b st', Blockchain_add_block payload kp d_tx d_block st = (Ok tt, st')
    /\ bc_inv st'
    /\ blocks (chain (bc st')) = blocks (chain (bc st)) ++ [b]
    /\ blockchain_path (bc st') = blockchain_path (bc st)
    /\ fetch_payload b = [payload]
    /\ header_committer (block_header b) = Address_from_public_key (public kp).
Proof.
  intros Hi Hlen Hsmall Hdt Hdb.
  destruct (add_block_makes st payload kp d_tx d_block) as (b & -> & Hn & Hpay & Hcom); [by auto|done..|].
  destruct (commit_block_next st b Hi Hn) as (st' & Hc & Hi' & Hbl & Hpath). by exists b, st'.
Qed.

(** A fresh start: the genesis block, in memory and on disk. *)
Lemma Blockchain_new_fresh kp dir d_tx d_block s :
  fs_reliable s -> stored s dir Chain_default -> draw_ok d_tx -> draw_ok d_block ->
  exists b s', Blockchain_new kp dir d_tx d_block s
               = (Ok {| chain := {| blocks := [b] |}; blockchain_path := dir |}, s')
    /\ bc_inv {| bc := {| chain := {| blocks := [b] |}; blockchain_path := dir |}; disk := s' |}.
Proof.
  intros Hr Hst Hdt Hdb. unfold Blockchain_new.
  rewrite (load_blocks_stored s dir Chain_default Chain_default) by (done || constructor).
  simpl.
  destruct (@Transaction_new_spec _ _ _ _ BlockchainError Create
    (Address_from_public_key (public kp))
    (as_bytes "this is the first reserved transaction") kp d_tx)
    as (tx & Htx & _ & _ & _ & Htok & _); [done|]. rewrite Htx; simpl.
  destruct (@Block_new_spec _ _ _ _ BlockchainError (HashDigest_new []) 0%Z [tx] kp d_block)
    as (b & Hb & _ & Hbo & _ & _ & Hok & Hsl); [unfold fits; lia|done|by constructor|].
  rewrite Hb; simpl.
  destruct (save_last_stored s dir Chain_default b)
    as (s' & Hsave & Hr' & Hst'); [done..|].
  unfold Blockchain_save_block. unfold_stm. unfold block_ordinal in Hsave.
  change {| blocks := [] |} with Chain_default. rewrite Hsave. exists b, s'. split; [done|].
  split; simpl; [|done|done].
  by apply (chain_valid_snoc Chain_default); [apply chain_valid_default|..].
Qed.

(** A restart on a directory that holds a chain reads that chain back. *)
Lemma Blockchain_new_restart kp dir d_tx d_block s c :
  fs_reliable s -> stored s dir c -> Forall block_ok (blocks c) -> blocks c <> [] ->
  (Z.of_nat (Chain_len c) < 2 ^ 31)%Z ->
  Blockchain_new kp dir d_tx d_block s = (Ok {| chain := c; blockchain_path := dir |}, s).
Proof.
  intros Hr Hst Hok Hne Hlen. unfold Blockchain_new.
  rewrite (load_blocks_stored s dir c Chain_default) by done. simpl.
  unfold Chain_is_empty. rewrite bool_decide_false by done. by destruct c.
Qed.

Lemma fresh_dir_stored s dir : fresh_dir s dir -> stored s dir Chain_default.
Proof. intros [_ Hf]. split; [done|]. intros i _. apply Hf. Qed.



(** What every step keeps. *)
Definition progress (inv : BcState -> Prop) (st st' : BcState) : Prop :=
  inv st' /\ blocks (chain (bc st)) `prefix_of` blocks (chain (bc st'))
  /\ Chain_len (chain (bc st')) <= S (Chain_len (chain (bc st)))
  /\ blockchain_path (bc st') = blockchain_path (bc st).

(** An invariant that suffices for the directory and that the blocks of peers keep. *)
Section Progress.
Context (inv : BcState -> Prop) (sent : BcState -> Block -> Prop).
Hypothesis inv_is_stored : forall st, inv st -> bc_stored st.
Hypothesis inv_commit : forall st b, inv st -> sent st b \/ next_block st b ->
  exists st', commit_block b st = (Ok tt, st') /\ inv st'.

Lemma commit_progress st b o st' :
  inv st -> sent st b \/ next_block st b -> commit_block b st = (o, st') -> progress inv st st'.
Proof.
  intros Hi Hb Hc. destruct (inv_commit st b Hi Hb) as (st2 & Hc' & Hi'). rewrite Hc in Hc'. inv_outcome.
  pose proof (commit_block_appends b st) as [Ha Hp]. rewrite Hc in Ha, Hp. simpl in *.
  split; [done|]. unfold Chain_len. rewrite Ha, length_app. simpl. split; [by exists [b]|]. split; [lia|done].
Qed.

Lemma node_step_progress st st' :
  inv st -> 0 < Chain_len (chain (bc st)) ->
  (Z.of_nat (Chain_len (chain (bc st))) < 2 ^ 31)%Z ->
  node_step sent st st' -> progress inv st st'.
Proof.
  intros Hi Hlen Hsmall Hstep.
  destruct Hstep as [st1 st2 Hsess|kp d1 d2 st1 b s' Hd1 Hd2 Hnew];
    [destruct Hsess as [payload kp d1 d2 st o st2' Hd1 Hd2 Hadd|b st o st2' Hb Hup]|].
  - destruct (add_block_makes st payload kp d1 d2) as (b & Hm & Hn & _); [by auto|done|lia|done|done|].
    rewrite Hm in Hadd. by eapply commit_progress; [|right|].
  - by eapply commit_progress; [|left|].
  - destruct (inv_is_stored _ Hi) as [_ Hok Hst Hr].
    rewrite (Blockchain_new_restart kp _ d1 d2 (disk st1) (chain (bc st1))) in Hnew; try done.
    + inv_outcome. split; [|by split_and!; [..|simpl; lia|]]. by destruct st1 as [[] ?].
    + unfold Chain_len in Hlen. by destruct (blocks _); [simpl in Hlen; lia|].
Qed.

Lemma node_steps_progress n st st' :
  inv st -> 0 < Chain_len (chain (bc st)) ->
  (Z.of_nat (Chain_len (chain (bc st)) + n) <= 2 ^ 31)%Z ->
  nsteps (node_step sent) n st st' ->
  inv st' /\ blocks (chain (bc st)) `prefix_of` blocks (chain (bc st'))
  /\ Chain_len (chain (bc st')) <= Chain_len (chain (bc st)) + n
  /\ blockchain_path (bc st') = blockchain_path (bc st).
Proof.
  intros Hi Hlen Hsmall Hsteps. revert Hi Hlen Hsmall.
  induction Hsteps as [st|n st1 st2 st3 Hs Hss IH]; intros Hi Hlen Hsmall.
  { split; [done|]. split; [done|]. split; [lia|done]. }
  destruct (node_step_progress st1 st2) as (Hi2 & Hpre & Hle & Hpath); [done..|lia|done|].
  pose proof (prefix_length _ _ Hpre) as Hge. unfold Chain_len in *.
  destruct IH as (Hi3 & Hpre3 & Hle3 & Hpath3); [done|lia|lia|].
  split; [done|]. split; [by etrans|]. split; [lia|congruence].
Qed.

(** From the first start of a node. *)
Lemma node_runs kp dir d_tx d_block s b0 s0 m st n st' :
  (forall st, bc_inv st -> inv st) ->
  fresh_dir s dir -> draw_ok d_tx -> draw_ok d_block ->
  Blockchain_new kp dir d_tx d_block s = (Ok b0, s0) ->
  nsteps (node_step sent) m {| bc := b0; disk := s0 |} st -> nsteps (node_step sent) n st st' ->
  (Z.of_nat (m + n) < 2 ^ 31)%Z ->
  inv st' /\ blocks (chain (bc st)) `prefix_of` blocks (chain (bc st'))
  /\ 0 < Chain_len (chain (bc st')) /\ Chain_len (chain (bc st')) <= 1 + m + n
  /\ blockchain_path (bc st') = dir.
Proof.
  intros Hinv Hf Hd1 Hd2 Hnew Hm Hn Hsmall.
  destruct (Blockchain_new_fresh kp dir d_tx d_block s)
    as (b & s' & Hnew' & Hi); [apply Hf|by apply fresh_dir_stored|done|done|].
  rewrite Hnew in Hnew'. inv_outcome.
  apply node_steps_progress in Hm as (Hi1 & Hp1 & Hl1 & Hpath1);
    [|by apply Hinv|unfold Chain_len; simpl; lia|unfold Chain_len; simpl; lia].
  pose proof (prefix_length _ _ Hp1) as Hge. unfold Chain_len in *; simpl in *.
  apply node_steps_progress in Hn as (Hi2 & Hp2 & Hl2 & Hpath2); unfold Chain_len in *; [|done|lia|lia].
  pose proof (prefix_length _ _ Hp2) as Hge2. split_and!; [done|done|lia|lia|congruence].
Qed.
End Progress.

Lemma numbered_commit st b :
  bc_stored st -> numbered_block st b \/ next_block st b -> exists st', commit_block b st = (Ok tt, st') /\ bc_stored st'.
Proof.
  intros Hi Hb. destruct (commit_block_numbered st b) as (st' & Hc & Hs & _); [done|by destruct Hb as [|[? _]]|by eexists].
Qed.

Lemma next_commit st b :
  bc_inv st -> next_block st b \/ next_block st b -> exists st', commit_block b st = (Ok tt, st') /\ bc_inv st'.
Proof. intros Hi [Hb|Hb]; destruct (commit_block_next st b Hi Hb) as (st' & Hc & Hs & _); by eexists. Qed.


(** Committing a block that does not carry the next ordinal. *)
Lemma commit_block_misnumbered st b :
  bc_stored st -> (0 <= block_ordinal b)%Z ->
  block_ordinal b <> Z.of_nat (Chain_len (chain (bc st))) ->
  exists st', commit_block b st
    = (if (block_ordinal b <? Z.of_nat (Chain_len (chain (bc st))))%Z then Ok tt
       else Err (InvalidBlockchainLength (S (Chain_len (chain (bc st))))), st')
    /\ blocks (chain (bc st')) = blocks (chain (bc st)) ++ [b]
    /\ blockchain_path (bc st') = blockchain_path (bc st)
    /\ disk st' = disk st.
Proof.
  intros [Hv Hblocks [Hst Hfree] Hr] Hpos Hne. unfold commit_block, Blockchain_save_block. unfold_stm.
  unfold Chain_save_block. unfold_stm. fold (block_ordinal b).
  unfold get_block_position, Chain_last_block, Chain_len in *; simpl.
  rewrite length_app, last_snoc; simpl. rewrite Z.ltb_irrefl.
  destruct (Z.ltb_spec (block_ordinal b) (Z.of_nat (length (blocks (chain (bc st))))))
    as [Hlt|Hge]; last first.
  { destruct (Z.leb_spec (Z.of_nat (length (blocks (chain (bc st))) + 1)) (block_ordinal b)); [|lia].
    simpl. rewrite Nat.add_1_r. eexists; split; [done|]. by simpl. }
  destruct (Z.leb_spec (Z.of_nat (length (blocks (chain (bc st))) + 1)) (block_ordinal b)); [lia|].
  set (n := block_ordinal b) in *. rewrite !lookup_app_l by lia.
  destruct (lookup_lt_is_Some_2 (blocks (chain (bc st))) (Z.to_nat n)) as [b' Hb']; [lia|].
  rewrite Hb'; simpl. rewrite (Hv _ _ Hb'), Z2Nat.id, Z.eqb_refl by lia; simpl.
  rewrite lookup_app_l by lia. rewrite Hb'; simpl.
  destruct (Hst _ _ Hb') as (bs & rest & Hbs & Hf). rewrite Hbs; simpl.
  rewrite Z2Nat.id in Hf by lia.
  destruct (fs_save_spec (disk st) (block_file (blockchain_path (bc st)) n) bs Hr)
    as (old & Hsave & Hold); [by rewrite Hf|].
  rewrite Hf in Hold; simpl in Hold. injection Hold as <-.
  rewrite drop_app_length in Hsave. unfold_stm.
  destruct (fs_open_create _ _) as [[]s1]; [|done..].
  destruct (fs_write_all _ _ _) as [[]s2]; [|done..]. simpl.
  destruct (fs_sync_all _ _) as [[[]| |]s3]; simpl in *; [|done..].
  injection Hsave as ->. eexists; split; [done|]; simpl. repeat split.
  unfold fs_set. rewrite insert_id by done. by destruct (disk st).
Qed.

(** In a list whose elements are numbered from [off], the numbers in an interval are
    those of a slice. *)
Lemma filter_ordinals (l : list Block) off start end_ :
  (forall i b, l !! i = Some b -> block_ordinal b = (off + Z.of_nat i)%Z) ->
  filter (fun b => (start <= block_ordinal b <= end_)%Z) l
  = take (Z.to_nat (end_ - Z.max start off + 1)) (drop (Z.to_nat (start - off)) l).
Proof.
  revert off; induction l as [|b l IH]; intros off Hl; [by rewrite drop_nil, take_nil|].
  pose proof (Hl 0 b eq_refl) as Hb. rewrite Z.add_0_r in Hb.
  rewrite filter_cons, (IH (off + 1)%Z) by (intros i x Hx; rewrite (Hl (S i) x Hx); lia).
  rewrite Hb. case_decide as Hin.
  - replace (Z.to_nat (start - (off + 1))) with 0 by lia.
    replace (Z.to_nat (start - off)) with 0 by lia. rewrite !drop_0.
    replace (Z.to_nat (end_ - Z.max start off + 1))
      with (S (Z.to_nat (end_ - Z.max start (off + 1) + 1))) by lia. done.
  - destruct (decide (start <= off)%Z).
    + replace (Z.to_nat (end_ - Z.max start off + 1)) with 0 by lia.
      by replace (Z.to_nat (end_ - Z.max start (off + 1) + 1)) with 0 by lia.
    + replace (Z.to_nat (start - off)) with (S (Z.to_nat (start - (off + 1)))) by lia; simpl.
      by replace (Z.max start (off + 1)) with (Z.max start off) by lia.
Qed.

(** No file operation panics. *)
Lemma Chain_save_block_no_panic c b p s :
  block_ok b -> block_ordinal b = Z.of_nat (Chain_len c) ->
  fst (Chain_save_block (Chain_add_block c b) (block_ordinal b) p s) <> Panic.
Proof.
  intros Hok Hb. unfold Chain_save_block. unfold_stm. rewrite get_block_position_last by done; simpl.
  unfold Chain_len. rewrite lookup_app_r, Nat.sub_diag by lia; simpl.
  destruct (bincode_roundtrip b Hok) as (bs & -> & _); simpl.
  unfold fs_open_create, fs_write_all, fs_sync_all, fs_check. unfold_stm.
  repeat (simpl in *; first [case_match; simplify_eq/= | done]).
Qed.

(** ** Properties *)

(** C1. Adding a payload to a non-empty blockchain whose directory is in step
    appends exactly one block: it carries the payload, its ordinal is its position,
    its parent hash is the hash of the block before it, its own hash and signature
    verify, the earlier blocks are untouched, and the block is on disk. *)
Theorem add_block_extends st payload kp d_tx d_block :
  bc_inv st -> 0 < Chain_len (chain (bc st)) ->
  (Z.of_nat (Chain_len (chain (bc st))) < 2 ^ 128)%Z ->
  draw_ok d_tx -> draw_ok d_block ->
  exists b st', Blockchain_add_block payload kp d_tx d_block st = (Ok tt, st')
    /\ blocks (chain (bc st')) = blocks (chain (bc st)) ++ [b]
    /\ fetch_payload b = [payload]
    /\ block_ordinal b = Z.of_nat (Chain_len (chain (bc st)))
    /\ block_sealed b
    /\ (forall l, Blockchain_last_block (bc st) = Some l ->
          header_parent_hash (block_header b) = header_hash (block_header l))
    /\ bc_inv st'.
Proof.
  intros Hi Hlen Hsmall Hd1 Hd2.
  destruct (add_block_next st payload kp d_tx d_block)
    as (b & st' & Hadd & Hi' & Hb & _ & Hpay & _); [done..|].
  exists b, st'. do 3 (split; [done|]).
  assert (blocks (chain (bc st')) !! Chain_len (chain (bc st)) = Some b) as Hlast.
  { rewrite Hb. unfold Chain_len. by rewrite lookup_app_r, Nat.sub_diag by lia. }
  split; [by apply (cv_ordered _ (inv_valid _ Hi'))|].
  split; [by apply (Forall_lookup_1 _ _ _ _ (cv_sealed _ (inv_valid _ Hi')) Hlast)|].
  split; [|done]. intros l Hl.
  apply (cv_linked _ (inv_valid _ Hi') (pred (Chain_len (chain (bc st))))).
  - rewrite Hb. unfold Blockchain_last_block, Chain_last_block in Hl.
    rewrite last_lookup in Hl. rewrite lookup_app_l; [done|]. unfold Chain_len in *. lia.
  - by replace (S (pred (Chain_len (chain (bc st))))) with (Chain_len (chain (bc st))) by lia.
Qed.


(** C10. Restarting a node gives back the very chain it had, as long as the blocks that peers sent carried the next
    ordinal: whatever it did since its first start, [Blockchain::new] on its directory returns the same blockchain
    and leaves the disk as it was.  A block with another ordinal is appended in memory but is gone after a restart, which gives the chain
    before it. *)
Theorem restart_restores_chain kp dir d_tx d_block s b0 s0 n st kp' d_tx' d_block' :
  fresh_dir s dir -> draw_ok d_tx -> draw_ok d_block ->
  Blockchain_new kp dir d_tx d_block s = (Ok b0, s0) ->
  nsteps (node_step numbered_block) n {| bc := b0; disk := s0 |} st ->
  (Z.of_nat n < 2 ^ 31 - 1)%Z ->
  Blockchain_new kp' dir d_tx' d_block' (disk st) = (Ok (bc st), disk st)
  /\ forall b, block_ok b -> block_ordinal b <> Z.of_nat (Chain_len (chain (bc st))) ->
       let st' := snd (update_block_from_peers b st) in
       blocks (chain (bc st')) = blocks (chain (bc st)) ++ [b]
       /\ Blockchain_new kp' dir d_tx' d_block' (disk st') = (Ok (bc st), disk st').
Proof.
  intros Hf Hd1 Hd2 Hnew Hn Hsmall.
  destruct (node_runs bc_stored numbered_block (fun _ x => x) numbered_commit kp dir d_tx d_block s b0 s0 n st 0 st)
    as (Hi & _ & Hpos & Hle & Hpath); [by auto|done..|by apply nsteps_O|lia|].
  assert (Blockchain_new kp' dir d_tx' d_block' (disk st) = (Ok (bc st), disk st)) as Hres.
  { destruct Hi as [Ho Hok Hst Hr]. rewrite Hpath in Hst.
    rewrite (Blockchain_new_restart kp' dir d_tx' d_block' (disk st) (chain (bc st))); try done.
    - rewrite <- Hpath. by destruct st as [[]].
    - unfold Chain_len in Hpos. by destruct (blocks _); [simpl in Hpos; lia|].
    - lia. }
  split; [done|]. intros b Hb Hne.
  destruct (commit_block_misnumbered st b) as (st' & Hc & Hbl & _ & Hd); [done|apply Hb|done|].
  unfold update_block_from_peers. rewrite Hc. simpl. rewrite Hd. done.
Qed.

(** [commit_block] does not check the ordinal of the block it is given: a block
    that does not carry the next ordinal is appended to the chain in memory
    nevertheless, which breaks the order of the sequence; it is not on disk.  With a
    later ordinal the call returns an error, with an earlier one it returns [Ok]. *)
Theorem commit_misnumbered_breaks_chain st b :
  bc_inv st -> (0 <= block_ordinal b)%Z ->
  block_ordinal b <> Z.of_nat (Chain_len (chain (bc st))) ->
  let '(o, st') := commit_block b st in
  o = (if (block_ordinal b <? Z.of_nat (Chain_len (chain (bc st))))%Z then Ok tt
       else Err (InvalidBlockchainLength (S (Chain_len (chain (bc st))))))
  /\ blocks (chain (bc st')) = blocks (chain (bc st)) ++ [b]
  /\ ~ chain_valid (chain (bc st'))
  /\ stored (disk st') (blockchain_path (bc st')) (chain (bc st)).
Proof.
  intros Hi Hpos Hne.
  destruct (commit_block_misnumbered st b (bc_inv_stored st Hi) Hpos Hne) as (st' & -> & Hb & Hp & Hd).
  split; [done|]. split; [done|]. split.
  - intros Hv. apply Hne. apply (cv_ordered _ Hv). rewrite Hb. unfold Chain_len.
    by rewrite lookup_app_r, Nat.sub_diag by lia.
  - rewrite Hp, Hd. apply Hi.
Qed.

(** On a blockchain in step with its directory, [pull_blocks] returns exactly the
    blocks whose ordinals are from [start] to [end], both included, in order; and
    nothing when [end] is beyond the chain. *)
Theorem pull_blocks_range st start end_ :
  bc_inv st -> (0 <= start)%Z -> (0 <= end_)%Z ->
  pull_blocks (bc st) start end_
  = Ok (if decide (end_ < Z.of_nat (Chain_len (chain (bc st))))%Z
        then filter (fun b => (start <= block_ordinal b <= end_)%Z) (blocks (chain (bc st))) else []).
Proof.
  intros Hi Hs He. unfold pull_blocks. rewrite retrieve_blocks_valid by (try apply Hi; done).
  rewrite (filter_ordinals _ 0) by (intros i b Hb; by rewrite (cv_ordered _ (inv_valid _ Hi) i b Hb)).
  rewrite Z.max_l, Z.sub_0_r by lia. do 2 case_decide; try lia; try done.
  by replace (Z.to_nat (end_ - start + 1)) with 0 by lia.
Qed.

(** C39. Starting never panics and always returns: on any disk of fewer than 2^31 nodes,
    whatever the files hold and whichever operations fail, the loop of [load_blocks]
    stops and [Blockchain::new] returns a blockchain or an error. *)
Theorem startup_never_panics kp dir d_tx d_block s :
  (Z.of_nat (size (fs_nodes s)) < 2 ^ 31)%Z -> draw_ok d_tx -> draw_ok d_block ->
  fst (Blockchain_new kp dir d_tx d_block s) <> Panic.
Proof.
  intros Hsz Hdt Hdb. unfold Blockchain_new.
  pose proof (load_blocks_total s dir Chain_default Hsz) as Hload.
  destruct (load_blocks s dir Chain_default) as [[[]| |] c]; [|done|done].
  unfold Chain_is_empty. case_bool_decide as Hc; [|done]. destruct c as [bl]; simpl in Hc; subst bl.
  destruct (@Transaction_new_spec _ _ _ _ BlockchainError Create
    (Address_from_public_key (public kp))
    (as_bytes "this is the first reserved transaction") kp d_tx)
    as (tx & Htx & _ & _ & _ & Htok & _); [done|]. rewrite Htx; simpl.
  destruct (@Block_new_spec _ _ _ _ BlockchainError (HashDigest_new []) 0%Z [tx] kp d_block)
    as (b & Hb & _ & Hbo & _ & _ & Hok & Hsl); [unfold fits; lia|done|by constructor|].
  rewrite Hb; simpl. unfold Blockchain_save_block. unfold_stm.
  pose proof (Chain_save_block_no_panic Chain_default b (block_file dir (block_ordinal b)) s Hok Hbo)
    as Hsave. unfold block_ordinal in Hsave. change {| blocks := [] |} with Chain_default.
  by destruct (Chain_save_block _ _ _ _) as [[] ?].
Qed.
End Blockchain.

(** ** A concrete node

    Key pair 7, directory [bc], an empty disk, two payloads. *)
Definition sample_fs : Fs := {| fs_nodes := ∅; fs_fault := fun _ _ => None |}.
Definition sample_draw : draw := {| draw_secs := 1700000000; draw_nonce := 42 |}.
Definition sample_kp : Keypair := x07.

Definition booted (r : outcome BlockchainError Blockchain * Fs) : BcState :=
  match r with
  | (Ok b, s) => {| bc := b; disk := s |}
  | (_, s) => {| bc := Blockchain_empty_new ""; disk := s |}
  end.

Definition sample_boot : BcState :=
  booted (Blockchain_new sample_kp "bc" sample_draw sample_draw sample_fs).

Definition sample_add (payload : string) (st : BcState) : BcState :=
  snd (Blockchain_add_block (as_bytes payload) sample_kp sample_draw sample_draw st).

Definition sample_st1 : BcState := sample_add "one" sample_boot.
Definition sample_st2 : BcState := sample_add "two" sample_st1.

Lemma sample_draw_ok : draw_ok sample_draw.
Proof. split; unfold fits; simpl; lia. Qed.

Lemma sample_fresh : fresh_dir sample_fs "bc".
Proof. done. Qed.

Lemma sample_booted :
  Blockchain_new sample_kp "bc" sample_draw sample_draw sample_fs
  = (Ok (bc sample_boot), disk sample_boot).
Proof. vm_compute. reflexivity. Qed.

Lemma sample_add_step sent payload st : node_step sent st (sample_add payload st).
Proof.
  apply node_session. eapply (node_add sent (as_bytes payload) sample_kp sample_draw sample_draw _ (fst _));
    [apply sample_draw_ok..|apply surjective_pairing].
Qed.

Lemma sample_steps sent :
  nsteps (node_step sent) 1 sample_boot sample_st1 /\ nsteps (node_step sent) 1 sample_st1 sample_st2.
Proof. split; apply nsteps_once; apply sample_add_step. Qed.

Lemma booted_inv kp dir d_tx d_block s :
  fresh_dir s dir -> draw_ok d_tx -> draw_ok d_block ->
  bc_inv (booted (Blockchain_new kp dir d_tx d_block s)).
Proof.
  intros Hf Hd1 Hd2.
  by destruct (Blockchain_new_fresh kp dir d_tx d_block s)
    as (b & s' & -> & Hi); [apply Hf|apply fresh_dir_stored, Hf|..].
Qed.

Lemma sample_st1_inv : bc_inv sample_st1.
Proof.
  eapply (node_steps_progress bc_inv next_block bc_inv_stored next_commit 1 sample_boot);
    [|vm_compute; lia|vm_compute; discriminate|apply sample_steps].
  apply booted_inv; [apply sample_fresh|apply sample_draw_ok..].
Qed.

Lemma add_block_extends_witness :
  exists b st', Blockchain_add_block (as_bytes "two") sample_kp sample_draw sample_draw sample_st1
                = (Ok tt, st')
    /\ blocks (chain (bc st')) = blocks (chain (bc sample_st1)) ++ [b]
    /\ fetch_payload b = [as_bytes "two"].
Proof.
  destruct (add_block_extends sample_st1 (as_bytes "two") sample_kp sample_draw sample_draw)
    as (b & st' & Hadd & Hb & Hpay & _).
  - apply sample_st1_inv.
  - vm_compute. lia.
  - vm_compute. reflexivity.
  - apply sample_draw_ok.
  - apply sample_draw_ok.
  - exists b, st'. auto.
Defined.

(** The genesis block, sent again to a node that has two blocks. *)
Definition sample_genesis : Block :=
  match blocks (chain (bc sample_boot)) with
  | b :: _ => b
  | [] => {| block_header :=
               {| header_parent_hash := HashDigest_new []; header_transactions_hash := HashDigest_new [];
                  header_committer := Address_from_public_key x00; header_timestamp := 0;
                  header_ordinal := 0%Z; header_nonce := 0; header_hash := HashDigest_new [] |};
             block_transactions := [];
             block_block_signature := {| bs_signature := {| signature := [] |}; bs_public_key := [] |} |}
  end.

Lemma sample_genesis_ok : block_ok sample_genesis.
Proof. repeat first [split | constructor]; vm_compute; first [reflexivity | discriminate]. Qed.


Lemma restart_restores_chain_witness :
  Blockchain_new x09 "bc" sample_draw sample_draw (disk sample_st1)
  = (Ok (bc sample_st1), disk sample_st1)
  /\ Blockchain_new x09 "bc" sample_draw sample_draw (disk (snd (update_block_from_peers sample_genesis sample_st1)))
     = (Ok (bc sample_st1), disk (snd (update_block_from_peers sample_genesis sample_st1))).
Proof.
  destruct (restart_restores_chain sample_kp "bc" sample_draw sample_draw sample_fs
           (bc sample_boot) (disk sample_boot) 1 sample_st1 x09 sample_draw sample_draw) as [Hr Hb].
  - apply sample_fresh.
  - apply sample_draw_ok.
  - apply sample_draw_ok.
  - apply sample_booted.
  - apply sample_steps.
  - vm_compute. reflexivity.
  - split; [exact Hr|]. destruct (Hb sample_genesis) as [_ Hg];
      [apply sample_genesis_ok|vm_compute; discriminate|exact Hg].
Defined.

Lemma commit_misnumbered_breaks_chain_witness :
  fst (commit_block sample_genesis sample_st1) = Ok tt
  /\ ~ chain_valid (chain (bc (snd (commit_block sample_genesis sample_st1)))).
Proof.
  pose proof (commit_misnumbered_breaks_chain sample_st1 sample_genesis sample_st1_inv) as Hc.
  destruct (commit_block sample_genesis sample_st1) as [o st'] eqn:E.
  destruct Hc as (Ho & _ & Hnv & _); [vm_compute; discriminate|vm_compute; discriminate|].
  split; [|done]. rewrite Ho. vm_compute. reflexivity.
Defined.

Lemma pull_blocks_range_witness :
  pull_blocks (bc sample_st1) 1%Z 1%Z = Ok (filter (fun b => (1 <= block_ordinal b <= 1)%Z) (blocks (chain (bc sample_st1))))
  /\ pull_blocks (bc sample_st1) 0%Z 7%Z = Ok [].
Proof.
  split; [apply (pull_blocks_range sample_st1 1%Z 1%Z)|apply (pull_blocks_range sample_st1 0%Z 7%Z)];
    solve [apply sample_st1_inv | lia].
Defined.

(** A disk whose first block file is garbage and on which every write fails. *)
Definition broken_fs : Fs := {|
  fs_nodes := <["bc/0.ser" := NFile [x41; x42]]> ∅;
  fs_fault := fun op _ => match op with OpWrite => Some PermissionDenied | _ => None end |}.

Lemma startup_never_panics_witness :
  fst (Blockchain_new sample_kp "bc" sample_draw sample_draw broken_fs) <> Panic.
Proof.
  apply (startup_never_panics sample_kp "bc" sample_draw sample_draw broken_fs);
    [vm_compute; reflexivity|apply sample_draw_ok..].
Defined.
