(* ===== verification/Identities.v ===== *)
(** * Identities: authorities and multisignatures

    Models src/blockchain/src/identities: the pen that signs for a node
    (authority_pen.rs), the verifier that knows the keys of the authorities
    (authority_verifier.rs), the key box that joins them (key_box.rs) and the codec
    of a public key (verify_key.rs).  The multisignature type of aleph_bft is a
    parameter. *)

From S2P Require Import Prelude Crypto Sample.

(** aleph_bft's [SignatureSet]: the nodes that signed, each with its signature. *)
Class SignatureSet `{Crypto} := {
  MultiSignature : Type;
  with_size : nat -> MultiSignature;
  add_signature : MultiSignature -> Signature -> nat -> MultiSignature;
  ms_iter : MultiSignature -> list (nat * Signature);
}.

(** A node signs at most once; a set starts empty; a signature of a node below the
    size of the set is added. *)
Class SignatureSetOk `{SignatureSet} : Prop := {
  ms_iter_nodup m : NoDup (ms_iter m).*1;
  ms_iter_single n sgn i : i < n -> ms_iter (add_signature (with_size n) sgn i) = [(i, sgn)];
}.

Section Identities.
Context `{SignatureSet}.

(** ** authority_pen.rs *)
Record AuthorityPen := { pen_index : nat; pen_keypair : Keypair }.

Definition AuthorityPen_new (index : nat) (kp : Keypair) : AuthorityPen :=
  {| pen_index := index; pen_keypair := kp |}.
Definition AuthorityPen_public (p : AuthorityPen) : PublicKey := public (pen_keypair p).
Definition AuthorityPen_sign {E} (p : AuthorityPen) (msg : bytes) : outcome E Signature :=
  Signature_new msg (pen_keypair p).

(** ** authority_verifier.rs *)
Record AuthorityVerifier := { authorities : gmap nat PublicKey }.

Definition AuthorityVerifier_new : AuthorityVerifier := {| authorities := ∅ |}.

Definition AuthorityVerifier_save (v : AuthorityVerifier) (node_ix : nat) (pk : PublicKey) :
    AuthorityVerifier :=
  {| authorities := <[node_ix := pk]> (authorities v) |}.

Definition AuthorityVerifier_verify (v : AuthorityVerifier) (msg : bytes) (sgn : Signature)
    (index : nat) : bool :=
  let sig := Signature_to_bytes sgn in
  match authorities v !! index with
  | Some pk => public_key_verify pk msg sig
  | None => false
  end.

Definition AuthorityVerifier_node_count (v : AuthorityVerifier) : nat := size (authorities v).

Definition threshold (v : AuthorityVerifier) : nat :=
  2 * AuthorityVerifier_node_count v / 3 + 1.

Definition AuthorityVerifier_is_complete (v : AuthorityVerifier) (msg : bytes)
    (partial : MultiSignature) : bool :=
  let signature_count := length (ms_iter partial) in
  if (signature_count <? threshold v)%nat then false
  else forallb (fun '(i, sgn) => AuthorityVerifier_verify v msg sgn i) (ms_iter partial).

(** ** key_box.rs *)
Record KeyBox := { authority_pen : AuthorityPen; authority_verifier : AuthorityVerifier }.

Definition record_authority (kb : KeyBox) (node_index : nat) (pk : PublicKey) : KeyBox :=
  {| authority_pen := authority_pen kb;
     authority_verifier := AuthorityVerifier_save (authority_verifier kb) node_index pk |}.

Definition KeyBox_new (pen : AuthorityPen) (v : AuthorityVerifier) : KeyBox :=
  let kb := {| authority_pen := pen; authority_verifier := v |} in
  record_authority kb (pen_index (authority_pen kb)) (AuthorityPen_public (authority_pen kb)).

Definition KeyBox_node_count (kb : KeyBox) : nat :=
  AuthorityVerifier_node_count (authority_verifier kb).
Definition KeyBox_sign {E} (kb : KeyBox) (msg : bytes) : outcome E Signature :=
  AuthorityPen_sign (authority_pen kb) msg.
Definition KeyBox_verify (kb : KeyBox) (msg : bytes) (sgn : Signature) (index : nat) : bool :=
  AuthorityVerifier_verify (authority_verifier kb) msg sgn index.
Definition KeyBox_from_signature (kb : KeyBox) (sgn : Signature) (index : nat) : MultiSignature :=
  add_signature (with_size (AuthorityVerifier_node_count (authority_verifier kb))) sgn index.
Definition KeyBox_is_complete (kb : KeyBox) (msg : bytes) (partial : MultiSignature) : bool :=
  AuthorityVerifier_is_complete (authority_verifier kb) msg partial.
Definition KeyBox_index (kb : KeyBox) : nat := pen_index (authority_pen kb).

(** ** verify_key.rs *)
Record VerifyKey := { verify_key_public : PublicKey }.

(** A [[u8; 32]] is encoded as its bytes. *)
Definition VerifyKey_encode (k : VerifyKey) : bytes := encode_public_key (verify_key_public k).

(** Reads 32 bytes of the input; the rest of the input is returned too. *)
Definition VerifyKey_decode (input : bytes) : option (VerifyKey * bytes) :=
  if decide (length input < 32) then None
  else match decode_public_key (take 32 input) with
       | Some pk => Some ({| verify_key_public := pk |}, drop 32 input)
       | None => None
       end.

(** ** Lemmas *)
Definition signers (partial : MultiSignature) : gset nat := list_to_set (ms_iter partial).*1.

Lemma complete_signers v msg p :
  AuthorityVerifier_is_complete v msg p = true ->
  threshold v <= length (ms_iter p)
  /\ Forall (fun '(i, sgn) => AuthorityVerifier_verify v msg sgn i = true) (ms_iter p).
Proof.
  unfold AuthorityVerifier_is_complete.
  destruct (Nat.ltb_spec (length (ms_iter p)) (threshold v)); [done|].
  intros Hall. split; [done|]. apply Forall_forall. intros [i s] Hin.
  apply list_elem_of_In in Hin. rewrite forallb_forall in Hall. by apply (Hall _ Hin).
Qed.

Lemma verified_in_dom v msg sgn i :
  AuthorityVerifier_verify v msg sgn i = true -> i ∈ dom (authorities v).
Proof.
  unfold AuthorityVerifier_verify. intros Hv. apply elem_of_dom.
  by destruct (authorities v !! i).
Qed.

Context `{!SignatureSetOk}.

Lemma complete_size v msg p :
  AuthorityVerifier_is_complete v msg p = true ->
  threshold v <= size (signers p) /\ signers p ⊆ dom (authorities v).
Proof.
  intros [Hlen Hall]%complete_signers. unfold signers. split.
  - rewrite size_list_to_set by apply ms_iter_nodup. by rewrite length_fmap.
  - intros i Hi. apply elem_of_list_to_set, list_elem_of_fmap in Hi as ([j s] & -> & Hj).
    rewrite Forall_forall in Hall. apply Hall in Hj. by eapply verified_in_dom.
Qed.

(** ** Properties *)

(** C22. Two complete multisignatures, on whatever two messages, have more than a
    third of the authorities in common: with at most a third of them faulty, no two
    conflicting messages are both complete. *)
Theorem quorum_intersection v msg1 msg2 p1 p2 :
  AuthorityVerifier_is_complete v msg1 p1 = true ->
  AuthorityVerifier_is_complete v msg2 p2 = true ->
  AuthorityVerifier_node_count v < 3 * size (signers p1 ∩ signers p2).
Proof.
  intros [Hs1 Hd1]%complete_size [Hs2 Hd2]%complete_size.
  assert (size (signers p1 ∪ signers p2) <= AuthorityVerifier_node_count v) as Hu.
  { unfold AuthorityVerifier_node_count. rewrite <- size_dom. apply subseteq_size. set_solver. }
  assert (size (signers p1 ∪ signers p2) + size (signers p1 ∩ signers p2)
          = size (signers p1) + size (signers p2)) as Hie.
  { rewrite size_union_alt, <- Nat.add_assoc. f_equal.
    rewrite <- (size_union (signers p2 ∖ signers p1) (signers p1 ∩ signers p2)) by set_solver.
    f_equal. apply set_eq. intros x. destruct (decide (x ∈ signers p1)); set_solver. }
  unfold threshold in *.
  pose proof (Nat.div_mod_eq (2 * AuthorityVerifier_node_count v) 3).
  pose proof (Nat.mod_upper_bound (2 * AuthorityVerifier_node_count v) 3). lia.
Qed.

Context `{!CryptoOk}.

(** A key box trusts itself: it accepts, under its own index, what it signs,
    whatever other authorities are recorded under other indices. *)
Theorem keybox_trusts_itself pen v others msg :
  Forall (fun '(i, _) => i <> pen_index pen) others ->
  let kb := foldr (fun '(i, pk) kb => record_authority kb i pk) (KeyBox_new pen v) others in
  exists sgn, @KeyBox_sign unit kb msg = Ok sgn /\ KeyBox_verify kb msg sgn (KeyBox_index kb) = true.
Proof.
  intros Ho kb.
  assert (authority_pen kb = pen /\
          authorities (authority_verifier kb) !! pen_index pen = Some (AuthorityPen_public pen))
    as [Hpen Hkey].
  { subst kb. induction others as [|[i pk] others IH]; simpl.
    - by rewrite lookup_insert_eq.
    - apply Forall_cons in Ho as [Hi Ho]. destruct (IH Ho) as [? ?].
      by rewrite lookup_insert_ne. }
  unfold KeyBox_sign, KeyBox_verify, KeyBox_index, AuthorityPen_sign. rewrite Hpen.
  destruct (@Signature_new_spec _ _ unit msg (pen_keypair pen)) as (s & Hs & _ & Hv).
  exists s. split; [done|]. unfold AuthorityVerifier_verify. by rewrite Hkey.
Qed.

(** A public key is read back from its encoding, whatever follows. *)
Lemma verify_key_roundtrip k rest :
  length (VerifyKey_encode k) = 32 ->
  VerifyKey_decode (VerifyKey_encode k ++ rest) = Some (k, rest).
Proof.
  unfold VerifyKey_encode, VerifyKey_decode. intros Hlen. rewrite length_app, Hlen.
  rewrite decide_False by lia.
  rewrite take_app_length' by done. rewrite decode_encode_public_key.
  rewrite drop_app_length' by done. by destruct k.
Qed.
End Identities.

(** ** A concrete committee: authorities 0, 1 and 2 with keys 0, 1 and 2 *)
#[export] Instance sample_signature_set : SignatureSet := {|
  MultiSignature := gmap nat Signature;
  with_size := fun _ => ∅;
  add_signature := fun m s i => <[i := s]> m;
  ms_iter := map_to_list;
|}.

#[export] Instance sample_signature_set_ok : SignatureSetOk.
Proof.
  split.
  - intros m. apply NoDup_fst_map_to_list.
  - intros n sgn i _.
    change (map_to_list (<[i:=sgn]> (∅ : gmap nat Signature)) = [(i, sgn)]).
    rewrite insert_empty. apply map_to_list_singleton.
Qed.

Definition sample_verifier : AuthorityVerifier :=
  AuthorityVerifier_save (AuthorityVerifier_save (AuthorityVerifier_save
    AuthorityVerifier_new 0 x00) 1 x01) 2 x02.

Definition sample_sig (kp : byte) (msg : bytes) : Signature :=
  match @Signature_new _ unit msg kp with Ok s => s | _ => {| signature := [] |} end.

Definition sample_quorum (msg : bytes) : MultiSignature :=
  add_signature (add_signature (add_signature (with_size 3)
    (sample_sig x00 msg) 0) (sample_sig x01 msg) 1) (sample_sig x02 msg) 2.

Lemma quorum_intersection_witness :
  3 < 3 * size (signers (sample_quorum [x61]) ∩ signers (sample_quorum [x62])).
Proof.
  apply (quorum_intersection sample_verifier [x61] [x62]); vm_compute; reflexivity.
Defined.

Definition sample_pen : AuthorityPen := AuthorityPen_new 0 (x05 : Keypair).

Definition sample_other_key : PublicKey := x09.

Lemma keybox_trusts_itself_witness :
  let kb := record_authority (KeyBox_new sample_pen sample_verifier) 1 sample_other_key in
  exists sgn, KeyBox_sign (E:=unit) kb [x61] = Ok sgn
              /\ KeyBox_verify kb [x61] sgn (KeyBox_index kb) = true.
Proof.
  apply (keybox_trusts_itself sample_pen sample_verifier [(1, sample_other_key)] [x61]).
  repeat constructor. discriminate.
Defined.
