(* ===== verification/BlockchainService.v ===== *)
(** * BlockchainService: the blockchain of a node in its network

    Models src/blockchain_service/service.rs.  What the service uses of the
    peer-to-peer client is the interface [BlockchainNet]; the disk and the
    blockchain are the [BcState] of [Blockchain]. *)

From S2P Require Import Prelude Crypto Structures Sample FileSystem Chain Blockchain.

Definition BLOCKCHAIN_COMMAND_LENGTH : nat := 1.
Definition BLOCKCHAIN_ORDINAL_LENGTH : nat := 16.
Definition BLOCKCHAIN_MAX_SIZE_PER_MESSAGE : Z := 10 * 1024 * 1024.

(** [#[repr(u8)] enum BlockchainCommand]. *)
Inductive BlockchainCommand :=
| Broadcast
| PushToPeer
| PullFromPeer
| QueryHighestBlockOrdinal.

#[export] Instance BlockchainCommand_eq_dec : EqDecision BlockchainCommand.
Proof. solve_decision. Defined.

(** [cmd as u8]. *)
Definition command_as_u8 (c : BlockchainCommand) : byte :=
  match c with
  | Broadcast => x01
  | PushToPeer => x02
  | PullFromPeer => x03
  | QueryHighestBlockOrdinal => x04
  end.

(** [TryFrom<u8>]. *)
Definition command_try_from (value : byte) : outcome BlockchainError BlockchainCommand :=
  match value with
  | x01 => Ok Broadcast
  | x02 => Ok PushToPeer
  | x03 => Ok PullFromPeer
  | x04 => Ok QueryHighestBlockOrdinal
  | _ => Err InvalidBlockchainCmd
  end.

Lemma command_roundtrip c : command_try_from (command_as_u8 c) = Ok c.
Proof. by destruct c. Qed.

Lemma command_try_from_sound v c : command_try_from v = Ok c -> v = command_as_u8 c.
Proof. destruct v; simpl; intros; inv_outcome; done. Qed.

(** ** The network, as the service uses it

    [broadcast_block] and [request_blockchain] of the client; an
    [anyhow::Error] is its message. *)
Class BlockchainNet `{Crypto} (N : Type) := {
  net_broadcast_block : bytes -> stm N string unit;
  net_request_blockchain : PeerId -> bytes -> stm N string bytes;
}.

Section Service.
Context `{Crypto} `{!BlockBincode} {N : Type} `{!BlockchainNet N}.

Record BlockchainService := {
  svc_chain : BcState;
  svc_keypair : Keypair;
  svc_p2p_client : N;
}.

Definition with_chain (st : BcState) (s : BlockchainService) : BlockchainService :=
  {| svc_chain := st; svc_keypair := svc_keypair s; svc_p2p_client := svc_p2p_client s |}.
Definition with_client (n : N) (s : BlockchainService) : BlockchainService :=
  {| svc_chain := svc_chain s; svc_keypair := svc_keypair s; svc_p2p_client := n |}.

(** Runs a method of the blockchain, or of the client. *)
Definition on_chain {E A} (c : stm BcState E A) : stm BlockchainService E A :=
  szoom svc_chain with_chain c.
Definition on_client {E A} (c : stm N E A) : stm BlockchainService E A :=
  szoom svc_p2p_client with_client c.

(** ** Starting *)
Definition init_first_blockchain_node (local_keypair blockchain_keypair : Keypair) (client : N)
    (dir : string) (d_tx d_block : draw) : stm Fs BlockchainError (BlockchainService) :=
  let! _ := smap_err IOError (fs_create_dir_all dir) in
  let! b := Blockchain_new blockchain_keypair dir d_tx d_block in
  fun s => (Ok {| svc_chain := {| bc := b; disk := s |}; svc_keypair := local_keypair;
                  svc_p2p_client := client |}, s).

Definition init_other_blockchain_node (local_keypair : Keypair) (client : N) (dir : string) :
    stm Fs BlockchainError (BlockchainService) :=
  let! _ := smap_err IOError (fs_create_dir_all dir) in
  fun s => (Ok {| svc_chain := {| bc := Blockchain_empty_new dir; disk := s |};
                  svc_keypair := local_keypair; svc_p2p_client := client |}, s).

(** ** Messages to peers *)
Definition broadcast_message {E} (b : Block) : outcome E bytes :=
  let block_ordinal := header_ordinal (block_header b) in
  let? o := unwrap (serialize block_ordinal) in
  let? bs := unwrap (serialize b) in
  Ok ([command_as_u8 Broadcast] ++ o ++ bs).

Definition query_message : bytes := [command_as_u8 QueryHighestBlockOrdinal].

Definition pull_message {E} (start end_ : Ordinal) : outcome E bytes :=
  let? s := unwrap (serialize start) in
  let? e := unwrap (serialize end_) in
  Ok ([command_as_u8 PullFromPeer] ++ s ++ e).

Definition broadcast_blockchain (b : Block) : stm BlockchainService BlockchainError unit :=
  let! buf := slift (broadcast_message b) in
  smap_err (fun e => AnyhowError ("Failed to broadcast block. Error = " +:+ e))
    (on_client (net_broadcast_block buf)).

Definition query_blockchain_ordinal (other_peer_id : PeerId) :
    stm BlockchainService BlockchainError Ordinal :=
  let! resp := smap_err AnyhowError (on_client (net_request_blockchain other_peer_id query_message)) in
  slift (unwrap (deserialize resp)).

Definition pull_block_from_other_nodes (other_peer_id : PeerId) (start end_ : Ordinal) :
    stm BlockchainService BlockchainError (list Block) :=
  let! buf := slift (pull_message start end_) in
  let! resp := smap_err AnyhowError (on_client (net_request_blockchain other_peer_id buf)) in
  slift (unwrap (deserialize resp)).

(** ** Payloads and blocks *)
Definition add_payload (payload : bytes) (d_tx d_block : draw) :
    stm BlockchainService BlockchainError unit :=
  let! s := sget in
  let! _ := on_chain (Blockchain_add_block payload (svc_keypair s) d_tx d_block) in
  let! s := sget in
  let! last := slift (unwrap (Blockchain_last_block (bc (svc_chain s)))) in
  broadcast_blockchain last.

Definition service_add_block (ordinal : Ordinal) (block : Block) :
    stm BlockchainService BlockchainError unit :=
  let! s := sget in
  match Blockchain_last_block (bc (svc_chain s)) with
  | None =>
      if (ordinal =? 0)%Z then on_chain (update_block_from_peers block) else sret tt
  | Some last_block =>
      let expected := wrap 128 (header_ordinal (block_header last_block) + 1) in
      match (ordinal ?= expected)%Z with
      | Gt => serr LaggingBlockchainData
      | Lt => sret tt
      | Eq => on_chain (update_block_from_peers block)
      end
  end.

Definition service_pull_blocks (s : BlockchainService) (start end_ : Ordinal) :
    outcome BlockchainError (list Block) :=
  pull_blocks (bc (svc_chain s)) start end_.

Definition query_last_block (s : BlockchainService) : option Block :=
  Blockchain_last_block (bc (svc_chain s)).

Definition init_pull_from_others (other_peer_id : PeerId) :
    stm BlockchainService BlockchainError Ordinal :=
  let! ordinal := query_blockchain_ordinal other_peer_id in
  let! blocks := pull_block_from_other_nodes other_peer_id 0%Z ordinal in
  let! _ := sfor blocks (fun block =>
    service_add_block (header_ordinal (block_header block)) block) in
  sret ordinal.

(** ** Lemmas *)
Context `{!CryptoOk, !BlockBincodeOk}.

Abbreviation svc_blocks s := (blocks (chain (bc (svc_chain s)))).

(** What a run of blocks from peers leaves alone. *)
Definition same_node (s s' : BlockchainService) : Prop :=
  svc_keypair s' = svc_keypair s /\ svc_p2p_client s' = svc_p2p_client s
  /\ blockchain_path (bc (svc_chain s')) = blockchain_path (bc (svc_chain s)).

(** The ordinal the service expects next is the length of its chain. *)
Lemma expected_ordinal c l :
  chain_valid c -> (Z.of_nat (Chain_len c) < 2 ^ 128)%Z -> Chain_last_block c = Some l ->
  wrap 128 (header_ordinal (block_header l) + 1) = Z.of_nat (Chain_len c).
Proof.
  intros Hv Hlen Hl. destruct (last_ordinal c l (cv_ordered _ Hv) Hl) as [Ho Hpos].
  unfold block_ordinal in Ho. rewrite Ho, wrap_small; [lia|]. unfold fits. lia.
Qed.

Lemma service_add_block_skips s ordinal b :
  bc_inv (svc_chain s) -> (Z.of_nat (length (svc_blocks s)) < 2 ^ 128)%Z ->
  (0 <= ordinal < Z.of_nat (length (svc_blocks s)))%Z ->
  service_add_block ordinal b s = (Ok tt, s).
Proof.
  intros Hi Hlen Ho. unfold service_add_block. unfold_stm.
  destruct (Blockchain_last_block (bc (svc_chain s))) as [l|] eqn:Hl.
  - rewrite (expected_ordinal (chain (bc (svc_chain s)))) by (try apply Hi; done).
    unfold Chain_len. destruct (Z.compare_spec ordinal (Z.of_nat (length (svc_blocks s)))); [lia|done|lia].
  - unfold Blockchain_last_block, Chain_last_block in Hl. apply last_None in Hl.
    rewrite Hl in Ho. simpl in Ho. lia.
Qed.

Lemma service_add_block_commits s b :
  bc_inv (svc_chain s) -> (Z.of_nat (length (svc_blocks s)) < 2 ^ 128)%Z ->
  service_add_block (Z.of_nat (length (svc_blocks s))) b s = on_chain (commit_block b) s.
Proof.
  intros Hi Hlen. unfold service_add_block. unfold_stm.
  destruct (Blockchain_last_block (bc (svc_chain s))) as [l|] eqn:Hl.
  - rewrite (expected_ordinal (chain (bc (svc_chain s)))) by (try apply Hi; done).
    unfold Chain_len. by rewrite Z.compare_refl.
  - unfold Blockchain_last_block, Chain_last_block in Hl. apply last_None in Hl.
    rewrite Hl; simpl. done.
Qed.

Lemma service_add_block_lags s ordinal b :
  bc_inv (svc_chain s) -> (Z.of_nat (length (svc_blocks s)) < 2 ^ 128)%Z ->
  (Z.of_nat (length (svc_blocks s)) < ordinal)%Z ->
  service_add_block ordinal b s
  = (if decide (svc_blocks s = []) then Ok tt else Err LaggingBlockchainData, s).
Proof.
  intros Hi Hlen Ho. unfold service_add_block. unfold_stm.
  destruct (Blockchain_last_block (bc (svc_chain s))) as [l|] eqn:Hl.
  - rewrite (expected_ordinal (chain (bc (svc_chain s)))) by (try apply Hi; done).
    unfold Chain_len.
    destruct (Z.compare_spec ordinal (Z.of_nat (length (svc_blocks s)))); [lia|lia|].
    rewrite decide_False; [done|]. intros Hn.
    unfold Blockchain_last_block, Chain_last_block in Hl. by rewrite Hn in Hl.
  - unfold Blockchain_last_block, Chain_last_block in Hl. apply last_None in Hl.
    rewrite decide_True by done. destruct (Z.eqb_spec ordinal 0); [lia|done].
Qed.

(** The next block of a chain the node holds a prefix of. *)
Lemma service_add_block_next s c b :
  bc_inv (svc_chain s) -> chain_valid c ->
  svc_blocks s `prefix_of` blocks c ->
  blocks c !! length (svc_blocks s) = Some b ->
  (Z.of_nat (Chain_len c) < 2 ^ 128)%Z ->
  exists s', service_add_block (block_ordinal b) b s = (Ok tt, s')
    /\ bc_inv (svc_chain s') /\ svc_blocks s' = svc_blocks s ++ [b] /\ same_node s s'.
Proof.
  intros Hi Hv Hpre Hb Hlen. pose proof (prefix_length _ _ Hpre) as Hle. unfold Chain_len in Hlen.
  rewrite (cv_ordered c Hv _ _ Hb), service_add_block_commits by (done || lia).
  destruct (commit_block_next (svc_chain s) b) as (st' & Hc & Hi' & Hbl & Hp);
    [done|split_and!; [split| |]|].
  - by eapply (Forall_lookup_1 block_ok); [apply Hv|].
  - by rewrite (cv_ordered c Hv _ _ Hb).
  - by eapply (Forall_lookup_1 block_sealed); [apply Hv|].
  - intros l Hl. unfold Blockchain_last_block, Chain_last_block in Hl.
    rewrite last_lookup in Hl. pose proof (lookup_lt_Some _ _ _ Hl).
    apply (cv_linked c Hv (pred (length (svc_blocks s)))).
    + by eapply prefix_lookup_Some.
    + by replace (S (pred (length (svc_blocks s)))) with (length (svc_blocks s)) by lia.
  - unfold on_chain. unfold_stm. rewrite Hc. eexists; split; [done|]; simpl. split; [done|]. by repeat split.
Qed.

(** Feeding a node the blocks of a chain it holds a prefix of, from any position it
    has reached, brings it to that chain. *)
Lemma add_blocks_catch_up c i s :
  chain_valid c -> (Z.of_nat (Chain_len c) < 2 ^ 128)%Z ->
  bc_inv (svc_chain s) -> svc_blocks s `prefix_of` blocks c -> i <= length (svc_blocks s) ->
  exists s',
    sfor (drop i (blocks c))
      (fun b => service_add_block (header_ordinal (block_header b)) b) s = (Ok tt, s')
    /\ bc_inv (svc_chain s') /\ svc_blocks s' = blocks c /\ same_node s s'.
Proof.
  intros Hv Hlen. unfold Chain_len in Hlen.
  remember (length (blocks c) - i) as n eqn:Hn. revert i Hn s.
  induction n as [|n IH]; intros i Hn s Hi Hpre Hle; pose proof (prefix_length _ _ Hpre).
  - rewrite drop_ge by lia. exists s. split; [done|]. split; [done|].
    split; [|by repeat split]. apply prefix_length_eq; [done|lia].
  - destruct (lookup_lt_is_Some_2 (blocks c) i) as [b Hb]; [lia|].
    rewrite (drop_S _ b i) by done. simpl. unfold sbind at 1.
    destruct (decide (i = length (svc_blocks s))) as [->|Hne].
    + destruct (service_add_block_next s c b) as (s1 & Hadd & Hi1 & Hb1 & Hsame); [done..|].
      unfold block_ordinal in Hadd. rewrite Hadd.
      destruct (IH (S (length (svc_blocks s))) ltac:(lia) s1) as (s' & Hf & ? & ? & Hsame');
        [done| |rewrite Hb1, length_app; simpl; lia|].
      { rewrite Hb1. destruct Hpre as [k Hk]. rewrite Hk in Hb.
        rewrite lookup_app_r, Nat.sub_diag in Hb by lia. destruct k as [|b' k]; simplify_eq/=.
        exists k. rewrite Hk, <- app_assoc. done. }
      exists s'. rewrite Hf. split; [done|]. split; [done|]. split; [done|].
      destruct Hsame as (?&?&?), Hsame' as (?&?&?). repeat split; congruence.
    + assert (service_add_block (header_ordinal (block_header b)) b s = (Ok tt, s)) as ->.
      { apply service_add_block_skips; [done|lia|]. fold (block_ordinal b).
        rewrite (cv_ordered c Hv _ _ Hb). lia. }
      apply (IH (S i)); [lia|done..|lia].
Qed.

(** What a node does with a block a peer announces under an ordinal: the ordinal
    right after its chain is the only one that is committed; an earlier ordinal is
    ignored as a duplicate; a later one is refused as lagging, or ignored by a node that
    has no block yet; in the last three cases nothing changes. *)
Theorem announced_block_decision s ordinal b :
  bc_inv (svc_chain s) -> (Z.of_nat (length (svc_blocks s)) < 2 ^ 128)%Z -> (0 <= ordinal)%Z ->
  service_add_block ordinal b s
  = match (ordinal ?= Z.of_nat (length (svc_blocks s)))%Z with
    | Lt => (Ok tt, s)
    | Eq => let '(o, st) := commit_block b (svc_chain s) in (o, with_chain st s)
    | Gt => (if decide (svc_blocks s = []) then Ok tt else Err LaggingBlockchainData, s)
    end.
Proof.
  intros Hi Hlen Ho.
  destruct (Z.compare_spec ordinal (Z.of_nat (length (svc_blocks s)))) as [->|Hlt|Hgt].
  - by apply service_add_block_commits.
  - by apply service_add_block_skips.
  - by apply service_add_block_lags.
Qed.
End Service.
Arguments BlockchainService {_} N.

(** A node with two blocks, with no network, is told of blocks 0, 1, 2 and 3. *)
Lemma announced_block_decision_witness :
  let s := {| svc_chain := sample_st1; svc_keypair := sample_kp; svc_p2p_client := tt |} in
  service_add_block 1%Z sample_genesis s = (Ok tt, s)
  /\ service_add_block 3%Z sample_genesis s = (Err LaggingBlockchainData, s).
Proof.
  intros s. split.
  - apply (announced_block_decision s 1%Z sample_genesis);
      [apply sample_st1_inv|vm_compute; reflexivity|lia].
  - apply (announced_block_decision s 3%Z sample_genesis);
      [apply sample_st1_inv|vm_compute; reflexivity|lia].
Defined.
