(* ===== verification/BlockchainEvents.v ===== *)
(** * BlockchainEvents: the event loop around the blockchain service

    Models src/blockchain_service/event.rs (the loop and its client) and the
    blockchain part of pyrsia_node/src/network/handlers.rs.  The loop owns the
    service and the artifact service; what it needs of the latter is the interface
    [BlockAddedHandler].  A oneshot sender is a number, and the answers the loop has
    sent are a log of pairs of a sender and an answer. *)

From S2P Require Import Prelude Crypto Structures Sample FileSystem Chain Blockchain BlockchainService.

(** [anyhow::Error], by where it comes from. *)
Inductive anyhow_error :=
| AnyBlockchain (e : BlockchainError)
| AnyBincode
| AnyMsg (msg : string).

(** What the loop uses of the artifact service. *)
Class BlockAddedHandler (A : Type) := {
  handle_block_added : list bytes -> stm A anyhow_error unit;
}.

Section Events.
Context `{Crypto} `{!BlockBincode} {N : Type} `{!BlockchainNet N} {A : Type} `{!BlockAddedHandler A}.

Definition sender : Type := nat.

Inductive BlockchainEvent :=
| AddBlock (payload : bytes) (s : sender)
| PullBlocksFromPeer (peer_id : PeerId) (s : sender)
| PullBlocksLocal (start end_ : Ordinal) (s : sender)
| HandleBlockBroadcast (block_ordinal : Ordinal) (block : Block) (s : sender)
| HandlePullBlocks (start end_ : Ordinal) (s : sender)
| HandleQueryBlockOrdinal (s : sender).

Definition event_sender (e : BlockchainEvent) : sender :=
  match e with
  | AddBlock _ s | PullBlocksFromPeer _ s | PullBlocksLocal _ _ s
  | HandleBlockBroadcast _ _ s | HandlePullBlocks _ _ s | HandleQueryBlockOrdinal s => s
  end.

(** The values sent on the six kinds of sender; a [Result] is a sum. *)
Inductive Reply :=
| RAddBlock (r : unit + BlockchainError)
| RPullFromPeer (r : Ordinal + BlockchainError)
| RPullLocal (r : list Block + BlockchainError)
| RBroadcast (r : unit + anyhow_error)
| RPullBlocks (r : list Block + anyhow_error)
| RQueryOrdinal (r : Ordinal + anyhow_error).

Record BlockchainEventLoop := {
  loop_artifact_service : A;
  loop_blockchain_service : BlockchainService N;
  loop_replies : list (sender * Reply);
}.

Definition on_service {E B} (c : stm (BlockchainService N) E B) : stm BlockchainEventLoop E B :=
  szoom loop_blockchain_service
    (fun s l => {| loop_artifact_service := loop_artifact_service l;
                   loop_blockchain_service := s; loop_replies := loop_replies l |}) c.
Definition on_artifacts {E B} (c : stm A E B) : stm BlockchainEventLoop E B :=
  szoom loop_artifact_service
    (fun a l => {| loop_artifact_service := a;
                   loop_blockchain_service := loop_blockchain_service l;
                   loop_replies := loop_replies l |}) c.
(** [sender.send(r)]; a receiver that is gone is only logged. *)
Definition send {E} (s : sender) (r : Reply) : stm BlockchainEventLoop E unit :=
  smodify (fun l => {| loop_artifact_service := loop_artifact_service l;
                       loop_blockchain_service := loop_blockchain_service l;
                       loop_replies := loop_replies l ++ [(s, r)] |}).

(** [result.map_err(|e| e.into())]. *)
Definition into_anyhow {B} (r : B + BlockchainError) : B + anyhow_error :=
  match r with inl b => inl b | inr e => inr (AnyBlockchain e) end.

(** [handle_blockchain_event]; it returns nothing and never fails, only the
    [unwrap]s of the service can panic. *)
Definition handle_blockchain_event {E} (d_tx d_block : draw) (e : BlockchainEvent) :
    stm BlockchainEventLoop E unit :=
  match e with
  | AddBlock payload s =>
      let! result := scatch (on_service (add_payload payload d_tx d_block)) in
      send s (RAddBlock result)
  | PullBlocksFromPeer peer_id s =>
      let! result := scatch (on_service (init_pull_from_others peer_id)) in
      send s (RPullFromPeer result)
  | PullBlocksLocal start end_ s =>
      let! l := sget in
      let! result := scatch (slift (service_pull_blocks (loop_blockchain_service l) start end_)) in
      send s (RPullLocal result)
  | HandleBlockBroadcast block_ordinal block s =>
      let payloads := fetch_payload block in
      let! added := scatch (on_service (service_add_block block_ordinal block)) in
      match added with
      | inr e => send s (RBroadcast (inr (AnyBlockchain e)))
      | inl _ =>
          let! handled := scatch (on_artifacts (handle_block_added payloads)) in
          match handled with
          | inr e => send s (RBroadcast (inr e))
          | inl _ => send s (RBroadcast (inl tt))
          end
      end
  | HandlePullBlocks start end_ s =>
      let! l := sget in
      let! result := scatch (slift (service_pull_blocks (loop_blockchain_service l) start end_)) in
      send s (RPullBlocks (into_anyhow result))
  | HandleQueryBlockOrdinal s =>
      let! l := sget in
      match query_last_block (loop_blockchain_service l) with
      | Some latest_block =>
          let highest_ordinal := header_ordinal (block_header latest_block) in
          send s (RQueryOrdinal (inl highest_ordinal))
      | None => send s (RQueryOrdinal (inr (AnyBlockchain (InvalidBlockchainLength 0))))
      end
  end.

(** [run], on the events that arrive before the channel closes; the draws are those
    of the clock and the generator while each event is handled. *)
Definition run_loop {E} (events : list (draw * draw * BlockchainEvent)) :
    stm BlockchainEventLoop E unit :=
  sfor events (fun '(d_tx, d_block, e) => handle_blockchain_event d_tx d_block e).

(** ** The client

    The task of the loop, seen from a client: [None] when it has ended.  A panic ends
    the task and drops the sender of the event it was handling. *)
Definition Task : Type := option BlockchainEventLoop.

(** [oneshot::channel()]: a sender no event had before. *)
Definition fresh_sender (l : BlockchainEventLoop) : sender := S (max_list (loop_replies l).*1).

(** What the receiver of a sender gets. *)
Fixpoint received (s : sender) (replies : list (sender * Reply)) : option Reply :=
  match replies with
  | [] => None
  | (s', r) :: rest => if decide (s' = s) then Some r else received s rest
  end.

(** Sends an event with a fresh oneshot channel and awaits the receiver. *)
Definition call {E} (d_tx d_block : draw) (ev : sender -> BlockchainEvent) :
    stm Task E (option Reply) := fun task =>
  match task with
  | None => (Ok None, None)
  | Some l =>
      let s := fresh_sender l in
      match @handle_blockchain_event Empty_set d_tx d_block (ev s) l with
      | (Ok _, l') => (Ok (received s (loop_replies l')), Some l')
      | (_, _) => (Ok None, None)
      end
  end.

Arguments call : simpl never.

(** [receiver.await.map_err(BlockchainError::ChannelClosed)?]. *)
Definition await {E B} (closed : E) (get : Reply -> option (B + E)) (r : option Reply) : outcome E B :=
  match r ≫= get with
  | Some (inl b) => Ok b
  | Some (inr e) => Err e
  | None => Err closed
  end.

Definition client_add_block (payload : bytes) (d_tx d_block : draw) : stm Task BlockchainError unit :=
  let! r := call d_tx d_block (AddBlock payload) in
  slift (await ChannelClosed (fun r => match r with RAddBlock x => Some x | _ => None end) r).

Definition client_pull_blocks_from_peer (p : PeerId) (d_tx d_block : draw) :
    stm Task BlockchainError Ordinal :=
  let! r := call d_tx d_block (PullBlocksFromPeer p) in
  slift (await ChannelClosed (fun r => match r with RPullFromPeer x => Some x | _ => None end) r).

Definition client_pull_blocks_local (start end_ : Ordinal) (d_tx d_block : draw) :
    stm Task BlockchainError (list Block) :=
  let! r := call d_tx d_block (PullBlocksLocal start end_) in
  slift (await ChannelClosed (fun r => match r with RPullLocal x => Some x | _ => None end) r).

Definition handle_broadcast_blockchain (block_ordinal : Ordinal) (block : Block) (d_tx d_block : draw) :
    stm Task anyhow_error unit :=
  let! r := call d_tx d_block (HandleBlockBroadcast block_ordinal block) in
  slift (await (AnyBlockchain ChannelClosed)
           (fun r => match r with RBroadcast x => Some x | _ => None end) r).

Definition handle_pull_blockchain_from_peer (start end_ : Ordinal) (d_tx d_block : draw) :
    stm Task anyhow_error (list Block) :=
  let! r := call d_tx d_block (HandlePullBlocks start end_) in
  slift (await (AnyBlockchain ChannelClosed)
           (fun r => match r with RPullBlocks x => Some x | _ => None end) r).

Definition handle_query_block_ordinal_from_peer (d_tx d_block : draw) : stm Task anyhow_error Ordinal :=
  let! r := call d_tx d_block HandleQueryBlockOrdinal in
  slift (await (AnyBlockchain ChannelClosed)
           (fun r => match r with RQueryOrdinal x => Some x | _ => None end) r).

(** ** handlers.rs, [handle_incoming_blockchain_command] *)

(** [data[a..b]] and [data[a..]]. *)
Definition slice {E} (data : bytes) (a b : nat) : outcome E bytes :=
  if decide (a <= b <= length data) then Ok (take (b - a) (drop a data)) else Panic.
Definition slice_from {E} (data : bytes) (a : nat) : outcome E bytes :=
  if decide (a <= length data) then Ok (drop a data) else Panic.

Definition handle_incoming_blockchain_command (data : bytes) (d_tx d_block : draw) :
    stm Task anyhow_error bytes :=
  let! first := slift (unwrap (data !! 0)) in
  let! cmd := slift (map_err AnyBlockchain (command_try_from first)) in
  match cmd with
  | Broadcast =>
      let! ordinal_bytes := slift (slice data 1 17) in
      let! block_ordinal := slift (ok_or (deserialize ordinal_bytes) AnyBincode) in
      let! block_bytes := slift (slice_from data 17) in
      let! block := slift (ok_or (deserialize block_bytes) AnyBincode) in
      let! _ := handle_broadcast_blockchain block_ordinal block d_tx d_block in
      sret [x00]
  | PullFromPeer =>
      let! start_bytes := slift (slice data 1 17) in
      let! start := slift (ok_or (deserialize start_bytes) AnyBincode) in
      let! end_bytes := slift (slice_from data 17) in
      let! end_ := slift (ok_or (deserialize end_bytes) AnyBincode) in
      let! blocks := handle_pull_blockchain_from_peer start end_ d_tx d_block in
      slift (unwrap (serialize blocks))
  | QueryHighestBlockOrdinal =>
      let! highest_ordinal := handle_query_block_ordinal_from_peer d_tx d_block in
      slift (unwrap (serialize highest_ordinal))
  | PushToPeer => spanic
  end.

(** ** Lemmas *)

(** The kind of answer each event gets. *)
Definition reply_matches (e : BlockchainEvent) (r : Reply) : Prop :=
  match e, r with
  | AddBlock _ _, RAddBlock _ | PullBlocksFromPeer _ _, RPullFromPeer _
  | PullBlocksLocal _ _ _, RPullLocal _ | HandleBlockBroadcast _ _ _, RBroadcast _
  | HandlePullBlocks _ _ _, RPullBlocks _ | HandleQueryBlockOrdinal _, RQueryOrdinal _ => True
  | _, _ => False
  end.

Lemma handle_event_reply {E} d1 d2 e l :
  match @handle_blockchain_event E d1 d2 e l with
  | (Ok _, l') => exists r, loop_replies l' = loop_replies l ++ [(event_sender e, r)] /\ reply_matches e r
  | (Err _, _) => False
  | (Panic, l') => loop_replies l' = loop_replies l
  end.
Proof.
  destruct e; simpl; unfold on_service, on_artifacts, send; unfold_stm; simpl;
    repeat case_match; simplify_eq/=; first [done | by eexists].
Qed.

Lemma received_fresh replies s r :
  s ∉ replies.*1 -> received s (replies ++ [(s, r)]) = Some r.
Proof.
  induction replies as [|[s' r'] replies IH]; simpl; intros Hs.
  - by rewrite decide_True.
  - rewrite decide_False by set_solver. apply IH. set_solver.
Qed.

Lemma fresh_sender_fresh l : fresh_sender l ∉ (loop_replies l).*1.
Proof. intros Hin%max_list_elem_of_le. unfold fresh_sender in Hin. lia. Qed.

(** A call to a live loop gets the answer of its own event. *)
Lemma call_spec {E} d1 d2 ev l l' r :
  (forall s, event_sender (ev s) = s) ->
  @handle_blockchain_event Empty_set d1 d2 (ev (fresh_sender l)) l = (Ok tt, l') ->
  loop_replies l' = loop_replies l ++ [(fresh_sender l, r)] ->
  @call E d1 d2 ev (Some l) = (Ok (Some r), Some l').
Proof.
  intros Hs Hh Hr. unfold call. rewrite Hh, Hr, received_fresh; [done|]. apply fresh_sender_fresh.
Qed.

Context `{!CryptoOk, !BlockBincodeOk}.

(** The wire format: what a handler makes of the messages of the service. *)
Lemma incoming_broadcast (n : Ordinal) (b : Block) d1 d2 :
  u128 n -> block_ok b ->
  exists o bs, serialize n = Some o /\ serialize b = Some bs
    /\ forall t, handle_incoming_blockchain_command ([command_as_u8 Broadcast] ++ o ++ bs) d1 d2 t
         = (let! _ := handle_broadcast_blockchain n b d1 d2 in sret [x00]) t.
Proof.
  intros Hn Hb. destruct (bincode_roundtrip n Hn) as (o & Ho & Hro).
  destruct (bincode_roundtrip b Hb) as (bs & Hbs & Hrb).
  exists o, bs. do 2 (split; [done|]). intros t.
  assert (length o = 16) as Hlen by (by apply (ordinal_bincode_size n)).
  unfold handle_incoming_blockchain_command, slice, slice_from; simpl. unfold_stm; simpl.
  rewrite length_app, Hlen. rewrite !decide_True by lia; simpl.
  specialize (Hro []). specialize (Hrb []). rewrite app_nil_r in Hro, Hrb.
  rewrite drop_0, take_app_length' by done. rewrite Hro; simpl.
  rewrite drop_app_length' by done. by rewrite Hrb.
Qed.

Lemma incoming_pull (start end_ : Ordinal) d1 d2 :
  u128 start -> u128 end_ ->
  exists buf, @pull_message _ _ BlockchainError start end_ = Ok buf /\ length buf = 33
    /\ forall t, handle_incoming_blockchain_command buf d1 d2 t
         = (let! bl := handle_pull_blockchain_from_peer start end_ d1 d2 in
            slift (unwrap (serialize bl))) t.
Proof.
  intros Hs He. unfold pull_message.
  destruct (bincode_roundtrip start Hs) as (o & Ho & Hro).
  destruct (bincode_roundtrip end_ He) as (bs & Hbs & Hrb).
  assert (length o = 16) as Hlen by (by apply (ordinal_bincode_size start)).
  assert (length bs = 16) as Hlen' by (by apply (ordinal_bincode_size end_)).
  rewrite Ho, Hbs; simpl. eexists; split; [done|]. split; [simpl; rewrite length_app; lia|]. intros t.
  unfold handle_incoming_blockchain_command, slice, slice_from; simpl. unfold_stm; simpl.
  rewrite length_app, Hlen. rewrite !decide_True by lia; simpl.
  specialize (Hro []). specialize (Hrb []). rewrite app_nil_r in Hro, Hrb.
  rewrite drop_0, take_app_length' by done. rewrite Hro; simpl.
  rewrite drop_app_length' by done. by rewrite Hrb.
Qed.

Abbreviation loop_chain l := (svc_chain (loop_blockchain_service l)).
Abbreviation loop_blocks l := (blocks (chain (bc (loop_chain l)))).

(** Asking a live, non-empty peer for its highest ordinal. *)
Lemma peer_answers_query l d1 d2 :
  bc_inv (loop_chain l) -> 0 < length (loop_blocks l) ->
  (Z.of_nat (length (loop_blocks l)) < 2 ^ 128)%Z ->
  exists bs l', handle_incoming_blockchain_command query_message d1 d2 (Some l) = (Ok bs, Some l')
    /\ deserialize bs = Some (Z.of_nat (length (loop_blocks l)) - 1 : Ordinal)%Z /\ length bs = 16
    /\ loop_blockchain_service l' = loop_blockchain_service l.
Proof.
  intros Hi Hpos Hlen.
  assert (exists b, query_last_block (loop_blockchain_service l) = Some b) as [b Hb].
  { unfold query_last_block, Blockchain_last_block, Chain_last_block. rewrite last_lookup.
    apply lookup_lt_is_Some. lia. }
  destruct (last_ordinal _ b (cv_ordered _ (inv_valid _ Hi)) Hb) as [Hord _].
  unfold block_ordinal, Chain_len in Hord.
  destruct (bincode_roundtrip (header_ordinal (block_header b))) as (bs & Hbs & Hrt).
  { rewrite Hord. unfold fits. lia. }
  unfold handle_incoming_blockchain_command, handle_query_block_ordinal_from_peer; simpl.
  unfold_stm; simpl. erewrite call_spec; [|done| |].
  2:{ simpl. unfold_stm. rewrite Hb. done. }
  2:{ done. }
  simpl. rewrite Hbs; simpl. eexists _, _. split; [done|]. split; [|split; [|done]].
  - rewrite <- Hord, <- (app_nil_r bs). apply Hrt.
  - apply (ordinal_bincode_size (header_ordinal (block_header b))); [|done]. rewrite Hord. unfold fits. lia.
Qed.

(** Asking a live peer for all its blocks. *)
Lemma peer_answers_pull l d1 d2 :
  bc_inv (loop_chain l) -> 0 < length (loop_blocks l) ->
  (Z.of_nat (length (loop_blocks l)) < 2 ^ 128)%Z ->
  exists buf bs l',
    @pull_message _ _ BlockchainError 0%Z (Z.of_nat (length (loop_blocks l)) - 1)%Z = Ok buf /\ length buf = 33
    /\ handle_incoming_blockchain_command buf d1 d2 (Some l) = (Ok bs, Some l')
    /\ serialize (loop_blocks l) = Some bs /\ deserialize bs = Some (loop_blocks l)
    /\ loop_blockchain_service l' = loop_blockchain_service l.
Proof.
  intros Hi Hpos Hlen.
  destruct (incoming_pull 0%Z (Z.of_nat (length (loop_blocks l)) - 1)%Z d1 d2)
    as (buf & Hbuf & Hsize & Hin); [unfold fits; lia..|].
  exists buf. rewrite Hbuf, Hin.
  destruct (bincode_roundtrip (loop_blocks l)) as (bs & Hbs & Hrt); [apply (inv_valid _ Hi)|].
  unfold handle_pull_blockchain_from_peer. unfold_stm; simpl.
  assert (service_pull_blocks (loop_blockchain_service l) 0%Z
            (Z.of_nat (length (loop_blocks l)) - 1)%Z = Ok (loop_blocks l)) as Hpull.
  { unfold service_pull_blocks, pull_blocks.
    rewrite retrieve_blocks_valid by (try apply Hi; lia). unfold Chain_len.
    rewrite decide_True by lia. f_equal. change (Z.to_nat 0) with 0. rewrite drop_0. apply take_ge. lia. }
  erewrite call_spec; [|done| |].
  2:{ simpl. unfold_stm. rewrite Hpull. done. }
  2:{ done. }
  simpl. rewrite Hbs; simpl. eexists _, _. do 4 (split; [done|]). split; [|done].
  rewrite <- (app_nil_r bs). apply Hrt.
Qed.

(** A broadcast block: when the service takes it, the answer is that of the artifact
    service, and the block stays whatever that answer is. *)
Lemma broadcast_taken l n b svc' d1 d2 r a' :
  service_add_block n b (loop_blockchain_service l) = (Ok tt, svc') ->
  handle_block_added (fetch_payload b) (loop_artifact_service l) = (r, a') -> r <> Panic ->
  exists l', handle_broadcast_blockchain n b d1 d2 (Some l) = (r, Some l')
    /\ loop_blockchain_service l' = svc' /\ loop_artifact_service l' = a'.
Proof.
  intros Hadd Hart Hr. unfold handle_broadcast_blockchain. unfold_stm.
  destruct r as [[]|e|]; [| |done];
    (erewrite call_spec; [|done|simpl; unfold on_service, on_artifacts; unfold_stm;
                              rewrite Hadd; simpl; rewrite Hart; done|done]);
    simpl; eexists; (split; [done|]); done.
Qed.

(** The service of [l] commits the next block. *)
Lemma next_block_taken l b :
  bc_inv (loop_chain l) -> (Z.of_nat (length (loop_blocks l)) < 2 ^ 128)%Z ->
  block_ok b -> block_sealed b -> block_ordinal b = Z.of_nat (length (loop_blocks l)) ->
  (forall x, last (loop_blocks l) = Some x ->
     header_parent_hash (block_header b) = header_hash (block_header x)) ->
  exists svc', service_add_block (block_ordinal b) b (loop_blockchain_service l) = (Ok tt, svc')
    /\ blocks (chain (bc (svc_chain svc'))) = loop_blocks l ++ [b] /\ bc_inv (svc_chain svc').
Proof.
  intros Hi Hlen Hok Hs Hb Hp. rewrite Hb, service_add_block_commits by done.
  destruct (commit_block_next (loop_chain l) b) as (st' & Hc & Hi' & Hbl & _); [done|by split; [split|]|].
  unfold on_chain. unfold_stm. rewrite Hc. by eexists.
Qed.


(** ** Properties *)

(** Every event the loop handles is answered exactly once, on its own sender,
    with the kind of answer its client waits for, in the order of the events; a panic
    in the service leaves exactly the event it was handling, and the later ones,
    without an answer. *)
Theorem events_answered_once {E} events l o l' :
  @run_loop E events l = (o, l') ->
  exists handled rest answers, events = handled ++ rest
    /\ loop_replies l' = loop_replies l ++ answers
    /\ Forall2 (fun '(_, e) '(s, r) => s = event_sender e /\ reply_matches e r) handled answers
    /\ match o with Ok _ => rest = [] | Err _ => False | Panic => rest <> [] end.
Proof.
  revert l. induction events as [|[[d1 d2] e] events IH]; intros l Hrun.
  { unfold run_loop in Hrun; simpl in Hrun. unfold sret in Hrun. inv_outcome.
    exists [], [], []. split; [done|]. split; [by rewrite app_nil_r|]. by split; [constructor|]. }
  unfold run_loop in Hrun; simpl in Hrun. unfold sbind in Hrun.
  pose proof (@handle_event_reply E d1 d2 e l) as Hr.
  destruct (handle_blockchain_event d1 d2 e l) as [[]l1]; [|done|].
  - destruct Hr as (r & Hr & Hm). apply IH in Hrun as (handled & rest & answers & -> & Hl & HF & Ho).
    exists ((d1, d2, e) :: handled), rest, ((event_sender e, r) :: answers). split; [done|].
    rewrite Hl, Hr, <- app_assoc. split; [done|]. split; [by constructor|done].
  - inv_outcome. exists [], ((d1, d2, e) :: events), []. rewrite app_nil_r.
    split; [done|]. split; [done|]. by split; [constructor|].
Qed.

(** Blocks cross the wire unchanged: the message a service broadcasts for a block
    is taken apart by the handler of a peer into the ordinal of that block and that
    block; and the peer answers with a single zero byte. *)
Theorem broadcast_wire_roundtrip (b : Block) d1 d2 :
  block_ok b ->
  exists buf, @broadcast_message _ _ BlockchainError b = Ok buf
    /\ forall t, handle_incoming_blockchain_command buf d1 d2 t
         = (let! _ := handle_broadcast_blockchain (block_ordinal b) b d1 d2 in sret [x00]) t.
Proof.
  intros Hb. destruct (incoming_broadcast (block_ordinal b) b d1 d2) as (o & bs & Ho & Hbs & Hin);
    [apply Hb|done|].
  unfold broadcast_message. fold (block_ordinal b). rewrite Ho, Hbs; simpl. by eexists.
Qed.

(** A peer checks the ordinal of the message and not that of the block in it: to a
    message with the ordinal the peer expects next, around a block that carries an
    earlier ordinal, it answers with success and ends up with a chain that is no
    longer in order, and that its directory does not hold. *)
Theorem broadcast_ordinal_unchecked l b d1 d2 a' :
  bc_inv (loop_chain l) -> (Z.of_nat (length (loop_blocks l)) < 2 ^ 128)%Z ->
  block_ok b -> (block_ordinal b < Z.of_nat (length (loop_blocks l)))%Z ->
  handle_block_added (fetch_payload b) (loop_artifact_service l) = (Ok tt, a') ->
  exists o bs l', serialize (Z.of_nat (length (loop_blocks l)) : Ordinal) = Some o
    /\ serialize b = Some bs
    /\ handle_incoming_blockchain_command ([command_as_u8 Broadcast] ++ o ++ bs) d1 d2 (Some l)
       = (Ok [x00], Some l')
    /\ loop_blocks l' = loop_blocks l ++ [b]
    /\ ~ chain_valid (chain (bc (loop_chain l')))
    /\ disk (loop_chain l') = disk (loop_chain l).
Proof.
  intros Hi Hlen Hok Hlt Hart.
  destruct (incoming_broadcast (Z.of_nat (length (loop_blocks l))) b d1 d2)
    as (o & bs & Ho & Hbs & Hin); [unfold fits; lia|done|].
  destruct (commit_block_misnumbered (loop_chain l) b) as (st' & Hc & Hb & _ & Hd);
    [by apply bc_inv_stored|apply Hok|unfold Chain_len; lia|].
  rewrite (proj2 (Z.ltb_lt _ _)) in Hc by done.
  destruct (broadcast_taken l (Z.of_nat (length (loop_blocks l))) b
    (with_chain st' (loop_blockchain_service l)) d1 d2 (Ok tt) a') as (l' & Hh & Hs & _).
  - rewrite service_add_block_commits by done. unfold on_chain. unfold_stm. by rewrite Hc.
  - done.
  - done.
  - exists o, bs, l'. rewrite Hin. unfold sbind. rewrite Hh, Hs; simpl.
    do 4 (split; [done|]). split; [|done]. intros Hv.
    assert (block_ordinal b = Z.of_nat (length (loop_blocks l))); [|lia].
    apply (cv_ordered _ Hv). rewrite Hb. by rewrite lookup_app_r, Nat.sub_diag by lia.
Qed.
End Events.
Arguments BlockchainEventLoop {_} N A.
Arguments Task {_} N A.
Arguments BlockchainEvent {_}.

(** ** Two nodes

    The network of a node whose peer runs the event loop: a request is handled by the
    peer (an error or a panic there is an outbound failure here), and the broadcasts of
    a node are its outbox.  A message passes the codec of the protocol (network/blockchain_protocol.rs, see Protocols)
    unless it is empty or larger than the limit. *)
Definition passes (data : bytes) : bool :=
  negb (bool_decide (data = [])) && (Z.of_nat (length data) <=? BLOCKCHAIN_MAX_SIZE_PER_MESSAGE)%Z.

Lemma passes_iff data :
  0 < length data /\ (Z.of_nat (length data) <= BLOCKCHAIN_MAX_SIZE_PER_MESSAGE)%Z <-> passes data = true.
Proof.
  unfold passes. rewrite andb_true_iff, negb_true_iff, bool_decide_eq_false, Z.leb_le.
  by destruct data; simpl; split; intros [? ?]; split; try lia.
Qed.

Lemma passes_small data : 0 < length data < 100 -> passes data = true.
Proof.
  intros [Hp Hl]. apply passes_iff. unfold BLOCKCHAIN_MAX_SIZE_PER_MESSAGE. lia.
Qed.

#[local] Arguments passes : simpl never.

Section TwoNodes.
Context `{Crypto} `{!BlockBincode} {N : Type} `{!BlockchainNet N} {A : Type} `{!BlockAddedHandler A}.
Context `{!CryptoOk, !BlockBincodeOk}.
Context (d1 d2 : draw).

Definition peer_net : BlockchainNet (Task N A) := {|
  net_broadcast_block := fun _ => sret tt;
  net_request_blockchain := fun _ data t =>
    if passes data then
      match handle_incoming_blockchain_command data d1 d2 t with
      | (Ok bs, t') => (if passes bs then Ok bs else Err "outbound failure", t')
      | (Err _, t') => (Err "outbound failure", t')
      | (Panic, _) => (Err "outbound failure", None)
      end
    else (Err "outbound failure", t) |}.

Definition outbox_net : BlockchainNet (list bytes) := {|
  net_broadcast_block := fun buf => smodify (fun out => out ++ [buf]);
  net_request_blockchain := fun _ _ => serr "no peer" |}.

#[local] Existing Instance peer_net.
#[local] Existing Instance outbox_net.

Abbreviation loop_chain l := (svc_chain (loop_blockchain_service l)).
Abbreviation loop_blocks l := (blocks (chain (bc (loop_chain l)))).
Abbreviation svc_blocks s := (blocks (chain (bc (svc_chain s)))).

(** Pulling brings a node up to date: a node whose chain is a prefix of the chain of
    a peer (an empty one, in particular) asks the peer for its highest ordinal and for
    the blocks up to it, in one message; if the message passes, the node then holds the very chain of the peer, in memory and in its
    directory, and otherwise it has an error and its own chain; the peer is not changed. *)
Lemma pull_synchronizes (l : BlockchainEventLoop N A) (s : BlockchainService (Task N A)) p bs :
  svc_p2p_client s = Some l ->
  bc_inv (loop_chain l) -> 0 < length (loop_blocks l) ->
  (Z.of_nat (length (loop_blocks l)) < 2 ^ 128)%Z ->
  bc_inv (svc_chain s) -> svc_blocks s `prefix_of` loop_blocks l ->
  serialize (loop_blocks l) = Some bs ->
  exists s' l', svc_p2p_client s' = Some l' /\ loop_blockchain_service l' = loop_blockchain_service l
    /\ if passes bs then
         init_pull_from_others p s = (Ok (Z.of_nat (length (loop_blocks l)) - 1)%Z, s')
         /\ svc_blocks s' = loop_blocks l /\ bc_inv (svc_chain s')
       else
         init_pull_from_others p s = (Err (AnyhowError "outbound failure"), s')
         /\ svc_chain s' = svc_chain s.
Proof.
  intros Hc Hl Hpos Hlen Hs Hpre Hbytes. unfold init_pull_from_others, query_blockchain_ordinal,
    pull_block_from_other_nodes, on_client. unfold_stm; simpl. rewrite Hc.
  destruct (peer_answers_query l d1 d2) as (b0 & l1 & -> & Hbs & Hsize & Hl1); [done..|].
  rewrite (passes_small b0) by lia.
  simpl. rewrite Hbs; simpl. rewrite <- Hl1 in *.
  destruct (peer_answers_pull l1 d1 d2) as (buf & bs' & l2 & Hbuf & Hsize' & Hans & Hser & Hbs' & Hl2); [done..|].
  rewrite Hbytes in Hser. injection Hser as <-.
  rewrite Hbuf. rewrite (passes_small buf) by lia. rewrite Hans; simpl. destruct (passes bs); simpl.
  - rewrite Hbs'; simpl. rewrite <- Hl2 in *.
    destruct (add_blocks_catch_up (chain (bc (loop_chain l2))) 0
      (with_client (Some l2) (with_client (Some l1) s))) as (s' & Hf & Hi & Hb & Hsame);
      [apply Hl|done|done|done|simpl; lia|].
    rewrite drop_0 in Hf. unfold Task in *. rewrite Hf. exists s', l2.
    split; [apply Hsame|]. by split_and!.
  - exists (with_client (Some l2) (with_client (Some l1) s)), l2. by rewrite Hl2.
Qed.

(** C6. Broadcasting replicates: when a node adds a payload, the one message it
    broadcasts, handled by a peer that had the same chain, gives the peer the same new
    chain, whose last block carries the payload; what the artifact service of the peer
    makes of the payload is the answer, and the block stays even if it fails. *)
Theorem broadcast_replicates (s : BlockchainService (list bytes)) (l : BlockchainEventLoop N A)
    payload d_tx d_block r a' :
  bc_inv (svc_chain s) -> 0 < length (svc_blocks s) ->
  (Z.of_nat (length (svc_blocks s)) < 2 ^ 128)%Z ->
  draw_ok d_tx -> draw_ok d_block ->
  bc_inv (loop_chain l) -> loop_blocks l = svc_blocks s ->
  handle_block_added [payload] (loop_artifact_service l) = (r, a') -> r <> Panic ->
  exists s' buf l' b, add_payload payload d_tx d_block s = (Ok tt, s')
    /\ svc_p2p_client s' = svc_p2p_client s ++ [buf]
    /\ handle_incoming_blockchain_command buf d1 d2 (Some l)
       = (match r with Ok _ => Ok [x00] | Err e => Err e | Panic => Panic end, Some l')
    /\ svc_blocks s' = svc_blocks s ++ [b] /\ fetch_payload b = [payload]
    /\ loop_blocks l' = svc_blocks s' /\ bc_inv (loop_chain l').
Proof.
  intros Hs Hpos Hlen Hd1 Hd2 Hl Heq Hart Hr.
  destruct (add_block_next (svc_chain s) payload (svc_keypair s) d_tx d_block)
    as (b & st' & Hadd & Hi & Hb & _ & Hpay & _); [done..|].
  assert (blocks (chain (bc st')) !! length (svc_blocks s) = Some b) as Hlast.
  { by rewrite Hb, lookup_app_r, Nat.sub_diag by lia. }
  pose proof (inv_valid _ Hi) as Hv.
  assert (block_ok b) as Hok by (by eapply Forall_lookup_1; [apply Hv|]).
  assert (block_sealed b) as Hsl by (by eapply Forall_lookup_1; [apply Hv|]).
  pose proof (cv_ordered _ Hv _ _ Hlast) as Hord.
  destruct (incoming_broadcast (N:=N) (A:=A) (block_ordinal b) b d1 d2) as (o & bs & Ho & Hbs & Hin);
    [apply Hok|done|].
  unfold add_payload, on_chain, broadcast_blockchain, broadcast_message, on_client. unfold_stm; simpl.
  rewrite Hadd; simpl. unfold Blockchain_last_block, Chain_last_block. rewrite Hb, last_snoc; simpl.
  unfold block_ordinal in Ho. rewrite Ho, Hbs; simpl.
  destruct (next_block_taken l b) as (svc' & Htake & Hbl & Hi'); [done|by rewrite Heq|done|done
    |by rewrite Heq| |].
  { intros x Hx. rewrite Heq in Hx. rewrite last_lookup in Hx.
    apply (cv_linked _ Hv (pred (length (svc_blocks s)))).
    - rewrite Hb, lookup_app_l; [done|lia].
    - by replace (S (pred (length (svc_blocks s)))) with (length (svc_blocks s)) by lia. }
  rewrite <- Hpay in Hart.
  destruct (broadcast_taken l (block_ordinal b) b svc' d1 d2 r a') as (l' & Hh & <- & _); [done..|].
  eexists _, ([command_as_u8 Broadcast] ++ o ++ bs), l', b. split; [done|]. split; [done|].
  rewrite Hin. unfold sbind. rewrite Hh. split; [by destruct r|].
  simpl. rewrite Hb. split; [done|]. split; [done|]. split; [|done]. by rewrite Hbl, Heq.
Qed.
End TwoNodes.

(** ** A concrete peer

    The node of [Blockchain.sample_st1], with two blocks, whose artifact service
    accepts every payload. *)
#[export] Instance sample_net : BlockchainNet unit := {|
  net_broadcast_block := fun _ => sret tt;
  net_request_blockchain := fun _ _ => serr "no peer" |}.

#[export] Instance sample_handler : BlockAddedHandler unit := {|
  handle_block_added := fun _ => sret tt |}.

Definition sample_loop : BlockchainEventLoop unit unit := {|
  loop_artifact_service := tt;
  loop_blockchain_service :=
    {| svc_chain := sample_st1; svc_keypair := sample_kp; svc_p2p_client := tt |};
  loop_replies := [] |}.

(** A node that has no block yet, connected to that peer. *)
Definition sample_newcomer : BlockchainService (Task unit unit) := {|
  svc_chain := {| bc := Blockchain_empty_new "other"; disk := sample_fs |};
  svc_keypair := (x08 : Keypair); svc_p2p_client := Some sample_loop |}.

Lemma sample_newcomer_inv : bc_inv (svc_chain sample_newcomer).
Proof.
  split; simpl; [apply chain_valid_default| |done].
  by apply fresh_dir_stored.
Qed.

Definition sample_events : list (draw * draw * BlockchainEvent) :=
  [ (sample_draw, sample_draw, AddBlock (as_bytes "two") 5);
    (sample_draw, sample_draw, HandleQueryBlockOrdinal 9) ].

Lemma events_answered_once_witness :
  exists answers,
    loop_replies (snd (@run_loop _ _ _ _ _ _ Empty_set sample_events sample_loop)) = answers
    /\ answers.*1 = [5; 9].
Proof.
  destruct (@events_answered_once _ _ _ _ _ _ Empty_set sample_events sample_loop
    (fst (@run_loop _ _ _ _ _ _ Empty_set sample_events sample_loop))
    (snd (@run_loop _ _ _ _ _ _ Empty_set sample_events sample_loop)))
    as (handled & rest & answers & _ & Hl & _ & _); [apply surjective_pairing|].
  exists answers. split; [exact Hl|].
  replace answers with (loop_replies (snd (@run_loop _ _ _ _ _ _ Empty_set sample_events sample_loop)))
    by exact Hl.
  vm_compute. reflexivity.
Defined.

Lemma broadcast_wire_roundtrip_witness :
  exists buf, @broadcast_message _ _ BlockchainError sample_genesis = Ok buf
    /\ fst (handle_incoming_blockchain_command buf sample_draw sample_draw (Some sample_loop)) = Ok [x00].
Proof.
  destruct (broadcast_wire_roundtrip (N:=unit) (A:=unit) sample_genesis sample_draw sample_draw
    sample_genesis_ok) as (buf & Hbuf & Hin).
  exists buf. split; [exact Hbuf|]. rewrite Hin. vm_compute. reflexivity.
Defined.

Lemma broadcast_ordinal_unchecked_witness :
  exists data l',
    handle_incoming_blockchain_command data sample_draw sample_draw (Some sample_loop)
    = (Ok [x00], Some l')
    /\ ~ chain_valid (chain (bc (svc_chain (loop_blockchain_service l')))).
Proof.
  destruct (broadcast_ordinal_unchecked sample_loop sample_genesis sample_draw sample_draw tt)
    as (o & bs & l' & _ & _ & Hin & _ & Hnv & _).
  - apply sample_st1_inv.
  - vm_compute. reflexivity.
  - apply sample_genesis_ok.
  - vm_compute. reflexivity.
  - reflexivity.
  - exists ([command_as_u8 Broadcast] ++ o ++ bs), l'. split; [exact Hin|exact Hnv].
Defined.

Definition sample_peer : PeerId := "peer".

Lemma broadcast_replicates_witness :
  exists s' buf l',
    @add_payload _ _ _ outbox_net (as_bytes "two") sample_draw sample_draw
      {| svc_chain := sample_st1; svc_keypair := sample_kp; svc_p2p_client := [] |} = (Ok tt, s')
    /\ svc_p2p_client s' = [buf]
    /\ handle_incoming_blockchain_command buf sample_draw sample_draw (Some sample_loop)
       = (Ok [x00], Some l')
    /\ blocks (chain (bc (svc_chain (loop_blockchain_service l')))) = blocks (chain (bc (svc_chain s'))).
Proof.
  destruct (broadcast_replicates sample_draw sample_draw
    {| svc_chain := sample_st1; svc_keypair := sample_kp; svc_p2p_client := [] |}
    sample_loop (as_bytes "two") sample_draw sample_draw (Ok tt) tt)
    as (s' & buf & l' & b & Hadd & Hout & Hin & _ & _ & Hb & _).
  - apply sample_st1_inv.
  - vm_compute. lia.
  - vm_compute. reflexivity.
  - apply sample_draw_ok.
  - apply sample_draw_ok.
  - apply sample_st1_inv.
  - reflexivity.
  - reflexivity.
  - discriminate.
  - exists s', buf, l'. split; [exact Hadd|]. split; [exact Hout|]. split; [exact Hin|exact Hb].
Defined.
