(* ===== verification/Sql.v ===== *)
(** * Sql: the statements of the transparency log and the database that runs them

    The texts are those of src/transparency_log/log.rs, character for character, with
    the values put between apostrophes the way [format!] does.  SQLite is not part of
    the repository: it is the class [Sqlite], and [SqliteOk] says what SQLite documents
    of each form of statement, for values that have no apostrophe.  Rows that the
    ordering of a statement leaves equal come in any order. *)

From Stdlib Require Import DecimalString DecimalN.
From S2P Require Import Prelude Structures.

(** [rusqlite::types::Value]. *)
Inductive Value :=
| Null
| Integer (z : Z)
| Text (s : string)
| RealOrBlob.

#[export] Instance Value_eq_dec : EqDecision Value.
Proof. solve_decision. Defined.

Abbreviation row := (list Value).

Inductive db_error :=
| ConstraintViolation
| QueryReturnedNoRows
| InvalidColumnType (column : nat)
| IntegralValueOutOfRange (column : nat)
| ToSqlConversionFailure
| SqliteFailure.

(** ** The statements *)
Inductive query :=
| ById (id : string)
| ByArtifact (package_type artifact : string)
| LastOf (package_type package : string)
| OthersOf (package_type package id : string) (limit : N)
| AllOf (package_type package : string)
| NodeOps (node_id : string)
| AddedNodes.

Definition u32_text (n : N) : string := NilEmpty.string_of_uint (N.to_uint n).

(** The text of a statement, in pieces: at odd positions the values put between
    apostrophes. *)
Definition query_pieces (q : query) : list string :=
  match q with
  | ById id => ["SELECT * FROM TRANSPARENCYLOG WHERE id = "; id; ";"]
  | ByArtifact pt a =>
      ["SELECT * FROM TRANSPARENCYLOG WHERE package_type = "; pt;
       " AND package_specific_artifact_id = "; a; ";"]
  | LastOf pt p =>
      ["SELECT * FROM TRANSPARENCYLOG
            WHERE operation in ("; "AddArtifact"; ", "; "RemoveArtifact"; ") and package_type = ";
       pt; " and package_specific_id = "; p; "
            ORDER BY timestamp DESC LIMIT 1"]
  | OthersOf pt p id n =>
      ["SELECT * FROM TRANSPARENCYLOG
                    WHERE operation = "; "AddArtifact"; " and package_type = "; pt; " and
                    package_specific_id = "; p; " and id != "; id; "
                    ORDER BY timestamp DESC LIMIT " +:+ u32_text n]
  | AllOf pt p =>
      ["SELECT *
            FROM TRANSPARENCYLOG
            WHERE operation in ("; "AddArtifact"; ", "; "RemoveArtifact"; ") and package_type = ";
       pt; " and package_specific_id = "; p; "
            ORDER BY timestamp ASC"]
  | NodeOps n =>
      ["SELECT
              operation
            FROM TRANSPARENCYLOG
            WHERE (operation = "; "AddNode"; " or operation = "; "RemoveNode"; ") and node_id = "; n; "
            ORDER BY timestamp DESC limit 1"]
  | AddedNodes =>
      ["SELECT * FROM (
              SELECT
               id, package_type, package_specific_id,
               num_artifacts, package_specific_artifact_id, artifact_hash, source_hash, artifact_id,
               source_id, max(timestamp), operation, node_id, node_public_key
              FROM TRANSPARENCYLOG
              WHERE operation = "; "AddNode"; " or operation = "; "RemoveNode"; "
              GROUP BY node_id
            ) WHERE operation = "; "AddNode"; ""]
  end.

Definition quote : Ascii.ascii := "'"%char.

(** Puts an apostrophe between the pieces. *)
Fixpoint join_quotes (pieces : list string) : string :=
  match pieces with
  | [] => ""
  | [p] => p
  | p :: rest => p +:+ String.String quote (join_quotes rest)
  end.

Definition sql_text (q : query) : string := join_quotes (query_pieces q).

(** A value that has no apostrophe. *)
Fixpoint quotable (s : string) : bool :=
  match s with
  | String.EmptyString => true
  | String.String c s' => negb (bool_decide (c = quote)) && quotable s'
  end.

Definition query_quotable (q : query) : bool :=
  match q with
  | ById a | NodeOps a => quotable a
  | ByArtifact a b | LastOf a b | AllOf a b => quotable a && quotable b
  | OthersOf a b c _ => quotable a && quotable b && quotable c
  | AddedNodes => true
  end.

(** ** What a statement means

    The columns of the table TRANSPARENCYLOG by position. *)
Definition col_is (r : row) (i : nat) (s : string) : bool := bool_decide (r !! i = Some (Text s)).
Definition col_is_not (r : row) (i : nat) (s : string) : bool :=
  match r !! i with Some (Text t) => negb (bool_decide (t = s)) | _ => false end.
Definition row_id (r : row) : option Value := r !! 0.
Definition row_timestamp (r : row) : Z := match r !! 9 with Some (Integer z) => z | _ => 0%Z end.
Definition row_node (r : row) : option Value := r !! 11.

Definition query_where (q : query) (r : row) : bool :=
  match q with
  | ById id => col_is r 0 id
  | ByArtifact pt a => col_is r 1 pt && col_is r 4 a
  | LastOf pt p | AllOf pt p =>
      (col_is r 10 "AddArtifact" || col_is r 10 "RemoveArtifact") && col_is r 1 pt && col_is r 2 p
  | OthersOf pt p id _ =>
      col_is r 10 "AddArtifact" && col_is r 1 pt && col_is r 2 p && col_is_not r 0 id
  | NodeOps n => (col_is r 10 "AddNode" || col_is r 10 "RemoveNode") && col_is r 11 n
  | AddedNodes => col_is r 10 "AddNode" || col_is r 10 "RemoveNode"
  end.

Definition newest_first (r r' : row) : Prop := (row_timestamp r' <= row_timestamp r)%Z.
Definition oldest_first (r r' : row) : Prop := (row_timestamp r <= row_timestamp r')%Z.
#[export] Instance newest_first_dec r r' : Decision (newest_first r r').
Proof. unfold newest_first. apply _. Defined.
#[export] Instance oldest_first_dec r r' : Decision (oldest_first r r').
Proof. unfold oldest_first. apply _. Defined.

(** The rows of a query are some of the selected rows in the order of the statement. *)
Definition query_limit (q : query) : option nat :=
  match q with
  | LastOf _ _ | NodeOps _ => Some 1
  | OthersOf _ _ _ n => Some (N.to_nat n)
  | _ => None
  end.

Definition query_sorted (q : query) (rows : list row) : Prop :=
  match q with
  | LastOf _ _ | OthersOf _ _ _ _ | NodeOps _ => StronglySorted newest_first rows
  | AllOf _ _ => StronglySorted oldest_first rows
  | _ => True
  end.

Definition query_project (q : query) (r : row) : row :=
  match q with NodeOps _ => take 1 (drop 10 r) | _ => r end.

(** [GROUP BY node_id] with [max(timestamp)]: of each node, one row with the largest
    timestamp; the outer statement keeps those that say AddNode. *)
Definition group_latest (rows reps : list row) : Prop :=
  NoDup (row_node <$> reps)
  /\ (forall r, r ∈ reps -> r ∈ rows /\ forall r', r' ∈ rows -> row_node r' = row_node r ->
        (row_timestamp r' <= row_timestamp r)%Z)
  /\ (forall r, r ∈ rows -> exists r', r' ∈ reps /\ row_node r' = row_node r).

Definition query_result (q : query) (table res : list row) : Prop :=
  match q with
  | AddedNodes =>
      exists reps, group_latest (filter (fun r => query_where q r = true) table) reps
        /\ res = filter (fun r => col_is r 10 "AddNode" = true) reps
  | _ =>
      exists sel, sel ≡ₚ filter (fun r => query_where q r = true) table
        /\ query_sorted q sel
        /\ res = query_project q <$> (match query_limit q with Some n => take n sel | None => sel end)
  end.

(** ** The database *)
Class Sqlite := {
  Db : Type;
  (** [Connection::open] and CREATE TABLE IF NOT EXISTS *)
  db_open : stm Db db_error unit;
  (** INSERT INTO TRANSPARENCYLOG *)
  db_insert : row -> stm Db db_error unit;
  (** [prepare] and [query_map] *)
  db_query : Db -> string -> outcome db_error (list row);
}.

Class SqliteOk `{Sqlite} := {
  db_ok : Db -> Prop;
  db_rows : Db -> list row;
  db_open_ok db : db_ok db -> exists db', db_open db = (Ok tt, db') /\ db_ok db' /\ db_rows db' = db_rows db;
  (** the column id is the primary key *)
  db_insert_ok db r : db_ok db -> row_id r ∉ row_id <$> db_rows db ->
    exists db', db_insert r db = (Ok tt, db') /\ db_ok db' /\ db_rows db' = db_rows db ++ [r];
  db_insert_dup db r : db_ok db -> row_id r ∈ row_id <$> db_rows db ->
    exists db', db_insert r db = (Err ConstraintViolation, db') /\ db_ok db' /\ db_rows db' = db_rows db;
  db_ok_nodup db : db_ok db -> NoDup (row_id <$> db_rows db);
  db_query_ok db q : db_ok db -> query_quotable q = true ->
    exists res, db_query db (sql_text q) = Ok res /\ query_result q (db_rows db) res;
}.
