(* ===== verification/SqlSample.v ===== *)
(** * SqlSample: a concrete database

    An executable instance of [Sqlite]: a table is a list of rows, a statement is
    parsed back from its text.  It shows that the laws of [SqliteOk] can hold, and
    evaluates the examples of the transparency log. *)

From Stdlib Require Import DecimalString DecimalN.
From S2P Require Import Prelude Structures Sql.

(** ** Parsing a statement *)
Fixpoint split_quotes (s : string) : list string :=
  match s with
  | String.EmptyString => [""]
  | String.String c s' =>
      if bool_decide (c = quote) then "" :: split_quotes s'
      else match split_quotes s' with
           | p :: rest => String.String c p :: rest
           | [] => [String.String c ""]
           end
  end.

Fixpoint str_drop (n : nat) (s : string) : string :=
  match n, s with
  | S n', String.String _ s' => str_drop n' s'
  | _, _ => s
  end.

(** The number at the end of the last piece of [OthersOf]. *)
Definition limit_of (s : string) : N :=
  match NilEmpty.uint_of_string (str_drop 51 s) with
  | Some u => N.of_uint u
  | None => 0%N
  end.

Definition piece (i : nat) (pieces : list string) : string := default "" (pieces !! i).

Definition candidates (ps : list string) : list query :=
  [ById (piece 1 ps); ByArtifact (piece 1 ps) (piece 3 ps); LastOf (piece 5 ps) (piece 7 ps);
   OthersOf (piece 3 ps) (piece 5 ps) (piece 7 ps) (limit_of (piece 8 ps));
   AllOf (piece 5 ps) (piece 7 ps); NodeOps (piece 5 ps); AddedNodes].

Definition parse (text : string) : option query :=
  let ps := split_quotes text in
  snd <$> list_find (fun q => query_pieces q = ps) (candidates ps).

Lemma split_quotes_quotable s : quotable s = true -> split_quotes s = [s].
Proof.
  induction s as [|c s IH]; simpl; [done|]. intros [Hc Hs]%andb_true_iff.
  rewrite (IH Hs). by destruct (bool_decide (c = quote)).
Qed.

Lemma split_quotes_app s t :
  quotable s = true -> split_quotes (s +:+ String.String quote t) = s :: split_quotes t.
Proof.
  induction s as [|c s IH]; simpl; intros Hq.
  - done.
  - apply andb_true_iff in Hq as [Hc Hs]. rewrite (IH Hs). by destruct (bool_decide (c = quote)).
Qed.

Lemma split_join ps :
  ps <> [] -> Forall (fun p => quotable p = true) ps -> split_quotes (join_quotes ps) = ps.
Proof.
  induction ps as [|p [|p' ps] IH]; intros Hne Hq; [done| |].
  - apply Forall_cons in Hq as [Hq _]. exact (split_quotes_quotable p Hq).
  - apply Forall_cons in Hq as [Hp Hq].
    change (join_quotes (p :: p' :: ps)) with (p +:+ String.String quote (join_quotes (p' :: ps))).
    rewrite split_quotes_app, IH; done.
Qed.

Lemma quotable_app s t : quotable (s +:+ t) = quotable s && quotable t.
Proof. induction s as [|c s IH]; simpl; [done|]. by rewrite IH, andb_assoc. Qed.

Lemma quotable_u32 n : quotable (u32_text n) = true.
Proof. unfold u32_text. by induction (N.to_uint n); simpl. Qed.

Lemma limit_of_text p n : String.length p = 51 -> limit_of (p +:+ u32_text n) = n.
Proof.
  intros Hp. unfold limit_of.
  assert (forall k s t, String.length s = k -> str_drop k (s +:+ t) = t) as Hd.
  { induction k as [|k IH]; intros [|c s] t Hs; simpl in *; try done. by apply IH; lia. }
  rewrite Hd by done. unfold u32_text. rewrite NilEmpty.usu. apply DecimalN.Unsigned.of_to.
Qed.

Lemma query_pieces_quotable q :
  query_quotable q = true -> Forall (fun p => quotable p = true) (query_pieces q).
Proof.
  destruct q; simpl; rewrite ?andb_true_iff; intros Hq; destruct_and?;
    repeat constructor; try done; rewrite ?quotable_app, ?quotable_u32; done.
Qed.

#[local] Arguments limit_of : simpl never.
#[local] Arguments String.append : simpl never.

Lemma candidate q : q ∈ candidates (query_pieces q).
Proof.
  destruct q; unfold candidates, piece; simpl; rewrite ?limit_of_text by done;
    repeat first [apply list_elem_of_here | apply list_elem_of_further].
Qed.

Lemma u32_text_inj m n : u32_text m = u32_text n -> m = n.
Proof.
  unfold u32_text. intros Heq. apply (f_equal NilEmpty.uint_of_string) in Heq.
  rewrite !NilEmpty.usu in Heq. injection Heq as Heq.
  by rewrite <- (DecimalN.Unsigned.of_to m), <- (DecimalN.Unsigned.of_to n), Heq.
Qed.

Lemma query_pieces_inj q q' : query_pieces q = query_pieces q' -> q = q'.
Proof.
  destruct q, q'; intros Heq; simpl in Heq; try discriminate Heq; simplify_eq; try done.
  f_equal. by apply u32_text_inj.
Qed.

Lemma parse_text q : query_quotable q = true -> parse (sql_text q) = Some q.
Proof.
  intros Hq. unfold parse, sql_text. rewrite split_join;
    [|by destruct q|by apply query_pieces_quotable].
  destruct (list_find _ _) as [[i q']|] eqn:Hf.
  - apply list_find_Some in Hf as (_ & Hp & _). simpl. f_equal. by apply query_pieces_inj.
  - apply list_find_None in Hf. rewrite Forall_forall in Hf. by destruct (Hf q (candidate q)).
Qed.

(** ** Running a statement *)
#[export] Instance newest_first_total : Total newest_first.
Proof. intros r r'. unfold newest_first. lia. Qed.
#[export] Instance newest_first_trans : Transitive newest_first.
Proof. intros a b c. unfold newest_first. lia. Qed.
#[export] Instance oldest_first_total : Total oldest_first.
Proof. intros r r'. unfold oldest_first. lia. Qed.
#[export] Instance oldest_first_trans : Transitive oldest_first.
Proof. intros a b c. unfold oldest_first. lia. Qed.

Definition order_rows (q : query) (rows : list row) : list row :=
  match q with
  | LastOf _ _ | OthersOf _ _ _ _ | NodeOps _ => merge_sort newest_first rows
  | AllOf _ _ => merge_sort oldest_first rows
  | _ => rows
  end.

(** The first row of every node. *)
Fixpoint first_per_node (seen : list (option Value)) (rows : list row) : list row :=
  match rows with
  | [] => []
  | r :: rest =>
      if decide (row_node r ∈ seen) then first_per_node seen rest
      else (r :: first_per_node (row_node r :: seen) rest)
  end.

Definition run_query (q : query) (table : list row) : list row :=
  let sel := filter (fun r => query_where q r = true) table in
  match q with
  | AddedNodes =>
      filter (fun r => col_is r 10 "AddNode" = true) (first_per_node [] (merge_sort newest_first sel))
  | _ =>
      let sel := order_rows q sel in
      query_project q <$> (match query_limit q with Some n => take n sel | None => sel end)
  end.

Lemma first_per_node_spec seen rows :
  StronglySorted newest_first rows ->
  NoDup (row_node <$> first_per_node seen rows)
  /\ (forall r, r ∈ first_per_node seen rows -> r ∈ rows /\ (row_node r ∉ seen)
        /\ forall r', r' ∈ rows -> row_node r' = row_node r -> newest_first r r')
  /\ (forall r, r ∈ rows -> row_node r ∉ seen ->
        exists r', (r' ∈ first_per_node seen rows) /\ row_node r' = row_node r).
Proof.
  intros Hs. revert seen. induction Hs as [|r rows Hs IH Hr]; intros seen; simpl.
  { split; [constructor|]. split; [by intros r Hr%elem_of_nil|by intros r Hr%elem_of_nil]. }
  case_decide as Hin.
  - destruct (IH seen) as (Hnd & Hmax & Hall). split; [done|]. split.
    + intros x Hx. destruct (Hmax x Hx) as (Hx1 & Hx2 & Hx3). split; [by right|]. split; [done|].
      intros y [->|Hy]%elem_of_cons Hn; [congruence|by apply Hx3].
    + intros x [->|Hx]%elem_of_cons Hns; [done|by apply Hall].
  - destruct (IH (row_node r :: seen)) as (Hnd & Hmax & Hall). split; [|split].
    + simpl. constructor; [|done]. intros (x & Hx & Hxin)%list_elem_of_fmap.
      destruct (Hmax x Hxin) as (_ & Hns & _). apply Hns. rewrite <- Hx. by left.
    + intros x [->|Hx]%elem_of_cons.
      * split; [by left|]. split; [done|]. rewrite Forall_forall in Hr.
        intros y [->|Hy]%elem_of_cons _; [unfold newest_first; lia|by apply Hr].
      * destruct (Hmax x Hx) as (Hx1 & Hx2 & Hx3). apply not_elem_of_cons in Hx2 as [Hx2 Hx2'].
        split; [by right|]. split; [done|]. intros y [->|Hy]%elem_of_cons Hn; [congruence|by apply Hx3].
    + intros x [->|Hx]%elem_of_cons Hns; [exists r; split; [by left|done]|].
      destruct (decide (row_node x = row_node r)) as [Heq|Hne]; [exists r; split; [by left|done]|].
      destruct (Hall x Hx) as (y & Hy & Hyn); [by apply not_elem_of_cons|].
      exists y. split; [by right|done].
Qed.

Lemma run_query_result q table : query_result q table (run_query q table).
Proof.
  destruct q; unfold run_query; simpl.
  all: try (eexists; split; [|split; [|reflexivity]]; simpl;
            first [apply merge_sort_Permutation | apply StronglySorted_merge_sort; apply _ | done]).
  eexists; split; [|reflexivity].
  match goal with |- group_latest ?rows _ => set (sel := rows) end.
  destruct (first_per_node_spec [] (merge_sort newest_first sel)) as (Hnd & Hmax & Hall).
  { apply StronglySorted_merge_sort; apply _. }
  split; [done|]. split.
  - intros r Hr. destruct (Hmax r Hr) as (Hin & _ & Hm). rewrite merge_sort_Permutation in Hin.
    split; [done|]. intros r' Hr' Hn. apply Hm; [by rewrite merge_sort_Permutation|done].
  - intros r Hr. apply Hall; [by rewrite merge_sort_Permutation|by apply not_elem_of_nil].
Qed.

(** ** The instance *)
#[export] Instance sample_sqlite : Sqlite := {|
  Db := list row;
  db_open := sret tt;
  db_insert := fun r table =>
    if decide (row_id r ∈ row_id <$> table) then (Err ConstraintViolation, table)
    else (Ok tt, table ++ [r]);
  db_query := fun table text =>
    match parse text with
    | Some q => Ok (run_query q table)
    | None => Err SqliteFailure
    end;
|}.

#[export] Instance sample_sqlite_ok : SqliteOk.
Proof.
  refine {| db_ok := fun table : Db => NoDup (row_id <$> table); db_rows := fun table : Db => table |}.
  - intros db Hok. by exists db.
  - intros db r Hok Hr. exists (db ++ [r]); simpl. rewrite decide_False by done.
    split; [done|]. split; [|done]. rewrite fmap_app. apply NoDup_app. split; [done|].
    split; [|apply NoDup_singleton]. intros x Hx ->%list_elem_of_singleton. done.
  - intros db r Hok Hr. exists db; simpl. by rewrite decide_True.
  - done.
  - intros db q Hok Hq. exists (run_query q db); simpl. rewrite parse_text by done.
    split; [done|apply run_query_result].
Defined.
