(* ===== verification/Model.v ===== *)
(** * Model: package types and builds

    Models src/artifact_service/model.rs and src/build_service/model.rs. *)

From S2P Require Import Prelude Crypto.

(** ** artifact_service/model.rs *)
Inductive PackageType := Docker | Maven2.

#[export] Instance PackageType_eq_dec : EqDecision PackageType.
Proof. solve_decision. Defined.

(** [strum_macros::Display] and [ToSql]. *)
Definition PackageType_to_string (t : PackageType) : string :=
  match t with Docker => "Docker" | Maven2 => "Maven2" end.

(** [strum_macros::EnumString]. *)
Definition PackageType_from_str (s : string) : option PackageType :=
  if bool_decide (s = "Docker") then Some Docker
  else if bool_decide (s = "Maven2") then Some Maven2 else None.

Lemma PackageType_text t : PackageType_from_str (PackageType_to_string t) = Some t.
Proof. by destruct t. Qed.

(** ** build_service/model.rs *)
Inductive BuildStatus :=
| Running
| Success (artifact_urls : list string)
| Failure (message : string).

(** [Display for BuildStatus]. *)
Definition BuildStatus_to_string (s : BuildStatus) : string :=
  match s with
  | Running => "RUNNING"
  | Success _ => "SUCCESS"
  | Failure message => "FAILED - (Error: " +:+ message +:+ ")"
  end.

Record BuildInfo := { info_id : string; info_status : BuildStatus }.

Record BuildResultArtifact := {
  artifact_specific_id : string;
  artifact_location : string;
  artifact_hash : string;
}.

Inductive BuildTrigger `{Crypto} :=
| FromSource
| Verification (requestor : PeerId).

Record BuildResult := {
  br_package_type : PackageType;
  br_package_specific_id : string;
  br_artifacts : list BuildResultArtifact;
}.
