(* ===== verification/Text.v ===== *)
(** * Text: the methods of str the code uses

    Strings are bytes; every separator the code looks for is an ASCII character. *)

From S2P Require Import Prelude.

Abbreviation ascii := Ascii.ascii.

(** [s.contains(c)]. *)
Fixpoint contains (c : ascii) (s : string) : bool :=
  match s with
  | String.EmptyString => false
  | String.String a s' => bool_decide (a = c) || contains c s'
  end.

(** [s.rfind(c)], with the text before the last occurrence and the text after it. *)
Fixpoint rsplit (c : ascii) (s : string) : option (string * string) :=
  match s with
  | String.EmptyString => None
  | String.String a s' =>
      match rsplit c s' with
      | Some (before, after) => Some (String.String a before, after)
      | None => if bool_decide (a = c) then Some ("", s') else None
      end
  end.

(** [s.split(c).collect()]. *)
Fixpoint split (c : ascii) (s : string) : list string :=
  match s with
  | String.EmptyString => [""]
  | String.String a s' =>
      if bool_decide (a = c) then "" :: split c s'
      else match split c s' with
           | p :: rest => String.String a p :: rest
           | [] => [String.String a ""]
           end
  end.

(** [pieces.join(sep)]. *)
Fixpoint join (sep : string) (pieces : list string) : string :=
  match pieces with
  | [] => ""
  | [p] => p
  | p :: rest => p +:+ sep +:+ join sep rest
  end.

(** [s.replace(c, r)]. *)
Fixpoint replace (c : ascii) (r : string) (s : string) : string :=
  match s with
  | String.EmptyString => ""
  | String.String a s' => (if bool_decide (a = c) then r else String.String a "") +:+ replace c r s'
  end.

(** [s.starts_with(p)]. *)
Fixpoint starts_with (p s : string) : bool :=
  match p, s with
  | String.EmptyString, _ => true
  | String.String a p', String.String b s' => bool_decide (a = b) && starts_with p' s'
  | String.String _ _, String.EmptyString => false
  end.

(** [s.ends_with(p)]. *)
Fixpoint ends_with (p s : string) : bool :=
  bool_decide (s = p) || match s with String.EmptyString => false | String.String _ s' => ends_with p s' end.

(** ** Lemmas *)
Lemma contains_app c s t : contains c (s +:+ t) = contains c s || contains c t.
Proof. induction s as [|a s IH]; simpl; [done|]. by rewrite IH, orb_assoc. Qed.

Lemma rsplit_none c s : contains c s = false -> rsplit c s = None.
Proof.
  induction s as [|a s IH]; simpl; [done|]. intros [Ha Hs]%orb_false_iff. by rewrite IH, Ha.
Qed.

Lemma rsplit_app c s t : contains c t = false -> rsplit c (s +:+ String.String c t) = Some (s, t).
Proof.
  intros Ht. induction s as [|a s IH]; simpl.
  - by rewrite rsplit_none, bool_decide_true.
  - by rewrite IH.
Qed.

Lemma rsplit_sep c s t :
  contains c t = false -> rsplit c (s +:+ String.String c "" +:+ t) = Some (s, t).
Proof. apply rsplit_app. Qed.

Lemma split_nonempty c s : split c s <> [].
Proof.
  destruct s as [|a s]; simpl; [done|]. case_bool_decide; [done|]. by destruct (split c s).
Qed.

Lemma split_single c s : contains c s = false -> split c s = [s].
Proof.
  induction s as [|a s IH]; simpl; [done|]. intros [Ha Hs]%orb_false_iff. by rewrite IH, Ha.
Qed.

Lemma split_app c s t : contains c s = false -> split c (s +:+ String.String c t) = s :: split c t.
Proof.
  induction s as [|a s IH]; simpl; intros Hs.
  - by rewrite bool_decide_true.
  - apply orb_false_iff in Hs as [Ha Hs]. by rewrite IH, Ha.
Qed.

Lemma split_pieces c pieces :
  pieces <> [] -> Forall (fun p => contains c p = false) pieces ->
  split c (join (String.String c "") pieces) = pieces.
Proof.
  induction pieces as [|p [|q pieces] IH]; intros Hne Hp; [done| |].
  - apply Forall_cons in Hp as [Hp _]. by apply split_single.
  - apply Forall_cons in Hp as [Hp Hq].
    change (join (String.String c "") (p :: q :: pieces))
      with (p +:+ String.String c (join (String.String c "") (q :: pieces))).
    rewrite split_app, IH; done.
Qed.

Lemma replace_none c r s : contains c s = false -> replace c r s = s.
Proof.
  induction s as [|a s IH]; simpl; [done|]. intros [Ha Hs]%orb_false_iff. by rewrite Ha, IH.
Qed.

Lemma string_app_assoc (s t u : string) : (s +:+ t) +:+ u = s +:+ (t +:+ u).
Proof.
  induction s as [|a s IH]; [done|].
  change (String.String a ((s +:+ t) +:+ u) = String.String a (s +:+ (t +:+ u))). by rewrite IH.
Qed.

Lemma replace_app c r s t : replace c r (s +:+ t) = replace c r s +:+ replace c r t.
Proof. induction s as [|a s IH]; simpl; [done|]. by rewrite IH, string_app_assoc. Qed.

Lemma join_cons_char sep a p rest :
  join sep (String.String a p :: rest) = String.String a (join sep (p :: rest)).
Proof. by destruct rest. Qed.

(** Replacing a character joins the pieces it separates. *)
Lemma replace_split c r s : replace c r s = join r (split c s).
Proof.
  induction s as [|a s IH]; simpl; [done|].
  pose proof (split_nonempty c s) as Hne. rewrite IH. destruct (split c s) as [|p rest]; [done|].
  case_bool_decide; [done|]. by rewrite join_cons_char.
Qed.

Lemma ends_with_app s p : ends_with p (s +:+ p) = true.
Proof.
  induction s as [|a s IH]; simpl.
  - change ("" +:+ p) with p. destruct p as [|b p]; [done|].
    cbn [ends_with]. by rewrite bool_decide_true.
  - rewrite IH. apply orb_true_r.
Qed.

Lemma starts_with_app p s : starts_with p (p +:+ s) = true.
Proof. induction p as [|a p IH]; simpl; [done|]. by rewrite bool_decide_true. Qed.
