(* ===== verification/TransparencyLog.v ===== *)
(** * TransparencyLog: the log of artifacts and authorized nodes

    Models src/transparency_log/log.rs.  The state of the service is the disk (for the
    directory of the database), the database and the blockchain of the node; what the
    service uses of the latter is the interface [BlockAdder].  The UUIDs a function
    draws and the time it reads are arguments. *)

From S2P Require Import Prelude Crypto Structures Sample FileSystem Sql SqlSample Model.

(** ** Data *)
Inductive Operation := AddArtifact | RemoveArtifact | AddNode | RemoveNode.

#[export] Instance Operation_eq_dec : EqDecision Operation.
Proof. solve_decision. Defined.

(** [strum_macros::Display] and [ToSql]. *)
Definition Operation_to_string (o : Operation) : string :=
  match o with
  | AddArtifact => "AddArtifact" | RemoveArtifact => "RemoveArtifact"
  | AddNode => "AddNode" | RemoveNode => "RemoveNode"
  end.

(** [strum_macros::EnumString]. *)
Definition Operation_from_str (s : string) : option Operation :=
  if bool_decide (s = "AddArtifact") then Some AddArtifact
  else if bool_decide (s = "RemoveArtifact") then Some RemoveArtifact
  else if bool_decide (s = "AddNode") then Some AddNode
  else if bool_decide (s = "RemoveNode") then Some RemoveNode else None.

Lemma Operation_text o : Operation_from_str (Operation_to_string o) = Some o.
Proof. by destruct o. Qed.

Inductive TransparencyLogError :=
| LogNotFound (id : string)
| ArtifactNotFound (package_type : PackageType) (package_specific_artifact_id : string)
| ArtifactAlreadyExists (package_type : PackageType) (package_specific_id : string)
| ArtifactLogIsNotConsistentState (package_type : PackageType) (package_specific_id : string)
    (num_artifacts actual : Z)
| NodeAlreadyExists (node_id : string)
| NodeDoesNotExistOrRemoved (node_id : string)
| InvalidHash (id invalid_hash actual_hash : string)
| InvalidNodePeerIDFormat
| InvalidOperation (id : string) (invalid_operation : Operation)
| DatabaseFailure (e : db_error)
| StorageFailure (e : io_error)
| BlockchainFailure (e : BlockchainError)
| SerdeJsonFailure.

Record TransparencyLog := {
  tl_id : string;
  tl_package_type : option PackageType;
  tl_package_specific_id : string;
  tl_num_artifacts : Z;
  tl_package_specific_artifact_id : string;
  tl_artifact_hash : string;
  tl_source_hash : string;
  tl_artifact_id : string;
  tl_source_id : string;
  tl_timestamp : Z;
  tl_operation : Operation;
  tl_node_id : string;
  tl_node_public_key : string;
}.

#[export] Instance TransparencyLog_eq_dec : EqDecision TransparencyLog.
Proof. solve_decision. Defined.

Record AddArtifactRequest := {
  req_package_type : PackageType;
  req_package_specific_id : string;
  req_num_artifacts : Z;
  req_package_specific_artifact_id : string;
  req_artifact_hash : string;
}.

(** The integers are a [u32] and a [u64]. *)
Definition log_ok (l : TransparencyLog) : Prop := u32 (tl_num_artifacts l) /\ u64 (tl_timestamp l).

(** What one call takes from [Uuid::new_v4] and the clock. *)
Record tl_draw := {
  dr_id : string;
  dr_artifact_id : string;
  dr_source_id : string;
  dr_node_id : string;
  dr_node_public_key : string;
  dr_secs : Z;
}.

(** [TransparencyLog::from]. *)
Definition TransparencyLog_from (r : AddArtifactRequest) (d : tl_draw) : TransparencyLog := {|
  tl_id := dr_id d;
  tl_package_type := Some (req_package_type r);
  tl_package_specific_id := req_package_specific_id r;
  tl_num_artifacts := req_num_artifacts r;
  tl_package_specific_artifact_id := req_package_specific_artifact_id r;
  tl_artifact_hash := req_artifact_hash r;
  tl_source_hash := "";
  tl_artifact_id := dr_artifact_id d;
  tl_source_id := dr_source_id d;
  tl_timestamp := dr_secs d;
  tl_operation := AddArtifact;
  tl_node_id := dr_node_id d;
  tl_node_public_key := dr_node_public_key d;
|}.

(** ** Rows

    [params!]: the row of a log.  rusqlite stores a [u64] as an [i64] and refuses one
    that does not fit. *)
Definition encode_row (l : TransparencyLog) : outcome db_error row :=
  if (tl_timestamp l <? 2 ^ 63)%Z then Ok
    [Text (tl_id l);
     match tl_package_type l with Some t => Text (PackageType_to_string t) | None => Null end;
     Text (tl_package_specific_id l);
     Integer (tl_num_artifacts l);
     Text (tl_package_specific_artifact_id l);
     Text (tl_artifact_hash l);
     Text (tl_source_hash l);
     Text (tl_artifact_id l);
     Text (tl_source_id l);
     Integer (tl_timestamp l);
     Text (Operation_to_string (tl_operation l));
     Text (tl_node_id l);
     Text (tl_node_public_key l)]
  else Err ToSqlConversionFailure.

(** [row.get(i)] at [String], at an unsigned integer of [w] bits and at [Value]. *)
Definition get_value (r : row) (i : nat) : outcome db_error Value := ok_or (r !! i) (InvalidColumnType i).
Definition get_string (r : row) (i : nat) : outcome db_error string :=
  match r !! i with Some (Text s) => Ok s | _ => Err (InvalidColumnType i) end.
Definition get_uint (w : Z) (r : row) (i : nat) : outcome db_error Z :=
  match r !! i with
  | Some (Integer z) =>
      if ((0 <=? z) && (z <? 2 ^ w))%Z then Ok z else Err (IntegralValueOutOfRange i)
  | _ => Err (InvalidColumnType i)
  end.

(** The closure of [query_map] in [process_query]. *)
Definition decode_row (r : row) : outcome db_error TransparencyLog :=
  let? id := get_string r 0 in
  let? value := get_value r 1 in
  let? package_type :=
    match value with
    | Text pt => let? t := unwrap (PackageType_from_str pt) in Ok (Some t)
    | Null => Ok None
    | _ => Err (InvalidColumnType 1)
    end in
  let? package_specific_id := get_string r 2 in
  let? num_artifacts := get_uint 32 r 3 in
  let? package_specific_artifact_id := get_string r 4 in
  let? artifact_hash := get_string r 5 in
  let? source_hash := get_string r 6 in
  let? artifact_id := get_string r 7 in
  let? source_id := get_string r 8 in
  let? timestamp := get_uint 64 r 9 in
  let? op := get_string r 10 in
  let? operation := unwrap (Operation_from_str op) in
  let? node_id := get_string r 11 in
  let? node_public_key := get_string r 12 in
  Ok {| tl_id := id; tl_package_type := package_type;
        tl_package_specific_id := package_specific_id; tl_num_artifacts := num_artifacts;
        tl_package_specific_artifact_id := package_specific_artifact_id;
        tl_artifact_hash := artifact_hash; tl_source_hash := source_hash;
        tl_artifact_id := artifact_id; tl_source_id := source_id; tl_timestamp := timestamp;
        tl_operation := operation; tl_node_id := node_id; tl_node_public_key := node_public_key |}.

(** [for record in records { vector.push(record?) }]. *)
Fixpoint collect_rows (rows : list row) : outcome db_error (list TransparencyLog) :=
  match rows with
  | [] => Ok []
  | r :: rest => let? l := decode_row r in let? ls := collect_rows rest in Ok (l :: ls)
  end.

(** The row of a log that can be stored. *)
Definition row_of (l : TransparencyLog) : row :=
  match encode_row l with Ok r => r | _ => [] end.
Definition storable (l : TransparencyLog) : Prop := log_ok l /\ (tl_timestamp l < 2 ^ 63)%Z.

Lemma encode_row_storable l : storable l -> encode_row l = Ok (row_of l).
Proof. intros [_ Ht]. unfold row_of, encode_row. by rewrite (proj2 (Z.ltb_lt _ _) Ht). Qed.

Ltac row_of_unfold l Hl :=
  let E := fresh "E" in
  pose proof (encode_row_storable l Hl) as E; unfold encode_row in E;
  rewrite (proj2 (Z.ltb_lt _ _) (proj2 Hl)) in E; injection E as <-.

(** A stored log is read back. *)
Lemma decode_row_of l : storable l -> decode_row (row_of l) = Ok l.
Proof.
  intros Hl. row_of_unfold l Hl. destruct Hl as [[Hn Ht] Ht'].
  unfold decode_row, get_string, get_value, get_uint; simpl.
  assert (match match tl_package_type l with
                | Some t => Text (PackageType_to_string t) | None => Null end with
          | Text pt => let? t := unwrap (PackageType_from_str pt) in Ok (Some t)
          | Null => Ok None
          | _ => @Err db_error _ (InvalidColumnType 1)
          end = Ok (tl_package_type l)) as ->.
  { destruct (tl_package_type l) as [t|]; [|done]. by rewrite PackageType_text. }
  simpl. unfold fits in *.
  rewrite !(proj2 (Z.leb_le _ _)) by lia. rewrite !(proj2 (Z.ltb_lt _ _)) by lia; simpl.
  rewrite Operation_text; simpl. by destruct l.
Qed.

Lemma collect_rows_of ls : Forall storable ls -> collect_rows (row_of <$> ls) = Ok ls.
Proof.
  induction 1 as [|l ls Hl Hls IH]; csimpl; [done|]. rewrite decode_row_of by done; simpl obind.
  by rewrite IH.
Qed.

(** What a statement selects, on logs. *)
Definition package_is (l : TransparencyLog) (t : string) : bool :=
  match tl_package_type l with
  | Some t' => bool_decide (PackageType_to_string t' = t)
  | None => false
  end.

Definition is_node_op (o : Operation) : bool :=
  bool_decide (o = AddNode) || bool_decide (o = RemoveNode).
Definition is_artifact_op (o : Operation) : bool :=
  bool_decide (o = AddArtifact) || bool_decide (o = RemoveArtifact).

Definition log_where (q : query) (l : TransparencyLog) : bool :=
  match q with
  | ById id => bool_decide (tl_id l = id)
  | ByArtifact t a => package_is l t && bool_decide (tl_package_specific_artifact_id l = a)
  | LastOf t p | AllOf t p =>
      is_artifact_op (tl_operation l) && package_is l t && bool_decide (tl_package_specific_id l = p)
  | OthersOf t p id _ =>
      bool_decide (tl_operation l = AddArtifact) && package_is l t
      && bool_decide (tl_package_specific_id l = p) && negb (bool_decide (tl_id l = id))
  | NodeOps n => is_node_op (tl_operation l) && bool_decide (tl_node_id l = n)
  | AddedNodes => is_node_op (tl_operation l)
  end.

Lemma col_is_text r i s s' : r !! i = Some (Text s) -> col_is r i s' = bool_decide (s = s').
Proof.
  intros Hr. unfold col_is. rewrite Hr. apply bool_decide_ext. naive_solver.
Qed.

Lemma col_is_operation r o o' :
  r !! 10 = Some (Text (Operation_to_string o)) ->
  col_is r 10 (Operation_to_string o') = bool_decide (o = o').
Proof.
  intros Hr. rewrite (col_is_text _ _ _ _ Hr). apply bool_decide_ext.
  split; [|by intros ->]. by destruct o, o'.
Qed.

Lemma where_row_of q l : storable l -> query_where q (row_of l) = log_where q l.
Proof.
  intros Hl. row_of_unfold l Hl. set (r := [_;_;_;_;_;_;_;_;_;_;_;_;_]).
  assert (forall t, col_is r 1 t = package_is l t) as Hpt.
  { intros t. unfold col_is, package_is; simpl. destruct (tl_package_type l) as [t'|]; [|done].
    apply bool_decide_ext. naive_solver. }
  pose proof (col_is_operation r (tl_operation l) AddArtifact eq_refl) as Ha.
  pose proof (col_is_operation r (tl_operation l) RemoveArtifact eq_refl) as Hr.
  pose proof (col_is_operation r (tl_operation l) AddNode eq_refl) as Hn.
  pose proof (col_is_operation r (tl_operation l) RemoveNode eq_refl) as Hn'.
  simpl in Ha, Hr, Hn, Hn'.
  destruct q; simpl; unfold is_artifact_op, is_node_op; rewrite ?Hpt, ?Ha, ?Hr, ?Hn, ?Hn';
    repeat match goal with |- context [col_is r ?i ?s] =>
      rewrite (col_is_text r i _ s eq_refl) end; try done.
Qed.

Lemma row_timestamp_of l : storable l -> row_timestamp (row_of l) = tl_timestamp l.
Proof. intros Hl. by row_of_unfold l Hl. Qed.
Lemma row_id_of l : storable l -> row_id (row_of l) = Some (Text (tl_id l)).
Proof. intros Hl. by row_of_unfold l Hl. Qed.
Lemma row_node_of l : storable l -> row_node (row_of l) = Some (Text (tl_node_id l)).
Proof. intros Hl. by row_of_unfold l Hl. Qed.
Lemma row_is_added l : storable l -> col_is (row_of l) 10 "AddNode" = bool_decide (tl_operation l = AddNode).
Proof. intros Hl. apply (col_is_operation _ _ AddNode). by row_of_unfold l Hl. Qed.

(** ** What the service uses *)
Class BlockAdder (B : Type) := { bc_add_block : bytes -> stm B BlockchainError unit }.

(** serde_json, at transparency logs. *)
Class LogJson := {
  log_to_json : TransparencyLog -> option string;
  log_from_json : bytes -> option TransparencyLog;
}.
Class LogJsonOk `{LogJson} : Prop :=
  log_json_roundtrip l : log_ok l ->
    exists s, log_to_json l = Some s /\ log_from_json (as_bytes s) = Some l.

Section TransparencyLog.
Context `{Crypto} `{Sqlite} `{!LogJson} {B : Type} `{!BlockAdder B}.

Record TransparencyLogService := {
  storage_path : string;
  tl_disk : Fs;
  tl_db : Db;
  tl_blockchain : B;
}.

(** [TransparencyLogService::new], for a path that is canonical. *)
Definition TransparencyLogService_new (path : string) (db : Db) (blockchain : B) :
    stm Fs TransparencyLogError TransparencyLogService :=
  let! _ := smap_err StorageFailure (fs_metadata path) in
  let! d := sget in
  sret {| storage_path := path_join path "transparency_log"; tl_disk := d; tl_db := db;
          tl_blockchain := blockchain |}.

Definition on_disk {E A} (c : stm Fs E A) : stm TransparencyLogService E A :=
  szoom tl_disk (fun x s => {| storage_path := storage_path s; tl_disk := x; tl_db := tl_db s;
                               tl_blockchain := tl_blockchain s |}) c.
Definition on_db {E A} (c : stm Db E A) : stm TransparencyLogService E A :=
  szoom tl_db (fun x s => {| storage_path := storage_path s; tl_disk := tl_disk s; tl_db := x;
                             tl_blockchain := tl_blockchain s |}) c.
Definition on_blockchain {E A} (c : stm B E A) : stm TransparencyLogService E A :=
  szoom tl_blockchain (fun x s => {| storage_path := storage_path s; tl_disk := tl_disk s;
                                     tl_db := tl_db s; tl_blockchain := x |}) c.

Abbreviation tls A := (stm TransparencyLogService TransparencyLogError A).

Definition open_db : tls unit :=
  let! s := sget in
  let! _ := smap_err StorageFailure (on_disk (fs_create_dir_all (storage_path s))) in
  smap_err DatabaseFailure (on_db db_open).

Definition process_query (q : query) : tls (list TransparencyLog) :=
  let! _ := open_db in
  let! s := sget in
  let! rows := slift (map_err DatabaseFailure (db_query (tl_db s) (sql_text q))) in
  slift (map_err DatabaseFailure (collect_rows rows)).

Definition find_transparency_log (id : string) : tls TransparencyLog :=
  let! results := process_query (ById id) in
  match results with
  | [l] => sret l
  | _ => serr (LogNotFound id)
  end.

Definition write_transparency_log (l : TransparencyLog) : tls unit :=
  let! _ := open_db in
  let! r := slift (map_err DatabaseFailure (encode_row l)) in
  smap_err DatabaseFailure (on_db (db_insert r)).

(** [sort_by(|a, b| a.timestamp.cmp(&b.timestamp))], a stable sort. *)
Definition by_timestamp (a b : TransparencyLog) : Prop := (tl_timestamp a <= tl_timestamp b)%Z.
#[export] Instance by_timestamp_dec a b : Decision (by_timestamp a b).
Proof. unfold by_timestamp. apply _. Defined.

Definition read_transparency_log (t : PackageType) (artifact : string) : tls TransparencyLog :=
  let! results := process_query (ByArtifact (PackageType_to_string t) artifact) in
  let vector := filter (fun l => is_artifact_op (tl_operation l) = true) results in
  let vector := stable_sort by_timestamp vector in
  let! latest_record := slift (ok_or (head vector) (ArtifactNotFound t artifact)) in
  if bool_decide (tl_operation latest_record = RemoveArtifact)
  then serr (InvalidOperation (tl_id latest_record) (tl_operation latest_record))
  else sret latest_record.

(** [to_u32().unwrap()]. *)
Definition len_u32 {A} (l : list A) : tls Z :=
  if (Z.of_nat (length l) <? 2 ^ 32)%Z then sret (Z.of_nat (length l)) else spanic.

(** [for rec in second_res { .. res.push(rec) }]. *)
Fixpoint push_records (t : PackageType) (p : string) (n : Z)
    (res second_res : list TransparencyLog) : tls (list TransparencyLog) :=
  match second_res with
  | [] => sret res
  | rec :: rest =>
      if bool_decide (tl_operation rec = AddArtifact) then push_records t p n (res ++ [rec]) rest
      else let! len := len_u32 res in serr (ArtifactLogIsNotConsistentState t p n len)
  end.

Definition read_last_transparency_log (t : PackageType) (p : string) : tls (list TransparencyLog) :=
  let! res := process_query (LastOf (PackageType_to_string t) p) in
  match head res with
  | None => sret res
  | Some l =>
      let num_artifacts := tl_num_artifacts l in
      if bool_decide (tl_operation l = AddArtifact) && (1 <? tl_num_artifacts l)%Z then
        let! second_res :=
          process_query (OthersOf (PackageType_to_string t) p (tl_id l) (Z.to_N (num_artifacts - 1))) in
        let! res := push_records t p num_artifacts res second_res in
        let! actual := len_u32 res in
        if (actual =? num_artifacts)%Z then sret res
        else serr (ArtifactLogIsNotConsistentState t p num_artifacts actual)
      else sret res
  end.

Definition read_transparency_logs (t : PackageType) (p : string) : tls (list TransparencyLog) :=
  process_query (AllOf (PackageType_to_string t) p).

Definition find_added_nodes : tls (list TransparencyLog) := process_query AddedNodes.

(** ** Operations *)
Definition verify_node_does_not_exist (peer_id : string) : tls unit :=
  let! _ := open_db in
  let! s := sget in
  (* query_row: the first row, an error when there is none *)
  let res :=
    let? rows := db_query (tl_db s) (sql_text (NodeOps peer_id)) in
    match rows with [] => Err QueryReturnedNoRows | r :: _ => get_string r 0 end in
  match res with
  | Ok val => if bool_decide (val = "AddNode") then serr (NodeAlreadyExists peer_id) else sret tt
  | Err _ => sret tt
  | Panic => spanic
  end.

(** The log [add_authorized_node] makes. *)
Definition node_log (peer_id : PeerId) (d : tl_draw) : TransparencyLog := {|
  tl_id := dr_id d; tl_package_type := None; tl_package_specific_id := "";
  tl_num_artifacts := 0; tl_package_specific_artifact_id := ""; tl_artifact_hash := "";
  tl_source_hash := ""; tl_artifact_id := ""; tl_source_id := "";
  tl_timestamp := dr_secs d; tl_operation := AddNode;
  tl_node_id := peer_id_to_string peer_id; tl_node_public_key := dr_node_public_key d |}.

Definition add_authorized_node (peer_id : PeerId) (d : tl_draw) : tls unit :=
  let! _ := verify_node_does_not_exist (peer_id_to_string peer_id) in
  let transparency_log := node_log peer_id d in
  let! payload := slift (ok_or (log_to_json transparency_log) SerdeJsonFailure) in
  let! _ := smap_err BlockchainFailure (on_blockchain (bc_add_block (as_bytes payload))) in
  write_transparency_log transparency_log.

Definition remove_authorized_node (peer_id : PeerId) : tls unit :=
  let! r := scatch (verify_node_does_not_exist (peer_id_to_string peer_id)) in
  match r with
  | inl _ => serr (NodeDoesNotExistOrRemoved (peer_id_to_string peer_id))
  | inr _ => sret tt
  end.

Definition tl_add_artifact (r : AddArtifactRequest) (d : tl_draw) : tls (TransparencyLog * string) :=
  let transparency_log := TransparencyLog_from r d in
  let! payload := slift (ok_or (log_to_json transparency_log) SerdeJsonFailure) in
  let! _ := write_transparency_log transparency_log in
  sret (transparency_log, payload).

Definition broadcast_artifacts (payloads : list string) : tls unit :=
  sfor payloads (fun payload => smap_err BlockchainFailure (on_blockchain (bc_add_block (as_bytes payload)))).

Definition write_if_not_exists (l : TransparencyLog) : tls unit :=
  let! r := scatch (find_transparency_log (tl_id l)) in
  match r with
  | inr (LogNotFound _) => write_transparency_log l
  | _ => sret tt
  end.

Definition remove_artifact (_ : PackageType) (_ : string) : tls unit := sret tt.

Definition tl_get_artifact (t : PackageType) (artifact : string) : tls TransparencyLog :=
  read_transparency_log t artifact.

Definition search_transparency_logs (t : PackageType) (p : string) (latest : bool) :
    tls (list TransparencyLog) :=
  if latest then read_last_transparency_log t p else read_transparency_logs t p.

Definition verify_package_can_be_added_to_transparency_logs (t : PackageType) (p : string) : tls unit :=
  let! res := read_last_transparency_log t p in
  match res with
  | log :: _ =>
      if bool_decide (tl_operation log = AddArtifact) then serr (ArtifactAlreadyExists t p) else sret tt
  | [] => sret tt
  end.

Definition get_authorized_nodes : tls (list PeerId) :=
  let! nodes := find_added_nodes in
  sret (omap (fun l => peer_id_from_str (tl_node_id l)) nodes).

(** ** The abstraction: a service holds a list of logs *)
Context `{!SqliteOk}.

Record holds (s : TransparencyLogService) (logs : list TransparencyLog) : Prop := {
  holds_db : db_ok (tl_db s);
  holds_rows : db_rows (tl_db s) = row_of <$> logs;
  holds_storable : Forall storable logs;
  holds_disk : fs_reliable (tl_disk s);
  holds_dir : forall c, fs_nodes (tl_disk s) !! storage_path s <> Some (NFile c);
}.

(** What a read leaves alone. *)
Definition kept (s s' : TransparencyLogService) (logs : list TransparencyLog) : Prop :=
  holds s' logs /\ tl_blockchain s' = tl_blockchain s.

Lemma open_db_spec s logs :
  holds s logs -> exists s', open_db s = (Ok tt, s') /\ kept s s' logs.
Proof.
  intros [Hdb Hrows Hst Hr Hdir]. unfold open_db, on_disk, on_db, fs_create_dir_all. unfold_stm; simpl.
  rewrite fs_check_reliable by done.
  destruct (db_open_ok (tl_db s) Hdb) as (db' & Ho & Hok & Hrows').
  destruct (fs_nodes (tl_disk s) !! storage_path s) as [[c|]|] eqn:E; simpl.
  - by destruct (Hdir c).
  - rewrite Ho. eexists; split; [done|]. split; [|done]. split; simpl; try done; [congruence|].
    intros c. by rewrite E.
  - rewrite Ho. eexists; split; [done|]. split; [|done]. split; simpl; try done; [congruence|].
    intros c. by rewrite lookup_insert_eq.
Qed.

Lemma sorted_fmap {A C} (f : A -> C) (R : A -> A -> Prop) (R' : C -> C -> Prop) (P : A -> Prop) l :
  (forall x y, P x -> P y -> R' (f x) (f y) -> R x y) -> Forall P l ->
  StronglySorted R' (f <$> l) -> StronglySorted R l.
Proof.
  intros HR. induction 1 as [|x l Hx Hl IH]; intros Hs; [constructor|].
  rewrite fmap_cons in Hs. apply StronglySorted_inv in Hs as [Hs Hf]. constructor; [by apply IH|].
  rewrite Forall_fmap in Hf. rewrite Forall_forall in Hf, Hl |- *. intros y Hy. apply HR; auto.
  by apply Hf.
Qed.

Lemma filter_rows q logs :
  Forall storable logs ->
  filter (fun r => query_where q r = true) (row_of <$> logs)
  = row_of <$> filter (fun l => log_where q l = true) logs.
Proof.
  induction 1 as [|l logs Hl Hls IH]; [done|]. rewrite fmap_cons, !filter_cons, where_row_of by done.
  rewrite IH. by destruct (decide (log_where q l = true)).
Qed.

(** The logs a statement without grouping or projection returns. *)
Definition logs_sorted (q : query) (ls : list TransparencyLog) : Prop :=
  match q with
  | LastOf _ _ | OthersOf _ _ _ _ | NodeOps _ => StronglySorted (fun a b => by_timestamp b a) ls
  | AllOf _ _ => StronglySorted by_timestamp ls
  | _ => True
  end.

Definition log_result (q : query) (logs res : list TransparencyLog) : Prop :=
  exists sel, sel ≡ₚ filter (fun l => log_where q l = true) logs
    /\ logs_sorted q sel
    /\ res = match query_limit q with Some n => take n sel | None => sel end.

Definition plain (q : query) : bool := match q with NodeOps _ | AddedNodes => false | _ => true end.

Lemma query_rows_logs q db logs rows :
  q <> AddedNodes ->
  db_rows db = row_of <$> logs -> Forall storable logs -> query_result q (db_rows db) rows ->
  exists res, rows = query_project q <$> (row_of <$> res) /\ log_result q logs res /\ Forall storable res.
Proof.
  intros Hq Hrows Hst Hres.
  assert (exists sel, sel ≡ₚ filter (fun r => query_where q r = true) (db_rows db)
    /\ query_sorted q sel
    /\ rows = query_project q <$> (match query_limit q with Some n => take n sel | None => sel end))
    as (sel & Hp & Hs & ->) by (by destruct q).
  rewrite Hrows, filter_rows in Hp by done. symmetry in Hp.
  apply Permutation_sym, Permutation_map_inv in Hp as (ls & -> & Hp).
  change (map row_of ls) with (row_of <$> ls) in *.
  assert (Forall storable ls) as Hls.
  { rewrite <- Hp. by apply Forall_filter_keep. }
  exists (match query_limit q with Some n => take n ls | None => ls end). split; [|split].
  - f_equal. destruct (query_limit q); [by rewrite fmap_take|done].
  - exists ls. split; [by rewrite <- Hp|]. split; [|done].
    destruct q; simpl in *; try done;
      (eapply (sorted_fmap row_of _ _ storable); [|done|exact Hs]);
      intros x y Hx Hy; unfold newest_first, oldest_first, by_timestamp;
      by rewrite !row_timestamp_of.
  - destruct (query_limit q); [by apply Forall_take|done].
Qed.

Lemma process_query_spec q s logs :
  plain q = true -> query_quotable q = true -> holds s logs ->
  exists s' res, process_query q s = (Ok res, s') /\ kept s s' logs /\ log_result q logs res.
Proof.
  intros Hpl Hq Hh. unfold process_query. unfold_stm.
  destruct (open_db_spec s logs Hh) as (s1 & -> & Hk). pose proof Hk as [Hh1 _].
  destruct (db_query_ok (tl_db s1) q) as (rows & -> & Hres); [apply Hh1|done|].
  destruct (query_rows_logs q (tl_db s1) logs rows) as (res & -> & Hlr & Hst);
    [by destruct q|apply Hh1|apply Hh1|done|].
  simpl. assert (query_project q <$> (row_of <$> res) = row_of <$> res) as ->.
  { destruct q; try done; apply list_fmap_id. }
  rewrite collect_rows_of by done; simpl. by exists s1, res.
Qed.

Lemma holds_ids s logs : holds s logs -> NoDup (tl_id <$> logs).
Proof.
  intros [Hdb Hrows Hst _ _]. pose proof (db_ok_nodup _ Hdb) as Hnd. rewrite Hrows in Hnd.
  rewrite <- list_fmap_compose in Hnd.
  assert ((row_id ∘ row_of) <$> logs = (fun l => Some (Text (tl_id l))) <$> logs) as Heq.
  { apply list_fmap_ext. intros i l Hl. simpl. apply row_id_of. by eapply Forall_lookup_1. }
  rewrite Heq in Hnd. change (fun l => Some (Text (tl_id l))) with ((fun i => Some (Text i)) ∘ tl_id) in Hnd.
  rewrite list_fmap_compose in Hnd. by apply NoDup_fmap_1 in Hnd.
Qed.

(** Writing a log with a new id appends it; with a known id it is refused. *)
Lemma write_spec s logs l :
  holds s logs -> storable l ->
  exists s', write_transparency_log l s
      = (if decide (tl_id l ∈ tl_id <$> logs) then Err (DatabaseFailure ConstraintViolation) else Ok tt, s')
    /\ kept s s' (if decide (tl_id l ∈ tl_id <$> logs) then logs else logs ++ [l]).
Proof.
  intros Hh Hl. unfold write_transparency_log. unfold_stm.
  destruct (open_db_spec s logs Hh) as (s1 & -> & Hh1 & Hb).
  rewrite encode_row_storable by done. unfold on_db. unfold_stm; simpl.
  assert (row_id (row_of l) ∈ row_id <$> db_rows (tl_db s1) <-> tl_id l ∈ tl_id <$> logs) as Hin.
  { rewrite (holds_rows _ _ Hh1), row_id_of by done. rewrite !list_elem_of_fmap. split.
    - intros (r & Hr & (l' & -> & Hl')%list_elem_of_fmap). exists l'. split; [|done].
      rewrite row_id_of in Hr by (by eapply Forall_forall; [apply (holds_storable _ _ Hh1)|]). congruence.
    - intros (l' & Hr & Hl'). exists (row_of l'). rewrite Hr, row_id_of
        by (by eapply Forall_forall; [apply (holds_storable _ _ Hh1)|]).
      split; [done|]. apply list_elem_of_fmap. by exists l'. }
  destruct Hh1 as [Hdb Hrows Hst Hr Hdir]. case_decide as Hid.
  - destruct (db_insert_dup (tl_db s1) (row_of l)) as (db' & -> & Hok & Hrows'); [done|by apply Hin|].
    eexists; split; [done|]. split; [|done]. split; simpl; try done. congruence.
  - destruct (db_insert_ok (tl_db s1) (row_of l)) as (db' & -> & Hok & Hrows'); [done|by rewrite Hin|].
    eexists; split; [done|]. split; [|done]. split; simpl; try done.
    + by rewrite Hrows', Hrows, fmap_app.
    + apply Forall_app. split; [done|]. by apply Forall_singleton.
Qed.

Lemma nodup_filter_id logs l :
  NoDup (tl_id <$> logs) -> l ∈ logs ->
  filter (fun x => log_where (ById (tl_id l)) x = true) logs = [l].
Proof.
  induction logs as [|x logs IH]; intros Hnd Hl; [by apply elem_of_nil in Hl|].
  rewrite fmap_cons in Hnd. apply NoDup_cons in Hnd as [Hx Hnd]. rewrite filter_cons; simpl.
  destruct (decide (tl_id x = tl_id l)) as [Heq|Hne].
  - assert (x = l) as ->.
    { apply elem_of_cons in Hl as [|Hl]; [done|]. destruct Hx. rewrite Heq. by apply list_elem_of_fmap_2. }
    rewrite decide_True by (by apply bool_decide_eq_true). f_equal.
    apply filter_none. intros y Hin Hy%bool_decide_eq_true. apply Hx. rewrite <- Hy.
    by apply list_elem_of_fmap_2.
  - rewrite decide_False by (intros Hb%bool_decide_eq_true; done). apply IH; [done|].
    apply elem_of_cons in Hl as [->|Hl]; done.
Qed.

(** Finding a log by its id. *)
Lemma find_spec s logs id :
  holds s logs -> quotable id = true ->
  exists s', kept s s' logs
    /\ ((exists l, l ∈ logs /\ tl_id l = id /\ find_transparency_log id s = (Ok l, s'))
        \/ ((id ∉ tl_id <$> logs) /\ find_transparency_log id s = (Err (LogNotFound id), s'))).
Proof.
  intros Hh Hq. unfold find_transparency_log. unfold_stm.
  destruct (process_query_spec (ById id) s logs) as (s' & res & -> & Hk & sel & Hp & _ & ->); [done..|].
  exists s'. split; [done|]. simpl.
  destruct (decide (id ∈ tl_id <$> logs)) as [(l & -> & Hl)%list_elem_of_fmap|Hn].
  - left. exists l. rewrite nodup_filter_id in Hp by (done || by eapply holds_ids).
    apply Permutation_singleton_r in Hp as ->. done.
  - right. split; [done|].
    assert (filter (fun l => log_where (ById id) l = true) logs = []) as Hnil.
    { apply filter_none. intros y Hin Hy%bool_decide_eq_true. apply Hn. rewrite <- Hy.
      by apply list_elem_of_fmap_2. }
    rewrite Hnil in Hp. apply Permutation_nil_r in Hp as ->. done.
Qed.

(** ** Records of a package *)
Lemma package_is_type l t : package_is l (PackageType_to_string t) = bool_decide (tl_package_type l = Some t).
Proof.
  unfold package_is. destruct (tl_package_type l) as [t'|]; [|done]. apply bool_decide_ext.
  destruct t, t'; naive_solver.
Qed.

(** The logs of an artifact, and of a package. *)
Definition artifact_record (t : PackageType) (a : string) (l : TransparencyLog) : Prop :=
  tl_package_type l = Some t /\ tl_package_specific_artifact_id l = a
  /\ is_artifact_op (tl_operation l) = true.
Definition package_record (t : PackageType) (p : string) (l : TransparencyLog) : Prop :=
  tl_package_type l = Some t /\ tl_package_specific_id l = p
  /\ is_artifact_op (tl_operation l) = true.

#[export] Instance artifact_record_dec t a l : Decision (artifact_record t a l).
Proof. unfold artifact_record. apply _. Defined.
#[export] Instance package_record_dec t a l : Decision (package_record t a l).
Proof. unfold package_record. apply _. Defined.

Lemma where_last t p l : log_where (LastOf (PackageType_to_string t) p) l = true <-> package_record t p l.
Proof.
  simpl. rewrite package_is_type, !andb_true_iff, !bool_decide_eq_true. unfold package_record. tauto.
Qed.

Lemma where_artifact t a l :
  log_where (ByArtifact (PackageType_to_string t) a) l = true /\ is_artifact_op (tl_operation l) = true
  <-> artifact_record t a l.
Proof.
  simpl. rewrite package_is_type, !andb_true_iff, !bool_decide_eq_true. unfold artifact_record. tauto.
Qed.

Lemma where_others t p id n l :
  log_where (OthersOf (PackageType_to_string t) p id n) l = true
  <-> package_record t p l /\ tl_operation l = AddArtifact /\ tl_id l <> id.
Proof.
  simpl. rewrite package_is_type, !andb_true_iff, negb_true_iff, !bool_decide_eq_true, bool_decide_eq_false.
  unfold package_record, is_artifact_op. split; [|tauto].
  intros [[[-> ?] ?] ?]. tauto.
Qed.

#[export] Instance by_timestamp_trans : Transitive by_timestamp.
Proof. intros x y z. unfold by_timestamp. lia. Qed.
#[export] Instance by_timestamp_total : Total by_timestamp.
Proof. intros x y. unfold by_timestamp. lia. Qed.

Lemma package_type_quotable t : quotable (PackageType_to_string t) = true.
Proof. by destruct t. Qed.

Lemma push_records_spec t p n res second s :
  Forall (fun l => tl_operation l = AddArtifact) second ->
  push_records t p n res second s = (Ok (res ++ second), s).
Proof.
  intros Hf. revert res; induction Hf as [|l ls Hl Hls IH]; intros res; simpl.
  - by rewrite app_nil_r.
  - rewrite bool_decide_true, IH by done. by rewrite <- app_assoc.
Qed.

(** All but the log with one id. *)
Lemma count_others (P : TransparencyLog -> Prop) `{!forall l, Decision (P l)} logs l :
  NoDup (tl_id <$> logs) -> l ∈ logs -> P l ->
  length (filter P logs) = S (length (filter (fun x => P x /\ tl_id x <> tl_id l) logs)).
Proof.
  induction logs as [|x logs IH]; intros Hnd Hl Hp; [by apply elem_of_nil in Hl|].
  rewrite fmap_cons in Hnd. apply NoDup_cons in Hnd as [Hx Hnd]. rewrite !filter_cons.
  apply elem_of_cons in Hl as [->|Hl].
  - rewrite decide_True, decide_False by naive_solver. simpl. do 2 f_equal.
    apply filter_ext_elem. intros y Hy. split; [|naive_solver]. intros Hpy. split; [done|].
    intros Heq. apply Hx. rewrite <- Heq. by apply list_elem_of_fmap_2.
  - assert (tl_id x <> tl_id l) by (intros Heq; apply Hx; rewrite Heq; by apply list_elem_of_fmap_2).
    destruct (decide (P x)).
    + rewrite decide_True by done; simpl. f_equal. by apply IH.
    + rewrite decide_False by naive_solver. by apply IH.
Qed.

(** A newest record of a package, and the records that come with it when it promises several artifacts: the newest of the
    other additions. *)
Definition newest_record (t : PackageType) (p : string) (logs : list TransparencyLog) (l : TransparencyLog) : Prop :=
  l ∈ logs /\ package_record t p l /\ forall l', l' ∈ logs -> package_record t p l' -> by_timestamp l' l.

Definition with_others (t : PackageType) (p : string) (logs : list TransparencyLog) (l : TransparencyLog)
    (others : list TransparencyLog) : Prop :=
  Z.of_nat (length (l :: others)) = tl_num_artifacts l
  /\ exists rest, others ++ rest ≡ₚ filter (fun x => package_record t p x /\ tl_operation x = AddArtifact /\ tl_id x <> tl_id l) logs
       /\ StronglySorted (fun x y => by_timestamp y x) (others ++ rest).

(** [read_last_transparency_log] on the logs a service holds. *)
Lemma read_last_spec t p s logs :
  holds s logs -> quotable p = true -> Forall (fun l => quotable (tl_id l) = true) logs ->
  exists s', kept s s' logs
    /\ (((forall l, l ∈ logs -> ~ package_record t p l) /\ read_last_transparency_log t p s = (Ok [], s'))
    \/ (exists l, l ∈ logs /\ package_record t p l
         /\ (forall l', l' ∈ logs -> package_record t p l' -> by_timestamp l' l)
         /\ let added := length (filter (fun x => package_record t p x /\ tl_operation x = AddArtifact) logs) in
            if decide (tl_operation l = AddArtifact /\ (1 < tl_num_artifacts l)%Z) then
              if decide (Z.of_nat added < tl_num_artifacts l)%Z then
                read_last_transparency_log t p s
                = (Err (ArtifactLogIsNotConsistentState t p (tl_num_artifacts l) (Z.of_nat added)), s')
              else exists others, with_others t p logs l others
                     /\ read_last_transparency_log t p s = (Ok (l :: others), s')
            else read_last_transparency_log t p s = (Ok [l], s'))).
Proof.
  intros Hh Hq Hids. unfold read_last_transparency_log. unfold_stm.
  destruct (process_query_spec (LastOf (PackageType_to_string t) p) s logs)
    as (s1 & res & -> & Hk & sel & Hp & Hs & ->);
    [done|simpl; by rewrite package_type_quotable|done|].
  assert (forall l, l ∈ sel <-> l ∈ logs /\ package_record t p l) as Hsel.
  { intros l. rewrite Hp, list_elem_of_filter, where_last. tauto. }
  simpl. destruct sel as [|l sel]; simpl.
  { exists s1. split; [done|]. left. split; [|done].
    intros l Hl Hr. by apply (elem_of_nil l), Hsel. }
  assert (l ∈ logs /\ package_record t p l) as [Hl Hr] by (apply Hsel; by left).
  assert (forall l', l' ∈ logs -> package_record t p l' -> by_timestamp l' l) as Hmax.
  { intros l' Hl' Hr'. apply StronglySorted_inv in Hs as [_ Hf]. rewrite Forall_forall in Hf.
    assert (l' ∈ l :: sel) as [->|Hin]%elem_of_cons by (by apply Hsel).
    - unfold by_timestamp; lia.
    - by apply Hf. }
  set (n := tl_num_artifacts l).
  destruct (bool_decide (tl_operation l = AddArtifact) && (1 <? n)%Z) eqn:Hb; last first.
  { exists s1. split; [done|]. right. exists l. do 3 (split; [done|]). simpl.
    rewrite decide_False; [done|]. intros [Ho Hn]. rewrite bool_decide_true in Hb by done.
    apply Z.ltb_ge in Hb. lia. }
  apply andb_true_iff in Hb as [Ho%bool_decide_eq_true Hn%Z.ltb_lt].
  pose proof Hk as [Hh1 Hb1].
  destruct (process_query_spec (OthersOf (PackageType_to_string t) p (tl_id l) (Z.to_N (n - 1))) s1 logs)
    as (s2 & res & -> & Hk2 & sel2 & Hp2 & Hs2 & ->);
    [done|simpl; rewrite package_type_quotable, Hq; rewrite Forall_forall in Hids; by rewrite (Hids l Hl)|done|].
  assert (length sel2 + 1 = length (filter (fun x => package_record t p x /\ tl_operation x = AddArtifact) logs))
    as Hcount.
  { rewrite (count_others _ logs l) by (done || by eapply holds_ids). rewrite Hp2, Nat.add_1_r. do 2 f_equal.
    apply filter_ext_elem. intros x _. rewrite where_others. tauto. }
  simpl. rewrite push_records_spec; last first.
  { apply Forall_take. rewrite Hp2. apply Forall_forall. intros x [Hx _]%list_elem_of_filter.
    apply where_others in Hx. apply Hx. }
  assert (u32 n) as Hu32.
  { assert (storable l) as [[? _] _] by (by eapply (Forall_forall _ logs); [apply Hh|]). done. }
  unfold len_u32. rewrite length_app, length_take. unfold fits in Hu32.
  rewrite (proj2 (Z.ltb_lt _ _)) by (simpl; lia). unfold_stm. simpl length.
  exists s2. split; [destruct Hk2 as [? ?]; split; [done|congruence]|]. right. exists l.
  do 3 (split; [done|]). cbv zeta. rewrite decide_True by done.
  change (length (l :: take 0 sel)) with 1. rewrite <- Hcount. fold n. case_decide as Hc.
  - rewrite (proj2 (Z.eqb_neq _ _)) by lia. do 2 f_equal. f_equal. lia.
  - rewrite (proj2 (Z.eqb_eq _ _)) by lia. exists (take (N.to_nat (Z.to_N (n - 1))) sel2). split; [|done]. split.
    + simpl. rewrite length_take. fold n. lia.
    + exists (drop (N.to_nat (Z.to_N (n - 1))) sel2). rewrite take_drop. split; [|done]. rewrite Hp2.
      apply reflexive_eq, filter_ext_elem. intros x _. apply where_others.
Qed.

(** What [search_transparency_logs] shows of a package: all its records, oldest first, or a newest one with the records
    that belong to it. *)
Definition shown (t : PackageType) (p : string) (latest : bool) (logs sel : list TransparencyLog) : Prop :=
  if latest then
    (sel = [] /\ forall l, l ∈ logs -> ~ package_record t p l)
    \/ exists l others, sel = l :: others /\ newest_record t p logs l
         /\ if decide (tl_operation l = AddArtifact /\ (1 < tl_num_artifacts l)%Z) then with_others t p logs l others
            else others = []
  else sel ≡ₚ filter (package_record t p) logs /\ StronglySorted by_timestamp sel.

Definition incomplete (t : PackageType) (p : string) (logs : list TransparencyLog) (l : TransparencyLog) : Prop :=
  newest_record t p logs l /\ tl_operation l = AddArtifact /\ (1 < tl_num_artifacts l)%Z
  /\ (Z.of_nat (length (filter (fun x => package_record t p x /\ tl_operation x = AddArtifact) logs)) < tl_num_artifacts l)%Z.

Lemma search_spec t p latest s logs :
  holds s logs -> quotable p = true -> Forall (fun l => quotable (tl_id l) = true) logs ->
  exists s', kept s s' logs
    /\ ((exists sel, shown t p latest logs sel /\ search_transparency_logs t p latest s = (Ok sel, s'))
        \/ latest = true /\ exists l n, incomplete t p logs l
             /\ search_transparency_logs t p latest s
                = (Err (ArtifactLogIsNotConsistentState t p (tl_num_artifacts l) n), s')).
Proof.
  intros Hh Hq Hids. unfold search_transparency_logs, shown. destruct latest.
  - destruct (read_last_spec t p s logs Hh Hq Hids) as (s' & Hk & [[Hn ->]|(l & Hl & Hr & Hmax & Hres)]);
      exists s'; (split; [done|]); [left; exists []; by auto|]. cbv zeta in Hres.
    assert (newest_record t p logs l) as Hnew by done. case_decide as Ha.
    + case_decide as Hc.
      * right. split; [done|]. exists l, (Z.of_nat (length (filter (fun x => package_record t p x /\ tl_operation x = AddArtifact) logs))).
        split; [by destruct Ha; split_and!|]. by rewrite Hres.
      * destruct Hres as (others & Ho & ->). left. exists (l :: others). split; [|done]. right. exists l, others.
        by rewrite decide_True.
    + left. exists [l]. split; [|by rewrite Hres]. right. exists l, []. by rewrite decide_False.
  - unfold read_transparency_logs.
    destruct (process_query_spec (AllOf (PackageType_to_string t) p) s logs)
      as (x & res & Hpq & Hx & sel & Hsel & Hsort & ->); [done|simpl; by rewrite package_type_quotable|done|].
    exists x. split; [done|]. left. exists sel. split; [|done]. split; [|done].
    rewrite Hsel. apply reflexive_eq, filter_ext_elem. intros l _. apply (where_last t p l).
Qed.

(** ** Records of a node *)
Definition node_record (n : string) (l : TransparencyLog) : Prop :=
  is_node_op (tl_operation l) = true /\ tl_node_id l = n.

(** The last word on a node: one of its records with the largest timestamp. *)
Definition last_word (logs : list TransparencyLog) (n : string) (l : TransparencyLog) : Prop :=
  l ∈ logs /\ node_record n l /\ forall l', l' ∈ logs -> node_record n l' -> by_timestamp l' l.

Lemma verify_node_spec n s logs :
  holds s logs -> quotable n = true ->
  exists s', kept s s' logs
    /\ (((forall l, l ∈ logs -> ~ node_record n l) /\ verify_node_does_not_exist n s = (Ok tt, s'))
        \/ exists l, last_word logs n l
           /\ verify_node_does_not_exist n s
              = (if decide (tl_operation l = AddNode) then Err (NodeAlreadyExists n) else Ok tt, s')).
Proof.
  intros Hh Hq. unfold verify_node_does_not_exist. unfold_stm.
  destruct (open_db_spec s logs Hh) as (s1 & -> & Hk). pose proof Hk as [Hh1 _].
  destruct (db_query_ok (tl_db s1) (NodeOps n)) as (rows & -> & Hres); [apply Hh1|done|].
  destruct (query_rows_logs (NodeOps n) (tl_db s1) logs rows) as (res & -> & (sel & Hp & Hs & ->) & Hst);
    [done|apply Hh1|apply Hh1|done|].
  assert (forall l, l ∈ sel <-> l ∈ logs /\ node_record n l) as Hsel.
  { intros l. rewrite Hp, list_elem_of_filter. simpl.
    rewrite andb_true_iff, bool_decide_eq_true. unfold node_record. tauto. }
  exists s1. split; [done|]. destruct sel as [|l sel].
  { left. split; [|done]. intros l Hl Hr. by apply (elem_of_nil l), Hsel. }
  right. exists l. apply Forall_cons in Hst as [Hst _]. split.
  { assert (l ∈ logs /\ node_record n l) as [Hl Hr] by (apply Hsel; by left).
    split; [done|]. split; [done|]. intros l' Hl' Hr'.
    apply StronglySorted_inv in Hs as [_ Hf]. rewrite Forall_forall in Hf.
    assert (l' ∈ l :: sel) as [->|Hin]%elem_of_cons by (by apply Hsel).
    - unfold by_timestamp; lia.
    - by apply Hf. }
  csimpl. row_of_unfold l Hst. csimpl. unfold get_string; simpl.
  by destruct (tl_operation l).
Qed.

Lemma fmap_row_of_inv (logs : list TransparencyLog) (rows : list row) :
  (forall r, r ∈ rows -> r ∈ row_of <$> logs) ->
  exists ls : list TransparencyLog, rows = row_of <$> ls /\ forall l, l ∈ ls -> l ∈ logs.
Proof.
  induction rows as [|r rows IH]; intros Hr.
  { exists []. split; [done|]. by intros l Hl%elem_of_nil. }
  destruct IH as (ls & -> & Hls); [intros x Hx; apply Hr; by right|].
  assert (r ∈ row_of <$> logs) as (l & -> & Hl)%list_elem_of_fmap by (apply Hr; by left).
  exists (l :: ls). split; [done|]. intros x [->|Hx]%elem_of_cons; auto.
Qed.

(** The nodes whose last word is AddNode, one log each. *)
Lemma find_added_nodes_spec s logs :
  holds s logs ->
  exists s' reps, find_added_nodes s = (Ok (filter (fun l => tl_operation l = AddNode) reps), s')
    /\ kept s s' logs
    /\ NoDup (tl_node_id <$> reps)
    /\ (forall l, l ∈ reps -> last_word logs (tl_node_id l) l)
    /\ (forall l, l ∈ logs -> is_node_op (tl_operation l) = true ->
          exists l', l' ∈ reps /\ tl_node_id l' = tl_node_id l).
Proof.
  intros Hh. unfold find_added_nodes, process_query. unfold_stm.
  destruct (open_db_spec s logs Hh) as (s1 & -> & Hk). pose proof Hk as [Hh1 _].
  destruct (db_query_ok (tl_db s1) AddedNodes) as (rows & -> & reps & (Hnd & Hmax & Hall) & ->);
    [apply Hh1|done|].
  rewrite (holds_rows _ _ Hh1), filter_rows in Hmax, Hall by apply Hh1.
  destruct (fmap_row_of_inv (filter (fun l => log_where AddedNodes l = true) logs) reps)
    as (ls & -> & Hls); [intros r Hr; by apply Hmax|].
  assert (Forall storable logs) as Hst by apply Hh. rewrite Forall_forall in Hst.
  assert (forall l, l ∈ ls -> l ∈ logs /\ is_node_op (tl_operation l) = true) as Hin.
  { intros l [? ?]%Hls%list_elem_of_filter. done. }
  assert (Forall storable ls) as Hst'.
  { apply Forall_forall. intros l Hl. apply Hst. by apply Hin. }
  assert (filter (fun r => col_is r 10 "AddNode" = true) (row_of <$> ls)
          = row_of <$> filter (fun l => tl_operation l = AddNode) ls) as ->.
  { clear -Hst'. induction Hst' as [|l ls Hl Hls IH]; [done|].
    rewrite fmap_cons, !filter_cons, IH, row_is_added by done.
    destruct (decide (tl_operation l = AddNode)); [by rewrite decide_True by (by apply bool_decide_eq_true)|].
    by rewrite decide_False by (by rewrite bool_decide_eq_true). }
  simpl. rewrite collect_rows_of by (by apply Forall_filter_keep). simpl.
  exists s1, ls. split; [done|]. split; [done|]. rewrite Forall_forall in Hst'. split; [|split].
  - rewrite <- list_fmap_compose in Hnd.
    assert ((row_node ∘ row_of) <$> ls = (fun i => Some (Text i)) <$> (tl_node_id <$> ls)) as Heq.
    { rewrite <- list_fmap_compose. apply list_fmap_ext. intros i l Hl%list_elem_of_lookup_2. simpl.
      by apply row_node_of, Hst'. }
    rewrite Heq in Hnd. by apply NoDup_fmap_1 in Hnd.
  - intros l Hl. destruct (Hin l Hl) as [Hlog Hop]. split; [done|]. split; [done|].
    intros l' Hl' [Hop' Hn]. destruct (Hmax (row_of l)) as [_ Hm]; [by apply list_elem_of_fmap_2|].
    specialize (Hm (row_of l')). rewrite !row_node_of, !row_timestamp_of in Hm by auto.
    apply Hm; [|by rewrite Hn]. apply list_elem_of_fmap_2, list_elem_of_filter. done.
  - intros l Hl Hop. destruct (Hall (row_of l)) as (r & (l' & -> & Hl')%list_elem_of_fmap & Hn).
    { apply list_elem_of_fmap_2, list_elem_of_filter. done. }
    exists l'. rewrite !row_node_of in Hn by auto. split; [done|congruence].
Qed.

Lemma get_authorized_nodes_spec s logs :
  holds s logs ->
  exists s' ps, get_authorized_nodes s = (Ok ps, s') /\ holds s' logs
    /\ (forall p, p ∈ ps -> exists n l, peer_id_from_str n = Some p /\ last_word logs n l
          /\ tl_operation l = AddNode)
    /\ (forall p n, peer_id_from_str n = Some p -> (exists l, l ∈ logs /\ node_record n l) ->
          (forall l, last_word logs n l -> tl_operation l = AddNode) -> p ∈ ps).
Proof.
  intros Hh. destruct (find_added_nodes_spec s logs Hh) as (s' & reps & Hf & [Hh' _] & _ & Hlast & Hall).
  unfold get_authorized_nodes. unfold_stm. rewrite Hf. eexists s', _. split; [done|]. split; [done|]. split.
  - intros p (l & [Ho Hl]%list_elem_of_filter & Hp)%list_elem_of_omap. exists (tl_node_id l), l. auto.
  - intros p n Hp (l & Hl & Hop & <-) Hadd. destruct (Hall l Hl Hop) as (l' & Hl' & Hn).
    apply list_elem_of_omap. exists l'. rewrite Hn. split; [|done]. apply list_elem_of_filter.
    split; [|done]. apply Hadd. rewrite <- Hn. by apply Hlast.
Qed.

(** A newer record of a node has the last word. *)
Lemma last_word_snoc logs x n l :
  node_record n x ->
  (forall l, l ∈ logs -> node_record n l -> (tl_timestamp l < tl_timestamp x)%Z) ->
  last_word (logs ++ [x]) n l <-> l = x.
Proof.
  intros Hx Hold. split.
  - intros (Hl & Hr & Hmax). apply elem_of_app in Hl as [Hl|Hl%list_elem_of_singleton]; [|done].
    specialize (Hmax x). unfold by_timestamp in Hmax. specialize (Hold l Hl Hr).
    assert (tl_timestamp x <= tl_timestamp l)%Z; [|lia]. apply Hmax; [|done].
    apply elem_of_app. right. by left.
  - intros ->. split; [apply elem_of_app; right; by left|]. split; [done|].
    intros l' [Hl'|Hl'%list_elem_of_singleton]%elem_of_app Hr'; unfold by_timestamp.
    + specialize (Hold l' Hl' Hr'). lia.
    + subst. lia.
Qed.

(** [get_artifact] on the logs a service holds. *)
Lemma tl_get_artifact_spec t a s logs :
  holds s logs -> quotable a = true ->
  exists s', holds s' logs
    /\ (((forall l, l ∈ logs -> ~ artifact_record t a l)
         /\ tl_get_artifact t a s = (Err (ArtifactNotFound t a), s'))
    \/ exists l, l ∈ logs /\ artifact_record t a l
         /\ (forall l', l' ∈ logs -> artifact_record t a l' -> (tl_timestamp l <= tl_timestamp l')%Z)
         /\ tl_get_artifact t a s
            = (if decide (tl_operation l = RemoveArtifact)
               then Err (InvalidOperation (tl_id l) RemoveArtifact) else Ok l, s')).
Proof.
  intros Hh Hq. unfold tl_get_artifact, read_transparency_log. unfold_stm.
  destruct (process_query_spec (ByArtifact (PackageType_to_string t) a) s logs)
    as (s1 & res & -> & [Hh1 _] & sel & Hp & _ & ->);
    [done|simpl; by rewrite package_type_quotable|done|].
  exists s1. split; [done|]. simpl.
  set (v := filter _ sel). assert (forall l, l ∈ v <-> l ∈ logs /\ artifact_record t a l) as Hv.
  { intros l. unfold v. rewrite list_elem_of_filter, Hp, list_elem_of_filter, <- where_artifact. tauto. }
  destruct (head (stable_sort by_timestamp v)) as [l|] eqn:Hd.
  - right. exists l. apply stable_sort_head in Hd as [Hl Hmin]; [|apply _|apply _].
    apply Hv in Hl as [Hl Hr]. do 2 (split; [done|]). split.
    + intros l' Hl' Hr'. apply Hmin. by apply Hv.
    + simpl. destruct (tl_operation l); done.
  - left. apply stable_sort_head_None in Hd. split; [|done].
    intros l Hl Hr. apply (elem_of_nil l). rewrite <- Hd. by apply Hv.
Qed.

(** The decision on a package. *)
Lemma verify_package_spec t p s logs :
  holds s logs -> quotable p = true -> Forall (fun l => quotable (tl_id l) = true) logs ->
  exists s', holds s' logs
    /\ (((forall l, l ∈ logs -> ~ package_record t p l)
         /\ verify_package_can_be_added_to_transparency_logs t p s = (Ok tt, s'))
    \/ exists l, l ∈ logs /\ package_record t p l
         /\ (forall l', l' ∈ logs -> package_record t p l' -> (tl_timestamp l' <= tl_timestamp l)%Z)
         /\ let added := Z.of_nat (length (filter (fun x => package_record t p x
                                              /\ tl_operation x = AddArtifact) logs)) in
            verify_package_can_be_added_to_transparency_logs t p s
            = (match tl_operation l with
               | AddArtifact =>
                   if decide (1 < tl_num_artifacts l /\ added < tl_num_artifacts l)%Z
                   then Err (ArtifactLogIsNotConsistentState t p (tl_num_artifacts l) added)
                   else Err (ArtifactAlreadyExists t p)
               | _ => Ok tt
               end, s')).
Proof.
  intros Hh Hq Hids. unfold verify_package_can_be_added_to_transparency_logs. unfold_stm.
  destruct (read_last_spec t p s logs Hh Hq Hids) as (s' & [Hh' _] & [[Hn ->]|(l & Hl & Hr & Hmax & Hres)]);
    exists s'; (split; [done|]); [by left|right].
  exists l. do 3 (split; [done|]). cbv zeta in Hres |- *.
  assert (is_artifact_op (tl_operation l) = true) as Hop by apply Hr.
  destruct (tl_operation l) eqn:Ho; try done.
  - destruct (decide (1 < tl_num_artifacts l)%Z).
    + rewrite decide_True in Hres by done. case_decide as Hc.
      * rewrite Hres, decide_True by done. done.
      * destruct Hres as (others & _ & ->). rewrite decide_False by tauto. by rewrite Ho.
    + rewrite decide_False in Hres by tauto. rewrite Hres, decide_False by tauto. by rewrite Ho.
  - rewrite decide_False in Hres by naive_solver. rewrite Hres. by rewrite Ho.
Qed.

Lemma write_if_not_exists_spec s logs l :
  holds s logs -> storable l -> quotable (tl_id l) = true ->
  exists s', write_if_not_exists l s = (Ok tt, s')
    /\ holds s' (if decide (tl_id l ∈ tl_id <$> logs) then logs else logs ++ [l]).
Proof.
  intros Hh Hl Hq. unfold write_if_not_exists. unfold_stm.
  destruct (find_spec s logs (tl_id l) Hh Hq) as (s1 & [Hh1 _] & [(l' & Hl' & Hid & ->)|[Hn ->]]); simpl.
  - exists s1. rewrite decide_True; [done|]. rewrite <- Hid. by apply list_elem_of_fmap_2.
  - destruct (write_spec s1 logs l Hh1 Hl) as (s2 & Hw & Hh2 & _). exists s2.
    rewrite Hw. split; [by rewrite decide_False by done|done].
Qed.

(** ** Properties *)

(** A log that is written is found under its id, unchanged in every field; a log
    whose id is known is refused and changes nothing; a timestamp that does not fit the
    signed 64-bit integers of the database is refused before anything is written. *)
Theorem log_write_find s logs l :
  holds s logs -> log_ok l -> quotable (tl_id l) = true ->
  exists s', if decide (tl_timestamp l < 2 ^ 63)%Z then
      if decide (tl_id l ∈ tl_id <$> logs) then
        write_transparency_log l s = (Err (DatabaseFailure ConstraintViolation), s') /\ holds s' logs
      else write_transparency_log l s = (Ok tt, s') /\ holds s' (logs ++ [l])
           /\ exists s'', find_transparency_log (tl_id l) s' = (Ok l, s'') /\ holds s'' (logs ++ [l])
    else write_transparency_log l s = (Err (DatabaseFailure ToSqlConversionFailure), s') /\ holds s' logs.
Proof.
  intros Hh Hok Hq. destruct (decide (tl_timestamp l < 2 ^ 63)%Z) as [Ht|Ht].
  - destruct (write_spec s logs l Hh) as (s' & Hw & Hh' & _); [done|]. exists s'.
    case_decide; [done|]. split; [done|]. split; [done|].
    destruct (find_spec s' (logs ++ [l]) (tl_id l) Hh' Hq) as (s'' & [Hh'' _] & [(l' & Hl' & Hid & Hf)|[Hn _]]).
    + exists s''. split; [|done]. rewrite Hf. do 2 f_equal.
      pose proof (nodup_filter_id _ l' (holds_ids _ _ Hh') Hl') as Hf1.
      pose proof (nodup_filter_id _ l (holds_ids _ _ Hh')) as Hf2.
      rewrite Hid, Hf2 in Hf1; [congruence|]. apply elem_of_app. right. by left.
    + destruct Hn. rewrite fmap_app. apply elem_of_app. right. by left.
  - unfold write_transparency_log. unfold_stm.
    destruct (open_db_spec s logs Hh) as (s1 & -> & Hh1 & _). exists s1.
    unfold encode_row. rewrite (proj2 (Z.ltb_ge _ _)) by lia. done.
Qed.

(** [write_if_not_exists] is idempotent: whether or not the log was there, the call
    succeeds, afterwards exactly one log has its id, earlier logs are kept, and a second
    call changes nothing. *)
Theorem write_if_not_exists_idempotent s logs l :
  holds s logs -> storable l -> quotable (tl_id l) = true ->
  exists s' s'' logs',
    write_if_not_exists l s = (Ok tt, s') /\ write_if_not_exists l s' = (Ok tt, s'')
    /\ holds s' logs' /\ holds s'' logs'
    /\ logs' = (if decide (tl_id l ∈ tl_id <$> logs) then logs else logs ++ [l])
    /\ length (filter (fun x => tl_id x = tl_id l) logs') = 1.
Proof.
  intros Hh Hl Hq.
  pose proof (fun s logs Hs => write_if_not_exists_spec s logs l Hs Hl Hq) as Hstep.
  destruct (Hstep s logs Hh) as (s1 & Hw1 & Hh1). destruct (Hstep s1 _ Hh1) as (s2 & Hw2 & Hh2).
  set (logs' := if decide _ then logs else logs ++ [l]) in *.
  assert (tl_id l ∈ tl_id <$> logs') as Hin.
  { unfold logs'. destruct (decide (tl_id l ∈ tl_id <$> logs)); [done|]. rewrite fmap_app. apply elem_of_app. right. by left. }
  rewrite (decide_True _ _ Hin) in Hh2. exists s1, s2, logs'. do 5 (split; [done|]).
  apply list_elem_of_fmap in Hin as (x & Hx & Hin). rewrite Hx.
  pose proof (nodup_filter_id _ x (holds_ids _ _ Hh1) Hin) as Hf.
  rewrite (filter_ext_elem _ (fun y => log_where (ById (tl_id x)) y = true)); [by rewrite Hf|].
  intros y _. simpl. by rewrite bool_decide_eq_true.
Qed.

(** [get_artifact] answers with the oldest record of an artifact: when there are
    records it is one with the smallest timestamp (the comment says the latest); if that
    one is a removal the call fails, otherwise it is returned. *)
Theorem get_artifact_oldest t a s logs :
  holds s logs -> quotable a = true ->
  exists s', holds s' logs
    /\ (((forall l, l ∈ logs -> ~ artifact_record t a l)
         /\ tl_get_artifact t a s = (Err (ArtifactNotFound t a), s'))
    \/ exists l, l ∈ logs /\ artifact_record t a l
         /\ (forall l', l' ∈ logs -> artifact_record t a l' -> (tl_timestamp l <= tl_timestamp l')%Z)
         /\ tl_get_artifact t a s
            = (if decide (tl_operation l = RemoveArtifact)
               then Err (InvalidOperation (tl_id l) RemoveArtifact) else Ok l, s')).
Proof.
  apply tl_get_artifact_spec.
Qed.

(** C19. A package can be added when it has no record or when its newest record is a
    removal, and in no other case, as the tests expect and contrary to the comment on the function, which
    lets a package be added unless its latest operation is a removal: a newest record that is an addition is an
    [ArtifactAlreadyExists], or, when it promises more artifacts than there are records
    of additions, an inconsistent log with the number that is there. *)
Theorem package_addition_decided t p s logs :
  holds s logs -> quotable p = true -> Forall (fun l => quotable (tl_id l) = true) logs ->
  exists s', holds s' logs
    /\ (((forall l, l ∈ logs -> ~ package_record t p l)
         /\ verify_package_can_be_added_to_transparency_logs t p s = (Ok tt, s'))
    \/ exists l, l ∈ logs /\ package_record t p l
         /\ (forall l', l' ∈ logs -> package_record t p l' -> (tl_timestamp l' <= tl_timestamp l)%Z)
         /\ let added := Z.of_nat (length (filter (fun x => package_record t p x
                                              /\ tl_operation x = AddArtifact) logs)) in
            verify_package_can_be_added_to_transparency_logs t p s
            = (match tl_operation l with
               | AddArtifact =>
                   if decide (1 < tl_num_artifacts l /\ added < tl_num_artifacts l)%Z
                   then Err (ArtifactLogIsNotConsistentState t p (tl_num_artifacts l) added)
                   else Err (ArtifactAlreadyExists t p)
               | _ => Ok tt
               end, s')).
Proof.
  apply verify_package_spec.
Qed.

(** C21. The authorized nodes are the nodes whose last word is AddNode: every peer in the
    answer has such a record, and a peer all of whose newest records are AddNode is in
    the answer.  When no node is added the answer is the empty list, not the error of which the comment on the function
    speaks. *)
Theorem authorized_nodes_exact s logs :
  holds s logs ->
  exists s' ps, get_authorized_nodes s = (Ok ps, s') /\ holds s' logs
    /\ (forall p, p ∈ ps -> exists n l, peer_id_from_str n = Some p /\ last_word logs n l
          /\ tl_operation l = AddNode)
    /\ (forall p n, peer_id_from_str n = Some p -> (exists l, l ∈ logs /\ node_record n l) ->
          (forall l, last_word logs n l -> tl_operation l = AddNode) -> p ∈ ps)
    /\ ((forall n l, last_word logs n l -> tl_operation l <> AddNode) -> ps = []).
Proof.
  intros Hh. destruct (get_authorized_nodes_spec s logs Hh) as (s' & ps & Hg & Hh' & Hin & Hall).
  exists s', ps. split_and!; [done..|]. intros Hno. destruct ps as [|p ps]; [done|].
  destruct (Hin p) as (n & l & _ & Hl & Ho); [by left|]. by destruct (Hno n l).
Qed.

(** Removing an authorized node removes nothing: whatever it answers, the logs and
    the blockchain stay as they were; it answers with success exactly when the node is
    known as added. *)
Theorem remove_authorized_node_keeps p s logs :
  holds s logs -> quotable (peer_id_to_string p) = true ->
  exists s' o, remove_authorized_node p s = (o, s') /\ holds s' logs
    /\ tl_blockchain s' = tl_blockchain s
    /\ (o = Ok tt \/ o = Err (NodeDoesNotExistOrRemoved (peer_id_to_string p)))
    /\ (o = Ok tt -> exists l, last_word logs (peer_id_to_string p) l /\ tl_operation l = AddNode).
Proof.
  intros Hh Hq. unfold remove_authorized_node. unfold_stm.
  destruct (verify_node_spec (peer_id_to_string p) s logs Hh Hq)
    as (s' & [Hh' Hb] & [[Hn ->]|(l & Hl & ->)]); simpl.
  - eexists s', _. split; [done|]. split; [done|]. split; [done|]. split; [by right|done].
  - case_decide; simpl; eexists s', _; (split; [done|]); (split; [done|]); (split; [done|]);
      (split; [auto|]); [by exists l|done].
Qed.

Context `{!CryptoOk, !LogJsonOk}.

(** The specification of [add_authorized_node]. *)
Lemma add_authorized_node_spec p d s logs b' payload :
  holds s logs -> quotable (peer_id_to_string p) = true ->
  (forall l, last_word logs (peer_id_to_string p) l -> tl_operation l <> AddNode) ->
  (0 <= dr_secs d < 2 ^ 63)%Z -> dr_id d ∉ tl_id <$> logs ->
  (forall l, l ∈ logs -> node_record (peer_id_to_string p) l -> (tl_timestamp l < dr_secs d)%Z) ->
  log_to_json (node_log p d) = Some payload ->
  bc_add_block (as_bytes payload) (tl_blockchain s) = (Ok tt, b') ->
  exists s', add_authorized_node p d s = (Ok tt, s')
    /\ tl_blockchain s' = b' /\ holds s' (logs ++ [node_log p d])
    /\ (exists s'' ps, get_authorized_nodes s' = (Ok ps, s'') /\ p ∈ ps)
    /\ forall d', exists s'', add_authorized_node p d' s' = (Err (NodeAlreadyExists (peer_id_to_string p)), s'')
         /\ tl_blockchain s'' = b' /\ holds s'' (logs ++ [node_log p d]).
Proof.
  intros Hh Hq Hnot Hsecs Hid Hold Hjson Hbc.
  set (x := node_log p d) in *. set (n := peer_id_to_string p) in *.
  assert (storable x) as Hx by (split; [split; unfold fits; simpl; lia|simpl; lia]).
  assert (node_record n x) as Hnx by done.
  assert (forall l, last_word (logs ++ [x]) n l <-> l = x) as Hlast.
  { intros l. by apply last_word_snoc. }
  assert (exists s1, add_authorized_node p d s = (Ok tt, s1) /\ tl_blockchain s1 = b'
    /\ holds s1 (logs ++ [x])) as (s1 & Hadd & Hb1 & Hh1).
  { unfold add_authorized_node. fold n x. unfold_stm.
    assert (exists s0, verify_node_does_not_exist n s = (Ok tt, s0) /\ kept s s0 logs)
      as (s0 & -> & Hh0 & Hb0).
    { destruct (verify_node_spec n s logs Hh Hq) as (s0 & Hk & [[_ Hv]|(l & Hl & Hv)]); exists s0; [done|].
      rewrite decide_False in Hv by (by apply Hnot). done. }
    rewrite Hjson; simpl. unfold on_blockchain. unfold_stm; simpl. rewrite Hb0, Hbc; simpl.
    match goal with |- context [write_transparency_log x ?s2] =>
      destruct (write_spec s2 logs x) as (s' & Hw & Hh' & Hb') end; [by destruct Hh0|done|].
    rewrite Hw. exists s'. rewrite decide_False in Hh' by done.
    split; [by rewrite decide_False by done|done]. }
  exists s1. do 3 (split; [done|]). split.
  - destruct (get_authorized_nodes_spec s1 (logs ++ [x]) Hh1) as (s2 & ps & Hg & _ & _ & Hin).
    exists s2, ps. split; [done|]. apply (Hin p n); [apply peer_id_text| |].
    + exists x. split; [apply elem_of_app; right; by left|done].
    + by intros l ->%Hlast.
  - intros d'. destruct (verify_node_spec n s1 (logs ++ [x]) Hh1 Hq)
      as (s2 & [Hh2 Hb2] & [[Hn _]|(l & ->%Hlast & Hv)]).
    + destruct (Hn x); [apply elem_of_app; right; by left|done].
    + exists s2. unfold add_authorized_node. fold n. unfold_stm. rewrite Hv, decide_True by done.
      split; [done|]. split; [congruence|done].
Qed.

(** A node that is not known as authorized becomes so: its log is put on the
    blockchain and written, it is then among the authorized nodes, and a second call
    is refused without touching the blockchain or the logs. *)
Theorem authorize_node_once p d s logs b' payload :
  holds s logs -> quotable (peer_id_to_string p) = true ->
  (forall l, last_word logs (peer_id_to_string p) l -> tl_operation l <> AddNode) ->
  (0 <= dr_secs d < 2 ^ 63)%Z -> dr_id d ∉ tl_id <$> logs ->
  (forall l, l ∈ logs -> node_record (peer_id_to_string p) l -> (tl_timestamp l < dr_secs d)%Z) ->
  log_to_json (node_log p d) = Some payload ->
  bc_add_block (as_bytes payload) (tl_blockchain s) = (Ok tt, b') ->
  exists s', add_authorized_node p d s = (Ok tt, s')
    /\ tl_blockchain s' = b' /\ holds s' (logs ++ [node_log p d])
    /\ (exists s'' ps, get_authorized_nodes s' = (Ok ps, s'') /\ p ∈ ps)
    /\ forall d', exists s'', add_authorized_node p d' s' = (Err (NodeAlreadyExists (peer_id_to_string p)), s'')
         /\ tl_blockchain s'' = b' /\ holds s'' (logs ++ [node_log p d]).
Proof.
  apply add_authorized_node_spec.
Qed.
End TransparencyLog.
Arguments TransparencyLogService {_} B.

(** ** A concrete service

    Logs are encoded as the list of their fields. *)
Definition str (bs : bytes) : string := String.string_of_list_byte bs.

Definition log_fields (l : TransparencyLog) : list bytes :=
  [as_bytes (tl_id l);
   match tl_package_type l with Some t => as_bytes (PackageType_to_string t) | None => [] end;
   as_bytes (tl_package_specific_id l); enc_le 4 (tl_num_artifacts l);
   as_bytes (tl_package_specific_artifact_id l); as_bytes (tl_artifact_hash l);
   as_bytes (tl_source_hash l); as_bytes (tl_artifact_id l); as_bytes (tl_source_id l);
   enc_le 8 (tl_timestamp l); as_bytes (Operation_to_string (tl_operation l));
   as_bytes (tl_node_id l); as_bytes (tl_node_public_key l)].

Definition log_of_fields (fs : list bytes) : option TransparencyLog :=
  match fs with
  | [i; pt; p; n; a; ah; sh; ai; si; ts; o; ni; nk] =>
      match dec_le 4 n, dec_le 8 ts, Operation_from_str (str o) with
      | Some (n, _), Some (ts, _), Some o =>
          Some {| tl_id := str i; tl_package_type := PackageType_from_str (str pt);
                  tl_package_specific_id := str p; tl_num_artifacts := n;
                  tl_package_specific_artifact_id := str a; tl_artifact_hash := str ah;
                  tl_source_hash := str sh; tl_artifact_id := str ai; tl_source_id := str si;
                  tl_timestamp := ts; tl_operation := o; tl_node_id := str ni;
                  tl_node_public_key := str nk |}
      | _, _, _ => None
      end
  | _ => None
  end.

#[export] Instance sample_log_json : LogJson := {|
  log_to_json := fun l => Some (str (enc_list enc_bytes (log_fields l)));
  log_from_json := fun bs =>
    match dec_seq dec_bytes bs with Some (fs, _) => log_of_fields fs | None => None end |}.

Lemma str_as_bytes s : str (as_bytes s) = s.
Proof. apply String.string_of_list_byte_of_string. Qed.

#[local] Opaque enc_le dec_le.
#[export] Instance sample_log_json_ok : LogJsonOk.
Proof.
  intros l [Hn Ht]. eexists; split; [done|]. unfold log_from_json; simpl log_to_json.
  unfold str, as_bytes at 1. cbn [sample_log_json]. rewrite String.list_byte_of_string_of_list_byte.
  rewrite <- (app_nil_r (enc_list enc_bytes (log_fields l))).
  rewrite (enc_list_ok (fun _ => True)) by (apply enc_bytes_ok || by apply Forall_true).
  unfold log_of_fields, log_fields.
  rewrite <- (app_nil_r (enc_le 4 _)), <- (app_nil_r (enc_le 8 _)).
  rewrite (enc_le_ok 4), (enc_le_ok 8) by done.
  rewrite !str_as_bytes, Operation_text. f_equal. destruct l as [? []]; simpl; [|done].
  by rewrite str_as_bytes, PackageType_text.
Qed.
#[local] Transparent enc_le dec_le.

(** A blockchain that keeps the payloads it is given. *)
#[export] Instance sample_adder : BlockAdder (list bytes) := {|
  bc_add_block := fun payload => smodify (fun b => b ++ [payload]) |}.

Definition sample_log (id : string) (ts : Z) (o : Operation) (n : Z) : TransparencyLog := {|
  tl_id := id; tl_package_type := Some Maven2; tl_package_specific_id := "g:a:1";
  tl_num_artifacts := n; tl_package_specific_artifact_id := "g/a/1/a-1.jar";
  tl_artifact_hash := "h"; tl_source_hash := ""; tl_artifact_id := "x" +:+ id;
  tl_source_id := "y"; tl_timestamp := ts; tl_operation := o; tl_node_id := "n";
  tl_node_public_key := "k" |}.

(** An artifact that was added, then removed. *)
Definition sample_logs : list TransparencyLog :=
  [sample_log "1" 10 AddArtifact 1; sample_log "2" 20 RemoveArtifact 1].

Definition sample_service (logs : list TransparencyLog) : TransparencyLogService (list bytes) := {|
  storage_path := "repo/transparency_log";
  tl_disk := {| fs_nodes := ∅; fs_fault := fun _ _ => None |};
  tl_db := row_of <$> logs; tl_blockchain := [] |}.

Lemma sample_holds : holds (sample_service sample_logs) sample_logs.
Proof.
  split; simpl; [|done| |done|done].
  - apply (bool_decide_unpack _). vm_compute. done.
  - repeat constructor; unfold fits; simpl; lia.
Qed.

Lemma log_write_find_witness :
  exists s' s'', write_transparency_log (sample_log "3" 30 AddArtifact 1) (sample_service sample_logs) = (Ok tt, s')
    /\ find_transparency_log "3" s' = (Ok (sample_log "3" 30 AddArtifact 1), s'').
Proof.
  destruct (log_write_find (sample_service sample_logs) sample_logs (sample_log "3" 30 AddArtifact 1))
    as (s' & Hs').
  - apply sample_holds.
  - split; unfold fits; simpl; lia.
  - reflexivity.
  - destruct Hs' as (Hw & _ & s'' & Hf & _). exists s', s''. split; [exact Hw|exact Hf].
Defined.

Lemma write_if_not_exists_idempotent_witness :
  exists s' s'' logs', write_if_not_exists (sample_log "3" 30 AddArtifact 1) (sample_service sample_logs)
                       = (Ok tt, s')
    /\ write_if_not_exists (sample_log "3" 30 AddArtifact 1) s' = (Ok tt, s'') /\ holds s'' logs'.
Proof.
  destruct (write_if_not_exists_idempotent (sample_service sample_logs) sample_logs
    (sample_log "3" 30 AddArtifact 1)) as (s' & s'' & logs' & Hw & Hw' & _ & Hh & _).
  - apply sample_holds.
  - split; [split; unfold fits; simpl; lia|simpl; lia].
  - reflexivity.
  - exists s', s'', logs'. auto.
Defined.

(** The removed artifact is still answered with. *)
Lemma get_artifact_oldest_witness :
  exists s' l, tl_get_artifact Maven2 "g/a/1/a-1.jar" (sample_service sample_logs) = (Ok l, s')
    /\ (tl_timestamp l <= 20)%Z.
Proof.
  destruct (get_artifact_oldest Maven2 "g/a/1/a-1.jar" (sample_service sample_logs) sample_logs)
    as (s' & _ & [[Hn _]|(l & Hl & Hr & Hmin & Hg)]).
  - apply sample_holds.
  - reflexivity.
  - exfalso. apply (Hn (sample_log "1" 10 AddArtifact 1)); [by left|by repeat split].
  - exists s', l.
    assert (tl_timestamp l <= 20)%Z as Hle.
    { apply (Hmin (sample_log "2" 20 RemoveArtifact 1)); [by right; left|by repeat split]. }
    assert (tl_timestamp l <= 10)%Z as Hle'.
    { apply (Hmin (sample_log "1" 10 AddArtifact 1)); [by left|by repeat split]. }
    split; [|exact Hle]. rewrite Hg.
    apply elem_of_cons in Hl as [->|[->|Hl%elem_of_nil]%elem_of_cons]; [reflexivity|simpl in Hle'; lia|done].
Defined.

Lemma package_addition_decided_witness :
  fst (verify_package_can_be_added_to_transparency_logs Maven2 "g:a:1" (sample_service sample_logs)) = Ok tt.
Proof.
  destruct (package_addition_decided Maven2 "g:a:1" (sample_service sample_logs) sample_logs)
    as (s' & _ & [[_ Hv]|(l & Hl & _ & Hmax & Hv)]).
  - apply sample_holds.
  - reflexivity.
  - repeat constructor.
  - rewrite Hv. reflexivity.
  - cbv zeta in Hv. rewrite Hv.
    assert (20 <= tl_timestamp l)%Z as Hle.
    { apply (Hmax (sample_log "2" 20 RemoveArtifact 1)); [by right; left|by repeat split]. }
    apply elem_of_cons in Hl as [->|[->|Hl%elem_of_nil]%elem_of_cons]; [simpl in Hle; lia|reflexivity|done].
Defined.

Definition sample_tl_draw : tl_draw := {|
  dr_id := "7"; dr_artifact_id := ""; dr_source_id := ""; dr_node_id := ""; dr_node_public_key := "k";
  dr_secs := 40 |}.
Definition sample_authorized : PeerId := "Koo".

(** Two nodes are added, and one of them is removed later. *)
Definition node_word (id : string) (ts : Z) (op : Operation) (n : string) : TransparencyLog := {|
  tl_id := id; tl_package_type := None; tl_package_specific_id := ""; tl_num_artifacts := 0;
  tl_package_specific_artifact_id := ""; tl_artifact_hash := ""; tl_source_hash := ""; tl_artifact_id := "";
  tl_source_id := ""; tl_timestamp := ts; tl_operation := op; tl_node_id := n; tl_node_public_key := "" |}.
Definition node_words : list TransparencyLog :=
  [node_word "1" 5 AddNode "12Koo"; node_word "2" 6 AddNode "12Kob"; node_word "3" 7 RemoveNode "12Kob"].

Lemma node_words_hold : holds (sample_service node_words) node_words.
Proof.
  split; simpl; [|done| |done|done].
  - apply (bool_decide_unpack _). vm_compute. done.
  - repeat constructor; unfold fits; simpl; lia.
Qed.

Lemma authorized_nodes_exact_witness :
  exists s' ps, get_authorized_nodes (sample_service node_words) = (Ok ps, s')
    /\ forall p, p ∈ ps <-> p = "Koo".
Proof.
  destruct (authorized_nodes_exact (sample_service node_words) node_words)
    as (s' & ps & Hg & _ & Hin & Hall & _); [apply node_words_hold|].
  exists s', ps. split; [exact Hg|]. intros p. split.
  - intros Hp. destruct (Hin p Hp) as (n & l & Hn & (Hl & [_ Hr] & Hmax) & Ho). subst n.
    apply elem_of_cons in Hl as [->|[->|[->|Hl%elem_of_nil]%elem_of_cons]%elem_of_cons]; [| |done|done].
    + vm_compute in Hn. by simplify_eq.
    + exfalso. specialize (Hmax (node_word "3" 7 RemoveNode "12Kob")). unfold by_timestamp in Hmax. simpl in Hmax.
      assert (7 <= 6)%Z; [|lia]. apply Hmax; [by right; right; left|by split].
  - intros ->. apply (Hall "Koo" "12Koo").
    + reflexivity.
    + exists (node_word "1" 5 AddNode "12Koo"). split; [by left|by split].
    + intros l (Hl & [_ Hr] & _).
      by apply elem_of_cons in Hl as [->|[->|[->|Hl%elem_of_nil]%elem_of_cons]%elem_of_cons].
Defined.

Lemma remove_authorized_node_keeps_witness :
  exists s' o, remove_authorized_node sample_authorized (sample_service sample_logs) = (o, s')
    /\ holds s' sample_logs.
Proof.
  destruct (remove_authorized_node_keeps sample_authorized (sample_service sample_logs) sample_logs)
    as (s' & o & Hr & Hh & _); [apply sample_holds|reflexivity|].
  exists s', o. auto.
Defined.

Lemma authorize_node_once_witness :
  exists s', add_authorized_node sample_authorized sample_tl_draw (sample_service sample_logs) = (Ok tt, s')
    /\ (exists s'' ps, get_authorized_nodes s' = (Ok ps, s'') /\ sample_authorized ∈ ps).
Proof.
  destruct (authorize_node_once sample_authorized sample_tl_draw (sample_service sample_logs) sample_logs
    [as_bytes (default "" (log_to_json (node_log sample_authorized sample_tl_draw)))]
    (default "" (log_to_json (node_log sample_authorized sample_tl_draw))))
    as (s' & Hadd & _ & _ & Hin & _).
  - apply sample_holds.
  - reflexivity.
  - intros l (Hl & [Hop _] & _). apply elem_of_cons in Hl as [->|[->|Hl%elem_of_nil]%elem_of_cons]; done.
  - simpl. lia.
  - apply (bool_decide_unpack _). vm_compute. done.
  - intros l Hl [Hop _]. apply elem_of_cons in Hl as [->|[->|Hl%elem_of_nil]%elem_of_cons]; done.
  - reflexivity.
  - reflexivity.
  - exists s'. split; [exact Hadd|exact Hin].
Defined.
