(* ===== verification/EventLoop.v ===== *)
(** * EventLoop: the network event loop

    Models src/network/event_loop.rs and src/network/client/command.rs.  The libp2p
    swarm is not part of the repository: its operations are the class [Libp2p].  A
    oneshot sender is a number; [el_answers] is the log of the values sent and
    [el_gone] the senders whose receiver was dropped.  A sender that is in no pending
    map and in no answer has been dropped by the loop: its receiver gets an error. *)

From S2P Require Import Prelude Crypto Structures Sample Model.

(** ** Messages of the request-response protocols *)
Inductive Request :=
| ArtifactRequest (artifact_id : string)
| BuildRequest (package_type : PackageType) (package_specific_id : string)
| IdleMetricRequest
| BlockchainRequest (data : bytes)
| BuildStatusRequest (build_id : string).

Inductive Response :=
| ArtifactResponse (artifact : bytes)
| BuildResponse (build_id : string)
| IdleMetricResponse (metric : bytes)
| BlockchainResponse (data : bytes)
| BuildStatusResponse (status : BuildStatus).

(** [VerifyBuildData], published on the build topic. *)
Record VerifyBuildData := { vb_package_type : PackageType; vb_package_specific_id : string }.

(** node_api/model/request.rs, [Status]. *)
Record Status := { peers_count : nat; peer_id : string; peer_addrs : list string }.

Definition sender : Type := nat.
Definition channel : Type := nat.
Definition QueryId : Type := nat.
Definition RequestId : Type := nat.

(** ** The swarm *)
Class Libp2p `{Crypto} := {
  Swarm : Type;
  Multiaddr : Type;
  Ipv4Addr : Type;
  multiaddr_to_string : Multiaddr -> string;
  parse_ipv4 : string -> option Ipv4Addr;
  (** [addr.with(Protocol::P2p(peer))] *)
  with_p2p : Multiaddr -> PeerId -> Multiaddr;
  (** [addr.replace(0, |_| Some(Protocol::Ip4(ip)))] *)
  replace_ip4 : Multiaddr -> Ipv4Addr -> option Multiaddr;
  local_peer_id : Swarm -> PeerId;
  connected_peers : Swarm -> list PeerId;
  listeners : Swarm -> list Multiaddr;
  gossip_subscribe : string -> stm Swarm string unit;
  gossip_publish : string -> bytes -> stm Swarm string unit;
  kad_add_address : PeerId -> Multiaddr -> Swarm -> Swarm;
  kad_bootstrap : stm Swarm string QueryId;
  kad_start_providing : bytes -> stm Swarm string QueryId;
  kad_get_providers : bytes -> Swarm -> QueryId * Swarm;
  autonat_add_server : PeerId -> Multiaddr -> Swarm -> Swarm;
  listen_on : Multiaddr -> stm Swarm string unit;
  swarm_dial : Multiaddr -> stm Swarm string unit;
  send_request : PeerId -> Request -> Swarm -> RequestId * Swarm;
  send_response : channel -> Response -> stm Swarm unit unit;
}.

Section EventLoop.
Context `{Libp2p} `{!Bincode VerifyBuildData}.

(** ** client/command.rs *)
Inductive Command :=
| AddProbe (peer_id : PeerId) (probe_addr : Multiaddr) (s : sender)
| BroadcastBlock (block : bytes) (s : sender)
| BootstrapDht (s : sender)
| Listen (addr : Multiaddr) (s : sender)
| Dial (peer_id : PeerId) (peer_addr : Multiaddr) (s : sender)
| ListPeers (s : sender)
| CmdStatus (s : sender)
| Provide (artifact_id : string) (s : sender)
| ListProviders (artifact_id : string) (s : sender)
| RequestBuild (peer : PeerId) (package_type : PackageType) (package_specific_id : string) (s : sender)
| RespondBuild (build_id : string) (ch : channel)
| VerifyBuild (package_type : PackageType) (package_specific_id : string) (s : sender)
| RequestArtifact (artifact_id : string) (peer : PeerId) (s : sender)
| RespondArtifact (artifact : bytes) (ch : channel)
| RequestIdleMetric (peer : PeerId) (s : sender)
| RespondIdleMetric (metric : bytes) (ch : channel)
| RequestBlockchain (data : bytes) (peer : PeerId) (s : sender)
| RespondBlockchain (data : bytes) (ch : channel)
| RequestBuildStatus (peer : PeerId) (build_id : string) (s : sender)
| RespondBuildStatus (status : BuildStatus) (ch : channel).

(** The values sent on the senders of the commands. *)
Inductive Answer :=
| AUnit (r : unit + string)
| APeers (peers : gset PeerId)
| AStatus (s : Status)
| AProvided
| AProviders (providers : gset PeerId)
| ABuild (r : string + string)
| AArtifact (r : bytes + string)
| AIdleMetric (r : bytes + string)
| ABlockchain (r : bytes + string)
| ABuildStatus (r : BuildStatus + string).

(** ** What the loop tells the node *)
Inductive PyrsiaEvent :=
| EvRequestArtifact (artifact_id : string) (ch : channel)
| EvRequestBuild (package_type : PackageType) (package_specific_id : string) (ch : channel)
| EvVerifyBuild (peer_id : PeerId) (package_type : PackageType) (package_specific_id : string)
| EvIdleMetricRequest (ch : channel)
| EvBlockchainRequest (data : bytes) (ch : option channel)
| EvRequestBuildStatus (build_id : string) (ch : channel).

Record PendingListProviders := { lp_sender : sender; lp_providers : gset PeerId }.

Record EventLoop := {
  el_swarm : Swarm;
  el_open : bool;                                   (* the event receiver is not dropped *)
  el_events : list PyrsiaEvent;
  el_bootstrapped : bool;
  el_bootstrap : gmap QueryId sender;
  el_dial : gmap PeerId sender;
  el_start_providing : gmap QueryId sender;
  el_list_providers : gmap QueryId PendingListProviders;
  el_request_artifact : gmap RequestId sender;
  el_request_build : gmap RequestId sender;
  el_idle_metric : gmap RequestId sender;
  el_blockchain : gmap RequestId sender;
  el_build_status : gmap RequestId sender;
  el_answers : list (sender * Answer);
  el_gone : gset sender;
  el_external_ip : string;                          (* PYRSIA_EXTERNAL_IP *)
}.

Definition blockchain_topic : string := "pyrsia-blockchain-topic".
Definition build_topic : string := "pyrsia-build-topic".

(** [PyrsiaEventLoop::new]. *)
Definition EventLoop_new (swarm : Swarm) (external_ip : string) : EventLoop := {|
  el_swarm := swarm; el_open := true; el_events := []; el_bootstrapped := false;
  el_bootstrap := ∅; el_dial := ∅; el_start_providing := ∅; el_list_providers := ∅;
  el_request_artifact := ∅; el_request_build := ∅; el_idle_metric := ∅; el_blockchain := ∅;
  el_build_status := ∅; el_answers := []; el_gone := ∅; el_external_ip := external_ip |}.

(** *** Assignments to the fields *)
Definition set_swarm {E} x : stm EventLoop E unit := smodify (fun l =>
  {| el_swarm := x;
     el_open := el_open l;
     el_events := el_events l;
     el_bootstrapped := el_bootstrapped l;
     el_bootstrap := el_bootstrap l;
     el_dial := el_dial l;
     el_start_providing := el_start_providing l;
     el_list_providers := el_list_providers l;
     el_request_artifact := el_request_artifact l;
     el_request_build := el_request_build l;
     el_idle_metric := el_idle_metric l;
     el_blockchain := el_blockchain l;
     el_build_status := el_build_status l;
     el_answers := el_answers l;
     el_gone := el_gone l;
     el_external_ip := el_external_ip l |}).
Definition set_events {E} x : stm EventLoop E unit := smodify (fun l =>
  {| el_swarm := el_swarm l;
     el_open := el_open l;
     el_events := x;
     el_bootstrapped := el_bootstrapped l;
     el_bootstrap := el_bootstrap l;
     el_dial := el_dial l;
     el_start_providing := el_start_providing l;
     el_list_providers := el_list_providers l;
     el_request_artifact := el_request_artifact l;
     el_request_build := el_request_build l;
     el_idle_metric := el_idle_metric l;
     el_blockchain := el_blockchain l;
     el_build_status := el_build_status l;
     el_answers := el_answers l;
     el_gone := el_gone l;
     el_external_ip := el_external_ip l |}).
Definition set_bootstrapped {E} x : stm EventLoop E unit := smodify (fun l =>
  {| el_swarm := el_swarm l;
     el_open := el_open l;
     el_events := el_events l;
     el_bootstrapped := x;
     el_bootstrap := el_bootstrap l;
     el_dial := el_dial l;
     el_start_providing := el_start_providing l;
     el_list_providers := el_list_providers l;
     el_request_artifact := el_request_artifact l;
     el_request_build := el_request_build l;
     el_idle_metric := el_idle_metric l;
     el_blockchain := el_blockchain l;
     el_build_status := el_build_status l;
     el_answers := el_answers l;
     el_gone := el_gone l;
     el_external_ip := el_external_ip l |}).
Definition set_bootstrap {E} x : stm EventLoop E unit := smodify (fun l =>
  {| el_swarm := el_swarm l;
     el_open := el_open l;
     el_events := el_events l;
     el_bootstrapped := el_bootstrapped l;
     el_bootstrap := x;
     el_dial := el_dial l;
     el_start_providing := el_start_providing l;
     el_list_providers := el_list_providers l;
     el_request_artifact := el_request_artifact l;
     el_request_build := el_request_build l;
     el_idle_metric := el_idle_metric l;
     el_blockchain := el_blockchain l;
     el_build_status := el_build_status l;
     el_answers := el_answers l;
     el_gone := el_gone l;
     el_external_ip := el_external_ip l |}).
Definition set_dial {E} x : stm EventLoop E unit := smodify (fun l =>
  {| el_swarm := el_swarm l;
     el_open := el_open l;
     el_events := el_events l;
     el_bootstrapped := el_bootstrapped l;
     el_bootstrap := el_bootstrap l;
     el_dial := x;
     el_start_providing := el_start_providing l;
     el_list_providers := el_list_providers l;
     el_request_artifact := el_request_artifact l;
     el_request_build := el_request_build l;
     el_idle_metric := el_idle_metric l;
     el_blockchain := el_blockchain l;
     el_build_status := el_build_status l;
     el_answers := el_answers l;
     el_gone := el_gone l;
     el_external_ip := el_external_ip l |}).
Definition set_start_providing {E} x : stm EventLoop E unit := smodify (fun l =>
  {| el_swarm := el_swarm l;
     el_open := el_open l;
     el_events := el_events l;
     el_bootstrapped := el_bootstrapped l;
     el_bootstrap := el_bootstrap l;
     el_dial := el_dial l;
     el_start_providing := x;
     el_list_providers := el_list_providers l;
     el_request_artifact := el_request_artifact l;
     el_request_build := el_request_build l;
     el_idle_metric := el_idle_metric l;
     el_blockchain := el_blockchain l;
     el_build_status := el_build_status l;
     el_answers := el_answers l;
     el_gone := el_gone l;
     el_external_ip := el_external_ip l |}).
Definition set_list_providers {E} x : stm EventLoop E unit := smodify (fun l =>
  {| el_swarm := el_swarm l;
     el_open := el_open l;
     el_events := el_events l;
     el_bootstrapped := el_bootstrapped l;
     el_bootstrap := el_bootstrap l;
     el_dial := el_dial l;
     el_start_providing := el_start_providing l;
     el_list_providers := x;
     el_request_artifact := el_request_artifact l;
     el_request_build := el_request_build l;
     el_idle_metric := el_idle_metric l;
     el_blockchain := el_blockchain l;
     el_build_status := el_build_status l;
     el_answers := el_answers l;
     el_gone := el_gone l;
     el_external_ip := el_external_ip l |}).
Definition set_request_artifact {E} x : stm EventLoop E unit := smodify (fun l =>
  {| el_swarm := el_swarm l;
     el_open := el_open l;
     el_events := el_events l;
     el_bootstrapped := el_bootstrapped l;
     el_bootstrap := el_bootstrap l;
     el_dial := el_dial l;
     el_start_providing := el_start_providing l;
     el_list_providers := el_list_providers l;
     el_request_artifact := x;
     el_request_build := el_request_build l;
     el_idle_metric := el_idle_metric l;
     el_blockchain := el_blockchain l;
     el_build_status := el_build_status l;
     el_answers := el_answers l;
     el_gone := el_gone l;
     el_external_ip := el_external_ip l |}).
Definition set_request_build {E} x : stm EventLoop E unit := smodify (fun l =>
  {| el_swarm := el_swarm l;
     el_open := el_open l;
     el_events := el_events l;
     el_bootstrapped := el_bootstrapped l;
     el_bootstrap := el_bootstrap l;
     el_dial := el_dial l;
     el_start_providing := el_start_providing l;
     el_list_providers := el_list_providers l;
     el_request_artifact := el_request_artifact l;
     el_request_build := x;
     el_idle_metric := el_idle_metric l;
     el_blockchain := el_blockchain l;
     el_build_status := el_build_status l;
     el_answers := el_answers l;
     el_gone := el_gone l;
     el_external_ip := el_external_ip l |}).
Definition set_idle_metric {E} x : stm EventLoop E unit := smodify (fun l =>
  {| el_swarm := el_swarm l;
     el_open := el_open l;
     el_events := el_events l;
     el_bootstrapped := el_bootstrapped l;
     el_bootstrap := el_bootstrap l;
     el_dial := el_dial l;
     el_start_providing := el_start_providing l;
     el_list_providers := el_list_providers l;
     el_request_artifact := el_request_artifact l;
     el_request_build := el_request_build l;
     el_idle_metric := x;
     el_blockchain := el_blockchain l;
     el_build_status := el_build_status l;
     el_answers := el_answers l;
     el_gone := el_gone l;
     el_external_ip := el_external_ip l |}).
Definition set_blockchain {E} x : stm EventLoop E unit := smodify (fun l =>
  {| el_swarm := el_swarm l;
     el_open := el_open l;
     el_events := el_events l;
     el_bootstrapped := el_bootstrapped l;
     el_bootstrap := el_bootstrap l;
     el_dial := el_dial l;
     el_start_providing := el_start_providing l;
     el_list_providers := el_list_providers l;
     el_request_artifact := el_request_artifact l;
     el_request_build := el_request_build l;
     el_idle_metric := el_idle_metric l;
     el_blockchain := x;
     el_build_status := el_build_status l;
     el_answers := el_answers l;
     el_gone := el_gone l;
     el_external_ip := el_external_ip l |}).
Definition set_build_status {E} x : stm EventLoop E unit := smodify (fun l =>
  {| el_swarm := el_swarm l;
     el_open := el_open l;
     el_events := el_events l;
     el_bootstrapped := el_bootstrapped l;
     el_bootstrap := el_bootstrap l;
     el_dial := el_dial l;
     el_start_providing := el_start_providing l;
     el_list_providers := el_list_providers l;
     el_request_artifact := el_request_artifact l;
     el_request_build := el_request_build l;
     el_idle_metric := el_idle_metric l;
     el_blockchain := el_blockchain l;
     el_build_status := x;
     el_answers := el_answers l;
     el_gone := el_gone l;
     el_external_ip := el_external_ip l |}).
Definition set_answers {E} x : stm EventLoop E unit := smodify (fun l =>
  {| el_swarm := el_swarm l;
     el_open := el_open l;
     el_events := el_events l;
     el_bootstrapped := el_bootstrapped l;
     el_bootstrap := el_bootstrap l;
     el_dial := el_dial l;
     el_start_providing := el_start_providing l;
     el_list_providers := el_list_providers l;
     el_request_artifact := el_request_artifact l;
     el_request_build := el_request_build l;
     el_idle_metric := el_idle_metric l;
     el_blockchain := el_blockchain l;
     el_build_status := el_build_status l;
     el_answers := x;
     el_gone := el_gone l;
     el_external_ip := el_external_ip l |}).

(** ** Steps of the handlers *)
Abbreviation el A := (stm EventLoop Empty_set A).

(** [sender.send(r).unwrap_or_else(|e| error!(..))]. *)
Definition answer (s : sender) (a : Answer) : el unit :=
  let! l := sget in
  if decide (s ∈ el_gone l) then sret tt else set_answers (el_answers l ++ [(s, a)]).

(** [event_sender.send(e).await.expect(..)]. *)
Definition emit (e : PyrsiaEvent) : el unit :=
  let! l := sget in
  if el_open l then set_events (el_events l ++ [e]) else spanic.

(** A call of the swarm, its result as a value. *)
Definition swarm_try {A} (c : stm Swarm string A) : el (A + string) :=
  let! l := sget in
  match c (el_swarm l) with
  | (Ok a, sw) => let! _ := set_swarm sw in sret (inl a)
  | (Err e, sw) => let! _ := set_swarm sw in sret (inr e)
  | (Panic, sw) => let! _ := set_swarm sw in spanic
  end.
Definition swarm_do {A} (c : Swarm -> A * Swarm) : el A :=
  let! l := sget in
  let '(a, sw) := c (el_swarm l) in
  let! _ := set_swarm sw in
  sret a.

(** [PyrsiaEventLoop::initialize]. *)
Definition initialize : stm EventLoop string unit := fun l =>
  match gossip_subscribe blockchain_topic (el_swarm l) with
  | (Ok _, sw) =>
      let '(_, l) := @set_swarm string sw l in
      match gossip_subscribe build_topic (el_swarm l) with
      | (o, sw) => let '(_, l) := @set_swarm string sw l in (o, l)
      end
  | (o, sw) => let '(_, l) := @set_swarm string sw l in (o, l)
  end.

(** ** Events of the behaviours *)
Inductive NatStatus := NatPublic (address : Multiaddr) | NatPrivate | NatUnknown.
Inductive AutonatEvent := InboundProbe | OutboundProbe | StatusChanged (new : NatStatus).

Definition handle_autonat_event (e : AutonatEvent) : el unit :=
  match e with
  | InboundProbe | OutboundProbe => sret tt
  | StatusChanged (NatPublic address) =>
      let! l := sget in
      let local := local_peer_id (el_swarm l) in
      set_swarm (kad_add_address local address (el_swarm l))
  | StatusChanged NatPrivate | StatusChanged NatUnknown => sret tt
  end.

Record GossipsubMessage := { gm_source : option PeerId; gm_data : bytes; gm_topic : string }.
Inductive GossipsubEvent := GossipMessage (m : GossipsubMessage) | GossipOther.

Definition handle_gossipsub_event (e : GossipsubEvent) : el unit :=
  match e with
  | GossipOther => sret tt
  | GossipMessage m =>
      if bool_decide (gm_topic m = build_topic) then
        match gm_source m with
        | Some source =>
            match deserialize (gm_data m) with
            | Some d => emit (EvVerifyBuild source (vb_package_type d) (vb_package_specific_id d))
            | None => sret tt
            end
        | None => sret tt
        end
      else if bool_decide (gm_topic m = blockchain_topic) then
        emit (EvBlockchainRequest (gm_data m) None)
      else sret tt
  end.

Inductive KademliaEvent :=
| StartProvidingDone (id : QueryId)
| FoundProviders (id : QueryId) (providers : gset PeerId)
| FinishedWithNoAdditionalRecord (id : QueryId)
| GetProvidersErr (id : QueryId)
| BootstrapOk (id : QueryId) (num_remaining : Z)
| BootstrapErr (id : QueryId) (error : string)
| KadOther.

Definition handle_kademlia_event (e : KademliaEvent) : el unit :=
  let! l := sget in
  match e with
  | StartProvidingDone id =>
      match el_start_providing l !! id with
      | Some s =>
          let! _ := set_start_providing (delete id (el_start_providing l)) in
          answer s AProvided
      | None => spanic
      end
  | FoundProviders id providers =>
      match el_list_providers l !! id with
      | Some p =>
          set_list_providers (<[id := {| lp_sender := lp_sender p;
                                         lp_providers := lp_providers p ∪ providers |}]> (el_list_providers l))
      | None => spanic
      end
  | FinishedWithNoAdditionalRecord id =>
      match el_list_providers l !! id with
      | Some p =>
          let! _ := set_list_providers (delete id (el_list_providers l)) in
          answer (lp_sender p) (AProviders (lp_providers p))
      | None => spanic
      end
  | BootstrapOk id num_remaining =>
      if (num_remaining =? 0)%Z then
        match el_bootstrap l !! id with
        | Some s =>
            let! _ := set_bootstrap (delete id (el_bootstrap l)) in
            answer s (AUnit (inl tt))
        | None => spanic
        end
      else sret tt
  | BootstrapErr id error =>
      match el_bootstrap l !! id with
      | Some s =>
          let! _ := set_bootstrap (delete id (el_bootstrap l)) in
          answer s (AUnit (inr error))
      | None => spanic
      end
  | GetProvidersErr _ | KadOther => sret tt
  end.

(** [RequestResponseEvent], at the messages of one protocol. *)
Inductive RequestResponseEvent (Req Resp : Type) :=
| RRRequest (request : Req) (ch : channel)
| RRResponse (request_id : RequestId) (response : Resp)
| InboundFailure
| OutboundFailure (request_id : RequestId) (error : string)
| ResponseSent.
Arguments RRRequest {Req Resp} request ch.
Arguments RRResponse {Req Resp} request_id response.
Arguments InboundFailure {Req Resp}.
Arguments OutboundFailure {Req Resp} request_id error.
Arguments ResponseSent {Req Resp}.

(** [pending.remove(&id).expect(..).send(r)]. *)
Definition settle (pending : gmap RequestId sender) (set_pending : gmap RequestId sender -> el unit)
    (id : RequestId) (a : Answer) : el unit :=
  match pending !! id with
  | Some s => let! _ := set_pending (delete id pending) in answer s a
  | None => spanic
  end.

Definition handle_request_response_event (e : RequestResponseEvent string bytes) : el unit :=
  let! l := sget in
  match e with
  | RRRequest artifact_id ch => emit (EvRequestArtifact artifact_id ch)
  | RRResponse id artifact =>
      settle (el_request_artifact l) set_request_artifact id (AArtifact (inl artifact))
  | InboundFailure => sret tt
  | OutboundFailure id error =>
      settle (el_request_artifact l) set_request_artifact id (AArtifact (inr error))
  | ResponseSent => sret tt
  end.

Definition handle_idle_metric_request_response_event (e : RequestResponseEvent unit bytes) : el unit :=
  let! l := sget in
  match e with
  | RRRequest _ ch => emit (EvIdleMetricRequest ch)
  | RRResponse id metric => settle (el_idle_metric l) set_idle_metric id (AIdleMetric (inl metric))
  | InboundFailure => sret tt
  | OutboundFailure id error => settle (el_idle_metric l) set_idle_metric id (AIdleMetric (inr error))
  | ResponseSent => sret tt
  end.

Definition handle_build_request_response_event (e : RequestResponseEvent (PackageType * string) string) :
    el unit :=
  let! l := sget in
  match e with
  | RRRequest (t, p) ch => emit (EvRequestBuild t p ch)
  | RRResponse id build_id => settle (el_request_build l) set_request_build id (ABuild (inl build_id))
  | InboundFailure => sret tt
  | OutboundFailure id error => settle (el_request_build l) set_request_build id (ABuild (inr error))
  | ResponseSent => sret tt
  end.

Definition handle_build_status_request_response_event (e : RequestResponseEvent string BuildStatus) :
    el unit :=
  let! l := sget in
  match e with
  | RRRequest build_id ch => emit (EvRequestBuildStatus build_id ch)
  | RRResponse id status => settle (el_build_status l) set_build_status id (ABuildStatus (inl status))
  | InboundFailure => sret tt
  | OutboundFailure id error => settle (el_build_status l) set_build_status id (ABuildStatus (inr error))
  | ResponseSent => sret tt
  end.

Definition handle_blockchain_request_response_event (e : RequestResponseEvent bytes bytes) : el unit :=
  let! l := sget in
  match e with
  | RRRequest data ch => emit (EvBlockchainRequest data (Some ch))
  | RRResponse id data => settle (el_blockchain l) set_blockchain id (ABlockchain (inl data))
  | InboundFailure => sret tt
  | OutboundFailure id error => settle (el_blockchain l) set_blockchain id (ABlockchain (inr error))
  | ResponseSent => sret tt
  end.

(** The other events of the swarm; those whose arm does nothing or only logs are
    [SwarmOther]. *)
Inductive SwarmEvent :=
| ConnectionEstablished (peer_id : PeerId) (is_dialer : bool) (remote_address : Multiaddr)
| OutgoingConnectionError (peer_id : option PeerId) (error : string)
| SwarmOther.

Definition handle_swarm_event (e : SwarmEvent) : el unit :=
  let! l := sget in
  match e with
  | ConnectionEstablished peer is_dialer remote_address =>
      if is_dialer then
        match el_dial l !! peer with
        | Some s =>
            let! _ := set_dial (delete peer (el_dial l)) in
            let! _ := set_swarm (kad_add_address peer remote_address (el_swarm l)) in
            answer s (AUnit (inl tt))
        | None => sret tt
        end
      else sret tt
  | OutgoingConnectionError (Some peer) error =>
      match el_dial l !! peer with
      | Some s =>
          let! _ := set_dial (delete peer (el_dial l)) in
          answer s (AUnit (inr error))
      | None => sret tt
      end
  | OutgoingConnectionError None _ => sret tt
  | SwarmOther => sret tt
  end.

(** ** Commands *)
Definition cmd_add_probe (peer : PeerId) (probe_addr : Multiaddr) (s : sender) : el unit :=
  let! l := sget in
  match el_dial l !! peer with
  | None =>
      let! _ := set_dial (<[peer := s]> (el_dial l)) in
      set_swarm (autonat_add_server peer probe_addr (el_swarm l))
  | Some _ => sret tt
  end.

Definition cmd_bootstrap_dht (s : sender) : el unit :=
  let! l := sget in
  if el_bootstrapped l then sret tt
  else
    let! r := swarm_try kad_bootstrap in
    match r with
    | inl query_id =>
        let! _ := set_bootstrapped true in
        set_bootstrap (<[query_id := s]> (el_bootstrap l))
    | inr e => answer s (AUnit (inr e))
    end.

Definition cmd_listen (addr : Multiaddr) (s : sender) : el unit :=
  let! r := swarm_try (listen_on addr) in
  answer s (AUnit r).

Definition cmd_dial (peer : PeerId) (peer_addr : Multiaddr) (s : sender) : el unit :=
  let! l := sget in
  match el_dial l !! peer with
  | None =>
      let! r := swarm_try (swarm_dial (with_p2p peer_addr peer)) in
      match r with
      | inl _ => set_dial (<[peer := s]> (el_dial l))
      | inr e => answer s (AUnit (inr e))
      end
  | Some _ => sret tt
  end.

Definition cmd_list_peers (s : sender) : el unit :=
  let! l := sget in
  answer s (APeers (list_to_set (connected_peers (el_swarm l)))).

(** The text of one listener: with the external address in place of the first
    protocol when it parses; [replace(..).unwrap()]. *)
Definition listener_text (external_ip : string) (local : PeerId) (addr : Multiaddr) :
    outcome Empty_set string :=
  let local_peer := "/p2p/" +:+ peer_id_to_string local in
  if bool_decide (external_ip = "") then Ok (multiaddr_to_string addr +:+ local_peer)
  else match parse_ipv4 external_ip with
       | Some ip =>
           let? new_addr := unwrap (replace_ip4 addr ip) in
           Ok (multiaddr_to_string new_addr +:+ local_peer)
       | None => Ok (multiaddr_to_string addr +:+ local_peer)
       end.

Fixpoint listener_texts (external_ip : string) (local : PeerId) (addrs : list Multiaddr) :
    outcome Empty_set (gset string) :=
  match addrs with
  | [] => Ok ∅
  | a :: rest =>
      let? t := listener_text external_ip local a in
      let? ts := listener_texts external_ip local rest in
      Ok ({[t]} ∪ ts)
  end.

(** [sender.send(status).unwrap()]. *)
Definition cmd_status (s : sender) : el unit :=
  let! l := sget in
  let local := local_peer_id (el_swarm l) in
  let! addr_map := slift (listener_texts (el_external_ip l) local (listeners (el_swarm l))) in
  let status := {| peers_count := length (connected_peers (el_swarm l));
                   peer_id := peer_id_to_string local; peer_addrs := elements addr_map |} in
  if decide (s ∈ el_gone l) then spanic else answer s (AStatus status).

(** [start_providing(..).expect("No store error.")]. *)
Definition cmd_provide (artifact_id : string) (s : sender) : el unit :=
  let! l := sget in
  let! r := swarm_try (kad_start_providing (as_bytes artifact_id)) in
  match r with
  | inl query_id => set_start_providing (<[query_id := s]> (el_start_providing l))
  | inr _ => spanic
  end.

Definition cmd_list_providers (artifact_id : string) (s : sender) : el unit :=
  let! l := sget in
  let! query_id := swarm_do (kad_get_providers (as_bytes artifact_id)) in
  set_list_providers (<[query_id := {| lp_sender := s; lp_providers := ∅ |}]> (el_list_providers l)).

Definition cmd_verify_build (t : PackageType) (p : string) (s : sender) : el unit :=
  match serialize {| vb_package_type := t; vb_package_specific_id := p |} with
  | Some serialized_data =>
      let! r := swarm_try (gossip_publish build_topic serialized_data) in
      answer s (AUnit r)
  | None => answer s (AUnit (inr "bincode error"))
  end.

Definition cmd_broadcast_block (block : bytes) (s : sender) : el unit :=
  let! r := swarm_try (gossip_publish blockchain_topic block) in
  answer s (AUnit r).

(** [send_request], and the sender is kept under the id of the request. *)
Definition cmd_request (peer : PeerId) (request : Request) (pending : EventLoop -> gmap RequestId sender)
    (set_pending : gmap RequestId sender -> el unit) (s : sender) : el unit :=
  let! l := sget in
  let! request_id := swarm_do (send_request peer request) in
  set_pending (<[request_id := s]> (pending l)).

(** [send_response(..).expect("Connection to peer to be still open.")]. *)
Definition cmd_respond (ch : channel) (response : Response) : el unit := fun l =>
  match send_response ch response (el_swarm l) with
  | (Ok _, sw) => set_swarm sw l
  | (_, sw) => (Panic, snd (@set_swarm Empty_set sw l))
  end.

(** The requests and responses of the five protocols. *)
Definition cmd_request_build (peer : PeerId) (t : PackageType) (p : string) (s : sender) : el unit :=
  cmd_request peer (BuildRequest t p) el_request_build set_request_build s.
Definition cmd_respond_build (build_id : string) (ch : channel) : el unit :=
  cmd_respond ch (BuildResponse build_id).
Definition cmd_request_artifact (a : string) (peer : PeerId) (s : sender) : el unit :=
  cmd_request peer (ArtifactRequest a) el_request_artifact set_request_artifact s.
Definition cmd_respond_artifact (artifact : bytes) (ch : channel) : el unit :=
  cmd_respond ch (ArtifactResponse artifact).
Definition cmd_request_idle_metric (peer : PeerId) (s : sender) : el unit :=
  cmd_request peer IdleMetricRequest el_idle_metric set_idle_metric s.
Definition cmd_respond_idle_metric (metric : bytes) (ch : channel) : el unit :=
  cmd_respond ch (IdleMetricResponse metric).
Definition cmd_request_blockchain (data : bytes) (peer : PeerId) (s : sender) : el unit :=
  cmd_request peer (BlockchainRequest data) el_blockchain set_blockchain s.
Definition cmd_respond_blockchain (data : bytes) (ch : channel) : el unit :=
  cmd_respond ch (BlockchainResponse data).
Definition cmd_request_build_status (peer : PeerId) (build_id : string) (s : sender) : el unit :=
  cmd_request peer (BuildStatusRequest build_id) el_build_status set_build_status s.
Definition cmd_respond_build_status (status : BuildStatus) (ch : channel) : el unit :=
  cmd_respond ch (BuildStatusResponse status).

Definition handle_command (c : Command) : el unit :=
  match c with
  | AddProbe peer addr s => cmd_add_probe peer addr s
  | BootstrapDht s => cmd_bootstrap_dht s
  | Listen addr s => cmd_listen addr s
  | Dial peer addr s => cmd_dial peer addr s
  | ListPeers s => cmd_list_peers s
  | CmdStatus s => cmd_status s
  | Provide artifact_id s => cmd_provide artifact_id s
  | ListProviders artifact_id s => cmd_list_providers artifact_id s
  | RequestBuild peer t p s => cmd_request_build peer t p s
  | RespondBuild build_id ch => cmd_respond_build build_id ch
  | VerifyBuild t p s => cmd_verify_build t p s
  | RequestArtifact a peer s => cmd_request_artifact a peer s
  | RespondArtifact artifact ch => cmd_respond_artifact artifact ch
  | RequestIdleMetric peer s => cmd_request_idle_metric peer s
  | RespondIdleMetric metric ch => cmd_respond_idle_metric metric ch
  | RequestBlockchain data peer s => cmd_request_blockchain data peer s
  | RespondBlockchain data ch => cmd_respond_blockchain data ch
  | BroadcastBlock block s => cmd_broadcast_block block s
  | RequestBuildStatus peer build_id s =>
      cmd_request_build_status peer build_id s
  | RespondBuildStatus status ch => cmd_respond_build_status status ch
  end.

(** ** The loop *)
Inductive LoopInput :=
| InAutonat (e : AutonatEvent)
| InGossipsub (e : GossipsubEvent)
| InIdentify
| InKademlia (e : KademliaEvent)
| InArtifact (e : RequestResponseEvent string bytes)
| InBuild (e : RequestResponseEvent (PackageType * string) string)
| InIdleMetric (e : RequestResponseEvent unit bytes)
| InBlockchain (e : RequestResponseEvent bytes bytes)
| InBuildStatus (e : RequestResponseEvent string BuildStatus)
| InSwarm (e : SwarmEvent)
| InCommand (c : Command).

(** One turn of [select!]; the events of [identify] do nothing. *)
Definition handle_input (i : LoopInput) : el unit :=
  match i with
  | InAutonat e => handle_autonat_event e
  | InGossipsub e => handle_gossipsub_event e
  | InIdentify => sret tt
  | InKademlia e => handle_kademlia_event e
  | InArtifact e => handle_request_response_event e
  | InBuild e => handle_build_request_response_event e
  | InIdleMetric e => handle_idle_metric_request_response_event e
  | InBlockchain e => handle_blockchain_request_response_event e
  | InBuildStatus e => handle_build_status_request_response_event e
  | InSwarm e => handle_swarm_event e
  | InCommand c => handle_command c
  end.

Definition run_event_loop (inputs : list LoopInput) : el unit := sfor inputs handle_input.

(** ** Who owns a sender

    The senders in the pending maps and in the answers. *)
Definition values {K} `{Countable K} {V} (m : gmap K V) : list V := (map_to_list m).*2.

Definition pending_senders (l : EventLoop) : list sender :=
  values (el_bootstrap l) ++ values (el_dial l) ++ values (el_start_providing l)
  ++ (lp_sender <$> values (el_list_providers l)) ++ values (el_request_artifact l)
  ++ values (el_request_build l) ++ values (el_idle_metric l) ++ values (el_blockchain l)
  ++ values (el_build_status l).

Definition owned (l : EventLoop) : list sender := pending_senders l ++ (el_answers l).*1.

Definition command_senders (c : Command) : list sender :=
  match c with
  | AddProbe _ _ s | BroadcastBlock _ s | BootstrapDht s | Listen _ s | Dial _ _ s | ListPeers s
  | CmdStatus s | Provide _ s | ListProviders _ s | RequestBuild _ _ _ s | VerifyBuild _ _ s
  | RequestArtifact _ _ s | RequestIdleMetric _ s | RequestBlockchain _ _ s
  | RequestBuildStatus _ _ s => [s]
  | _ => []
  end.
Definition input_senders (i : LoopInput) : list sender :=
  match i with InCommand c => command_senders c | _ => [] end.

Lemma values_delete {K} `{Countable K} {V} (m : gmap K V) i x :
  m !! i = Some x -> values m ≡ₚ x :: values (delete i m).
Proof. intros Hi. unfold values. by rewrite <- (map_to_list_delete m i x Hi). Qed.

Lemma values_insert {K} `{Countable K} {V} (m : gmap K V) i x :
  values (<[i:=x]> m) ≡ₚ x :: values (delete i m).
Proof.
  unfold values. rewrite <- insert_delete_eq, map_to_list_insert; [done|]. apply lookup_delete_eq.
Qed.

(** When the loop drops the sender of a command. *)
Definition drops (c : Command) (l : EventLoop) : bool :=
  match c with
  | BootstrapDht _ => el_bootstrapped l
  | AddProbe peer _ _ | Dial peer _ _ => bool_decide (is_Some (el_dial l !! peer))
  | _ => false
  end.

(** The sender that an id of the swarm takes the place of, when the swarm gives an id that is in use; libp2p does not. *)
Definition replaced (c : Command) (l : EventLoop) : list sender :=
  let request peer r (pending : gmap RequestId sender) := option_list (pending !! fst (send_request peer r (el_swarm l))) in
  match c with
  | BootstrapDht _ =>
      if el_bootstrapped l then []
      else match fst (kad_bootstrap (el_swarm l)) with Ok id => option_list (el_bootstrap l !! id) | _ => [] end
  | Provide a _ =>
      match fst (kad_start_providing (as_bytes a) (el_swarm l)) with
      | Ok id => option_list (el_start_providing l !! id)
      | _ => []
      end
  | ListProviders a _ => option_list (lp_sender <$> el_list_providers l !! fst (kad_get_providers (as_bytes a) (el_swarm l)))
  | RequestBuild peer t p _ => request peer (BuildRequest t p) (el_request_build l)
  | RequestArtifact a peer _ => request peer (ArtifactRequest a) (el_request_artifact l)
  | RequestIdleMetric peer _ => request peer IdleMetricRequest (el_idle_metric l)
  | RequestBlockchain data peer _ => request peer (BlockchainRequest data) (el_blockchain l)
  | RequestBuildStatus peer id _ => request peer (BuildStatusRequest id) (el_build_status l)
  | _ => []
  end.

Definition lost_by (i : LoopInput) (l : EventLoop) : list sender :=
  match i with
  | InCommand c => (if drops c l then command_senders c else []) ++ replaced c l
  | _ => []
  end.

Fixpoint lost (inputs : list LoopInput) (l : EventLoop) : list sender :=
  match inputs with
  | [] => []
  | i :: rest => lost_by i l ++ lost rest (snd (handle_input i l))
  end.

(** One step: every sender it had or was given is owned, lost, or was answered without a receiver. *)
Definition accounted (ss lost : list sender) (l l' : EventLoop) : Prop :=
  el_gone l' = el_gone l
  /\ exists unread, Forall (fun s => s ∈ el_gone l) unread /\ ss ++ owned l ≡ₚ owned l' ++ lost ++ unread.

Lemma accounted_refl l : accounted [] [] l l.
Proof. split; [done|]. exists []. simpl. by rewrite app_nil_r. Qed.

(** Computes a handler and accounts for the senders of the maps it changed. *)
Ltac owned_maps :=
  unfold owned, pending_senders; simpl; rewrite ?fmap_app; simpl;
  repeat match goal with
  | E : ?m !! ?i = Some ?x |- context [values (delete ?i ?m)] =>
      rewrite (values_delete m i x E); clear E; csimpl
  | |- context [values (<[?i := ?x]> ?m)] =>
      rewrite (values_insert m i x);
      let E := fresh in
      destruct (m !! i) as [?|] eqn:E;
      [rewrite (values_delete m i _ E) | rewrite (delete_id m i E)]; clear E; csimpl
  end; simplify_eq/=; solve_Permutation.

Ltac owned_step :=
  unfold settle, answer, emit, swarm_try, swarm_do, set_swarm, set_events, set_answers, set_bootstrapped, set_bootstrap,
    set_dial, set_start_providing, set_list_providers, set_request_artifact, set_request_build, set_idle_metric,
    set_blockchain, set_build_status; unfold_stm; simpl; intros Hh;
  simplify_eq/=; repeat (case_match; simplify_eq/=);
  first [ done | apply accounted_refl
        | split; [done|];
          first [ exists []; split; [done|]; owned_maps
                | eexists [_]; split; [by apply Forall_singleton|]; owned_maps ] ].

Lemma events_accounted l l' :
  (forall e, handle_request_response_event e l = (Ok tt, l') -> accounted [] [] l l')
  /\ (forall e, handle_idle_metric_request_response_event e l = (Ok tt, l') -> accounted [] [] l l')
  /\ (forall e, handle_build_request_response_event e l = (Ok tt, l') -> accounted [] [] l l')
  /\ (forall e, handle_build_status_request_response_event e l = (Ok tt, l') -> accounted [] [] l l')
  /\ (forall e, handle_blockchain_request_response_event e l = (Ok tt, l') -> accounted [] [] l l').
Proof.
  split_and!; intros e; destruct e; simpl;
    unfold handle_request_response_event, handle_idle_metric_request_response_event,
      handle_build_request_response_event, handle_build_status_request_response_event,
      handle_blockchain_request_response_event; owned_step.
Qed.

Lemma network_accounted l l' :
  (forall e, handle_autonat_event e l = (Ok tt, l') -> accounted [] [] l l')
  /\ (forall e, handle_gossipsub_event e l = (Ok tt, l') -> accounted [] [] l l')
  /\ (forall e, handle_kademlia_event e l = (Ok tt, l') -> accounted [] [] l l')
  /\ (forall e, handle_swarm_event e l = (Ok tt, l') -> accounted [] [] l l').
Proof.
  split_and!; intros e; destruct e; simpl;
    unfold handle_autonat_event, handle_gossipsub_event, handle_kademlia_event, handle_swarm_event;
    owned_step.
Qed.

Ltac unfold_exchanges :=
  unfold cmd_request_build, cmd_respond_build, cmd_request_artifact, cmd_respond_artifact, cmd_request_idle_metric,
    cmd_respond_idle_metric, cmd_request_blockchain, cmd_respond_blockchain, cmd_request_build_status,
    cmd_respond_build_status, cmd_request, cmd_respond.

Lemma command_accounted c l l' :
  handle_command c l = (Ok tt, l') -> accounted (command_senders c) (lost_by (InCommand c) l) l l'.
Proof.
  destruct c; simpl; unfold_exchanges;
    unfold cmd_add_probe, cmd_bootstrap_dht, cmd_listen, cmd_dial, cmd_list_peers, cmd_status,
      cmd_provide, cmd_list_providers, cmd_verify_build, cmd_broadcast_block;
    owned_step.
Qed.

Lemma input_accounted i l l' :
  handle_input i l = (Ok tt, l') -> accounted (input_senders i) (lost_by i l) l l'.
Proof.
  destruct (events_accounted l l') as (? & ? & ? & ? & ?), (network_accounted l l') as (? & ? & ? & ?).
  destruct i; simpl; eauto; [intros [= <-]; apply accounted_refl|apply command_accounted].
Qed.

Lemma run_accounted inputs l l' :
  run_event_loop inputs l = (Ok tt, l') -> accounted (concat (input_senders <$> inputs)) (lost inputs l) l l'.
Proof.
  unfold run_event_loop. revert l; induction inputs as [|i inputs IH]; intros l; simpl.
  { intros [= <-]. apply accounted_refl. }
  unfold sbind. pose proof (input_accounted i l) as Hi. destruct (handle_input i l) as [[[]| |] l1]; [|done..].
  intros Hrun. destruct (Hi l1 eq_refl) as (Hg1 & u1 & Hu1 & Hp1). destruct (IH l1 Hrun) as (Hg2 & u2 & Hu2 & Hp2).
  rewrite Hg1 in Hg2, Hu2. split; [done|]. exists (u1 ++ u2). split; [by apply Forall_app|].
  cbn [snd]. rewrite (Permutation_app_comm (input_senders i)), <- app_assoc, Hp1.
  rewrite (Permutation_app_comm (owned l1)), app_assoc, (Permutation_app_comm _ (owned l1)).
  transitivity ((concat (input_senders <$> inputs) ++ owned l1) ++ lost_by i l ++ u1); [solve_Permutation|].
  rewrite Hp2. solve_Permutation.
Qed.

(** ** Lemmas on single steps *)
Lemma answer_spec s a l :
  s ∉ el_gone l ->
  exists l', answer s a l = (Ok tt, l') /\ el_answers l' = el_answers l ++ [(s, a)]
    /\ pending_senders l' = pending_senders l /\ el_list_providers l' = el_list_providers l
    /\ el_gone l' = el_gone l /\ el_blockchain l' = el_blockchain l.
Proof.
  intros Hs. unfold answer. unfold_stm. rewrite decide_False by done. eexists; split; [done|].
  by repeat split.
Qed.

Lemma value_inserted {K} `{Countable K} {V} (m : gmap K V) i x : x ∈ values (<[i:=x]> m).
Proof. rewrite values_insert. by left. Qed.

Lemma provider_inserted (m : gmap QueryId PendingListProviders) i s ps :
  s ∈ lp_sender <$> values (<[i := {| lp_sender := s; lp_providers := ps |}]> m).
Proof. rewrite values_insert. by left. Qed.

Lemma answered_owned (answers : list (sender * Answer)) s a : s ∈ (answers ++ [(s, a)]).*1.
Proof. rewrite fmap_app. apply elem_of_app. right. by left. Qed.

Ltac find_owned :=
  first [apply value_inserted | apply provider_inserted | apply answered_owned
        | apply elem_of_app; left; find_owned | apply elem_of_app; right; find_owned].

(** What an input does to the queries for providers other than the one it finishes. *)
Lemma list_providers_step i l id p :
  el_list_providers l !! id = Some p ->
  i <> InKademlia (FinishedWithNoAdditionalRecord id) ->
  (forall a s, i = InCommand (ListProviders a s) ->
     fst (kad_get_providers (as_bytes a) (el_swarm l)) <> id) ->
  exists ps, lp_providers p ⊆ ps /\
    el_list_providers (snd (handle_input i l)) !! id = Some {| lp_sender := lp_sender p; lp_providers := ps |}.
Proof.
  intros Hp Hi Hfresh.
  assert (exists ps, lp_providers p ⊆ ps /\
    el_list_providers l !! id = Some {| lp_sender := lp_sender p; lp_providers := ps |}) as Hkeep.
  { exists (lp_providers p). split; [done|]. rewrite Hp. by destruct p. }
  destruct i as [[]|[]| |[]|[]|[]|[]|[]|[]|[]|[]]; simpl; try done; unfold_exchanges;
    unfold handle_kademlia_event, cmd_add_probe, cmd_bootstrap_dht, cmd_listen, cmd_dial, cmd_list_peers,
      cmd_status, cmd_provide, cmd_list_providers, cmd_verify_build,
      cmd_broadcast_block, handle_request_response_event, handle_idle_metric_request_response_event,
      handle_build_request_response_event, handle_build_status_request_response_event,
      handle_blockchain_request_response_event, handle_swarm_event, settle, answer, emit, swarm_try,
      swarm_do, set_swarm; unfold_stm; simpl; repeat (case_match; simplify_eq/=); try done.
  - destruct (decide (id0 = id)) as [->|Hne]; [|by rewrite lookup_insert_ne].
    rewrite lookup_insert_eq. simplify_map_eq. eexists; split; [|done]. apply union_subseteq_l.
  - rewrite lookup_delete_ne by congruence. done.
  - rewrite lookup_delete_ne by congruence. done.
  - rewrite lookup_insert_ne; [done|]. intros ->. eapply Hfresh; [done|].
    match goal with E : kad_get_providers _ _ = _ |- _ => by rewrite E end.
Qed.

(** ** Properties *)

(** C5. Every sender is accounted for: after any sequence of commands and events of the network that the loop handles
    without a panic, in whatever order, the senders it had and was given are, each as often as it was given,
    those that wait in the pending maps, those that were answered, those that were lost and those that were answered after their receiver was
    gone.  A sender is lost only by a command that asks to bootstrap again, or that dials or probes a peer that is
    being dialed, or when the swarm gives the id of a pending query again.  So distinct senders are answered at
    most once, and none waits that was answered. *)
Theorem senders_accounted inputs l l' :
  run_event_loop inputs l = (Ok tt, l') ->
  (exists unread, Forall (fun s => s ∈ el_gone l) unread
     /\ concat (input_senders <$> inputs) ++ pending_senders l ++ (el_answers l).*1
        ≡ₚ pending_senders l' ++ (el_answers l').*1 ++ lost inputs l ++ unread)
  /\ (NoDup (concat (input_senders <$> inputs) ++ pending_senders l ++ (el_answers l).*1) ->
      NoDup (pending_senders l' ++ (el_answers l').*1)).
Proof.
  intros (_ & unread & Hu & Hp)%run_accounted. unfold owned in Hp. rewrite <- (app_assoc (pending_senders l')) in Hp.
  split; [by exists unread|]. rewrite Hp, app_assoc. intros Hnd. apply NoDup_app in Hnd. apply Hnd.
Qed.

(** No command is lost but three: when the loop handles a command without panicking,
    its sender (if its receiver is still there) waits in a pending map or has been
    answered, except that asking to bootstrap again, and dialing or probing a peer that is
    being dialed, drop the sender and change nothing. *)
Theorem command_answered_or_pending c s l l' :
  command_senders c = [s] -> s ∉ el_gone l ->
  handle_command c l = (Ok tt, l') ->
  if drops c l then l' = l else s ∈ owned l'.
Proof.
  intros Hc Hg Hh.
  destruct c; simplify_eq/=; revert Hh; unfold_exchanges;
    unfold cmd_add_probe, cmd_bootstrap_dht, cmd_listen, cmd_dial, cmd_list_peers, cmd_status,
      cmd_provide, cmd_list_providers, cmd_verify_build, cmd_broadcast_block,
      answer, swarm_try, swarm_do, set_swarm, set_answers, set_bootstrapped, set_bootstrap, set_dial,
      set_start_providing, set_list_providers, set_request_artifact, set_request_build,
      set_idle_metric, set_blockchain, set_build_status; unfold_stm; simpl; intros Hh;
    repeat (case_match; simplify_eq/=); first [done | unfold owned, pending_senders; simpl; find_owned].
Qed.

(** Only one event ever answers a request for providers: whatever else the network
    reports, a failed or timed out query included, and whatever other commands come, the
    request stays pending with the providers found so far; a query that fails leaves its
    client waiting. *)
Theorem list_providers_waits inputs l l' id p :
  el_list_providers l !! id = Some p ->
  InKademlia (FinishedWithNoAdditionalRecord id) ∉ inputs ->
  (forall a s, InCommand (ListProviders a s) ∉ inputs) ->
  run_event_loop inputs l = (Ok tt, l') ->
  exists ps, lp_providers p ⊆ ps
    /\ el_list_providers l' !! id = Some {| lp_sender := lp_sender p; lp_providers := ps |}.
Proof.
  unfold run_event_loop. revert l p. induction inputs as [|i inputs IH]; intros l p Hp Hf Hc Hrun.
  { simpl in Hrun. unfold sret in Hrun. inv_outcome. exists (lp_providers p). split; [done|]. rewrite Hp. by destruct p. }
  simpl in Hrun. unfold sbind in Hrun.
  destruct (list_providers_step i l id p Hp) as (ps & Hsub & Hp1).
  { intros ->. apply Hf. by left. }
  { intros a s ->. destruct (Hc a s). by left. }
  destruct (handle_input i l) as [[] l1]; [|done|done].
  destruct (IH l1 _ Hp1) as (ps' & Hsub' & Hp'); [set_solver|set_solver|done|].
  exists ps'. split; [|done]. simpl in Hsub'. set_solver.
Qed.

(** C35. The answer to a request for providers is the union of all that were found: after
    any number of partial results the final event answers the waiting sender with the
    providers of all of them, and the request is no longer pending. *)
Theorem providers_collected l id p found :
  el_list_providers l !! id = Some p -> lp_sender p ∉ el_gone l ->
  exists l', run_event_loop ((InKademlia ∘ FoundProviders id <$> found)
                             ++ [InKademlia (FinishedWithNoAdditionalRecord id)]) l = (Ok tt, l')
    /\ el_answers l' = el_answers l ++ [(lp_sender p, AProviders (lp_providers p ∪ ⋃ found))]
    /\ el_list_providers l' = delete id (el_list_providers l).
Proof.
  unfold run_event_loop. revert l p. induction found as [|ps found IH]; intros l p Hp Hg.
  - simpl. unfold handle_kademlia_event, answer. unfold_stm; simpl. rewrite Hp; simpl.
    rewrite decide_False by done; simpl. eexists; split; [done|]. simpl. split; [|done].
    by rewrite (right_id_L ∅ (∪)).
  - rewrite fmap_cons. simpl app. simpl sfor. unfold sbind at 1.
    unfold handle_kademlia_event at 1. unfold_stm. rewrite Hp.
    set (p1 := {| lp_sender := lp_sender p; lp_providers := lp_providers p ∪ ps |}).
    destruct (IH (snd (@set_list_providers Empty_set (<[id := p1]> (el_list_providers l)) l)) p1)
      as (l' & Hrun & Hans & Hlp); [by simpl; rewrite lookup_insert_eq|done|].
    exists l'. split; [exact Hrun|]. split.
    + rewrite Hans; simpl. by rewrite <- (assoc_L (∪)).
    + rewrite Hlp; simpl. apply delete_insert_eq.
Qed.

(** A request to a peer and the response to it meet: the response that comes for the id
    the swarm gave to a request for blockchain data answers the sender of that request, and
    no other, with the data. *)
Theorem blockchain_response_routed l data peer s reply :
  s ∉ el_gone l ->
  let id := fst (send_request peer (BlockchainRequest data) (el_swarm l)) in
  exists l', run_event_loop [InCommand (RequestBlockchain data peer s); InBlockchain (RRResponse id reply)] l
             = (Ok tt, l')
    /\ el_answers l' = el_answers l ++ [(s, ABlockchain (inl reply))]
    /\ el_blockchain l' = delete id (el_blockchain l).
Proof.
  intros Hg id. subst id. unfold run_event_loop; simpl.
  unfold_exchanges; unfold swarm_do, handle_blockchain_request_response_event, settle, answer. unfold_stm; simpl.
  destruct (send_request peer (BlockchainRequest data) (el_swarm l)) as [id sw]; simpl.
  rewrite lookup_insert_eq; simpl. rewrite decide_False by done; simpl.
  eexists; split; [done|]; simpl. split; [done|]. apply delete_insert_eq.
Qed.

(** Gossip reaches the node under the right name: a message on the blockchain topic is
    passed on with its data and without a channel to answer on; one on the build topic that
    names its source is passed on as the build to verify it encodes; and nothing else is
    passed on. *)
Theorem gossip_dispatched l m :
  el_open l = true ->
  handle_gossipsub_event (GossipMessage m) l
  = (Ok tt, snd (@set_events Empty_set (el_events l ++
      (if decide (gm_topic m = blockchain_topic) then [EvBlockchainRequest (gm_data m) None]
       else if decide (gm_topic m = build_topic) then
         match gm_source m, deserialize (gm_data m) with
         | Some source, Some d => [EvVerifyBuild source (vb_package_type d) (vb_package_specific_id d)]
         | _, _ => []
         end
       else [])) l)).
Proof.
  intros Ho.
  assert (forall e, emit e l = (Ok tt, snd (@set_events Empty_set (el_events l ++ [e]) l))) as Hemit.
  { intros e. unfold emit. unfold_stm. by rewrite Ho. }
  assert (sret tt l = (@Ok Empty_set _ tt, snd (@set_events Empty_set (el_events l ++ []) l))) as Hskip.
  { unfold sret. rewrite app_nil_r. by destruct l. }
  unfold handle_gossipsub_event.
  destruct (decide (gm_topic m = blockchain_topic)) as [->|Hb].
  - rewrite bool_decide_false, bool_decide_true by done. apply Hemit.
  - destruct (decide (gm_topic m = build_topic)) as [->|Hd].
    + rewrite bool_decide_true by done. destruct (gm_source m); [|apply Hskip].
      destruct (deserialize (gm_data m)); [apply Hemit|apply Hskip].
    + rewrite !bool_decide_false by done. apply Hskip.
Qed.
End EventLoop.

(** The requests and responses, for the files that use the loop. *)
Ltac unfold_exchanges :=
  unfold cmd_request_build, cmd_respond_build, cmd_request_artifact, cmd_respond_artifact, cmd_request_idle_metric,
    cmd_respond_idle_metric, cmd_request_blockchain, cmd_respond_blockchain, cmd_request_build_status,
    cmd_respond_build_status, cmd_request, cmd_respond.

Arguments RRRequest {Req Resp} request ch.
Arguments RRResponse {Req Resp} request_id response.
Arguments InboundFailure {Req Resp}.
Arguments OutboundFailure {Req Resp} request_id error.
Arguments ResponseSent {Req Resp}.

(** ** A concrete swarm: it counts the ids it gives out *)
Definition next_id {E} : stm nat E nat := fun sw => (Ok sw, S sw).

#[export] Instance sample_libp2p : Libp2p := {|
  Swarm := nat; Multiaddr := string; Ipv4Addr := string;
  multiaddr_to_string := fun a => a;
  parse_ipv4 := fun s => Some s;
  with_p2p := fun a p => a +:+ "/p2p/" +:+ peer_id_to_string p;
  replace_ip4 := fun _ ip => Some ("/ip4/" +:+ ip);
  local_peer_id := fun _ => "me";
  connected_peers := fun _ => ["friend"];
  listeners := fun _ => ["/ip4/127.0.0.1"];
  gossip_subscribe := fun _ => sret tt;
  gossip_publish := fun _ _ => sret tt;
  kad_add_address := fun _ _ sw => sw;
  kad_bootstrap := next_id;
  kad_start_providing := fun _ => next_id;
  kad_get_providers := fun _ sw => (sw, S sw);
  autonat_add_server := fun _ _ sw => sw;
  listen_on := fun _ => sret tt;
  swarm_dial := fun _ => sret tt;
  send_request := fun _ _ sw => (sw, S sw);
  send_response := fun _ _ => sret tt;
|}.

#[export] Instance sample_verify_bincode : Bincode VerifyBuildData := {|
  serialize := fun d =>
    Some (match vb_package_type d with Docker => x00 | Maven2 => x01 end :: as_bytes (vb_package_specific_id d));
  deserialize := fun bs =>
    match bs with
    | x00 :: p => Some {| vb_package_type := Docker; vb_package_specific_id := String.string_of_list_byte p |}
    | x01 :: p => Some {| vb_package_type := Maven2; vb_package_specific_id := String.string_of_list_byte p |}
    | _ => None
    end |}.

Definition sample_swarm : Swarm := 0.
Definition sample_addr : Multiaddr := "/ip4/1.2.3.4".
Definition sample_p : PeerId := "p".
Definition sample_q : PeerId := "q".
Definition sample_el : EventLoop := EventLoop_new sample_swarm "".
Definition sample_target : PeerId := "target".

(** Two bootstraps, a dial that succeeds, a request for providers. *)
Definition sample_inputs : list LoopInput :=
  [InCommand (BootstrapDht 1); InCommand (Dial sample_target sample_addr 2);
   InCommand (BootstrapDht 3); InCommand (ListProviders "a" 4);
   InSwarm (ConnectionEstablished sample_target true sample_addr);
   InKademlia (BootstrapOk 0 0)].

Definition sample_el_state : EventLoop := snd (run_event_loop sample_inputs sample_el).

Lemma senders_accounted_witness :
  pending_senders sample_el_state = [4] /\ (el_answers sample_el_state).*1 = [2; 1] /\ lost sample_inputs sample_el = [3]
  /\ exists unread, Forall (fun s => s ∈ el_gone sample_el) unread
       /\ [1; 2; 3; 4] ++ [] ≡ₚ [4] ++ [2; 1] ++ [3] ++ unread.
Proof.
  do 3 (split; [vm_compute; reflexivity|]).
  apply (senders_accounted sample_inputs sample_el sample_el_state). vm_compute. reflexivity.
Defined.

Lemma outcome_pair {S E} (r : outcome E unit * S) : fst r = Ok tt -> r = (Ok tt, snd r).
Proof. destruct r as [o s]; simpl. by intros ->. Qed.

(** A loop that has bootstrapped: the second bootstrap of a client that dials twice gets
    no answer. *)
Definition sample_bootstrapped : EventLoop := snd (@set_bootstrapped _ _ Empty_set true sample_el).

Lemma command_answered_or_pending_witness :
  snd (handle_command (BootstrapDht 9) sample_bootstrapped) = sample_bootstrapped
  /\ 9 ∈ owned (snd (handle_command (ListPeers 9) sample_bootstrapped)).
Proof.
  assert (9 ∉ el_gone sample_bootstrapped) as Hg by apply not_elem_of_empty.
  split.
  - exact (command_answered_or_pending (BootstrapDht 9) 9 sample_bootstrapped _ eq_refl Hg
             (outcome_pair (handle_command (BootstrapDht 9) sample_bootstrapped) eq_refl)).
  - exact (command_answered_or_pending (ListPeers 9) 9 sample_bootstrapped _ eq_refl Hg
             (outcome_pair (handle_command (ListPeers 9) sample_bootstrapped) eq_refl)).
Defined.

(** A loop with one request for providers, under the query 1. *)
Definition sample_waiting : PendingListProviders := {| lp_sender := 4; lp_providers := ∅ |}.
Definition sample_listing : EventLoop :=
  snd (@set_list_providers _ _ Empty_set {[1 := sample_waiting]} sample_el).

Lemma list_providers_waits_witness :
  exists ps, el_list_providers (snd (run_event_loop [InKademlia (GetProvidersErr 1)] sample_listing)) !! 1
             = Some {| lp_sender := 4; lp_providers := ps |}.
Proof.
  destruct (list_providers_waits [InKademlia (GetProvidersErr 1)] sample_listing
    (snd (run_event_loop [InKademlia (GetProvidersErr 1)] sample_listing)) 1 sample_waiting)
    as (ps & _ & Hp).
  - apply lookup_singleton_eq.
  - intros Hin%list_elem_of_singleton. discriminate Hin.
  - intros a s Hin%list_elem_of_singleton. discriminate Hin.
  - reflexivity.
  - exists ps. exact Hp.
Defined.

Lemma providers_collected_witness :
  exists l', run_event_loop [InKademlia (FoundProviders 1 {[sample_p]});
                             InKademlia (FoundProviders 1 {[sample_q]});
                             InKademlia (FinishedWithNoAdditionalRecord 1)] sample_listing = (Ok tt, l')
    /\ el_answers l' = [(4, AProviders (∅ ∪ ⋃ [{[sample_p]}; {[sample_q]}]))].
Proof.
  destruct (providers_collected sample_listing 1 sample_waiting [{[sample_p]}; {[sample_q]}])
    as (l' & Hrun & Hans & _).
  - apply lookup_singleton_eq.
  - apply not_elem_of_empty.
  - exists l'. split; [exact Hrun|exact Hans].
Defined.

Lemma blockchain_response_routed_witness :
  exists l', run_event_loop [InCommand (RequestBlockchain [x04] sample_target 7);
                             InBlockchain (RRResponse 0 [x2a])] sample_el = (Ok tt, l')
    /\ el_answers l' = [(7, ABlockchain (inl [x2a]))].
Proof.
  destruct (blockchain_response_routed sample_el [x04] sample_target 7 [x2a]) as (l' & Hrun & Hans & _).
  - apply not_elem_of_empty.
  - exists l'. split; [exact Hrun|exact Hans].
Defined.

Lemma gossip_dispatched_witness :
  el_events (snd (handle_gossipsub_event
    (GossipMessage {| gm_source := None; gm_data := [x01]; gm_topic := blockchain_topic |}) sample_el))
  = el_events sample_el ++ [EvBlockchainRequest [x01] None].
Proof.
  rewrite (gossip_dispatched sample_el
    {| gm_source := None; gm_data := [x01]; gm_topic := blockchain_topic |}) by reflexivity.
  reflexivity.
Defined.
