(* ===== verification/Client.v ===== *)
(** * Client: the entry points of the network

    Models src/network/client.rs.  A method sends commands to the event loop and awaits
    the answers; the channel of commands is the interface [CommandChannel], so that the
    theorems hold whatever the loop and the network answer.  The methods the blockchain
    service uses make an instance of its interface [BlockchainNet]. *)

From S2P Require Import Prelude Crypto Structures Sample Model FileSystem Chain Blockchain BlockchainService EventLoop.

(** How a call can fail: the loop is gone, the loop dropped the sender, or the answer is
    an error. *)
Inductive net_error :=
| SendError
| RecvError
| AnswerError (msg : string).

Definition net_error_text (e : net_error) : string :=
  match e with
  | SendError => "channel closed"
  | RecvError => "channel closed"
  | AnswerError msg => msg
  end.

Section Client.
Context `{Libp2p}.

(** A command with a fresh oneshot sender and its answer, and a command without one. *)
Class CommandChannel (W : Type) := {
  ask : (sender -> Command) -> stm W net_error Answer;
  tell : Command -> stm W net_error unit;
}.

Context {W : Type} `{!CommandChannel W}.

(** The value sent on a sender of a given type; the loop sends no other. *)
Definition expect_answer {A} (get : Answer -> option (A + string)) (a : Answer) : outcome net_error A :=
  match get a with
  | Some (inl x) => Ok x
  | Some (inr e) => Err (AnswerError e)
  | None => Panic
  end.

Definition get_unit (a : Answer) : option (unit + string) := match a with AUnit r => Some r | _ => None end.

Abbreviation cl A := (stm W net_error A).

(** [receiver.await?] of a [Result<()>], then a second command. *)
Definition add_probe_address (peer : PeerId) (probe_addr : Multiaddr) : cl unit :=
  let! a := ask (AddProbe peer probe_addr) in
  let! _ := slift (expect_answer get_unit a) in
  let! b := ask BootstrapDht in
  slift (expect_answer get_unit b).

Definition listen (addr : Multiaddr) : cl unit :=
  let! a := ask (Listen addr) in
  slift (expect_answer get_unit a).

Definition dial (peer : PeerId) (peer_addr : Multiaddr) : cl unit :=
  let! a := ask (Dial peer peer_addr) in
  let! _ := slift (expect_answer get_unit a) in
  let! b := ask BootstrapDht in
  slift (expect_answer get_unit b).

Definition list_peers : cl (gset PeerId) :=
  let! a := ask ListPeers in
  slift (expect_answer (fun a => match a with APeers ps => Some (inl ps) | _ => None end) a).

Definition client_status : cl Status :=
  let! a := ask CmdStatus in
  slift (expect_answer (fun a => match a with AStatus s => Some (inl s) | _ => None end) a).

Definition provide (artifact_id : string) : cl unit :=
  let! a := ask (Provide artifact_id) in
  slift (expect_answer (fun a => match a with AProvided => Some (inl tt) | _ => None end) a).

Definition list_providers (artifact_id : string) : cl (gset PeerId) :=
  let! a := ask (ListProviders artifact_id) in
  slift (expect_answer (fun a => match a with AProviders ps => Some (inl ps) | _ => None end) a).

Definition request_build (peer : PeerId) (t : PackageType) (p : string) : cl string :=
  let! a := ask (RequestBuild peer t p) in
  slift (expect_answer (fun a => match a with ABuild r => Some r | _ => None end) a).

Definition verify_build (t : PackageType) (p : string) : cl unit :=
  let! a := ask (VerifyBuild t p) in
  slift (expect_answer get_unit a).

Definition respond_build (build_id : string) (ch : channel) : cl unit := tell (RespondBuild build_id ch).

Definition request_artifact (peer : PeerId) (artifact_id : string) : cl bytes :=
  let! a := ask (RequestArtifact artifact_id peer) in
  slift (expect_answer (fun a => match a with AArtifact r => Some r | _ => None end) a).

Definition respond_artifact (artifact : bytes) (ch : channel) : cl unit := tell (RespondArtifact artifact ch).

Definition respond_idle_metric (metric : bytes) (ch : channel) : cl unit := tell (RespondIdleMetric metric ch).

Definition request_blockchain (peer : PeerId) (data : bytes) : cl bytes :=
  let! a := ask (RequestBlockchain data peer) in
  slift (expect_answer (fun a => match a with ABlockchain r => Some r | _ => None end) a).

Definition respond_blockchain (data : bytes) (ch : channel) : cl unit := tell (RespondBlockchain data ch).

Definition broadcast_block (block : bytes) : cl unit :=
  let! a := ask (BroadcastBlock block) in
  slift (expect_answer get_unit a).

Definition request_build_status (peer : PeerId) (build_id : string) : cl BuildStatus :=
  let! a := ask (RequestBuildStatus peer build_id) in
  slift (expect_answer (fun a => match a with ABuildStatus r => Some r | _ => None end) a).

Definition respond_build_status (status : BuildStatus) (ch : channel) : cl unit :=
  tell (RespondBuildStatus status ch).

(** The client is a network for the blockchain service. *)
#[export] Instance client_net : BlockchainNet W := {|
  net_broadcast_block := fun buf => smap_err net_error_text (broadcast_block buf);
  net_request_blockchain := fun peer data => smap_err net_error_text (request_blockchain peer data) |}.

(** ** Idle metrics

    An [f64] is its 64 bits.  Two numbers compare as their magnitudes with their signs,
    a NaN (all exponent bits set and a mantissa that is not zero) compares with
    nothing. *)
Definition bits_of_le_bytes (bs : bytes) : Z :=
  foldr (fun b z => Z.of_N (Byte.to_N b) + 256 * z)%Z 0%Z bs.

Definition f64_magnitude (bits : Z) : Z := Z.land bits (2 ^ 63 - 1).
Definition f64_is_nan (bits : Z) : bool := (0x7FF0000000000000 <? f64_magnitude bits)%Z.
Definition f64_key (bits : Z) : Z :=
  if Z.testbit bits 63 then (- f64_magnitude bits)%Z else f64_magnitude bits.

Definition f64_partial_cmp (a b : Z) : option comparison :=
  if f64_is_nan a || f64_is_nan b then None else Some (f64_key a ?= f64_key b)%Z.
Definition f64_lt (a b : Z) : bool :=
  match f64_partial_cmp a b with Some Lt => true | _ => false end.

(** 0.5 *)
Definition PEER_METRIC_THRESHOLD : Z := 0x3FE0000000000000.

Record IdleMetric := { im_peer : PeerId; im_metric : Z }.

Definition metric_le (a b : IdleMetric) : Prop := (f64_key (im_metric a) <= f64_key (im_metric b))%Z.
#[export] Instance metric_le_dec a b : Decision (metric_le a b).
Proof. unfold metric_le. apply _. Defined.

(** [sort_by(|a, b| a.partial_cmp(b).unwrap())]: every element is compared as soon as
    there are two. *)
Definition sort_metrics (ms : list IdleMetric) : outcome net_error (list IdleMetric) :=
  if decide (2 <= length ms) then
    if existsb (fun m => f64_is_nan (im_metric m)) ms then Panic else Ok (stable_sort metric_le ms)
  else Ok ms.

(** The loop over the providers, in the order of their iteration. *)
Fixpoint idle_loop (providers : list PeerId) (idle_metrics : list IdleMetric) :
    cl (PeerId + list IdleMetric) :=
  match providers with
  | [] => sret (inr idle_metrics)
  | peer :: rest =>
      let! r := scatch (ask (RequestIdleMetric peer)) in
      match r with
      | inr RecvError => spanic
      | inr e => serr e
      | inl (AIdleMetric (inl peer_metric)) =>
          let metric := bits_of_le_bytes peer_metric in
          if f64_lt metric PEER_METRIC_THRESHOLD then sret (inl peer)
          else idle_loop rest (idle_metrics ++ [{| im_peer := peer; im_metric := metric |}])
      | inl (AIdleMetric (inr _)) => idle_loop rest idle_metrics
      | inl _ => spanic
      end
  end.

Definition get_idle_peer (providers : list PeerId) : cl (option PeerId) :=
  let! r := idle_loop providers [] in
  match r with
  | inl peer => sret (Some peer)
  | inr idle_metrics =>
      let! sorted := slift (sort_metrics idle_metrics) in
      sret (im_peer <$> head sorted)
  end.

(** ** Choosing an idle peer *)
Section IdlePeer.
Context (answers : PeerId -> bytes + string).
(** Every peer is asked in vain or answers with one metric. *)
Hypothesis peers_answer : forall peer w, exists w',
  ask (RequestIdleMetric peer) w = (Ok (AIdleMetric (answers peer)), w').

Definition metric_of (peer : PeerId) : option Z :=
  match answers peer with inl bs => Some (bits_of_le_bytes bs) | inr _ => None end.
Definition below (peer : PeerId) : bool :=
  match metric_of peer with Some m => f64_lt m PEER_METRIC_THRESHOLD | None => false end.
Definition measured (providers : list PeerId) : list IdleMetric :=
  omap (fun peer => m ← metric_of peer; Some {| im_peer := peer; im_metric := m |}) providers.

Lemma elem_of_measured providers x :
  x ∈ measured providers <-> im_peer x ∈ providers /\ metric_of (im_peer x) = Some (im_metric x).
Proof.
  unfold measured. rewrite list_elem_of_omap. split.
  - intros (peer & Hin & Hx). destruct (metric_of peer) as [m|] eqn:E; simplify_eq/=. done.
  - intros [Hin Hx]. exists (im_peer x). split; [done|]. rewrite Hx; simpl. by destruct x.
Qed.

Lemma idle_loop_spec providers acc w :
  exists w', idle_loop providers acc w
    = (Ok (match List.find below providers with
           | Some peer => inl peer
           | None => inr (acc ++ measured providers)
           end), w').
Proof.
  revert acc w. induction providers as [|peer rest IH]; intros acc w; simpl.
  { exists w. by rewrite app_nil_r. }
  unfold scatch, sbind. destruct (peers_answer peer w) as (w1 & ->).
  unfold measured; simpl. unfold below, metric_of. destruct (answers peer) as [bs|e]; simpl.
  - destruct (f64_lt (bits_of_le_bytes bs) PEER_METRIC_THRESHOLD); [by exists w1|].
    destruct (IH (acc ++ [{| im_peer := peer; im_metric := bits_of_le_bytes bs |}]) w1) as (w' & ->).
    exists w'. by rewrite <- app_assoc.
  - apply IH.
Qed.

#[local] Instance metric_le_trans : Transitive metric_le.
Proof. intros x y z. unfold metric_le. lia. Qed.
#[local] Instance metric_le_total : Total metric_le.
Proof. intros x y. unfold metric_le. lia. Qed.

(** C36. The choice of a peer to download from: the first provider whose load is below one
    half, in the order they are asked; if none is, a provider with the smallest load among
    those that answered; nobody when none answered.  With two answers or more one of which
    is not a number the sort panics. *)
Theorem idle_peer_chosen providers w :
  exists w' o, get_idle_peer providers w = (o, w')
    /\ match List.find below providers with
       | Some peer => o = Ok (Some peer)
       | None =>
           let ms := measured providers in
           if decide (2 <= length ms /\ Exists (fun x => f64_is_nan (im_metric x) = true) ms) then o = Panic
           else match ms with
                | [] => o = Ok None
                | _ => exists peer m, o = Ok (Some peer) /\ peer ∈ providers /\ metric_of peer = Some m
                         /\ forall q m', q ∈ providers -> metric_of q = Some m' -> (f64_key m <= f64_key m')%Z
                end
       end.
Proof.
  unfold get_idle_peer. unfold_stm. destruct (idle_loop_spec providers [] w) as (w' & ->).
  exists w'. destruct (List.find below providers) as [peer|]; [by eexists|]. simpl.
  set (ms := measured providers). unfold sort_metrics.
  assert (existsb (fun x => f64_is_nan (im_metric x)) ms = true
          <-> Exists (fun x => f64_is_nan (im_metric x) = true) ms) as Hex.
  { rewrite existsb_exists, Exists_exists. by setoid_rewrite list_elem_of_In. }
  assert (forall x, head ms = Some x \/ head (stable_sort metric_le ms) = Some x ->
    x ∈ ms -> (forall y, y ∈ ms -> metric_le x y) ->
    exists peer m, @Ok net_error _ (Some (im_peer x)) = Ok (Some peer) /\ peer ∈ providers
      /\ metric_of peer = Some m
      /\ forall q m', q ∈ providers -> metric_of q = Some m' -> (f64_key m <= f64_key m')%Z) as Hmin.
  { intros x _ Hx Hle. apply elem_of_measured in Hx as [Hx Hmx]. exists (im_peer x), (im_metric x).
    do 3 (split; [done|]). intros q m' Hq Hm'.
    apply (Hle {| im_peer := q; im_metric := m' |}). by apply elem_of_measured. }
  destruct (decide (2 <= length ms)) as [Hlen|Hlen].
  - destruct (existsb _ ms) eqn:E.
    + eexists; split; [done|]. rewrite decide_True; [done|]. split; [done|by apply Hex].
    + eexists; split; [done|]. rewrite decide_False by (intros [_ Hx%Hex]; congruence).
      destruct (head (stable_sort metric_le ms)) as [x|] eqn:Hh.
      * pose proof (stable_sort_head metric_le ms x Hh) as [Hin Hle].
        simpl. destruct ms as [|y ms']; [simpl in Hlen; lia|]. eauto.
      * apply stable_sort_head_None in Hh. rewrite Hh in Hlen. simpl in Hlen. lia.
  - eexists; split; [done|]. rewrite decide_False by tauto.
    destruct ms as [|x [|y ms']] eqn:Hms; [done| |simpl in Hlen; lia]. simpl.
    apply (Hmin x); [by left|by left|]. intros z ->%list_elem_of_singleton. unfold metric_le. lia.
Qed.
End IdlePeer.
End Client.

(** ** A concrete network

    Peer [p] has load 0.75, peer [q] 0.625, peer [n] answers with a NaN, others fail. *)
Definition le_bytes (top : byte) (next : byte) : bytes := [x00; x00; x00; x00; x00; x00; next; top].

Definition sample_n : PeerId := "n".

Definition sample_loads (peer : PeerId) : bytes + string :=
  if decide (peer = sample_p) then inl (le_bytes x3f xe8)
  else if decide (peer = sample_q) then inl (le_bytes x3f xe4)
  else if decide (peer = sample_n) then inl (le_bytes x7f xf8)
  else inr "unreachable".

#[export] Instance sample_channel : CommandChannel unit := {|
  ask := fun c =>
    match c 0 with
    | RequestIdleMetric peer _ => sret (AIdleMetric (sample_loads peer))
    | _ => serr RecvError
    end;
  tell := fun _ => sret tt |}.

Lemma sample_peers_answer peer w :
  exists w', ask (RequestIdleMetric peer) w = (Ok (AIdleMetric (sample_loads peer)), w').
Proof. by exists w. Qed.

Lemma idle_peer_chosen_witness :
  fst (get_idle_peer [sample_target; sample_p; sample_q] tt) = Ok (Some sample_q)
  /\ fst (get_idle_peer [sample_p; sample_n] tt) = Panic.
Proof.
  split.
  - destruct (idle_peer_chosen sample_loads sample_peers_answer [sample_target; sample_p; sample_q] tt)
      as (w' & o & Hg & Ho).
    rewrite Hg. change (exists peer m, o = Ok (Some peer) /\ peer ∈ [sample_target; sample_p; sample_q]
      /\ metric_of sample_loads peer = Some m
      /\ forall q m', q ∈ [sample_target; sample_p; sample_q] -> metric_of sample_loads q = Some m' ->
           (f64_key m <= f64_key m')%Z) in Ho.
    destruct Ho as (peer & m & -> & Hin & Hm & Hmin). simpl. do 2 f_equal.
    specialize (Hmin sample_q _ ltac:(set_solver) eq_refl).
    apply elem_of_cons in Hin as [->|[->|[->|Hin%elem_of_nil]%elem_of_cons]%elem_of_cons];
      [discriminate Hm| |reflexivity|done].
    injection Hm as <-. exfalso. apply Hmin. reflexivity.
  - destruct (idle_peer_chosen sample_loads sample_peers_answer [sample_p; sample_n] tt) as (w' & o & Hg & Ho).
    rewrite Hg. exact Ho.
Defined.
