(* ===== verification/Build.v ===== *)
(** * Build: builds from source

    Models src/build_service: error.rs, mapping/{model,service}.rs, pipeline/service.rs
    and service.rs.  The HTTP client and serde_json are parameters (the classes [Http] and
    [BuildJson]), and so is SHA-256.  The events a service sends to the build event loop
    are the list [bs_events], the polling tasks it spawns the list [bs_polls]. *)

From S2P Require Import Prelude Crypto Structures Sample FileSystem Sql SqlSample Model Text TransparencyLog EventLoop Client.

(** ** error.rs

    [e.to_string()] of another error is kept as that error; the texts of the errors of
    the HTTP client and of serde_json are not. *)
Inductive message :=
| Msg (text : string)
| LogMsg (e : TransparencyLogError)
| NetMsg (e : net_error)
| IoMsg (e : io_error).

Inductive BuildError `{Crypto} :=
| BuildFailure (build_id : string) (msg : message)
| InitializationFailed (msg : message)
| TransparencyLogFailure (e : TransparencyLogError)
| UnauthorizedPeerId (p : PeerId)
| BuildArtifactAlreadyExists (e : TransparencyLogError)
| InvalidMappingResponse
| InvalidPipelineResponse
| MappingNotFound (package_type : PackageType) (package_specific_id : string)
| MappingServiceEndpointFailure (status : Z)
| MappingServiceEndpointRequestFailure (msg : string)
| PipelineServiceEndpointFailure (status : Z)
| PipelineServiceEndpointRequestFailure (msg : string)
| BuildStatusFailed (msg : message).

(** ** What other services use of the build event client *)
Class BuildClient `{Crypto} (C : Type) := {
  be_start_build : PackageType -> string -> stm C BuildError string;
  be_verify_build : PeerId -> PackageType -> string -> stm C BuildError string;
  be_get_build_status : string -> stm C BuildError BuildStatus;
}.

(** ** mapping/model.rs *)
Inductive SourceRepository := Git (url tag : string).

Record MappingInfo := {
  mi_package_type : PackageType;
  mi_package_specific_id : string;
  mi_source_repository : option SourceRepository;
  mi_build_spec_url : option string;
}.

(** ** The outside world *)
Record HttpResponse := { http_status : Z; http_body : bytes }.

Class Http (H : Type) := {
  http_get : string -> stm H string HttpResponse;
  http_put : string -> bytes -> stm H string HttpResponse;
}.

Class BuildJson := {
  mapping_to_json : MappingInfo -> bytes;
  mapping_from_json : bytes -> option MappingInfo;
  string_from_json : bytes -> option string;
  info_from_json : bytes -> option BuildInfo;
}.

(** The HTTP client reports its failures as errors. *)
Class HttpOk (H : Type) `{Http H} : Prop := {
  http_get_total url h : fst (http_get url h) <> Panic;
  http_put_total url body h : fst (http_put url body h) <> Panic;
}.

(** SHA-256, as hexadecimal text: digits and letters. *)
Class Sha256 := { sha256_hex : bytes -> string }.
Class Sha256Ok `{Sha256} : Prop :=
  sha256_hex_plain bs : starts_with_char slash (sha256_hex bs) = false.

Definition is_success (status : Z) : bool := ((200 <=? status) && (status <? 300))%Z.

(** [remove_last_character] where the endpoint ends with a slash. *)
Fixpoint remove_last_character (s : string) : string :=
  match s with
  | String.EmptyString => ""
  | String.String a String.EmptyString => ""
  | String.String a s' => String.String a (remove_last_character s')
  end.

Definition endpoint_new (endpoint : string) : string :=
  if ends_with "/" endpoint then remove_last_character endpoint else endpoint.

Section Build.
Context `{Libp2p} `{Sqlite} `{!LogJson} `{!BuildJson} `{!Sha256}.
Context {N : Type} `{!Http N} {B : Type} `{!BlockAdder B} {W : Type} `{!CommandChannel W}.

(** ** mapping/service.rs *)
Record MappingService := { mapping_service_endpoint : string }.

Definition MappingService_new (endpoint : string) : MappingService :=
  {| mapping_service_endpoint := endpoint_new endpoint |}.

(** [pieces[i]]: panics out of range. *)
Definition index {E A} (l : list A) (i : nat) : outcome E A := unwrap (l !! i).

Definition maven_mapping_url {E} (m : MappingService) (package_specific_id : string) : outcome E string :=
  let pieces := split ":"%char package_specific_id in
  let? group := index pieces 0 in
  let group_id := replace "."%char "/" group in
  let? artifact_id := index pieces 1 in
  let? version := index pieces 2 in
  Ok (mapping_service_endpoint m +:+ "/Maven2/" +:+ group_id +:+ "/" +:+ artifact_id +:+ "/"
      +:+ version +:+ "/" +:+ artifact_id +:+ "-" +:+ version +:+ ".mapping").

Definition get_maven_mapping (m : MappingService) (package_specific_id : string) :
    stm N BuildError MappingInfo :=
  let! url := slift (maven_mapping_url m package_specific_id) in
  let! response := smap_err MappingServiceEndpointRequestFailure (http_get url) in
  if is_success (http_status response) then
    slift (ok_or (mapping_from_json (http_body response)) InvalidMappingResponse)
  else if (http_status response =? 404)%Z then serr (MappingNotFound Maven2 package_specific_id)
  else serr (MappingServiceEndpointFailure (http_status response)).

Definition get_mapping (m : MappingService) (t : PackageType) (package_specific_id : string) :
    stm N BuildError MappingInfo :=
  match t with
  | Docker => sret {| mi_package_type := t; mi_package_specific_id := package_specific_id;
                      mi_source_repository := None; mi_build_spec_url := None |}
  | Maven2 => get_maven_mapping m package_specific_id
  end.

(** ** pipeline/service.rs *)
Record PipelineService := { pipeline_service_endpoint : string }.

Definition PipelineService_new (endpoint : string) : PipelineService :=
  {| pipeline_service_endpoint := endpoint_new endpoint |}.

(** The common end of the three requests. *)
Definition pipeline_response {A} (decode : bytes -> option A) (response : HttpResponse) :
    outcome BuildError A :=
  if is_success (http_status response) then ok_or (decode (http_body response)) InvalidPipelineResponse
  else Err (PipelineServiceEndpointFailure (http_status response)).

Definition pipeline_start_build (p : PipelineService) (m : MappingInfo) : stm N BuildError string :=
  let! response := smap_err PipelineServiceEndpointRequestFailure
    (http_put (pipeline_service_endpoint p +:+ "/build") (mapping_to_json m)) in
  slift (pipeline_response string_from_json response).

Definition pipeline_get_build_status (p : PipelineService) (build_id : string) : stm N BuildError BuildInfo :=
  let! response := smap_err PipelineServiceEndpointRequestFailure
    (http_get (pipeline_service_endpoint p +:+ "/build/" +:+ build_id)) in
  slift (pipeline_response info_from_json response).

Definition download_artifact (p : PipelineService) (artifact_url : string) : stm N BuildError bytes :=
  let! response := smap_err PipelineServiceEndpointRequestFailure
    (http_get (pipeline_service_endpoint p +:+ artifact_url)) in
  slift (pipeline_response Some response).

(** ** event.rs, the events *)
Inductive BuildEvent :=
| EvFailed (build_id : string) (build_error : BuildError)
| EvStatus (build_id : string) (s : sender)
| EvStart (t : PackageType) (package_specific_id : string) (s : sender) (trigger : BuildTrigger)
| EvSucceeded (build_id : string) (t : PackageType) (package_specific_id : string)
    (trigger : BuildTrigger) (artifact_urls : list string)
| EvResult (build_id : string) (trigger : BuildTrigger) (result : BuildResult).

(** A spawned task that polls the pipeline. *)
Record PollTask := {
  poll_build_id : string;
  poll_package_type : PackageType;
  poll_package_specific_id : string;
  poll_trigger : BuildTrigger;
}.

(** ** service.rs *)
Record BuildService := {
  bs_repository_path : string;
  bs_disk : Fs;
  bs_p2p_client : W;
  bs_transparency_log : TransparencyLogService B;
  bs_mapping : MappingService;
  bs_pipeline : PipelineService;
  bs_http : N;
  bs_events : list BuildEvent;
  bs_polls : list PollTask;
}.

(** [BuildService::new], for a path that is canonical. *)
Definition BuildService_new (path : string) (client : W) (log : TransparencyLogService B)
    (mapping_endpoint pipeline_endpoint : string) (web : N) : stm Fs io_error BuildService :=
  let! _ := fs_metadata path in
  let! d := sget in
  sret {| bs_repository_path := path; bs_disk := d; bs_p2p_client := client;
          bs_transparency_log := log; bs_mapping := MappingService_new mapping_endpoint;
          bs_pipeline := PipelineService_new pipeline_endpoint; bs_http := web;
          bs_events := []; bs_polls := [] |}.

Definition on_http {E A} (c : stm N E A) : stm BuildService E A :=
  szoom bs_http (fun x s => {| bs_repository_path := bs_repository_path s; bs_disk := bs_disk s;
    bs_p2p_client := bs_p2p_client s; bs_transparency_log := bs_transparency_log s;
    bs_mapping := bs_mapping s; bs_pipeline := bs_pipeline s; bs_http := x;
    bs_events := bs_events s; bs_polls := bs_polls s |}) c.
Definition on_p2p {E A} (c : stm W E A) : stm BuildService E A :=
  szoom bs_p2p_client (fun x s => {| bs_repository_path := bs_repository_path s; bs_disk := bs_disk s;
    bs_p2p_client := x; bs_transparency_log := bs_transparency_log s;
    bs_mapping := bs_mapping s; bs_pipeline := bs_pipeline s; bs_http := bs_http s;
    bs_events := bs_events s; bs_polls := bs_polls s |}) c.
Definition on_log {E A} (c : stm (TransparencyLogService B) E A) : stm BuildService E A :=
  szoom bs_transparency_log (fun x s => {| bs_repository_path := bs_repository_path s; bs_disk := bs_disk s;
    bs_p2p_client := bs_p2p_client s; bs_transparency_log := x;
    bs_mapping := bs_mapping s; bs_pipeline := bs_pipeline s; bs_http := bs_http s;
    bs_events := bs_events s; bs_polls := bs_polls s |}) c.
Definition on_files {E A} (c : stm Fs E A) : stm BuildService E A :=
  szoom bs_disk (fun x s => {| bs_repository_path := bs_repository_path s; bs_disk := x;
    bs_p2p_client := bs_p2p_client s; bs_transparency_log := bs_transparency_log s;
    bs_mapping := bs_mapping s; bs_pipeline := bs_pipeline s; bs_http := bs_http s;
    bs_events := bs_events s; bs_polls := bs_polls s |}) c.
Definition send_event {E} (e : BuildEvent) : stm BuildService E unit :=
  smodify (fun s => {| bs_repository_path := bs_repository_path s; bs_disk := bs_disk s;
    bs_p2p_client := bs_p2p_client s; bs_transparency_log := bs_transparency_log s;
    bs_mapping := bs_mapping s; bs_pipeline := bs_pipeline s; bs_http := bs_http s;
    bs_events := bs_events s ++ [e]; bs_polls := bs_polls s |}).
Definition spawn_poll {E} (t : PollTask) : stm BuildService E unit :=
  smodify (fun s => {| bs_repository_path := bs_repository_path s; bs_disk := bs_disk s;
    bs_p2p_client := bs_p2p_client s; bs_transparency_log := bs_transparency_log s;
    bs_mapping := bs_mapping s; bs_pipeline := bs_pipeline s; bs_http := bs_http s;
    bs_events := bs_events s; bs_polls := bs_polls s ++ [t] |}).

(** What must hold before a build starts. *)
Definition check_trigger (t : PackageType) (package_specific_id : string) (trigger : BuildTrigger) :
    stm BuildService BuildError unit :=
  match trigger with
  | FromSource =>
      smap_err (fun e => InitializationFailed (NetMsg e)) (on_p2p (verify_build t package_specific_id))
  | Verification requestor =>
      let! authorized_nodes := smap_err TransparencyLogFailure (on_log get_authorized_nodes) in
      if decide (requestor ∈ authorized_nodes) then sret tt else serr (UnauthorizedPeerId requestor)
  end.

Definition build_start_build (t : PackageType) (package_specific_id : string) (trigger : BuildTrigger) :
    stm BuildService BuildError string :=
  let! _ := check_trigger t package_specific_id trigger in
  let! s := sget in
  let! mapping_info := on_http (get_mapping (bs_mapping s) t package_specific_id) in
  let! build_id := on_http (pipeline_start_build (bs_pipeline s) mapping_info) in
  let! _ := spawn_poll {| poll_build_id := build_id; poll_package_type := t;
                          poll_package_specific_id := package_specific_id; poll_trigger := trigger |} in
  sret build_id.

(** One tick of the polling task: [true] when the task goes on. *)
Definition poll_tick {E} (task : PollTask) : stm BuildService E bool :=
  let! s := sget in
  let! r := scatch (on_http (pipeline_get_build_status (bs_pipeline s) (poll_build_id task))) in
  match r with
  | inl info =>
      match info_status info with
      | Running => sret true
      | Success artifact_urls =>
          let! _ := send_event (EvSucceeded (poll_build_id task) (poll_package_type task)
                                  (poll_package_specific_id task) (poll_trigger task) artifact_urls) in
          sret false
      | Failure build_error =>
          let! _ := send_event (EvFailed (poll_build_id task) (BuildFailure (info_id info) (Msg build_error))) in
          sret false
      end
  | inr build_error =>
      let! _ := send_event (EvFailed (poll_build_id task) build_error) in
      sret false
  end.

(** The task: ticks until one of them ends it. *)
Fixpoint poll_loop {E} (ticks : nat) (task : PollTask) : stm BuildService E bool :=
  match ticks with
  | O => sret true
  | S n => let! go_on := poll_tick task in if (go_on : bool) then poll_loop n task else sret false
  end.

Definition get_build_path (s : BuildService) (build_id : string) : string :=
  path_join (path_join (bs_repository_path s) "builds") build_id.

(** [get_docker_image_name]. *)
Definition get_docker_image_name (package_specific_id : string) : string :=
  match rsplit "@"%char package_specific_id with
  | Some (before, _) => before
  | None =>
      match rsplit ":"%char package_specific_id with
      | Some (before, _) => before
      | None => package_specific_id
      end
  end.

(** The last segment of a url. *)
Definition url_filename (artifact_url : string) : string :=
  match rsplit "/"%char artifact_url with Some (_, after) => after | None => artifact_url end.

(** The [match package_type] of [process_artifact_urls]. *)
Definition artifact_specific_ids (t : PackageType) (package_specific_id artifact_url artifact_hash : string) :
    list string :=
  match t with
  | Docker =>
      if ends_with "/manifest" artifact_url then
        if contains "@"%char package_specific_id then [package_specific_id]
        else [package_specific_id;
              get_docker_image_name package_specific_id +:+ "@sha256:" +:+ artifact_hash]
      else
        let artifact_filename := url_filename artifact_url in
        let blob_digest :=
          match rsplit "."%char artifact_filename with Some (before, _) => before | None => artifact_filename end in
        [get_docker_image_name package_specific_id +:+ "@" +:+ blob_digest]
  | Maven2 =>
      let prefix := replace ":"%char "/" package_specific_id in
      [prefix +:+ "/" +:+ url_filename artifact_url]
  end.

Definition hash_and_store_data (build_path : string) (data : bytes) : stm Fs io_error (string * string) :=
  let hash := sha256_hex data in
  let data_location := path_join build_path hash in
  let! _ := fs_create_write data_location data in
  sret (data_location, hash).

Fixpoint process_artifact_urls (build_id : string) (t : PackageType) (package_specific_id : string)
    (artifact_urls : list string) (build_path : string) (artifacts : list BuildResultArtifact) :
    stm BuildService BuildError BuildResult :=
  match artifact_urls with
  | [] => sret {| br_package_type := t; br_package_specific_id := package_specific_id; br_artifacts := artifacts |}
  | artifact_url :: rest =>
      let! s := sget in
      let! artifact := on_http (download_artifact (bs_pipeline s) artifact_url) in
      let! stored := smap_err (fun e => BuildFailure build_id (IoMsg e))
                       (on_files (hash_and_store_data build_path artifact)) in
      let '(location, hash) := stored in
      let new := (fun id => {| artifact_specific_id := id; artifact_location := location;
                               artifact_hash := hash |})
                 <$> artifact_specific_ids t package_specific_id artifact_url hash in
      process_artifact_urls build_id t package_specific_id rest build_path (artifacts ++ new)
  end.

Definition clean_up_build {E} (build_id : string) : stm BuildService E unit :=
  let! s := sget in
  let! _ := scatch (on_files (fs_remove_dir_all (get_build_path s build_id))) in
  sret tt.

Definition handle_successful_build {E} (build_id : string) (t : PackageType) (package_specific_id : string)
    (trigger : BuildTrigger) (artifact_urls : list string) : stm BuildService E unit :=
  let! s := sget in
  let build_path := get_build_path s build_id in
  let! created := scatch (on_files (fs_create_dir_all build_path)) in
  match created with
  | inr e => send_event (EvFailed build_id (BuildFailure build_id (IoMsg e)))
  | inl _ =>
      let! processed := scatch (process_artifact_urls build_id t package_specific_id artifact_urls build_path []) in
      match processed with
      | inl build_result => send_event (EvResult build_id trigger build_result)
      | inr build_error =>
          let! _ := send_event (EvFailed build_id build_error) in
          clean_up_build build_id
      end
  end.

Definition build_get_build_status (build_id : string) : stm BuildService BuildError BuildInfo :=
  let! s := sget in
  on_http (pipeline_get_build_status (bs_pipeline s) build_id).

(** ** Lemmas *)

(** What a request to the pipeline can end in. *)
Lemma pipeline_response_total {A} (decode : bytes -> option A) r :
  pipeline_response decode r <> Panic.
Proof. unfold pipeline_response, ok_or. by repeat case_match. Qed.

(** The file of an artifact holds a content with its hash. *)
Definition artifact_stored (d : Fs) (a : BuildResultArtifact) : Prop :=
  exists content, fs_nodes d !! artifact_location a = Some (NFile content)
    /\ artifact_hash a = sha256_hex content.

(** Downloading changes neither the files nor the queue of events. *)
Definition same_build_files (s s' : BuildService) : Prop :=
  bs_disk s' = bs_disk s /\ bs_events s' = bs_events s /\ bs_repository_path s' = bs_repository_path s
  /\ bs_transparency_log s' = bs_transparency_log s.

Lemma on_http_frame {E A} (c : stm N E A) s o s' : on_http c s = (o, s') -> same_build_files s s'.
Proof. unfold on_http, szoom. destruct (c (bs_http s)); intros; inv_outcome; done. Qed.

Context `{!Sha256Ok}.

(** Storing one more artifact keeps what is stored in the build's directory. *)
Lemma hash_and_store_keeps build_path data d d' location hash a :
  hash_and_store_data build_path data d = (Ok (location, hash), d') ->
  artifact_stored d a -> artifact_location a = path_join build_path (artifact_hash a) ->
  artifact_stored d' a.
Proof.
  unfold hash_and_store_data, fs_create_write, fs_check. unfold_stm. simpl.
  destruct (fs_fault d OpOpen _); [done|].
  intros Hw (content & Hf & Hh) Hl.
  assert (fs_nodes d' = <[path_join build_path (sha256_hex data) := NFile data]> (fs_nodes d)) as Hd'.
  { destruct (fs_nodes d !! path_join build_path (sha256_hex data)) as [[]|]; try destruct (fs_fault d OpWrite _); by simplify_eq/=. }
  unfold artifact_stored. rewrite Hd'.
  destruct (decide (path_join build_path (sha256_hex data) = artifact_location a)) as [Heq|Hne].
  - exists data. rewrite Heq, lookup_insert_eq. split; [done|].
    rewrite Hl in Heq. symmetry. rewrite Hh in *. by apply path_join_inj in Heq; try apply sha256_hex_plain.
  - exists content. by rewrite lookup_insert_ne.
Qed.

Lemma hash_and_store_new build_path data d d' location hash :
  hash_and_store_data build_path data d = (Ok (location, hash), d') ->
  location = path_join build_path hash /\ hash = sha256_hex data
  /\ fs_nodes d' !! location = Some (NFile data).
Proof.
  unfold hash_and_store_data, fs_create_write, fs_check. unfold_stm. simpl.
  destruct (fs_fault d OpOpen _); [done|].
  destruct (fs_nodes d !! path_join build_path (sha256_hex data)) as [[]|]; try destruct (fs_fault d OpWrite _); intros; simplify_eq/=;
    by rewrite lookup_insert_eq.
Qed.

Definition in_build_path (build_path : string) (d : Fs) (a : BuildResultArtifact) : Prop :=
  artifact_stored d a /\ artifact_location a = path_join build_path (artifact_hash a).

Lemma process_artifact_urls_stored build_id t p urls build_path artifacts s result s' :
  process_artifact_urls build_id t p urls build_path artifacts s = (Ok result, s') ->
  Forall (in_build_path build_path (bs_disk s)) artifacts ->
  Forall (in_build_path build_path (bs_disk s')) (br_artifacts result)
  /\ br_package_type result = t /\ br_package_specific_id result = p.
Proof.
  revert artifacts s. induction urls as [|url urls IH]; intros artifacts s Hp Ha; simpl in Hp.
  - unfold sret in Hp. by simplify_eq/=.
  - apply sbind_Ok in Hp as (? & ? & Hg & Hp). unfold sget in Hg. simplify_eq/=.
    apply sbind_Ok in Hp as (data & s1 & Hd & Hp). apply on_http_frame in Hd as (Hd & _).
    apply sbind_Ok in Hp as ([location hash] & s2 & Hst & Hp).
    eapply IH; [exact Hp|]. unfold on_files in Hst. unfold_stm.
    destruct (hash_and_store_data build_path data (bs_disk s1)) as [o d'] eqn:Hs. simpl in Hst.
    destruct o; simplify_eq/=. rewrite Hd in Hs. apply Forall_app. split.
    + eapply Forall_impl; [exact Ha|]. intros a [Ha1 Ha2]. split; [|done]. by eapply hash_and_store_keeps.
    + apply hash_and_store_new in Hs as (-> & -> & Hf). apply Forall_fmap, Forall_forall.
      intros id _. split; [by exists data|done].
Qed.

(** Processing urls sends no event, whatever it ends in, and does not panic. *)
Definition quiet (s s' : BuildService) : Prop :=
  bs_events s' = bs_events s /\ bs_repository_path s' = bs_repository_path s
  /\ bs_transparency_log s' = bs_transparency_log s
  /\ (fs_reliable (bs_disk s) -> fs_reliable (bs_disk s'))
  /\ (forall p, fs_nodes (bs_disk s) !! p = Some NDir -> fs_nodes (bs_disk s') !! p = Some NDir).

Lemma quiet_trans s1 s2 s3 : quiet s1 s2 -> quiet s2 s3 -> quiet s1 s3.
Proof. intros (?&?&?&?&?) (?&?&?&?&?). repeat split; [congruence..|auto|auto]. Qed.

Context `{!HttpOk N}.

Lemma download_quiet url s o s' :
  on_http (download_artifact (bs_pipeline s) url) s = (o, s') -> quiet s s' /\ o <> Panic.
Proof.
  intros Hd. split.
  - destruct (on_http_frame _ _ _ _ Hd) as (Hf & He & Hr & Ht). unfold quiet. by rewrite Hf.
  - unfold on_http, download_artifact in Hd. unfold_stm.
    pose proof (http_get_total (pipeline_service_endpoint (bs_pipeline s) +:+ url) (bs_http s)) as Ht.
    destruct (http_get _ _) as [[r| |] h]; simplify_eq/=; [|done..].
    apply pipeline_response_total.
Qed.

Lemma store_quiet {F} (f : io_error -> F) build_path data s o s' :
  smap_err f (on_files (hash_and_store_data build_path data)) s = (o, s') -> quiet s s' /\ o <> Panic.
Proof.
  unfold on_files, hash_and_store_data, fs_create_write, fs_check, quiet. unfold_stm. simpl.
  destruct (fs_fault _ OpOpen _); [intros; by simplify_eq/=|].
  destruct (fs_nodes (bs_disk s) !! path_join build_path (sha256_hex data)) as [[c|]|] eqn:E;
    try destruct (fs_fault _ OpWrite _); intros; simplify_eq/=; (split; [repeat split; try done|done]); intros q Hq;
    by rewrite lookup_insert_ne by (intros <-; congruence).
Qed.

Lemma process_artifact_urls_quiet build_id t p urls build_path artifacts s o s' :
  process_artifact_urls build_id t p urls build_path artifacts s = (o, s') -> quiet s s' /\ o <> Panic.
Proof.
  revert artifacts s. induction urls as [|url urls IH]; intros artifacts s; simpl.
  - unfold sret. intros; by simplify_eq.
  - unfold sbind at 1, sget. unfold sbind at 1.
    destruct (on_http _ s) as [o1 s1] eqn:Hd. apply download_quiet in Hd as [Hq1 Hn1].
    destruct o1 as [data| |]; [|intros; by simplify_eq..].
    unfold sbind at 1. destruct (smap_err _ _ s1) as [o2 s2] eqn:Hst. apply store_quiet in Hst as [Hq2 Hn2].
    pose proof (quiet_trans _ _ _ Hq1 Hq2).
    destruct o2 as [[location hash]| |]; [|intros; by simplify_eq..].
    intros [Hq ?]%IH. split; [by eapply quiet_trans|done].
Qed.

(** The directory of a build is made, and removed with all it holds. *)
Lemma create_build_dir E bp s :
  fs_reliable (bs_disk s) -> (forall c, fs_nodes (bs_disk s) !! bp <> Some (NFile c)) ->
  exists s1, scatch (F := E) (on_files (fs_create_dir_all bp)) s = (Ok (inl tt), s1)
    /\ fs_nodes (bs_disk s1) !! bp = Some NDir /\ fs_reliable (bs_disk s1)
    /\ bs_transparency_log s1 = bs_transparency_log s /\ bs_events s1 = bs_events s /\ bs_repository_path s1 = bs_repository_path s.
Proof.
  intros Hr Hnf. unfold on_files, fs_create_dir_all. unfold_stm. rewrite fs_check_reliable by done.
  destruct (fs_nodes (bs_disk s) !! bp) as [[c|]|] eqn:E1; [by destruct (Hnf c)| |];
    (eexists; split; [done|]); simpl; [done|]. by rewrite lookup_insert_eq.
Qed.

Lemma clean_up_removes {E} build_id s :
  fs_reliable (bs_disk s) -> fs_nodes (bs_disk s) !! get_build_path s build_id = Some NDir ->
  exists s', @clean_up_build E build_id s = (Ok tt, s') /\ bs_events s' = bs_events s
    /\ forall q, below_dir (get_build_path s build_id) q = true -> fs_nodes (bs_disk s') !! q = None.
Proof.
  intros Hr Hd. unfold clean_up_build, on_files, fs_remove_dir_all. unfold_stm.
  rewrite fs_check_reliable, Hd by done. eexists; split; [done|]. split; [done|].
  intros q Hq. simpl. apply map_lookup_filter_None_2. right. intros n _. by rewrite Hq.
Qed.

(** Cleaning up touches nothing outside the directory of the build. *)
Lemma clean_up_keeps {E} build_id s :
  exists s', @clean_up_build E build_id s = (Ok tt, s')
    /\ s' = {| bs_repository_path := bs_repository_path s; bs_disk := bs_disk s';
         bs_p2p_client := bs_p2p_client s; bs_transparency_log := bs_transparency_log s;
         bs_mapping := bs_mapping s; bs_pipeline := bs_pipeline s; bs_http := bs_http s;
         bs_events := bs_events s; bs_polls := bs_polls s |}
    /\ fs_fault (bs_disk s') = fs_fault (bs_disk s)
    /\ forall q, below_dir (get_build_path s build_id) q = false ->
         fs_nodes (bs_disk s') !! q = fs_nodes (bs_disk s) !! q.
Proof.
  unfold clean_up_build, on_files, fs_remove_dir_all, fs_check. unfold_stm.
  destruct (fs_fault _ _ _); [by eexists|].
  destruct (fs_nodes (bs_disk s) !! get_build_path s build_id) as [[]|]; [by eexists| |by eexists].
  eexists. split; [done|]. split; [done|]. split; [done|]. intros q Hq. simpl.
  destruct (fs_nodes (bs_disk s) !! q) eqn:E1.
  - by apply map_lookup_filter_Some_2.
  - apply map_lookup_filter_None_2. by left.
Qed.

(** The specification of [handle_successful_build]. *)
Lemma handle_successful_build_spec {E} build_id t p trigger urls s :
  fs_reliable (bs_disk s) ->
  (forall c, fs_nodes (bs_disk s) !! get_build_path s build_id <> Some (NFile c)) ->
  exists e s', @handle_successful_build E build_id t p trigger urls s = (Ok tt, s')
    /\ bs_events s' = bs_events s ++ [e]
    /\ ((exists result, e = EvResult build_id trigger result
            /\ br_package_type result = t /\ br_package_specific_id result = p
            /\ Forall (artifact_stored (bs_disk s')) (br_artifacts result)
            /\ fs_reliable (bs_disk s') /\ bs_repository_path s' = bs_repository_path s
            /\ bs_transparency_log s' = bs_transparency_log s)
         \/ (exists err, e = EvFailed build_id err
            /\ forall q, below_dir (get_build_path s build_id) q = true ->
                 fs_nodes (bs_disk s') !! q = None)).
Proof.
  intros Hr Hnf. unfold handle_successful_build. unfold sbind at 1, sget.
  set (bp := get_build_path s build_id) in *.
  destruct (create_build_dir E bp s Hr Hnf) as (s1 & Hc & Hdir & Hr1 & Htl & Hev & Hrp).
  unfold sbind at 1. rewrite Hc. unfold sbind at 1, scatch at 1.
  destruct (process_artifact_urls build_id t p urls bp [] s1) as [o s2] eqn:Hp.
  pose proof (process_artifact_urls_quiet _ _ _ _ _ _ _ _ _ Hp) as [(Hev2 & Hrp2 & Htl2 & Hr2 & Hd2) Hnp].
  destruct o as [result|err|]; [| |done].
  - eexists _, _. split; [done|]. simpl. split; [by rewrite Hev2, Hev|]. left. exists result.
    apply process_artifact_urls_stored in Hp as (Hall & Ht & Hid); [|done].
    do 3 (split; [done|]). split; [|split; [by apply Hr2|split; congruence]].
    eapply Forall_impl; [exact Hall|]. by intros a [Ha _].
  - unfold sbind, send_event, smodify.
    match goal with |- context [clean_up_build build_id ?s3] =>
      destruct (@clean_up_removes E build_id s3) as (s4 & Hcl & Hev4 & Hgone) end.
    + simpl. by apply Hr2.
    + unfold get_build_path in *; simpl. rewrite Hrp2, Hrp. by apply Hd2.
    + eexists _, s4. split; [exact Hcl|]. split; [rewrite Hev4; simpl; by rewrite Hev2, Hev|].
      right. exists err. split; [reflexivity|]. intros q Hq. apply Hgone.
      unfold get_build_path in *; simpl. by rewrite Hrp2, Hrp.
Qed.

(** ** Properties *)

(** A verification build is started for an authorized requestor only: when no record
    makes the requestor authorized, the request is refused before the mapping service or
    the pipeline is asked and no polling task is started; and a build that is started
    is followed by exactly one polling task, under the id the caller gets. *)
Theorem verification_build_authorized `{!SqliteOk} t p requestor s logs :
  holds (bs_transparency_log s) logs ->
  ((forall n l, peer_id_from_str n = Some requestor -> last_word logs n l -> tl_operation l <> AddNode) ->
   exists s', build_start_build t p (Verification requestor) s = (Err (UnauthorizedPeerId requestor), s')
     /\ bs_http s' = bs_http s /\ bs_polls s' = bs_polls s /\ bs_events s' = bs_events s)
  /\ forall id s', build_start_build t p (Verification requestor) s = (Ok id, s') ->
       (exists n l, peer_id_from_str n = Some requestor /\ last_word logs n l /\ tl_operation l = AddNode)
       /\ bs_polls s' = bs_polls s ++ [{| poll_build_id := id; poll_package_type := t;
            poll_package_specific_id := p; poll_trigger := Verification requestor |}].
Proof.
  intros Hh. destruct (get_authorized_nodes_spec _ _ Hh) as (l' & ps & Hg & _ & Hin & _).
  split.
  - intros Hnot. unfold build_start_build, check_trigger, on_log. unfold_stm. rewrite Hg; simpl.
    destruct (decide (requestor ∈ ps)) as [(n & l & Hn & Hl & Ho)%Hin|]; [by destruct (Hnot n l)|].
    by eexists.
  - intros id s' Hb. unfold build_start_build in Hb.
    apply sbind_Ok in Hb as ([] & s1 & Hc & Hb). unfold check_trigger, on_log in Hc. unfold_stm.
    rewrite Hg in Hc; simpl in Hc. destruct (decide (requestor ∈ ps)) as [Hr%Hin|]; [|done].
    split; [destruct Hr as (n & l & ?); by exists n, l|].
    unfold on_http, szoom in Hb. simplify_eq/=.
    destruct (get_mapping _ _ _ _) as [[] h1]; [|done..]. simpl in Hb.
    destruct (pipeline_start_build _ _ _) as [[] h2]; [|done..]. by simplify_eq/=.
Qed.

(** C23. A finished build is reported exactly once.  The report is a result each of whose
    artifacts lies, under its hash, in a file whose content has that hash, or a failure
    after which nothing of the build's directory is left. *)
Theorem successful_build_reported {E} build_id t p trigger urls s :
  fs_reliable (bs_disk s) ->
  (forall c, fs_nodes (bs_disk s) !! get_build_path s build_id <> Some (NFile c)) ->
  exists e s', @handle_successful_build E build_id t p trigger urls s = (Ok tt, s')
    /\ bs_events s' = bs_events s ++ [e]
    /\ ((exists result, e = EvResult build_id trigger result
            /\ br_package_type result = t /\ br_package_specific_id result = p
            /\ Forall (artifact_stored (bs_disk s')) (br_artifacts result))
         \/ (exists err, e = EvFailed build_id err
            /\ forall q, below_dir (get_build_path s build_id) q = true ->
                 fs_nodes (bs_disk s') !! q = None)).
Proof.
  intros Hr Hnf. destruct (@handle_successful_build_spec E build_id t p trigger urls s Hr Hnf)
    as (e & s' & Hh & He & Hcase).
  exists e, s'. split; [done|]. split; [done|].
  destruct Hcase as [(result & ? & ? & ? & ? & _)|?]; [left; by exists result|by right].
Qed.

(** A polling task reports the end of its build once: while it goes on it has sent
    nothing, and when it has ended it has sent exactly one event, the success or the
    failure of its own build. *)
Theorem poll_reports_once {E} ticks task s :
  exists go_on s', @poll_loop E ticks task s = (Ok go_on, s')
    /\ bs_polls s' = bs_polls s
    /\ if (go_on : bool) then bs_events s' = bs_events s
       else exists e, bs_events s' = bs_events s ++ [e]
            /\ ((exists urls, e = EvSucceeded (poll_build_id task) (poll_package_type task)
                                  (poll_package_specific_id task) (poll_trigger task) urls)
                \/ exists err, e = EvFailed (poll_build_id task) err).
Proof.
  revert s. induction ticks as [|n IH]; intros s; [by eexists true, s|]. simpl.
  unfold poll_tick, on_http, pipeline_get_build_status. unfold_stm.
  pose proof (http_get_total (pipeline_service_endpoint (bs_pipeline s) +:+ "/build/" +:+ poll_build_id task)
    (bs_http s)) as Ht.
  destruct (http_get _ _) as [[r|e|] h]; simpl in *; [| |done].
  - pose proof (pipeline_response_total info_from_json r) as Hr.
    destruct (pipeline_response info_from_json r) as [info|e|]; [| |done].
    + destruct (info_status info) as [|urls|e]; simpl.
      * match goal with |- context [poll_loop n task ?s1] => destruct (IH s1) as (go_on & s' & IH') end.
        by exists go_on, s'.
      * eexists false, _. split; [done|]. split; [done|]. eexists. split; [done|]. left. by eexists.
      * eexists false, _. split; [done|]. split; [done|]. eexists. split; [done|]. right. by eexists.
    + eexists false, _. split; [done|]. split; [done|]. eexists. split; [done|]. right. by eexists.
  - eexists false, _. split; [done|]. split; [done|]. eexists. split; [done|]. right. by eexists.
Qed.

(** The mapping of a Maven package is looked up under the path of its coordinates, the
    dots of its group turned into slashes; an id that has fewer than three parts makes
    the service panic. *)
Theorem maven_mapping_url_decided {E} m p :
  (length (split ":"%char p) < 3 <-> @maven_mapping_url E m p = Panic)
  /\ forall group artifact version,
       contains ":"%char group = false -> contains ":"%char artifact = false ->
       contains ":"%char version = false -> p = join ":" [group; artifact; version] ->
       @maven_mapping_url E m p
       = Ok (mapping_service_endpoint m +:+ "/Maven2/" +:+ join "/" (split "."%char group) +:+ "/"
             +:+ artifact +:+ "/" +:+ version +:+ "/" +:+ artifact +:+ "-" +:+ version +:+ ".mapping").
Proof.
  split.
  - unfold maven_mapping_url, index.
    destruct (split ":"%char p) as [|a [|b [|c rest]]]; simpl; (split; [|try done]); try done; lia.
  - intros g a v Hg Ha Hv ->. unfold maven_mapping_url, index.
    rewrite (split_pieces ":"%char) by (done || by repeat constructor). simpl obind.
    by rewrite replace_split.
Qed.
End Build.

(** ** A concrete build service

    The web answers with a list of prepared responses, then refuses connections. *)
#[export] Instance sample_http : Http (list HttpResponse) := {|
  http_get := fun _ rs => match rs with [] => (Err "refused", []) | r :: rest => (Ok r, rest) end;
  http_put := fun _ _ rs => match rs with [] => (Err "refused", []) | r :: rest => (Ok r, rest) end |}.
#[export] Instance sample_http_ok : HttpOk (list HttpResponse).
Proof. split; intros; simpl; by destruct h. Qed.

#[export] Instance sample_build_json : BuildJson := {|
  mapping_to_json := fun m => as_bytes (mi_package_specific_id m);
  mapping_from_json := fun _ => None;
  string_from_json := fun bs => Some (str bs);
  info_from_json := fun bs => Some {| info_id := "b1"; info_status := Success [str bs] |} |}.

#[export] Instance sample_sha256 : Sha256 := {| sha256_hex := fun bs => "5" +:+ str bs |}.
#[export] Instance sample_sha256_ok : Sha256Ok.
Proof. done. Qed.

(** Builds that all get the same id. *)
#[export] Instance sample_build_client : BuildClient unit := {|
  be_start_build := fun _ _ => sret "b1";
  be_verify_build := fun _ _ _ => sret "b1";
  be_get_build_status := fun _ => sret Running |}.

Definition sample_build_service (responses : list HttpResponse) :
    BuildService (N := list HttpResponse) (B := list bytes) (W := unit) := {|
  bs_repository_path := "repo"; bs_disk := {| fs_nodes := ∅; fs_fault := fun _ _ => None |};
  bs_p2p_client := tt; bs_transparency_log := sample_service sample_logs;
  bs_mapping := {| mapping_service_endpoint := "m" |};
  bs_pipeline := {| pipeline_service_endpoint := "p" |}; bs_http := responses;
  bs_events := []; bs_polls := [] |}.

Lemma verification_build_authorized_witness :
  exists s', build_start_build Docker "alpine" (Verification sample_authorized) (sample_build_service [])
      = (Err (UnauthorizedPeerId sample_authorized), s')
    /\ bs_polls s' = [].
Proof.
  destruct (verification_build_authorized Docker "alpine" sample_authorized (sample_build_service [])
    sample_logs) as [Hno _].
  - apply sample_holds.
  - destruct Hno as (s' & Hb & _ & Hp & _).
    + intros n l _ (Hl & [Hop _] & _).
      apply elem_of_cons in Hl as [->|[->|Hl%elem_of_nil]%elem_of_cons]; done.
    + exists s'. split; [exact Hb|exact Hp].
Defined.

Lemma successful_build_reported_witness :
  exists e s', handle_successful_build (E := unit) "b1" Maven2 "g:a:1" FromSource ["/x/a.jar"]
      (sample_build_service [{| http_status := 200; http_body := as_bytes "data" |}]) = (Ok tt, s')
    /\ bs_events s' = [e].
Proof.
  destruct (successful_build_reported (E := unit) "b1" Maven2 "g:a:1" FromSource ["/x/a.jar"]
    (sample_build_service [{| http_status := 200; http_body := as_bytes "data" |}]))
    as (e & s' & Hh & He & _).
  - done.
  - intros c. simpl. rewrite lookup_empty. done.
  - exists e, s'. split; [exact Hh|exact He].
Defined.

Definition sample_poll : PollTask := {|
  poll_build_id := "b1"; poll_package_type := Maven2; poll_package_specific_id := "g:a:1";
  poll_trigger := FromSource |}.

Lemma poll_reports_once_witness :
  exists go_on s', poll_loop (E := unit) 2 sample_poll (sample_build_service []) = (Ok go_on, s')
    /\ bs_polls s' = [].
Proof.
  destruct (poll_reports_once (E := unit) 2 sample_poll (sample_build_service []))
    as (go_on & s' & Hp & Hpolls & _).
  exists go_on, s'. split; [exact Hp|exact Hpolls].
Defined.

Lemma maven_mapping_url_decided_witness :
  maven_mapping_url (E := unit) (MappingService_new "https://m/") "g.h:a:1"
  = Ok "https://m/Maven2/g/h/a/1/a-1.mapping"
  /\ maven_mapping_url (E := unit) (MappingService_new "https://m/") "g.h:a" = Panic.
Proof.
  split.
  - exact (proj2 (maven_mapping_url_decided (MappingService_new "https://m/") "g.h:a:1")
             "g.h" "a" "1" eq_refl eq_refl eq_refl eq_refl).
  - apply (proj1 (maven_mapping_url_decided (MappingService_new "https://m/") "g.h:a")).
    vm_compute. lia.
Defined.
