(* ===== verification/Registry.v ===== *)
(** * Registry: the ids under which clients ask for artifacts

    Models the derivation of ids in src/docker/v2/handlers/{blobs,manifests}.rs and
    src/java/maven2/handlers/maven_artifacts.rs, and shows that they are the ids under
    which the build service stores what it built. *)

From S2P Require Import Prelude Crypto Model Text Build.

(** ** Docker *)

(** manifests.rs, [get_package_specific_artifact_id]. *)
Definition docker_manifest_id (name tag : string) : string :=
  let combined_tag :=
    if starts_with "sha256:" tag then name +:+ "@" +:+ tag else name +:+ ":" +:+ tag in
  if contains "/"%char combined_tag then combined_tag else "library/" +:+ combined_tag.

(** blobs.rs, [get_package_specific_artifact_id]. *)
Definition docker_blob_id (name digest : string) : string :=
  let combined_tag := name +:+ "@" +:+ digest in
  if contains "/"%char combined_tag then combined_tag else "library/" +:+ combined_tag.

(** ** Maven *)

(** [parse_artifact_from_full_path]: group, version, artifact and file name. *)
Definition parse_artifact_from_full_path (full_path : string) :
    outcome string (string * string * string * string) :=
  let pieces := drop 2 (split "/"%char full_path) in
  if (length pieces <? 4)%nat then Err ("Error, invalid full path: " +:+ full_path)
  else
    let? file_name := ok_or (last pieces) "Error extracting the file name" in
    let pieces := removelast pieces in
    let? version := ok_or (last pieces) "Error extracting the version" in
    let pieces := removelast pieces in
    let? artifact_id := ok_or (last pieces) "Error extracting the artifact id" in
    let pieces := removelast pieces in
    let group_id := join "." pieces in
    Ok (group_id, version, artifact_id, file_name).

Definition maven_package_specific_id (full_path : string) : outcome string string :=
  let? p := parse_artifact_from_full_path full_path in
  let '(group_id, version, artifact_id, _) := p in
  Ok (group_id +:+ ":" +:+ artifact_id +:+ ":" +:+ version).

Definition maven_package_specific_artifact_id (full_path : string) : outcome string string :=
  let? p := parse_artifact_from_full_path full_path in
  let '(group_id, version, artifact_id, file_name) := p in
  Ok (group_id +:+ "/" +:+ artifact_id +:+ "/" +:+ version +:+ "/" +:+ file_name).

(** ** Lemmas *)
Lemma join_contains c sep pieces :
  contains c sep = false -> Forall (fun p => contains c p = false) pieces ->
  contains c (join sep pieces) = false.
Proof.
  intros Hs. induction pieces as [|p [|q pieces] IH]; intros Hp; [done| |].
  - by apply Forall_cons in Hp as [Hp _].
  - apply Forall_cons in Hp as [Hp Hq].
    change (join sep (p :: q :: pieces)) with (p +:+ sep +:+ join sep (q :: pieces)).
    by rewrite !contains_app, Hp, Hs, IH.
Qed.

(** The request for a file of a version of an artifact of a group. *)
Definition maven_path (group : list string) (artifact version file : string) : string :=
  join "/" (["" ; "maven2"] ++ group ++ [artifact; version; file]).

Lemma parse_maven_path group artifact version file :
  group <> [] ->
  Forall (fun p => contains "/"%char p = false) (group ++ [artifact; version; file]) ->
  parse_artifact_from_full_path (maven_path group artifact version file)
  = Ok (join "." group, version, artifact, file).
Proof.
  intros Hg Hf. unfold parse_artifact_from_full_path, maven_path.
  rewrite split_pieces; [|done|by repeat constructor].
  change (drop 2 (["" ; "maven2"] ++ group ++ [artifact; version; file]))
    with (group ++ [artifact; version; file]).
  destruct (Nat.ltb_spec (length (group ++ [artifact; version; file])) 4) as [Hl|Hl].
  { rewrite length_app in Hl. simpl in Hl. destruct group; [done|simpl in Hl; lia]. }
  replace (group ++ [artifact; version; file]) with (((group ++ [artifact]) ++ [version]) ++ [file])
    by (by rewrite <- !app_assoc).
  rewrite last_snoc; simpl. rewrite removelast_last, last_snoc; simpl.
  rewrite removelast_last, last_snoc; simpl. by rewrite removelast_last.
Qed.

Lemma url_filename_last base file :
  contains "/"%char file = false -> url_filename (base +:+ "/" +:+ file) = file.
Proof. intros Hf. unfold url_filename. by rewrite (rsplit_sep "/"%char base file). Qed.

Lemma docker_image_of_tag name tag :
  contains "@"%char (name +:+ ":" +:+ tag) = false -> contains ":"%char tag = false ->
  get_docker_image_name (name +:+ ":" +:+ tag) = name.
Proof.
  intros Ha Hc. unfold get_docker_image_name. rewrite rsplit_none by done.
  by rewrite (rsplit_sep ":"%char name tag).
Qed.

(** ** Properties *)

(** What a build of a Maven package stores is what its clients ask for: of the path of
    a request, the handler derives a package to build and an artifact to look up, and the
    build of that package stores the downloaded file of that name under exactly that
    artifact id. *)
Theorem maven_ids_agree group artifact version file base hash :
  group <> [] ->
  Forall (fun p => contains "/"%char p = false /\ contains ":"%char p = false)
    (group ++ [artifact; version; file]) ->
  exists package id,
    maven_package_specific_id (maven_path group artifact version file) = Ok package
    /\ maven_package_specific_artifact_id (maven_path group artifact version file) = Ok id
    /\ artifact_specific_ids Maven2 package (base +:+ "/" +:+ file) hash = [id].
Proof.
  intros Hg Hf. apply Forall_and in Hf as [Hs Hc].
  unfold maven_package_specific_id, maven_package_specific_artifact_id.
  rewrite parse_maven_path by done; simpl. eexists _, _. split; [done|]. split; [done|].
  apply Forall_app in Hs as [_ Hs]. apply Forall_app in Hc as [Hcg Hc].
  rewrite !Forall_cons in Hs, Hc. destruct Hs as (_ & _ & Hsf & _), Hc as (Hca & Hcv & _ & _).
  rewrite url_filename_last, !replace_app by done.
  rewrite (replace_none _ _ (join "." group)) by (by apply join_contains).
  rewrite (replace_none _ _ artifact), (replace_none _ _ version) by done.
  by rewrite !string_app_assoc.
Qed.

(** What a build of a Docker image by tag stores is what its clients ask for: the
    manifest is stored under the id of a request for the tag and under the id of a request
    for the digest of the manifest, and every layer under the id of a request for the blob
    with its digest. *)
Theorem docker_ids_agree name tag base digest ext hash :
  contains "/"%char (name +:+ tag) = false -> contains "@"%char (name +:+ tag) = false ->
  contains ":"%char tag = false -> contains "/"%char hash = false ->
  contains "/"%char (digest +:+ ext) = false -> contains "."%char ext = false ->
  ends_with "/manifest" (base +:+ "/" +:+ digest +:+ "." +:+ ext) = false ->
  artifact_specific_ids Docker (docker_manifest_id name tag) (base +:+ "/manifest") hash
  = [docker_manifest_id name tag; docker_manifest_id name ("sha256:" +:+ hash)]
  /\ artifact_specific_ids Docker (docker_manifest_id name tag)
       (base +:+ "/" +:+ digest +:+ "." +:+ ext) hash = [docker_blob_id name digest].
Proof.
  rewrite !contains_app, !orb_false_iff. intros [Hsn Hst] [Han Hat] Hct Hsh [Hsd Hse] Hde Hm.
  assert (starts_with "sha256:" tag = false) as Hsw.
  { destruct (starts_with "sha256:" tag) eqn:E; [|done]. clear -Hct E.
    do 7 (destruct tag as [|? tag]; [done|]; simpl in E; apply andb_true_iff in E as [?%bool_decide_eq_true E]; subst).
    by simpl in Hct. }
  assert (docker_manifest_id name tag = ("library/" +:+ name) +:+ ":" +:+ tag) as Hid.
  { unfold docker_manifest_id. rewrite Hsw, !contains_app, Hsn, Hst; simpl. by rewrite string_app_assoc. }
  assert (contains "@"%char (docker_manifest_id name tag) = false) as Ha.
  { rewrite Hid, !contains_app, Han, Hat. done. }
  assert (get_docker_image_name (docker_manifest_id name tag) = "library/" +:+ name) as Himg.
  { rewrite Hid in Ha |- *. by apply docker_image_of_tag. }
  unfold artifact_specific_ids. rewrite ends_with_app, Ha, Hm, Himg. split.
  - f_equal. f_equal. unfold docker_manifest_id. rewrite starts_with_app, !contains_app, Hsn, Hsh; simpl.
    by rewrite !string_app_assoc.
  - rewrite url_filename_last by (by rewrite !contains_app, Hsd, Hse).
    rewrite (rsplit_sep "."%char digest ext) by done.
    unfold docker_blob_id. rewrite !contains_app, Hsn, Hsd; simpl. by rewrite !string_app_assoc.
Qed.

Lemma maven_ids_agree_witness :
  maven_package_specific_artifact_id "/maven2/com/company/test/1.0/test-1.0.jar"
  = Ok "com.company/test/1.0/test-1.0.jar"
  /\ artifact_specific_ids Maven2 "com.company:test:1.0" "/build/7/artifacts/test-1.0.jar" "h"
     = ["com.company/test/1.0/test-1.0.jar"].
Proof.
  destruct (maven_ids_agree ["com"; "company"] "test" "1.0" "test-1.0.jar" "/build/7/artifacts" "h")
    as (package & id & Hp & Hi & Ha).
  - discriminate.
  - repeat constructor.
  - vm_compute in Hp, Hi. injection Hp as <-. injection Hi as <-. split; [reflexivity|exact Ha].
Defined.

Lemma docker_ids_agree_witness :
  artifact_specific_ids Docker "library/alpine:3.16" "/build/7/artifacts/manifest" "ab"
  = ["library/alpine:3.16"; "library/alpine@sha256:ab"].
Proof.
  apply (docker_ids_agree "alpine" "3.16" "/build/7/artifacts" "sha256:cd" "blob" "ab"); reflexivity.
Defined.
