(* ===== verification/Artifact.v ===== *)
(** * Artifact: storing, fetching and publishing artifacts

    Models src/artifact_service/{storage,service}.rs.  The service works on its storage
    directory, the transparency log, the network client ([CommandChannel]) and the build
    event client, which is the interface [BuildClient]. *)

From S2P Require Import Prelude Crypto Structures Sample FileSystem Sql SqlSample Model Text TransparencyLog BlockchainEvents EventLoop Client Build.

(** ** storage.rs *)
Definition FILE_EXTENSION : string := "file".

(** The directory part of a path, with its slash, and the last segment. *)
Definition path_parts (path : string) : string * string :=
  match rsplit "/"%char path with
  | Some (dir, name) => (dir +:+ "/", name)
  | None => ("", path)
  end.

(** [Path::file_stem] and [Path::extension] of a last segment: a dot at its start does not
    begin an extension. *)
Definition stem_and_extension (name : string) : string * option string :=
  match rsplit "."%char name with
  | Some (before, after) => if bool_decide (before = "") then (name, None) else (before, Some after)
  | None => (name, None)
  end.

(** [PathBuf::set_extension], for a path that does not end with a slash; a path without a
    file name is left alone. *)
Definition set_extension (path ext : string) : string :=
  let '(dir, name) := path_parts path in
  if bool_decide (name ∈ [""; "."; ".."]) then path
  else dir +:+ fst (stem_and_extension name) +:+ "." +:+ ext.

Record ArtifactStorage := { repository_path : string }.

(** [ArtifactStorage::new], for a path that is canonical; [canonicalize] fails on a path
    that does not exist. *)
Definition ArtifactStorage_new (path : string) : stm Fs string ArtifactStorage :=
  let! r := scatch (fs_metadata path) in
  match r with
  | inl NDir => sret {| repository_path := path |}
  | inl (NFile _) => serr ("Not an accessible directory: " +:+ path)
  | inr _ => serr "No such file or directory"
  end.

Definition base_file_path (st : ArtifactStorage) (artifact_id : string) : string :=
  path_join (repository_path st) artifact_id.

Definition artifact_file_path (st : ArtifactStorage) (artifact_id : string) : string :=
  set_extension (base_file_path st artifact_id) FILE_EXTENSION.

Definition create_artifact_file (st : ArtifactStorage) (artifact_id : string) : stm Fs io_error string :=
  let path := artifact_file_path st artifact_id in
  let! _ := fs_create_new path in
  sret path.

Definition push_artifact (st : ArtifactStorage) (content : bytes) (artifact_id : string) : stm Fs io_error unit :=
  let! path := create_artifact_file st artifact_id in
  let! _ := fs_write_all path content in
  fs_sync_all path.

Definition pull_artifact (st : ArtifactStorage) (artifact_id : string) : stm Fs io_error bytes :=
  fs_read (artifact_file_path st artifact_id).

(** [list_artifacts]: the entries of the directory whose extension is [file]. *)
Definition list_artifacts (st : ArtifactStorage) : stm Fs io_error (list string) :=
  let root := repository_path st in
  let! s := sget in
  match fs_nodes s !! root with
  | Some NDir =>
      let! _ := fs_check OpReadDir root in
      sret (filter (fun p => bool_decide (fst (path_parts p) = root +:+ "/"
                      /\ snd (stem_and_extension (snd (path_parts p))) = Some FILE_EXTENSION) = true)
              (elements (dom (fs_nodes s))))
  | _ => sret []
  end.

(** *** Lemmas on the storage

    Artifact ids are UUIDs: not empty, without slash and without dot. *)
Definition plain_id (id : string) : Prop :=
  id <> "" /\ contains "/"%char id = false /\ contains "."%char id = false.

(** What comes before the name of an artifact's file. *)
Definition storage_prefix (st : ArtifactStorage) : string :=
  if bool_decide (repository_path st = "") || ends_with_char slash (repository_path st)
  then repository_path st else repository_path st +:+ "/".

Lemma starts_contains c s : contains c s = false -> starts_with_char c s = false.
Proof. destruct s as [|a s]; simpl; [done|]. by intros [Ha _]%orb_false_iff. Qed.

Lemma list_ascii_app s t :
  String.list_ascii_of_string (s +:+ t) = String.list_ascii_of_string s ++ String.list_ascii_of_string t.
Proof. induction s as [|a s IH]; [done|]. simpl. by rewrite <- IH. Qed.

Lemma ends_with_char_split c s : ends_with_char c s = true -> exists s', s = s' +:+ String.String c "".
Proof.
  unfold ends_with_char. destruct (last _) as [a|] eqn:E; [|done].
  intros ->%bool_decide_eq_true. apply last_Some in E as [l El].
  exists (String.string_of_list_ascii l).
  rewrite <- (String.string_of_list_ascii_of_string s), El.
  clear. induction l as [|b l IH]; [done|]. simpl. by rewrite IH.
Qed.

Lemma path_parts_plain st id :
  plain_id id -> path_parts (base_file_path st id) = (storage_prefix st, id).
Proof.
  intros (Hne & Hsl & Hdot). unfold path_parts, base_file_path, path_join, storage_prefix.
  rewrite starts_contains by done.
  destruct (bool_decide (repository_path st = "")) eqn:Eb; simpl.
  - apply bool_decide_eq_true in Eb as ->. change ("" +:+ id) with id. by rewrite rsplit_none.
  - destruct (ends_with_char slash (repository_path st)) eqn:E.
    + apply ends_with_char_split in E as [r ->]. rewrite string_app_assoc. unfold slash.
      by rewrite rsplit_sep.
    + change ("/" +:+ id) with (String.String "/"%char id). by rewrite rsplit_app.
Qed.

Lemma artifact_file_path_plain st id :
  plain_id id -> artifact_file_path st id = storage_prefix st +:+ id +:+ ".file".
Proof.
  intros Hid. unfold artifact_file_path, set_extension. rewrite path_parts_plain by done.
  destruct Hid as (Hne & Hsl & Hdot). rewrite bool_decide_false.
  - unfold stem_and_extension. by rewrite rsplit_none.
  - rewrite !not_elem_of_cons. repeat split; [done|by intros ->|by intros ->|apply not_elem_of_nil].
Qed.

Lemma artifact_file_path_inj st id id' :
  plain_id id -> plain_id id' -> artifact_file_path st id = artifact_file_path st id' -> id = id'.
Proof.
  intros Hid Hid'. rewrite !artifact_file_path_plain by done.
  intros Heq%(inj (String.append _)). by apply string_app_inj_r in Heq.
Qed.

(** Pushing under an id that has no file. *)
Lemma push_artifact_spec st content id d :
  fs_reliable d -> fs_nodes d !! artifact_file_path st id = None ->
  push_artifact st content id d
  = (Ok tt, fs_set (<[artifact_file_path st id := NFile content]> (fs_nodes d)) d).
Proof.
  intros Hr Hn. unfold push_artifact, create_artifact_file, fs_create_new, fs_write_all, fs_sync_all.
  unfold_stm. rewrite fs_check_reliable by done. rewrite Hn, fs_check_reliable by done; simpl.
  rewrite lookup_insert_eq, fs_check_reliable by done. simpl. rewrite drop_nil, app_nil_r.
  unfold fs_set; simpl. by rewrite insert_insert_eq.
Qed.

Lemma pull_artifact_spec st id d :
  fs_reliable d ->
  pull_artifact st id d
  = (match fs_nodes d !! artifact_file_path st id with
     | Some (NFile content) => Ok content | Some NDir => Err IoOther | None => Err NotFound end, d).
Proof.
  intros Hr. unfold pull_artifact, fs_read. unfold_stm. rewrite fs_check_reliable by done.
  by destruct (fs_nodes d !! _) as [[]|].
Qed.

(** An artifact that is stored is read back unchanged, a second artifact is never
    stored over it, and artifacts under other ids are not affected. *)
Theorem push_pull_roundtrip st content id d :
  fs_reliable d -> plain_id id -> fs_nodes d !! artifact_file_path st id = None ->
  exists d', push_artifact st content id d = (Ok tt, d')
    /\ pull_artifact st id d' = (Ok content, d')
    /\ (forall content', push_artifact st content' id d' = (Err AlreadyExists, d'))
    /\ forall id', plain_id id' -> id' <> id ->
         fst (pull_artifact st id' d') = fst (pull_artifact st id' d).
Proof.
  intros Hr Hid Hn. eexists. split; [by apply push_artifact_spec|]. split; [|split].
  - rewrite pull_artifact_spec by done. simpl. by rewrite lookup_insert_eq.
  - intros content'. unfold push_artifact, create_artifact_file, fs_create_new. unfold_stm.
    rewrite fs_check_reliable by done. simpl. by rewrite lookup_insert_eq.
  - intros id' Hid' Hne. rewrite !pull_artifact_spec by done. simpl.
    rewrite lookup_insert_ne; [done|]. intros Heq%artifact_file_path_inj; [by symmetry in Heq|done..].
Qed.

(** ** service.rs *)
Section Artifact.
Context `{Libp2p} `{Sqlite} `{!LogJson} `{!Sha256}.
Context {B : Type} `{!BlockAdder B} {W : Type} `{!CommandChannel W}.

Context {C : Type} `{!BuildClient C}.

Record ArtifactService := {
  as_storage : ArtifactStorage;
  as_disk : Fs;
  as_build_event_client : C;
  as_transparency_log : TransparencyLogService B;
  as_p2p_client : W;
  as_local_peer_id : PeerId;
  as_spawned : list (PackageType * string);       (* builds requested in the background *)
}.

Definition ArtifactService_new (artifact_path : string) (log : TransparencyLogService B) (builds : C)
    (client : W) (local_peer_id : PeerId) : stm Fs string ArtifactService :=
  let! storage := ArtifactStorage_new artifact_path in
  let! d := sget in
  sret {| as_storage := storage; as_disk := d; as_build_event_client := builds;
          as_transparency_log := log; as_p2p_client := client; as_local_peer_id := local_peer_id;
          as_spawned := [] |}.

Definition on_store {E A} (c : stm Fs E A) : stm ArtifactService E A :=
  szoom as_disk (fun x s => {| as_storage := as_storage s; as_disk := x;
    as_build_event_client := as_build_event_client s; as_transparency_log := as_transparency_log s;
    as_p2p_client := as_p2p_client s; as_local_peer_id := as_local_peer_id s;
    as_spawned := as_spawned s |}) c.
Definition on_builds {E A} (c : stm C E A) : stm ArtifactService E A :=
  szoom as_build_event_client (fun x s => {| as_storage := as_storage s; as_disk := as_disk s;
    as_build_event_client := x; as_transparency_log := as_transparency_log s;
    as_p2p_client := as_p2p_client s; as_local_peer_id := as_local_peer_id s;
    as_spawned := as_spawned s |}) c.
Definition on_tlog {E A} (c : stm (TransparencyLogService B) E A) : stm ArtifactService E A :=
  szoom as_transparency_log (fun x s => {| as_storage := as_storage s; as_disk := as_disk s;
    as_build_event_client := as_build_event_client s; as_transparency_log := x;
    as_p2p_client := as_p2p_client s; as_local_peer_id := as_local_peer_id s;
    as_spawned := as_spawned s |}) c.
Definition on_net {E A} (c : stm W E A) : stm ArtifactService E A :=
  szoom as_p2p_client (fun x s => {| as_storage := as_storage s; as_disk := as_disk s;
    as_build_event_client := as_build_event_client s; as_transparency_log := as_transparency_log s;
    as_p2p_client := x; as_local_peer_id := as_local_peer_id s; as_spawned := as_spawned s |}) c.
Definition spawn_build {E} (t : PackageType) (p : string) : stm ArtifactService E unit :=
  smodify (fun s => {| as_storage := as_storage s; as_disk := as_disk s;
    as_build_event_client := as_build_event_client s; as_transparency_log := as_transparency_log s;
    as_p2p_client := as_p2p_client s; as_local_peer_id := as_local_peer_id s;
    as_spawned := as_spawned s ++ [(t, p)] |}).

(** [anyhow::Error] of the service, by where it comes from. *)
Inductive artifact_error :=
| ALog (e : TransparencyLogError)
| AIo (e : io_error)
| ANet (e : net_error)
| AJson
| ANotOnNetwork (artifact_id : string).

(** [iter().find_or_last(|p| local == p)]. *)
Definition find_or_last (local : PeerId) (nodes : list PeerId) : option PeerId :=
  if decide (local ∈ nodes) then Some local else last nodes.

Definition request_build_of (t : PackageType) (p : string) : stm ArtifactService BuildError string :=
  let! s := sget in
  let local := as_local_peer_id s in
  let! nodes := smap_err (fun e => InitializationFailed (LogMsg e)) (on_tlog get_authorized_nodes) in
  match nodes with
  | [] => serr (InitializationFailed (Msg "No authorized nodes found"))
  | _ =>
      let! peer := slift (unwrap (find_or_last local nodes)) in
      let! _ := smap_err BuildArtifactAlreadyExists
                  (on_tlog (verify_package_can_be_added_to_transparency_logs t p)) in
      if decide (local = peer) then on_builds (be_start_build t p)
      else smap_err (fun e => InitializationFailed (NetMsg e)) (on_net (request_build peer t p))
  end.

Definition artifact_get_build_status (build_id : string) : stm ArtifactService BuildError BuildStatus :=
  let! s := sget in
  let local := as_local_peer_id s in
  let! nodes := smap_err (fun e => BuildStatusFailed (LogMsg e)) (on_tlog get_authorized_nodes) in
  let! peer := slift (unwrap (find_or_last local nodes)) in
  if decide (local = peer) then on_builds (be_get_build_status build_id)
  else smap_err (fun e => BuildStatusFailed (NetMsg e)) (on_net (request_build_status peer build_id)).

Definition service_handle_block_added (payloads : list bytes) : stm ArtifactService artifact_error unit :=
  match payloads with
  | [payload] =>
      let! l := slift (ok_or (log_from_json payload) AJson) in
      smap_err ALog (on_tlog (write_if_not_exists l))
  | _ => sret tt
  end.

Definition put_artifact (artifact_id : string) (content : bytes) : stm ArtifactService artifact_error unit :=
  let! s := sget in
  smap_err AIo (on_store (push_artifact (as_storage s) content artifact_id)).

Definition put_artifact_from_build_result (location artifact_id : string) :
    stm ArtifactService artifact_error unit :=
  let! content := smap_err AIo (on_store (fs_read location)) in
  put_artifact artifact_id content.

(** The loop of [handle_build_result]; one draw for each artifact. *)
Fixpoint publish_artifacts (result : BuildResult) (artifacts : list (BuildResultArtifact * tl_draw))
    (payloads : list string) : stm ArtifactService artifact_error (list string) :=
  match artifacts with
  | [] => sret payloads
  | (artifact, d) :: rest =>
      let request := {|
        req_package_type := br_package_type result;
        req_package_specific_id := br_package_specific_id result;
        req_num_artifacts := wrap 32 (Z.of_nat (length (br_artifacts result)));
        req_package_specific_artifact_id := artifact_specific_id artifact;
        req_artifact_hash := artifact_hash artifact |} in
      let! added := smap_err ALog (on_tlog (tl_add_artifact request d)) in
      let '(l, payload) := added in
      let! _ := put_artifact_from_build_result (artifact_location artifact) (tl_artifact_id l) in
      let! _ := smap_err ANet (on_net (provide (tl_artifact_id l))) in
      publish_artifacts result rest (payloads ++ [payload])
  end.

Definition artifact_handle_build_result (result : BuildResult) (draws : list tl_draw) :
    stm ArtifactService artifact_error unit :=
  let! payloads := publish_artifacts result (zip (br_artifacts result) draws) [] in
  smap_err ALog (on_tlog (broadcast_artifacts payloads)).

Definition get_artifact_locally (artifact_id : string) : stm ArtifactService artifact_error bytes :=
  let! s := sget in
  smap_err AIo (on_store (pull_artifact (as_storage s) artifact_id)).

Definition verify_artifact (l : TransparencyLog) (artifact : bytes) : outcome artifact_error unit :=
  let calculated_hash := sha256_hex artifact in
  if bool_decide (tl_artifact_hash l = calculated_hash) then Ok tt
  else Err (ALog (InvalidHash (tl_package_specific_artifact_id l) calculated_hash (tl_artifact_hash l))).

Definition get_artifact_from_peer (peer : PeerId) (artifact_id : string) :
    stm ArtifactService artifact_error bytes :=
  let! artifact := smap_err ANet (on_net (request_artifact peer artifact_id)) in
  let! _ := put_artifact artifact_id artifact in
  get_artifact_locally artifact_id.

Definition get_artifact_from_peers (artifact_id : string) : stm ArtifactService artifact_error bytes :=
  let! providers := smap_err ANet (on_net (list_providers artifact_id)) in
  let! idle := smap_err ANet (on_net (get_idle_peer (elements providers))) in
  match idle with
  | Some peer => get_artifact_from_peer peer artifact_id
  | None => serr (ANotOnNetwork artifact_id)
  end.

Definition service_get_artifact (t : PackageType) (artifact : string) :
    stm ArtifactService artifact_error bytes :=
  let! l := smap_err ALog (on_tlog (tl_get_artifact t artifact)) in
  let! local := scatch (get_artifact_locally (tl_artifact_id l)) in
  let! content :=
    match local with
    | inl content => sret content
    | inr _ => get_artifact_from_peers (tl_artifact_id l)
    end in
  let! _ := slift (verify_artifact l content) in
  sret content.

Definition get_artifact_or_build (t : PackageType) (p artifact : string) :
    stm ArtifactService artifact_error bytes :=
  let! r := scatch (service_get_artifact t artifact) in
  match r with
  | inl content => sret content
  | inr e => let! _ := spawn_build t p in serr e
  end.

Definition get_logs_for_artifact (t : PackageType) (p : string) :
    stm ArtifactService artifact_error (list TransparencyLog) :=
  smap_err ALog (on_tlog (search_transparency_logs t p false)).

Definition provide_local_artifacts : stm ArtifactService artifact_error unit :=
  let! s := sget in
  let! paths := smap_err AIo (on_store (list_artifacts (as_storage s))) in
  sfor paths (fun path =>
    smap_err ANet (on_net (provide (fst (stem_and_extension (snd (path_parts path))))))).

(** The artifact service as the blockchain event loop sees it. *)
#[export] Instance artifact_block_handler : BlockAddedHandler ArtifactService := {|
  handle_block_added := fun payloads =>
    smap_err (fun e => AnyMsg (match e with AJson => "json" | _ => "artifact service" end))
      (service_handle_block_added payloads) |}.

(** ** Lemmas *)
Context `{!SqliteOk}.

Lemma get_artifact_locally_eq id s :
  get_artifact_locally id s = (map_err AIo (fst (pull_artifact (as_storage s) id (as_disk s))), s).
Proof.
  unfold get_artifact_locally, on_store, pull_artifact, fs_read, fs_check. unfold_stm.
  destruct (fs_fault _ _ _); [by destruct s|].
  destruct (fs_nodes _ !! _) as [[]|]; by destruct s.
Qed.

Lemma get_artifact_locally_same id s o s' : get_artifact_locally id s = (o, s') -> s' = s.
Proof. rewrite get_artifact_locally_eq. by intros [= _ ->]. Qed.

(** What is fetched from peers is what the storage then holds, at an unchanged log. *)
Lemma get_artifact_from_peers_stored id s o s' :
  get_artifact_from_peers id s = (o, s') ->
  as_transparency_log s' = as_transparency_log s
  /\ (forall content, o = Ok content -> get_artifact_locally id s' = (Ok content, s'))
  /\ (forall e, o = Err e -> forall l, e <> ALog l).
Proof.
  unfold get_artifact_from_peers, get_artifact_from_peer, put_artifact.
  unfold sbind, smap_err, sget, on_net, on_store, szoom.
  destruct (list_providers id (as_p2p_client s)) as [[ps| |] w1]; [|intros; simplify_eq/=; naive_solver..]; simpl.
  destruct (get_idle_peer (elements ps) w1) as [[[peer|]| |] w2];
    [|unfold serr; intros; simplify_eq/=; naive_solver..]; simpl.
  destruct (request_artifact peer id w2) as [[content| |] w3]; [|intros; simplify_eq/=; naive_solver..]; simpl.
  destruct (push_artifact _ _ _ _) as [[[]| |] d]; [|intros; simplify_eq/=; naive_solver..]; simpl.
  intros Hl. pose proof (get_artifact_locally_same _ _ _ _ Hl) as ->. split; [done|]. split.
  - by intros c ->.
  - intros e -> l ->. rewrite get_artifact_locally_eq in Hl.
    destruct (fst (pull_artifact _ _ _)); by simplify_eq/=.
Qed.

(** Fetching an artifact requests no build. *)
Lemma service_get_artifact_spawns_nothing t a : frames as_spawned (service_get_artifact t a).
Proof.
  unfold service_get_artifact, get_artifact_locally, get_artifact_from_peers, get_artifact_from_peer,
    put_artifact, on_tlog, on_store, on_net.
  repeat first [apply frames_bind; [|intros ?] | case_match | progress eauto with rust].
Qed.

(** The steps of [get_artifact] behind the log. *)
Definition fetch_artifact (l : TransparencyLog) : stm ArtifactService artifact_error bytes :=
  let! local := scatch (get_artifact_locally (tl_artifact_id l)) in
  let! content :=
    match local with
    | inl content => sret content
    | inr _ => get_artifact_from_peers (tl_artifact_id l)
    end in
  let! _ := slift (verify_artifact l content) in
  sret content.

Lemma service_get_artifact_fetch t a :
  service_get_artifact t a = sbind (smap_err ALog (on_tlog (tl_get_artifact t a))) fetch_artifact.
Proof. done. Qed.

(** However it ends with or without a content, the content is the one the storage holds. *)
Lemma fetch_artifact_spec l s o s' :
  fetch_artifact l s = (o, s') ->
  as_transparency_log s' = as_transparency_log s
  /\ (forall content, o = Ok content ->
        get_artifact_locally (tl_artifact_id l) s' = (Ok content, s')
        /\ tl_artifact_hash l = sha256_hex content)
  /\ (forall e, o = Err (ALog e) -> exists content,
        get_artifact_locally (tl_artifact_id l) s' = (Ok content, s')
        /\ sha256_hex content <> tl_artifact_hash l
        /\ e = InvalidHash (tl_package_specific_artifact_id l) (sha256_hex content) (tl_artifact_hash l)).
Proof.
  unfold fetch_artifact, sbind at 1, scatch.
  destruct (get_artifact_locally (tl_artifact_id l) s) as [o1 s1] eqn:Hl.
  pose proof (get_artifact_locally_same _ _ _ _ Hl) as ->.
  unfold sbind, slift, sret, verify_artifact. destruct o1 as [c|e1|]; [| |intros; by simplify_eq].
  - case_bool_decide as Hc; intros; simplify_eq; (split; [done|]); naive_solver.
  - destruct (get_artifact_from_peers (tl_artifact_id l) s) as [o2 s2] eqn:Hp.
    apply get_artifact_from_peers_stored in Hp as (Htl & Hok & Herr).
    destruct o2 as [c|e2|]; [|intros; simplify_eq; split; [done|]; naive_solver|intros; by simplify_eq].
    specialize (Hok c eq_refl).
    case_bool_decide as Hc; intros; simplify_eq; (split; [done|]); naive_solver.
Qed.

(** ** Properties *)

(** A content that is returned has the hash of a record. *)
Lemma service_get_artifact_logged t a s logs content s' :
  holds (as_transparency_log s) logs -> quotable a = true ->
  service_get_artifact t a s = (Ok content, s') ->
  exists l, l ∈ logs /\ artifact_record t a l /\ tl_operation l = AddArtifact
    /\ tl_artifact_hash l = sha256_hex content
    /\ (forall l', l' ∈ logs -> artifact_record t a l' -> (tl_timestamp l <= tl_timestamp l')%Z)
    /\ holds (as_transparency_log s') logs.
Proof.
  intros Hh Hq. rewrite service_get_artifact_fetch. unfold sbind, smap_err, on_tlog, szoom.
  destruct (tl_get_artifact_spec t a _ _ Hh Hq) as (x & Hx & [[_ ->]|(l & Hl & Hr & Hmin & ->)]); [done|].
  case_decide as Hop; [done|]. simpl. intros (Htl & Hok & _)%fetch_artifact_spec.
  destruct (Hok content eq_refl) as [_ Hhash]. exists l.
  assert (tl_operation l = AddArtifact) by (destruct Hr as (_ & _ & Ho); by destruct (tl_operation l)).
  rewrite Htl. done.
Qed.

(** C4. An artifact is only ever returned with the hash of its log: the content of a
    successful [get_artifact], from the disk or from any peer, has the hash of a record
    that added the artifact.  The record is the oldest one of the artifact, where the comment on
    [TransparencyLogService::get_artifact] and the architecture document speak of the latest: an artifact that was
    removed later is still returned, as in the witness. *)
Theorem get_artifact_integrity t a s logs content s' :
  holds (as_transparency_log s) logs -> quotable a = true ->
  service_get_artifact t a s = (Ok content, s') ->
  exists l, l ∈ logs /\ artifact_record t a l /\ tl_operation l = AddArtifact
    /\ tl_artifact_hash l = sha256_hex content
    /\ (forall l', l' ∈ logs -> artifact_record t a l' -> (tl_timestamp l <= tl_timestamp l')%Z)
    /\ holds (as_transparency_log s') logs.
Proof.
  apply service_get_artifact_logged.
Qed.

(** A wrong copy stays: when a call fails because the content has not the logged hash,
    the content is in the local storage, and every later call reads it there and fails in
    the same way without asking a peer. *)
Theorem bad_download_sticks t a s logs l s' id invalid actual :
  holds (as_transparency_log s) logs -> quotable a = true ->
  l ∈ logs -> (forall l', l' ∈ logs -> artifact_record t a l' -> l' = l) ->
  service_get_artifact t a s = (Err (ALog (InvalidHash id invalid actual)), s') ->
  exists s'', service_get_artifact t a s' = (Err (ALog (InvalidHash id invalid actual)), s'')
    /\ as_p2p_client s'' = as_p2p_client s' /\ as_disk s'' = as_disk s'.
Proof.
  intros Hh Hq Hl Huniq. rewrite service_get_artifact_fetch. unfold sbind, smap_err, on_tlog, szoom.
  destruct (tl_get_artifact_spec t a _ _ Hh Hq) as (x & Hx & [[_ ->]|(l1 & Hl1 & Hr & Hmin & ->)]); [done|].
  assert (l1 = l) as -> by (by apply Huniq). case_decide as Hop; [done|]. simpl.
  intros (Htl & _ & Herr)%fetch_artifact_spec. simpl in Htl.
  destruct (Herr _ eq_refl) as (content & Hloc & Hne & Heq). simplify_eq.
  destruct (tl_get_artifact_spec t a (as_transparency_log s') logs) as
    (x' & Hx' & [[Hno _]|(l2 & Hl2 & Hr2 & _ & ->)]); [done|done|by destruct (Hno l)|].
  assert (l2 = l) as -> by (by apply Huniq). rewrite decide_False by done. simpl.
  unfold fetch_artifact, sbind at 1, scatch. rewrite get_artifact_locally_eq in Hloc |- *. simpl.
  apply pair_equal_spec in Hloc as [-> _]. unfold sbind, sret, slift, verify_artifact.
  rewrite bool_decide_false by congruence. by eexists.
Qed.

(** A request for a build of a package that is there. *)
Lemma request_build_refused t p s logs l :
  holds (as_transparency_log s) logs -> quotable p = true ->
  Forall (fun l => quotable (tl_id l) = true) logs ->
  l ∈ logs -> package_record t p l ->
  (forall l', l' ∈ logs -> package_record t p l' -> l' <> l -> (tl_timestamp l' < tl_timestamp l)%Z) ->
  tl_operation l = AddArtifact ->
  exists e s', request_build_of t p s = (Err e, s')
    /\ as_build_event_client s' = as_build_event_client s /\ as_p2p_client s' = as_p2p_client s
    /\ as_disk s' = as_disk s
    /\ (e = InitializationFailed (Msg "No authorized nodes found")
        \/ exists x, e = BuildArtifactAlreadyExists x)
    /\ (fst (get_authorized_nodes (as_transparency_log s)) <> Ok [] ->
        exists x, e = BuildArtifactAlreadyExists x).
Proof.
  intros Hh Hq Hids Hl Hr Hnew Hop. unfold request_build_of. unfold_stm. unfold on_tlog. unfold_stm.
  destruct (get_authorized_nodes_spec _ _ Hh) as (x & ps & -> & Hx & _); simpl.
  destruct ps as [|p0 ps].
  { eexists _, _. do 4 (split; [done|]). split; [by left|done]. }
  assert (exists peer, find_or_last (as_local_peer_id s) (p0 :: ps) = Some peer) as [peer ->].
  { unfold find_or_last. case_decide; [by eexists|]. rewrite last_cons. destruct (last ps); by eexists. }
  simpl. destruct (verify_package_spec t p x logs) as (x' & Hx' & [[Hno _]|(l1 & Hl1 & Hr1 & Hmax & Hv)]);
    [done|done|done|by destruct (Hno l)|].
  assert (l1 = l) as ->.
  { destruct (decide (l1 = l)) as [|Hne]; [done|]. specialize (Hnew _ Hl1 Hr1 Hne).
    specialize (Hmax _ Hl Hr). lia. }
  cbv zeta in Hv. rewrite Hop in Hv. rewrite Hv. case_decide; simpl;
    (eexists _, _; do 4 (split; [done|]); split; [right|intros _]; by eexists).
Qed.

(** A build is never requested for a package that is there: when the newest record of
    the package is an addition, [request_build] is refused, and neither the builder nor
    the network is asked. *)
Theorem no_duplicate_build t p s logs l :
  holds (as_transparency_log s) logs -> quotable p = true ->
  Forall (fun l => quotable (tl_id l) = true) logs ->
  l ∈ logs -> package_record t p l ->
  (forall l', l' ∈ logs -> package_record t p l' -> l' <> l -> (tl_timestamp l' < tl_timestamp l)%Z) ->
  tl_operation l = AddArtifact ->
  exists e s', request_build_of t p s = (Err e, s')
    /\ as_build_event_client s' = as_build_event_client s /\ as_p2p_client s' = as_p2p_client s
    /\ as_disk s' = as_disk s.
Proof.
  intros Hh Hq Hids Hl Hr Hnew Hop.
  destruct (request_build_refused t p s logs l Hh Hq Hids Hl Hr Hnew Hop)
    as (e & s' & He & Hb & Hn & Hd & _).
  by exists e, s'.
Qed.

(** The status of a build is asked for at an authorized node; while the log has no
    authorized node the call panics. *)
Theorem build_status_needs_node build_id s logs :
  holds (as_transparency_log s) logs -> (forall l, l ∈ logs -> is_node_op (tl_operation l) = false) ->
  fst (artifact_get_build_status build_id s) = Panic.
Proof.
  intros Hh Hno. unfold artifact_get_build_status. unfold_stm. unfold on_tlog. unfold_stm.
  destruct (get_authorized_nodes_spec _ _ Hh) as (x & ps & -> & Hx & Hin & _); simpl.
  destruct ps as [|p0 ps]; [done|].
  destruct (Hin p0) as (n & l & _ & (Hl & Hrec & _) & Hop); [by left|].
  specialize (Hno l Hl). rewrite Hop in Hno. done.
Qed.

(** *** Publishing a build *)

(** The log of one artifact of a build. *)
Definition published_log (result : BuildResult) (a : BuildResultArtifact) (d : tl_draw) : TransparencyLog :=
  TransparencyLog_from {|
    req_package_type := br_package_type result;
    req_package_specific_id := br_package_specific_id result;
    req_num_artifacts := wrap 32 (Z.of_nat (length (br_artifacts result)));
    req_package_specific_artifact_id := artifact_specific_id a;
    req_artifact_hash := artifact_hash a |} d.

(** An artifact's file and the copy of it in the storage. *)
Definition copied (st : ArtifactStorage) (d : Fs) (a : BuildResultArtifact) (dr : tl_draw) : Prop :=
  exists content, fs_nodes d !! artifact_location a = Some (NFile content)
    /\ fs_nodes d !! artifact_file_path st (dr_artifact_id dr) = Some (NFile content).

(** Files are added, none is changed. *)
Definition grows (d d' : Fs) : Prop := fs_nodes d ⊆ fs_nodes d' /\ fs_fault d' = fs_fault d.

Lemma push_artifact_Ok st content id d d' :
  push_artifact st content id d = (Ok tt, d') ->
  fs_nodes d !! artifact_file_path st id = None
  /\ fs_nodes d' = <[artifact_file_path st id := NFile content]> (fs_nodes d)
  /\ fs_fault d' = fs_fault d.
Proof.
  unfold push_artifact, create_artifact_file, fs_create_new, fs_write_all, fs_sync_all, fs_check.
  unfold_stm. destruct (fs_fault d OpOpen _); [done|].
  destruct (fs_nodes d !! artifact_file_path st id) eqn:E; [done|]. simpl.
  destruct (fs_fault d OpWrite _); [done|]. simpl. rewrite lookup_insert_eq. simpl.
  destruct (fs_fault d OpSync _); [done|]. intros [= <-]. simpl.
  by rewrite drop_nil, app_nil_r, insert_insert_eq.
Qed.

(** One turn of the loop of [handle_build_result]. *)
Lemma publish_one result a d rest payloads s logs o s' :
  holds (as_transparency_log s) logs -> (0 <= dr_secs d < 2 ^ 63)%Z ->
  publish_artifacts result ((a, d) :: rest) payloads s = (Ok o, s') ->
  exists payload s1, log_to_json (published_log result a d) = Some payload
    /\ publish_artifacts result rest (payloads ++ [payload]) s1 = (Ok o, s')
    /\ holds (as_transparency_log s1) (logs ++ [published_log result a d])
    /\ tl_blockchain (as_transparency_log s1) = tl_blockchain (as_transparency_log s)
    /\ as_storage s1 = as_storage s /\ grows (as_disk s) (as_disk s1)
    /\ copied (as_storage s) (as_disk s1) a d.
Proof.
  intros Hh Hsecs. simpl. unfold tl_add_artifact. fold (published_log result a d).
  set (l := published_log result a d).
  assert (storable l) as Hl.
  { split; [split|]; unfold fits; simpl; [by apply wrap_fits|lia..]. }
  unfold sbind at 1, smap_err, on_tlog, szoom. unfold sbind at 1, slift.
  destruct (log_to_json l) as [payload|] eqn:Hj; [|done]. simpl ok_or. cbv beta iota.
  unfold sbind at 1. destruct (write_spec (as_transparency_log s) logs l Hh Hl) as (x & -> & Hx & Hb).
  destruct (decide (tl_id l ∈ tl_id <$> logs)); [done|]. simpl.
  unfold put_artifact_from_build_result, put_artifact, on_store, on_net, sbind, sget, smap_err, szoom. simpl.
  unfold fs_read, fs_check. unfold_stm. destruct (fs_fault _ OpRead _); [done|].
  destruct (fs_nodes (as_disk s) !! artifact_location a) as [[content|]|] eqn:Hf; [|done..]. simpl.
  destruct (push_artifact _ _ _ _) as [[[]| |] d'] eqn:Hpush; [|done..]. simpl.
  destruct (provide _ _) as [[[]| |] w]; [|done..]. simpl. intros Hrest.
  apply push_artifact_Ok in Hpush as (Hnone & Hd' & Hfault).
  eexists payload, _. split; [done|]. split; [exact Hrest|]. simpl. do 3 (split; [done|]).
  assert (fs_nodes (as_disk s) ⊆ fs_nodes d') as Hsub by (rewrite Hd'; by apply insert_subseteq).
  split; [by split|]. exists content. split; [by eapply lookup_weaken|]. by rewrite Hd', lookup_insert_eq.
Qed.

Lemma copied_grows st d d' a dr : grows d d' -> copied st d a dr -> copied st d' a dr.
Proof. intros [Hg _] (c & Hl1 & Hl2). exists c. split; by eapply lookup_weaken. Qed.

Lemma publish_artifacts_spec result ads payloads s logs payloads' s' :
  holds (as_transparency_log s) logs -> Forall (fun ad => (0 <= dr_secs (snd ad) < 2 ^ 63)%Z) ads ->
  publish_artifacts result ads payloads s = (Ok payloads', s') ->
  let new := (fun ad => published_log result (fst ad) (snd ad)) <$> ads in
  exists ps, payloads' = payloads ++ ps /\ Forall2 (fun l p => log_to_json l = Some p) new ps
    /\ holds (as_transparency_log s') (logs ++ new)
    /\ tl_blockchain (as_transparency_log s') = tl_blockchain (as_transparency_log s)
    /\ as_storage s' = as_storage s /\ grows (as_disk s) (as_disk s')
    /\ Forall (fun ad => copied (as_storage s) (as_disk s') (fst ad) (snd ad)) ads.
Proof.
  intros Hh Hsecs. revert payloads s logs Hh.
  induction Hsecs as [|[a d] ads Hd Hsecs IH]; intros payloads s logs Hh Hp; csimpl.
  - unfold publish_artifacts, sret in Hp. simplify_eq. exists []. rewrite !app_nil_r. do 5 (split; [done|]). by repeat split.
  - apply (publish_one result a d ads payloads s logs) in Hp
      as (payload & s1 & Hj & Hp & Hh1 & Hb1 & Hst1 & Hg1 & Hc1); [|done|done].
    destruct (IH _ _ _ Hh1 Hp) as (ps & -> & Hps & Hh2 & Hb2 & Hst2 & Hg2 & Hc2).
    exists (payload :: ps). rewrite <- !app_assoc in *. rewrite Hst1 in *.
    split; [done|]. split; [by constructor|]. split; [done|]. split; [congruence|]. split; [done|].
    split; [destruct Hg1, Hg2; split; [by etrans|congruence]|]. constructor; [by eapply copied_grows|done].
Qed.

(** The blocks go to the blockchain one after the other. *)
Lemma broadcast_artifacts_chain payloads x x' :
  broadcast_artifacts payloads x = (Ok tt, x') ->
  sfor payloads (fun payload => bc_add_block (as_bytes payload)) (tl_blockchain x)
    = (Ok tt, tl_blockchain x')
  /\ (forall logs, holds x logs -> holds x' logs).
Proof.
  revert x. induction payloads as [|p ps IH]; intros x; simpl.
  - unfold broadcast_artifacts, sfor, sret. by intros [= ->].
  - unfold broadcast_artifacts. simpl. unfold sbind, smap_err, on_blockchain, szoom.
    destruct (bc_add_block (as_bytes p) (tl_blockchain x)) as [[[]| |] b]; [|done..]. simpl.
    intros [Hf Hh]%IH. split; [done|]. intros logs Hx. apply Hh. by destruct Hx.
Qed.

(** The specification of [handle_build_result]. *)
Lemma handle_build_result_spec result draws s logs s' :
  holds (as_transparency_log s) logs -> Forall (fun d => (0 <= dr_secs d < 2 ^ 63)%Z) draws ->
  length draws = length (br_artifacts result) ->
  artifact_handle_build_result result draws s = (Ok tt, s') ->
  let new := zip_with (published_log result) (br_artifacts result) draws in
  holds (as_transparency_log s') (logs ++ new)
  /\ Forall2 (copied (as_storage s) (as_disk s')) (br_artifacts result) draws
  /\ exists ps, Forall2 (fun l p => log_to_json l = Some p) new ps
       /\ sfor ps (fun p => bc_add_block (as_bytes p)) (tl_blockchain (as_transparency_log s))
          = (Ok tt, tl_blockchain (as_transparency_log s'))
       /\ grows (as_disk s) (as_disk s') /\ as_storage s' = as_storage s.
Proof.
  intros Hh Hd Hlen Hr. unfold artifact_handle_build_result in Hr.
  apply sbind_Ok in Hr as (payloads & s1 & Hp & Hb).
  assert (Forall (fun ad => (0 <= dr_secs (snd ad) < 2 ^ 63)%Z) (zip (br_artifacts result) draws)) as Hd'.
  { apply Forall_forall. intros [a d] Hin%elem_of_zip_r. rewrite Forall_forall in Hd. by apply Hd. }
  destruct (publish_artifacts_spec _ _ _ _ _ _ _ Hh Hd' Hp)
    as (ps & -> & Hps & Hh1 & Hb1 & Hst & Hg & Hc). simpl in Hb.
  assert ((fun ad => published_log result (fst ad) (snd ad)) <$> zip (br_artifacts result) draws
    = zip_with (published_log result) (br_artifacts result) draws) as Hz.
  { clear. revert draws. induction (br_artifacts result) as [|a l IH]; intros [|d ds]; csimpl; [done..|].
    by rewrite IH. }
  rewrite Hz in *. unfold on_tlog, smap_err, szoom in Hb.
  destruct (broadcast_artifacts ps (as_transparency_log s1)) as [o x] eqn:Hbr.
  destruct o as [[]| |]; simplify_eq/=. apply broadcast_artifacts_chain in Hbr as [Hch Hhold].
  split; [by apply Hhold|]. split.
  - apply Forall2_same_length_lookup_2; [done|]. intros i a d Ha Hdi.
    rewrite Forall_lookup in Hc. apply (Hc i (a, d)). by rewrite lookup_zip_with, Ha; simpl; rewrite Hdi.
  - exists ps. split; [done|]. split; [by rewrite <- Hb1|done].
Qed.

(** A stored artifact with the logged hash is served without the network. *)
Lemma stored_artifact_served t a s logs l content :
  holds (as_transparency_log s) logs -> quotable a = true ->
  l ∈ logs -> artifact_record t a l -> tl_operation l = AddArtifact ->
  (forall l', l' ∈ logs -> artifact_record t a l' -> l' = l) ->
  fs_reliable (as_disk s) ->
  fs_nodes (as_disk s) !! artifact_file_path (as_storage s) (tl_artifact_id l) = Some (NFile content) ->
  tl_artifact_hash l = sha256_hex content ->
  exists s', service_get_artifact t a s = (Ok content, s') /\ as_p2p_client s' = as_p2p_client s.
Proof.
  intros Hh Hq Hl Hr Hop Huniq Hrel Hf Hhash. rewrite service_get_artifact_fetch.
  unfold sbind, smap_err, on_tlog, szoom.
  destruct (tl_get_artifact_spec t a _ _ Hh Hq) as (x & _ & [[Hno _]|(l1 & Hl1 & Hr1 & _ & ->)]);
    [by destruct (Hno l)|].
  assert (l1 = l) as -> by (by apply Huniq). rewrite Hop. simpl.
  unfold fetch_artifact, sbind, scatch. rewrite get_artifact_locally_eq. simpl.
  rewrite pull_artifact_spec, Hf by done. simpl. unfold slift, sret, verify_artifact.
  rewrite bool_decide_true by done. by eexists.
Qed.

(** C24. Publishing a build: when [handle_build_result] succeeds, the log has gained one
    record for each artifact, in order and with the number of artifacts of the package,
    each artifact's file is in the storage under the id of its record, and the
    records, as JSON, were put on the blockchain in the same order. *)
Theorem build_result_published result draws s logs s' :
  holds (as_transparency_log s) logs -> Forall (fun d => (0 <= dr_secs d < 2 ^ 63)%Z) draws ->
  length draws = length (br_artifacts result) ->
  artifact_handle_build_result result draws s = (Ok tt, s') ->
  let new := zip_with (published_log result) (br_artifacts result) draws in
  holds (as_transparency_log s') (logs ++ new)
  /\ Forall2 (copied (as_storage s) (as_disk s')) (br_artifacts result) draws
  /\ exists ps, Forall2 (fun l p => log_to_json l = Some p) new ps
       /\ sfor ps (fun p => bc_add_block (as_bytes p)) (tl_blockchain (as_transparency_log s))
          = (Ok tt, tl_blockchain (as_transparency_log s')).
Proof.
  intros Hh Hd Hlen Hr. destruct (handle_build_result_spec result draws s logs s' Hh Hd Hlen Hr)
    as (Hh' & Hc & ps & Hps & Hchain & _).
  split; [done|]. split; [done|]. by exists ps.
Qed.

Context `{!LogJsonOk}.

(** C25. Published records replicate: the payload that publishing an artifact puts on the
    blockchain makes any other node's service write the very same record, and a node
    that has it already keeps its logs. *)
Theorem published_log_replicates r d (x x' : TransparencyLogService B) l payload s logs :
  u32 (req_num_artifacts r) -> (0 <= dr_secs d < 2 ^ 63)%Z -> quotable (dr_id d) = true ->
  tl_add_artifact r d x = (Ok (l, payload), x') ->
  holds (as_transparency_log s) logs ->
  exists s', service_handle_block_added [as_bytes payload] s = (Ok tt, s')
    /\ l = TransparencyLog_from r d
    /\ holds (as_transparency_log s') (if decide (tl_id l ∈ tl_id <$> logs) then logs else logs ++ [l]).
Proof.
  intros Hn Hsecs Hq Hadd Hh. unfold tl_add_artifact in Hadd. set (l' := TransparencyLog_from r d) in *.
  assert (storable l') as Hl'.
  { split; [split|]; unfold fits in *; simpl; lia. }
  destruct (log_json_roundtrip l' (proj1 Hl')) as (js & Hj & Hback).
  rewrite Hj in Hadd. unfold_stm. simpl in Hadd.
  destruct (write_transparency_log l' x) as [[[]| |] ?]; [|done..]. injection Hadd as <- <- _.
  destruct (write_if_not_exists_spec (as_transparency_log s) logs l' Hh Hl' Hq) as (y & Hw & Hy).
  unfold service_handle_block_added. unfold_stm. rewrite Hback. simpl.
  unfold on_tlog. unfold_stm. rewrite Hw. simpl. eexists. split; [done|]. split; [done|]. exact Hy.
Qed.
End Artifact.

(** ** A concrete service *)
Definition sample_storage : ArtifactStorage := {| repository_path := "repo/artifacts" |}.
Definition sample_fs : Fs := {| fs_nodes := ∅; fs_fault := fun _ _ => None |}.

Lemma push_pull_roundtrip_witness :
  exists d', push_artifact sample_storage (as_bytes "data") "x1" sample_fs = (Ok tt, d')
    /\ pull_artifact sample_storage "x1" d' = (Ok (as_bytes "data"), d').
Proof.
  destruct (push_pull_roundtrip sample_storage (as_bytes "data") "x1" sample_fs) as (d' & Hp & Hr & _).
  - done.
  - by repeat split.
  - apply lookup_empty.
  - exists d'. split; [exact Hp|exact Hr].
Defined.

(** A log whose artifact has the hash of "data" under [sample_sha256]. *)
Definition data_log : TransparencyLog := {|
  tl_id := "1"; tl_package_type := Some Maven2; tl_package_specific_id := "g:a:1";
  tl_num_artifacts := 1; tl_package_specific_artifact_id := "g/a/1/a-1.jar";
  tl_artifact_hash := "5data"; tl_source_hash := ""; tl_artifact_id := "x1";
  tl_source_id := "y"; tl_timestamp := 10; tl_operation := AddArtifact; tl_node_id := "n";
  tl_node_public_key := "k" |}.

Lemma data_holds : holds (sample_service [data_log]) [data_log].
Proof.
  split; simpl; [|done| |done|done].
  - apply (bool_decide_unpack _). vm_compute. done.
  - repeat constructor; unfold fits; simpl; lia.
Qed.

(** A service whose storage has the given content for that artifact. *)
Definition sample_artifacts (content : bytes) : ArtifactService (B := list bytes) (W := unit) (C := unit) := {|
  as_storage := sample_storage;
  as_disk := {| fs_nodes := {[ "repo/artifacts/x1.file" := NFile content ]}; fs_fault := fun _ _ => None |};
  as_build_event_client := tt; as_transparency_log := sample_service [data_log];
  as_p2p_client := tt; as_local_peer_id := sample_authorized; as_spawned := [] |}.

Lemma data_outcome content :
  fst (service_get_artifact Maven2 "g/a/1/a-1.jar" (sample_artifacts content))
  = if bool_decide ("5data" = "5" +:+ str content) then Ok content
    else Err (ALog (InvalidHash "g/a/1/a-1.jar" ("5" +:+ str content) "5data")).
Proof.
  rewrite service_get_artifact_fetch. unfold sbind, smap_err, on_tlog, szoom.
  destruct (tl_get_artifact_spec Maven2 "g/a/1/a-1.jar" (sample_service [data_log]) [data_log])
    as (x & _ & [[Hn _]|(l & Hl & _ & _ & Hg)]); [apply data_holds|done| |].
  - destruct (Hn data_log); [by left|by repeat split].
  - simpl as_transparency_log. rewrite Hg. apply list_elem_of_singleton in Hl as ->. simpl.
    unfold fetch_artifact, sbind, scatch. rewrite get_artifact_locally_eq. simpl.
    unfold pull_artifact, fs_read, fs_check. unfold_stm. simpl.
    change (artifact_file_path sample_storage "x1") with "repo/artifacts/x1.file".
    rewrite lookup_singleton_eq. simpl. unfold verify_artifact. simpl. by case_bool_decide.
Qed.

(** The artifact of [data_log], removed later. *)
Definition removed_log : TransparencyLog := {|
  tl_id := "2"; tl_package_type := Some Maven2; tl_package_specific_id := "g:a:1";
  tl_num_artifacts := 1; tl_package_specific_artifact_id := "g/a/1/a-1.jar";
  tl_artifact_hash := "5data"; tl_source_hash := ""; tl_artifact_id := "x1";
  tl_source_id := "y"; tl_timestamp := 20; tl_operation := RemoveArtifact; tl_node_id := "n";
  tl_node_public_key := "k" |}.

Definition removed_artifacts : ArtifactService (B := list bytes) (W := unit) (C := unit) := {|
  as_storage := sample_storage; as_disk := as_disk (sample_artifacts (as_bytes "data"));
  as_build_event_client := tt; as_transparency_log := sample_service [removed_log; data_log];
  as_p2p_client := tt; as_local_peer_id := sample_authorized; as_spawned := [] |}.

Lemma removed_holds : holds (sample_service [removed_log; data_log]) [removed_log; data_log].
Proof.
  split; simpl; [|done| |done|done].
  - apply (bool_decide_unpack _). vm_compute. done.
  - repeat constructor; unfold fits; simpl; lia.
Qed.

Lemma removed_served : fst (service_get_artifact Maven2 "g/a/1/a-1.jar" removed_artifacts) = Ok (as_bytes "data").
Proof.
  rewrite service_get_artifact_fetch. unfold sbind, smap_err, on_tlog, szoom.
  destruct (tl_get_artifact_spec Maven2 "g/a/1/a-1.jar" (sample_service [removed_log; data_log]) [removed_log; data_log])
    as (x & _ & [[Hn _]|(l & Hl & _ & Hmin & Hg)]); [apply removed_holds|done| |].
  - destruct (Hn data_log); [by right; left|by repeat split].
  - assert (l = data_log) as ->.
    { assert (tl_timestamp l <= 10)%Z by (apply (Hmin data_log); [by right; left|by repeat split]).
      apply elem_of_cons in Hl as [->|Hl%list_elem_of_singleton]; [simpl in *; lia|done]. }
    simpl as_transparency_log. rewrite Hg. simpl.
    unfold fetch_artifact, sbind, scatch. rewrite get_artifact_locally_eq. simpl.
    unfold pull_artifact, fs_read, fs_check. unfold_stm. simpl.
    change (artifact_file_path sample_storage "x1") with "repo/artifacts/x1.file".
    rewrite lookup_singleton_eq. simpl. unfold verify_artifact. simpl. done.
Qed.

Lemma get_artifact_integrity_witness :
  exists s' l, service_get_artifact Maven2 "g/a/1/a-1.jar" removed_artifacts = (Ok (as_bytes "data"), s')
    /\ tl_operation l = AddArtifact /\ tl_artifact_hash l = sha256_hex (as_bytes "data")
    /\ (tl_timestamp l <= tl_timestamp removed_log)%Z.
Proof.
  pose proof removed_served as Ho.
  destruct (service_get_artifact Maven2 "g/a/1/a-1.jar" removed_artifacts) as [o s'] eqn:Hg. simpl in Ho. subst o.
  destruct (get_artifact_integrity Maven2 "g/a/1/a-1.jar" removed_artifacts [removed_log; data_log]
    (as_bytes "data") s') as (l & _ & _ & Hop & Hh & Hmin & _).
  - apply removed_holds.
  - reflexivity.
  - exact Hg.
  - exists s', l. split; [reflexivity|]. split; [exact Hop|]. split; [exact Hh|].
    apply Hmin; [by left|by repeat split].
Defined.

Lemma bad_download_sticks_witness :
  exists s' s'', fst (service_get_artifact Maven2 "g/a/1/a-1.jar" s')
      = Err (ALog (InvalidHash "g/a/1/a-1.jar" "5bad" "5data"))
    /\ service_get_artifact Maven2 "g/a/1/a-1.jar" (sample_artifacts (as_bytes "bad")) = (s'', s').
Proof.
  pose proof (data_outcome (as_bytes "bad")) as Ho.
  destruct (service_get_artifact Maven2 "g/a/1/a-1.jar" (sample_artifacts (as_bytes "bad"))) as [o s'] eqn:Hg.
  simpl in Ho. subst o.
  destruct (bad_download_sticks Maven2 "g/a/1/a-1.jar" (sample_artifacts (as_bytes "bad")) [data_log]
    data_log s' "g/a/1/a-1.jar" "5bad" "5data") as (s'' & Hs & _).
  - apply data_holds.
  - reflexivity.
  - by left.
  - by intros l' ->%list_elem_of_singleton _.
  - exact Hg.
  - eexists s', _. split; [by rewrite Hs|reflexivity].
Defined.

Lemma no_duplicate_build_witness :
  exists e s', request_build_of Maven2 "g:a:1" (sample_artifacts []) = (Err e, s')
    /\ as_build_event_client s' = tt.
Proof.
  destruct (no_duplicate_build Maven2 "g:a:1" (sample_artifacts []) [data_log] data_log)
    as (e & s' & Hr & Hb & _).
  - apply data_holds.
  - reflexivity.
  - by repeat constructor.
  - by left.
  - by repeat split.
  - by intros l' ->%list_elem_of_singleton _ ?.
  - reflexivity.
  - exists e, s'. split; [exact Hr|exact Hb].
Defined.

Lemma build_status_needs_node_witness :
  fst (artifact_get_build_status "b1" (sample_artifacts [])) = Panic.
Proof.
  apply (build_status_needs_node "b1" (sample_artifacts []) [data_log]).
  - apply data_holds.
  - by intros l ->%list_elem_of_singleton.
Defined.

(** A network that lets everything be provided. *)
#[export] Instance providing_channel : CommandChannel (list string) := {|
  ask := fun c w => match c 0 with Provide id _ => (Ok AProvided, w ++ [id]) | _ => (Err RecvError, w) end;
  tell := fun _ => sret tt |}.

Definition sample_result : BuildResult := {|
  br_package_type := Maven2; br_package_specific_id := "g:b:1";
  br_artifacts := [{| artifact_specific_id := "g/b/1/b.jar"; artifact_location := "builds/b1/5data";
                      artifact_hash := "5data" |}] |}.
Definition sample_artifact_draw : tl_draw := {|
  dr_id := "9"; dr_artifact_id := "x9"; dr_source_id := ""; dr_node_id := ""; dr_node_public_key := "k";
  dr_secs := 50 |}.

Definition building_service : ArtifactService (B := list bytes) (W := list string) (C := unit) := {|
  as_storage := sample_storage;
  as_disk := {| fs_nodes := {[ "builds/b1/5data" := NFile (as_bytes "data") ]}; fs_fault := fun _ _ => None |};
  as_build_event_client := tt; as_transparency_log := sample_service [data_log];
  as_p2p_client := []; as_local_peer_id := sample_authorized; as_spawned := [] |}.

Lemma build_result_published_witness :
  holds (as_transparency_log (snd (artifact_handle_build_result sample_result [sample_artifact_draw]
                                     building_service)))
    [data_log; published_log sample_result (hd {| artifact_specific_id := ""; artifact_location := "";
                 artifact_hash := "" |} (br_artifacts sample_result)) sample_artifact_draw].
Proof.
  assert (fst (artifact_handle_build_result sample_result [sample_artifact_draw] building_service) = Ok tt)
    as Ho by (vm_compute; reflexivity).
  destruct (artifact_handle_build_result sample_result [sample_artifact_draw] building_service)
    as [o s'] eqn:Hr.
  simpl in Ho. subst o.
  apply (build_result_published sample_result [sample_artifact_draw] building_service [data_log] s').
  - apply data_holds.
  - repeat constructor; simpl; lia.
  - reflexivity.
  - exact Hr.
Defined.

Definition sample_request : AddArtifactRequest := {|
  req_package_type := Maven2; req_package_specific_id := "g:b:1"; req_num_artifacts := 1;
  req_package_specific_artifact_id := "g/b/1/b.jar"; req_artifact_hash := "5data" |}.

Lemma published_log_replicates_witness :
  exists payload s', service_handle_block_added [as_bytes payload] (sample_artifacts []) = (Ok tt, s')
    /\ holds (as_transparency_log s') [data_log; TransparencyLog_from sample_request sample_artifact_draw].
Proof.
  destruct (tl_add_artifact sample_request sample_artifact_draw (sample_service [])) as [o x'] eqn:Ha.
  assert (exists lp, o = Ok lp) as [[l payload] ->].
  { assert (fst (tl_add_artifact sample_request sample_artifact_draw (sample_service [])) = o) as <-
      by (by rewrite Ha).
    eexists. vm_compute. reflexivity. }
  destruct (published_log_replicates sample_request sample_artifact_draw (sample_service []) x' l payload
    (sample_artifacts []) [data_log]) as (s' & Hs & Hl & Hh).
  - unfold fits; simpl; lia.
  - simpl; lia.
  - reflexivity.
  - exact Ha.
  - apply data_holds.
  - exists payload, s'. split; [exact Hs|]. subst l. exact Hh.
Defined.
