(* ===== verification/Verification.v ===== *)
(** * Verification: consensus builds of the authorized nodes

    Models src/verification_service/service.rs.  The two maps of the service are finite
    maps, the oneshot senders are numbers and [vs_sent] lists what was sent on them.  The
    peer id that [PeerId::random] draws is an argument. *)

From S2P Require Import Prelude Crypto Structures Sample FileSystem Sql SqlSample Model Text TransparencyLog EventLoop Client Build.

#[export] Instance PackageType_countable : Countable PackageType.
Proof.
  refine (inj_countable' PackageType_to_string
    (fun s => default Docker (PackageType_from_str s)) _).
  by intros [].
Defined.

(** ** Data *)
Inductive VerificationError `{Crypto} :=
| VArtifactNotFound (build_id artifact_specific_id : string)
| NonMatchingHash (build_id artifact_specific_id expected_hash hash_from_build : string)
| VFailure
| UnsupportedOperation (o : Operation)
| VerifyBuildError (e : BuildError).

Abbreviation Package := (PackageType * string)%type.

Record VerificationInfo := {
  vi_sender : sender;
  vi_artifact_specific_id : string;
  vi_artifact_hash : string;
}.

Section Verification.
Context `{Crypto} `{!LogJson} {C : Type} `{!BuildClient C}.

Record VerificationService := {
  vs_build_event_client : C;
  vs_pending_info : gmap Package (list VerificationInfo);
  vs_verifying_info : gmap string (list VerificationInfo);
  vs_sent : list (sender * (unit + VerificationError));
}.

Definition VerificationService_new (client : C) : VerificationService := {|
  vs_build_event_client := client; vs_pending_info := ∅; vs_verifying_info := ∅; vs_sent := [] |}.

Definition set_pending {E : Type} (m : gmap Package (list VerificationInfo)) : stm VerificationService E unit :=
  smodify (fun s => {| vs_build_event_client := vs_build_event_client s; vs_pending_info := m;
                       vs_verifying_info := vs_verifying_info s; vs_sent := vs_sent s |}).
Definition set_verifying {E : Type} (m : gmap string (list VerificationInfo)) : stm VerificationService E unit :=
  smodify (fun s => {| vs_build_event_client := vs_build_event_client s;
                       vs_pending_info := vs_pending_info s;
                       vs_verifying_info := m; vs_sent := vs_sent s |}).
Definition on_client {E A} (c : stm C E A) : stm VerificationService E A :=
  szoom vs_build_event_client (fun x s => {| vs_build_event_client := x;
    vs_pending_info := vs_pending_info s; vs_verifying_info := vs_verifying_info s;
    vs_sent := vs_sent s |}) c.
(** [sender.send(r).unwrap_or_else(..)]: a receiver that is gone is only logged. *)
Definition send {E : Type} (s : sender) (r : unit + VerificationError) : stm VerificationService E unit :=
  smodify (fun st => {| vs_build_event_client := vs_build_event_client st;
                        vs_pending_info := vs_pending_info st;
                        vs_verifying_info := vs_verifying_info st; vs_sent := vs_sent st ++ [(s, r)] |}).

(** ** Operations *)
Definition info_of (l : TransparencyLog) (s : sender) : VerificationInfo := {|
  vi_sender := s;
  vi_artifact_specific_id := tl_package_specific_artifact_id l;
  vi_artifact_hash := tl_artifact_hash l |}.

Definition verify_add_artifact (l : TransparencyLog) (sender : sender) (random : PeerId) :
    stm VerificationService VerificationError (option string) :=
  let! package_type := slift (unwrap (tl_package_type l)) in
  let package := (package_type, tl_package_specific_id l) in
  let! s := sget in
  let! num_artifacts :=
    match vs_pending_info s !! package with
    | Some verification_artifacts =>
        let verification_artifacts := verification_artifacts ++ [info_of l sender] in
        let! _ := set_pending (<[package := verification_artifacts]> (vs_pending_info s)) in
        sret (wrap 32 (Z.of_nat (length verification_artifacts)))
    | None =>
        let! _ := set_pending (<[package := [info_of l sender]]> (vs_pending_info s)) in
        sret 1%Z
    end in
  if (num_artifacts =? tl_num_artifacts l)%Z then
    let! s := sget in
    match vs_pending_info s !! package with
    | Some verification_artifacts =>
        let! _ := set_pending (delete package (vs_pending_info s)) in
        let! build_id := smap_err VerifyBuildError
          (on_client (be_verify_build random package_type (tl_package_specific_id l))) in
        let! s := sget in
        let! _ := set_verifying (<[build_id := verification_artifacts]> (vs_verifying_info s)) in
        sret (Some build_id)
    | None => serr VFailure
    end
  else sret None.

Definition verify_transaction (transaction_payload : bytes) (sender : sender) (random : PeerId) :
    stm VerificationService VerificationError (option string) :=
  let! l := slift (ok_or (log_from_json transaction_payload) VFailure) in
  match tl_operation l with
  | AddArtifact => verify_add_artifact l sender random
  | unsupported_operation => serr (UnsupportedOperation unsupported_operation)
  end.

(** [HashMap::remove] on the map of active builds. *)
Definition take_verifying {E : Type} (build_id : string) :
    stm VerificationService E (option (list VerificationInfo)) :=
  let! s := sget in
  let! _ := set_verifying (delete build_id (vs_verifying_info s)) in
  sret (vs_verifying_info s !! build_id).

Definition vs_handle_build_failed {E : Type} (build_id : string) (build_error : BuildError) :
    stm VerificationService E unit :=
  let! removed := take_verifying build_id in
  match removed with
  | Some verification_artifacts =>
      sfor verification_artifacts (fun v => send (vi_sender v) (inr (VerifyBuildError build_error)))
  | None => sret tt
  end.

(** What one artifact is answered with. *)
Definition verdict (build_id : string) (artifacts : list BuildResultArtifact) (v : VerificationInfo) :
    unit + VerificationError :=
  match list_find (fun a => artifact_specific_id a = vi_artifact_specific_id v) artifacts with
  | Some (_, built) =>
      if bool_decide (vi_artifact_hash v = artifact_hash built) then inl tt
      else inr (NonMatchingHash build_id (vi_artifact_specific_id v) (vi_artifact_hash v) (artifact_hash built))
  | None => inr (VArtifactNotFound build_id (vi_artifact_specific_id v))
  end.

Definition vs_handle_build_result {E : Type} (build_id : string) (build_result : BuildResult) :
    stm VerificationService E unit :=
  let! removed := take_verifying build_id in
  match removed with
  | Some verification_artifacts =>
      sfor verification_artifacts (fun v =>
        send (vi_sender v) (verdict build_id (br_artifacts build_result) v))
  | None => sret tt
  end.

(** The service under a sequence of calls; what a call returns is not fed back. *)
Inductive VerificationInput :=
| VTransaction (payload : bytes) (sender : sender) (random : PeerId)
| VFailed (build_id : string) (build_error : BuildError)
| VResult (build_id : string) (build_result : BuildResult).

Definition handle_verification_input (i : VerificationInput) : stm VerificationService VerificationError unit :=
  match i with
  | VTransaction payload sender random =>
      let! _ := scatch (verify_transaction payload sender random) in sret tt
  | VFailed build_id e => vs_handle_build_failed build_id e
  | VResult build_id r => vs_handle_build_result build_id r
  end.

Definition run_verification (inputs : list VerificationInput) : stm VerificationService VerificationError unit :=
  sfor inputs handle_verification_input.

(** ** Lemmas: where the senders are *)
Section Held.
Context `{Countable K}.

Definition map_senders (m : gmap K (list VerificationInfo)) : list sender :=
  (map_to_list m).*2 ≫= fmap vi_sender.

Lemma map_senders_insert m k v :
  m !! k = None -> map_senders (<[k := v]> m) ≡ₚ (vi_sender <$> v) ++ map_senders m.
Proof. intros Hk. unfold map_senders. by rewrite map_to_list_insert. Qed.

Lemma map_senders_delete m k v :
  m !! k = Some v -> map_senders m ≡ₚ (vi_sender <$> v) ++ map_senders (delete k m).
Proof.
  intros Hk. rewrite <- map_senders_insert by apply lookup_delete_eq. by rewrite insert_delete_id.
Qed.

(** What an entry replaces is lost. *)
Lemma map_senders_replace m k v :
  map_senders (<[k := v]> m) ++ (vi_sender <$> default [] (m !! k)) ≡ₚ (vi_sender <$> v) ++ map_senders m.
Proof.
  destruct (m !! k) as [w|] eqn:Hk; simpl.
  - rewrite <- insert_delete_eq, map_senders_insert by apply lookup_delete_eq.
    rewrite (map_senders_delete m k w) by done. rewrite <- app_assoc. apply Permutation_app_head, Permutation_app_comm.
  - by rewrite map_senders_insert, app_nil_r.
Qed.
End Held.

Definition held (s : VerificationService) : list sender :=
  map_senders (vs_pending_info s) ++ map_senders (vs_verifying_info s) ++ (vs_sent s).*1.

Definition verification_senders (i : VerificationInput) : list sender :=
  match i with VTransaction _ s _ => [s] | _ => [] end.

(** Sending to each of a list. *)
Lemma send_all {E : Type} (f : VerificationInfo -> unit + VerificationError) vs s :
  sfor vs (fun v => send (vi_sender v) (f v)) s
  = (@Ok E _ tt, {| vs_build_event_client := vs_build_event_client s; vs_pending_info := vs_pending_info s;
              vs_verifying_info := vs_verifying_info s;
              vs_sent := vs_sent s ++ ((fun v => (vi_sender v, f v)) <$> vs) |}).
Proof.
  revert s. induction vs as [|v vs IH]; intros s; simpl.
  - rewrite app_nil_r. by destruct s.
  - unfold sbind, send, smodify. rewrite IH. simpl. by rewrite <- app_assoc.
Qed.

Lemma finish_held {E : Type} (f : VerificationInfo -> unit + VerificationError) build_id s :
  held (snd (sbind (take_verifying build_id) (fun removed =>
    match removed with
    | Some vs => sfor vs (fun v => send (vi_sender v) (f v))
    | None => sret tt
    end) s : outcome E unit * _)) ≡ₚ held s.
Proof.
  unfold take_verifying. unfold_stm. unfold set_verifying, smodify. simpl.
  destruct (vs_verifying_info s !! build_id) as [vs|] eqn:Hv.
  - rewrite send_all. unfold held; simpl. apply Permutation_app_head. rewrite (map_senders_delete _ _ _ Hv).
    rewrite fmap_app, <- list_fmap_compose.
    change (fst ∘ (fun v => (vi_sender v, f v))) with vi_sender.
    rewrite <- app_assoc. rewrite app_assoc. apply Permutation_app_comm.
  - simpl. unfold held; simpl. by rewrite delete_id.
Qed.

(** A transaction that is not refused puts its information behind that of its package. *)
Definition enqueued (t : PackageType) (l : TransparencyLog) (sender : sender) (s : VerificationService) :
    list VerificationInfo :=
  default [] (vs_pending_info s !! (t, tl_package_specific_id l)) ++ [info_of l sender].

Definition with_pending (m : gmap Package (list VerificationInfo)) (s : VerificationService) :
    VerificationService := {|
  vs_build_event_client := vs_build_event_client s; vs_pending_info := m;
  vs_verifying_info := vs_verifying_info s; vs_sent := vs_sent s |}.

Lemma verify_add_artifact_eq l sender random s :
  verify_add_artifact l sender random s
  = match tl_package_type l with
    | None => (Panic, s)
    | Some t =>
        let package := (t, tl_package_specific_id l) in
        let infos := enqueued t l sender s in
        if (wrap 32 (Z.of_nat (length infos)) =? tl_num_artifacts l)%Z then
          match be_verify_build random t (tl_package_specific_id l) (vs_build_event_client s) with
          | (Ok build_id, c) =>
              (Ok (Some build_id), {| vs_build_event_client := c;
                 vs_pending_info := delete package (vs_pending_info s);
                 vs_verifying_info := <[build_id := infos]> (vs_verifying_info s); vs_sent := vs_sent s |})
          | (Err e, c) =>
              (Err (VerifyBuildError e), {| vs_build_event_client := c;
                 vs_pending_info := delete package (vs_pending_info s);
                 vs_verifying_info := vs_verifying_info s; vs_sent := vs_sent s |})
          | (Panic, c) =>
              (Panic, {| vs_build_event_client := c;
                 vs_pending_info := delete package (vs_pending_info s);
                 vs_verifying_info := vs_verifying_info s; vs_sent := vs_sent s |})
          end
        else (Ok None, with_pending (<[package := infos]> (vs_pending_info s)) s)
    end.
Proof.
  unfold verify_add_artifact, enqueued, set_pending, set_verifying, on_client. unfold_stm.
  destruct (tl_package_type l) as [t|]; simpl; [|done].
  destruct (vs_pending_info s !! (t, tl_package_specific_id l)) as [infos|] eqn:Hp; simpl.
  - destruct (_ =? _)%Z; [|done]. simpl. rewrite lookup_insert_eq, delete_insert_eq.
    by destruct (be_verify_build _ _ _ _) as [[] ?].
  - destruct (match tl_num_artifacts l with Z.pos q => (1 =? q)%positive | _ => false end); [|done].
    simpl. rewrite lookup_insert_eq, delete_insert_eq. by destruct (be_verify_build _ _ _ _) as [[] ?].
Qed.

Lemma enqueued_senders t l sender s :
  (vi_sender <$> enqueued t l sender s) ++ map_senders (delete (t, tl_package_specific_id l) (vs_pending_info s))
  ≡ₚ sender :: map_senders (vs_pending_info s).
Proof.
  unfold enqueued. rewrite fmap_app. simpl.
  destruct (vs_pending_info s !! (t, tl_package_specific_id l)) as [infos|] eqn:Hp; simpl.
  - rewrite (map_senders_delete _ _ _ Hp), <- app_assoc. symmetry. apply Permutation_middle.
  - by rewrite delete_id.
Qed.

(** The senders that an input makes the service forget: a transaction that is refused for its payload loses its own, one
    whose build is refused those of its package, and a build id that is given again those of the earlier build. *)
Definition package_infos (payload : bytes) (s : VerificationService) : list VerificationInfo :=
  match log_from_json payload with
  | Some l =>
      match tl_package_type l with
      | Some t => default [] (vs_pending_info s !! (t, tl_package_specific_id l))
      | None => []
      end
  | None => []
  end.

Definition forgotten_by (i : VerificationInput) (s : VerificationService) : list sender :=
  match i with
  | VTransaction payload sender random =>
      match fst (verify_transaction payload sender random s) with
      | Ok None => []
      | Ok (Some build_id) => vi_sender <$> default [] (vs_verifying_info s !! build_id)
      | Err (VerifyBuildError _) => (vi_sender <$> package_infos payload s) ++ [sender]
      | _ => [sender]
      end
  | VFailed _ _ | VResult _ _ => []
  end.

Fixpoint forgotten (inputs : list VerificationInput) (s : VerificationService) : list sender :=
  match inputs with
  | [] => []
  | i :: rest => forgotten_by i s ++ forgotten rest (snd (handle_verification_input i s))
  end.

Lemma transaction_held payload sender random s :
  fst (verify_transaction payload sender random s) <> Panic ->
  held (snd (verify_transaction payload sender random s)) ++ forgotten_by (VTransaction payload sender random) s
  ≡ₚ sender :: held s.
Proof.
  unfold forgotten_by, package_infos, verify_transaction. unfold_stm.
  destruct (log_from_json payload) as [l|]; simpl; [|intros _; apply Permutation_app_comm].
  destruct (tl_operation l); simpl; try (intros _; apply Permutation_app_comm).
  rewrite verify_add_artifact_eq. destruct (tl_package_type l) as [t|]; [|done].
  pose proof (enqueued_senders t l sender s) as Hs. unfold held; cbv zeta.
  rewrite (app_comm_cons _ _ sender), <- Hs. destruct (_ =? _)%Z; simpl.
  - destruct (be_verify_build _ _ _ _) as [[build_id|e|] c]; simpl; intros Hnp; [| |done].
    + rewrite (Permutation_app_comm (map_senders (<[_ := _]> _))), <- !app_assoc.
      rewrite map_senders_replace. solve_Permutation.
    + unfold enqueued. rewrite fmap_app. simpl. solve_Permutation.
  - intros _. rewrite app_nil_r. rewrite <- insert_delete_eq, map_senders_insert by apply lookup_delete_eq. done.
Qed.

Lemma verification_linear inputs s s' :
  run_verification inputs s = (Ok tt, s') ->
  held s' ++ forgotten inputs s ≡ₚ concat (verification_senders <$> inputs) ++ held s.
Proof.
  revert s. induction inputs as [|i inputs IH]; intros s; csimpl; [intros [= ->]; by rewrite app_nil_r|].
  unfold run_verification; simpl. unfold sbind. intros Hrun.
  assert (fst (handle_verification_input i s) <> Panic ->
    held (snd (handle_verification_input i s)) ++ forgotten_by i s ≡ₚ verification_senders i ++ held s) as Hi.
  { destruct i as [payload sender random|b e|b r];
      [|intros _; cbn [forgotten_by verification_senders]; rewrite app_nil_r; apply finish_held..].
    pose proof (transaction_held payload sender random s) as Ht. cbn [handle_verification_input]. unfold_stm.
    destruct (verify_transaction payload sender random s) as [[] ?]; simpl; intros; by apply Ht. }
  destruct (handle_verification_input i s) as [[[]| |] s1]; simpl in Hi |- *; [|done..].
  apply IH in Hrun. rewrite app_assoc, (Permutation_app_comm (held s')), <- app_assoc, Hrun.
  rewrite (Permutation_app_comm (forgotten_by i s)), <- app_assoc, Hi by done. solve_Permutation.
Qed.

(** ** Properties *)

(** C30. Every sender of a transaction is accounted for: after any sequence of transactions, build failures and build
    results that does not panic, the senders of the transactions are, each as often as it was given, those that wait for their
    package to be complete or for a build, those that were answered, and those that were forgotten; and only a
    refused payload, a refused build or a build id that is given again makes the service forget senders.  So
    distinct senders are answered at most once, and where nothing is refused all of them wait or were answered. *)
Theorem verifications_accounted client inputs s' :
  run_verification inputs (VerificationService_new client) = (Ok tt, s') ->
  concat (verification_senders <$> inputs) ≡ₚ held s' ++ forgotten inputs (VerificationService_new client)
  /\ (NoDup (concat (verification_senders <$> inputs)) -> NoDup (held s')).
Proof.
  intros Hrun%verification_linear. unfold held at 2 in Hrun; simpl in Hrun. unfold map_senders in Hrun.
  rewrite !map_to_list_empty in Hrun. simpl in Hrun. rewrite app_nil_r in Hrun.
  split; [done|]. rewrite <- Hrun. intros Hnd. apply NoDup_app in Hnd. apply Hnd.
Qed.

(** C28. A finished verification build answers each artifact that waits for it, in order and
    with its own verdict: success exactly when the build made an artifact of that id
    whose hash is the one of the transaction; the build is then forgotten, so that a second
    result or failure of it answers nobody. *)
Theorem build_verdicts {E : Type} build_id result s infos :
  vs_verifying_info s !! build_id = Some infos ->
  exists s', @vs_handle_build_result E build_id result s = (Ok tt, s')
    /\ vs_sent s' = vs_sent s ++ ((fun v => (vi_sender v, verdict build_id (br_artifacts result) v)) <$> infos)
    /\ vs_pending_info s' = vs_pending_info s
    /\ (forall v, verdict build_id (br_artifacts result) v = inl tt <->
          exists i a, br_artifacts result !! i = Some a
            /\ artifact_specific_id a = vi_artifact_specific_id v /\ artifact_hash a = vi_artifact_hash v
            /\ forall j b, j < i -> br_artifacts result !! j = Some b ->
                 artifact_specific_id b <> vi_artifact_specific_id v)
    /\ (forall result', @vs_handle_build_result E build_id result' s' = (Ok tt, s'))
    /\ (forall e, @vs_handle_build_failed E build_id e s' = (Ok tt, s')).
Proof.
  intros Hv. unfold vs_handle_build_result, vs_handle_build_failed, take_verifying, set_verifying.
  unfold_stm. simpl. rewrite Hv, send_all. eexists. split; [done|]. simpl. split; [done|]. split; [done|].
  split; [|by rewrite lookup_delete_eq, delete_delete_eq].
  intros v. unfold verdict.
  destruct (list_find _ (br_artifacts result)) as [[i a]|] eqn:Hf.
  - apply list_find_Some in Hf as (Ha & Hid & Hfirst).
    case_bool_decide as Hh.
    { split; [intros _|done]. exists i, a. repeat split; [done|done|done|].
      intros j b Hj Hb. by apply (Hfirst j b). }
    split; [done|]. intros (i' & a' & Ha' & Hid' & Hh' & Hfirst'). exfalso.
    assert (i' = i) as ->.
    { destruct (lt_eq_lt_dec i' i) as [[Hlt|]|Hlt]; [|done|].
      - by destruct (Hfirst i' a').
      - by destruct (Hfirst' i a). }
    by simplify_eq.
  - apply list_find_None in Hf. split; [done|]. intros (i & a & Ha & Hid & _).
    rewrite Forall_lookup in Hf. by destruct (Hf i a).
Qed.

(** *** Transactions of one package *)

(** A payload with its sender and the peer id drawn for it. *)
Abbreviation transaction := (bytes * sender * PeerId)%type.

(** The calls of [verify_transaction] for the transactions of a block, in order. *)
Fixpoint verify_transactions (txs : list transaction) :
    stm VerificationService VerificationError (list (option string)) :=
  match txs with
  | [] => sret []
  | (payload, sender, random) :: rest =>
      let! r := verify_transaction payload sender random in
      let! rs := verify_transactions rest in
      sret (r :: rs)
  end.

(** The payload encodes the addition of an artifact to a package of [n] artifacts. *)
Definition adds_to (t : PackageType) (p : string) (n : nat) (tx : transaction) (l : TransparencyLog) : Prop :=
  log_from_json (fst (fst tx)) = Some l /\ tl_operation l = AddArtifact
  /\ tl_package_type l = Some t /\ tl_package_specific_id l = p /\ tl_num_artifacts l = Z.of_nat n.

Lemma verify_one t p n tx l s :
  adds_to t p n tx l ->
  verify_transaction (fst (fst tx)) (snd (fst tx)) (snd tx) s
  = verify_add_artifact l (snd (fst tx)) (snd tx) s.
Proof. intros (Hj & Ho & _). unfold verify_transaction. unfold_stm. rewrite Hj; simpl. by rewrite Ho. Qed.

(** The transactions before the last one wait. *)
Lemma pending_collects t p n txs logs s :
  Forall2 (adds_to t p n) txs logs ->
  let old := default [] (vs_pending_info s !! (t, p)) in
  length old + length txs < n -> (Z.of_nat n < 2 ^ 32)%Z ->
  exists s', verify_transactions txs s = (Ok (replicate (length txs) None), s')
    /\ default [] (vs_pending_info s' !! (t, p)) = old ++ zip_with info_of logs (snd ∘ fst <$> txs)
    /\ delete (t, p) (vs_pending_info s') = delete (t, p) (vs_pending_info s)
    /\ vs_build_event_client s' = vs_build_event_client s
    /\ vs_verifying_info s' = vs_verifying_info s /\ vs_sent s' = vs_sent s.
Proof.
  intros Hall. revert s. induction Hall as [|[[payload sender] random] l txs logs Htx Hall IH];
    intros s old Hlen Hn; csimpl.
  - exists s. by rewrite app_nil_r.
  - pose proof (verify_one t p n _ l s Htx) as Hone. destruct Htx as (_ & _ & Ht & Hp & Hnum). simpl in Hone.
    unfold sbind. rewrite Hone, verify_add_artifact_eq, Ht, Hp, Hnum. cbv zeta. simpl in Hlen.
    assert (enqueued t l sender s = old ++ [info_of l sender]) as -> by (unfold enqueued; by rewrite Hp).
    rewrite wrap_small by (unfold fits; rewrite length_app; simpl; lia).
    rewrite (proj2 (Z.eqb_neq _ _)) by (rewrite length_app; simpl; lia).
    destruct (IH (with_pending (<[(t, p) := old ++ [info_of l sender]]> (vs_pending_info s)) s))
      as (s' & -> & Hpend & Hdel & Hrest).
    + simpl. rewrite lookup_insert_eq. simpl. rewrite length_app. simpl. lia.
    + done.
    + exists s'. split; [done|]. rewrite Hpend, Hdel. simpl.
      rewrite lookup_insert_eq, delete_insert_eq. simpl. by rewrite <- app_assoc.
Qed.

Lemma verify_transactions_app txs txs' s :
  verify_transactions (txs ++ txs') s
  = (let! rs := verify_transactions txs in
     let! rs' := verify_transactions txs' in sret (rs ++ rs')) s.
Proof.
  revert s. induction txs as [|[[payload sender] random] txs IH]; intros s; simpl.
  - unfold sbind, sret. by destruct (verify_transactions txs' s) as [[] ?].
  - unfold sbind in *. destruct (verify_transaction payload sender random s) as [[] s1]; [|done..].
    rewrite IH. destruct (verify_transactions txs s1) as [[] s2]; [|done..]. simpl.
    by destruct (verify_transactions txs' s2) as [[] ?].
Qed.

(** C17. A package is built once for all its artifacts: of the [n] transactions that add the
    [n] artifacts of a package, the first [n - 1] only wait, and the last one asks for exactly one
    build and registers all [n] artifacts under its id.  If that build cannot be
    started, the transaction fails and the service has forgotten all [n] senders. *)
Theorem package_verified_once t p n txs last logs log s :
  Forall2 (adds_to t p n) (txs ++ [last]) (logs ++ [log]) ->
  n = S (length txs) -> (Z.of_nat n < 2 ^ 32)%Z -> vs_pending_info s !! (t, p) = None ->
  let infos := zip_with info_of (logs ++ [log]) (snd ∘ fst <$> txs ++ [last]) in
  let '(r, c) := be_verify_build (snd last) t p (vs_build_event_client s) in
  verify_transactions (txs ++ [last]) s
  = match r with
    | Ok build_id =>
        (Ok (replicate (length txs) None ++ [Some build_id]),
         {| vs_build_event_client := c; vs_pending_info := vs_pending_info s;
            vs_verifying_info := <[build_id := infos]> (vs_verifying_info s); vs_sent := vs_sent s |})
    | Err e =>
        (Err (VerifyBuildError e),
         {| vs_build_event_client := c; vs_pending_info := vs_pending_info s;
            vs_verifying_info := vs_verifying_info s; vs_sent := vs_sent s |})
    | Panic =>
        (Panic,
         {| vs_build_event_client := c; vs_pending_info := vs_pending_info s;
            vs_verifying_info := vs_verifying_info s; vs_sent := vs_sent s |})
    end.
Proof.
  intros Hall Hlen Hn Hnone.
  apply Forall2_app_inv in Hall as [Hinit Hlast];
    [|apply Forall2_length in Hall; rewrite !length_app in Hall; simpl in Hall; lia].
  apply Forall2_cons_1 in Hlast as [Hlast _].
  destruct (pending_collects t p n txs logs s Hinit) as (s1 & Hrun & Hpend & Hdel & Hc & Hver & Hsent);
    [rewrite Hnone; simpl; lia|done|].
  rewrite Hnone in Hpend. simpl in Hpend.
  pose proof (verify_one t p n last log s1 Hlast) as Hone. destruct Hlast as (_ & _ & Ht & Hp & Hnum).
  pose proof (Forall2_length _ _ _ Hinit) as Hl.
  assert (enqueued t log (snd (fst last)) s1
    = zip_with info_of (logs ++ [log]) (snd ∘ fst <$> txs ++ [last])) as Henq.
  { unfold enqueued. rewrite Hp, Hpend, fmap_app, zip_with_app by (rewrite length_fmap; lia). done. }
  cbv zeta. rewrite <- Henq. destruct (be_verify_build _ _ _ _) as [r c] eqn:Hb.
  rewrite verify_transactions_app. destruct last as [[payload sender] random]. simpl in *.
  unfold sbind. rewrite Hrun, Hone, verify_add_artifact_eq, Ht, Hp, Hnum. cbv zeta.
  rewrite Henq, wrap_small; rewrite length_zip_with, length_app, length_fmap, length_app; simpl;
    [|unfold fits; lia].
  rewrite (proj2 (Z.eqb_eq _ _)) by lia. rewrite Hc, Hb, Hver, Hsent, Hdel.
  rewrite delete_id by done. by destruct r.
Qed.
End Verification.

(** ** A concrete service *)
Definition sample_verifier : VerificationService (C := unit) := VerificationService_new tt.

Definition sample_payload (artifact : string) (n : Z) : bytes :=
  as_bytes (default "" (log_to_json {|
    tl_id := artifact; tl_package_type := Some Maven2; tl_package_specific_id := "g:a:1";
    tl_num_artifacts := n; tl_package_specific_artifact_id := artifact; tl_artifact_hash := "h";
    tl_source_hash := ""; tl_artifact_id := "x"; tl_source_id := ""; tl_timestamp := 1;
    tl_operation := AddArtifact; tl_node_id := ""; tl_node_public_key := "" |})).

Definition sample_transaction (artifact : string) (s : sender) : (bytes * sender * PeerId)%type :=
  (sample_payload artifact 2, s, sample_authorized).

(** Two transactions of a package wait for its build, which fails; a third one cannot be read. *)
Definition sample_verification : list VerificationInput :=
  [VTransaction (sample_payload "a" 2) 1 sample_authorized;
   VTransaction [] 3 sample_authorized;
   VTransaction (sample_payload "b" 2) 2 sample_authorized;
   VFailed "b1" InvalidPipelineResponse].

Lemma verifications_accounted_witness :
  exists s', run_verification sample_verification sample_verifier = (Ok tt, s')
    /\ held s' = [1; 2] /\ forgotten sample_verification sample_verifier = [3]
    /\ [1; 3; 2] ≡ₚ held s' ++ forgotten sample_verification sample_verifier.
Proof.
  eexists. split; [vm_compute; reflexivity|]. split; [vm_compute; reflexivity|]. split; [vm_compute; reflexivity|].
  apply (verifications_accounted tt sample_verification). vm_compute. reflexivity.
Defined.

Definition sample_info : VerificationInfo := {|
  vi_sender := 7; vi_artifact_specific_id := "a"; vi_artifact_hash := "h" |}.
Definition sample_verifying : VerificationService (C := unit) := {|
  vs_build_event_client := tt; vs_pending_info := ∅; vs_verifying_info := {[ "b1" := [sample_info] ]};
  vs_sent := [] |}.

Lemma build_verdicts_witness :
  exists s', vs_handle_build_result (E := unit) "b1"
      {| br_package_type := Maven2; br_package_specific_id := "g:a:1";
         br_artifacts := [{| artifact_specific_id := "a"; artifact_location := ""; artifact_hash := "h" |}] |}
      sample_verifying = (Ok tt, s')
    /\ vs_sent s' = [(7, inl tt)].
Proof.
  destruct (build_verdicts (E := unit) "b1"
    {| br_package_type := Maven2; br_package_specific_id := "g:a:1";
       br_artifacts := [{| artifact_specific_id := "a"; artifact_location := ""; artifact_hash := "h" |}] |}
    sample_verifying [sample_info]) as (s' & Hr & Hs & _).
  - apply lookup_singleton_eq.
  - exists s'. split; [exact Hr|]. exact Hs.
Defined.

Lemma package_verified_once_witness :
  fst (verify_transactions [sample_transaction "a" 1; sample_transaction "b" 2] sample_verifier)
  = Ok [None; Some "b1"].
Proof.
  assert (Forall2 (adds_to Maven2 "g:a:1" 2) [sample_transaction "a" 1; sample_transaction "b" 2]
    [default (sample_log "" 0 AddArtifact 0) (log_from_json (sample_payload "a" 2));
     default (sample_log "" 0 AddArtifact 0) (log_from_json (sample_payload "b" 2))]) as Hall.
  { repeat constructor; vm_compute; reflexivity. }
  assert (Z.of_nat 2 < 2 ^ 32)%Z as Hn by lia.
  exact (f_equal fst (package_verified_once Maven2 "g:a:1" 2 [sample_transaction "a" 1]
    (sample_transaction "b" 2) [_] _ sample_verifier Hall eq_refl Hn (lookup_empty _))).
Defined.
