(* ===== verification/BuildEvents.v ===== *)
(** * BuildEvents: the build event loop

    Models src/build_service/event.rs: the client that sends build events and awaits their
    answers, and the loop that hands them to the build, artifact and verification
    services.  The services of a node work on one disk, one transparency log and one network
    client, so what one service changes of them the other sees. *)

From S2P Require Import Prelude Crypto Structures Sample FileSystem Sql SqlSample Model Text TransparencyLog EventLoop Client Build Artifact Verification.

(** ** The client *)
Inductive BuildAnswer `{Crypto} :=
| AnsStart (r : string + BuildError)
| AnsStatus (r : BuildStatus + BuildError).

Section BuildEventClient.
Context `{Crypto}.

(** An event with a fresh oneshot sender and its answer; an error when the loop is gone or
    drops the sender.  A failure to send is only logged and shows in the answer. *)
Class BuildEventChannel (Q : Type) := {
  bev_ask : (sender -> BuildEvent) -> stm Q unit BuildAnswer;
}.

Context {Q : Type} `{!BuildEventChannel Q}.

(** [receiver.await.map_err(..)?] at the two types of answers. *)
Definition await_start (r : BuildAnswer) : outcome BuildError string :=
  match r with AnsStart (inl id) => Ok id | AnsStart (inr e) => Err e | AnsStatus _ => Panic end.
Definition await_status (r : BuildAnswer) : outcome BuildError BuildStatus :=
  match r with AnsStatus (inl s) => Ok s | AnsStatus (inr e) => Err e | AnsStart _ => Panic end.

Definition client_start_build (t : PackageType) (p : string) : stm Q BuildError string :=
  let! r := smap_err (fun _ => InitializationFailed (NetMsg RecvError))
              (bev_ask (fun s => EvStart t p s FromSource)) in
  slift (await_start r).

Definition client_verify_build (requestor : PeerId) (t : PackageType) (p : string) : stm Q BuildError string :=
  let! r := smap_err (fun _ => InitializationFailed (NetMsg RecvError))
              (bev_ask (fun s => EvStart t p s (Verification requestor))) in
  slift (await_start r).

Definition client_get_build_status (build_id : string) : stm Q BuildError BuildStatus :=
  let! r := smap_err (fun _ => BuildStatusFailed (NetMsg RecvError)) (bev_ask (EvStatus build_id)) in
  slift (await_status r).

(** The client is what the artifact and the verification services use. *)
#[export] Instance build_event_client : BuildClient Q := {|
  be_start_build := client_start_build;
  be_verify_build := client_verify_build;
  be_get_build_status := client_get_build_status |}.
End BuildEventClient.

(** ** The loop *)
Section BuildEvents.
Context `{Libp2p} `{Sqlite} `{!LogJson} `{!BuildJson} `{!Sha256}.
Context {N : Type} `{!Http N} {B : Type} `{!BlockAdder B} {W : Type} `{!CommandChannel W}.
Context {C : Type} `{!BuildClient C}.

Abbreviation Artifacts := (ArtifactService (B := B) (W := W) (C := C)).
Abbreviation Builds := (BuildService (N := N) (B := B) (W := W)).
Abbreviation Verifications := (VerificationService (C := C)).

Record BuildEventLoop := {
  bl_artifact_service : Artifacts;
  bl_build_service : Builds;
  bl_verification_service : Verifications;
  bl_answers : list (sender * BuildAnswer);
}.

(** The disk, the log and the network client of the node, given to a service. *)
Definition share_artifact (d : Fs) (l : TransparencyLogService B) (w : W) (a : Artifacts) :
    Artifacts := {|
  as_storage := as_storage a; as_disk := d; as_build_event_client := as_build_event_client a;
  as_transparency_log := l; as_p2p_client := w; as_local_peer_id := as_local_peer_id a;
  as_spawned := as_spawned a |}.
Definition share_build (d : Fs) (l : TransparencyLogService B) (w : W) (b : Builds) :
    Builds := {|
  bs_repository_path := bs_repository_path b; bs_disk := d; bs_p2p_client := w;
  bs_transparency_log := l; bs_mapping := bs_mapping b; bs_pipeline := bs_pipeline b;
  bs_http := bs_http b; bs_events := bs_events b; bs_polls := bs_polls b |}.

Definition on_build {E A} (c : stm Builds E A) : stm BuildEventLoop E A :=
  szoom bl_build_service (fun b s => {|
    bl_artifact_service := share_artifact (bs_disk b) (bs_transparency_log b) (bs_p2p_client b)
                             (bl_artifact_service s);
    bl_build_service := b;
    bl_verification_service := bl_verification_service s; bl_answers := bl_answers s |}) c.
Definition on_artifact {E A} (c : stm Artifacts E A) : stm BuildEventLoop E A :=
  szoom bl_artifact_service (fun a s => {|
    bl_artifact_service := a;
    bl_build_service := share_build (as_disk a) (as_transparency_log a) (as_p2p_client a)
                          (bl_build_service s);
    bl_verification_service := bl_verification_service s; bl_answers := bl_answers s |}) c.
Definition on_verification {E A} (c : stm Verifications E A) : stm BuildEventLoop E A :=
  szoom bl_verification_service (fun v s => {|
    bl_artifact_service := bl_artifact_service s; bl_build_service := bl_build_service s;
    bl_verification_service := v; bl_answers := bl_answers s |}) c.
(** [sender.send(result).unwrap_or_else(..)]. *)
Definition reply {E} (s : sender) (r : BuildAnswer) : stm BuildEventLoop E unit :=
  smodify (fun l => {|
    bl_artifact_service := bl_artifact_service l; bl_build_service := bl_build_service l;
    bl_verification_service := bl_verification_service l; bl_answers := bl_answers l ++ [(s, r)] |}).

(** [handle_build_event]; the draws are those of the records a published build makes. *)
Definition handle_build_event {E} (e : BuildEvent) (draws : list tl_draw) : stm BuildEventLoop E unit :=
  match e with
  | EvStart t p sender trigger =>
      let! result := scatch (on_build (build_start_build t p trigger)) in
      reply sender (AnsStart result)
  | EvFailed build_id build_error => on_verification (vs_handle_build_failed build_id build_error)
  | EvStatus build_id sender =>
      let! result := scatch (on_build (build_get_build_status build_id)) in
      reply sender (AnsStatus match result with inl info => inl (info_status info) | inr e => inr e end)
  | EvSucceeded build_id t p trigger artifact_urls =>
      on_build (handle_successful_build build_id t p trigger artifact_urls)
  | EvResult build_id trigger build_result =>
      let! _ :=
        match trigger with
        | FromSource =>
            let! _ := scatch (on_artifact (artifact_handle_build_result build_result draws)) in sret tt
        | Verification _ => on_verification (vs_handle_build_result build_id build_result)
        end in
      on_build (clean_up_build build_id)
  end.

(** [run]: the events in the order of the channel. *)
Definition run_build_events {E} (events : list (BuildEvent * list tl_draw)) : stm BuildEventLoop E unit :=
  sfor events (fun ev => handle_build_event (fst ev) (snd ev)).

(** ** Invariant: the services share what is the node's *)
Definition shared (l : BuildEventLoop) : Prop :=
  as_disk (bl_artifact_service l) = bs_disk (bl_build_service l)
  /\ as_transparency_log (bl_artifact_service l) = bs_transparency_log (bl_build_service l)
  /\ as_p2p_client (bl_artifact_service l) = bs_p2p_client (bl_build_service l).

Definition event_senders (e : BuildEvent) : list sender :=
  match e with EvStart _ _ s _ | EvStatus _ s => [s] | _ => [] end.

(** What one event does to the answers and to the invariant. *)
Lemma handle_build_event_frame {E} e draws l l' :
  @handle_build_event E e draws l = (Ok tt, l') ->
  (bl_answers l').*1 = (bl_answers l).*1 ++ event_senders e /\ (shared l -> shared l').
Proof.
  destruct e; simpl; unfold reply, on_build, on_artifact, on_verification; unfold_stm; simpl; intros Hh.
  - destruct (vs_handle_build_failed _ _ _) as [o v]; simplify_eq/=. by rewrite app_nil_r.
  - destruct (build_get_build_status _ _) as [[] b]; simplify_eq/=; by rewrite fmap_app.
  - destruct (build_start_build _ _ _ _) as [[] b]; simplify_eq/=; by rewrite fmap_app.
  - destruct (handle_successful_build _ _ _ _ _ _) as [o b]; simplify_eq/=. by rewrite app_nil_r.
  - destruct trigger; simpl in Hh.
    + destruct (artifact_handle_build_result _ _ _) as [[] a]; simplify_eq/=;
        destruct (clean_up_build _ _) as [o b]; simplify_eq/=; by rewrite app_nil_r.
    + destruct (vs_handle_build_result _ _ _) as [[] v]; simplify_eq/=;
        destruct (clean_up_build _ _) as [o b]; simplify_eq/=; by rewrite app_nil_r.
Qed.

(** ** Properties *)

(** The build event loop answers every request once and in order: after any sequence of
    events the senders answered are those of the start and status events, each once, in
    the order of the events, and the services still share one disk, one log and one
    network client. *)
Theorem build_requests_answered {E} events l l' :
  @run_build_events E events l = (Ok tt, l') -> shared l ->
  (bl_answers l').*1 = (bl_answers l).*1 ++ concat ((fun ev => event_senders (fst ev)) <$> events)
  /\ shared l'.
Proof.
  revert l. induction events as [|[e draws] events IH]; intros l Hr Hs; csimpl.
  - unfold run_build_events, sfor, sret in Hr. simplify_eq. by rewrite app_nil_r.
  - unfold run_build_events in Hr; simpl in Hr. apply sbind_Ok in Hr as ([] & l1 & He & Hr).
    apply handle_build_event_frame in He as [Ha Hsh].
    destruct (IH l1 Hr (Hsh Hs)) as [Ha' Hs']. by rewrite Ha', Ha, <- app_assoc.
Qed.

Context `{!SqliteOk} `{!Sha256Ok} `{!HttpOk N}.

(** Handling a published result: the records are in the log and the copies of the files
    survive the cleaning of the build's directory. *)
Lemma publish_result_spec {E} build_id result draws l l' logs :
  holds (as_transparency_log (bl_artifact_service l)) logs ->
  Forall (fun d => (0 <= dr_secs d < 2 ^ 63)%Z) draws -> length draws = length (br_artifacts result) ->
  fst (artifact_handle_build_result result draws (bl_artifact_service l)) = Ok tt ->
  @handle_build_event E (EvResult build_id FromSource result) draws l = (Ok tt, l') ->
  let before := bl_artifact_service l in
  let after := bl_artifact_service l' in
  holds (as_transparency_log after) (logs ++ zip_with (published_log result) (br_artifacts result) draws)
  /\ as_storage after = as_storage before /\ fs_fault (as_disk after) = fs_fault (as_disk before)
  /\ forall i a d content,
       br_artifacts result !! i = Some a -> draws !! i = Some d ->
       fs_nodes (as_disk before) !! artifact_location a = Some (NFile content) ->
       let file := artifact_file_path (as_storage before) (dr_artifact_id d) in
       below_dir (get_build_path (bl_build_service l) build_id) file = false ->
       fs_nodes (as_disk after) !! file = Some (NFile content).
Proof.
  intros Hh Hd Hlen Hok Hres.
  destruct (artifact_handle_build_result result draws (bl_artifact_service l)) as [o a1] eqn:Hpub.
  simpl in Hok. subst o.
  destruct (handle_build_result_spec result draws (bl_artifact_service l) logs a1 Hh Hd Hlen Hpub)
    as (Hh' & Hcopied & ps & _ & _ & [Hgrow Hfault] & Hst).
  simpl in Hres. unfold on_artifact, on_build, scatch, szoom, sbind, sret in Hres.
  rewrite Hpub in Hres. simpl in Hres.
  match type of Hres with context [clean_up_build build_id ?b] =>
    destruct (clean_up_keeps (E := E) build_id b) as (b2 & Hcl & Hb2 & Hfault2 & Hkeep) end.
  rewrite Hcl in Hres. injection Hres as <-. cbv zeta. simpl in *.
  split; [by rewrite Hb2|]. split; [done|]. split; [congruence|].
  intros i a d content Ha Hdi Hloc Hout. rewrite Hkeep by done.
  destruct (Forall2_lookup_lr _ _ _ _ _ _ Hcopied Ha Hdi) as (content' & Hloc' & Hfile).
  rewrite (lookup_weaken _ _ _ _ Hloc Hgrow) in Hloc'. congruence.
Qed.

(** C3. From a finished build to a served artifact: when a build from source has finished
    and its result is published, each of its artifacts is then served by the artifact
    service from the local storage, with a content that has the logged hash, although the
    files of the build have been removed. *)
Theorem built_artifact_served {E} build_id t p urls s s1 result draws s2 logs i a d :
  fs_reliable (bs_disk (bl_build_service s)) ->
  (forall c, fs_nodes (bs_disk (bl_build_service s)) !! get_build_path (bl_build_service s) build_id
             <> Some (NFile c)) ->
  holds (bs_transparency_log (bl_build_service s)) logs ->
  below_dir (get_build_path (bl_build_service s) build_id)
    (artifact_file_path (as_storage (bl_artifact_service s)) (dr_artifact_id d)) = false ->
  @handle_build_event E (EvSucceeded build_id t p FromSource urls) [] s = (Ok tt, s1) ->
  bs_events (bl_build_service s1) = bs_events (bl_build_service s) ++ [EvResult build_id FromSource result] ->
  Forall (fun d => (0 <= dr_secs d < 2 ^ 63)%Z) draws -> length draws = length (br_artifacts result) ->
  fst (artifact_handle_build_result result draws (bl_artifact_service s1)) = Ok tt ->
  @handle_build_event E (EvResult build_id FromSource result) draws s1 = (Ok tt, s2) ->
  br_artifacts result !! i = Some a -> draws !! i = Some d ->
  quotable (artifact_specific_id a) = true ->
  (forall l, l ∈ logs ++ zip_with (published_log result) (br_artifacts result) draws ->
     artifact_record t (artifact_specific_id a) l -> l = published_log result a d) ->
  exists content s3, service_get_artifact t (artifact_specific_id a) (bl_artifact_service s2) = (Ok content, s3)
    /\ sha256_hex content = artifact_hash a
    /\ as_p2p_client s3 = as_p2p_client (bl_artifact_service s2).
Proof.
  intros Hrel Hnf Hh Hout Hsucc Hev Hd Hlen Hok Hres Ha Hdi Hq Huniq.
  simpl in Hsucc. unfold on_build, szoom in Hsucc.
  destruct (handle_successful_build_spec (E := E) build_id t p FromSource urls (bl_build_service s) Hrel Hnf)
    as (e & b1 & Hb1 & He1 & Hcase).
  rewrite Hb1 in Hsucc. injection Hsucc as <-. simpl in *.
  rewrite He1 in Hev. apply app_inj_tail in Hev as [_ ->].
  destruct Hcase as [(r & Hr & Ht & Hp & Hstored & Hrel1 & Hrp & Htl)|(err & Herr & _)]; [|done].
  injection Hr as <-.
  match type of Hres with _ _ ?l = _ =>
    destruct (publish_result_spec (E := E) build_id result draws l s2 logs)
      as (Hh' & Hst & Hfault & Hfiles) end; simpl in *; [by rewrite Htl|done..|].
  destruct (proj1 (Forall_lookup _ _) Hstored i a Ha) as (content & Hloc & Hhash).
  assert (published_log result a d ∈ zip_with (published_log result) (br_artifacts result) draws) as Hin.
  { apply list_elem_of_lookup. exists i. by rewrite lookup_zip_with, Ha; simpl; rewrite Hdi. }
  destruct (stored_artifact_served t (artifact_specific_id a) (bl_artifact_service s2)
    (logs ++ zip_with (published_log result) (br_artifacts result) draws)
    (published_log result a d) content) as (s3 & Hs3 & Hnet).
  - done.
  - done.
  - apply elem_of_app. by right.
  - repeat split. simpl. by rewrite Ht.
  - done.
  - done.
  - intros op q. rewrite Hfault. apply Hrel1.
  - rewrite Hst. apply (Hfiles i a); [done..|]. unfold get_build_path in *. by rewrite Hrp.
  - done.
  - by exists content, s3.
Qed.
End BuildEvents.

(** ** A concrete loop *)
Definition sample_builder : BuildService (N := list HttpResponse) (B := list bytes) (W := list string) := {|
  bs_repository_path := "repo"; bs_disk := sample_fs; bs_p2p_client := [];
  bs_transparency_log := sample_service [data_log];
  bs_mapping := {| mapping_service_endpoint := "m" |};
  bs_pipeline := {| pipeline_service_endpoint := "p" |};
  bs_http := [{| http_status := 200; http_body := as_bytes "data" |}]; bs_events := []; bs_polls := [] |}.

Definition sample_loop : BuildEventLoop (N := list HttpResponse) (B := list bytes) (W := list string) (C := unit) := {|
  bl_artifact_service := {|
    as_storage := sample_storage; as_disk := sample_fs; as_build_event_client := tt;
    as_transparency_log := sample_service [data_log]; as_p2p_client := [];
    as_local_peer_id := sample_authorized; as_spawned := [] |};
  bl_build_service := sample_builder;
  bl_verification_service := VerificationService_new tt; bl_answers := [] |}.

Definition sample_build_events : list (BuildEvent * list tl_draw) :=
  [(EvStatus "b1" 5, []); (EvFailed "b1" InvalidPipelineResponse, []); (EvStatus "b2" 6, [])].

Lemma build_requests_answered_witness :
  (bl_answers (snd (run_build_events (E := unit) sample_build_events sample_loop))).*1 = [5; 6].
Proof.
  assert (fst (run_build_events (E := unit) sample_build_events sample_loop) = Ok tt) as Ho
    by (vm_compute; reflexivity).
  destruct (run_build_events (E := unit) sample_build_events sample_loop) as [o l'] eqn:Hr.
  simpl in Ho. subst o.
  destruct (build_requests_answered sample_build_events sample_loop l' Hr) as [Ha _].
  - by repeat split.
  - exact Ha.
Defined.

Definition served_artifact : BuildResultArtifact := {|
  artifact_specific_id := "g/b/1/b.jar"; artifact_location := "repo/builds/b7/5data";
  artifact_hash := "5data" |}.
Definition served_result : BuildResult := {|
  br_package_type := Maven2; br_package_specific_id := "g:b:1"; br_artifacts := [served_artifact] |}.

Lemma built_artifact_served_witness :
  let s1 := snd (handle_build_event (E := unit) (EvSucceeded "b7" Maven2 "g:b:1" FromSource ["/x/b.jar"]) []
                   sample_loop) in
  let s2 := snd (handle_build_event (E := unit) (EvResult "b7" FromSource served_result)
                   [sample_artifact_draw] s1) in
  exists content s3, service_get_artifact Maven2 "g/b/1/b.jar" (bl_artifact_service s2) = (Ok content, s3)
    /\ sha256_hex content = "5data".
Proof.
  intros s1 s2.
  destruct (built_artifact_served (E := unit) "b7" Maven2 "g:b:1" ["/x/b.jar"] sample_loop s1 served_result
    [sample_artifact_draw] s2 [data_log] 0 served_artifact sample_artifact_draw)
    as (content & s3 & Hs & Hh & _).
  - done.
  - intros c. simpl. rewrite lookup_empty. done.
  - apply data_holds.
  - vm_compute. reflexivity.
  - assert (fst (handle_build_event (E := unit) (EvSucceeded "b7" Maven2 "g:b:1" FromSource ["/x/b.jar"]) []
      sample_loop) = Ok tt) as Ho by (vm_compute; reflexivity).
    unfold s1. destruct (handle_build_event _ _ sample_loop). simpl in *. congruence.
  - vm_compute. reflexivity.
  - repeat constructor; simpl; lia.
  - reflexivity.
  - vm_compute. reflexivity.
  - assert (fst (handle_build_event (E := unit) (EvResult "b7" FromSource served_result)
      [sample_artifact_draw] s1) = Ok tt) as Ho by (vm_compute; reflexivity).
    unfold s2. destruct (handle_build_event _ _ s1). simpl in *. congruence.
  - reflexivity.
  - reflexivity.
  - reflexivity.
  - intros l Hl Hr. simpl in Hl. apply elem_of_cons in Hl as [->|Hl].
    + destruct Hr as (_ & Hid & _). discriminate Hid.
    + by apply list_elem_of_singleton in Hl.
  - exists content, s3. split; [exact Hs|exact Hh].
Defined.
