(* ===== verification/Api.v ===== *)
(** * Api: what a node answers over HTTP

    Models the handlers of src/docker/v2/handlers, src/java/maven2/handlers and
    src/node_api/handlers/swarm.rs with the requests of src/node_api/model, the errors of
    src/docker/error_util.rs and the routes of the three interfaces.  serde_json and csv
    are the class [ApiJson].  The text of an error in an answer is kept as that error. *)

From S2P Require Import Prelude Crypto Structures Sample FileSystem Sql SqlSample Model Text TransparencyLog EventLoop Client Build Registry Artifact.

(** ** docker/error_util.rs *)
Inductive cause `{Crypto} :=
| CauseText (text : string)
| CauseBuild (e : BuildError)
| CauseLog (e : TransparencyLogError)
| CauseArtifact (e : artifact_error)
| CauseNet (e : net_error)
| CauseFormat.

Inductive RegistryErrorCode `{Crypto} :=
| BlobUnknown
| ManifestUnknown
| BadRequest (m : cause)
| Unknown (m : cause).

(** warp's rejections, as far as [custom_recover] looks into them. *)
Inductive Rejection `{Crypto} :=
| RejectRegistry (code : RegistryErrorCode)
| RejectInvalidHeader (text : string)
| RejectOther.

Record ErrorMessage `{Crypto} := { em_code : RegistryErrorCode; em_message : cause }.

(** ** node_api/model/request.rs *)
Inductive ContentType := JSON | CSV.

Inductive TransparencyLogField :=
| FId | FPackageType | FPackageSpecificId | FNumArtifacts | FPackageSpecificArtifactId
| FArtifactHash | FSourceHash | FArtifactId | FSourceId | FTimestamp | FOperation | FNodeId
| FNodePublicKey.

#[export] Instance TransparencyLogField_eq_dec : EqDecision TransparencyLogField.
Proof. solve_decision. Defined.

Definition ContentType_from_str (s : string) : outcome string ContentType :=
  if bool_decide (s = "json") then Ok JSON else if bool_decide (s = "csv") then Ok CSV else Err s.

Definition ContentType_from (format : option string) : outcome string ContentType :=
  match format with Some val => ContentType_from_str val | None => Ok JSON end.

Definition response_content_type (c : ContentType) : string :=
  match c with JSON => "application/json" | CSV => "text/csv" end.

(** The names of the fields: the first part of [aaa], and the names given to
    [serialize_field]. *)
Definition field_name (f : TransparencyLogField) : string :=
  match f with
  | FId => "id" | FPackageType => "package_type" | FPackageSpecificId => "package_specific_id"
  | FNumArtifacts => "num_artifacts" | FPackageSpecificArtifactId => "package_specific_artifact_id"
  | FArtifactHash => "artifact_hash" | FSourceHash => "source_hash" | FArtifactId => "artifact_id"
  | FSourceId => "source_id" | FTimestamp => "timestamp" | FOperation => "operation"
  | FNodeId => "node_id" | FNodePublicKey => "node_public_key"
  end.

(** The second part of [aaa]. *)
Definition field_description (f : TransparencyLogField) : string :=
  match f with
  | FId => "TransparencyLog record identity"
  | FPackageType => "Package type (maven, docker and so on)"
  | FPackageSpecificId => "Package specific identity"
  | FNumArtifacts => "Number of artifacts"
  | FPackageSpecificArtifactId => "Package specific artifact identity"
  | FArtifactHash => "Artifact hash"
  | FSourceHash => "Source hash"
  | FArtifactId => "Artifact identity"
  | FSourceId => "Source identity"
  | FTimestamp => "Timestamp"
  | FOperation => "Operation (AddArtifact, RemoveArtifact, AddNode, RemoveNode)"
  | FNodeId => "Peer node identity"
  | FNodePublicKey => "Node public key"
  end.

(** [to_lowercase], as far as the result can be ASCII: of the other characters only the Kelvin sign has a
    lower case in ASCII, the others are kept. *)
Definition lower_char (c : ascii) : ascii :=
  let n := Ascii.nat_of_ascii c in
  if ((65 <=? n) && (n <=? 90))%nat then Ascii.ascii_of_nat (n + 32) else c.
Fixpoint to_lowercase (s : string) : string :=
  match s with
  | String.EmptyString => String.EmptyString
  | String.String "226" (String.String "132" (String.String "170" s')) => String.String "k" (to_lowercase s')
  | String.String c s' => String.String (lower_char c) (to_lowercase s')
  end%char.

Definition TransparencyLogField_from_str (s : string) : outcome string TransparencyLogField :=
  let l := to_lowercase s in
  if bool_decide (l = "id") then Ok FId
  else if bool_decide (l = "package_type") then Ok FPackageType
  else if bool_decide (l = "package_specific_id") then Ok FPackageSpecificId
  else if bool_decide (l = "num_artifacts") then Ok FNumArtifacts
  else if bool_decide (l = "package_specific_artifact_id") then Ok FPackageSpecificArtifactId
  else if bool_decide (l = "artifact_hash") then Ok FArtifactHash
  else if bool_decide (l = "source_hash") then Ok FSourceHash
  else if bool_decide (l = "artifact_id") then Ok FArtifactId
  else if bool_decide (l = "source_id") then Ok FSourceId
  else if bool_decide (l = "timestamp") then Ok FTimestamp
  else if bool_decide (l = "operation") then Ok FOperation
  else if bool_decide (l = "node_id") then Ok FNodeId
  else if bool_decide (l = "node_public_key") then Ok FNodePublicKey
  else Err s.

(** [Content], its default and [Content::from]. *)
Abbreviation Content := (list TransparencyLogField).

Definition Content_default : Content :=
  [FId; FPackageType; FPackageSpecificId; FNumArtifacts; FPackageSpecificArtifactId; FArtifactHash;
   FSourceHash; FArtifactId; FSourceId; FTimestamp; FOperation; FNodeId; FNodePublicKey].

Fixpoint parse_fields (val : list string) : outcome string Content :=
  match val with
  | [] => Ok []
  | fld :: rest =>
      let? f := TransparencyLogField_from_str fld in
      let? fs := parse_fields rest in
      Ok (f :: fs)
  end.

Definition Content_from (fields : option (list string)) : outcome string Content :=
  match fields with Some val => parse_fields val | None => Ok Content_default end.

Record TransparencyLogOutputParams := {
  op_format : option ContentType;
  op_content : option Content;
}.

Record RequestLog := {
  rl_package : string;                                  (* image or gav *)
  rl_output_params : option TransparencyLogOutputParams;
  rl_latest : option bool;
}.

(** ** node_api/model/response.rs *)
Record BuildSuccessResponse `{Crypto} := {
  bsr_build_id : option string;
  bsr_message : option BuildError;
  bsr_status : Z;
}.

(** ** Output of logs *)
Inductive OutValue :=
| OutText (s : string)
| OutNum (z : Z)
| OutType (t : option PackageType)
| OutOperation (o : Operation).

(** [OutputTransparencyLog::serialize]: the fields and their values, in order. *)
Definition serialize_log_field (l : TransparencyLog) (f : TransparencyLogField) : string * OutValue :=
  match f with
  | FId => ("id", OutText (tl_id l))
  | FPackageType => ("package_type", OutType (tl_package_type l))
  | FPackageSpecificId => ("package_specific_id", OutText (tl_package_specific_id l))
  | FNumArtifacts => ("num_artifacts", OutNum (tl_num_artifacts l))
  | FPackageSpecificArtifactId => ("package_specific_artifact_id", OutText (tl_package_specific_artifact_id l))
  | FArtifactHash => ("artifact_hash", OutText (tl_artifact_hash l))
  | FSourceHash => ("source_hash", OutText (tl_source_hash l))
  | FArtifactId => ("artifact_id", OutText (tl_artifact_id l))
  | FSourceId => ("source_id", OutText (tl_source_id l))
  | FTimestamp => ("timestamp", OutNum (tl_timestamp l))
  | FOperation => ("operation", OutOperation (tl_operation l))
  | FNodeId => ("node_id", OutText (tl_node_id l))
  | FNodePublicKey => ("node_public_key", OutText (tl_node_public_key l))
  end.

Definition serialize_log (fields : Content) (l : TransparencyLog) : list (string * OutValue) :=
  serialize_log_field l <$> fields.

(** serde_json and csv; [None] is an error of theirs. *)
Class ApiJson `{Crypto} := {
  json_success : BuildSuccessResponse -> option string;
  json_build_status : BuildStatus -> option string;
  json_strings : list string -> option string;
  json_status : Status -> option string;
  json_logs : list (list (string * OutValue)) -> option string;
  csv_logs : list (list (string * OutValue)) -> option string;
  parse_peer_id : bytes -> option string;            (* RequestAddAuthorizedNode *)
  parse_image : bytes -> option string;              (* RequestDockerBuild *)
  parse_gav : bytes -> option string;                (* RequestMavenBuild *)
  parse_build_id : bytes -> option string;           (* RequestBuildStatus *)
  parse_docker_log : bytes -> option RequestLog;     (* RequestDockerLog *)
  parse_maven_log : bytes -> option RequestLog;      (* RequestMavenLog *)
}.

Record Reply := {
  reply_status : Z;
  reply_headers : list (string * string);
  reply_body : bytes;
}.

Inductive Method := GET | HEAD | POST | OtherMethod.

Record WebRequest := {
  wr_method : Method;
  wr_path : string;
  wr_body : bytes;
}.

Definition OK : Z := 200.
Definition CREATED : Z := 201.
Definition FOUND : Z := 302.
Definition BAD_REQUEST : Z := 400.
Definition NOT_FOUND : Z := 404.
Definition INTERNAL_SERVER_ERROR : Z := 500.

Definition usize_text (n : nat) : string := pretty (Z.of_nat n).

Section Api.
Context `{Libp2p} `{Sqlite} `{!LogJson} `{!Sha256} `{!ApiJson}.
Context {B : Type} `{!BlockAdder B} {W : Type} `{!CommandChannel W} {C : Type} `{!BuildClient C}.

Abbreviation Artifacts := (ArtifactService (B := B) (W := W) (C := C)).
Abbreviation api A := (stm Artifacts RegistryErrorCode A).

(** ** docker/error_util.rs, conversions and recovery *)
Definition error_from_build (e : BuildError) : RegistryErrorCode :=
  match e with
  | BuildArtifactAlreadyExists _ => BadRequest (CauseBuild e)
  | _ => Unknown (CauseBuild e)
  end.

Definition error_from_log (e : TransparencyLogError) : RegistryErrorCode :=
  match e with
  | NodeAlreadyExists _ => BadRequest (CauseLog e)
  | _ => Unknown (CauseLog e)
  end.

Definition custom_recover (err : Rejection) : Z * ErrorMessage :=
  match err with
  | RejectRegistry BlobUnknown => (NOT_FOUND, {| em_code := BlobUnknown; em_message := CauseText "" |})
  | RejectRegistry ManifestUnknown => (NOT_FOUND, {| em_code := ManifestUnknown; em_message := CauseText "" |})
  | RejectRegistry (BadRequest m) => (BAD_REQUEST, {| em_code := BadRequest m; em_message := m |})
  | RejectRegistry (Unknown m) =>
      (INTERNAL_SERVER_ERROR, {| em_code := Unknown (CauseText ""); em_message := m |})
  | RejectInvalidHeader text =>
      (BAD_REQUEST, {| em_code := Unknown (CauseText ""); em_message := CauseText text |})
  | RejectOther =>
      (INTERNAL_SERVER_ERROR, {| em_code := Unknown (CauseText ""); em_message := CauseText "" |})
  end.

(** ** docker/v2/handlers *)
Definition MANIFEST_TYPE : string := "application/vnd.docker.distribution.manifest.v2+json".

Definition octet_reply (content : bytes) : Reply := {|
  reply_status := OK; reply_headers := [("Content-Type", "application/octet-stream")];
  reply_body := content |}.

Definition handle_get_blobs (name digest : string) : api Reply :=
  let id := docker_blob_id name digest in
  let! blob_content := smap_err (fun _ => BlobUnknown) (get_artifact_or_build Docker id id) in
  sret (octet_reply blob_content).

Definition manifest_reply (content : bytes) : Reply := {|
  reply_status := OK;
  reply_headers := [("Content-Type", MANIFEST_TYPE); ("Content-Length", usize_text (length content))];
  reply_body := content |}.

Definition fetch_manifest (name tag : string) : api Reply :=
  let! manifest_content := smap_err (fun _ => ManifestUnknown)
    (service_get_artifact Docker (docker_manifest_id name tag)) in
  sret (manifest_reply manifest_content).

Definition fetch_manifest_or_build (name tag : string) : api Reply :=
  let id := docker_manifest_id name tag in
  let! manifest_content := smap_err (fun _ => ManifestUnknown) (get_artifact_or_build Docker id id) in
  sret (manifest_reply manifest_content).

(** ** java/maven2/handlers *)
Definition handle_get_maven_artifact (full_path : string) : api Reply :=
  let! package_specific_id := slift (map_err (fun e => Unknown (CauseText e))
    (maven_package_specific_id full_path)) in
  let! package_specific_artifact_id := slift (map_err (fun e => Unknown (CauseText e))
    (maven_package_specific_artifact_id full_path)) in
  let! content := smap_err (fun e => Unknown (CauseArtifact e))
    (get_artifact_or_build Maven2 package_specific_id package_specific_artifact_id) in
  sret (octet_reply content).

(** ** node_api/handlers/swarm.rs *)
Definition get_package_specific_id (image : string) : string :=
  if contains "/"%char image then image else "library/" +:+ image.

Definition handle_add_authorized_node (peer_id : string) (d : tl_draw) : api Reply :=
  let! p := slift (ok_or (peer_id_from_str peer_id)
    (BadRequest (CauseText ("PeerId has invalid format: " +:+ peer_id)))) in
  let! _ := smap_err error_from_log (on_tlog (add_authorized_node p d)) in
  sret {| reply_status := CREATED; reply_headers := []; reply_body := [] |}.

Definition handle_err_artifact_already_exists (f : stm Artifacts BuildError string) :
    api BuildSuccessResponse :=
  let! r := scatch f in
  match r with
  | inl build_id => sret {| bsr_build_id := Some build_id; bsr_message := None; bsr_status := OK |}
  | inr err =>
      match err with
      | BuildArtifactAlreadyExists _ =>
          sret {| bsr_build_id := None; bsr_message := Some err; bsr_status := FOUND |}
      | _ => serr (error_from_build err)
      end
  end.

(** The common end of the two build handlers. *)
Definition build_reply (r : BuildSuccessResponse) : outcome RegistryErrorCode Reply :=
  let? body := ok_or (json_success r) (Unknown CauseFormat) in
  Ok {| reply_status := bsr_status r; reply_headers := [("Content-Type", "application/json")];
        reply_body := as_bytes body |}.

Definition handle_build_docker (image : string) : api Reply :=
  let! r := handle_err_artifact_already_exists
    (request_build_of Docker (get_package_specific_id image)) in
  slift (build_reply r).

Definition handle_build_maven (gav : string) : api Reply :=
  let! r := handle_err_artifact_already_exists (request_build_of Maven2 gav) in
  slift (build_reply r).

Definition handle_build_status (build_id : string) : api Reply :=
  let! result := smap_err error_from_build (artifact_get_build_status build_id) in
  let! body := slift (ok_or (json_build_status result) (Unknown CauseFormat)) in
  sret {| reply_status := OK; reply_headers := [("Content-Type", "application/json")];
          reply_body := as_bytes body |}.

Definition handle_get_peers : stm W RegistryErrorCode Reply :=
  let! peers := smap_err (fun e => Unknown (CauseNet e)) list_peers in
  let! body := slift (unwrap (json_strings (peer_id_to_string <$> elements peers))) in
  sret (octet_reply (as_bytes body)).

Definition handle_get_status : stm W RegistryErrorCode Reply :=
  let! status := smap_err (fun e => Unknown (CauseNet e)) client_status in
  let! body := slift (unwrap (json_status status)) in
  sret {| reply_status := OK; reply_headers := [("Content-Type", "application/json")];
          reply_body := as_bytes body |}.

(** [ResponseBuilder::from], [wrap] and [create_response]. *)
Definition response_params (output_params : option TransparencyLogOutputParams) : ContentType * Content :=
  match output_params with
  | Some params => (default JSON (op_format params), default Content_default (op_content params))
  | None => (JSON, Content_default)
  end.

Definition format_as_string (format : ContentType) (logs : list (list (string * OutValue))) :
    outcome RegistryErrorCode string :=
  ok_or (match format with JSON => json_logs logs | CSV => csv_logs logs end) (Unknown CauseFormat).

Definition create_response (params : ContentType * Content) (logs : list TransparencyLog) :
    outcome RegistryErrorCode Reply :=
  let '(format, output_fields) := params in
  let? body := format_as_string format (serialize_log output_fields <$> logs) in
  Ok {| reply_status := OK;
        reply_headers := [("Content-Type", response_content_type format);
                          ("Content-Length", usize_text (length (as_bytes body)))];
        reply_body := as_bytes body |}.

Definition inspect_log (t : PackageType) (p : string) (r : RequestLog) : api Reply :=
  let! result := smap_err error_from_log
    (on_tlog (search_transparency_logs t p (default false (rl_latest r)))) in
  slift (create_response (response_params (rl_output_params r)) result).

Definition handle_inspect_log_docker (r : RequestLog) : api Reply :=
  inspect_log Docker (get_package_specific_id (rl_package r)) r.

Definition handle_inspect_log_maven (r : RequestLog) : api Reply :=
  inspect_log Maven2 (rl_package r) r.

(** ** Routes *)

(** The segments of a path; a slash at its end makes no segment. *)
Definition segments (full_path : string) : list string :=
  let pieces := drop 1 (split "/"%char full_path) in
  match last pieces with Some "" => removelast pieces | _ => pieces end.

(** docker/v2/routes.rs. *)
Inductive DockerRoute :=
| RouteBase
| RouteManifest (name tag : string)
| RouteManifestHead (name tag : string)
| RouteBlob (name digest : string).

(** A [String] parameter of a path is a segment that is not empty. *)
Definition param2 {A} (x y : string) (r : A) : option A :=
  if bool_decide (x = "" \/ y = "") then None else Some r.

Definition docker_route (m : Method) (path : list string) : option DockerRoute :=
  match m, path with
  | GET, ["v2"] => Some RouteBase
  | GET, ["v2"; "library"; name; "manifests"; tag] => param2 name tag (RouteManifest name tag)
  | HEAD, ["v2"; "library"; name; "manifests"; tag] => param2 name tag (RouteManifestHead name tag)
  | GET, ["v2"; "library"; name; "blobs"; digest] => param2 name digest (RouteBlob name digest)
  | _, _ => None
  end.

Definition base_reply : Reply := {|
  reply_status := OK; reply_headers := [("Content-Length", "2"); ("Content-Type", "application/json")];
  reply_body := as_bytes "{}" |}.

Definition rejecting {A} (c : api A) : stm Artifacts Rejection A := smap_err RejectRegistry c.

Definition docker_routes (r : WebRequest) : stm Artifacts Rejection Reply :=
  match docker_route (wr_method r) (segments (wr_path r)) with
  | Some RouteBase => sret base_reply
  | Some (RouteManifest name tag) => rejecting (fetch_manifest_or_build name tag)
  | Some (RouteManifestHead name tag) => rejecting (fetch_manifest name tag)
  | Some (RouteBlob name digest) => rejecting (handle_get_blobs name digest)
  | None => serr RejectOther
  end.

(** java/maven2/routes.rs: every method and every path below maven2. *)
Definition maven_routes (r : WebRequest) : stm Artifacts Rejection Reply :=
  match segments (wr_path r) with
  | "maven2" :: _ => rejecting (handle_get_maven_artifact (wr_path r))
  | _ => serr RejectOther
  end.

(** node_api/routes.rs: [content_length_limit(1024 * 8)] and [body::json]. *)
Definition with_body {A} (parse : bytes -> option A) (body : bytes) (k : A -> api Reply) :
    stm Artifacts Rejection Reply :=
  if (Z.of_nat (length body) <=? 1024 * 8)%Z then
    match parse body with Some a => rejecting (k a) | None => serr RejectOther end
  else serr RejectOther.

Definition node_routes (r : WebRequest) (d : tl_draw) : stm Artifacts Rejection Reply :=
  match wr_method r, segments (wr_path r) with
  | POST, ["authorized_node"] => with_body parse_peer_id (wr_body r) (fun p => handle_add_authorized_node p d)
  | POST, ["build"; "docker"] => with_body parse_image (wr_body r) handle_build_docker
  | POST, ["build"; "maven"] => with_body parse_gav (wr_body r) handle_build_maven
  | GET, ["peers"] => rejecting (on_net handle_get_peers)
  | GET, ["status"] => rejecting (on_net handle_get_status)
  | POST, ["inspect"; "docker"] => with_body parse_docker_log (wr_body r) handle_inspect_log_docker
  | POST, ["inspect"; "maven"] => with_body parse_maven_log (wr_body r) handle_inspect_log_maven
  | POST, ["build"; "status"] => with_body parse_build_id (wr_body r) handle_build_status
  | _, _ => serr RejectOther
  end.

(** [a.or(b)]: the second filter is tried when the first rejects; of two rejections the one
    that says more is kept. *)
Definition or_else (a b : stm Artifacts Rejection Reply) : stm Artifacts Rejection Reply :=
  let! r := scatch a in
  match r with
  | inl reply => sret reply
  | inr RejectOther => b
  | inr e => let! r' := scatch b in match r' with inl reply => sret reply | inr _ => serr e end
  end.

(** pyrsia_node/src/main.rs, [all_routes.recover(custom_recover)]: a reply, or the status and
    message of a rejection. *)
Definition all_routes (r : WebRequest) (d : tl_draw) : stm Artifacts Rejection Reply :=
  or_else (or_else (docker_routes r) (maven_routes r)) (node_routes r d).

Definition serve {E} (r : WebRequest) (d : tl_draw) : stm Artifacts E (Reply + (Z * ErrorMessage)) :=
  let! o := scatch (all_routes r d) in
  match o with
  | inl reply => sret (inl reply)
  | inr e => sret (inr (custom_recover e))
  end.

(** ** Lemmas *)
Context `{!SqliteOk}.

(** A field name is read back, in any case of its letters. *)
Lemma field_text f : TransparencyLogField_from_str (field_name f) = Ok f.
Proof. by destruct f. Qed.

Lemma segments_join pieces :
  pieces <> [] -> Forall (fun p => contains "/"%char p = false /\ p <> "") pieces ->
  segments (join "/" ("" :: pieces)) = pieces.
Proof.
  intros Hne Hp. unfold segments. rewrite (split_pieces "/"%char); [|done|].
  - simpl. rewrite drop_0. destruct (last pieces) as [x|] eqn:E; [|done].
    apply last_Some in E as [l ->]. apply Forall_app in Hp as [_ Hx]. apply Forall_singleton in Hx as [_ Hx].
    by destruct x.
  - constructor; [done|]. eapply Forall_impl; [exact Hp|]. by intros x [].
Qed.

(** What [get_artifact_or_build] does in both cases. *)
Lemma get_artifact_or_build_spec t p a (s : Artifacts) logs o s' :
  holds (as_transparency_log s) logs -> quotable a = true ->
  get_artifact_or_build t p a s = (o, s') ->
  match o with
  | Ok content => (exists l, l ∈ logs /\ artifact_record t a l /\ tl_operation l = AddArtifact
                     /\ tl_artifact_hash l = sha256_hex content) /\ as_spawned s' = as_spawned s
  | Err _ => as_spawned s' = as_spawned s ++ [(t, p)]
  | Panic => True
  end.
Proof.
  intros Hh Hq. unfold get_artifact_or_build, spawn_build. unfold_stm.
  pose proof (service_get_artifact_spawns_nothing t a s) as Hsp.
  destruct (service_get_artifact t a s) as [[content|e|] s1] eqn:Hg; intros; simplify_eq/=.
  - split; [|done].
    destruct (service_get_artifact_logged t a s logs content s' Hh Hq Hg) as (l & ? & ? & ? & ? & _).
    by exists l.
  - by rewrite Hsp.
  - done.
Qed.

(** A request that the routes of the registries pass over or take alone. *)
Lemma serve_docker {E} r d (s : Artifacts) rest :
  segments (wr_path r) = "v2" :: rest ->
  @serve E r d s
  = let '(o, s') := docker_routes r s in
    (match o with Ok reply => Ok (inl reply) | Err e => Ok (inr (custom_recover e)) | Panic => Panic end, s').
Proof.
  intros Hseg. unfold serve, all_routes, or_else, maven_routes, node_routes. rewrite Hseg. unfold_stm.
  destruct (docker_routes r s) as [[reply|e|] s1]; simpl; [done| |done].
  destruct e; simpl; (destruct (wr_method r); done).
Qed.

Lemma serve_node {E} r d (s : Artifacts) path rest :
  segments (wr_path r) = path :: rest -> path <> "v2" -> path <> "maven2" ->
  @serve E r d s
  = let '(o, s') := node_routes r d s in
    (match o with Ok reply => Ok (inl reply) | Err e => Ok (inr (custom_recover e)) | Panic => Panic end, s').
Proof.
  intros Hseg Hv2 Hm. unfold serve, all_routes, or_else, maven_routes, docker_routes.
  assert (docker_route (wr_method r) (path :: rest) = None) as Hd.
  { unfold docker_route. by repeat (case_match; simplify_eq/=). }
  rewrite Hseg, Hd. unfold_stm.
  assert ((match path with "maven2" => rejecting (handle_get_maven_artifact (wr_path r))
           | _ => serr RejectOther end) s = (Err RejectOther, s)) as Hmaven.
  { by repeat (case_match; simplify_eq/=). }
  simpl. unfold serr in Hmaven. rewrite Hmaven.
  by destruct (node_routes r d s) as [[] ?].
Qed.

(** The ids of the images Docker asks for. *)
Definition pulled_id (name tag : string) : string :=
  "library/" +:+ name +:+ (if starts_with "sha256:" tag then "@" else ":") +:+ tag.

Lemma docker_manifest_id_library name tag :
  contains "/"%char name = false -> contains "/"%char tag = false ->
  docker_manifest_id name tag = pulled_id name tag.
Proof.
  intros Hn Ht. unfold docker_manifest_id, pulled_id.
  destruct (starts_with "sha256:" tag); by rewrite !contains_app, Hn, Ht.
Qed.

(** ** Properties *)

(** C26. A pull of an image is answered from the log or turned into one build: a node that
    is asked for a manifest answers with status 200 and a body of the announced length whose hash is
    that of a record that added the image, or with status 404 after exactly one build of the
    image was requested in the background. *)
Theorem docker_pull_served {E} name tag d (s : Artifacts) logs o s' :
  holds (as_transparency_log s) logs ->
  contains "/"%char name = false -> name <> "" -> quotable name = true ->
  contains "/"%char tag = false -> tag <> "" -> quotable tag = true ->
  @serve E {| wr_method := GET; wr_path := join "/" [""; "v2"; "library"; name; "manifests"; tag];
              wr_body := [] |} d s = (Ok o, s') ->
  let id := pulled_id name tag in
  match o with
  | inl reply =>
      reply_status reply = 200%Z
      /\ ("Content-Length", usize_text (length (reply_body reply))) ∈ reply_headers reply
      /\ (exists l, l ∈ logs /\ artifact_record Docker id l /\ tl_operation l = AddArtifact
            /\ tl_artifact_hash l = sha256_hex (reply_body reply))
      /\ as_spawned s' = as_spawned s
  | inr (status, m) =>
      status = 404%Z /\ em_code m = ManifestUnknown /\ as_spawned s' = as_spawned s ++ [(Docker, id)]
  end.
Proof.
  intros Hh Hn Hne Hqn Ht Hte Hqt. set (r := {| wr_method := GET |}).
  assert (segments (wr_path r) = ["v2"; "library"; name; "manifests"; tag]) as Hseg.
  { apply segments_join; [done|]. repeat constructor; done. }
  rewrite (serve_docker r d s _ Hseg). unfold docker_routes. rewrite Hseg. simpl. unfold param2.
  rewrite bool_decide_false by naive_solver. unfold rejecting, fetch_manifest_or_build.
  rewrite docker_manifest_id_library by done. unfold_stm.
  assert (quotable (pulled_id name tag) = true) as Hq.
  { unfold pulled_id. rewrite !quotable_app, Hqn, Hqt. by destruct (starts_with "sha256:" tag). }
  destruct (get_artifact_or_build _ _ _ _) as [o1 s1] eqn:Hg.
  apply (get_artifact_or_build_spec _ _ _ _ logs) in Hg; [|done|done].
  destruct o1 as [content|e|]; simpl; intros; simplify_eq/=; [|done].
  split; [done|]. split; [right; by left|]. done.
Qed.

Lemma with_body_parsed {A} (parse : bytes -> option A) body a (k : A -> api Reply) (s : Artifacts) :
  (Z.of_nat (length body) <= 8192)%Z -> parse body = Some a -> with_body parse body k s = rejecting (k a) s.
Proof.
  intros Hl Hp. unfold with_body. rewrite Hp. by rewrite (proj2 (Z.leb_le _ _)) by lia.
Qed.

(** A build of a package that is there is not started over HTTP: with an authorized node
    in the log and an addition as the newest record of the package, the request is answered with
    status 302 and no build id, and neither the builder nor the network is asked. *)
Theorem build_api_existing {E} gav body d (s : Artifacts) logs l :
  holds (as_transparency_log s) logs -> quotable gav = true ->
  Forall (fun l => quotable (tl_id l) = true) logs ->
  l ∈ logs -> package_record Maven2 gav l -> tl_operation l = AddArtifact ->
  (forall l', l' ∈ logs -> package_record Maven2 gav l' -> l' <> l -> (tl_timestamp l' < tl_timestamp l)%Z) ->
  fst (get_authorized_nodes (as_transparency_log s)) <> Ok [] ->
  (Z.of_nat (length body) <= 8192)%Z -> parse_gav body = Some gav ->
  (forall r, exists text, json_success r = Some text) ->
  exists reply s' e text,
    @serve E {| wr_method := POST; wr_path := "/build/maven"; wr_body := body |} d s = (Ok (inl reply), s')
    /\ reply_status reply = 302%Z /\ reply_body reply = as_bytes text
    /\ json_success {| bsr_build_id := None; bsr_message := Some (BuildArtifactAlreadyExists e);
                       bsr_status := 302 |} = Some text
    /\ as_build_event_client s' = as_build_event_client s /\ as_p2p_client s' = as_p2p_client s.
Proof.
  intros Hh Hq Hids Hl Hr Hop Hnew Hnodes Hlen Hparse Hjson.
  destruct (request_build_refused Maven2 gav s logs l Hh Hq Hids Hl Hr Hnew Hop)
    as (e & s' & Hreq & Hb & Hn & _ & _ & He). destruct (He Hnodes) as [x ->].
  destruct (Hjson {| bsr_build_id := None; bsr_message := Some (BuildArtifactAlreadyExists x);
                     bsr_status := 302 |}) as [text Ht].
  rewrite (serve_node _ d s "build" ["maven"]) by done.
  unfold node_routes; simpl. rewrite (with_body_parsed _ _ gav) by done.
  unfold rejecting, handle_build_maven, handle_err_artifact_already_exists. unfold_stm.
  rewrite Hreq. unfold build_reply. unfold FOUND. rewrite Ht. simpl.
  by eexists _, _, x, text.
Qed.

(** The names of fields a client gives are read back. *)
Lemma content_roundtrip fields : Content_from (Some (field_name <$> fields)) = Ok fields.
Proof.
  unfold Content_from. induction fields as [|f fs IH]; [done|].
  rewrite fmap_cons. cbn [parse_fields]. by rewrite field_text, IH.
Qed.


Context `{!CryptoOk, !LogJsonOk}.

(** C27. Authorizing a node over HTTP: a text that is no peer id is refused with status 400
    and changes nothing; a node that is not authorized yet becomes so, with status 201,
    and asking again is answered with status 400 and leaves the blockchain and the
    logs alone. *)
Theorem authorize_api {E} text p body d (s : Artifacts) logs b' payload :
  holds (as_transparency_log s) logs ->
  (Z.of_nat (length body) <= 8192)%Z -> parse_peer_id body = Some text ->
  let request := {| wr_method := POST; wr_path := "/authorized_node"; wr_body := body |} in
  (peer_id_from_str text = None ->
     exists m, @serve E request d s = (Ok (inr (400%Z, m)), s))
  /\ (peer_id_from_str text = Some p -> quotable (peer_id_to_string p) = true ->
      (forall l, last_word logs (peer_id_to_string p) l -> tl_operation l <> AddNode) ->
      (0 <= dr_secs d < 2 ^ 63)%Z -> dr_id d ∉ tl_id <$> logs ->
      (forall l, l ∈ logs -> node_record (peer_id_to_string p) l -> (tl_timestamp l < dr_secs d)%Z) ->
      log_to_json (node_log p d) = Some payload ->
      bc_add_block (as_bytes payload) (tl_blockchain (as_transparency_log s)) = (Ok tt, b') ->
      exists reply s', @serve E request d s = (Ok (inl reply), s') /\ reply_status reply = 201%Z
        /\ holds (as_transparency_log s') (logs ++ [node_log p d])
        /\ (exists x ps, get_authorized_nodes (as_transparency_log s') = (Ok ps, x) /\ p ∈ ps)
        /\ forall d', exists m s'', @serve E request d' s' = (Ok (inr (400%Z, m)), s'')
             /\ tl_blockchain (as_transparency_log s'') = b'
             /\ holds (as_transparency_log s'') (logs ++ [node_log p d])).
Proof.
  intros Hh Hlen Hparse request.
  assert (forall d' s', @serve E request d' s'
    = let '(o, s'') := handle_add_authorized_node text d' s' in
      (match o with Ok reply => Ok (inl reply)
       | Err e => Ok (inr (custom_recover (RejectRegistry e))) | Panic => Panic end, s'')) as Hserve.
  { intros d' s'. rewrite (serve_node _ d' s' "authorized_node" []) by done.
    unfold node_routes; simpl. rewrite (with_body_parsed _ _ text) by done. unfold rejecting, smap_err.
    by destruct (handle_add_authorized_node text d' s') as [[] ?]. }
  split.
  - intros Hnone. rewrite Hserve. unfold handle_add_authorized_node. unfold_stm. rewrite Hnone. simpl.
    by eexists.
  - intros Hp Hq Hnot Hsecs Hid Hold Hjson Hbc.
    destruct (add_authorized_node_spec p d _ logs b' payload Hh Hq Hnot Hsecs Hid Hold Hjson Hbc)
      as (x & Hadd & Hb & Hx & Hin & Hagain).
    rewrite Hserve. unfold handle_add_authorized_node at 1. unfold_stm. rewrite Hp. simpl.
    unfold on_tlog. unfold_stm. rewrite Hadd. simpl. eexists _, _. split; [done|]. split; [done|].
    split; [exact Hx|]. split; [destruct Hin as (y & ps & ?); by exists y, ps|].
    intros d'. destruct (Hagain d') as (y & Hadd' & Hb' & Hy). rewrite Hserve.
    unfold handle_add_authorized_node, on_tlog. unfold_stm. rewrite Hp. simpl. rewrite Hadd'. simpl.
    by eexists _, _.
Qed.
End Api.

(** ** A concrete node *)
#[export] Instance sample_api_json : ApiJson := {|
  json_success := fun r => Some (default "none" (bsr_build_id r));
  json_build_status := fun b => Some (BuildStatus_to_string b);
  json_strings := fun l => Some (join "," l);
  json_status := fun st => Some "status";
  json_logs := fun rows => Some (join "," (map fst (concat rows)));
  csv_logs := fun rows => Some "csv";
  parse_peer_id := fun bs => Some (str bs);
  parse_image := fun bs => Some (str bs);
  parse_gav := fun bs => Some (str bs);
  parse_build_id := fun bs => Some (str bs);
  parse_docker_log := fun bs => Some {| rl_package := str bs; rl_output_params := None; rl_latest := None |};
  parse_maven_log := fun bs => Some {| rl_package := str bs;
    rl_output_params := Some {| op_format := None; op_content := Some [FId; FTimestamp] |};
    rl_latest := None |} |}.

Lemma docker_pull_served_witness :
  exists m s', serve (E := unit) {| wr_method := GET; wr_path := "/v2/library/alpine/manifests/3";
      wr_body := [] |} sample_tl_draw (sample_artifacts []) = (Ok (inr (404%Z, m)), s')
    /\ as_spawned s' = [(Docker, "library/alpine:3")].
Proof.
  destruct (serve (E := unit) {| wr_method := GET; wr_path := "/v2/library/alpine/manifests/3";
    wr_body := [] |} sample_tl_draw (sample_artifacts [])) as [o s'] eqn:Hs.
  assert (exists x, o = Ok x) as [x ->].
  { assert (fst (serve (E := unit) {| wr_method := GET; wr_path := "/v2/library/alpine/manifests/3";
      wr_body := [] |} sample_tl_draw (sample_artifacts [])) = o) as <- by (by rewrite Hs).
    eexists. vm_compute. reflexivity. }
  pose proof (docker_pull_served (E := unit) "alpine" "3" sample_tl_draw (sample_artifacts []) [data_log]
    x s' data_holds eq_refl ltac:(discriminate) eq_refl eq_refl ltac:(discriminate) eq_refl Hs) as Hserved.
  cbv zeta in Hserved. destruct x as [reply|[status m]].
  - destruct Hserved as (_ & _ & (l & Hl & Hr & _) & _).
    apply list_elem_of_singleton in Hl as ->. destruct Hr as [Hr _]. discriminate Hr.
  - destruct Hserved as (-> & _ & Hsp). exists m, s'. split; [reflexivity|exact Hsp].
Defined.

(** A log with an authorized node and the artifact of [data_log]. *)
Definition authorized_log : TransparencyLog := {|
  tl_id := "2"; tl_package_type := None; tl_package_specific_id := ""; tl_num_artifacts := 0;
  tl_package_specific_artifact_id := ""; tl_artifact_hash := ""; tl_source_hash := "";
  tl_artifact_id := ""; tl_source_id := ""; tl_timestamp := 5; tl_operation := AddNode;
  tl_node_id := "12Koo"; tl_node_public_key := "" |}.

Definition sample_node : ArtifactService (B := list bytes) (W := unit) (C := unit) := {|
  as_storage := sample_storage; as_disk := sample_fs; as_build_event_client := tt;
  as_transparency_log := sample_service [data_log; authorized_log];
  as_p2p_client := tt; as_local_peer_id := sample_authorized; as_spawned := [] |}.

Lemma sample_node_holds : holds (as_transparency_log sample_node) [data_log; authorized_log].
Proof.
  split; simpl; [|done| |done|done].
  - apply (bool_decide_unpack _). vm_compute. done.
  - repeat constructor; unfold fits; simpl; lia.
Qed.

Lemma build_api_existing_witness :
  exists reply s', serve (E := unit) {| wr_method := POST; wr_path := "/build/maven";
      wr_body := as_bytes "g:a:1" |} sample_tl_draw sample_node = (Ok (inl reply), s')
    /\ reply_status reply = 302%Z.
Proof.
  destruct (build_api_existing (E := unit) "g:a:1" (as_bytes "g:a:1") sample_tl_draw sample_node
    [data_log; authorized_log] data_log) as (reply & s' & e & text & Hs & Hr & _).
  - apply sample_node_holds.
  - reflexivity.
  - by repeat constructor.
  - by left.
  - by repeat split.
  - reflexivity.
  - intros l' Hl Hr Hne. apply elem_of_cons in Hl as [->|Hl]; [done|].
    apply list_elem_of_singleton in Hl as ->. destruct Hr as [Hr _]. discriminate Hr.
  - assert (fst (get_authorized_nodes (as_transparency_log sample_node)) = Ok [sample_authorized]) as ->
      by (vm_compute; reflexivity). discriminate.
  - vm_compute. discriminate.
  - reflexivity.
  - intros r. by eexists.
  - exists reply, s'. split; [exact Hs|exact Hr].
Defined.


Lemma authorize_api_witness :
  exists reply s', serve (E := unit) {| wr_method := POST; wr_path := "/authorized_node";
      wr_body := as_bytes "12Koo" |} sample_tl_draw (sample_artifacts []) = (Ok (inl reply), s')
    /\ reply_status reply = 201%Z.
Proof.
  destruct (authorize_api (E := unit) "12Koo" sample_authorized (as_bytes "12Koo") sample_tl_draw
    (sample_artifacts []) [data_log]
    [as_bytes (default "" (log_to_json (node_log sample_authorized sample_tl_draw)))]
    (default "" (log_to_json (node_log sample_authorized sample_tl_draw)))) as [_ Hyes].
  - apply data_holds.
  - vm_compute. discriminate.
  - reflexivity.
  - destruct Hyes as (reply & s' & Hs & Hr & _).
    + reflexivity.
    + reflexivity.
    + intros l (Hl & [Hop _] & _). by apply list_elem_of_singleton in Hl as ->.
    + simpl. lia.
    + apply (bool_decide_unpack _). vm_compute. done.
    + intros l Hl [Hop _]. by apply list_elem_of_singleton in Hl as ->.
    + reflexivity.
    + reflexivity.
    + exists reply, s'. split; [exact Hs|exact Hr].
Defined.
