(* ===== verification/Protocols.v ===== *)
(** * Protocols: the request-response protocols on a socket

    Models src/network/artifact_protocol.rs, build_protocol.rs, build_status_protocol.rs,
    blockchain_protocol.rs and idle_metric_protocol.rs.  The length-prefixed framing of
    libp2p and the socket traits of futures are not part of the repository: they are the class
    [SocketIo], with the laws [SocketIoOk] and an instance that uses LEB128.  A socket
    has the bytes that arrive, in the pieces in which they arrive, and the bytes sent. *)

From S2P Require Import Prelude Crypto Structures Sample Model BlockchainService BlockchainEvents EventLoop.

(** ** Sockets *)
Record Socket := {
  sk_rx : list bytes;
  sk_tx : bytes;
  sk_closed : bool;
  sk_broken : bool;
}.

(** Removes the first [n] bytes of what arrives; the boundaries of the pieces stay. *)
Fixpoint consume (n : nat) (chunks : list bytes) : list bytes :=
  match chunks with
  | [] => []
  | c :: rest => if decide (length c <= n) then consume (n - length c) rest else drop n c :: rest
  end.

Definition sk_consume (n : nat) (s : Socket) : Socket :=
  {| sk_rx := consume n (sk_rx s); sk_tx := sk_tx s; sk_closed := sk_closed s; sk_broken := sk_broken s |}.
Definition sk_send (bs : bytes) (s : Socket) : Socket :=
  {| sk_rx := sk_rx s; sk_tx := sk_tx s ++ bs; sk_closed := sk_closed s; sk_broken := sk_broken s |}.
Definition sk_close (s : Socket) : Socket :=
  {| sk_rx := sk_rx s; sk_tx := sk_tx s; sk_closed := true; sk_broken := sk_broken s |}.

(** [usize] is 64 bits wide. *)
Definition len (bs : bytes) : Z := Z.of_nat (length bs).

Abbreviation io A := (stm Socket io_error A).

Class SocketIo := {
  (** The unsigned variable-length integer of a length. *)
  varint : Z -> bytes;
  read_varint : io Z;
  read_length_prefixed : Z -> io bytes;
  write_length_prefixed : bytes -> io unit;
  (** [AsyncReadExt::read] into a buffer of [n] bytes: the bytes that were read. *)
  io_read : nat -> io bytes;
  io_close : io unit;
}.

(** What libp2p and futures document: a frame is the length and the bytes; a length
    above the maximum is [InvalidData]; at the end of the input a length is zero;
    no function panics; [read] returns what has arrived, at most what fits. *)
Class SocketIoOk `{SocketIo} : Prop := {
  write_frame d s :
    sk_broken s = false -> u64 (len d) ->
    write_length_prefixed d s = (Ok tt, sk_send (varint (len d) ++ d) s);
  close_ok s : sk_broken s = false -> io_close s = (Ok tt, sk_close s);
  read_frame max d rest s :
    sk_broken s = false -> u64 (len d) -> concat (sk_rx s) = varint (len d) ++ d ++ rest ->
    read_length_prefixed max s =
      if (len d <=? max)%Z then (Ok d, sk_consume (length (varint (len d)) + length d) s)
      else (Err InvalidData, sk_consume (length (varint (len d))) s);
  read_frame_bound max s d s' : read_length_prefixed max s = (Ok d, s') -> (len d <= max)%Z;
  read_frame_no_panic max s : fst (read_length_prefixed max s) <> Panic;
  read_frame_eof max s :
    sk_broken s = false -> (0 <= max)%Z -> concat (sk_rx s) = [] ->
    fst (read_length_prefixed max s) = Ok [];
  read_varint_ok n rest s :
    sk_broken s = false -> u64 n -> concat (sk_rx s) = varint n ++ rest ->
    read_varint s = (Ok n, sk_consume (length (varint n)) s);
  read_varint_no_panic s : fst (read_varint s) <> Panic;
  io_read_ok n s :
    sk_broken s = false ->
    io_read n s =
      let got := match consume 0 (sk_rx s) with [] => [] | c :: _ => take n c end in
      (Ok got, sk_consume (length got) s);
  io_read_no_panic n s : fst (io_read n s) <> Panic;
}.

(** ** [String::from_utf8]

    The well-formed sequences of the Unicode standard, as the standard library checks
    them: no overlong forms, no surrogates, nothing above U+10FFFF. *)
Definition in_range (lo hi : Z) (b : byte) : bool := ((lo <=? Z_of_byte b) && (Z_of_byte b <=? hi))%Z.
Definition continuation : byte -> bool := in_range 0x80 0xBF.

Fixpoint utf8_valid (bs : bytes) : bool :=
  match bs with
  | [] => true
  | a :: bs1 =>
      if in_range 0x00 0x7F a then utf8_valid bs1
      else match bs1 with
      | [] => false
      | b :: bs2 =>
          if in_range 0xC2 0xDF a then continuation b && utf8_valid bs2
          else match bs2 with
          | [] => false
          | c :: bs3 =>
              if in_range 0xE0 0xE0 a then in_range 0xA0 0xBF b && continuation c && utf8_valid bs3
              else if in_range 0xED 0xED a then in_range 0x80 0x9F b && continuation c && utf8_valid bs3
              else if in_range 0xE1 0xEF a then continuation b && continuation c && utf8_valid bs3
              else match bs3 with
              | [] => false
              | d :: bs4 =>
                  if in_range 0xF0 0xF0 a
                  then in_range 0x90 0xBF b && continuation c && continuation d && utf8_valid bs4
                  else if in_range 0xF1 0xF3 a
                  then continuation b && continuation c && continuation d && utf8_valid bs4
                  else if in_range 0xF4 0xF4 a
                  then in_range 0x80 0x8F b && continuation c && continuation d && utf8_valid bs4
                  else false
              end
          end
      end
  end.

Definition String_from_utf8 (bs : bytes) : option string :=
  if utf8_valid bs then Some (String.string_of_list_byte bs) else None.

(** What the type [String] guarantees. *)
Definition is_String (s : string) : Prop := utf8_valid (as_bytes s) = true.

Section Protocols.
Context `{!SocketIo} `{!Bincode BuildStatus}.


(** ** artifact_protocol.rs *)
Definition artifact_protocol_name : bytes := as_bytes "/artifact-exchange/1".

Definition artifact_read_request : io string :=
  let! hash_vec := read_length_prefixed 1000000 in
  if decide (hash_vec = []) then serr UnexpectedEof else
  let! artifact_id := slift (unwrap (String_from_utf8 hash_vec)) in
  sret artifact_id.

Definition artifact_read_response : io bytes :=
  let! vec := read_length_prefixed 100000000 in
  if decide (vec = []) then serr UnexpectedEof else sret vec.

Definition artifact_write_request (artifact_id : string) : io unit :=
  let! _ := write_length_prefixed (as_bytes artifact_id) in
  let! _ := io_close in
  sret tt.

Definition artifact_write_response (data : bytes) : io unit :=
  let! _ := write_length_prefixed data in
  let! _ := io_close in
  sret tt.

(** ** build_protocol.rs *)
Definition build_protocol_name : bytes := as_bytes "/build-exchange/1".

Definition build_read_request : io (PackageType * string) :=
  let! hash_vec0 := read_length_prefixed 1000000 in
  if decide (hash_vec0 = []) then serr UnexpectedEof else
  let! package_type_string := slift (unwrap (String_from_utf8 hash_vec0)) in
  let! package_type := slift (unwrap (PackageType_from_str package_type_string)) in
  let! hash_vec1 := read_length_prefixed 1000000 in
  if decide (hash_vec1 = []) then serr UnexpectedEof else
  let! package_specific_id := slift (unwrap (String_from_utf8 hash_vec1)) in
  sret (package_type, package_specific_id).

Definition build_read_response : io string :=
  let! hash_vec := read_length_prefixed 1000000 in
  if decide (hash_vec = []) then serr UnexpectedEof else
  let! build_id := slift (unwrap (String_from_utf8 hash_vec)) in
  sret build_id.

Definition build_write_request (package_type : PackageType) (package_specific_id : string) : io unit :=
  let! _ := write_length_prefixed (as_bytes (PackageType_to_string package_type)) in
  let! _ := write_length_prefixed (as_bytes package_specific_id) in
  let! _ := io_close in
  sret tt.

(** The socket is not closed. *)
Definition build_write_response (build_id : string) : io unit :=
  let! _ := write_length_prefixed (as_bytes build_id) in
  sret tt.

(** ** build_status_protocol.rs *)
Definition build_status_protocol_name : bytes := as_bytes "/build-status-exchange/1".

Definition build_status_read_request : io string :=
  let! hash_vec0 := read_length_prefixed 1000000 in
  if decide (hash_vec0 = []) then serr UnexpectedEof else
  let! build_id := slift (unwrap (String_from_utf8 hash_vec0)) in
  sret build_id.

Definition build_status_read_response : io BuildStatus :=
  let! hash_vec := read_length_prefixed 1000000 in
  if decide (hash_vec = []) then serr UnexpectedEof else
  let! status := slift (unwrap (deserialize hash_vec)) in
  sret status.

Definition build_status_write_request (build_id : string) : io unit :=
  let! _ := write_length_prefixed (as_bytes build_id) in
  let! _ := io_close in
  sret tt.

Definition build_status_write_response (status : BuildStatus) : io unit :=
  let! data := slift (unwrap (serialize status)) in
  let! _ := write_length_prefixed data in
  sret tt.

(** ** blockchain_protocol.rs *)
Definition blockchain_protocol_name : bytes := as_bytes "/pyrsia-blockchain-update-exchange/1".

Definition blockchain_read_request : io bytes :=
  let! buffer := read_length_prefixed BLOCKCHAIN_MAX_SIZE_PER_MESSAGE in
  if decide (buffer = []) then serr UnexpectedEof else sret buffer.

Definition blockchain_read_response : io bytes :=
  let! buffer := read_length_prefixed BLOCKCHAIN_MAX_SIZE_PER_MESSAGE in
  if decide (buffer = []) then serr UnexpectedEof else sret buffer.

Definition blockchain_write_request (data : bytes) : io unit :=
  let! _ := write_length_prefixed data in
  let! _ := io_close in
  sret tt.

Definition blockchain_write_response (data : bytes) : io unit :=
  let! _ := write_length_prefixed data in
  let! _ := io_close in
  sret tt.

(** ** idle_metric_protocol.rs *)
Definition idle_metric_protocol_name : bytes := as_bytes "/metric-exchange/1".

Definition idle_metric_read_request : io unit := sret tt.

(** One [read] into a buffer of eight bytes. *)
Definition idle_metric_read_response : io bytes :=
  let! size := read_varint in
  if decide (size <> 8%Z) then serr InvalidData else
  let! buff := io_read 8 in
  if decide (length buff <> 8) then serr InvalidData else
  sret buff.

Definition idle_metric_write_request : io unit :=
  let! _ := io_close in
  sret tt.

Definition idle_metric_write_response (idle_metric : bytes) : io unit :=
  let! _ := write_length_prefixed idle_metric in
  let! _ := io_close in
  sret tt.

(** ** The five codecs together

    The codec that libp2p runs for a protocol: [RequestResponseCodec] of its
    [ProtocolName]. *)
Inductive Protocol := PArtifact | PBuild | PIdleMetric | PBlockchain | PBuildStatus.

Definition request_protocol (r : Request) : Protocol :=
  match r with
  | ArtifactRequest _ => PArtifact
  | BuildRequest _ _ => PBuild
  | IdleMetricRequest => PIdleMetric
  | BlockchainRequest _ => PBlockchain
  | BuildStatusRequest _ => PBuildStatus
  end.

Definition response_protocol (r : Response) : Protocol :=
  match r with
  | ArtifactResponse _ => PArtifact
  | BuildResponse _ => PBuild
  | IdleMetricResponse _ => PIdleMetric
  | BlockchainResponse _ => PBlockchain
  | BuildStatusResponse _ => PBuildStatus
  end.

Definition smap {A B} (f : A -> B) (c : io A) : io B := let! a := c in sret (f a).

Definition read_request (p : Protocol) : io Request :=
  match p with
  | PArtifact => smap ArtifactRequest artifact_read_request
  | PBuild => smap (fun r => BuildRequest (fst r) (snd r)) build_read_request
  | PIdleMetric => smap (fun _ => IdleMetricRequest) idle_metric_read_request
  | PBlockchain => smap BlockchainRequest blockchain_read_request
  | PBuildStatus => smap BuildStatusRequest build_status_read_request
  end.

Definition read_response (p : Protocol) : io Response :=
  match p with
  | PArtifact => smap ArtifactResponse artifact_read_response
  | PBuild => smap BuildResponse build_read_response
  | PIdleMetric => smap IdleMetricResponse idle_metric_read_response
  | PBlockchain => smap BlockchainResponse blockchain_read_response
  | PBuildStatus => smap BuildStatusResponse build_status_read_response
  end.

Definition write_request (r : Request) : io unit :=
  match r with
  | ArtifactRequest artifact_id => artifact_write_request artifact_id
  | BuildRequest t p => build_write_request t p
  | IdleMetricRequest => idle_metric_write_request
  | BlockchainRequest data => blockchain_write_request data
  | BuildStatusRequest build_id => build_status_write_request build_id
  end.

Definition write_response (r : Response) : io unit :=
  match r with
  | ArtifactResponse data => artifact_write_response data
  | BuildResponse build_id => build_write_response build_id
  | IdleMetricResponse metric => idle_metric_write_response metric
  | BlockchainResponse data => blockchain_write_response data
  | BuildStatusResponse status => build_status_write_response status
  end.

(** ** Specification

    The payload of a message that its reader checks, with the largest size it accepts. *)
Definition request_payload (r : Request) : option (Z * bytes) :=
  match r with
  | ArtifactRequest artifact_id => Some (1000000%Z, as_bytes artifact_id)
  | BuildRequest _ p => Some (1000000%Z, as_bytes p)
  | IdleMetricRequest => None
  | BlockchainRequest data => Some ((10 * 1024 * 1024)%Z, data)
  | BuildStatusRequest build_id => Some (1000000%Z, as_bytes build_id)
  end.

(** A payload is accepted when it is not empty and not too large. *)
Definition accepted {A} (max : Z) (d : bytes) (a : A) : outcome io_error A :=
  if decide (d = []) then Err UnexpectedEof
  else if (len d <=? max)%Z then Ok a else Err InvalidData.

Definition request_delivered (r : Request) : outcome io_error Request :=
  match request_payload r with Some (max, d) => accepted max d r | None => Ok r end.

(** The metric arrives when its eight bytes, which follow their length, are in one piece. *)
Definition response_delivered (r : Response) (pieces : list bytes) : outcome io_error Response :=
  match r with
  | ArtifactResponse data => accepted 100000000 data r
  | BuildResponse build_id => accepted 1000000 (as_bytes build_id) r
  | BlockchainResponse data => accepted (10 * 1024 * 1024) data r
  | BuildStatusResponse status => accepted 1000000 (default [] (serialize status)) r
  | IdleMetricResponse _ =>
      if decide (8 <= length (default [] (head (consume (length (varint 8)) pieces))))
      then Ok r else Err InvalidData
  end.

(** The messages that pass between two nodes in BlockchainEvents are those that the codec delivers. *)
Lemma passes_delivered data pieces :
  (request_delivered (BlockchainRequest data) = Ok (BlockchainRequest data) <-> passes data = true)
  /\ (response_delivered (BlockchainResponse data) pieces = Ok (BlockchainResponse data) <-> passes data = true).
Proof.
  unfold request_delivered, response_delivered, passes, accepted. simpl.
  destruct (decide (data = [])) as [->|Hne]; [by split|].
  rewrite bool_decide_false by done. simpl. unfold BLOCKCHAIN_MAX_SIZE_PER_MESSAGE. by destruct (_ <=? _)%Z.
Qed.

(** What the types of the messages guarantee. *)
Definition request_ok (r : Request) : Prop :=
  match r with
  | ArtifactRequest t | BuildRequest _ t | BuildStatusRequest t => is_String t /\ u64 (len (as_bytes t))
  | BlockchainRequest d => u64 (len d)
  | IdleMetricRequest => True
  end.

Definition response_ok (r : Response) : Prop :=
  match r with
  | ArtifactResponse d | BlockchainResponse d => u64 (len d)
  | BuildResponse t => is_String t /\ u64 (len (as_bytes t))
  | IdleMetricResponse m => length m = 8
  | BuildStatusResponse status => u64 (len (default [] (serialize status)))
  end.

(** The bytes of a message: one frame for every part, the length and the bytes. *)
Definition frame (d : bytes) : bytes := varint (len d) ++ d.

Definition request_wire (r : Request) : bytes :=
  match r with
  | ArtifactRequest t | BuildStatusRequest t => frame (as_bytes t)
  | BuildRequest pt t => frame (as_bytes (PackageType_to_string pt)) ++ frame (as_bytes t)
  | IdleMetricRequest => []
  | BlockchainRequest d => frame d
  end.

Definition response_wire (r : Response) : bytes :=
  match r with
  | ArtifactResponse d | BlockchainResponse d | IdleMetricResponse d => frame d
  | BuildResponse t => frame (as_bytes t)
  | BuildStatusResponse status => frame (default [] (serialize status))
  end.

(** Two responses leave the socket open. *)
Definition response_closes (r : Response) : bool :=
  match r with BuildResponse _ | BuildStatusResponse _ => false | _ => true end.

(** ** Lemmas *)
Lemma consume_concat n chunks : concat (consume n chunks) = drop n (concat chunks).
Proof.
  revert n; induction chunks as [|c rest IH]; intros n; simpl; [by rewrite drop_nil|].
  case_decide as Hc; simpl.
  - by rewrite IH, drop_app_ge by lia.
  - by rewrite drop_app_le by lia.
Qed.

Lemma consume_0_consume n chunks : consume 0 (consume n chunks) = consume n chunks.
Proof.
  revert n; induction chunks as [|c rest IH]; intros n; simpl; [done|].
  case_decide as Hc; [apply IH|]. simpl. rewrite decide_False; [done|]. rewrite length_drop. lia.
Qed.

Lemma consume_consume m n chunks : consume m (consume n chunks) = consume (n + m) chunks.
Proof.
  revert n; induction chunks as [|c rest IH]; intros n; simpl; [done|].
  destruct (decide (length c <= n)) as [Hn|Hn].
  - rewrite decide_True by lia. rewrite IH. f_equal. lia.
  - simpl. rewrite length_drop. destruct (decide (length c <= n + m)) as [Hm|Hm].
    + rewrite decide_True by lia. f_equal. lia.
    + rewrite decide_False by lia. by rewrite drop_drop.
Qed.

Lemma String_from_utf8_as_bytes s : is_String s -> String_from_utf8 (as_bytes s) = Some s.
Proof.
  unfold is_String, String_from_utf8, as_bytes. intros ->.
  by rewrite String.string_of_list_byte_of_string.
Qed.

Lemma String_from_utf8_Some d t : String_from_utf8 d = Some t -> as_bytes t = d /\ is_String t.
Proof.
  unfold String_from_utf8, is_String, as_bytes. intros E. case_match eqn:Hv; simplify_eq.
  by rewrite String.list_byte_of_string_of_list_byte.
Qed.

Lemma len_nil d : (len d = 0)%Z -> d = [].
Proof. destruct d; [done|]. unfold len; simpl; lia. Qed.

(** What the readers have in common: a frame that is not empty is given to [k]. *)
Definition frame_then {A} (max : Z) (k : bytes -> io A) : io A :=
  let! vec := read_length_prefixed max in
  if decide (vec = []) then serr UnexpectedEof else k vec.

Context `{!SocketIoOk}.

Lemma frame_then_wire {A} max (k : bytes -> io A) d rest s :
  sk_broken s = false -> u64 (len d) -> (0 <= max)%Z ->
  concat (sk_rx s) = (varint (len d) ++ d) ++ rest ->
  exists s', concat (sk_rx s') = rest /\ sk_broken s' = false /\
    fst (frame_then max k s) =
      if decide (d = []) then Err UnexpectedEof
      else if (len d <=? max)%Z then fst (k d s') else Err InvalidData.
Proof.
  intros Hb Hd Hmax Hw. rewrite <- app_assoc in Hw. unfold frame_then. unfold_stm.
  rewrite (read_frame max d rest s Hb Hd Hw).
  exists (sk_consume (length (varint (len d)) + length d) s). split_and!; [|done|].
  - simpl. rewrite consume_concat, Hw, app_assoc, drop_app_ge by (rewrite length_app; lia).
    by rewrite length_app, Nat.sub_diag.
  - destruct (len d <=? max)%Z eqn:E; simpl; case_decide; try done.
    subst d. apply Z.leb_gt in E. unfold len in E; simpl in E. lia.
Qed.

Lemma frame_then_Ok {A} max (k : bytes -> io A) s a s' :
  frame_then max k s = (Ok a, s') ->
  exists d s1, (0 < len d <= max)%Z /\ k d s1 = (Ok a, s').
Proof.
  unfold frame_then. intros (d & s1 & Hr & Hk)%sbind_Ok. case_decide as Hd; [done|].
  apply read_frame_bound in Hr. exists d, s1. split; [|done].
  destruct d; [done|]. unfold len in *; simpl in *; lia.
Qed.

Lemma frame_then_no_panic {A} max (k : bytes -> io A) s :
  (forall d s', fst (k d s') <> Panic) -> fst (frame_then max k s) <> Panic.
Proof.
  intros Hk. unfold frame_then. unfold_stm. pose proof (read_frame_no_panic max s) as Hp.
  destruct (read_length_prefixed max s) as [[d| |] s1]; simpl in *; [|done..].
  case_decide; [done|]. apply Hk.
Qed.

Lemma fst_smap {A B} (f : A -> B) (c : io A) s :
  fst (smap f c s) = match fst (c s) with Ok a => Ok (f a) | Err e => Err e | Panic => Panic end.
Proof. unfold smap. unfold_stm. by destruct (c s) as [[] ?]. Qed.

Lemma smap_Ok {A B} (f : A -> B) (c : io A) s b s' :
  smap f c s = (Ok b, s') <-> exists a, b = f a /\ c s = (Ok a, s').
Proof. unfold smap. rewrite sbind_Ok. unfold sret. naive_solver. Qed.

(** A frame that is sent and arrives is checked and parsed. *)
Lemma frame_delivered {A B} max (k : bytes -> io A) (f : A -> B) d a s :
  sk_broken s = false -> u64 (len d) -> (0 <= max)%Z ->
  concat (sk_rx s) = varint (len d) ++ d ->
  (forall s', fst (k d s') = Ok a) ->
  fst (smap f (frame_then max k) s) = accepted max d (f a).
Proof.
  intros Hb Hd Hmax Hw Hk. rewrite fst_smap.
  destruct (frame_then_wire max k d [] s Hb Hd Hmax) as (s' & _ & _ & ->); [by rewrite app_nil_r|].
  unfold accepted. case_decide; [done|]. rewrite Hk. by destruct (len d <=? max)%Z.
Qed.

Lemma parse_string_ok {A} (s : string) (f : string -> A) (sk : Socket) :
  is_String s ->
  fst ((let! t := slift (unwrap (String_from_utf8 (as_bytes s))) in sret (f t)) sk)
  = Ok (E := io_error) (f s).
Proof. intros Hs. by rewrite (String_from_utf8_as_bytes s Hs). Qed.

Lemma write_close_ok d s :
  sk_broken s = false -> u64 (len d) ->
  (let! _ := write_length_prefixed d in let! _ := io_close in sret tt) s
  = (Ok tt, sk_close (sk_send (varint (len d) ++ d) s)).
Proof. intros Hb Hd. unfold_stm. by rewrite write_frame, close_ok. Qed.

Lemma write_ok d s :
  sk_broken s = false -> u64 (len d) ->
  (let! _ := write_length_prefixed d in sret tt) s = (Ok tt, sk_send (varint (len d) ++ d) s).
Proof. intros Hb Hd. unfold_stm. by rewrite write_frame. Qed.

Lemma package_type_len t : u64 (len (as_bytes (PackageType_to_string t))).
Proof. by destruct t. Qed.

(** The readers of texts and of build requests as frames. *)
Definition parse_string {A} (f : string -> A) (d : bytes) : io A :=
  let! t := slift (unwrap (String_from_utf8 d)) in sret (f t).

Definition parse_status (d : bytes) : io BuildStatus :=
  let! status := slift (unwrap (deserialize d)) in sret status.

Definition parse_build_request (hash_vec0 : bytes) : io (PackageType * string) :=
  let! package_type_string := slift (unwrap (String_from_utf8 hash_vec0)) in
  let! package_type := slift (unwrap (PackageType_from_str package_type_string)) in
  frame_then 1000000 (parse_string (pair package_type)).

Lemma build_read_request_frames : build_read_request = frame_then 1000000 parse_build_request.
Proof. done. Qed.

Lemma parse_build_request_ok pt s :
  parse_build_request (as_bytes (PackageType_to_string pt)) s
  = frame_then 1000000 (parse_string (pair pt)) s.
Proof. by destruct pt. Qed.

Lemma build_request_wire pt t s :
  sk_broken s = false -> is_String t -> u64 (len (as_bytes t)) ->
  concat (sk_rx s) =
    (varint (len (as_bytes (PackageType_to_string pt))) ++ as_bytes (PackageType_to_string pt))
    ++ varint (len (as_bytes t)) ++ as_bytes t ->
  fst (read_request PBuild s) = request_delivered (BuildRequest pt t).
Proof.
  intros Hb Hu Hl Hw. unfold read_request. rewrite build_read_request_frames, fst_smap.
  destruct (frame_then_wire 1000000 parse_build_request _ _ s Hb (package_type_len pt)
              ltac:(done) Hw) as (s' & Hs' & Hb' & ->).
  rewrite decide_False by (by destruct pt).
  replace (len (as_bytes (PackageType_to_string pt)) <=? 1000000)%Z with true by (by destruct pt).
  rewrite parse_build_request_ok, <- fst_smap.
  apply (frame_delivered 1000000 _ (fun r => BuildRequest (fst r) (snd r)) (as_bytes t) (pt, t)); try done.
  intros s2. by apply parse_string_ok.
Qed.

(** *** The writers produce the bytes of a message and the readers understand them *)
Lemma write_request_wire r out :
  sk_broken out = false -> request_ok r ->
  write_request r out = (Ok tt, sk_close (sk_send (request_wire r) out)).
Proof.
  intros Hb Hr. destruct r as [t|pt t| |d|t]; simpl in Hr; [by apply write_close_ok; [|apply Hr]| | |
    by apply write_close_ok|by apply write_close_ok; [|apply Hr]].
  - destruct Hr as [Hu Hl]. cbn [write_request]. unfold build_write_request, sbind.
    rewrite write_frame by (done || apply package_type_len).
    etransitivity; [by apply write_close_ok|]. unfold sk_send, sk_close; simpl. by rewrite <- (assoc_L (++)).
  - unfold write_request, idle_metric_write_request, sk_send. unfold_stm. rewrite close_ok by done. simpl.
    rewrite app_nil_r. by destruct out.
Qed.

Lemma read_request_wire r inc :
  sk_broken inc = false -> request_ok r -> concat (sk_rx inc) = request_wire r ->
  fst (read_request (request_protocol r) inc) = request_delivered r.
Proof.
  intros Hi Hr Hw. destruct r as [t|pt t| |d|t]; simpl in Hr, Hw.
  - destruct Hr as [Hu Hl]. eapply frame_delivered; try done. intros s'. by apply parse_string_ok.
  - destruct Hr as [Hu Hl]. by apply build_request_wire.
  - done.
  - by apply (frame_delivered _ (fun buffer => sret buffer)).
  - destruct Hr as [Hu Hl]. eapply frame_delivered; try done. intros s'. by apply parse_string_ok.
Qed.

(** ** Properties *)

(** C8. A request that a node writes is read by its peer, however the bytes are cut on the way: every request
    whose payload has between one byte and the limit of its protocol is delivered unchanged, an empty
    one is reported as an unexpected end and a larger one as invalid data. *)
Theorem requests_delivered (out : Socket) (r : Request) :
  sk_broken out = false -> sk_tx out = [] -> request_ok r ->
  exists sent,
    write_request r out = (Ok tt, sent) /\ sk_closed sent = true
    /\ forall inc, sk_broken inc = false -> concat (sk_rx inc) = sk_tx sent ->
       fst (read_request (request_protocol r) inc) = request_delivered r.
Proof.
  intros Hb Ht Hr. eexists. split; [by apply write_request_wire|]. split; [done|]. intros inc Hi Hw.
  apply read_request_wire; [done..|]. rewrite Hw. simpl. by rewrite Ht.
Qed.

Context `{!BincodeOk BuildStatus (fun _ => True)}.

Lemma idle_metric_wire m s :
  sk_broken s = false -> length m = 8 -> concat (sk_rx s) = varint 8 ++ m ->
  fst (idle_metric_read_response s)
  = if decide (8 <= length (default [] (head (consume (length (varint 8)) (sk_rx s)))))
    then Ok m else Err InvalidData.
Proof.
  intros Hb Hm Hw. unfold idle_metric_read_response, sbind. rewrite (read_varint_ok 8 m s) by done.
  rewrite decide_False by lia. rewrite io_read_ok by done. simpl.
  pose proof (consume_concat (length (varint 8)) (sk_rx s)) as Hc.
  rewrite Hw, drop_app_length in Hc.
  rewrite consume_0_consume. destruct (consume (length (varint 8)) (sk_rx s)) as [|c cs] eqn:E; simpl in *.
  - by subst m.
  - rewrite length_take. destruct (decide (8 <= length c)) as [H8|H8].
    + rewrite decide_False by lia. rewrite <- Hc in Hm. rewrite length_app in Hm.
      rewrite take_ge by lia. assert (concat cs = []) as Hcs.
      { apply length_zero_iff_nil. lia. } by rewrite <- Hc, Hcs, app_nil_r.
    + by rewrite decide_True by lia.
Qed.

Lemma idle_metric_no_panic s : fst (idle_metric_read_response s) <> Panic.
Proof.
  unfold idle_metric_read_response, sbind. pose proof (read_varint_no_panic s) as Hv.
  destruct (read_varint s) as [[n| |] s1]; simpl in *; try done. case_decide; [done|].
  pose proof (io_read_no_panic 8 s1) as Hr. destruct (io_read 8 s1) as [[b| |] s2]; simpl in *; try done.
  by case_decide.
Qed.

Lemma smap_no_panic {A B} (f : A -> B) (c : io A) s : fst (c s) <> Panic -> fst (smap f c s) <> Panic.
Proof. rewrite fst_smap. by destruct (fst (c s)). Qed.

Lemma write_response_wire r out :
  sk_broken out = false -> response_ok r ->
  write_response r out
  = (Ok tt, (if response_closes r then sk_close else id) (sk_send (response_wire r) out)).
Proof.
  intros Hb Hr. destruct r as [d|t|m|d|st]; simpl in Hr; [by apply write_close_ok|by apply write_ok; [|apply Hr]| |
    by apply write_close_ok|].
  - apply write_close_ok; [done|]. replace (len m) with 8%Z by (unfold len; lia). done.
  - destruct (bincode_roundtrip st) as (bs & Hs & _); [done|]. simpl. rewrite Hs in *. simpl in *.
    unfold build_status_write_response. rewrite Hs. by apply write_ok.
Qed.

Lemma read_response_wire r inc :
  sk_broken inc = false -> response_ok r -> concat (sk_rx inc) = response_wire r ->
  fst (read_response (response_protocol r) inc) = response_delivered r (sk_rx inc).
Proof.
  intros Hi Hr Hw. destruct r as [d|t|m|d|st]; simpl in Hr, Hw.
  - by apply (frame_delivered _ (fun vec => sret vec)).
  - destruct Hr as [Hu Hl]. apply (frame_delivered _ (parse_string id)); try done. intros s'. by apply parse_string_ok.
  - unfold frame in Hw. replace (len m) with 8%Z in Hw by (unfold len; lia). simpl. rewrite fst_smap.
    rewrite (idle_metric_wire m inc Hi Hr Hw). by case_decide.
  - by apply (frame_delivered _ (fun vec => sret vec)).
  - destruct (bincode_roundtrip st) as (bs & Hs & Hd); [done|]. simpl. rewrite Hs in *. simpl in *.
    specialize (Hd []). rewrite app_nil_r in Hd.
    apply (frame_delivered _ parse_status); try done. intros s'. unfold parse_status. by rewrite Hd.
Qed.

(** C29. A response that a node writes is read by its peer when it is not empty and within the limit of its protocol, an
    empty one is an unexpected end (an empty artifact cannot be fetched) and a larger one invalid
    data; a metric is read when its eight bytes arrive in one piece and is invalid data
    when the network cuts them, since the reader reads once. *)
Theorem responses_delivered (out : Socket) (r : Response) :
  sk_broken out = false -> sk_tx out = [] -> response_ok r ->
  exists sent,
    write_response r out = (Ok tt, sent) /\ sk_closed sent = sk_closed out || response_closes r
    /\ forall inc, sk_broken inc = false -> concat (sk_rx inc) = sk_tx sent ->
       fst (read_response (response_protocol r) inc) = response_delivered r (sk_rx inc).
Proof.
  intros Hb Ht Hr. eexists. split; [by apply write_response_wire|].
  assert (sk_tx ((if response_closes r then sk_close else id) (sk_send (response_wire r) out)) = response_wire r) as Htx
    by (destruct (response_closes r); simpl; by rewrite Ht).
  split; [destruct (response_closes r); simpl; by rewrite ?orb_true_r, ?orb_false_r|]. intros inc Hi Hw.
  apply read_response_wire; [done..|]. by rewrite Hw.
Qed.

(** The sizes that an accepted message has. *)
Definition request_bounded (r : Request) : Prop :=
  match r with
  | ArtifactRequest t | BuildRequest _ t | BuildStatusRequest t =>
      is_String t /\ (0 < len (as_bytes t) <= 1000000)%Z
  | IdleMetricRequest => True
  | BlockchainRequest d => (0 < len d <= 10485760)%Z
  end.

Definition response_bounded (r : Response) : Prop :=
  match r with
  | ArtifactResponse d => (0 < len d <= 100000000)%Z
  | BuildResponse t => is_String t /\ (0 < len (as_bytes t) <= 1000000)%Z
  | IdleMetricResponse m => length m = 8
  | BlockchainResponse d => (0 < len d <= 10485760)%Z
  | BuildStatusResponse status => exists d, (0 < len d <= 1000000)%Z /\ deserialize d = Some status
  end.

Lemma frame_string_Ok {A} max (f : string -> A) s a s' :
  frame_then max (parse_string f) s = (Ok a, s') ->
  exists t, a = f t /\ is_String t /\ (0 < len (as_bytes t) <= max)%Z.
Proof.
  intros (d & s1 & Hd & Hk)%frame_then_Ok. unfold parse_string in Hk.
  apply sbind_Ok in Hk as (t & s2 & Ht & Ha). unfold slift, sret in *. simplify_eq.
  destruct (String_from_utf8 d) as [t'|] eqn:E; simplify_eq/=.
  apply String_from_utf8_Some in E as [<- Hu]. by exists t.
Qed.

(** C34. Whatever bytes a peer sends, a request or a response that is accepted belongs to the protocol that was
    negotiated, has a payload of at least one byte and at most the limit of the protocol, and its texts
    are valid UTF-8: the memory that a peer can claim with one message is bounded. *)
Theorem accepted_messages_bounded (p : Protocol) (s s' : Socket) :
  (forall r, read_request p s = (Ok r, s') -> request_protocol r = p /\ request_bounded r)
  /\ (forall r, read_response p s = (Ok r, s') -> response_protocol r = p /\ response_bounded r).
Proof.
  split; intros r Hr; destruct p; simpl in Hr; apply smap_Ok in Hr as (a & -> & Hr); (split; [done|]); simpl.
  - by apply frame_string_Ok in Hr as (t & -> & ?).
  - rewrite build_read_request_frames in Hr. apply frame_then_Ok in Hr as (d & s1 & _ & Hk).
    apply sbind_Ok in Hk as (? & ? & _ & Hk). apply sbind_Ok in Hk as (? & ? & _ & Hk).
    by apply frame_string_Ok in Hk as (t & -> & ?).
  - done.
  - by apply (frame_then_Ok _ sret) in Hr as (d & s1 & Hd & [= <- <-]).
  - by apply frame_string_Ok in Hr as (t & -> & ?).
  - by apply (frame_then_Ok _ sret) in Hr as (d & s1 & Hd & [= <- <-]).
  - by apply (frame_string_Ok _ id) in Hr as (t & -> & ?).
  - unfold idle_metric_read_response in Hr. apply sbind_Ok in Hr as (n & s1 & _ & Hr).
    case_decide; [done|]. apply sbind_Ok in Hr as (buff & s2 & _ & Hr). case_decide as Hl; [done|].
    by injection Hr as <- <-.
  - by apply (frame_then_Ok _ sret) in Hr as (d & s1 & Hd & [= <- <-]).
  - apply (frame_then_Ok _ parse_status) in Hr as (d & s1 & Hd & Hk). exists d. split; [done|].
    unfold parse_status in Hk. apply sbind_Ok in Hk as (st & s2 & Hp & [= <- <-]).
    unfold slift in Hp. by destruct (deserialize d); simplify_eq/=.
Qed.

(** The readers of texts panic on a frame exactly when it is not UTF-8. *)
Lemma frame_panics {A B} (k : bytes -> io A) (f : A -> B) (bad : Prop) d rest s :
  sk_broken s = false -> (0 < len d <= 1000000)%Z ->
  concat (sk_rx s) = (varint (len d) ++ d) ++ rest ->
  (forall s', fst (k d s') = Panic <-> bad) ->
  fst (smap f (frame_then 1000000 k) s) = Panic <-> bad.
Proof.
  intros Hb Hd Hw Hk. rewrite fst_smap.
  destruct (frame_then_wire 1000000 k d rest s Hb) as (s' & _ & _ & ->); [unfold fits; lia|done|done|].
  rewrite decide_False by (intros ->; unfold len in Hd; simpl in Hd; lia).
  replace (len d <=? 1000000)%Z with true by lia. rewrite <- (Hk s'). by destruct (fst (k d s')).
Qed.

Lemma parse_string_panics {A} (f : string -> A) d s :
  fst (parse_string f d s) = Panic <-> utf8_valid d = false.
Proof. unfold parse_string, String_from_utf8. by destruct (utf8_valid d). Qed.

(** What a peer can do with one frame within the limit: a text that is not UTF-8 makes the reader of
    artifact requests, of build status requests and of build responses panic, a package type that is
    unknown or not UTF-8 the reader of build requests, and bytes that are no build status the reader
    of build status responses; the readers of artifacts, blockchain messages and metrics never panic. *)
Theorem peer_bytes_panic (d rest : bytes) (s : Socket) :
  sk_broken s = false -> (0 < len d <= 1000000)%Z ->
  concat (sk_rx s) = (varint (len d) ++ d) ++ rest ->
  (fst (read_request PArtifact s) = Panic <-> utf8_valid d = false)
  /\ (fst (read_request PBuildStatus s) = Panic <-> utf8_valid d = false)
  /\ (fst (read_response PBuild s) = Panic <-> utf8_valid d = false)
  /\ (fst (read_response PBuildStatus s) = Panic <-> deserialize d = None)
  /\ (String_from_utf8 d ≫= PackageType_from_str = None -> fst (read_request PBuild s) = Panic)
  /\ (forall p s', p <> PArtifact -> p <> PBuild -> p <> PBuildStatus -> fst (read_request p s') <> Panic)
  /\ (forall p s', p <> PBuild -> p <> PBuildStatus -> fst (read_response p s') <> Panic).
Proof.
  intros Hb Hd Hw. split_and!.
  - apply (frame_panics _ _ _ d rest); try done. intros s'. apply parse_string_panics.
  - apply (frame_panics _ _ _ d rest); try done. intros s'. apply parse_string_panics.
  - apply (frame_panics (parse_string id) _ _ d rest); try done. intros s'. apply parse_string_panics.
  - apply (frame_panics parse_status _ _ d rest); try done. intros s'. unfold parse_status.
    by destruct (deserialize d).
  - intros Hp. unfold read_request. rewrite build_read_request_frames.
    apply (frame_panics _ _ True d rest); try done. intros s'. split; [done|]. intros _.
    unfold parse_build_request. destruct (String_from_utf8 d) as [t|]; [|done]. simpl in Hp. unfold_stm.
    simpl. by rewrite Hp.
  - intros [] s' ???; try done. by apply smap_no_panic, (frame_then_no_panic _ sret).
  - intros [] s' ??; try done; apply smap_no_panic;
      [by apply (frame_then_no_panic _ sret)|apply idle_metric_no_panic|by apply (frame_then_no_panic _ sret)].
Qed.
End Protocols.

(** ** LEB128

    The instance: a length in groups of seven bits, the lowest first; a length of
    [usize] has at most ten groups. *)
Fixpoint leb_encode (fuel : nat) (n : Z) : bytes :=
  match fuel with
  | 0 => []
  | S fuel' =>
      if (n <? 128)%Z then [byte_of_Z n]
      else byte_of_Z (128 + n mod 128) :: leb_encode fuel' (n / 128)
  end.

(** The number and how many bytes it has. *)
Fixpoint leb_decode (fuel : nat) (bs : bytes) : outcome io_error (Z * nat) :=
  match fuel, bs with
  | 0, _ => Err InvalidData
  | _, [] => Err UnexpectedEof
  | S fuel', b :: rest =>
      if (Z_of_byte b <? 128)%Z then Ok (Z_of_byte b, 1)
      else let? p := leb_decode fuel' rest in Ok ((Z_of_byte b - 128 + 128 * fst p)%Z, S (snd p))
  end.

Lemma leb_roundtrip fuel n rest :
  (0 <= n < 128 ^ Z.of_nat fuel)%Z -> 0 < fuel ->
  leb_decode fuel (leb_encode fuel n ++ rest) = Ok (n, length (leb_encode fuel n)).
Proof.
  revert n; induction fuel as [|fuel IH]; intros n Hn Hf; [lia|]. simpl.
  destruct (n <? 128)%Z eqn:E; simpl; rewrite byte_of_Z_to_Z.
  - rewrite Z.mod_small by lia. by rewrite E.
  - pose proof (Z.mod_pos_bound n 128 ltac:(lia)) as Hm. rewrite (Z.mod_small _ 256) by lia.
    replace (128 + n mod 128 <? 128)%Z with false by lia.
    rewrite Nat2Z.inj_succ, Z.pow_succ_r in Hn by lia.
    pose proof (Z.div_mod n 128 ltac:(lia)) as Hdm.
    destruct fuel as [|fuel].
    { simpl in Hn. lia. }
    rewrite IH; [|split; [apply Z.div_pos; lia|apply Z.div_lt_upper_bound; lia]|lia].
    simpl. do 2 f_equal. lia.
Qed.

Definition LEB_FUEL : nat := 10.

Lemma leb_u64 n rest :
  u64 n -> leb_decode LEB_FUEL (leb_encode LEB_FUEL n ++ rest) = Ok (n, length (leb_encode LEB_FUEL n)).
Proof.
  intros Hn. apply leb_roundtrip; [|unfold LEB_FUEL; lia].
  change (128 ^ Z.of_nat LEB_FUEL)%Z with (2 ^ 70)%Z. unfold fits in Hn. lia.
Qed.

(** At the end of the input a length is zero. *)
Definition leb_read_varint : io Z := fun s =>
  match concat (sk_rx s) with
  | [] => (Ok 0%Z, s)
  | bs => match leb_decode LEB_FUEL bs with
          | Ok (n, k) => (Ok n, sk_consume k s)
          | Err e => (Err e, s)
          | Panic => (Panic, s)
          end
  end.

Definition leb_read_length_prefixed (max : Z) : io bytes := fun s =>
  match leb_read_varint s with
  | (Ok n, s1) =>
      if (n <=? max)%Z then
        if (n <=? len (concat (sk_rx s1)))%Z
        then (Ok (take (Z.to_nat n) (concat (sk_rx s1))), sk_consume (Z.to_nat n) s1)
        else (Err UnexpectedEof, s1)
      else (Err InvalidData, s1)
  | (Err e, s1) => (Err e, s1)
  | (Panic, s1) => (Panic, s1)
  end.

#[export] Instance leb_socket_io : SocketIo := {|
  varint := leb_encode LEB_FUEL;
  read_varint := leb_read_varint;
  read_length_prefixed := leb_read_length_prefixed;
  write_length_prefixed := fun d s =>
    if sk_broken s then (Err IoOther, s) else (Ok tt, sk_send (leb_encode LEB_FUEL (len d) ++ d) s);
  io_read := fun n s =>
    let got := match consume 0 (sk_rx s) with [] => [] | c :: _ => take n c end in
    (Ok got, sk_consume (length got) s);
  io_close := fun s => if sk_broken s then (Err IoOther, s) else (Ok tt, sk_close s) |}.

Lemma leb_encode_nonempty n : leb_encode LEB_FUEL n <> [].
Proof. simpl. by destruct (n <? 128)%Z. Qed.

Lemma leb_read_varint_wire n rest s :
  u64 n -> concat (sk_rx s) = leb_encode LEB_FUEL n ++ rest ->
  leb_read_varint s = (Ok n, sk_consume (length (leb_encode LEB_FUEL n)) s).
Proof.
  intros Hn Hw. unfold leb_read_varint. rewrite Hw.
  destruct (leb_encode LEB_FUEL n ++ rest) as [|b bs] eqn:E.
  - apply app_eq_nil in E as [E _]. by destruct (leb_encode_nonempty n).
  - by rewrite <- E, (leb_u64 n rest Hn).
Qed.

Lemma leb_decode_no_panic fuel bs : leb_decode fuel bs <> Panic.
Proof.
  revert bs; induction fuel as [|fuel IH]; intros [|b bs]; simpl; try done.
  destruct (_ <? _)%Z; [done|]. specialize (IH bs). by destruct (leb_decode fuel bs).
Qed.

Lemma leb_read_varint_no_panic s : fst (leb_read_varint s) <> Panic.
Proof.
  unfold leb_read_varint. destruct (concat (sk_rx s)) as [|b bs]; [done|].
  pose proof (leb_decode_no_panic LEB_FUEL (b :: bs)). by destruct (leb_decode _ _) as [[]| |].
Qed.

Lemma leb_decode_nonneg fuel bs n k : leb_decode fuel bs = Ok (n, k) -> (0 <= n)%Z.
Proof.
  revert bs n k; induction fuel as [|fuel IH]; intros [|b bs] n k; simpl; try done.
  destruct (_ <? _)%Z eqn:E; [intros [= <- _]; unfold Z_of_byte; lia|].
  destruct (leb_decode fuel bs) as [[m j]| |] eqn:Ed; simpl; try done.
  intros [= <- _]. apply IH in Ed. lia.
Qed.

Lemma leb_read_frame max d rest s :
  u64 (len d) -> concat (sk_rx s) = leb_encode LEB_FUEL (len d) ++ d ++ rest ->
  leb_read_length_prefixed max s =
    if (len d <=? max)%Z
    then (Ok d, sk_consume (length (leb_encode LEB_FUEL (len d)) + length d) s)
    else (Err InvalidData, sk_consume (length (leb_encode LEB_FUEL (len d))) s).
Proof.
  intros Hd Hw. unfold leb_read_length_prefixed.
  rewrite (leb_read_varint_wire (len d) (d ++ rest) s Hd Hw). destruct (len d <=? max)%Z; [|done].
  set (k := length (leb_encode LEB_FUEL (len d))) in *.
  assert (concat (sk_rx (sk_consume k s)) = d ++ rest) as Hc.
  { simpl. rewrite consume_concat, Hw. apply drop_app_length. }
  rewrite Hc. replace (len d <=? len (d ++ rest))%Z with true
    by (symmetry; apply Z.leb_le; unfold len; rewrite length_app; clear; lia).
  unfold len. rewrite Nat2Z.id, take_app_length. unfold sk_consume; simpl.
  by rewrite consume_consume.
Qed.

Lemma leb_frame_bound max s d s' :
  leb_read_length_prefixed max s = (Ok d, s') -> (len d <= max)%Z.
Proof.
  unfold leb_read_length_prefixed. destruct (leb_read_varint s) as [[n| |] s1] eqn:E; try done.
  destruct (n <=? max)%Z eqn:Em; [|done]. destruct (n <=? len (concat (sk_rx s1)))%Z; [|done]. intros [= <- <-].
  assert (0 <= n)%Z as Hn.
  { revert E. unfold leb_read_varint. destruct (concat (sk_rx s)) as [|b bs]; [intros [= <- _]; lia|].
    destruct (leb_decode LEB_FUEL (b :: bs)) as [[m k]| |] eqn:Ed; intros [= -> _].
    by apply leb_decode_nonneg in Ed. }
  unfold len. rewrite length_take. lia.
Qed.

#[export] Instance leb_socket_io_ok : SocketIoOk.
Proof.
  split.
  - intros d s Hb _. simpl. by rewrite Hb.
  - intros s Hb. simpl. by rewrite Hb.
  - intros max d rest s _ Hd Hw. by apply leb_read_frame with rest.
  - apply leb_frame_bound.
  - intros max s. simpl. unfold leb_read_length_prefixed. pose proof (leb_read_varint_no_panic s).
    destruct (leb_read_varint s) as [[n| |] s1]; try done. by repeat case_match.
  - intros max s _ Hm Hw. simpl. unfold leb_read_length_prefixed, leb_read_varint. rewrite Hw.
    replace (0 <=? max)%Z with true by lia. by rewrite Hw.
  - intros n rest s _ Hn Hw. by apply leb_read_varint_wire with rest.
  - apply leb_read_varint_no_panic.
  - done.
  - done.
Qed.

(** ** bincode of build statuses *)
Definition enc_string : enc_t string := fun s => enc_bytes (as_bytes s).
Definition dec_string : dec_t string := fun bs =>
  and_then (dec_bytes bs) (fun d rest => Some (String.string_of_list_byte d, rest)).

Definition enc_status : enc_t BuildStatus := fun st =>
  match st with
  | Running => [x00]
  | Success urls => x01 :: enc_list enc_string urls
  | Failure message => x02 :: enc_string message
  end.
Definition dec_status : dec_t BuildStatus := fun bs =>
  match bs with
  | x00 :: rest => Some (Running, rest)
  | x01 :: rest => and_then (dec_seq dec_string rest) (fun urls rest => Some (Success urls, rest))
  | x02 :: rest => and_then (dec_string rest) (fun message rest => Some (Failure message, rest))
  | _ => None
  end.

Lemma enc_string_ok : codec_ok (fun _ => True) enc_string dec_string.
Proof.
  intros s rest _. unfold enc_string, dec_string. rewrite enc_bytes_ok by done. simpl.
  unfold as_bytes. by rewrite String.string_of_list_byte_of_string.
Qed.

Lemma enc_status_ok : codec_ok (fun _ => True) enc_status dec_status.
Proof.
  intros [|urls|message] rest _; simpl; [done| |by rewrite enc_string_ok].
  rewrite (enc_list_ok _ _ _ enc_string_ok); [done|]. by apply Forall_true.
Qed.

#[export] Instance sample_status_bincode : Bincode BuildStatus := codec_bincode enc_status dec_status.
#[export] Instance sample_status_bincode_ok : BincodeOk BuildStatus (fun _ => True) :=
  codec_bincode_ok _ _ _ enc_status_ok.

(** ** Instances of the properties *)
Definition sample_socket (pieces : list bytes) : Socket :=
  {| sk_rx := pieces; sk_tx := []; sk_closed := false; sk_broken := false |}.

(** "é" *)
Example utf8_two_bytes : utf8_valid [xc3; xa9] = true.
Proof. reflexivity. Qed.
(** An overlong form, a surrogate and a code point that is too large. *)
Example utf8_rejected :
  utf8_valid [xc0; x80] = false /\ utf8_valid [xed; xa0; x80] = false
  /\ utf8_valid [xf4; x90; x80; x80] = false.
Proof. repeat split; reflexivity. Qed.

Lemma requests_delivered_witness :
  exists sent,
    write_request (BuildRequest Docker "alpine:3.16") (sample_socket []) = (Ok tt, sent)
    /\ sk_closed sent = true
    /\ forall inc, sk_broken inc = false -> concat (sk_rx inc) = sk_tx sent ->
       fst (read_request PBuild inc) = Ok (BuildRequest Docker "alpine:3.16").
Proof.
  apply (requests_delivered (sample_socket []) (BuildRequest Docker "alpine:3.16")); [done|done|].
  split; [reflexivity|]. split; vm_compute; congruence.
Defined.

(** The metric 0.25 in one piece and in two. *)
Lemma responses_delivered_witness :
  exists sent,
    write_response (IdleMetricResponse [x00; x00; x00; x00; x00; x00; xd0; x3f]) (sample_socket []) = (Ok tt, sent)
    /\ sk_closed sent = false || true
    /\ (forall inc, sk_broken inc = false -> concat (sk_rx inc) = sk_tx sent ->
        fst (read_response PIdleMetric inc)
        = response_delivered (IdleMetricResponse [x00; x00; x00; x00; x00; x00; xd0; x3f]) (sk_rx inc))
    /\ response_delivered (IdleMetricResponse []) [[x08; x00; x00; x00; x00; x00; x00; xd0]; [x3f]]
       = Err InvalidData.
Proof.
  destruct (responses_delivered (sample_socket [])
    (IdleMetricResponse [x00; x00; x00; x00; x00; x00; xd0; x3f])) as (sent & H1 & H2 & H3);
    [done|done|done|].
  exists sent. split; [exact H1|]. split; [by rewrite H2|]. split; [exact H3|reflexivity].
Defined.

Lemma accepted_messages_bounded_witness :
  request_protocol (ArtifactRequest "a") = PArtifact /\ request_bounded (ArtifactRequest "a").
Proof.
  apply (proj1 (accepted_messages_bounded PArtifact (sample_socket [[x01]; [x61]]) (sample_socket []))).
  reflexivity.
Defined.

Lemma peer_bytes_panic_witness : fst (read_request PArtifact (sample_socket [[x01; xff]])) = Panic.
Proof.
  apply (proj1 (peer_bytes_panic [xff] [] (sample_socket [[x01; xff]]) eq_refl
    ltac:(unfold len; simpl; lia) eq_refl)). reflexivity.
Defined.
