(* ===== verification/Metrics.v ===== *)
(** * Metrics: the load that a node advertises

    Models src/peer_metrics/metrics.rs.  The sysinfo crate is the class [Sysinfo].  The
    arithmetic of [f64] is the Standard Library's specification of IEEE 754 at the precision
    of binary64; a value goes over the network as the eight bytes of its bits, which
    [Client] reads back. *)

From Stdlib Require Import Floats.SpecFloat.
From S2P Require Import Prelude Sample Client.

Abbreviation f64 := spec_float.
Definition f64_mul : f64 -> f64 -> f64 := SFmul 53 1024.
Definition f64_add : f64 -> f64 -> f64 := SFadd 53 1024.
(** [z as f64] *)
Definition f64_of_u64 (z : Z) : f64 := binary_normalize 53 1024 z 0 false.

(** The literals [2_f64] and [0.001_f64], rounded to the nearest double. *)
Definition CPU_STRESS_WEIGHT : f64 := S754_finite false 4503599627370496 (-51).
Definition NETWORK_STRESS_WEIGHT : f64 := S754_finite false 4611686018427388 (-62).
Definition DISK_STRESS_WEIGHT : f64 := S754_finite false 4611686018427388 (-62).

(** [f64::to_bits]; the quiet NaN stands for every NaN. *)
Definition f64_to_bits (x : f64) : Z :=
  let sign (s : bool) := if s then (2 ^ 63)%Z else 0%Z in
  match x with
  | S754_zero s => sign s
  | S754_infinity s => (sign s + 0x7FF0000000000000)%Z
  | S754_nan => 0x7FF8000000000000
  | S754_finite s m e =>
      if (Zpos (digits2_pos m) =? 53)%Z
      then (sign s + (e + 1075) * 2 ^ 52 + (Zpos m - 2 ^ 52))%Z
      else (sign s + Zpos m)%Z
  end.
Definition f64_to_le_bytes (x : f64) : bytes := enc_le 8 (f64_to_bits x).

(** ** sysinfo *)
Class Sysinfo := {
  System : Type;
  System_new_all : System;
  refresh_all : System -> System;
  (** [load_average().one] *)
  load_average_one : System -> f64;
  (** Received and transmitted bytes of every interface. *)
  networks : System -> list (Z * Z);
  (** Total written and read bytes of every process. *)
  disk_usages : System -> list (Z * Z);
}.

(** A load average is a double that is not negative and not NaN. *)
Definition f64_load (x : f64) : Prop :=
  valid_binary 53 1024 x = true /\
  match x with S754_nan => False | S754_zero s | S754_infinity s | S754_finite s _ _ => s = false end.

Class SysinfoOk `{Sysinfo} : Prop := load_average_ok (s : System) : f64_load (load_average_one s).

Section Metrics.
Context `{Sysinfo}.

Record PeerMetrics := { system : System }.

(** The half second of sleep between the two measurements is left out. *)
Definition initialize (self : PeerMetrics) : PeerMetrics :=
  {| system := refresh_all (refresh_all (system self)) |}.

Definition PeerMetrics_new : PeerMetrics := initialize {| system := System_new_all |}.

Definition get_cpu_stress (s : System) : f64 * System :=
  let s := refresh_all s in
  (load_average_one s, s).

Definition get_network_stress (s : System) : f64 * System :=
  let s := refresh_all s in
  let packets_in := fold_left (fun acc n => wrap 64 (acc + fst n)) (networks s) 0%Z in
  let packets_out := fold_left (fun acc n => wrap 64 (acc + snd n)) (networks s) 0%Z in
  (f64_add (f64_of_u64 packets_in) (f64_of_u64 packets_out), s).

Definition get_disk_stress (s : System) : f64 * System :=
  let s := refresh_all s in
  let total_usage := fold_left (fun acc u => wrap 64 (wrap 64 (acc + fst u) + snd u)) (disk_usages s) 0%Z in
  (f64_of_u64 total_usage, s).

Definition get_quality_metric (self : PeerMetrics) : f64 * PeerMetrics :=
  let '(cpu, s1) := get_cpu_stress (system self) in
  let qm := f64_mul cpu CPU_STRESS_WEIGHT in
  let '(net, s2) := get_network_stress s1 in
  let qm := f64_add qm (f64_mul net NETWORK_STRESS_WEIGHT) in
  let '(disk, s3) := get_disk_stress s2 in
  (f64_add qm (f64_mul disk DISK_STRESS_WEIGHT), {| system := s3 |}).
End Metrics.

(** ** Rounding

    The mantissa of a positive number is positive and shrinks to the precision: what is proved of
    the specification is that its results are doubles. *)
Lemma digits_log2 p : Zpos (digits2_pos p) = (Z.log2 (Zpos p) + 1)%Z.
Proof.
  induction p as [p IH|p IH|]; [| |done]; cbn [digits2_pos]; rewrite Pos2Z.inj_succ, IH.
  - rewrite (Pos2Z.inj_xI p), Z.log2_succ_double by lia. lia.
  - rewrite (Pos2Z.inj_xO p), Z.log2_double by lia. lia.
Qed.

Lemma Zdigits2_log2 m : (0 < m)%Z -> Zdigits2 m = (Z.log2 m + 1)%Z.
Proof. destruct m; try lia. intros _. apply digits_log2. Qed.

Lemma shr_1_div r : (0 <= shr_m r)%Z -> shr_m (shr_1 r) = (shr_m r / 2)%Z.
Proof.
  destruct r as [m r s]; simpl. destruct m as [|[p|p|]|]; simpl; try lia; intros _.
  - done.
  - rewrite (Pos2Z.inj_xI p). apply Z.div_unique with 1%Z; lia.
  - rewrite (Pos2Z.inj_xO p). apply Z.div_unique with 0%Z; lia.
  - done.
Qed.

Lemma iter_shr_div n r :
  (0 <= shr_m r)%Z -> shr_m (SpecFloat.iter_pos shr_1 n r) = (shr_m r / 2 ^ Zpos n)%Z.
Proof.
  revert r; induction n as [n IH|n IH|]; intros r Hr; simpl.
  - assert (0 <= shr_m (shr_1 r))%Z as H1 by (rewrite shr_1_div by done; apply Z.div_pos; lia).
    rewrite IH; rewrite IH by done; rewrite shr_1_div by done.
    + rewrite !Z.div_div by lia. f_equal. rewrite (Pos2Z.inj_xI n), Z.pow_add_r, Z.pow_twice_r by lia. lia.
    + apply Z.div_pos; [apply Z.div_pos|]; lia.
  - rewrite IH; rewrite IH by done.
    + rewrite Z.div_div by lia. f_equal. by rewrite (Pos2Z.inj_xO n), Z.pow_twice_r.
    + apply Z.div_pos; lia.
  - by apply shr_1_div.
Qed.

(** The smallest exponent that a number of this magnitude can have. *)
Abbreviation fx := (fexp 53 1024).

Lemma fx_eq e : fx e = Z.max (e - 53) (-1074).
Proof. reflexivity. Qed.

Lemma shr_fexp_spec m e l :
  (0 <= m)%Z ->
  exists mrs e', shr_fexp 53 1024 m e l = (mrs, e')
    /\ e' = Z.max e (fx (Zdigits2 m + e)) /\ shr_m mrs = (m / 2 ^ (e' - e))%Z.
Proof.
  intros Hm. unfold shr_fexp.
  assert (shr_m (shr_record_of_loc m l) = m) as Hr by (by destruct l as [|[]]).
  destruct (fx (Zdigits2 m + e) - e)%Z as [|p|p] eqn:E; simpl; eexists _, _; split_and!; try done.
  - lia.
  - by rewrite Hr, Z.sub_diag, Z.div_1_r.
  - lia.
  - rewrite iter_shr_div by (by rewrite Hr). rewrite Hr. do 2 f_equal. lia.
  - lia.
  - by rewrite Hr, Z.sub_diag, Z.div_1_r.
Qed.

Lemma round_nearest_even_near m l :
  round_nearest_even m l = m \/ round_nearest_even m l = (m + 1)%Z.
Proof. destruct l as [|[]]; simpl; try case_match; auto. Qed.

Lemma log2_range m k : (0 <= k)%Z -> (2 ^ k <= m < 2 ^ (k + 1))%Z -> Z.log2 m = k.
Proof. intros Hk Hm. by apply Z.log2_unique. Qed.

Definition canonical_b (m : Z) (e : Z) : Prop := fx (Zdigits2 m + e) = e.

(** One rounding step after the shift: the mantissa is below 2^53 and canonical. *)
Lemma shifted_mantissa m e :
  (0 < m)%Z -> (e <= fx (Zdigits2 m + e))%Z ->
  let e' := fx (Zdigits2 m + e) in
  let m' := (m / 2 ^ (e' - e))%Z in
  (0 <= m' < 2 ^ 53)%Z /\ (e' = -1074 \/ 2 ^ 52 <= m')%Z /\ (-1074 <= e')%Z.
Proof.
  intros Hm He. cbv zeta. rewrite (Zdigits2_log2 m Hm) in *.
  pose proof (Z.log2_spec m Hm) as [Hlo Hhi]. pose proof (Z.log2_nonneg m) as Hl.
  set (d := Z.log2 m) in *. rewrite fx_eq in *.
  set (k := (Z.max (d + 1 + e - 53) (-1074) - e)%Z) in *.
  assert (0 <= k)%Z as Hk by lia.
  split_and!; [apply Z.div_pos; lia| | |lia].
  - apply Z.div_lt_upper_bound; [lia|].
    apply Z.lt_le_trans with (2 ^ (d + 1))%Z; [lia|].
    rewrite <- Z.pow_add_r by lia. apply Z.pow_le_mono_r; lia.
  - destruct (decide (Z.max (d + 1 + e - 53) (-1074) = -1074)%Z) as [|Hn]; [by left|right].
    apply Z.div_le_lower_bound; [lia|]. rewrite <- Z.pow_add_r by lia.
    apply Z.le_trans with (2 ^ d)%Z; [|lia]. apply Z.pow_le_mono_r; lia.
Qed.

(** What is left to do after the mantissa was rounded. *)
Lemma second_shift m e :
  (0 < m <= 2 ^ 53)%Z -> (e = -1074 \/ 2 ^ 52 <= m)%Z -> (-1074 <= e)%Z ->
  let e' := Z.max e (fx (Zdigits2 m + e)) in
  let m' := (m / 2 ^ (e' - e))%Z in
  (0 < m')%Z /\ canonical_b m' e'.
Proof.
  intros Hm Hc He. cbv zeta. unfold canonical_b. rewrite (Zdigits2_log2 m) by lia. rewrite !fx_eq.
  destruct (decide (m = 2 ^ 53)%Z) as [->|Hn].
  - rewrite Z.log2_pow2 by lia. replace (Z.max e (Z.max (53 + 1 + e - 53) (-1074))) with (e + 1)%Z by lia.
    replace (e + 1 - e)%Z with 1%Z by lia. rewrite Zdigits2_log2 by (vm_compute; done).
    replace (Z.log2 (2 ^ 53 / 2 ^ 1)) with 52%Z by reflexivity. split; [vm_compute; done|lia].
  - assert (Z.log2 m <= 52)%Z as Hl.
    { apply Z.lt_succ_r. apply Z.log2_lt_pow2; lia. }
    replace (Z.max e (Z.max (Z.log2 m + 1 + e - 53) (-1074))) with e by lia.
    rewrite Z.sub_diag, Z.div_1_r. split; [lia|]. rewrite Zdigits2_log2 by lia.
    destruct Hc as [->|Hc]; [lia|]. rewrite (log2_range m 52) by lia. lia.
Qed.

(** Rounding a positive number gives a double that is not negative and not NaN. *)
Lemma round_aux_load m e l :
  (0 < m)%Z -> (e <= fx (Zdigits2 m + e))%Z -> f64_load (binary_round_aux 53 1024 false m e l).
Proof.
  intros Hm He. unfold binary_round_aux.
  destruct (shr_fexp_spec m e l) as (mrs & e1 & -> & He1 & Hs1); [lia|].
  rewrite Z.max_r in He1 by lia. destruct (shifted_mantissa m e Hm He) as (Hb & Hc & Hmin). subst e1.
  set (e1 := fx (Zdigits2 m + e)) in *. rewrite <- Hs1 in Hb, Hc.
  set (m1 := round_nearest_even (shr_m mrs) (loc_of_shr_record mrs)).
  assert (0 <= m1 <= 2 ^ 53 /\ (e1 = -1074 \/ 2 ^ 52 <= m1))%Z as [Hb1 Hc1].
  { destruct (round_nearest_even_near (shr_m mrs) (loc_of_shr_record mrs)) as [E|E]; unfold m1; rewrite E; lia. }
  destruct (shr_fexp_spec m1 e1 loc_Exact) as (mrs2 & e2 & -> & He2 & Hs2); [lia|].
  destruct (decide (m1 = 0)%Z) as [Hz|Hz].
  { rewrite Hs2, Hz, Z.div_0_l by lia. done. }
  destruct (second_shift m1 e1) as [Hp Hcan]; [lia|done|lia|]. rewrite <- He2, <- Hs2 in Hp, Hcan.
  destruct (shr_m mrs2) as [|p|p]; [lia| |lia].
  destruct (e2 <=? _)%Z eqn:E; [|done]. split; [|done]. unfold valid_binary, bounded, canonical_mantissa.
  rewrite E, andb_true_r. by apply Z.eqb_eq.
Qed.

Lemma iter_xO m d : Zpos (Pos.iter xO m d) = (Zpos m * 2 ^ Zpos d)%Z.
Proof.
  induction d as [|d IH] using Pos.peano_ind; [change (Zpos (xO m) = Zpos m * 2)%Z; lia|].
  rewrite Pos.iter_succ, Pos2Z.inj_succ, Z.pow_succ_r, (Pos2Z.inj_xO (Pos.iter xO m d)), IH by lia. lia.
Qed.

Lemma binary_round_load m e : f64_load (binary_round 53 1024 false m e).
Proof.
  unfold binary_round, shl_align. rewrite digits_log2.
  destruct (fx (Z.log2 (Zpos m) + 1 + e) - e)%Z as [|p|p] eqn:E;
    (apply round_aux_load; [done|]); rewrite Zdigits2_log2 by done; [lia|lia|].
  rewrite iter_xO, Z.log2_mul_pow2 by lia.
  replace (Zpos p + Z.log2 (Zpos m) + 1 + fx (Z.log2 (Zpos m) + 1 + e))%Z
    with (Z.log2 (Zpos m) + 1 + e)%Z by lia.
  done.
Qed.

Lemma f64_of_u64_load z : (0 <= z)%Z -> f64_load (f64_of_u64 z).
Proof. intros Hz. unfold f64_of_u64, binary_normalize. destruct z; [done|apply binary_round_load|lia]. Qed.

(** A weight: a positive double of full precision. *)
Definition weight (w : f64) : Prop :=
  match w with S754_finite false m _ => Z.log2 (Zpos m) = 52%Z | _ => False end.

Lemma f64_mul_load x w : f64_load x -> weight w -> f64_load (f64_mul x w).
Proof.
  intros [Hv Hx] Hw. destruct w as [| | |[] my ey]; try done.
  change (Z.log2 (Zpos my) = 52)%Z in Hw.
  destruct x as [s|s| |s mx ex]; try (subst s); try done. unfold f64_mul; cbn [SFmul xorb].
  apply round_aux_load; [lia|]. rewrite Zdigits2_log2 by lia.
  unfold valid_binary, bounded, canonical_mantissa in Hv. apply andb_true_iff in Hv as [Hv _].
  apply Z.eqb_eq in Hv. rewrite digits_log2, fx_eq in Hv. rewrite fx_eq.
  assert (Z.log2 (Zpos mx) + 52 <= Z.log2 (Zpos (mx * my)))%Z as Hl.
  { rewrite Pos2Z.inj_mul, <- Hw. apply Z.log2_mul_below; lia. }
  pose proof (Z.log2_nonneg (Zpos mx)) as Hn. clear - Hv Hl Hn. lia.
Qed.

Lemma f64_add_load x y : f64_load x -> f64_load y -> f64_load (f64_add x y).
Proof.
  intros [Hvx Hx] [Hvy Hy].
  destruct x as [sx|sx| |sx mx ex], y as [sy|sy| |sy my ey]; try (subst sx); try (subst sy);
    try done; unfold f64_add; cbn [SFadd].
  unfold cond_Zopp. apply binary_round_load.
Qed.

Section MetricsFacts.
Context `{Sysinfo} `{!SysinfoOk}.

Lemma fold_wrap_nonneg {A} (f : Z -> A -> Z) (l : list A) z :
  (forall acc a, 0 <= wrap 64 (f acc a))%Z -> (0 <= z)%Z ->
  (0 <= fold_left (fun acc a => wrap 64 (f acc a)) l z)%Z.
Proof. intros Hf. revert z; induction l as [|a l IH]; intros z Hz; simpl; [done|]. by apply IH. Qed.

Lemma wrap_nonneg z : (0 <= wrap 64 z)%Z.
Proof. by apply wrap_fits. Qed.

Lemma quality_metric_load (self : PeerMetrics) : f64_load (fst (get_quality_metric self)).
Proof.
  unfold get_quality_metric, get_cpu_stress, get_network_stress, get_disk_stress. simpl.
  apply f64_add_load; [apply f64_add_load|]; (apply f64_mul_load; [|done]).
  - apply load_average_ok.
  - apply f64_add_load; apply f64_of_u64_load; apply fold_wrap_nonneg; auto using wrap_nonneg; lia.
  - apply f64_of_u64_load, fold_wrap_nonneg; auto using wrap_nonneg; lia.
Qed.
End MetricsFacts.

(** ** The bits on the network *)
Lemma enc_le_bits n z : bits_of_le_bytes (enc_le n z) = (z mod 256 ^ Z.of_nat n)%Z.
Proof.
  revert z; induction n as [|n IH]; intros z; [simpl; by rewrite Z.mod_1_r|].
  simpl. rewrite IH. fold (Z_of_byte (byte_of_Z z)). rewrite byte_of_Z_to_Z.
  rewrite Nat2Z.inj_succ, Z.pow_succ_r by lia. rewrite Z.rem_mul_r by lia. lia.
Qed.

Lemma f64_load_bits x : f64_load x -> (0 <= f64_to_bits x <= 0x7FF0000000000000)%Z.
Proof.
  intros [Hv Hx]. destruct x as [s|s| |s m e]; try subst s; cbv beta iota zeta delta [f64_to_bits]; try done.
  unfold valid_binary, bounded, canonical_mantissa in Hv. apply andb_true_iff in Hv as [Hv He].
  apply Z.eqb_eq in Hv. apply Z.leb_le in He. rewrite digits_log2, fx_eq in Hv.
  pose proof (Z.log2_spec (Zpos m) ltac:(lia)) as [Hlo Hhi].
  rewrite digits_log2. destruct (_ =? 53)%Z eqn:E.
  - assert (Z.log2 (Zpos m) = 52)%Z as Hd by lia. rewrite Hd in Hlo, Hhi.
    change (Z.succ 52) with 53%Z in Hhi. lia.
  - assert (Z.log2 (Zpos m) < 52)%Z as Hd by lia.
    assert (2 ^ Z.succ (Z.log2 (Zpos m)) <= 2 ^ 52)%Z by (apply Z.pow_le_mono_r; lia). lia.
Qed.

(** C37. The metric that a node advertises is, for every load average, every traffic and every disk usage, sums
    that overflow included, a double that is not negative and not NaN; its eight bytes on the network
    are read by the requester as the same bits, which compare with every other metric, so that a node
    does not make the choice of an idle peer panic. *)
Theorem quality_metric_ordered `{SysinfoOk} (self : PeerMetrics) :
  let '(qm, _) := get_quality_metric self in
  f64_load qm
  /\ length (f64_to_le_bytes qm) = 8
  /\ bits_of_le_bytes (f64_to_le_bytes qm) = f64_to_bits qm
  /\ f64_is_nan (bits_of_le_bytes (f64_to_le_bytes qm)) = false.
Proof.
  pose proof (quality_metric_load self) as Hq. destruct (get_quality_metric self) as [qm s]. simpl in Hq.
  pose proof (f64_load_bits qm Hq) as Hb.
  assert (bits_of_le_bytes (f64_to_le_bytes qm) = f64_to_bits qm) as He.
  { unfold f64_to_le_bytes. rewrite enc_le_bits. apply Z.mod_small.
    change (256 ^ Z.of_nat 8)%Z with (2 ^ 64)%Z. lia. }
  split_and!; [done|apply enc_le_length|done|]. rewrite He. unfold f64_is_nan, f64_magnitude.
  change (2 ^ 63 - 1)%Z with (Z.ones 63). rewrite Z.land_ones by lia. rewrite Z.mod_small by lia.
  apply Z.ltb_ge. lia.
Qed.

(** ** A system *)
#[export] Instance sample_sysinfo : Sysinfo := {|
  System := nat;
  System_new_all := 0;
  refresh_all := S;
  load_average_one := fun _ => S754_finite false 4503599627370496 (-53);
  networks := fun n => [(1000, 500); (2 ^ 64 - 1, 12)]%Z;
  disk_usages := fun n => [(4096, 8192)]%Z |}.

#[export] Instance sample_sysinfo_ok : SysinfoOk.
Proof. intros s. split; reflexivity. Qed.

(** 14.799 *)
Example sample_metric :
  map Z_of_byte (f64_to_le_bytes (fst (get_quality_metric PeerMetrics_new)))
  = [12; 2; 43; 135; 22; 153; 45; 64]%Z.
Proof. vm_compute. reflexivity. Qed.

Lemma quality_metric_ordered_witness :
  f64_is_nan (bits_of_le_bytes (f64_to_le_bytes (fst (get_quality_metric PeerMetrics_new)))) = false.
Proof.
  pose proof (quality_metric_ordered PeerMetrics_new) as Hq.
  destruct (get_quality_metric PeerMetrics_new) as [qm s]. apply Hq.
Defined.
