(* ===== verification/Util.v ===== *)
(** * Util: environment variables and key files

    Models src/util/env_util.rs and src/util/keypair_util.rs, and the static paths of
    keypair_util.rs and artifact_service/storage.rs.  The environment is a map from names to texts; the
    encoding of libp2p's ed25519 key pairs is the class [KeypairCodec]; the key
    pair that would be generated is an argument. *)

From S2P Require Import Prelude Crypto Structures Sample FileSystem Text.

(** ** [str::trim]

    The UTF-8 encodings of the characters with the property White_Space. *)
Definition whitespace : list bytes :=
  [[x09]; [x0a]; [x0b]; [x0c]; [x0d]; [x20]; [xc2; x85]; [xc2; xa0]; [xe1; x9a; x80];
   [xe2; x80; x80]; [xe2; x80; x81]; [xe2; x80; x82]; [xe2; x80; x83]; [xe2; x80; x84];
   [xe2; x80; x85]; [xe2; x80; x86]; [xe2; x80; x87]; [xe2; x80; x88]; [xe2; x80; x89];
   [xe2; x80; x8a]; [xe2; x80; xa8]; [xe2; x80; xa9]; [xe2; x80; xaf]; [xe2; x81; x9f];
   [xe3; x80; x80]].

(** The text after a pattern. *)
Fixpoint strip (p bs : bytes) : option bytes :=
  match p, bs with
  | [], _ => Some bs
  | a :: p', b :: bs' => if decide (a = b) then strip p' bs' else None
  | _ :: _, [] => None
  end.

Fixpoint strip_any (ps : list bytes) (bs : bytes) : option bytes :=
  match ps with
  | [] => None
  | p :: ps' => match strip p bs with Some rest => Some rest | None => strip_any ps' bs end
  end.

(** Removes patterns from the start; a step removes at least one byte. *)
Fixpoint trim_start (fuel : nat) (ps : list bytes) (bs : bytes) : bytes :=
  match fuel with
  | 0 => bs
  | S fuel' => match strip_any ps bs with Some rest => trim_start fuel' ps rest | None => bs end
  end.

Definition trim_bytes (bs : bytes) : bytes :=
  let t := trim_start (length bs) whitespace bs in
  rev (trim_start (length t) (map (@rev byte) whitespace) (rev t)).

Definition trim (s : string) : string := String.string_of_list_byte (trim_bytes (as_bytes s)).

(** ** env_util.rs *)
Definition Env : Type := gmap string string.

Definition read_var (env : Env) (variable_name default_value : string) : string :=
  match env !! variable_name with
  | Some v =>
      let tr := trim v in
      if negb (bool_decide (tr = "")) then tr else default_value
  | None => default_value
  end.

(** ** [Path::parent] on Unix, for paths without "." components *)
Fixpoint drop_slashes (fuel : nat) (s : string) : string :=
  match fuel with
  | 0 => s
  | S fuel' =>
      match rsplit slash s with
      | Some (before, "") => drop_slashes fuel' before
      | _ => s
      end
  end.
Definition without_slashes (s : string) : string := drop_slashes (String.length s) s.

Definition path_parent (p : string) : option string :=
  let q := without_slashes p in
  if bool_decide (q = "") then None
  else match rsplit slash q with
       | None => Some ""
       | Some (before, _) =>
           let d := without_slashes before in
           Some (if bool_decide (d = "") then "/" else d)
       end.

(** ** std::fs: [create_dir_all], for which an empty path exists, and [File::create], which truncates *)
Definition create_dir_all (p : string) : stm Fs io_error unit :=
  if bool_decide (p = "") then sret tt else fs_create_dir_all p.

Definition fs_create (p : string) : stm Fs io_error unit :=
  let! _ := fs_check OpOpen p in
  let! s := sget in
  match fs_nodes s !! p with
  | Some NDir => serr IoOther
  | _ => sput (fs_set (<[p := NFile []]> (fs_nodes s)) s)
  end.

(** [File::open]. *)
Definition fs_open (p : string) : stm Fs io_error unit :=
  let! _ := fs_check OpOpen p in
  let! s := sget in
  match fs_nodes s !! p with Some _ => sret tt | None => serr NotFound end.

(** [log_static_initialization_failure]: an error panics. *)
Definition log_static_initialization_failure {S E F A} (result : stm S E A) : stm S F A :=
  let! r := scatch result in
  match r with inl unwrapped => sret unwrapped | inr _ => spanic end.

(** The lazy statics [KEYPAIR_FILENAME] and [ARTIFACTS_DIR]. *)
Definition KEYPAIR_FILENAME {E} (env : Env) : stm Fs E string :=
  let pyrsia_keypair_file := read_var env "PYRSIA_KEYPAIR" "pyrsia/p2p_keypair.ser" in
  let! parent := slift (unwrap (path_parent pyrsia_keypair_file)) in
  let! _ := log_static_initialization_failure (create_dir_all parent) in
  sret pyrsia_keypair_file.

(** [to_lowercase() == "on"]. *)
Definition is_on (s : string) : bool :=
  match s with
  | String.String a (String.String b String.EmptyString) =>
      (bool_decide (a = "o"%char) || bool_decide (a = "O"%char))
      && (bool_decide (b = "n"%char) || bool_decide (b = "N"%char))
  | _ => false
  end.

Definition ARTIFACTS_DIR {E} (env : Env) : stm Fs E string :=
  let pyrsia_artifact_path := read_var env "PYRSIA_ARTIFACT_PATH" "pyrsia" in
  let dev_mode := read_var env "DEV_MODE" "off" in
  let! _ := if is_on dev_mode
            then log_static_initialization_failure (create_dir_all pyrsia_artifact_path)
            else sret tt in
  sret pyrsia_artifact_path.

(** ** keypair_util.rs *)
Class KeypairCodec `{Crypto} := {
  keypair_encode : Keypair -> bytes;
  keypair_decode : bytes -> option Keypair;
}.

(** A key pair is 64 bytes, the secret and the public key. *)
Class KeypairCodecOk `{KeypairCodec} : Prop := {
  keypair_encode_size kp : length (keypair_encode kp) = 64;
  keypair_decode_encode kp : keypair_decode (keypair_encode kp) = Some kp;
}.

Section Keypairs.
Context `{KeypairCodec}.

Definition load_ed25519 (keypair_path : string) : stm Fs io_error Keypair :=
  let! _ := fs_open keypair_path in
  let! metadata := fs_metadata keypair_path in
  match metadata with
  | NFile content =>
      if decide (length content = 64) then
        let! buffer := fs_read keypair_path in
        match keypair_decode buffer with
        | Some keypair => sret keypair
        | None => serr InvalidData
        end
      else serr InvalidData
  | NDir => serr InvalidData
  end.

Definition save_ed25519 (keypair : Keypair) (keypair_path : string) : stm Fs io_error unit :=
  let! parent := slift (unwrap (path_parent keypair_path)) in
  let! _ := create_dir_all parent in
  let! _ := fs_create keypair_path in
  let! _ := fs_write_all keypair_path (keypair_encode keypair) in
  sret tt.

(** [generated] is what [Keypair::generate] returns. *)
Definition load_or_generate_ed25519 {E} (storage_path : string) (generated : Keypair) : stm Fs E Keypair :=
  let! r := scatch (load_ed25519 storage_path) in
  match r with
  | inl keypair => sret keypair
  | inr _ =>
      let keypair := generated in
      let! _ := scatch (save_ed25519 keypair storage_path) in
      sret keypair
  end.

(** ** Lemmas *)

(** The key pair that a file holds. *)
Definition stored_keypair (path : string) (s : Fs) : option Keypair :=
  match fs_nodes s !! path with
  | Some (NFile content) => if decide (length content = 64) then keypair_decode content else None
  | _ => None
  end.

Lemma load_ed25519_spec path s :
  fs_reliable s ->
  exists r, load_ed25519 path s = (r, s)
    /\ match stored_keypair path s with Some kp => r = Ok kp | None => exists e, r = Err e end.
Proof.
  intros Hr. unfold load_ed25519, fs_open, fs_metadata, fs_read, stored_keypair. unfold_stm.
  rewrite !fs_check_reliable by done.
  destruct (fs_nodes s !! path) as [[content|]|] eqn:E; simpl.
  - rewrite fs_check_reliable, E by done. simpl. case_decide; [|by eauto].
    rewrite fs_check_reliable, E by done. destruct (keypair_decode content); by eauto.
  - rewrite fs_check_reliable, E by done. simpl. by eauto.
  - by eauto.
Qed.

(** A directory in which the file can be created, and one that is there. *)
Definition dir_ready (dir : string) (s : Fs) : Prop := dir = "" \/ fs_nodes s !! dir = Some NDir.

Definition can_hold (path dir : string) (s : Fs) : Prop :=
  path_parent path = Some dir /\ dir <> path /\ fs_nodes s !! path <> Some NDir
  /\ (dir = "" \/ forall content, fs_nodes s !! dir <> Some (NFile content)).

Lemma create_dir_all_spec dir s :
  fs_reliable s -> (dir = "" \/ forall content, fs_nodes s !! dir <> Some (NFile content)) ->
  exists s', create_dir_all dir s = (Ok tt, s') /\ fs_reliable s' /\ dir_ready dir s' /\ (dir_ready dir s -> s' = s)
    /\ forall p, p <> dir -> fs_nodes s' !! p = fs_nodes s !! p.
Proof.
  intros Hr Hd. unfold create_dir_all. case_bool_decide as Hb; [exists s; by split_and!; [..|left| |]|].
  destruct Hd as [?|Hd]; [done|]. unfold fs_create_dir_all. unfold_stm. rewrite fs_check_reliable by done.
  destruct (fs_nodes s !! dir) as [[content|]|] eqn:E; [by destruct (Hd content)|exists s; by split_and!; [..|right| |]|].
  eexists. split; [done|]. split; [done|]. split; [right; simpl; by rewrite lookup_insert_eq|]. split.
  - intros [?|Hn]; [done|]. by rewrite E in Hn.
  - intros p Hp. simpl. by rewrite lookup_insert_ne.
Qed.

Context `{!KeypairCodecOk}.

Lemma save_ed25519_spec kp path dir s :
  fs_reliable s -> can_hold path dir s ->
  exists s', save_ed25519 kp path s = (Ok tt, s') /\ fs_reliable s' /\ stored_keypair path s' = Some kp
    /\ dir_ready dir s'.
Proof.
  intros Hr (Hp & Hne & Hn & Hd). unfold save_ed25519, fs_create, fs_write_all. unfold_stm. rewrite Hp. simpl.
  destruct (create_dir_all_spec dir s Hr Hd) as (s1 & -> & Hr1 & Hd1 & _ & Hs1).
  rewrite fs_check_reliable by done. rewrite (Hs1 path) by done.
  assert (forall n, stored_keypair path (fs_set (<[path := NFile (keypair_encode kp)]> n) s1) = Some kp) as Hk.
  { intros n. unfold stored_keypair. simpl. rewrite lookup_insert_eq, decide_True by apply keypair_encode_size.
    apply keypair_decode_encode. }
  destruct (fs_nodes s !! path) as [[c|]|]; [|done|]; rewrite fs_check_reliable by done; simpl;
    rewrite lookup_insert_eq, drop_nil, app_nil_r; eexists; (split; [done|]); (split; [done|]); (split; [apply Hk|]);
    (destruct Hd1 as [?|Hd1]; [by left|right]); simpl; by rewrite !lookup_insert_ne.
Qed.

(** A key pair that is loaded or generated is then in the key file, so that it is loaded the next time and nothing
    changes. *)
Lemma load_or_generate_spec {E : Type} (path dir : string) (g : Keypair) (s : Fs) :
  fs_reliable s -> can_hold path dir s ->
  exists s1, let kp := default g (stored_keypair path s) in
    load_or_generate_ed25519 (E := E) path g s = (Ok kp, s1)
    /\ fs_reliable s1 /\ stored_keypair path s1 = Some kp
    /\ (is_Some (stored_keypair path s) -> s1 = s) /\ (dir_ready dir s -> dir_ready dir s1).
Proof.
  intros Hr Hc. unfold load_or_generate_ed25519. unfold_stm.
  destruct (load_ed25519_spec path s Hr) as (r & -> & Hl).
  destruct (stored_keypair path s) as [kp|] eqn:Ek; [subst r; by exists s|].
  destruct Hl as [e ->]. destruct (save_ed25519_spec g path dir s Hr Hc) as (s1 & -> & Hr1 & Hk1 & Hd1).
  exists s1. split_and!; [done..|by intros [? ?]|done].
Qed.

(** The file that [KEYPAIR_FILENAME] names can hold a key, and its directory is there. *)
Lemma KEYPAIR_FILENAME_spec {E : Type} env dir s :
  let file := read_var env "PYRSIA_KEYPAIR" "pyrsia/p2p_keypair.ser" in
  fs_reliable s -> can_hold file dir s ->
  exists s0, KEYPAIR_FILENAME (E := E) env s = (Ok file, s0)
    /\ fs_reliable s0 /\ can_hold file dir s0 /\ dir_ready dir s0 /\ (dir_ready dir s -> s0 = s)
    /\ stored_keypair file s0 = stored_keypair file s.
Proof.
  intros file Hr (Hp & Hne & Hn & Hd). unfold KEYPAIR_FILENAME, log_static_initialization_failure. unfold_stm.
  fold file. rewrite Hp. simpl. destruct (create_dir_all_spec dir s Hr Hd) as (s0 & -> & Hr0 & Hd0 & He & Hs0).
  exists s0. unfold can_hold, stored_keypair. rewrite !(Hs0 file) by done. split_and!; try done.
  destruct Hd0 as [?|Hd0]; [by left|right]. intros c. by rewrite Hd0.
Qed.

Lemma can_hold_file path dir s kp :
  path_parent path = Some dir -> dir <> path -> dir_ready dir s -> stored_keypair path s = Some kp -> can_hold path dir s.
Proof.
  intros Hp Hne Hd Hk. unfold stored_keypair in Hk. split_and!; [done..| |].
  - intros Hn. by rewrite Hn in Hk.
  - destruct Hd as [?|Hd]; [by left|right]. intros c. by rewrite Hd.
Qed.
End Keypairs.

(** ** Instances *)
#[export] Instance sample_keypair_codec : KeypairCodec := {|
  keypair_encode := fun kp => replicate 64 kp;
  keypair_decode := fun bs => head bs |}.

#[export] Instance sample_keypair_codec_ok : KeypairCodecOk.
Proof. by split. Qed.

Definition sample_kp1 : @Keypair sample_crypto := x07.
Definition sample_kp2 : @Keypair sample_crypto := x09.

Definition sample_key_fs : Fs := {| fs_nodes := {[ "pyrsia" := NDir ]}; fs_fault := fun _ _ => None |}.

Example read_var_trims : read_var {[ "DEV_MODE" := " on " ]} "DEV_MODE" "off" = "on".
Proof. reflexivity. Qed.
Example read_var_blank : read_var {[ "DEV_MODE" := "  " ]} "DEV_MODE" "off" = "off".
Proof. reflexivity. Qed.
Example path_parents :
  path_parent "pyrsia/p2p_keypair.ser" = Some "pyrsia" /\ path_parent "/a" = Some "/"
  /\ path_parent "a" = Some "" /\ path_parent "/" = None.
Proof. repeat split; reflexivity. Qed.
