(* ===== verification/Regex.v ===== *)
(** * Regex: regular expressions over the bytes of a text

    What is used of the regex crate: anchored patterns, by their language.  The crate is the
    class [RegexEngine], with the law that a match is a membership; the instance matches by
    derivatives and finds the two groups of a pattern by trying the ways to cut a text. *)

From S2P Require Import Prelude.

Abbreviation text := (list Ascii.ascii).
Abbreviation chars := String.list_ascii_of_string.

Inductive regex :=
| Void
| Eps
| Chars (p : Ascii.ascii -> bool)
| Seq (a b : regex)
| Alt (a b : regex)
| Star (a : regex).

(** The language of an expression. *)
Inductive lang : regex -> text -> Prop :=
| LEps : lang Eps []
| LChars p c : p c = true -> lang (Chars p) [c]
| LSeq a b s t : lang a s -> lang b t -> lang (Seq a b) (s ++ t)
| LAltL a b s : lang a s -> lang (Alt a b) s
| LAltR a b s : lang b s -> lang (Alt a b) s
| LStarNil a : lang (Star a) []
| LStarCons a s t : lang a s -> lang (Star a) t -> lang (Star a) (s ++ t).

(** [r{n}], [r{0,n}], [r{lo,hi}], [r+] and a literal. *)
Fixpoint times (n : nat) (r : regex) : regex :=
  match n with 0 => Eps | S n' => Seq r (times n' r) end.
Fixpoint up_to (n : nat) (r : regex) : regex :=
  match n with 0 => Eps | S n' => Alt Eps (Seq r (up_to n' r)) end.
Definition between (lo hi : nat) (r : regex) : regex := Seq (times lo r) (up_to (hi - lo) r).
Definition plus (r : regex) : regex := Seq r (Star r).
Fixpoint literal (s : text) : regex :=
  match s with
  | [] => Eps
  | c :: s' => Seq (Chars (fun a => bool_decide (a = c))) (literal s')
  end.
Definition one_of (rs : list regex) : regex := foldr Alt Void rs.

(** ** The crate: [^r$] and the groups of [^(a)b(c)$] *)
Class RegexEngine := {
  is_match : regex -> string -> bool;
  captures : regex -> regex -> regex -> string -> option (text * text);
}.

Class RegexEngineOk `{RegexEngine} : Prop := {
  is_match_spec r s : is_match r s = true <-> lang r (chars s);
  captures_sound a b c s g1 g2 :
    captures a b c s = Some (g1, g2) ->
    exists m, chars s = g1 ++ m ++ g2 /\ lang a g1 /\ lang b m /\ lang c g2;
  captures_complete a b c s :
    is_match (Seq a (Seq b c)) s = true -> is_Some (captures a b c s);
}.

(** ** Derivatives *)
Fixpoint nullable (r : regex) : bool :=
  match r with
  | Void | Chars _ => false
  | Eps | Star _ => true
  | Seq a b => nullable a && nullable b
  | Alt a b => nullable a || nullable b
  end.

Fixpoint deriv (c : Ascii.ascii) (r : regex) : regex :=
  match r with
  | Void | Eps => Void
  | Chars p => if p c then Eps else Void
  | Seq a b => if nullable a then Alt (Seq (deriv c a) b) (deriv c b) else Seq (deriv c a) b
  | Alt a b => Alt (deriv c a) (deriv c b)
  | Star a => Seq (deriv c a) (Star a)
  end.

Fixpoint accepts (r : regex) (s : text) : bool :=
  match s with [] => nullable r | c :: s' => accepts (deriv c r) s' end.

Lemma nullable_lang r : nullable r = true <-> lang r [].
Proof.
  split.
  - induction r; simpl; intros Hn; try done; try by constructor.
    + apply andb_true_iff in Hn as [??]. apply (LSeq _ _ [] []); auto.
    + apply orb_true_iff in Hn as [?|?]; [apply LAltL|apply LAltR]; auto.
  - remember [] as s eqn:Es. induction 1 as [| | | | | |]; try done; simpl.
    + apply app_eq_nil in Es as [-> ->]. by rewrite IHlang1, IHlang2.
    + by rewrite IHlang.
    + rewrite IHlang by done. apply orb_true_r.
Qed.

Lemma deriv_sound c r s : lang (deriv c r) s -> lang r (c :: s).
Proof.
  revert s; induction r as [| |p|a IHa b IHb|a IHa b IHb|a IHa]; simpl; intros s Hs.
  - inversion Hs.
  - inversion Hs.
  - destruct (p c) eqn:E; inversion Hs; subst. by constructor.
  - assert (forall s, lang (Seq (deriv c a) b) s -> lang (Seq a b) (c :: s)) as Hl.
    { intros u Hu. inversion Hu as [| |? ? s1 s2 H1 H2| | | |]; subst.
      change (c :: s1 ++ s2) with ((c :: s1) ++ s2). constructor; auto. }
    destruct (nullable a) eqn:E; [|auto].
    inversion Hs; subst; [by apply Hl|]. apply (LSeq _ _ [] (c :: s)); [by apply nullable_lang|auto].
  - inversion Hs; subst; [apply LAltL|apply LAltR]; auto.
  - inversion Hs as [| |? ? s1 s2 H1 H2| | | |]; subst.
    change (c :: s1 ++ s2) with ((c :: s1) ++ s2). apply LStarCons; auto.
Qed.

Lemma deriv_complete c r t : lang r t -> forall s, t = c :: s -> lang (deriv c r) s.
Proof.
  induction 1 as [|p a Hp|a b s1 s2 H1 IH1 H2 IH2|a b s1 H1 IH1|a b s1 H1 IH1|a|a s1 s2 H1 IH1 H2 IH2];
    intros s Es; simpl; try done.
  - injection Es as -> <-. rewrite Hp. constructor.
  - destruct s1 as [|x s1]; simpl in Es.
    + apply nullable_lang in H1. rewrite H1. apply LAltR; auto.
    + injection Es as -> <-. specialize (IH1 s1 eq_refl).
      destruct (nullable a); [apply LAltL|]; by constructor.
  - apply LAltL; auto.
  - apply LAltR; auto.
  - destruct s1 as [|x s1]; simpl in Es; [auto|]. injection Es as -> <-. constructor; auto.
Qed.

Lemma accepts_lang r s : accepts r s = true <-> lang r s.
Proof.
  revert r; induction s as [|c s IH]; intros r; simpl; [apply nullable_lang|].
  rewrite IH. split; [apply deriv_sound|]. intros Hs. by eapply deriv_complete.
Qed.

(** ** Groups: the ways to cut a text in three *)
Definition cuts (s : text) : list (text * text) := (fun n => (take n s, drop n s)) <$> seq 0 (S (length s)).

Definition cuts3 (s : text) : list (text * text * text) :=
  '(g1, rest) ← cuts s; '(m, g2) ← cuts rest; [(g1, m, g2)].

Lemma cuts_elem s u v : (u, v) ∈ cuts s <-> s = u ++ v.
Proof.
  unfold cuts. rewrite list_elem_of_fmap. split.
  - intros (n & [= -> ->] & _). by rewrite take_drop.
  - intros ->. exists (length u). rewrite take_app_length, drop_app_length. split; [done|].
    apply elem_of_seq. rewrite length_app. lia.
Qed.

Lemma cuts3_elem s g1 m g2 : (g1, m, g2) ∈ cuts3 s <-> s = g1 ++ m ++ g2.
Proof.
  unfold cuts3. rewrite list_elem_of_bind. split.
  - intros ([u v] & H1 & H2). rewrite list_elem_of_bind in H1. destruct H1 as ([x y] & H1 & H3).
    apply list_elem_of_singleton in H1. simplify_eq. apply cuts_elem in H2, H3. by subst.
  - intros ->. exists (g1, m ++ g2). split; [|by apply cuts_elem]. rewrite list_elem_of_bind.
    exists (m, g2). split; [by apply list_elem_of_singleton|by apply cuts_elem].
Qed.

Definition find_cut (a b c : regex) (s : text) : option (text * text) :=
  match filter (fun '(g1, m, g2) => accepts a g1 && accepts b m && accepts c g2 = true) (cuts3 s) with
  | (g1, _, g2) :: _ => Some (g1, g2)
  | [] => None
  end.

#[export] Instance derivative_engine : RegexEngine := {|
  is_match := fun r s => accepts r (chars s);
  captures := fun a b c s => find_cut a b c (chars s) |}.

Lemma lang_Seq a b s : lang (Seq a b) s <-> exists u v, s = u ++ v /\ lang a u /\ lang b v.
Proof.
  split; [|intros (u & v & -> & ? & ?); by constructor].
  intros Hs. inversion Hs as [| |? ? u v| | | |]; subst. by exists u, v.
Qed.

Lemma lang_Alt a b s : lang (Alt a b) s <-> lang a s \/ lang b s.
Proof. split; [intros Hs; inversion Hs; subst; auto|intros [?|?]; [by apply LAltL|by apply LAltR]]. Qed.

Lemma lang_Eps s : lang Eps s <-> s = [].
Proof. split; [intros Hs; by inversion Hs|intros ->; constructor]. Qed.

Lemma lang_Chars p s : lang (Chars p) s <-> exists c, s = [c] /\ p c = true.
Proof. split; [intros Hs; inversion Hs; subst; eauto|intros (c & -> & ?); by constructor]. Qed.

#[export] Instance derivative_engine_ok : RegexEngineOk.
Proof.
  assert (forall a b c s g1 m g2, (g1, m, g2) ∈ filter (fun '(g1, m, g2) =>
    accepts a g1 && accepts b m && accepts c g2 = true) (cuts3 s) <->
    s = g1 ++ m ++ g2 /\ lang a g1 /\ lang b m /\ lang c g2) as Hf.
  { intros a b c s g1 m g2. rewrite list_elem_of_filter, cuts3_elem, !andb_true_iff, !accepts_lang. naive_solver. }
  split; simpl.
  - intros r s. apply accepts_lang.
  - intros a b c s g1 g2. unfold find_cut. destruct (filter _ _) as [|[[u m] v] l] eqn:E; [done|].
    intros [= -> ->]. exists m. apply Hf. rewrite E. by left.
  - intros a b c s Hs. apply accepts_lang, lang_Seq in Hs as (u & v & Hs & Ha & Hbc).
    apply lang_Seq in Hbc as (m & g & -> & Hb & Hc). unfold find_cut.
    assert ((u, m, g) ∈ filter (fun '(g1, m, g2) =>
      accepts a g1 && accepts b m && accepts c g2 = true) (cuts3 (chars s))) as Hin by (by apply Hf).
    destruct (filter _ _) as [|[[? ?] ?] l]; [by apply not_elem_of_nil in Hin|by eauto].
Qed.

(** ** Languages of the derived forms *)
Definition all (p : Ascii.ascii -> bool) (s : text) : Prop := Forall (fun c => p c = true) s.

Lemma lang_times p n s : lang (times n (Chars p)) s <-> length s = n /\ all p s.
Proof.
  revert s; induction n as [|n IH]; intros s; simpl.
  - rewrite lang_Eps. split; [intros ->; split; [done|constructor]|intros [? _]; by apply nil_length_inv].
  - rewrite lang_Seq. split.
    + intros (u & v & -> & (c & -> & Hc)%lang_Chars & [Hl Hv]%IH). simpl. split; [lia|by constructor].
    + intros [Hl Hs]. destruct s as [|c s]; [done|]. apply Forall_cons in Hs as [Hc Hs].
      exists [c], s. split; [done|]. rewrite lang_Chars, IH. simpl in Hl. split; [eauto|]. split; [lia|done].
Qed.

Lemma lang_up_to p n s : lang (up_to n (Chars p)) s <-> length s <= n /\ all p s.
Proof.
  revert s; induction n as [|n IH]; intros s; simpl.
  - rewrite lang_Eps. split; [intros ->; split; [done|constructor]|].
    intros [Hl _]. apply nil_length_inv. lia.
  - rewrite lang_Alt, lang_Eps, lang_Seq. split.
    + intros [->|(u & v & -> & (c & -> & Hc)%lang_Chars & [Hl Hv]%IH)]; simpl.
      * split; [lia|constructor].
      * split; [lia|by constructor].
    + intros [Hl Hs]. destruct s as [|c s]; [by left|right]. apply Forall_cons in Hs as [Hc Hs].
      exists [c], s. split; [done|]. rewrite lang_Chars, IH. simpl in Hl. split; [eauto|]. split; [lia|done].
Qed.

Lemma lang_between p lo hi s :
  lo <= hi -> lang (between lo hi (Chars p)) s <-> lo <= length s <= hi /\ all p s.
Proof.
  intros Hlh. unfold between. rewrite lang_Seq. split.
  - intros (u & v & -> & [Hu Hpu]%lang_times & [Hv Hpv]%lang_up_to). rewrite length_app.
    split; [lia|by apply Forall_app].
  - intros [Hl Hs]. exists (take lo s), (drop lo s). rewrite lang_times, lang_up_to, take_drop.
    rewrite length_take, length_drop. split_and!; [done|lia|by apply Forall_take|lia|by apply Forall_drop].
Qed.

Lemma lang_star_chars p s : lang (Star (Chars p)) s <-> all p s.
Proof.
  split.
  - remember (Star (Chars p)) as r eqn:Er. induction 1 as [| | | | |a|a u v Hu _ Hv IH]; try done.
    + constructor.
    + pose proof (IH Er) as Hall. injection Er as ->. apply lang_Chars in Hu as (c & -> & Hc).
      by constructor.
  - induction 1 as [|c s Hc Hs IH]; [constructor|].
    change (c :: s) with ([c] ++ s). apply LStarCons; [by constructor|done].
Qed.

Lemma lang_plus_chars p s : lang (plus (Chars p)) s <-> s <> [] /\ all p s.
Proof.
  unfold plus. rewrite lang_Seq. split.
  - intros (u & v & -> & (c & -> & Hc)%lang_Chars & Hv%lang_star_chars). split; [done|by constructor].
  - intros [Hne Hs]. destruct s as [|c s]; [done|]. apply Forall_cons in Hs as [Hc Hs].
    exists [c], s. rewrite lang_star_chars, lang_Chars. eauto.
Qed.

Lemma lang_literal s t : lang (literal s) t <-> t = s.
Proof.
  revert t; induction s as [|c s IH]; intros t; simpl; [apply lang_Eps|]. rewrite lang_Seq. split.
  - intros (u & v & -> & (a & -> & Ha)%lang_Chars & ->%IH). by apply bool_decide_eq_true in Ha as ->.
  - intros ->. exists [c], s. rewrite lang_Chars, IH. split_and!; [done| |done].
    exists c. by rewrite bool_decide_eq_true.
Qed.

Lemma lang_one_of rs s : lang (one_of rs) s <-> exists r, r ∈ rs /\ lang r s.
Proof.
  induction rs as [|r rs IH]; simpl.
  - split; [intros Hs; inversion Hs|intros (r & Hr & _); by apply not_elem_of_nil in Hr].
  - rewrite lang_Alt, IH. split.
    + intros [?|(r' & ? & ?)]; [exists r|exists r']; rewrite elem_of_cons; auto.
    + intros (r' & [->|?]%elem_of_cons & ?); eauto.
Qed.
