(* ===== verification/Config.v ===== *)
(** * Config: the configuration of the command line

    Models src/cli_commands/config.rs.  The confy crate, which keeps a configuration as a TOML file,
    is the class [Confy]; the patterns are matched by a [RegexEngine].  Integers and IPv4
    addresses are parsed as the standard library parses them. *)

From S2P Require Import Prelude Structures Sample FileSystem Text Util Regex.

(** ** The console of a command *)
Record Console := {
  con_disk : Fs;
  con_in : list string;
  con_out : list string;
  con_err : list string;
}.
Definition set_con_disk (d : Fs) (c : Console) : Console :=
  {| con_disk := d; con_in := con_in c; con_out := con_out c; con_err := con_err c |}.
Definition println {E} (line : string) : stm Console E unit := smodify (fun c =>
  {| con_disk := con_disk c; con_in := con_in c; con_out := con_out c ++ [line]; con_err := con_err c |}).
Definition eprintln {E} (line : string) : stm Console E unit := smodify (fun c =>
  {| con_disk := con_disk c; con_in := con_in c; con_out := con_out c; con_err := con_err c ++ [line] |}).

(** ** The standard library: [parse::<u16>] and [parse::<Ipv4Addr>] *)
Definition digit_value (c : ascii) : option Z :=
  let n := Z.of_N (Ascii.N_of_ascii c) in
  if ((48 <=? n) && (n <=? 57))%Z then Some (n - 48)%Z else None.

Fixpoint parse_digits (acc : Z) (s : text) : option Z :=
  match s with
  | [] => Some acc
  | c :: s' => match digit_value c with Some d => parse_digits (10 * acc + d) s' | None => None end
  end.

(** One leading plus is accepted; an empty number is not. *)
Definition parse_u16 (s : text) : option Z :=
  let digits := match s with "+"%char :: s' => s' | _ => s end in
  match digits with
  | [] => None
  | _ => match parse_digits 0 digits with
         | Some n => if (n <=? 65535)%Z then Some n else None
         | None => None
         end
  end.

(** One to three digits, no leading zero, at most 255. *)
Definition octet (s : text) : bool :=
  match s with
  | [] => false
  | c :: rest =>
      (bool_decide (rest = []) || negb (bool_decide (c = "0"%char)))
      && bool_decide (length s <= 3)
      && match parse_digits 0 s with Some n => (n <=? 255)%Z | None => false end
  end.

Definition valid_ipv4_address (input : string) : bool :=
  match split "."%char input with
  | [a; b; c; d] => octet (chars a) && octet (chars b) && octet (chars c) && octet (chars d)
  | _ => false
  end.

(** ** The patterns *)
Definition char_in (lo hi : Z) (c : ascii) : bool :=
  let n := Z.of_N (Ascii.N_of_ascii c) in ((lo <=? n) && (n <=? hi))%Z.
(** [a-zA-Z0-9] and [a-zA-Z0-9\-] *)
Definition alnum (c : ascii) : bool := char_in 97 122 c || char_in 65 90 c || char_in 48 57 c.
Definition alnum_dash (c : ascii) : bool := alnum c || bool_decide (c = "-"%char).

Definition LABEL_REGEX : regex :=
  Alt (between 1 63 (Chars alnum)) (Seq (Chars alnum) (between 0 62 (Chars alnum_dash))).
Definition HOSTNAME_REGEX : regex :=
  Seq (Star (Seq LABEL_REGEX (literal ["."%char]))) LABEL_REGEX.

(** [0-9,\.] and the Unicode white space of [\s]. *)
Definition disk_char (c : ascii) : bool :=
  char_in 48 57 c || bool_decide (c = ","%char) || bool_decide (c = "."%char).
Definition white_space : regex := one_of ((fun w => literal (map Ascii.ascii_of_byte w)) <$> whitespace).
Definition DISK_SPACE_NUMBER : regex := plus (Chars disk_char).
Definition DISK_SPACE_UNIT : regex := literal ["G"%char; "B"%char].
Definition DISK_SPACE_RE : regex := Seq DISK_SPACE_NUMBER (Seq (plus white_space) DISK_SPACE_UNIT).

(** ** The configuration *)
Definition CONF_FILE : string := "pyrsia-cli".

Record CliConfig := { host : string; port : string; disk_allocated : string }.

#[export] Instance CliConfig_eq_dec : EqDecision CliConfig.
Proof. solve_decision. Defined.

Definition CliConfig_default : CliConfig :=
  {| host := "localhost"; port := "7888"; disk_allocated := "10 GB" |}.

(** [PartialEq for CliConfig]. *)
Definition CliConfig_eq (a b : CliConfig) : bool :=
  bool_decide (host a = host b) && bool_decide (port a = port b)
  && bool_decide (disk_allocated a = disk_allocated b).

Class Confy := {
  configuration_file_path : string -> outcome string string;
  load_path : string -> stm Fs string CliConfig;
  store_path : string -> CliConfig -> stm Fs string unit;
  (** [toml::to_string_pretty] *)
  to_string_pretty : CliConfig -> option string;
}.

(** What confy documents: a configuration that was stored is loaded, loading a file that does not exist
    creates it with the default, and storing works on a disk without faults. *)
Definition writable (path : string) (s : Fs) : Prop := fs_reliable s /\ fs_nodes s !! path <> Some NDir.

Class ConfyOk `{Confy} : Prop := {
  load_stored path c s s' : store_path path c s = (Ok tt, s') -> load_path path s' = (Ok c, s');
  load_again path c s s' : load_path path s = (Ok c, s') -> load_path path s' = (Ok c, s');
  load_missing path s :
    writable path s -> fs_nodes s !! path = None -> fst (load_path path s) = Ok CliConfig_default;
  load_writable path s : writable path s -> writable path (snd (load_path path s));
  store_writable path c s :
    writable path s -> exists s', store_path path c s = (Ok tt, s') /\ writable path s';
}.

Section Config.
Context `{Confy} `{RegexEngine}.

(** Outside of tests the path is the one of confy. *)
Definition get_config_path : outcome string string := configuration_file_path CONF_FILE.

Definition on_disk {A} (c : stm Fs string A) : stm Console string A := szoom con_disk set_con_disk c.

(** [Display for CliConfig]. *)
Definition CliConfig_to_string {E} (c : CliConfig) : outcome E string := unwrap (to_string_pretty c).

Definition set_host (v : string) (c : CliConfig) : CliConfig :=
  {| host := v; port := port c; disk_allocated := disk_allocated c |}.
Definition set_port (v : string) (c : CliConfig) : CliConfig :=
  {| host := host c; port := v; disk_allocated := disk_allocated c |}.
Definition set_disk_allocated (v : string) (c : CliConfig) : CliConfig :=
  {| host := host c; port := port c; disk_allocated := v |}.

Definition add_config (new_cfg : CliConfig) : stm Console string unit :=
  let! config_path := slift get_config_path in
  let! cfg := on_disk (load_path config_path) in
  let cfg := if bool_decide (host new_cfg = "") then cfg else set_host (host new_cfg) cfg in
  let cfg := if bool_decide (port new_cfg = "") then cfg else set_port (port new_cfg) cfg in
  let cfg := if bool_decide (disk_allocated new_cfg = "") then cfg
             else set_disk_allocated (disk_allocated new_cfg) cfg in
  let! _ := on_disk (store_path config_path cfg) in
  sret tt.

(** [fs::remove_file]. *)
Definition fs_remove_file (p : string) : stm Fs io_error unit :=
  let! _ := fs_check OpWrite p in
  let! s := sget in
  match fs_nodes s !! p with
  | Some (NFile _) => sput (fs_set (base.delete p (fs_nodes s)) s)
  | Some NDir => serr IoOther
  | None => serr NotFound
  end.

Definition config_remove : stm Console string unit :=
  let! cfg_path := slift (configuration_file_path CONF_FILE) in
  let! c := sget in
  match fs_nodes (con_disk c) !! cfg_path with
  | Some _ => on_disk (smap_err (fun _ => "io error") (fs_remove_file cfg_path))
  | None => sret tt
  end.

Definition valid_hostname (input : string) : bool :=
  if bool_decide (input = "") || (253 <? Z.of_nat (String.length input))%Z then false
  else is_match HOSTNAME_REGEX input.

Definition valid_host_name (input : string) : outcome string string :=
  if valid_ipv4_address input || valid_hostname input then Ok input
  else Err "Invalid value for Hostname".

Definition valid_port (input : string) : outcome string string :=
  match parse_u16 (chars input) with
  | Some _ => Ok input
  | None => Err "Invalid value for Port Number"
  end.

Definition DISK_SPACE_NUM_MIN : Z := 0.
Definition DISK_SPACE_NUM_MAX : Z := 4096.

Definition valid_disk_space (input : string) : outcome string string :=
  if is_match DISK_SPACE_RE input then
    let? captured_groups := unwrap (captures DISK_SPACE_NUMBER (plus white_space) DISK_SPACE_UNIT input) in
    match parse_u16 (fst captured_groups) with
    | Some disk_space_num =>
        if ((DISK_SPACE_NUM_MIN <? disk_space_num) && (disk_space_num <=? DISK_SPACE_NUM_MAX))%Z
        then Ok (pretty disk_space_num +:+ " " +:+ String.string_of_list_ascii (snd captured_groups))
        else Err "Invalid value for Disk Allocation"
    | None => Err "Invalid value for Disk Allocation"
    end
  else Err "Invalid value for Disk Allocation".

Definition get_config : stm Console string CliConfig :=
  let! config_path := slift get_config_path in
  on_disk (load_path config_path).

Definition get_config_file_path : outcome string string := configuration_file_path CONF_FILE.

(** One option of [config_edit]: an invalid value is an error to be printed. *)
Definition edit_field (value : option string) (valid : string -> outcome string string)
    (set : string -> CliConfig -> CliConfig) (p : CliConfig * list string) :
    outcome string (CliConfig * list string) :=
  match value with
  | None => Ok p
  | Some v =>
      match valid v with
      | Ok v' => Ok (set v' (fst p), snd p)
      | Err description => Ok (fst p, snd p ++ [description])
      | Panic => Panic
      end
  end.

Definition config_edit (host_name port disk_space : option string) : stm Console string unit :=
  let! cli_config := get_config in
  let! p := slift (edit_field host_name valid_host_name set_host (cli_config, [])) in
  let! p := slift (edit_field port valid_port set_port p) in
  let! p := slift (edit_field disk_space valid_disk_space set_disk_allocated p) in
  let '(cli_config, errors) := p in
  if bool_decide (errors = []) then add_config cli_config
  else
    let! _ := sfor errors println in
    serr "Invalid pyrsia config".
End Config.

(** ** Texts *)
Lemma chars_app s t : chars (s +:+ t) = chars s ++ chars t.
Proof. induction s as [|a s IH]; simpl; [done|]. by rewrite IH. Qed.

Lemma chars_inj s t : chars s = chars t -> s = t.
Proof.
  intros Hs. rewrite <- (String.string_of_list_ascii_of_string s), Hs.
  apply String.string_of_list_ascii_of_string.
Qed.

Lemma chars_string t : chars (String.string_of_list_ascii t) = t.
Proof. apply String.list_ascii_of_string_of_list_ascii. Qed.

Lemma chars_surj t : exists s, t = chars s.
Proof. exists (String.string_of_list_ascii t). by rewrite chars_string. Qed.

Lemma length_chars s : length (chars s) = String.length s.
Proof. induction s; simpl; by f_equal. Qed.

Lemma contains_chars c s : contains c s = existsb (fun a => bool_decide (a = c)) (chars s).
Proof. induction s as [|a s IH]; simpl; [done|]. by rewrite IH. Qed.

Lemma join_split c s : join (String.String c "") (split c s) = s.
Proof.
  rewrite <- replace_split. induction s as [|a s IH]; simpl; [done|].
  rewrite IH. case_bool_decide as E; [by subst|done].
Qed.

(** ** Host names

    hostname(7): labels of one to 63 letters, digits and hyphens, which do not start with
    a hyphen, separated by dots; at most 253 characters. *)
Definition label_ok (label : string) : bool :=
  match chars label with
  | [] => false
  | c :: rest => alnum c && forallb alnum_dash rest && bool_decide (length rest <= 62)
  end.

Definition host_name_ok (input : string) : bool :=
  (1 <=? Z.of_nat (String.length input))%Z && (Z.of_nat (String.length input) <=? 253)%Z
  && forallb label_ok (split "."%char input).

Lemma all_forallb p s : all p s <-> forallb p s = true.
Proof. unfold all. rewrite forallb_forall, Forall_forall. setoid_rewrite list_elem_of_In. done. Qed.

Lemma alnum_is_dash c : alnum c = true -> alnum_dash c = true.
Proof. unfold alnum_dash. by intros ->. Qed.

Lemma lang_label s : lang LABEL_REGEX (chars s) <-> label_ok s = true.
Proof.
  unfold LABEL_REGEX, label_ok. rewrite lang_Alt, lang_between, lang_Seq by lia.
  destruct (chars s) as [|c rest].
  - split; [|done]. intros [[Hl _]|(u & v & Huv & (a & -> & _)%lang_Chars & _)]; [simpl in Hl; lia|done].
  - rewrite !andb_true_iff, bool_decide_eq_true, <- all_forallb. split.
    + intros [[Hl Ha]|(u & v & Huv & (a & -> & Ha)%lang_Chars & Hb)].
      * apply Forall_cons in Ha as [Hc Ha]. simpl in Hl. split_and!; [done| |lia].
        eapply Forall_impl; [exact Ha|apply alnum_is_dash].
      * apply lang_between in Hb as [Hl Hb]; [|lia]. simplify_eq/=. split_and!; [done|done|lia].
    + intros [[Hc Hr] Hl]. right. exists [c], rest. rewrite lang_Chars, lang_between by lia.
      split_and!; [done|by eauto|lia|lia|done].
Qed.

Lemma label_no_dot s : label_ok s = true -> contains "."%char s = false.
Proof.
  unfold label_ok. rewrite contains_chars. destruct (chars s) as [|c rest]; [done|].
  rewrite !andb_true_iff. intros [[Hc Hr] _].
  assert (forall a, alnum_dash a = true -> bool_decide (a = "."%char) = false) as Hd.
  { intros a Ha. apply bool_decide_eq_false. by intros ->. }
  simpl. rewrite Hd by (by apply alnum_is_dash). simpl. clear Hc.
  induction rest as [|a rest IH]; simpl in *; [done|]. apply andb_true_iff in Hr as [Ha Hr].
  rewrite Hd by done. by apply IH.
Qed.

Lemma lang_hostname s : lang HOSTNAME_REGEX (chars s) <-> forallb label_ok (split "."%char s) = true.
Proof.
  unfold HOSTNAME_REGEX. rewrite lang_Seq. split.
  - intros (u & v & Huv & Hu & Hv). revert s Huv. destruct (chars_surj v) as [l ->].
    apply lang_label in Hv.
    remember (Star (Seq LABEL_REGEX (literal ["."%char]))) as r eqn:Er. revert Er.
    induction Hu as [| | | | |a|a u1 u2 Hu1 _ Hu2 IH]; intros Er w Huv; try done.
    + simpl in Huv. apply chars_inj in Huv as ->. rewrite split_single by (by apply label_no_dot).
      simpl. by rewrite Hv.
    + pose proof (IH Er) as Hrest. clear IH. injection Er as ->.
      apply lang_Seq in Hu1 as (x & y & -> & Hx & Hy). apply (lang_literal ["."%char]) in Hy as ->.
      destruct (chars_surj x) as [lx ->], (chars_surj (u2 ++ chars l)) as [t Ht]. apply lang_label in Hx.
      assert (w = lx +:+ String.String "."%char t) as ->.
      { apply chars_inj. rewrite Huv, chars_app. simpl. by rewrite <- Ht, <- !app_assoc. }
      rewrite split_app by (by apply label_no_dot). simpl. rewrite Hx. by apply Hrest.
  - intros Hs. rewrite <- (join_split "."%char s). pose proof (split_nonempty "."%char s) as Hne.
    induction (split "."%char s) as [|p ps IH]; [done|]. simpl in Hs. apply andb_true_iff in Hs as [Hp Hs].
    destruct ps as [|q ps].
    + exists [], (chars p). split_and!; [done|constructor|by apply lang_label].
    + destruct (IH Hs) as (u & v & Huv & Hu & Hv); [done|].
      exists ((chars p ++ ["."%char]) ++ u), v. split_and!; [|apply LStarCons; [|done]|done].
      * change (join (String.String "."%char "") (p :: q :: ps))
          with (p +:+ String.String "."%char (join (String.String "."%char "") (q :: ps))).
        rewrite chars_app. simpl chars. rewrite <- !app_assoc, <- Huv. done.
      * apply lang_Seq. exists (chars p), ["."%char]. split_and!; [done|by apply lang_label|by apply (lang_literal ["."%char])].
Qed.

(** ** IPv4 addresses are host names *)
Lemma digit_alnum c d : digit_value c = Some d -> alnum c = true.
Proof.
  unfold digit_value, alnum, char_in. destruct (_ && _)%Z; [intros _|done]. by rewrite orb_true_r.
Qed.

Lemma parse_digits_alnum acc s n : parse_digits acc s = Some n -> forallb alnum s = true.
Proof.
  revert acc; induction s as [|c s IH]; intros acc; simpl; [done|].
  destruct (digit_value c) as [d|] eqn:E; [|done]. intros Hs. rewrite (digit_alnum _ _ E). by eapply IH.
Qed.

Lemma octet_label s : octet (chars s) = true -> label_ok s = true /\ String.length s <= 3.
Proof.
  rewrite <- length_chars. unfold octet, label_ok. destruct (chars s) as [|c rest]; [done|].
  rewrite !andb_true_iff, !bool_decide_eq_true. intros [[_ Hl] Hp].
  destruct (parse_digits 0 (c :: rest)) as [n|] eqn:E; [|done].
  apply parse_digits_alnum in E. simpl in E. apply andb_true_iff in E as [Hc Hr].
  split; [|done]. split_and!; [done| |simpl in Hl; lia].
  rewrite forallb_forall in *. intros x Hx. by apply alnum_is_dash, Hr.
Qed.

Lemma length_string_app s t : String.length (s +:+ t) = String.length s + String.length t.
Proof. induction s; simpl; [done|]. by f_equal. Qed.

Lemma ipv4_is_host_name s : valid_ipv4_address s = true -> host_name_ok s = true.
Proof.
  unfold valid_ipv4_address, host_name_ok. pose proof (join_split "."%char s) as Hj.
  destruct (split "."%char s) as [|a [|b [|c [|d [|]]]]]; try done.
  rewrite !andb_true_iff. intros (((Ha & Hb) & Hc) & Hd).
  apply octet_label in Ha as [Ha La], Hb as [Hb Lb], Hc as [Hc Lc], Hd as [Hd Ld].
  assert (String.length s = String.length a + String.length b + String.length c + String.length d + 3) as Hl.
  { rewrite <- Hj. cbn [join]. rewrite !length_string_app. cbn [String.length]. lia. }
  rewrite Hl. cbn [forallb]. rewrite Ha, Hb, Hc, Hd. split_and!; try done; apply Z.leb_le; lia.
Qed.

(** ** Disk space *)
Lemma span_unique {A} (p : A -> bool) (a b : list A) x y xs ys :
  Forall (fun c => p c = true) a -> Forall (fun c => p c = true) b -> p x = false -> p y = false ->
  a ++ x :: xs = b ++ y :: ys -> a = b /\ x :: xs = y :: ys.
Proof.
  intros Ha. revert b; induction Ha as [|c a Hc Ha IH]; intros b Hb Hx Hy He.
  - destruct Hb as [|d b Hd Hb]; [done|]. simplify_eq/=. congruence.
  - destruct Hb as [|d b Hd Hb]; simplify_eq/=; [congruence|].
    destruct (IH b Hb Hx Hy) as [-> ->]; [done|]. done.
Qed.

Lemma white_space_start s : lang (plus white_space) s -> exists c rest, s = c :: rest /\ disk_char c = false.
Proof.
  unfold plus, white_space. rewrite lang_Seq. intros (u & v & -> & Hu & _).
  apply lang_one_of in Hu as (r & Hr & Hu). apply list_elem_of_fmap in Hr as (w & -> & Hw).
  apply lang_literal in Hu as ->.
  assert (forallb (fun w => match map Ascii.ascii_of_byte w with [] => false | c :: _ => negb (disk_char c) end)
    whitespace = true) as Hall by (by vm_compute).
  rewrite forallb_forall in Hall. specialize (Hall w). rewrite <- list_elem_of_In in Hall. specialize (Hall Hw).
  destruct (map _ w) as [|c rest]; [done|]. exists c, (rest ++ v). split; [done|].
  by apply negb_true_iff in Hall.
Qed.

(** A cut of the input at the pattern. *)
Definition disk_cut (input : string) (number : text) : Prop :=
  exists m, chars input = number ++ m ++ ["G"%char; "B"%char]
    /\ number <> [] /\ all disk_char number /\ lang (plus white_space) m.

Lemma disk_cut_unique input n1 n2 : disk_cut input n1 -> disk_cut input n2 -> n1 = n2.
Proof.
  intros (m1 & E1 & _ & Hn1 & Hm1) (m2 & E2 & _ & Hn2 & Hm2). rewrite E1 in E2.
  apply white_space_start in Hm1 as (c1 & r1 & -> & Hc1), Hm2 as (c2 & r2 & -> & Hc2).
  by apply (span_unique disk_char) in E2 as [-> _].
Qed.

Section ConfigFacts.
Context `{RegexEngine} `{!RegexEngineOk}.

Lemma disk_space_match input : is_match DISK_SPACE_RE input = true <-> exists n, disk_cut input n.
Proof.
  rewrite is_match_spec. unfold DISK_SPACE_RE, DISK_SPACE_NUMBER, DISK_SPACE_UNIT, disk_cut. rewrite lang_Seq. split.
  - intros (u & v & Huv & [Hne Hu]%lang_plus_chars & Hv). apply lang_Seq in Hv as (m & g & -> & Hm & Hg).
    apply lang_literal in Hg as ->. by exists u, m.
  - intros (n & m & Hi & Hne & Hn & Hm). exists n, (m ++ ["G"%char; "B"%char]). split; [done|].
    rewrite lang_plus_chars, lang_Seq. split; [done|]. exists m, ["G"%char; "B"%char].
    split_and!; [done|done|]. by apply (lang_literal ["G"%char; "B"%char]).
Qed.

Lemma valid_disk_space_eq input :
  (forall n, ~ disk_cut input n) /\ valid_disk_space input = Err "Invalid value for Disk Allocation"
  \/ exists number, disk_cut input number /\
     valid_disk_space input =
       match parse_u16 number with
       | Some n => if ((0 <? n) && (n <=? 4096))%Z then Ok (pretty n +:+ " GB")
                   else Err "Invalid value for Disk Allocation"
       | None => Err "Invalid value for Disk Allocation"
       end.
Proof.
  unfold valid_disk_space. destruct (is_match DISK_SPACE_RE input) eqn:Em.
  - right. destruct (captures_complete _ _ _ _ Em) as [[g1 g2] Hc].
    destruct (captures_sound _ _ _ _ _ _ Hc) as (m & Hi & Hg1 & Hm & Hg2).
    apply lang_plus_chars in Hg1 as [Hne Hg1]. apply lang_literal in Hg2 as ->.
    exists g1. split; [by exists m|]. rewrite Hc. simpl. by destruct (parse_u16 g1).
  - left. split; [|done]. intros n Hn. assert (is_match DISK_SPACE_RE input = true) as Ht; [|congruence].
    apply disk_space_match. by exists n.
Qed.

(** The numbers that are accepted are printed without plus, comma or dot and read back. *)
Lemma disk_numbers n :
  (1 <= n <= 4096)%Z ->
  parse_u16 (chars (pretty n)) = Some n /\ forallb disk_char (chars (pretty n)) = true /\ chars (pretty n) <> [].
Proof.
  intros Hn. assert (forallb (fun n => bool_decide (parse_u16 (chars (pretty n)) = Some n)
    && forallb disk_char (chars (pretty n)) && negb (bool_decide (chars (pretty n) = []))) (seqZ 1 4096) = true)
    as Hall by (vm_compute; reflexivity).
  rewrite forallb_forall in Hall. specialize (Hall n). rewrite <- list_elem_of_In, elem_of_seqZ in Hall.
  specialize (Hall ltac:(lia)). rewrite !andb_true_iff, bool_decide_eq_true, negb_true_iff, bool_decide_eq_false in Hall.
  tauto.
Qed.

Lemma disk_cut_printed n : (1 <= n <= 4096)%Z -> disk_cut (pretty n +:+ " GB") (chars (pretty n)).
Proof.
  intros Hn. destruct (disk_numbers n Hn) as (_ & Hd & Hne). exists [" "%char].
  rewrite chars_app. split_and!; [done|done|by apply all_forallb|].
  unfold plus. apply lang_Seq. exists [" "%char], []. split_and!; [done| |constructor].
  by apply accepts_lang.
Qed.

Lemma parse_digits_nonneg acc s n : (0 <= acc)%Z -> parse_digits acc s = Some n -> (0 <= n)%Z.
Proof.
  revert acc; induction s as [|c s IH]; intros acc Ha; simpl; [by intros [= <-]|].
  destruct (digit_value c) as [d|] eqn:E; [|done]. apply IH.
  unfold digit_value in E. destruct (_ && _)%Z eqn:Eb; [|done]. injection E as <-.
  apply andb_true_iff in Eb as [Hb _]. lia.
Qed.

Lemma parse_u16_bounds s n : parse_u16 s = Some n -> fits 16 n.
Proof.
  unfold parse_u16. set (digits := match s with "+"%char :: s' => s' | _ => s end).
  destruct digits as [|c r]; [done|]. destruct (parse_digits 0 (c :: r)) as [m|] eqn:E; [|done].
  destruct (m <=? 65535)%Z eqn:Em; [|done]. intros [= <-]. apply parse_digits_nonneg in E; [|lia].
  unfold fits. lia.
Qed.

Lemma valid_disk_space_Ok input r :
  valid_disk_space input = Ok r <->
  exists number n, disk_cut input number /\ parse_u16 number = Some n
    /\ (1 <= n <= 4096)%Z /\ r = pretty n +:+ " GB".
Proof.
  destruct (valid_disk_space_eq input) as [[Hn ->]|(number & Hc & ->)].
  - split; [done|]. intros (number & n & Hc & _). by destruct (Hn number).
  - split.
    + destruct (parse_u16 number) as [n|] eqn:E; [|done]. destruct (_ && _)%Z eqn:Eb; [|done].
      intros [= <-]. apply andb_true_iff in Eb as [??]. exists number, n. split_and!; try done; lia.
    + intros (number' & n & Hc' & Hp & Hn & ->). rewrite (disk_cut_unique _ _ _ Hc Hc'), Hp.
      replace ((0 <? n) && (n <=? 4096))%Z with true; [done|]. symmetry. apply andb_true_iff. lia.
Qed.

Lemma valid_disk_space_no_panic input : valid_disk_space input <> Panic.
Proof.
  destruct (valid_disk_space_eq input) as [[_ ->]|(number & _ & ->)]; [done|].
  destruct (parse_u16 number); [|done]. by destruct (_ && _)%Z.
Qed.

(** C32. A host name is accepted exactly when it is one of hostname(7): one to 253 characters in labels of one to 63
    letters, digits and hyphens that do not start with a hyphen; every IPv4 address is one of them, so that the
    separate check of addresses accepts nothing more. *)
Theorem host_names_accepted (input : string) :
  valid_host_name input = if host_name_ok input then Ok input else Err "Invalid value for Hostname".
Proof.
  unfold valid_host_name. assert (valid_hostname input = host_name_ok input) as ->.
  { unfold valid_hostname, host_name_ok. apply eq_true_iff_eq. case_bool_decide as He; simpl.
    - subst input. done.
    - destruct (253 <? Z.of_nat (String.length input))%Z eqn:El.
      + rewrite !andb_true_iff. split; [done|]. intros [[_ Hl] _].
        apply Z.leb_le in Hl. apply Z.ltb_lt in El. lia.
      + rewrite is_match_spec, lang_hostname, !andb_true_iff. split; [|tauto]. intros Hs.
        apply Z.ltb_ge in El. split_and!; [|by apply Z.leb_le|done].
        apply Z.leb_le. destruct input; [done|]. simpl. lia. }
  destruct (valid_ipv4_address input) eqn:E; [|done]. by rewrite (ipv4_is_host_name _ E).
Qed.

(** C33. Values of the configuration are in range: the check of disk space never panics and accepts exactly a number,
    white space and GB where the number reads as 1 to 4096, the value it returns is the number in normal form
    and is accepted again as it is, and a port that is accepted is unchanged and reads as a 16-bit number. *)
Theorem config_values_bounded (input r : string) :
  valid_disk_space input <> Panic
  /\ (valid_disk_space input = Ok r <->
      exists number n, disk_cut input number /\ parse_u16 number = Some n
        /\ (1 <= n <= 4096)%Z /\ r = pretty n +:+ " GB")
  /\ (valid_disk_space input = Ok r -> valid_disk_space r = Ok r)
  /\ (valid_port input = Ok r -> r = input /\ exists n, parse_u16 (chars r) = Some n /\ fits 16 n).
Proof.
  split; [apply valid_disk_space_no_panic|]. split; [apply valid_disk_space_Ok|]. split.
  - intros (number & n & _ & _ & Hn & ->)%valid_disk_space_Ok. apply valid_disk_space_Ok.
    exists (chars (pretty n)), n. destruct (disk_numbers n Hn) as (Hp & _).
    split_and!; try done; [by apply disk_cut_printed|lia|lia].
  - unfold valid_port. destruct (parse_u16 (chars input)) as [n|] eqn:E; [|done].
    intros [= <-]. split; [done|]. exists n. split; [done|]. by eapply parse_u16_bounds.
Qed.

Context `{Confy} `{!ConfyOk}.

(** ** Editing *)
Definition new_value (v : option string) (valid : string -> outcome string string) (old : string) : string :=
  match v with Some x => match valid x with Ok y => y | _ => old end | None => old end.
Definition field_errors (v : option string) (valid : string -> outcome string string) : list string :=
  match v with Some x => match valid x with Err e => [e] | _ => [] end | None => [] end.

Definition edited (h p d : option string) (c : CliConfig) : CliConfig :=
  {| host := new_value h valid_host_name (host c); port := new_value p valid_port (port c);
     disk_allocated := new_value d valid_disk_space (disk_allocated c) |}.
Definition edit_errors (h p d : option string) : list string :=
  field_errors h valid_host_name ++ field_errors p valid_port ++ field_errors d valid_disk_space.

Lemma valid_host_name_cases x :
  (valid_host_name x = Ok x /\ x <> "") \/ exists e, valid_host_name x = Err e.
Proof.
  unfold valid_host_name. destruct (valid_ipv4_address x || valid_hostname x) eqn:E; [left|right; by eauto].
  split; [done|]. intros ->. revert E. by vm_compute.
Qed.

Lemma valid_port_cases x : (valid_port x = Ok x /\ x <> "") \/ exists e, valid_port x = Err e.
Proof.
  unfold valid_port. destruct (parse_u16 (chars x)) eqn:E; [left|right; by eauto]. split; [done|]. by intros ->.
Qed.

Lemma valid_disk_space_cases x :
  (exists y, valid_disk_space x = Ok y /\ y <> "") \/ exists e, valid_disk_space x = Err e.
Proof.
  pose proof (valid_disk_space_no_panic x) as Hp.
  destruct (valid_disk_space x) as [y|e|] eqn:E; [left|right; by eauto|done].
  exists y. split; [done|]. apply valid_disk_space_Ok in E as (_ & n & _ & _ & Hn & ->).
  intros He. apply (f_equal chars) in He. rewrite chars_app in He. by destruct (chars (pretty n)).
Qed.

Lemma config_edit_fields h p d c :
  (let? q := edit_field h valid_host_name set_host (c, []) in
   let? q := edit_field p valid_port set_port q in
   edit_field d valid_disk_space set_disk_allocated q)
  = Ok (edited h p d c, edit_errors h p d).
Proof.
  destruct c as [ch cp cd]. unfold edited, edit_errors, edit_field, new_value, field_errors.
  destruct h as [h|]; [destruct (valid_host_name_cases h) as [[-> _]|[? ->]]|];
    (destruct p as [p|]; [destruct (valid_port_cases p) as [[-> _]|[? ->]]|]);
    (destruct d as [d|]; [destruct (valid_disk_space_cases d) as [(? & -> & _)|[? ->]]|]); done.
Qed.

(** An edited field is empty only if it was not edited. *)
Lemma edited_kept h p d c :
  (host (edited h p d c) = "" -> host c = "") /\ (port (edited h p d c) = "" -> port c = "")
  /\ (disk_allocated (edited h p d c) = "" -> disk_allocated c = "").
Proof.
  unfold edited, new_value; simpl. split_and!.
  - destruct h as [h|]; [|done]. by destruct (valid_host_name_cases h) as [[-> ?]|[? ->]].
  - destruct p as [p|]; [|done]. by destruct (valid_port_cases p) as [[-> ?]|[? ->]].
  - destruct d as [d|]; [|done]. by destruct (valid_disk_space_cases d) as [(? & -> & ?)|[? ->]].
Qed.

Lemma println_all errors c :
  sfor errors (println (E := string)) c =
  (Ok tt, {| con_disk := con_disk c; con_in := con_in c; con_out := con_out c ++ errors; con_err := con_err c |}).
Proof.
  revert c; induction errors as [|e errors IH]; intros c; simpl.
  - rewrite app_nil_r. by destruct c.
  - unfold_stm. unfold println, smodify. rewrite IH. simpl. by rewrite <- app_assoc.
Qed.

Lemma get_config_eq path c :
  configuration_file_path CONF_FILE = Ok path ->
  get_config c = (fst (load_path path (con_disk c)), set_con_disk (snd (load_path path (con_disk c))) c).
Proof.
  intros Hp. unfold get_config, get_config_path, on_disk. unfold_stm. rewrite Hp.
  by destruct (load_path path (con_disk c)).
Qed.

Lemma add_config_edited path h p d cfg c :
  configuration_file_path CONF_FILE = Ok path -> writable path (con_disk c) ->
  load_path path (con_disk c) = (Ok cfg, con_disk c) ->
  exists s', add_config (edited h p d cfg) c = (Ok tt, set_con_disk s' c)
    /\ load_path path s' = (Ok (edited h p d cfg), s').
Proof.
  intros Hp Hw Hl. unfold add_config, get_config_path, on_disk. unfold_stm. rewrite Hp, Hl.
  destruct (edited_kept h p d cfg) as (Kh & Kp & Kd). set (new := edited h p d cfg) in *.
  match goal with |- context [store_path path ?x] => replace x with new end.
  - destruct (store_writable path new (con_disk c) Hw) as (s' & Hs & _). simpl. rewrite Hs.
    exists s'. split; [done|]. by eapply load_stored.
  - destruct new as [nh np nd], cfg as [ch cp cd]; simpl in *. unfold set_host, set_port, set_disk_allocated.
    repeat case_bool_decide; simpl; subst; f_equal; symmetry; auto.
Qed.

(** Editing is all or nothing: when every value that is given is valid, the configuration that is read
    afterwards has the given values, the disk space in normal form, and keeps the other ones; when one is
    invalid the edit fails, one message for every invalid value is printed and the configuration is unchanged. *)
Theorem config_edit_atomic (path : string) (h p d : option string) (cfg : CliConfig) (c c1 : Console) :
  configuration_file_path CONF_FILE = Ok path -> writable path (con_disk c) ->
  get_config c = (Ok cfg, c1) ->
  exists c2,
    if bool_decide (edit_errors h p d = []) then
      config_edit h p d c = (Ok tt, c2) /\ get_config c2 = (Ok (edited h p d cfg), c2) /\ con_out c2 = con_out c
    else
      config_edit h p d c = (Err "Invalid pyrsia config", c2) /\ get_config c2 = (Ok cfg, c2)
      /\ con_out c2 = con_out c ++ edit_errors h p d.
Proof.
  intros Hp Hw Hg. rewrite (get_config_eq path c Hp) in Hg. pose proof (load_writable path _ Hw) as Hw1.
  destruct (load_path path (con_disk c)) as [r s1] eqn:El. simpl in *. simplify_eq.
  apply load_again in El as Hl1.
  assert (forall c', con_disk c' = s1 -> get_config c' = (Ok cfg, c')) as Hread.
  { intros c' Hc'. rewrite (get_config_eq path c' Hp), Hc', Hl1. simpl. subst s1. by destruct c'. }
  assert (config_edit h p d c =
    (if bool_decide (edit_errors h p d = []) then add_config (edited h p d cfg)
     else sbind (sfor (edit_errors h p d) println) (fun _ => serr "Invalid pyrsia config")) (set_con_disk s1 c)) as ->.
  { unfold config_edit. unfold_stm. rewrite (get_config_eq path c Hp), El. simpl.
    pose proof (config_edit_fields h p d cfg) as Hf. unfold obind in Hf.
    destruct (edit_field h _ _ _) as [q| |]; [|done..]. destruct (edit_field p _ _ q) as [q2| |]; [|done..].
    rewrite Hf. by case_bool_decide. }
  case_bool_decide as He.
  - destruct (add_config_edited path h p d cfg (set_con_disk s1 c)) as (s' & -> & Hl'); [done..|].
    exists (set_con_disk s' (set_con_disk s1 c)). split_and!; [done| |done].
    rewrite (get_config_eq path _ Hp). simpl. by rewrite Hl'.
  - unfold_stm. rewrite println_all. eexists. split_and!; [done| |done]. by apply Hread.
Qed.
End ConfigFacts.

(** ** Instances *)
Definition enc_config (c : CliConfig) : bytes :=
  enc_bytes (as_bytes (host c)) ++ enc_bytes (as_bytes (port c)) ++ enc_bytes (as_bytes (disk_allocated c)).
Definition dec_config (bs : bytes) : option CliConfig :=
  and_then (dec_bytes bs) (fun h r => and_then (dec_bytes r) (fun p r => and_then (dec_bytes r) (fun d _ =>
    Some {| host := String.string_of_list_byte h; port := String.string_of_list_byte p;
            disk_allocated := String.string_of_list_byte d |}))).

Lemma dec_enc_config c : dec_config (enc_config c) = Some c.
Proof.
  destruct c as [h p d]. unfold dec_config, enc_config. simpl.
  rewrite enc_bytes_ok by done. simpl. rewrite enc_bytes_ok by done. simpl.
  rewrite <- (app_nil_r (enc_bytes (as_bytes d))), enc_bytes_ok by done. simpl.
  unfold as_bytes. by rewrite !String.string_of_list_byte_of_string.
Qed.

Definition sample_store (path : string) (c : CliConfig) : stm Fs string unit :=
  smap_err (fun _ => "io error") (fs_create_write path (enc_config c)).

#[export] Instance sample_confy : Confy := {|
  configuration_file_path := fun name => Ok (name +:+ ".toml");
  store_path := sample_store;
  load_path := fun path =>
    let! s := sget in
    match fs_nodes s !! path with
    | Some (NFile bs) => match dec_config bs with Some c => sret c | None => serr "bad toml" end
    | Some NDir => serr "io error"
    | None => let! _ := sample_store path CliConfig_default in sret CliConfig_default
    end;
  to_string_pretty := fun c => Some (host c +:+ ":" +:+ port c) |}.

Lemma sample_store_ok path c s :
  sample_store path c s = (Ok tt, fs_set (<[path := NFile (enc_config c)]> (fs_nodes s)) s)
  \/ exists e s', sample_store path c s = (Err e, s').
Proof.
  unfold sample_store, fs_create_write, fs_check. unfold_stm. simpl.
  destruct (fs_fault s OpOpen path); [right; by do 2 eexists|].
  destruct (fs_nodes s !! path) as [[]|]; try destruct (fs_fault s OpWrite path); first [by left | right; by do 2 eexists].
Qed.

Lemma sample_store_writable path c s :
  writable path s ->
  sample_store path c s = (Ok tt, fs_set (<[path := NFile (enc_config c)]> (fs_nodes s)) s)
  /\ writable path (fs_set (<[path := NFile (enc_config c)]> (fs_nodes s)) s).
Proof.
  intros [Hr Hn]. unfold sample_store, fs_create_write. unfold_stm. rewrite fs_check_reliable by done. simpl. split.
  - destruct (fs_nodes s !! path) as [[]|]; [|done|]; by rewrite fs_check_reliable.
  - split; [done|]. simpl. by rewrite lookup_insert_eq.
Qed.

#[export] Instance sample_confy_ok : ConfyOk.
Proof.
  split; simpl.
  - intros path c s s' Hs. destruct (sample_store_ok path c s) as [Hok|(e & s1 & Hok)]; rewrite Hok in Hs; [|done].
    injection Hs as <-. unfold_stm. simpl. by rewrite lookup_insert_eq, dec_enc_config.
  - intros path c s s'. unfold_stm. destruct (fs_nodes s !! path) as [[bs|]|] eqn:E; [|done|].
    + destruct (dec_config bs) as [c'|] eqn:Ed; [|done]. intros [= <- <-]. by rewrite E, Ed.
    + destruct (sample_store_ok path CliConfig_default s) as [->|(e & s1 & ->)]; [|done]. intros [= <- <-].
      simpl. by rewrite lookup_insert_eq, dec_enc_config.
  - intros path s Hw Hn. unfold_stm. rewrite Hn. by destruct (sample_store_writable path CliConfig_default s Hw) as [-> _].
  - intros path s Hw. unfold_stm. destruct (fs_nodes s !! path) as [[bs|]|] eqn:E.
    + by destruct (dec_config bs).
    + by destruct Hw.
    + by destruct (sample_store_writable path CliConfig_default s Hw) as [-> Hw'].
  - intros path c s Hw. eexists. by apply sample_store_writable.
Qed.

Definition sample_console : Console :=
  {| con_disk := {| fs_nodes := ∅; fs_fault := fun _ _ => None |}; con_in := []; con_out := []; con_err := [] |}.

Example disk_spaces :
  valid_disk_space "010  GB" = Ok "10 GB" /\ valid_disk_space "4097 GB" = Err "Invalid value for Disk Allocation"
  /\ valid_disk_space "5.84 GB" = Err "Invalid value for Disk Allocation".
Proof. vm_compute. auto. Qed.

Lemma host_names_accepted_witness :
  valid_host_name "-pyrsia.io" = Err "Invalid value for Hostname" /\ valid_host_name "pyrsia.io" = Ok "pyrsia.io".
Proof. split; rewrite host_names_accepted; reflexivity. Defined.

Lemma config_values_bounded_witness : valid_disk_space "10 GB" = Ok "10 GB".
Proof.
  apply (proj1 (proj2 (proj2 (config_values_bounded "010  GB" "10 GB")))). vm_compute. reflexivity.
Defined.

(** A valid port and an invalid disk space: nothing is changed. *)
Lemma config_edit_atomic_witness :
  exists c2,
    config_edit None (Some "8080") (Some "10GB") sample_console = (Err "Invalid pyrsia config", c2)
    /\ get_config c2 = (Ok CliConfig_default, c2)
    /\ con_out c2 = [] ++ ["Invalid value for Disk Allocation"].
Proof.
  exact (config_edit_atomic "pyrsia-cli.toml" None (Some "8080") (Some "10GB") CliConfig_default
    sample_console (snd (get_config sample_console)) eq_refl ltac:(by split) eq_refl).
Defined.
