(* ===== verification/Cli.v ===== *)
(** * Cli: the command line tool

    Models src/cli_commands/node.rs and model.rs, pyrsia_cli/src/cli/handlers.rs and the dispatch
    of pyrsia_cli/src/main.rs.  What clap parses is the type [CliArgs].  The HTTP client is the class
    [Reqwest] over a network state; serde_json on the client's side is the class [CliJson].
    [NodeWeb] connects the tool to a node as [Api] models it. *)

From S2P Require Import Prelude Crypto Structures Sample FileSystem Sql SqlSample Model Text TransparencyLog EventLoop Client Build Registry Artifact Api Protocols Util Regex Config.

(** ** HTTP *)
Record HttpResponse := { hr_status : Z; hr_url : string; hr_text : string }.

Class Reqwest (N : Type) := {
  http_send : Method -> string -> bytes -> stm N string HttpResponse;
  (** [StatusCode] as a text: the code and its reason. *)
  status_code_text : Z -> string;
}.

(** cli_commands/model.rs *)
Record BuildResultResponse := { brr_build_id : option string; brr_message : option string }.

(** serde_json: requests as bodies, answers as values; [None] is an error. *)
Class CliJson := {
  json_request_authorize : string -> bytes;
  json_request_docker_build : string -> bytes;
  json_request_maven_build : string -> bytes;
  json_request_build_status : string -> bytes;
  json_request_docker_log : RequestLog -> bytes;
  json_request_maven_log : RequestLog -> bytes;
  json_read_build_result : string -> option BuildResultResponse;
  json_read_build_status : string -> option BuildStatus;
  json_read_status : string -> option Status;
  (** The text of [value["errors"][0]["message"]] of a JSON document. *)
  json_error_message : string -> option string;
  (** [to_string_pretty(from_str(..))]; [None] when the text is no JSON. *)
  json_pretty : string -> option string;
}.

Record Cli (N : Type) := { cli_console : Console; cli_net : N }.
Arguments cli_console {N}. Arguments cli_net {N}.

Section Cli.
Context {N : Type} `{!Reqwest N} `{!CliJson} `{!Confy} `{!RegexEngine}.

Abbreviation cli A := (stm (Cli N) string A).

Definition on_console {E A} (c : stm Console E A) : stm (Cli N) E A :=
  szoom cli_console (fun c s => {| cli_console := c; cli_net := cli_net s |}) c.
Definition on_web {E A} (c : stm N E A) : stm (Cli N) E A :=
  szoom cli_net (fun n s => {| cli_console := cli_console s; cli_net := n |}) c.
Definition say {E} (line : string) : stm (Cli N) E unit := on_console (println line).

(** ** cli_commands/node.rs *)
Definition get_url {E} : stm (Cli N) E string :=
  let! result := on_console (scatch get_config) in
  match result with
  | inl data => sret (host data +:+ ":" +:+ port data)
  | inr error => let! _ := say ("Error: " +:+ error) in sret ("" +:+ ":" +:+ "")
  end.

Definition reqwest_get (path : string) : cli HttpResponse :=
  let! url := get_url in
  on_web (http_send GET ("http://" +:+ url +:+ path) []).

(** [StatusCode::is_client_error] and [is_server_error]. *)
Definition is_error_status (z : Z) : bool := ((400 <=? z) && (z <? 600))%Z.

Definition error_for_status_with_body (r : HttpResponse) : outcome string HttpResponse :=
  if is_error_status (hr_status r) then
    match json_error_message (hr_text r) with
    | None => Err "invalid JSON"
    | Some message =>
        Err ("HTTP status error (" +:+ status_code_text (hr_status r) +:+ ") for url ("
             +:+ hr_url r +:+ "): " +:+ message)
    end
  else Ok r.

Definition json_or_error_with_body {R} (read : string -> option R) (r : HttpResponse) : outcome string R :=
  match error_for_status_with_body r with
  | Ok r => ok_or (read (hr_text r)) "invalid JSON"
  | Err e => Err e
  | Panic => Panic
  end.

Definition text_or_error_with_body (r : HttpResponse) : outcome string string :=
  match error_for_status_with_body r with Ok r => Ok (hr_text r) | Err e => Err e | Panic => Panic end.

Definition object_or_error_with_body {R} (read : string -> option R) (r : HttpResponse) : outcome string R :=
  match error_for_status_with_body r with
  | Ok r => ok_or (read (hr_text r)) "invalid JSON"
  | Err e => Err e
  | Panic => Panic
  end.

Definition post_and_parse_result_as_json {R} (read : string -> option R) (node_url : string) (request : bytes) :
    cli R :=
  let! r := on_web (http_send POST node_url request) in
  slift (json_or_error_with_body read r).

Definition post_and_parse_result_as_text (node_url : string) (request : bytes) : cli string :=
  let! r := on_web (http_send POST node_url request) in
  slift (text_or_error_with_body r).

Definition post_and_parse_json_result_as_object {R} (read : string -> option R) (node_url : string)
    (request : bytes) : cli R :=
  let! r := on_web (http_send POST node_url request) in
  slift (object_or_error_with_body read r).

Definition ping : cli string :=
  let! r := reqwest_get "/v2" in
  sret (hr_text r).

Definition peers_connected : cli string :=
  let! r := reqwest_get "/peers" in
  sret (hr_text r).

Definition status : cli Status :=
  let! r := reqwest_get "/status" in
  slift (ok_or (json_read_status (hr_text r)) "invalid JSON").

Definition cli_add_authorized_node (peer_id : string) : cli unit :=
  let! url := get_url in
  let! _ := post_and_parse_result_as_text ("http://" +:+ url +:+ "/authorized_node")
              (json_request_authorize peer_id) in
  sret tt.

Definition cli_request_docker_build (image : string) : cli BuildResultResponse :=
  let! url := get_url in
  post_and_parse_json_result_as_object json_read_build_result ("http://" +:+ url +:+ "/build/docker")
    (json_request_docker_build image).

Definition cli_request_build_status (build_id : string) : cli BuildStatus :=
  let! url := get_url in
  post_and_parse_result_as_json json_read_build_status ("http://" +:+ url +:+ "/build/status")
    (json_request_build_status build_id).

(** The address is the one of Docker builds. *)
Definition cli_request_maven_build (gav : string) : cli BuildResultResponse :=
  let! url := get_url in
  post_and_parse_json_result_as_object json_read_build_result ("http://" +:+ url +:+ "/build/docker")
    (json_request_maven_build gav).

Definition cli_inspect_docker_transparency_log (request : RequestLog) : cli string :=
  let! url := get_url in
  post_and_parse_result_as_text ("http://" +:+ url +:+ "/inspect/docker") (json_request_docker_log request).

Definition cli_inspect_maven_transparency_log (request : RequestLog) : cli string :=
  let! url := get_url in
  post_and_parse_result_as_text ("http://" +:+ url +:+ "/inspect/maven") (json_request_maven_log request).

(** ** pyrsia_cli/src/cli/handlers.rs *)
Definition CONF_REMINDER_MESSAGE : string :=
  "Please make sure the pyrsia CLI config is up to date and matches the node configuration. For more information, run 'pyrsia config --show'".

(** The text of a line that was read: without its line feed or carriage return and line feed. *)
Definition strip_suffix (suffix s : string) : option string :=
  if ends_with suffix s
  then Some (String.substring 0 (String.length s - String.length suffix) s) else None.
Definition line_text (buffer : string) : string :=
  match strip_suffix (String.String "010"%char "") buffer with
  | None => buffer
  | Some l => match strip_suffix (String.String "013"%char "") l with Some l' => l' | None => l end
  end.

(** [read_line] on standard input: nothing is read at its end, and bytes that are not UTF-8 are an error, [None]. *)
Definition read_line {E} : stm Console E (option string) := fun c =>
  match con_in c with
  | [] => (Ok (Some ""), c)
  | buffer :: rest =>
      (Ok (String_from_utf8 (as_bytes buffer)), {| con_disk := con_disk c; con_in := rest; con_out := con_out c; con_err := con_err c |})
  end.

(** The loop, with a bound on its rounds: [None] when the rounds are used up. *)
Fixpoint read_interactive_input (fuel : nat) (cli_prompt default_val : string)
    (validation_func : string -> outcome string string) : stm Console string (option string) :=
  match fuel with
  | 0 => sret None
  | S fuel' =>
      let! _ := println cli_prompt in
      let! line := read_line in
      match line with
      | None => read_interactive_input fuel' cli_prompt default_val validation_func
      | Some buffer =>
          if (0 <? len (as_bytes buffer))%Z then
            let input := line_text buffer in
            let input := if bool_decide (input = "") then default_val else input in
            match validation_func input with
            | Ok r => sret (Some r)
            | Err _ => read_interactive_input fuel' cli_prompt default_val validation_func
            | Panic => spanic
            end
          else read_interactive_input fuel' cli_prompt default_val validation_func
      end
  end.

(** [None] when an input loop does not end within the bound. *)
Definition config_add (fuel : nat) : stm Console string (option unit) :=
  let default_config := CliConfig_default in
  let! h := read_interactive_input fuel ("Enter host: [" +:+ host default_config +:+ "]")
              (host default_config) valid_host_name in
  match h with None => sret None | Some h =>
  let! p := read_interactive_input fuel ("Enter port: [" +:+ port default_config +:+ "]")
              (port default_config) valid_port in
  match p with None => sret None | Some p =>
  let! d := read_interactive_input fuel
              ("Enter disk space to be allocated to pyrsia(Please enter with units ex: 10 GB): ["
               +:+ disk_allocated default_config +:+ "]")
              (disk_allocated default_config) valid_disk_space in
  match d with None => sret None | Some d =>
  let! _ := add_config {| host := h; port := p; disk_allocated := d |} in
  sret (Some tt)
  end end end.

Definition CONF_FILE_PATH_MSG_STARTER : string := "Config file path:".

Definition config_show {E} : stm (Cli N) E unit :=
  let! _ := match get_config_file_path with
            | Ok path => say (CONF_FILE_PATH_MSG_STARTER +:+ " " +:+ path)
            | Err error => say ("Error retrieving config file path: " +:+ error)
            | Panic => spanic
            end in
  let! result := on_console (scatch get_config) in
  match result with
  | inl config => let! text := slift (CliConfig_to_string config) in say text
  | inr error => say ("No Node Configured: " +:+ error)
  end.

Definition authorize {E} (peer_id : string) : stm (Cli N) E unit :=
  let! r := scatch (cli_add_authorized_node peer_id) in
  match r with
  | inl _ => say "Authorize request successfully handled."
  | inr error => say ("Authorize request failed with error: " +:+ error)
  end.

Definition handle_request_build_result {E} (result : BuildResultResponse + string) : stm (Cli N) E unit :=
  match result with
  | inl r =>
      let! _ := match brr_build_id r with
                | Some build_id => say ("Build request successfully handled. Build with ID '"
                                        +:+ build_id +:+ "' has been started.")
                | None => sret tt
                end in
      match brr_message r with Some message => say message | None => sret tt end
  | inr error_message => say ("Build request failed with error: " +:+ error_message)
  end.

Definition request_docker_build {E} (image : string) : stm (Cli N) E unit :=
  let! build_result := scatch (cli_request_docker_build image) in
  handle_request_build_result build_result.

Definition request_maven_build {E} (gav : string) : stm (Cli N) E unit :=
  let! build_result := scatch (cli_request_maven_build gav) in
  handle_request_build_result build_result.

Definition request_build_status {E} (build_id : string) : stm (Cli N) E unit :=
  let! result := scatch (cli_request_build_status build_id) in
  match result with
  | inl build_status =>
      say ("Build status for '" +:+ build_id +:+ "' is '" +:+ BuildStatus_to_string build_status +:+ "'")
  | inr e =>
      say ("Build status for '" +:+ build_id +:+ "' was not found: " +:+ e +:+ String.String "010"%char
           "Additional info related to the build might be available via 'pyrsia inspect-log' command")
  end.

Definition node_ping {E} : stm (Cli N) E unit :=
  let! result := scatch ping in
  match result with
  | inl _ => say "Connection Successful !!"
  | inr error => say ("Error: " +:+ error +:+ ". " +:+ CONF_REMINDER_MESSAGE)
  end.

Definition node_status {E} : stm (Cli N) E unit :=
  let! result := scatch status in
  match result with
  | inl resp => say ("Connected Peers Count:       " +:+ pretty (Z.of_nat (peers_count resp)))
  | inr error => say ("Error: " +:+ error +:+ ". " +:+ CONF_REMINDER_MESSAGE)
  end.

(** The set is iterated in some order: that of the first occurrences is taken. *)
Definition node_list {E} : stm (Cli N) E unit :=
  let! result := scatch peers_connected in
  match result with
  | inl resp =>
      let! _ := say "Connected Peers:" in
      sfor (remove_dups (split ","%char resp)) say
  | inr error => say ("Error: " +:+ error +:+ ". " +:+ CONF_REMINDER_MESSAGE)
  end.

(** [names.split(',').map(trim)], parsed as fields. *)
Definition parse_arg_fields (arg_fields : option string) : outcome string (option Content) :=
  match arg_fields with
  | Some names => let? fields := parse_fields (trim <$> split ","%char names) in Ok (Some fields)
  | None => Ok None
  end.

(** [ContentType::print_logs]. *)
Definition print_logs {E} (c : ContentType) (logs : string) : stm (Cli N) E unit :=
  match c with
  | JSON => let! text := slift (unwrap (json_pretty logs)) in say text
  | CSV => say logs
  end.

Definition inspect_transparency_log {E} (arg_format arg_fields : option string)
    (request : ContentType -> option Content -> cli string) : stm (Cli N) E unit :=
  let! content_type := match ContentType_from arg_format with Ok c => sret c | _ => spanic end in
  match parse_arg_fields arg_fields with
  | Ok content =>
      let! result := scatch (request content_type content) in
      match result with
      | inl logs => print_logs content_type logs
      | inr error => say ("Inspect log request failed with error: " +:+ error)
      end
  | Err error =>
      say ("Parsing of arguments failed with error: ParseTransparencyLogFieldError { invalid_field: "
           +:+ error +:+ " }" +:+ String.String "010"%char "For more information, try '--help'.")
  | Panic => spanic
  end.

Definition log_request (package : string) (latest : option bool) (content_type : ContentType)
    (content : option Content) : RequestLog := {|
  rl_package := package;
  rl_output_params := Some {| op_format := Some content_type; op_content := content |};
  rl_latest := latest |}.

Definition inspect_docker_transparency_log {E} (image : string) (arg_format arg_fields : option string)
    (arg_latest : option bool) : stm (Cli N) E unit :=
  inspect_transparency_log arg_format arg_fields (fun content_type content =>
    cli_inspect_docker_transparency_log (log_request image arg_latest content_type content)).

Definition inspect_maven_transparency_log {E} (gav : string) (arg_format arg_fields : option string)
    (arg_latest : option bool) : stm (Cli N) E unit :=
  inspect_transparency_log arg_format arg_fields (fun content_type content =>
    cli_inspect_maven_transparency_log (log_request gav arg_latest content_type content)).

(** ** pyrsia_cli/src/main.rs *)
Inductive CliArgs :=
| ArgConfig (edit : option (option string * option string * option string)) (remove show : bool)
| ArgAuthorize (peer : string)
| ArgBuildDocker (image : string)
| ArgBuildMaven (gav : string)
| ArgBuildStatus (id : string)
| ArgList
| ArgPing
| ArgStatus
| ArgInspectDocker (image : string) (format fields : option string) (latest : option bool)
| ArgInspectMaven (gav : string) (format fields : option string) (latest : option bool).

Definition saved {E} (r : unit + string) : stm (Cli N) E unit :=
  match r with
  | inl _ => say "Node configuration saved !!"
  | inr error => on_console (eprintln ("Error saving node configuration: " +:+ error))
  end.

(** [None] when the interactive input does not end within the bound. *)
Definition config_edit_command {E} (fuel : nat) (h p d : option string) : stm (Cli N) E (option unit) :=
  match h, p, d with
  | None, None, None =>
      let! r := on_console (scatch (config_add fuel)) in
      match r with
      | inl None => sret None
      | inl (Some _) => let! _ := saved (inl tt) in sret (Some tt)
      | inr error => let! _ := saved (inr error) in sret (Some tt)
      end
  | _, _, _ =>
      let! r := on_console (scatch (config_edit h p d)) in
      let! _ := saved r in
      sret (Some tt)
  end.

Definition main {E} (fuel : nat) (matches : CliArgs) : stm (Cli N) E (option unit) :=
  let return_ (c : stm (Cli N) E unit) := let! _ := c in sret (Some tt) in
  match matches with
  | ArgConfig edit remove show =>
      let! r := match edit with
                | Some (h, p, d) => config_edit_command fuel h p d
                | None => sret (Some tt)
                end in
      match r with
      | None => sret None
      | Some _ =>
          let! _ := if remove then
                      let! r := on_console (scatch config_remove) in
                      match r with
                      | inl _ => say "Node configuration removed !!"
                      | inr error => on_console (eprintln ("Error removing node configuration: " +:+ error))
                      end
                    else sret tt in
          return_ (if show then config_show else sret tt)
      end
  | ArgAuthorize peer => return_ (authorize peer)
  | ArgBuildDocker image => return_ (request_docker_build image)
  | ArgBuildMaven gav => return_ (request_maven_build gav)
  | ArgBuildStatus id => return_ (request_build_status id)
  | ArgList => return_ node_list
  | ArgPing => return_ node_ping
  | ArgStatus => return_ node_status
  | ArgInspectDocker image format fields latest =>
      return_ (inspect_docker_transparency_log image format fields latest)
  | ArgInspectMaven gav format fields latest =>
      return_ (inspect_maven_transparency_log gav format fields latest)
  end.
End Cli.

(** ** A node as the server of the tool

    The parts of an address, the text of an error and the reasons of statuses are what the HTTP
    crates add to [serve]. *)
Class NodeWeb `{Crypto} := {
  url_path : string -> option string;
  error_text : ErrorMessage -> string;
  reason : Z -> string;
}.

(** A port without plus, as it is written in an address. *)
Definition plain_port (p : string) : bool :=
  negb (bool_decide (p = "")) && forallb (char_in 48 57) (chars p)
  && match parse_u16 (chars p) with Some _ => true | None => false end.

Class NodeWebOk `{NodeWeb} : Prop :=
  url_path_ok h p path :
    host_name_ok h = true -> plain_port p = true -> starts_with "/" path = true ->
    url_path ("http://" +:+ (h +:+ ":" +:+ p) +:+ path) = Some path.

(** The requests of the tool and the parsers of the node: what is written is read, and a body for
    a Maven build, which has no field [image], is not read as a Docker build. *)
Class CliJsonOk `{Crypto} `{!ApiJson} `{!CliJson} : Prop := {
  read_authorize p : parse_peer_id (json_request_authorize p) = Some p;
  read_docker_build i : parse_image (json_request_docker_build i) = Some i;
  read_maven_build g : parse_gav (json_request_maven_build g) = Some g;
  read_build_status b : parse_build_id (json_request_build_status b) = Some b;
  read_docker_log r : parse_docker_log (json_request_docker_log r) = Some r;
  read_maven_log r : parse_maven_log (json_request_maven_log r) = Some r;
  maven_body_no_image g : parse_image (json_request_maven_build g) = None;
}.

Section CliNode.
Context `{Libp2p} `{Sqlite} `{!LogJson} `{!Sha256} `{!ApiJson} `{!NodeWeb}.
Context {B : Type} `{!BlockAdder B} {W : Type} `{!CommandChannel W} {C : Type} `{!BuildClient C}.
Context `{!CliJson} `{!Confy} `{!RegexEngine}.

Abbreviation Artifacts := (ArtifactService (B := B) (W := W) (C := C)).

Definition node_send (d : tl_draw) (m : Method) (url : string) (body : bytes) : stm Artifacts string HttpResponse :=
  match url_path url with
  | None => serr "builder error: invalid url"
  | Some path => fun s =>
      match serve (E := string) {| wr_method := m; wr_path := path; wr_body := body |} d s with
      | (Ok (inl reply), s') =>
          (Ok {| hr_status := reply_status reply; hr_url := url;
                 hr_text := String.string_of_list_byte (reply_body reply) |}, s')
      | (Ok (inr (st, message)), s') =>
          (Ok {| hr_status := st; hr_url := url; hr_text := error_text message |}, s')
      | (_, s') => (Err "connection closed", s')
      end
  end.

(** [d] is the time and the random numbers that the node draws while it answers. *)
Definition node_reqwest (d : tl_draw) : Reqwest Artifacts := {|
  http_send := node_send d;
  status_code_text := reason |}.

(** What a command is meant to do to the node. *)
Definition inspected (fields format : option string) (run : ContentType -> option Content -> Artifacts -> Artifacts)
    (s : Artifacts) : Artifacts :=
  match ContentType_from format, parse_arg_fields fields with
  | Ok content_type, Ok content => run content_type content s
  | _, _ => s
  end.

Definition node_effect (d : tl_draw) (c : CliArgs) (s : Artifacts) : Artifacts :=
  match c with
  | ArgAuthorize peer => snd (handle_add_authorized_node peer d s)
  | ArgBuildDocker image => snd (handle_build_docker image s)
  | ArgBuildMaven gav => s
  | ArgBuildStatus id => snd (handle_build_status id s)
  | ArgList => snd (on_net handle_get_peers s)
  | ArgStatus => snd (on_net handle_get_status s)
  | ArgPing => s
  | ArgConfig _ _ _ => s
  | ArgInspectDocker image format fields latest =>
      inspected fields format (fun t content s => snd (handle_inspect_log_docker (log_request image latest t content) s)) s
  | ArgInspectMaven gav format fields latest =>
      inspected fields format (fun t content s => snd (handle_inspect_log_maven (log_request gav latest t content) s)) s
  end.

(** The body that a command sends. *)
Definition command_body (c : CliArgs) : bytes :=
  match c with
  | ArgAuthorize peer => json_request_authorize peer
  | ArgBuildDocker image => json_request_docker_build image
  | ArgBuildMaven gav => json_request_maven_build gav
  | ArgBuildStatus id => json_request_build_status id
  | ArgInspectDocker image format fields latest =>
      match ContentType_from format, parse_arg_fields fields with
      | Ok t, Ok content => json_request_docker_log (log_request image latest t content)
      | _, _ => []
      end
  | ArgInspectMaven gav format fields latest =>
      match ContentType_from format, parse_arg_fields fields with
      | Ok t, Ok content => json_request_maven_log (log_request gav latest t content)
      | _, _ => []
      end
  | _ => []
  end.

Context `{!NodeWebOk} `{!CliJsonOk} `{!RegexEngineOk}.
Context (d : tl_draw).
#[local] Instance web : Reqwest Artifacts := node_reqwest d.

(** The configuration that is read names a node. *)
Definition configured (c : Console) : Prop :=
  exists cfg c1, get_config c = (Ok cfg, c1) /\ con_out c1 = con_out c
    /\ host_name_ok (host cfg) = true /\ plain_port (port cfg) = true.

Lemma node_send_state m url path body (s : Artifacts) :
  url_path url = Some path ->
  snd (node_send d m url body s)
  = snd (serve (E := string) {| wr_method := m; wr_path := path; wr_body := body |} d s).
Proof.
  intros Hu. unfold node_send. rewrite Hu. by destruct (serve _ d s) as [[[reply|[st e]]| |] s'].
Qed.

(** The state of the node after a request to one of its own routes. *)
Lemma serve_node_state r path rest (s : Artifacts) :
  segments (wr_path r) = path :: rest -> path <> "v2" -> path <> "maven2" ->
  snd (serve (E := string) r d s) = snd (node_routes r d s).
Proof.
  intros Hs Hv Hm. rewrite (serve_node r d s path rest Hs Hv Hm). by destruct (node_routes r d s).
Qed.

Lemma with_body_state {A} (parse : bytes -> option A) body a k (s : Artifacts) :
  (Z.of_nat (length body) <= 8192)%Z -> parse body = Some a ->
  snd (with_body parse body k s) = snd (k a s).
Proof.
  intros Hl Hp. rewrite (with_body_parsed parse body a k s Hl Hp). unfold rejecting, smap_err.
  by destruct (k a s).
Qed.

Lemma rejecting_state {A} (k : stm Artifacts RegistryErrorCode A) s : snd (rejecting k s) = snd (k s).
Proof. unfold rejecting, smap_err. by destruct (k s). Qed.

Lemma say_frames {E} line : frames cli_net (say (N := Artifacts) (E := E) line).
Proof. apply frames_zoom. done. Qed.

Lemma print_logs_frames {E} t logs : frames cli_net (print_logs (N := Artifacts) (E := E) t logs).
Proof. destruct t; [apply frames_bind; [apply frames_lift|intros; apply say_frames]|apply say_frames]. Qed.

(** A command sends one request and prints. *)
Definition request_and_print {E R} (m : Method) (path : string) (body : bytes)
    (parse : HttpResponse -> outcome string R) (k : R + string -> stm (Cli Artifacts) E unit) :
    stm (Cli Artifacts) E unit :=
  let! r := scatch (let! url := get_url in
                    let! r := on_web (http_send m ("http://" +:+ url +:+ path) body) in
                    slift (parse r)) in
  k r.

Lemma get_url_configured {E} (w : Cli Artifacts) :
  configured (cli_console w) ->
  exists h p c1, get_url (E := E) w = (Ok (h +:+ ":" +:+ p), {| cli_console := c1; cli_net := cli_net w |})
    /\ con_out c1 = con_out (cli_console w) /\ host_name_ok h = true /\ plain_port p = true.
Proof.
  intros (cfg & c1 & Hg & Ho & Hh & Hp). exists (host cfg), (port cfg), c1. split; [|done].
  unfold get_url, on_console. unfold_stm. by rewrite Hg.
Qed.

Lemma request_and_print_state {E R} m path body (parse : HttpResponse -> outcome string R)
    (k : R + string -> stm (Cli Artifacts) E unit) (w : Cli Artifacts) :
  configured (cli_console w) -> starts_with "/" path = true -> (forall x, frames cli_net (k x)) ->
  cli_net (snd (request_and_print m path body parse k w))
  = snd (serve (E := string) {| wr_method := m; wr_path := path; wr_body := body |} d (cli_net w)).
Proof.
  intros Hc Hpath Hk. destruct (get_url_configured (E := string) w Hc) as (h & p & c1 & Hu & _ & Hh & Hp).
  unfold request_and_print, on_web. unfold_stm. rewrite Hu. simpl.
  rewrite <- (node_send_state m ("http://" +:+ (h +:+ ":" +:+ p) +:+ path) path) by (by apply url_path_ok).
  destruct (node_send d m _ body (cli_net w)) as [[r|e|] s'] eqn:Hn; simpl; [|by rewrite Hk|done].
  destruct (parse r) as [x|x|]; simpl; [by rewrite Hk..|done].
Qed.

(** What is printed when the node rejects a request. *)
Lemma request_rejected {R} path body (read : string -> option R) st message
    (k : R + string -> stm (Cli Artifacts) string unit) (w : Cli Artifacts) s' :
  configured (cli_console w) -> starts_with "/" path = true -> is_error_status st = true ->
  serve (E := string) {| wr_method := POST; wr_path := path; wr_body := body |} d (cli_net w)
    = (Ok (inr (st, message)), s') ->
  exists c1 error, con_out c1 = con_out (cli_console w)
    /\ request_and_print POST path body (object_or_error_with_body read) k w
       = k (inr error) {| cli_console := c1; cli_net := s' |}.
Proof.
  intros Hc Hpath Hst Hs. destruct (get_url_configured (E := string) w Hc) as (h & p & c1 & Hu & Ho & Hh & Hp).
  exists c1. unfold request_and_print, on_web. unfold_stm. rewrite Hu. simpl.
  unfold node_send. rewrite url_path_ok by done. rewrite Hs.
  unfold object_or_error_with_body, error_for_status_with_body. simpl. rewrite Hst.
  destruct (json_error_message (error_text message)) as [text|]; eexists; split; done.
Qed.

Lemma return_state {E} (c : stm (Cli Artifacts) E unit) w :
  cli_net (snd ((let! _ := c in sret (Some tt)) w)) = cli_net (snd (c w)).
Proof. unfold_stm. by destruct (c w) as [[] ?]. Qed.

Lemma inspect_state {E} (path : string) fields format (to_json : ContentType -> option Content -> bytes)
    (w : Cli Artifacts) :
  configured (cli_console w) -> starts_with "/" path = true ->
  cli_net (snd (inspect_transparency_log (E := E) format fields (fun t content =>
    let! url := get_url in
    post_and_parse_result_as_text ("http://" +:+ url +:+ path) (to_json t content)) w))
  = inspected fields format (fun t content s => snd (serve (E := string)
      {| wr_method := POST; wr_path := path; wr_body := to_json t content |} d s)) (cli_net w).
Proof.
  intros Hc Hpath. unfold inspect_transparency_log, inspected.
  destruct (ContentType_from format) as [t|e|]; [|done..].
  destruct (parse_arg_fields fields) as [content|e|]; [|by apply say_frames|done].
  apply (request_and_print_state POST path (to_json t content) text_or_error_with_body
    (fun r => match r with inl logs => print_logs t logs
      | inr error => say ("Inspect log request failed with error: " +:+ error) end) w Hc Hpath).
  intros [logs|e]; [apply print_logs_frames|apply say_frames].
Qed.

(** Commands as one request and a printed answer. *)
Lemma get_as_request {E R} path (parse : HttpResponse -> outcome string R)
    (k : R + string -> stm (Cli Artifacts) E unit) (w : Cli Artifacts) :
  (let! r := scatch (let! r := reqwest_get path in slift (parse r)) in k r) w
  = request_and_print GET path [] parse k w.
Proof.
  unfold request_and_print, reqwest_get. unfold_stm. by destruct (get_url w) as [[] ?].
Qed.

Lemma authorize_as_request {E} peer (w : Cli Artifacts) :
  authorize (E := E) peer w
  = request_and_print POST "/authorized_node" (json_request_authorize peer)
      (fun r => let? _ := text_or_error_with_body r in Ok tt)
      (fun r => match r with
                | inl _ => say "Authorize request successfully handled."
                | inr error => say ("Authorize request failed with error: " +:+ error)
                end) w.
Proof.
  unfold authorize, cli_add_authorized_node, post_and_parse_result_as_text, request_and_print. unfold_stm.
  destruct (get_url w) as [[u|e|] w1]; [|done..]. destruct (on_web _ w1) as [[r|e|] w2]; [|done..].
  by destruct (text_or_error_with_body r).
Qed.

Lemma build_result_frames {E} r : frames cli_net (handle_request_build_result (N := Artifacts) (E := E) r).
Proof.
  destruct r as [[[build_id|] [message|]]|e]; simpl;
    try (apply frames_bind; intros); auto using @say_frames, @frames_ret.
Qed.

(** The state of the node after a POST with a body that it reads. *)
Lemma post_state {A} path seg rest (parse : bytes -> option A) a (k : A -> stm Artifacts RegistryErrorCode Reply) body
    (s : Artifacts) :
  segments path = seg :: rest -> seg <> "v2" -> seg <> "maven2" ->
  (forall s, node_routes {| wr_method := POST; wr_path := path; wr_body := body |} d s = with_body parse body k s) ->
  (Z.of_nat (length body) <= 8192)%Z -> parse body = Some a ->
  snd (serve (E := string) {| wr_method := POST; wr_path := path; wr_body := body |} d s) = snd (k a s).
Proof.
  intros Hs Hv Hm Hr Hl Hp. rewrite (serve_node_state _ seg rest) by done. rewrite Hr. by apply with_body_state.
Qed.

Lemma maven_build_rejected gav (s : Artifacts) :
  serve (E := string) {| wr_method := POST; wr_path := "/build/docker"; wr_body := json_request_maven_build gav |} d s
  = (Ok (inr (500%Z, {| em_code := Unknown (CauseText ""); em_message := CauseText "" |})), s).
Proof.
  rewrite (serve_node _ d s "build" ["docker"]) by done. unfold node_routes; simpl. unfold with_body.
  rewrite maven_body_no_image. by destruct (_ <=? _)%Z.
Qed.

(** C11. The tool and the node agree on every command but one: running a command of the tool against a node changes the
    node exactly as the handler of the command does with the values of the command line, for every
    configuration that names a node, every command whose request is within the limit of 8192 bytes and every state of the
    node; a request to build a Maven package changes nothing. *)
Theorem commands_reach_handlers {E} (fuel : nat) (c : CliArgs) (w : Cli Artifacts) :
  configured (cli_console w) -> (Z.of_nat (length (command_body c)) <= 8192)%Z ->
  (forall edit remove show, c <> ArgConfig edit remove show) ->
  cli_net (snd (main (E := E) fuel c w)) = node_effect d c (cli_net w).
Proof.
  intros Hc Hlen Hcmd.
  destruct c as [edit remove show|peer|image|gav|id| | | |image format fields latest|gav format fields latest];
    [by destruct (Hcmd edit remove show)|..]; clear Hcmd; simpl in Hlen; unfold main; rewrite return_state; simpl.
  - rewrite authorize_as_request, request_and_print_state; [|done|done|intros []; apply say_frames].
    by apply (post_state _ "authorized_node" [] parse_peer_id _ (fun p => handle_add_authorized_node p d)), read_authorize.
  - etrans; [apply (request_and_print_state POST "/build/docker" (json_request_docker_build image)
      (object_or_error_with_body json_read_build_result) handle_request_build_result w Hc eq_refl build_result_frames)|].
    by apply (post_state _ "build" ["docker"] parse_image _ handle_build_docker), read_docker_build.
  - etrans; [apply (request_and_print_state POST "/build/docker" (json_request_maven_build gav)
      (object_or_error_with_body json_read_build_result) handle_request_build_result w Hc eq_refl build_result_frames)|].
    by rewrite maven_build_rejected.
  - etrans; [apply (request_and_print_state POST "/build/status" (json_request_build_status id)
      (json_or_error_with_body json_read_build_status) (fun r => _) w Hc eq_refl); intros []; apply say_frames|].
    by apply (post_state _ "build" ["status"] parse_build_id _ handle_build_status), read_build_status.
  - unfold node_list. unfold peers_connected.
    rewrite (get_as_request "/peers" (fun r => Ok (hr_text r))), request_and_print_state; [|done|done|].
    + rewrite (serve_node_state _ "peers" []) by done. apply rejecting_state.
    + intros [resp|e]; [|apply say_frames]. apply frames_bind; [apply say_frames|intros _].
      apply frames_for. intros. apply say_frames.
  - unfold node_ping, ping.
    rewrite (get_as_request "/v2" (fun r => Ok (hr_text r))), request_and_print_state;
      [|done|done|intros []; apply say_frames].
    by rewrite (serve_docker _ d _ []).
  - unfold node_status, status.
    rewrite (get_as_request "/status" (fun r => ok_or (json_read_status (hr_text r)) "invalid JSON")),
      request_and_print_state; [|done|done|intros []; apply say_frames].
    rewrite (serve_node_state _ "status" []) by done. apply rejecting_state.
  - etrans; [apply (inspect_state "/inspect/docker" fields format (fun t content =>
      json_request_docker_log (log_request image latest t content)) w Hc eq_refl)|].
    unfold inspected. destruct (ContentType_from format) as [t| |]; [|done..].
    destruct (parse_arg_fields fields) as [content| |]; [|done..].
    by apply (post_state _ "inspect" ["docker"] parse_docker_log _ handle_inspect_log_docker), read_docker_log.
  - etrans; [apply (inspect_state "/inspect/maven" fields format (fun t content =>
      json_request_maven_log (log_request gav latest t content)) w Hc eq_refl)|].
    unfold inspected. destruct (ContentType_from format) as [t| |]; [|done..].
    destruct (parse_arg_fields fields) as [content| |]; [|done..].
    by apply (post_state _ "inspect" ["maven"] parse_maven_log _ handle_inspect_log_maven), read_maven_log.
Qed.

(** The command that builds a Maven package never works: its request goes to the address of Docker builds, the
    node answers 500 and is unchanged, and the tool prints that the request failed, for
    every package, configuration and node. *)
Theorem maven_build_command_fails (fuel : nat) (gav : string) (w : Cli Artifacts) :
  configured (cli_console w) ->
  exists w' error,
    main (E := string) fuel (ArgBuildMaven gav) w = (Ok (Some tt), w')
    /\ cli_net w' = cli_net w
    /\ con_out (cli_console w') = con_out (cli_console w) ++ ["Build request failed with error: " +:+ error].
Proof.
  intros Hc. destruct (request_rejected "/build/docker" (json_request_maven_build gav) json_read_build_result 500
    _ handle_request_build_result w (cli_net w) Hc eq_refl eq_refl (maven_build_rejected gav (cli_net w)))
    as (c1 & error & Ho & Hr).
  unfold main. unfold sbind at 1. change (request_maven_build gav w) with
    (request_and_print (E := string) POST "/build/docker" (json_request_maven_build gav)
      (object_or_error_with_body json_read_build_result) handle_request_build_result w).
  rewrite Hr. simpl. eexists _, error. split; [done|]. split; [done|]. simpl. by rewrite Ho.
Qed.
End CliNode.

(** ** Interactive input *)
(** What a line is taken for: a line of UTF-8 that is not nothing at all. *)
Definition answer_of (default_val : string) (valid : string -> outcome string string) (buffer : string) :
    outcome string string :=
  if utf8_valid (as_bytes buffer) && bool_decide (buffer <> "")
  then valid (if bool_decide (line_text buffer = "") then default_val else line_text buffer)
  else Err "not a line".

(** The first line that is valid: how many are before it, and its value. *)
Fixpoint first_valid (default_val : string) (valid : string -> outcome string string) (lines : list string) :
    option (nat * string) :=
  match lines with
  | [] => None
  | l :: rest =>
      match answer_of default_val valid l with
      | Ok r => Some (0, r)
      | _ => match first_valid default_val valid rest with Some (n, r) => Some (S n, r) | None => None end
      end
  end.

Lemma read_some l : (0 <? len (as_bytes l))%Z = bool_decide (l <> "").
Proof. by destruct l. Qed.
Lemma answer_returns default_val valid l : (forall x, valid x <> Panic) -> answer_of default_val valid l <> Panic.
Proof. intros Hv. unfold answer_of. case_match; [apply Hv|done]. Qed.

(** C38. A question of the tool ends exactly when a valid line is entered: with one among the lines of the standard input
    the loop returns the value of the first, an empty line standing for the default, and has read no
    further; without one it does not end, however many rounds it is given, so that it runs forever at
    the end of the input.  Bytes that are not UTF-8 are no line, and so is nothing at all. *)
Theorem interactive_input_ends (prompt default_val : string) (valid : string -> outcome string string) (c : Console) :
  (forall x, valid x <> Panic) ->
  match first_valid default_val valid (con_in c) with
  | Some (n, r) => forall fuel, n < fuel ->
      exists c', read_interactive_input fuel prompt default_val valid c = (Ok (Some r), c')
        /\ con_in c' = drop (S n) (con_in c)
  | None => forall fuel, exists c', read_interactive_input fuel prompt default_val valid c = (Ok None, c')
  end.
Proof.
  intros Hv. remember (con_in c) as lines eqn:El. revert c El.
  induction lines as [|l rest IH]; intros c El.
  - intros fuel. revert c El. cbn [first_valid]. induction fuel as [|fuel IH]; intros c El; [by eexists|].
    cbn [read_interactive_input]. unfold_stm. unfold println, read_line, smodify. cbn -[len]. rewrite <- El.
    apply IH. done.
  - assert (forall fuel, read_interactive_input (S fuel) prompt default_val valid c =
      let c1 := {| con_disk := con_disk c; con_in := rest; con_out := con_out c ++ [prompt]; con_err := con_err c |} in
      match answer_of default_val valid l with
      | Ok r => (Ok (Some r), c1)
      | Err _ => read_interactive_input fuel prompt default_val valid c1
      | Panic => (Panic, c1)
      end) as Hstep.
    { intros fuel. cbn [read_interactive_input]. unfold_stm. unfold println, read_line, smodify. cbn -[len].
      rewrite <- El. unfold answer_of. destruct (utf8_valid (as_bytes l)) eqn:Hu.
      - rewrite String_from_utf8_as_bytes by done. rewrite read_some. cbn [andb].
        destruct (bool_decide (l <> "")); [by destruct (valid _)|done].
      - unfold String_from_utf8. by rewrite Hu. }
    cbn [first_valid]. cbv zeta in Hstep. specialize (answer_returns default_val valid l Hv) as Ha.
    set (c1 := {| con_disk := con_disk c; con_in := rest |}) in Hstep. specialize (IH c1 eq_refl).
    destruct (answer_of default_val valid l) as [r|e|]; [| |done].
    + intros [|fuel] Hf; [lia|]. rewrite Hstep. by exists c1.
    + destruct (first_valid default_val valid rest) as [[n r]|].
      * intros [|fuel] Hf; [lia|]. rewrite Hstep. apply IH. lia.
      * intros [|fuel]; [by eexists|]. rewrite Hstep. apply IH.
Qed.

(** ** Instances *)
Definition enc_opt {A} (enc : enc_t A) : enc_t (option A) := fun o =>
  match o with None => [x00] | Some a => x01 :: enc a end.
Definition dec_opt {A} (dec : dec_t A) : dec_t (option A) := fun bs =>
  match bs with
  | x00 :: r => Some (None, r)
  | x01 :: r => and_then (dec r) (fun a r => Some (Some a, r))
  | _ => None
  end.

Lemma enc_opt_ok {A} (enc : enc_t A) dec :
  codec_ok (fun _ => True) enc dec -> codec_ok (fun _ => True) (enc_opt enc) (dec_opt dec).
Proof. intros Hc [a|] rest _; simpl; [by rewrite Hc|done]. Qed.

(** An enumeration as the position of a constructor. *)
Definition enc_enum {A} `{!EqDecision A} (values : list A) : enc_t A := fun a =>
  match list_find (eq a) values with Some (n, _) => enc_le 1 (Z.of_nat n) | None => [] end.
Definition dec_enum {A} (values : list A) : dec_t A := fun bs =>
  and_then (dec_le 1 bs) (fun n r => match values !! Z.to_nat n with Some a => Some (a, r) | None => None end).

#[export] Instance ContentType_eq_dec : EqDecision ContentType.
Proof. solve_decision. Defined.

Lemma enc_field_ok : codec_ok (fun _ => True) (enc_enum Content_default) (dec_enum Content_default).
Proof. intros [] rest _; reflexivity. Qed.
Lemma enc_type_ok : codec_ok (fun _ => True) (enc_enum [JSON; CSV]) (dec_enum [JSON; CSV]).
Proof. intros [] rest _; reflexivity. Qed.
Lemma enc_bool_ok : codec_ok (fun _ => True) (enc_enum [true; false]) (dec_enum [true; false]).
Proof. intros [] rest _; reflexivity. Qed.

Definition enc_params : enc_t TransparencyLogOutputParams := fun q =>
  enc_opt (enc_enum [JSON; CSV]) (op_format q) ++ enc_opt (enc_list (enc_enum Content_default)) (op_content q).
Definition dec_params : dec_t TransparencyLogOutputParams := fun bs =>
  and_then (dec_opt (dec_enum [JSON; CSV]) bs) (fun f r =>
  and_then (dec_opt (dec_seq (dec_enum Content_default)) r) (fun c r =>
    Some ({| op_format := f; op_content := c |}, r))).

Lemma enc_fields_ok :
  codec_ok (fun _ => True) (enc_list (enc_enum Content_default)) (dec_seq (dec_enum Content_default)).
Proof. intros l rest _. apply (enc_list_ok _ _ _ enc_field_ok). by apply Forall_true. Qed.

Lemma enc_params_ok : codec_ok (fun _ => True) enc_params dec_params.
Proof.
  intros [f c] rest _. unfold enc_params, dec_params; simpl. rewrite <- app_assoc.
  rewrite (enc_opt_ok _ _ enc_type_ok) by done. simpl. by rewrite (enc_opt_ok _ _ enc_fields_ok).
Qed.

Definition enc_log_request (r : RequestLog) : bytes :=
  enc_string (rl_package r) ++ enc_opt enc_params (rl_output_params r) ++ enc_opt (enc_enum [true; false]) (rl_latest r).
Definition dec_log_request (bs : bytes) : option RequestLog :=
  and_then (dec_string bs) (fun p r =>
  and_then (dec_opt dec_params r) (fun q r =>
  and_then (dec_opt (dec_enum [true; false]) r) (fun l _ =>
    Some {| rl_package := p; rl_output_params := q; rl_latest := l |}))).

Lemma dec_enc_log_request r : dec_log_request (enc_log_request r) = Some r.
Proof.
  destruct r as [p q l]. unfold dec_log_request, enc_log_request; simpl.
  rewrite enc_string_ok by done. simpl. rewrite (enc_opt_ok _ _ enc_params_ok) by done. simpl.
  rewrite <- (app_nil_r (enc_opt _ l)). by rewrite (enc_opt_ok _ _ enc_bool_ok).
Qed.

(** A body is the name of its first field and the rest. *)
Definition tagged {A} (tag : byte) (parse : bytes -> option A) (bs : bytes) : option A :=
  match bs with t :: r => if decide (t = tag) then parse r else None | [] => None end.
Definition body_text (bs : bytes) : option string := Some (String.string_of_list_byte bs).

#[local] Instance tool_api_json : ApiJson := {|
  json_success := fun r => Some (default "none" (bsr_build_id r));
  json_build_status := fun b => Some (BuildStatus_to_string b);
  json_strings := fun l => Some (join "," l);
  json_status := fun st => Some "status";
  json_logs := fun rows => Some "json";
  csv_logs := fun rows => Some "csv";
  parse_peer_id := tagged x01 body_text;
  parse_image := tagged x02 body_text;
  parse_gav := tagged x03 body_text;
  parse_build_id := tagged x04 body_text;
  parse_docker_log := tagged x02 dec_log_request;
  parse_maven_log := tagged x03 dec_log_request |}.

#[local] Instance tool_cli_json : CliJson := {|
  json_request_authorize := fun p => x01 :: as_bytes p;
  json_request_docker_build := fun i => x02 :: as_bytes i;
  json_request_maven_build := fun g => x03 :: as_bytes g;
  json_request_build_status := fun b => x04 :: as_bytes b;
  json_request_docker_log := fun r => x02 :: enc_log_request r;
  json_request_maven_log := fun r => x03 :: enc_log_request r;
  json_read_build_result := fun t => Some {| brr_build_id := Some t; brr_message := None |};
  json_read_build_status := fun t => Some Running;
  json_read_status := fun t => None;
  json_error_message := fun t => Some t;
  json_pretty := fun t => Some t |}.

Lemma body_text_ok s : body_text (as_bytes s) = Some s.
Proof. unfold body_text, as_bytes. by rewrite String.string_of_list_byte_of_string. Qed.

#[local] Instance tool_cli_json_ok : CliJsonOk.
Proof. split; intros; simpl; try apply body_text_ok; try apply dec_enc_log_request. done. Qed.

(** The path of an address: what follows the seven characters of the scheme, from the first slash on. *)
Fixpoint from_slash (s : string) : option string :=
  match s with
  | String.EmptyString => None
  | String.String a s' => if bool_decide (a = "/"%char) then Some s else from_slash s'
  end.
Definition sample_url_path (url : string) : option string :=
  match url with
  | String.String _ (String.String _ (String.String _ (String.String _ (String.String _
      (String.String _ (String.String _ rest)))))) => from_slash rest
  | _ => None
  end.

#[local] Instance sample_node_web : NodeWeb := {|
  url_path := sample_url_path;
  error_text := fun m => "error";
  reason := fun z => pretty z |}.

Lemma from_slash_app s t : contains "/"%char s = false -> from_slash (s +:+ t) = from_slash t.
Proof.
  induction s as [|a s IH]; simpl; [done|]. rewrite orb_false_iff. intros [Ha Hs]. rewrite Ha. by apply IH.
Qed.

Lemma contains_join c sep ps :
  contains c sep = false -> (forall p, p ∈ ps -> contains c p = false) -> contains c (join sep ps) = false.
Proof.
  intros Hsep. induction ps as [|p ps IH]; intros Hps; [done|]. destruct ps as [|q ps]; [apply Hps; by left|].
  change (contains c (p +:+ sep +:+ join sep (q :: ps)) = false).
  rewrite !contains_app, Hsep, (Hps p) by (by left). simpl. apply IH. intros. apply Hps. by right.
Qed.

Lemma contains_all c (f : ascii -> bool) s : f c = false -> forallb f (chars s) = true -> contains c s = false.
Proof.
  intros Hc. induction s as [|a s IH]; simpl; [done|]. rewrite andb_true_iff. intros [Ha Hs].
  rewrite IH, orb_false_r by done. apply bool_decide_eq_false. by intros ->; rewrite Hc in Ha.
Qed.

Lemma host_no_slash h : host_name_ok h = true -> contains "/"%char h = false.
Proof.
  unfold host_name_ok. rewrite !andb_true_iff. intros [_ Hl]. rewrite <- (join_split "."%char h).
  apply contains_join; [done|]. intros p Hp. rewrite forallb_forall in Hl. apply list_elem_of_In, Hl in Hp.
  apply (contains_all _ alnum_dash); [done|]. unfold label_ok in Hp. destruct (chars p) as [|a rest]; [done|].
  rewrite !andb_true_iff in Hp. destruct Hp as [[Ha Hr] _]. simpl. by rewrite alnum_is_dash.
Qed.

#[local] Instance sample_node_web_ok : NodeWebOk.
Proof.
  intros h p path Hh Hp Hs. simpl. apply host_no_slash in Hh. unfold plain_port in Hp.
  rewrite !andb_true_iff in Hp. destruct Hp as [[_ Hp] _].
  change (from_slash ((h +:+ ":" +:+ p) +:+ path) = Some path).
  rewrite (from_slash_app (h +:+ ":" +:+ p));
    [|rewrite contains_app, Hh; simpl; by apply (contains_all _ (char_in 48 57))].
  destruct path as [|a path]; [done|]. simpl in *. rewrite andb_true_r in Hs. apply bool_decide_eq_true in Hs as <-.
  by rewrite bool_decide_true.
Qed.

Definition sample_cli : Cli (ArtifactService (B := list bytes) (W := unit) (C := unit)) :=
  {| cli_console := sample_console; cli_net := sample_node |}.

Lemma sample_configured : configured (cli_console sample_cli).
Proof. exists CliConfig_default. eexists. by repeat split. Defined.

Lemma commands_reach_handlers_witness :
  cli_net (snd (main (Reqwest0 := node_reqwest sample_tl_draw) (E := string) 0 (ArgBuildDocker "alpine") sample_cli))
  = snd (handle_build_docker "alpine" sample_node).
Proof.
  apply (commands_reach_handlers sample_tl_draw 0 (ArgBuildDocker "alpine") sample_cli sample_configured).
  - vm_compute. discriminate.
  - discriminate.
Defined.

Lemma maven_build_command_fails_witness :
  exists w' error,
    main (Reqwest0 := node_reqwest sample_tl_draw) (E := string) 0 (ArgBuildMaven "g:a:1") sample_cli = (Ok (Some tt), w')
    /\ cli_net w' = sample_node
    /\ con_out (cli_console w') = [] ++ ["Build request failed with error: " +:+ error].
Proof. exact (maven_build_command_fails sample_tl_draw 0 "g:a:1" sample_cli sample_configured). Defined.

(** A bad port, then an empty line: the default. *)
Lemma interactive_input_ends_witness :
  exists c', read_interactive_input 3 "Enter port: [7888]" "7888" valid_port
      {| con_disk := con_disk sample_console;
         con_in := ["x" +:+ String.String "010"%char ""; String.String "010"%char ""; "80"];
         con_out := []; con_err := [] |} = (Ok (Some "7888"), c') /\ con_in c' = ["80"].
Proof.
  refine (interactive_input_ends "Enter port: [7888]" "7888" valid_port
    {| con_disk := con_disk sample_console;
       con_in := ["x" +:+ String.String "010"%char ""; String.String "010"%char ""; "80"];
       con_out := []; con_err := [] |} _ 3 _).
  - intros x. unfold valid_port. by destruct (parse_u16 (chars x)).
  - lia.
Defined.
