(* ===== verification/Grammar.v ===== *)
(** * Grammar: the command line of the tool

    Models pyrsia_cli/src/cli/parser.rs, the declaration of the command line, and the main function of
    pyrsia_cli/src/main.rs on what clap returns.  clap is the class [Clap]; its law is that
    the matches it returns fit the declaration, as the documentation of clap 4 says of each
    setting.  Since that version an option with a value that [arg!] declares is optional. *)

From S2P Require Import Prelude Crypto Structures Sample FileSystem Sql SqlSample Model Text TransparencyLog EventLoop Client Build Registry Artifact Api Protocols Util Regex Config Cli.

(** ** Declarations *)
Inductive ArgAction := Set_ | SetTrue.

Record Arg := {
  a_id : string;
  a_short : option ascii;
  a_action : ArgAction;
  a_required : bool;
  a_possible_values : option (list string);
  a_default : option string;
  a_aliases : list string;
}.

(** [arg!(-s --long <VALUE> "help")] and [arg!(-s --long "help")]. *)
Definition arg_value (short : option ascii) (long : string) : Arg := {|
  a_id := long; a_short := short; a_action := Set_; a_required := false; a_possible_values := None;
  a_default := None; a_aliases := [] |}.
Definition arg_flag (short : option ascii) (long : string) : Arg := {|
  a_id := long; a_short := short; a_action := SetTrue; a_required := false; a_possible_values := None;
  a_default := None; a_aliases := [] |}.

Definition required (b : bool) (a : Arg) : Arg := {|
  a_id := a_id a; a_short := a_short a; a_action := a_action a; a_required := b;
  a_possible_values := a_possible_values a; a_default := a_default a; a_aliases := a_aliases a |}.
Definition value_parser (values : list string) (a : Arg) : Arg := {|
  a_id := a_id a; a_short := a_short a; a_action := a_action a; a_required := a_required a;
  a_possible_values := Some values; a_default := a_default a; a_aliases := a_aliases a |}.
Definition default_value (v : string) (a : Arg) : Arg := {|
  a_id := a_id a; a_short := a_short a; a_action := a_action a; a_required := a_required a;
  a_possible_values := a_possible_values a; a_default := Some v; a_aliases := a_aliases a |}.
Definition visible_alias (name : string) (a : Arg) : Arg := {|
  a_id := a_id a; a_short := a_short a; a_action := a_action a; a_required := a_required a;
  a_possible_values := a_possible_values a; a_default := a_default a; a_aliases := a_aliases a ++ [name] |}.

(** A command; the group of [config edit] has no constraint, since it is neither required nor exclusive. *)
Inductive Command := {
  c_name : string;
  c_short_flag : option ascii;
  c_args : list Arg;
  c_subcommands : list Command;
  c_subcommand_required : bool;
  c_arg_required_else_help : bool;
}.

(** ** cli/parser.rs *)
Definition tab : string := String.String "009"%char "".
Definition newline : string := String.String "010"%char "".

Fixpoint fields_help (fields : Content) : string :=
  match fields with
  | [] => ""
  | f :: rest =>
      tab +:+ "- field: '" +:+ field_name f +:+ "'," +:+ tab +:+ "description: " +:+ field_description f +:+ newline
      +:+ fields_help rest
  end.

Definition inspect_log_fields_help_string : string :=
  "The list of output fields separated by comma ','." +:+ newline +:+ "Available fields:" +:+ newline
  +:+ fields_help Content_default.

Definition leaf (name : string) (short_flag : option ascii) (else_help : bool) (args : list Arg) : Command := {|
  c_name := name; c_short_flag := short_flag; c_args := args; c_subcommands := [];
  c_subcommand_required := false; c_arg_required_else_help := else_help |}.

Definition log_arguments (package : string) : list Arg :=
  [ required true (arg_value None package);
    default_value "json" (value_parser ["json"; "csv"] (arg_value None "format"));
    arg_value None "fields";
    arg_flag None "latest" ].

Definition authorize_command : Command := leaf "authorize" None true [arg_value (Some "p"%char) "peer"].

Definition build_command : Command := {|
  c_name := "build"; c_short_flag := Some "b"%char; c_args := []; c_subcommand_required := true;
  c_arg_required_else_help := true;
  c_subcommands :=
    [ leaf "docker" None true [arg_value None "image"];
      leaf "maven" None true [arg_value None "gav"];
      leaf "status" None true [arg_value None "id"] ] |}.

Definition config_edit_arguments : list Arg :=
  [ required false (arg_value (Some "H"%char) "host");
    required false (arg_value (Some "p"%char) "port");
    required false (arg_value (Some "d"%char) "diskspace") ].

Definition config_command : Command := {|
  c_name := "config"; c_short_flag := Some "c"%char;
  c_args := [visible_alias "rm" (arg_flag (Some "r"%char) "remove"); arg_flag (Some "s"%char) "show"];
  c_subcommand_required := false; c_arg_required_else_help := true;
  c_subcommands := [leaf "edit" (Some "e"%char) false config_edit_arguments] |}.

Definition inspect_log_command : Command := {|
  c_name := "inspect-log"; c_short_flag := None; c_args := []; c_subcommand_required := true;
  c_arg_required_else_help := true;
  c_subcommands :=
    [ leaf "docker" None true (log_arguments "image");
      leaf "maven" None true (log_arguments "gav") ] |}.

Definition cli_command : Command := {|
  c_name := "pyrsia_cli"; c_short_flag := None; c_args := []; c_subcommand_required := false;
  c_arg_required_else_help := true;
  c_subcommands :=
    [ authorize_command; build_command; config_command; inspect_log_command;
      leaf "list" (Some "l"%char) false [];
      leaf "ping" None false [];
      leaf "status" (Some "s"%char) false [] ] |}.

(** ** Matches *)
Inductive MatchValue := VString (s : string) | VBool (b : bool).

Inductive ArgMatches := {
  m_values : list (string * MatchValue);
  m_subcommand : option (string * ArgMatches);
}.

Definition m_value (m : ArgMatches) (id : string) : option MatchValue :=
  (fun p => snd (snd p)) <$> list_find (fun p => fst p = id) (m_values m).

(** [get_one::<String>] and [get_one::<bool>]: a value of another type panics. *)
Definition get_one_string {E} (m : ArgMatches) (id : string) : outcome E (option string) :=
  match m_value m id with
  | Some (VString s) => Ok (Some s)
  | Some (VBool _) => Panic
  | None => Ok None
  end.
Definition get_one_bool {E} (m : ArgMatches) (id : string) : outcome E (option bool) :=
  match m_value m id with
  | Some (VBool b) => Ok (Some b)
  | Some (VString _) => Panic
  | None => Ok None
  end.
Definition contains_id (m : ArgMatches) (id : string) : bool := bool_decide (is_Some (m_value m id)).

(** The matches that fit a declaration: a flag has a value, an option a text, one of the possible
    values, when it is given, required or has a default; only declared arguments have one; a command that asks for
    arguments has one that was given (a default counts as given), or a subcommand. *)
Definition value_fits (a : Arg) (v : option MatchValue) : bool :=
  match a_action a, v with
  | SetTrue, Some (VBool _) => true
  | Set_, Some (VString s) =>
      match a_possible_values a with Some values => bool_decide (s ∈ values) | None => true end
  | Set_, None => negb (a_required a) && bool_decide (a_default a = None)
  | _, _ => false
  end.

Definition given (a : Arg) (v : option MatchValue) : bool :=
  match v with Some (VString _) | Some (VBool true) => true | _ => false end.

Fixpoint matches_fit (c : Command) (m : ArgMatches) : bool :=
  forallb (fun a => value_fits a (m_value m (a_id a))) (c_args c)
  && forallb (fun p => bool_decide (fst p ∈ a_id <$> c_args c)) (m_values m)
  && (negb (c_arg_required_else_help c) || bool_decide (is_Some (m_subcommand m))
      || existsb (fun a => given a (m_value m (a_id a))) (c_args c))
  && match m_subcommand m with
     | None => negb (c_subcommand_required c)
     | Some (name, m') =>
         match list_find (fun c' => c_name c' = name) (c_subcommands c) with
         | Some (_, c') => matches_fit c' m'
         | None => false
         end
     end.

(** [get_matches] either returns matches or ends the process, with the help, the version or an error. *)
Class Clap := get_matches : Command -> list string -> outcome string ArgMatches.
Class ClapOk `{Clap} : Prop :=
  get_matches_fit c argv m : get_matches c argv = Ok m -> matches_fit c m = true.

(** ** pyrsia_cli/src/main.rs, on the matches *)
Section Main.
Context {N : Type} `{!Reqwest N} `{!CliJson} `{!Confy} `{!RegexEngine} `{!Clap}.

(** [matches.get_one::<String>(id).unwrap()]. *)
Definition get_required {E} (m : ArgMatches) (id : string) : outcome E string :=
  let? v := get_one_string m id in unwrap v.

(** The arm of [config]. *)
Definition main_config {E} (fuel : nat) (config_matches : ArgMatches) : stm (Cli N) E (option unit) :=
  let! edited :=
    match m_subcommand config_matches with
    | Some ("edit", edit_config_matches) =>
        if existsb (contains_id edit_config_matches) ["host"; "port"; "diskspace"] then
          let! host_name := slift (get_one_string edit_config_matches "host") in
          let! port := slift (get_one_string edit_config_matches "port") in
          let! diskspace := slift (get_one_string edit_config_matches "diskspace") in
          let! r := on_console (scatch (config_edit host_name port diskspace)) in
          let! _ := saved r in
          sret (Some tt)
        else
          let! r := on_console (scatch (config_add fuel)) in
          match r with
          | inl None => sret None
          | inl (Some _) => let! _ := saved (inl tt) in sret (Some tt)
          | inr error => let! _ := saved (inr error) in sret (Some tt)
          end
    | _ => sret (Some tt)
    end in
  match edited with
  | None => sret None
  | Some _ =>
      let! remove := slift (get_one_bool config_matches "remove") in
      let! _ := if default false remove then
                  let! r := on_console (scatch config_remove) in
                  match r with
                  | inl _ => say "Node configuration removed !!"
                  | inr error => on_console (eprintln ("Error removing node configuration: " +:+ error))
                  end
                else sret tt in
      let! show := slift (get_one_bool config_matches "show") in
      let! _ := if default false show then config_show else sret tt in
      sret (Some tt)
  end.

Definition main_build {E} (build_matches : ArgMatches) : stm (Cli N) E unit :=
  match m_subcommand build_matches with
  | Some ("docker", docker_matches) =>
      let! image := slift (get_required docker_matches "image") in request_docker_build image
  | Some ("maven", maven_matches) =>
      let! gav := slift (get_required maven_matches "gav") in request_maven_build gav
  | Some ("status", status_matches) =>
      let! id := slift (get_required status_matches "id") in request_build_status id
  | _ => sret tt
  end.

Definition main_inspect {E} (build_matches : ArgMatches) : stm (Cli N) E unit :=
  match m_subcommand build_matches with
  | Some ("docker", docker_matches) =>
      let! image := slift (get_required docker_matches "image") in
      let! format := slift (get_one_string docker_matches "format") in
      let! fields := slift (get_one_string docker_matches "fields") in
      let! latest := slift (get_one_bool docker_matches "latest") in
      inspect_docker_transparency_log image format fields latest
  | Some ("maven", maven_matches) =>
      let! gav := slift (get_required maven_matches "gav") in
      let! format := slift (get_one_string maven_matches "format") in
      let! fields := slift (get_one_string maven_matches "fields") in
      let! latest := slift (get_one_bool maven_matches "latest") in
      inspect_maven_transparency_log gav format fields latest
  | _ => sret tt
  end.

Definition main_matches {E} (fuel : nat) (matches : ArgMatches) : stm (Cli N) E (option unit) :=
  let return_ (c : stm (Cli N) E unit) := let! _ := c in sret (Some tt) in
  match m_subcommand matches with
  | Some ("config", config_matches) => main_config fuel config_matches
  | Some ("authorize", authorize_matches) =>
      return_ (let! peer := slift (get_required authorize_matches "peer") in authorize peer)
  | Some ("build", build_matches) => return_ (main_build build_matches)
  | Some ("list", _) => return_ node_list
  | Some ("ping", _) => return_ node_ping
  | Some ("status", _) => return_ node_status
  | Some ("inspect-log", build_matches) => return_ (main_inspect build_matches)
  | _ => sret (Some tt)
  end.

(** The process: [Err] is the text with which clap ends it. *)
Definition cli_main (fuel : nat) (argv : list string) : stm (Cli N) string (option unit) :=
  let! matches := slift (get_matches cli_command argv) in
  main_matches fuel matches.

(** ** What the handlers are called with *)

(** The values clap lets through. *)
Definition args_fit (a : CliArgs) : Prop :=
  match a with
  | ArgConfig (Some _) _ _ => True
  | ArgConfig None remove show => remove || show = true
  | ArgInspectDocker _ format _ latest | ArgInspectMaven _ format _ latest =>
      (format = Some "json" \/ format = Some "csv") /\ is_Some latest
  | _ => True
  end.

(** What a line says: its subcommands name the command, and the values of its options and flags, by their names, are the
    arguments. *)
Definition text_of (m : ArgMatches) (id : string) : option string :=
  match m_value m id with Some (VString s) => Some s | _ => None end.
Definition flag_of (m : ArgMatches) (id : string) : option bool :=
  match m_value m id with Some (VBool b) => Some b | _ => None end.

Fixpoint path_of (m : ArgMatches) : list string :=
  match m_subcommand m with Some (name, m') => name :: path_of m' | None => [] end.
Fixpoint leaf_of (m : ArgMatches) : ArgMatches :=
  match m_subcommand m with Some (_, m') => leaf_of m' | None => m end.

Definition says (m : ArgMatches) (a : CliArgs) : Prop :=
  let text := text_of (leaf_of m) in
  let flag := flag_of (leaf_of m) in
  match a with
  | ArgAuthorize peer => path_of m = ["authorize"] /\ text "peer" = Some peer
  | ArgBuildDocker image => path_of m = ["build"; "docker"] /\ text "image" = Some image
  | ArgBuildMaven gav => path_of m = ["build"; "maven"] /\ text "gav" = Some gav
  | ArgBuildStatus id => path_of m = ["build"; "status"] /\ text "id" = Some id
  | ArgList => path_of m = ["list"]
  | ArgPing => path_of m = ["ping"]
  | ArgStatus => path_of m = ["status"]
  | ArgInspectDocker image format fields latest =>
      path_of m = ["inspect-log"; "docker"] /\ text "image" = Some image /\ text "format" = format
      /\ text "fields" = fields /\ flag "latest" = latest
  | ArgInspectMaven gav format fields latest =>
      path_of m = ["inspect-log"; "maven"] /\ text "gav" = Some gav /\ text "format" = format
      /\ text "fields" = fields /\ flag "latest" = latest
  | ArgConfig None remove show =>
      path_of m = ["config"] /\ flag "remove" = Some remove /\ flag "show" = Some show
  | ArgConfig (Some (host, port, diskspace)) remove show =>
      path_of m = ["config"; "edit"] /\ text "host" = host /\ text "port" = port /\ text "diskspace" = diskspace
      /\ exists config_matches edit_matches, m_subcommand m = Some ("config", config_matches)
           /\ m_subcommand config_matches = Some ("edit", edit_matches)
           /\ flag_of config_matches "remove" = Some remove /\ flag_of config_matches "show" = Some show
  end.

(** A line says one thing. *)
Lemma says_unique m a a' : says m a -> says m a' -> a = a'.
Proof.
  destruct a as [[[[h p] d]|] | | | | | | | | |], a' as [[[[h' p'] d']|] | | | | | | | | |]; simpl;
    intros Ha Ha';
    repeat match goal with Hx : _ /\ _ |- _ => destruct Hx | Hx : exists _, _ |- _ => destruct Hx end; congruence.
Qed.

(** *** What fits, one setting at a time *)
Lemma matches_fit_inv c m :
  matches_fit c m = true ->
  (forall a, a ∈ c_args c -> value_fits a (m_value m (a_id a)) = true)
  /\ (c_arg_required_else_help c = true -> m_subcommand m = None ->
      exists a, a ∈ c_args c /\ given a (m_value m (a_id a)) = true)
  /\ match m_subcommand m with
     | None => c_subcommand_required c = false
     | Some (name, m') => exists c', c' ∈ c_subcommands c /\ c_name c' = name /\ matches_fit c' m' = true
     end.
Proof.
  destruct m as [values sub]. cbn [matches_fit m_subcommand m_values]. rewrite !andb_true_iff.
  intros [[[Hv _] Hg] Hs]. rewrite forallb_forall in Hv. split_and!.
  - intros a Ha%list_elem_of_In. by apply Hv.
  - intros Hc ->. rewrite Hc in Hg. simpl in Hg. apply existsb_exists in Hg as (a & Ha%list_elem_of_In & Hg).
    by exists a.
  - destruct sub as [[name m']|]; [|by apply negb_true_iff].
    destruct (list_find _ _) as [[i c']|] eqn:Hf; [|done]. apply list_find_Some in Hf as (Hi & Hn & _).
    exists c'. split; [by eapply list_elem_of_lookup_2|done].
Qed.

(** A command without subcommands. *)
Lemma leaf_fit name sf else_help args m :
  matches_fit (leaf name sf else_help args) m = true ->
  (forall a, a ∈ args -> value_fits a (m_value m (a_id a)) = true)
  /\ (else_help = true -> exists a, a ∈ args /\ given a (m_value m (a_id a)) = true)
  /\ m_subcommand m = None.
Proof.
  intros (Hv & Hg & Hs)%matches_fit_inv.
  assert (m_subcommand m = None) as Hn.
  { destruct (m_subcommand m) as [[n m']|]; [|done]. by destruct Hs as (c' & Hc'%elem_of_nil & _). }
  split_and!; [done| |done]. intros He. by apply Hg.
Qed.

Lemma path_leaf m : m_subcommand m = None -> path_of m = [] /\ leaf_of m = m.
Proof. destruct m as [v sub]. simpl. by intros ->. Qed.
Lemma path_sub m name m' :
  m_subcommand m = Some (name, m') -> path_of m = name :: path_of m' /\ leaf_of m = leaf_of m'.
Proof. destruct m as [v sub]. simpl. by intros ->. Qed.

(** A line of one or of two subcommands. *)
Lemma path_one m name m' :
  m_subcommand m = Some (name, m') -> m_subcommand m' = None -> path_of m = [name] /\ leaf_of m = m'.
Proof. intros [-> ->]%path_sub [-> ->]%path_leaf. done. Qed.
Lemma path_two m name m' name' m'' :
  m_subcommand m = Some (name, m') -> m_subcommand m' = Some (name', m'') -> m_subcommand m'' = None ->
  path_of m = [name; name'] /\ leaf_of m = m''.
Proof. intros [-> ->]%path_sub [-> ->]%path_sub [-> ->]%path_leaf. done. Qed.

Lemma text_of_get {E} m id v : get_one_string (E := E) m id = Ok v -> text_of m id = v.
Proof. unfold get_one_string, text_of. destruct (m_value m id) as [[]|]; congruence. Qed.
Lemma flag_of_get {E} m id v : get_one_bool (E := E) m id = Ok v -> flag_of m id = v.
Proof. unfold get_one_bool, flag_of. destruct (m_value m id) as [[]|]; congruence. Qed.
Lemma text_of_required {E} m id v : get_required (E := E) m id = Ok v -> text_of m id = Some v.
Proof.
  unfold get_required. destruct (get_one_string m id) as [o|e|] eqn:Ho; [|done..]. apply text_of_get in Ho. simpl.
  destruct o; [|done]. simpl. intros [= <-]. exact Ho.
Qed.

Lemma value_fits_option {E} a m :
  a_action a = Set_ -> value_fits a (m_value m (a_id a)) = true ->
  exists v, m_value m (a_id a) = VString <$> v /\ get_one_string (E := E) m (a_id a) = Ok v
    /\ (a_required a = true \/ a_default a <> None -> is_Some v)
    /\ (forall values s, a_possible_values a = Some values -> v = Some s -> s ∈ values).
Proof.
  unfold value_fits, get_one_string. intros ->. destruct (m_value m (a_id a)) as [[s|b]|]; [|done|].
  - intros Hp. exists (Some s). split_and!; [done|done|by eauto|]. intros values s' Hv [= <-]. rewrite Hv in Hp.
    by apply bool_decide_eq_true_1 in Hp.
  - rewrite andb_true_iff. intros [Hr Hd]. exists None. split_and!; [done|done| |by intros].
    apply negb_true_iff in Hr. apply bool_decide_eq_true_1 in Hd. intros [?|?]; congruence.
Qed.

Lemma value_fits_flag {E} a m :
  a_action a = SetTrue -> value_fits a (m_value m (a_id a)) = true ->
  exists b, m_value m (a_id a) = Some (VBool b) /\ get_one_bool (E := E) m (a_id a) = Ok (Some b).
Proof.
  unfold value_fits, get_one_bool. intros ->. destruct (m_value m (a_id a)) as [[s|b]|]; [done| |done]. by exists b.
Qed.

(** The one option of a command that asks for arguments. *)
Lemma only_option {E} name sf short id m :
  matches_fit (leaf name sf true [arg_value short id]) m = true ->
  exists v, get_required (E := E) m id = Ok v /\ m_subcommand m = None.
Proof.
  intros (Hv & Hg & Hn)%leaf_fit. destruct Hg as (a & ->%list_elem_of_singleton & Hg); [done|].
  destruct (value_fits_option (E := E) (arg_value short id) m) as (v & Hm & Ho & _); [done|by apply Hv; left|].
  simpl in Hm, Ho, Hg. rewrite Hm in Hg. destruct v as [v|]; [|done]. exists v. split; [|done]. unfold get_required. by rewrite Ho.
Qed.

(** The arguments of [inspect-log]. *)
Lemma log_arguments_fit {E} name package m :
  matches_fit (leaf name None true (log_arguments package)) m = true ->
  exists p format fields latest,
    get_required (E := E) m package = Ok p /\ get_one_string (E := E) m "format" = Ok (Some format)
    /\ get_one_string (E := E) m "fields" = Ok fields /\ get_one_bool (E := E) m "latest" = Ok (Some latest)
    /\ (format = "json" \/ format = "csv") /\ m_subcommand m = None.
Proof.
  intros (Hv & _ & Hn)%leaf_fit.
  destruct (value_fits_option (E := E) (required true (arg_value None package)) m) as (p & _ & Hp & Hs & _);
    [done|apply Hv; by left|]. destruct Hs as [p' ->]; [by left|].
  destruct (value_fits_option (E := E)
    (default_value "json" (value_parser ["json"; "csv"] (arg_value None "format"))) m) as (f & _ & Hf & Hs & Hin);
    [done|apply Hv; right; by left|]. destruct Hs as [f' ->]; [by right|].
  destruct (value_fits_option (E := E) (arg_value None "fields") m) as (fs & _ & Hfs & _);
    [done|apply Hv; right; right; by left|].
  destruct (value_fits_flag (E := E) (arg_flag None "latest") m) as (b & _ & Hb);
    [done|apply Hv; right; right; right; by left|].
  exists p', f', fs, b. unfold get_required. simpl in Hp, Hf, Hfs, Hb. rewrite Hp, Hf, Hfs, Hb. split_and!; [done..| |done].
  specialize (Hin _ f' eq_refl eq_refl). set_solver.
Qed.

(** [list_cases H] is one case for every element of the list in [H : x ∈ list]. *)
Ltac list_cases H :=
  lazymatch type of H with
  | _ ∈ _ :: _ => apply elem_of_cons in H as [->|H]; [|list_cases H]
  | _ => by apply elem_of_nil in H
  end.

(** Reads off what a line says. *)
Ltac solve_says :=
  cbn [says]; repeat match goal with
  | Hm : m_subcommand ?m = Some (?n, ?m1), H1 : m_subcommand ?m1 = Some (?n', ?m2), H2 : m_subcommand ?m2 = None |- _ =>
      let Hp := fresh in let Hl := fresh in
      destruct (path_two m n m1 n' m2 Hm H1 H2) as [Hp Hl]; rewrite ?Hp, ?Hl; clear H2
  | Hm : m_subcommand ?m = Some (?n, ?m1), H1 : m_subcommand ?m1 = None |- _ =>
      let Hp := fresh in let Hl := fresh in
      destruct (path_one m n m1 Hm H1) as [Hp Hl]; rewrite ?Hp, ?Hl; clear H1
  end; split_and?; eauto using text_of_get, flag_of_get, text_of_required.

Lemma build_dispatched {E} m0 m :
  m_subcommand m0 = Some ("build", m) -> matches_fit build_command m = true ->
  exists a, says m0 a /\ args_fit a
    /\ forall fuel w, (let! _ := main_build (E := E) m in sret (Some tt)) w = main fuel a w.
Proof.
  intros Hm (_ & _ & Hs)%matches_fit_inv. unfold main_build. destruct (m_subcommand m) as [[n m']|] eqn:Hm1; [|done].
  destruct Hs as (c' & Hc' & <- & Hf). simpl in Hc'. list_cases Hc';
    destruct (only_option (E := E) _ _ _ _ _ Hf) as (v & Hv & Hn);
    [exists (ArgBuildDocker v)|exists (ArgBuildMaven v)|exists (ArgBuildStatus v)];
    (split; [solve_says|]); (split; [done|]); intros fuel w; simpl; by rewrite Hv.
Qed.

Lemma inspect_dispatched {E} m0 m :
  m_subcommand m0 = Some ("inspect-log", m) -> matches_fit inspect_log_command m = true ->
  exists a, says m0 a /\ args_fit a
    /\ forall fuel w, (let! _ := main_inspect (E := E) m in sret (Some tt)) w = main fuel a w.
Proof.
  intros Hm (_ & _ & Hs)%matches_fit_inv. unfold main_inspect. destruct (m_subcommand m) as [[n m']|] eqn:Hm1; [|done].
  destruct Hs as (c' & Hc' & <- & Hf). simpl in Hc'. list_cases Hc';
    destruct (log_arguments_fit (E := E) _ _ _ Hf) as (p & f & fs & b & Hp & Hfo & Hfs & Hb & Hj & Hn);
    [exists (ArgInspectDocker p (Some f) fs (Some b))|exists (ArgInspectMaven p (Some f) fs (Some b))];
    (split; [solve_says|]);
    (split; [by destruct Hj as [->| ->]; split; eauto|]); intros fuel w; simpl; by rewrite Hp, Hfo, Hfs, Hb.
Qed.

Lemma config_dispatched {E} m0 m :
  m_subcommand m0 = Some ("config", m) -> matches_fit config_command m = true ->
  exists a, says m0 a /\ args_fit a /\ forall fuel w, main_config (E := E) fuel m w = main fuel a w.
Proof.
  intros Hm (Hv & Hg & Hs)%matches_fit_inv.
  destruct (value_fits_flag (E := E) (visible_alias "rm" (arg_flag (Some "r"%char) "remove")) m) as (r & Hrm & Hr);
    [done|apply Hv; by left|].
  destruct (value_fits_flag (E := E) (arg_flag (Some "s"%char) "show") m) as (s & Hsm & Hsh);
    [done|apply Hv; right; by left|]. simpl in Hrm, Hr, Hsm, Hsh.
  unfold main_config. destruct (m_subcommand m) as [[n m']|] eqn:Hm1.
  - destruct Hs as (c' & ->%list_elem_of_singleton & <- & (Hv' & _ & Hn)%leaf_fit). cbn [c_name leaf] in *.
    destruct (value_fits_option (E := E) (required false (arg_value (Some "H"%char) "host")) m') as (h & Hhm & Hh & _);
      [done|apply Hv'; by left|].
    destruct (value_fits_option (E := E) (required false (arg_value (Some "p"%char) "port")) m') as (p & Hpm & Hp & _);
      [done|apply Hv'; right; by left|].
    destruct (value_fits_option (E := E) (required false (arg_value (Some "d"%char) "diskspace")) m') as (d & Hdm & Hd & _);
      [done|apply Hv'; right; right; by left|].
    simpl in Hhm, Hh, Hpm, Hp, Hdm, Hd.
    exists (ArgConfig (Some (h, p, d)) r s). split; [solve_says; exists m, m'; split_and!; eauto using flag_of_get|].
    split; [done|]. intros fuel w. cbn [existsb]. unfold contains_id.
    rewrite Hhm, Hpm, Hdm, Hh, Hp, Hd, Hr, Hsh.
    destruct h, p, d; cbn [existsb contains_id orb bool_decide]; reflexivity.
  - exists (ArgConfig None r s). split; [solve_says|]. split.
    + destruct Hg as (a & Ha & Hg); [done..|]. simpl in Ha. list_cases Ha; simpl in Hg; [rewrite Hrm in Hg|rewrite Hsm in Hg];
        destruct r, s; done.
    + intros fuel w. simpl. by rewrite Hr, Hsh.
Qed.

Context `{!ClapOk}.

(** C14. Every command line that clap accepts runs the command that the line says, with the values of the line: the main
    function runs the command that the subcommands name, on the values that the options and flags of these names have, and
    never panics for a missing argument or one of the wrong type, since the declaration requires
    what it unwraps, and a format that reaches [inspect-log] is one that is understood; a line says one command
    only, and one that clap refuses does nothing. *)
Theorem command_line_dispatched (fuel : nat) (argv : list string) (w : Cli N) :
  match get_matches cli_command argv with
  | Ok m => exists a, says m a /\ (forall a', says m a' -> a' = a) /\ args_fit a /\ cli_main fuel argv w = main fuel a w
  | Err e => cli_main fuel argv w = (Err e, w)
  | Panic => cli_main fuel argv w = (Panic, w)
  end.
Proof.
  unfold cli_main. unfold_stm. destruct (get_matches cli_command argv) as [m|e|] eqn:Hm; [|done..]. cbn iota beta.
  enough (exists a, says m a /\ args_fit a /\ main_matches fuel m w = main fuel a w) as (a & Ha & Hf & ->).
  { exists a. split_and!; [done| |done|done]. intros a' Ha'. by eapply says_unique. }
  destruct (matches_fit_inv _ _ (get_matches_fit _ _ _ Hm)) as (_ & Hg & Hs). unfold main_matches.
  destruct (m_subcommand m) as [[n m']|] eqn:Hm0.
  - destruct Hs as (c' & Hc' & <- & Hf). simpl in Hc'. list_cases Hc'; cbn [c_name leaf] in *.
    + destruct (only_option (E := string) _ _ _ _ _ Hf) as (v & Hv & Hn). exists (ArgAuthorize v). split; [solve_says|].
      split; [done|]. simpl. by rewrite Hv.
    + destruct (build_dispatched (E := string) m m' Hm0 Hf) as (a & Hs & Ha & He). exists a. split_and!; [done..|]. exact (He fuel w).
    + destruct (config_dispatched (E := string) m m' Hm0 Hf) as (a & Hs & Ha & He). exists a. split_and!; [done..|]. exact (He fuel w).
    + destruct (inspect_dispatched (E := string) m m' Hm0 Hf) as (a & Hs & Ha & He). exists a. split_and!; [done..|]. exact (He fuel w).
    + apply leaf_fit in Hf as (_ & _ & Hn). exists ArgList. split; [solve_says|done].
    + apply leaf_fit in Hf as (_ & _ & Hn). exists ArgPing. split; [solve_says|done].
    + apply leaf_fit in Hf as (_ & _ & Hn). exists ArgStatus. split; [solve_says|done].
  - by destruct Hg as (a & ?%elem_of_nil & _).
Qed.

(** A format that fits is a content type. *)
Lemma args_fit_content a :
  args_fit a ->
  match a with
  | ArgInspectDocker _ format _ _ | ArgInspectMaven _ format _ _ => exists c, ContentType_from format = Ok c
  | _ => True
  end.
Proof. destruct a; simpl; try done; intros [[->| ->] _]; by eexists. Qed.
End Main.

(** The names in the help are the names that are understood, in any case, and every field has one. *)
Lemma field_names_understood s f :
  TransparencyLogField_from_str s = Ok f <-> to_lowercase s = field_name f.
Proof.
  unfold TransparencyLogField_from_str. split.
  - intros Hs. repeat case_bool_decide; by simplify_eq.
  - intros ->. by destruct f.
Qed.

Lemma every_field_in_help f : f ∈ Content_default.
Proof. destruct f; unfold Content_default; set_solver. Qed.

(** ** A parser of command lines

    Options by their long or short name and flags, before the name or short flag of a subcommand. *)
Definition names_arg (token : string) (a : Arg) : bool :=
  bool_decide (token ∈ ["--" +:+ a_id a] ++ map (fun n => "--" +:+ n) (a_aliases a)
    ++ match a_short a with Some c => ["-" +:+ String.String c ""] | None => [] end).

Definition names_command (token : string) (c : Command) : bool :=
  bool_decide (token ∈ [c_name c] ++ match c_short_flag c with Some f => ["-" +:+ String.String f ""] | None => [] end).

Definition completed (c : Command) (values : list (string * MatchValue)) : list (string * MatchValue) :=
  values ++ flat_map (fun a =>
    if bool_decide (a_id a ∈ fst <$> values) then []
    else match a_action a, a_default a with
         | SetTrue, _ => [(a_id a, VBool false)]
         | Set_, Some v => [(a_id a, VString v)]
         | Set_, None => []
         end) (c_args c).

Fixpoint parse_line (c : Command) (argv : list string) (values : list (string * MatchValue)) : option ArgMatches :=
  match argv with
  | [] => Some {| m_values := completed c values; m_subcommand := None |}
  | token :: rest =>
      match List.find (names_arg token) (c_args c), rest with
      | Some a, v :: rest' =>
          match a_action a with
          | SetTrue => parse_line c rest ((a_id a, VBool true) :: values)
          | Set_ => parse_line c rest' ((a_id a, VString v) :: values)
          end
      | Some a, [] =>
          match a_action a with
          | SetTrue => Some {| m_values := completed c ((a_id a, VBool true) :: values); m_subcommand := None |}
          | Set_ => None
          end
      | None, _ =>
          match List.find (names_command token) (c_subcommands c) with
          | Some c' =>
              match parse_line c' rest [] with
              | Some m' => Some {| m_values := completed c values; m_subcommand := Some (c_name c', m') |}
              | None => None
              end
          | None => None
          end
      end
  end.

#[export] Instance sample_clap : Clap := fun c argv =>
  match parse_line c argv [] with
  | Some m => if matches_fit c m then Ok m else Err "usage"
  | None => Err "usage"
  end.

#[export] Instance sample_clap_ok : ClapOk.
Proof.
  intros c argv m. unfold get_matches, sample_clap. destruct (parse_line c argv []) as [m'|]; [|done].
  destruct (matches_fit c m') eqn:E; [|done]. by intros [= <-].
Qed.

Example parse_inspect :
  get_matches cli_command ["inspect-log"; "maven"; "--gav"; "g:a:1"; "--latest"] = Ok
    {| m_values := [];
       m_subcommand := Some ("inspect-log", {| m_values := []; m_subcommand := Some ("maven",
         {| m_values := [("latest", VBool true); ("gav", VString "g:a:1"); ("format", VString "json")];
            m_subcommand := None |}) |}) |}.
Proof. vm_compute. reflexivity. Qed.

(** No peer, an unknown format, no subcommand: the tool ends with a message. *)
Example refused_lines :
  get_matches cli_command ["authorize"] = Err "usage"
  /\ get_matches cli_command ["inspect-log"; "docker"; "--image"; "alpine"; "--format"; "xml"] = Err "usage"
  /\ get_matches cli_command ["build"] = Err "usage".
Proof. repeat split; vm_compute; reflexivity. Qed.

#[local] Existing Instance tool_api_json.
#[local] Existing Instance tool_cli_json.
#[local] Existing Instance sample_node_web.
#[local] Instance sample_reqwest : Reqwest (ArtifactService (B := list bytes) (W := unit) (C := unit)) :=
  node_reqwest sample_tl_draw.

Lemma command_line_dispatched_witness :
  cli_main 0 ["build"; "docker"; "--image"; "alpine"] sample_cli = main 0 (ArgBuildDocker "alpine") sample_cli.
Proof.
  destruct (command_line_dispatched 0 ["build"; "docker"; "--image"; "alpine"] sample_cli) as (a & _ & Hu & _ & Hrun).
  rewrite Hrun. f_equal. symmetry. apply Hu. by repeat split.
Defined.
