(* ===== verification/Swarm.v ===== *)
(** * Swarm: what the node asks of libp2p

    network/p2p.rs and network/behaviour.rs: the settings of the transport and of the behaviours with which the swarm is
    built, the id of a gossip message, which is a hash of its content only, and the wrapping of the events
    of the behaviours.  The constructors of libp2p are the interface [SwarmBuild].  The last part states what the ids mean
    for builds: an announcement that was seen is not published again, so that the build is not started. *)

From S2P Require Import Prelude Crypto Structures Sample FileSystem Model Sql SqlSample TransparencyLog EventLoop Client Build Protocols.
#[local] Open Scope Z_scope.

(** ** [DefaultHasher] of the standard library: SipHash-1-3 with the keys 0 *)
Definition rotl64 (x n : Z) : Z := Z.lor (wrap 64 (Z.shiftl x n)) (Z.shiftr x (64 - n)).

Record SipState := { sip_v0 : Z; sip_v1 : Z; sip_v2 : Z; sip_v3 : Z }.

Definition sip_round (s : SipState) : SipState :=
  let a := wrap 64 (sip_v0 s + sip_v1 s) in
  let b := Z.lxor (rotl64 (sip_v1 s) 13) a in
  let a := rotl64 a 32 in
  let c := wrap 64 (sip_v2 s + sip_v3 s) in
  let d := Z.lxor (rotl64 (sip_v3 s) 16) c in
  let a := wrap 64 (a + d) in
  let d := Z.lxor (rotl64 d 21) a in
  let c := wrap 64 (c + b) in
  let b := Z.lxor (rotl64 b 17) c in
  {| sip_v0 := a; sip_v1 := b; sip_v2 := rotl64 c 32; sip_v3 := d |}.

Definition sip_word (s : SipState) (m : Z) : SipState :=
  let s := sip_round {| sip_v0 := sip_v0 s; sip_v1 := sip_v1 s; sip_v2 := sip_v2 s; sip_v3 := Z.lxor (sip_v3 s) m |} in
  {| sip_v0 := Z.lxor (sip_v0 s) m; sip_v1 := sip_v1 s; sip_v2 := sip_v2 s; sip_v3 := sip_v3 s |}.

Fixpoint sip_words (s : SipState) (len : Z) (fuel : nat) (data : bytes) : SipState :=
  match fuel with
  | O => s
  | S fuel =>
      if decide (length data < 8)%nat
      then sip_word s (Z.lor (Z.shiftl (len mod 256) 56) (bits_of_le_bytes data))
      else sip_words (sip_word s (bits_of_le_bytes (take 8 data))) len fuel (drop 8 data)
  end.

Definition sip_hash_1_3 (data : bytes) : Z :=
  let s := {| sip_v0 := 0x736f6d6570736575; sip_v1 := 0x646f72616e646f6d; sip_v2 := 0x6c7967656e657261; sip_v3 := 0x7465646279746573 |} in
  let s := sip_words s (Z.of_nat (length data)) (S (length data)) data in
  let s := sip_round (sip_round (sip_round {| sip_v0 := sip_v0 s; sip_v1 := sip_v1 s; sip_v2 := Z.lxor (sip_v2 s) 0xff; sip_v3 := sip_v3 s |})) in
  Z.lxor (Z.lxor (sip_v0 s) (sip_v1 s)) (Z.lxor (sip_v2 s) (sip_v3 s)).

(** The hasher before anything is written. *)
Example sip_hash_empty : sip_hash_1_3 [] = 15130871412783076140.
Proof. vm_compute. reflexivity. Qed.

(** [Vec<u8>::hash] writes the length and the bytes. *)
Definition data_hash (data : bytes) : Z :=
  sip_hash_1_3 (enc_le 8 (Z.of_nat (length data)) ++ data).

(** ** Settings *)
Inductive UpgradeVersion := V1.
Inductive Muxer := Yamux | Mplex.
Inductive ValidationMode := Strict.
Inductive ProtocolSupport := Full.
Inductive Codec := ArtifactExchangeCodec | BuildExchangeCodec | IdleMetricExchangeCodec | BlockchainExchangeCodec | BuildStatusExchangeCodec.

#[export] Instance Codec_eq_dec : EqDecision Codec.
Proof. solve_decision. Defined.

Section Swarm.
Context `{Crypto}.

(** The id of a message: the hash of its data in decimal. *)
Definition message_id_fn (data : bytes) : string := pretty (data_hash data).

Record GossipsubConfig := {
  heartbeat_interval : Z;
  validation_mode : ValidationMode;
  message_id : bytes -> string;
}.

Definition gossipsub_config : GossipsubConfig :=
  {| heartbeat_interval := 10; validation_mode := Strict; message_id := message_id_fn |}.

(** Durations in seconds. *)
Record AutonatConfig := {
  retry_interval : Z; refresh_interval : Z; boot_delay : Z; throttle_server_period : Z;
}.

Definition autonat_config : AutonatConfig :=
  {| retry_interval := 10; refresh_interval := 30; boot_delay := 5; throttle_server_period := 0 |}.

Record RequestResponse := { ex_codec : Codec; ex_protocols : list (bytes * ProtocolSupport) }.

Record PyrsiaNetworkBehaviour := {
  auto_nat : PeerId * AutonatConfig;
  gossipsub : Keypair * GossipsubConfig;           (* messages signed with the key pair *)
  identify : string * PublicKey;
  kademlia : PeerId * Z;                           (* the most keys the store provides *)
  request_response : RequestResponse;
  build_request_response : RequestResponse;
  idle_metric_request_response : RequestResponse;
  blockchain_request_response : RequestResponse;
  build_status_request_response : RequestResponse;
}.

Definition behaviour (keypair : Keypair) (peer : PeerId) (max_provided_keys : Z) : PyrsiaNetworkBehaviour := {|
  auto_nat := (peer, autonat_config);
  gossipsub := (keypair, gossipsub_config);
  identify := ("ipfs/1.0.0", public keypair);
  kademlia := (peer, max_provided_keys);
  request_response := {| ex_codec := ArtifactExchangeCodec; ex_protocols := [(artifact_protocol_name, Full)] |};
  build_request_response := {| ex_codec := BuildExchangeCodec; ex_protocols := [(build_protocol_name, Full)] |};
  idle_metric_request_response := {| ex_codec := IdleMetricExchangeCodec; ex_protocols := [(idle_metric_protocol_name, Full)] |};
  blockchain_request_response := {| ex_codec := BlockchainExchangeCodec; ex_protocols := [(blockchain_protocol_name, Full)] |};
  build_status_request_response := {| ex_codec := BuildStatusExchangeCodec; ex_protocols := [(build_status_protocol_name, Full)] |};
|}.

Record TransportSettings (NoiseKeys : Type) := {
  tr_nodelay : bool;
  tr_version : UpgradeVersion;
  tr_noise_xx : NoiseKeys;
  tr_muxers : list Muxer;
  tr_timeout : Z;
}.

(** The constructors of libp2p that can fail, and the builder of the swarm. *)
Class SwarmBuild `{!Libp2p} := {
  NoiseKeys : Type;
  into_authentic : Keypair -> option NoiseKeys;
  dns_system : outcome string unit;                        (* the resolver of the system *)
  gossipsub_config_build : GossipsubConfig -> outcome string unit;
  gossipsub_new : Keypair -> GossipsubConfig -> outcome string unit;
  swarm_builder : TransportSettings NoiseKeys -> PyrsiaNetworkBehaviour -> PeerId -> Swarm;
}.

Context `{!Libp2p} `{!SwarmBuild}.

Definition create_transport (keypair : Keypair) : outcome string (TransportSettings NoiseKeys) :=
  let? noise_keys := unwrap (into_authentic keypair) in
  let? _ := dns_system in
  Ok {| tr_nodelay := true; tr_version := V1; tr_noise_xx := noise_keys; tr_muxers := [Yamux; Mplex]; tr_timeout := 20 |}.

Definition create_swarm (keypair : Keypair) (max_provided_keys : Z) : outcome string (Swarm * PeerId) :=
  let peer_id := peer_id_from_public_key (public keypair) in
  let? _ := gossipsub_config_build gossipsub_config in
  let? transport := create_transport keypair in
  let? _ := gossipsub_new keypair gossipsub_config in
  Ok (swarm_builder transport (behaviour keypair peer_id max_provided_keys) peer_id, peer_id).

(** The swarm has the peer id of the key pair, which its behaviours get too. *)
Lemma create_swarm_Ok keypair keys swarm peer :
  create_swarm keypair keys = Ok (swarm, peer) ->
  peer = peer_id_from_public_key (public keypair)
  /\ exists transport, swarm = swarm_builder transport (behaviour keypair peer keys) peer.
Proof.
  unfold create_swarm. intros (? & _ & (tr & _ & (? & _ & [= <- <-])%obind_Ok)%obind_Ok)%obind_Ok. split; [done|]. by exists tr.
Qed.

(** The behaviour that carries a request, and that of a response. *)
Definition request_exchange (b : PyrsiaNetworkBehaviour) (r : Request) : RequestResponse :=
  match r with
  | ArtifactRequest _ => request_response b
  | BuildRequest _ _ => build_request_response b
  | IdleMetricRequest => idle_metric_request_response b
  | BlockchainRequest _ => blockchain_request_response b
  | BuildStatusRequest _ => build_status_request_response b
  end.
End Swarm.

(** Each kind of request has its own codec and protocol name, so that no peer reads one as another. *)
Lemma exchanges_apart `{Crypto} keypair peer keys r1 r2 :
  let b := behaviour keypair peer keys in
  ex_codec (request_exchange b r1) = ex_codec (request_exchange b r2)
  <-> ex_protocols (request_exchange b r1) = ex_protocols (request_exchange b r2).
Proof. by destruct r1, r2. Qed.

(** ** Announcements of builds *)

(** The messages that gossipsub has published or received and still remembers. *)
Class Gossip `{Libp2p} := seen_ids : Swarm -> gset string.

(** [Gossipsub::publish]: a published message is remembered; one that is remembered is refused with
    [PublishError::Duplicate]. *)
Class GossipOk `{Gossip} : Prop := {
  publish_seen topic data sw sw' :
    gossip_publish topic data sw = (Ok tt, sw') -> message_id_fn data ∈ seen_ids sw';
  publish_duplicate topic data sw :
    message_id_fn data ∈ seen_ids sw -> gossip_publish topic data sw = (Err "Duplicate", sw);
}.

(** A client whose commands are handled by a loop at once: it gets the answer to a sender that waits, and an error when
    the loop panics. *)
Class LoopChannel `{Libp2p} (W : Type) `{!CommandChannel W} := {
  channel_loop : W -> EventLoop;
  next_sender : W -> sender;
}.
Class LoopChannelOk `{Libp2p} `{!Bincode VerifyBuildData} (W : Type) `{!CommandChannel W} `{!LoopChannel W} : Prop := {
  next_sender_waits w : next_sender w ∉ el_gone (channel_loop w);
  ask_answered mk w a l' :
    handle_command (mk (next_sender w)) (channel_loop w) = (Ok tt, l') ->
    el_answers l' = el_answers (channel_loop w) ++ [(next_sender w, a)] ->
    exists w', ask mk w = (Ok a, w') /\ channel_loop w' = l';
  ask_panicked mk w :
    fst (handle_command (mk (next_sender w)) (channel_loop w)) = Panic -> fst (ask mk w) = Err RecvError;
}.

Section Announcements.
Context `{Libp2p} `{!Bincode VerifyBuildData} `{!Gossip} `{!GossipOk}.
Context `{Sqlite} `{!LogJson} `{!BuildJson} `{!Sha256} {N : Type} `{!Http N} {B : Type} `{!BlockAdder B}.
Context {W : Type} `{!CommandChannel W} `{!LoopChannel W} `{!LoopChannelOk W}.

Abbreviation Builds := (BuildService (N := N) (B := B) (W := W)).

Definition announced (t : PackageType) (p : string) (sw : Swarm) : Prop :=
  exists data, serialize {| vb_package_type := t; vb_package_specific_id := p |} = Some data
    /\ message_id_fn data ∈ seen_ids sw.

(** The command to announce a build: what its sender is answered. *)
Lemma verify_command t p w :
  let s := next_sender w in
  (exists r l', handle_command (VerifyBuild t p s) (channel_loop w) = (Ok tt, l')
    /\ el_answers l' = el_answers (channel_loop w) ++ [(s, AUnit r)]
    /\ (r = inl tt -> announced t p (el_swarm l')))
  \/ fst (handle_command (VerifyBuild t p s) (channel_loop w)) = Panic.
Proof.
  intros s. pose proof (next_sender_waits w) as Hs. fold s in Hs.
  simpl. unfold cmd_verify_build, announced. destruct (serialize _) as [data|] eqn:Hd.
  - unfold swarm_try, answer. unfold_stm. destruct (gossip_publish build_topic data (el_swarm (channel_loop w))) as [[[]|e|] sw] eqn:Hp; simpl.
    + left. rewrite decide_False by done. eexists (inl tt), _. split_and!; [done|done|]. intros _. exists data. split; [done|].
      simpl. by eapply publish_seen.
    + left. rewrite decide_False by done. by eexists (inr e), _.
    + by right.
  - left. unfold answer. unfold_stm. rewrite decide_False by done. by eexists (inr _), _.
Qed.

(** An announcement that was seen. *)
Lemma announced_refused t p w :
  announced t p (el_swarm (channel_loop w)) ->
  exists w', verify_build t p w = (Err (AnswerError "Duplicate"), w')
    /\ el_swarm (channel_loop w') = el_swarm (channel_loop w).
Proof.
  intros (data & Hd & Hin). pose proof (next_sender_waits w) as Hs.
  assert (exists l', handle_command (VerifyBuild t p (next_sender w)) (channel_loop w) = (Ok tt, l')
    /\ el_answers l' = el_answers (channel_loop w) ++ [(next_sender w, AUnit (inr "Duplicate"))]
    /\ el_swarm l' = el_swarm (channel_loop w)) as (l' & Hh & Ha & Hsw).
  { simpl. unfold cmd_verify_build. rewrite Hd. unfold swarm_try, answer. unfold_stm. rewrite publish_duplicate by done. simpl.
    rewrite decide_False by done. by eexists. }
  destruct (ask_answered _ _ _ _ Hh Ha) as (w' & Hw & Hl). exists w'.
  unfold verify_build. unfold_stm. rewrite Hw. simpl. by rewrite Hl.
Qed.

(** Announcing a build succeeds only when the announcement is remembered. *)
Lemma verified_announced t p w w' : verify_build t p w = (Ok tt, w') -> announced t p (el_swarm (channel_loop w')).
Proof.
  unfold verify_build. unfold_stm. destruct (verify_command t p w) as [(r & l' & Hh & Ha & Hr)|Hp].
  - destruct (ask_answered _ _ _ _ Hh Ha) as (w1 & Hw & Hl). rewrite Hw. destruct r as [[]|e]; simpl; [|done].
    intros [= <-]. rewrite Hl. by apply Hr.
  - apply (ask_panicked (VerifyBuild t p)) in Hp. destruct (ask (VerifyBuild t p) w) as [o w1]. simpl in Hp. by subst o.
Qed.

(** Starting a build changes the client of the network only to announce it. *)
Lemma started_announced t p (s s' : Builds) id :
  build_start_build t p FromSource s = (Ok id, s') -> announced t p (el_swarm (channel_loop (bs_p2p_client s'))).
Proof.
  unfold build_start_build, check_trigger. intros (u & s1 & Hc & Hrest)%sbind_Ok.
  assert (bs_p2p_client s' = bs_p2p_client s1) as ->.
  { revert Hrest. unfold on_http, spawn_poll. unfold_stm.
    destruct (get_mapping _ _ _ _) as [[m| |] n1]; [|done..]. destruct (pipeline_start_build _ _ _) as [[b| |] n2]; [|done..].
    by intros [= _ <-]. }
  revert Hc. unfold on_p2p. unfold_stm. destruct (verify_build t p (bs_p2p_client s)) as [[[]|e|] w1] eqn:Hv; [|done..].
  intros [= _ <-]. simpl. by apply verified_announced in Hv.
Qed.

(** C16. A build from source is started at most once while gossipsub remembers its announcement, since the id of a message is
    a hash of its content: a start of a package whose announcement was published or received fails with
    the error of a duplicate before any request is made, and changes nothing but the answers of the network loop; so
    does every start right after one that succeeded. *)
Theorem build_announced_once t p (s : Builds) :
  (announced t p (el_swarm (channel_loop (bs_p2p_client s))) ->
     exists s', build_start_build t p FromSource s
                = (Err (InitializationFailed (NetMsg (AnswerError "Duplicate"))), s')
       /\ bs_http s' = bs_http s /\ bs_polls s' = bs_polls s /\ bs_events s' = bs_events s
       /\ el_swarm (channel_loop (bs_p2p_client s')) = el_swarm (channel_loop (bs_p2p_client s)))
  /\ (forall id s', build_start_build t p FromSource s = (Ok id, s') ->
       fst (build_start_build t p FromSource s') = Err (InitializationFailed (NetMsg (AnswerError "Duplicate")))).
Proof.
  assert (forall s : Builds, announced t p (el_swarm (channel_loop (bs_p2p_client s))) ->
     exists s', build_start_build t p FromSource s
                = (Err (InitializationFailed (NetMsg (AnswerError "Duplicate"))), s')
       /\ bs_http s' = bs_http s /\ bs_polls s' = bs_polls s /\ bs_events s' = bs_events s
       /\ el_swarm (channel_loop (bs_p2p_client s')) = el_swarm (channel_loop (bs_p2p_client s))) as Hdup.
  { intros s0 (w' & Hv & Hsw)%announced_refused. unfold build_start_build, check_trigger, on_p2p. unfold_stm. rewrite Hv. simpl.
    by eexists. }
  split; [apply Hdup|]. intros id s' Hs%started_announced. destruct (Hdup s' Hs) as (s2 & Hs2 & _). by rewrite Hs2.
Qed.
End Announcements.

(** ** A swarm that remembers its messages *)
Section Remembering.
#[local] Instance remembering_libp2p : Libp2p := {|
  Swarm := gset string; Multiaddr := string; Ipv4Addr := string;
  multiaddr_to_string := fun a => a;
  parse_ipv4 := fun s => Some s;
  with_p2p := fun a _ => a;
  replace_ip4 := fun a _ => Some a;
  local_peer_id := fun _ => "me";
  connected_peers := fun _ => [];
  listeners := fun _ => [];
  gossip_subscribe := fun _ => sret tt;
  gossip_publish := fun _ data sw =>
    if decide (message_id_fn data ∈ sw) then (Err "Duplicate", sw) else (Ok tt, {[message_id_fn data]} ∪ sw);
  kad_add_address := fun _ _ sw => sw;
  kad_bootstrap := sret 0%nat;
  kad_start_providing := fun _ => sret 0%nat;
  kad_get_providers := fun _ sw => (0%nat, sw);
  autonat_add_server := fun _ _ sw => sw;
  listen_on := fun _ => sret tt;
  swarm_dial := fun _ => sret tt;
  send_request := fun _ _ sw => (0%nat, sw);
  send_response := fun _ _ => sret tt;
|}.
#[local] Instance remembering_gossip : Gossip := fun sw => sw.
#[local] Instance remembering_gossip_ok : GossipOk.
Proof.
  split; intros topic data sw; simpl.
  - intros sw'. case_decide; intros [=]; subst. unfold seen_ids, remembering_gossip. set_solver.
  - intros Hin. by rewrite decide_True.
Qed.

(** The sender of a command is one that waits; a command that is not answered at once is given up. *)
#[local] Instance direct_channel : CommandChannel EventLoop := {|
  ask := fun mk l =>
    let s := fresh (el_gone l) in
    match handle_command (mk s) l with
    | (Ok _, l') =>
        match last (el_answers l') with
        | Some (s', a) => if decide (s = s') then (Ok a, l') else (Err RecvError, l')
        | None => (Err RecvError, l')
        end
    | (_, l') => (Err RecvError, l')
    end;
  tell := fun c l => let '(o, l') := handle_command c l in (match o with Ok _ => Ok tt | _ => Err SendError end, l');
|}.
#[local] Instance direct_loop : LoopChannel EventLoop := {| channel_loop := fun l => l; next_sender := fun l => fresh (el_gone l) |}.
#[local] Instance direct_loop_ok : LoopChannelOk EventLoop.
Proof.
  split; simpl.
  - intros w. apply is_fresh.
  - intros mk w a l' Hh Ha. exists l'. rewrite Hh, Ha, last_snoc, decide_True by done. done.
  - intros mk w. by destruct (handle_command _ w) as [[| |] l'].
Qed.

Definition announcing_builder : BuildService (N := list HttpResponse) (B := list bytes) (W := EventLoop) := {|
  bs_repository_path := "repo"; bs_disk := {| fs_nodes := ∅; fs_fault := fun _ _ => None |};
  bs_p2p_client := EventLoop_new (∅ : gset string) ""; bs_transparency_log := sample_service sample_logs;
  bs_mapping := {| mapping_service_endpoint := "m" |};
  bs_pipeline := {| pipeline_service_endpoint := "p" |};
  bs_http := [{| http_status := 200; http_body := as_bytes "b1" |}];
  bs_events := []; bs_polls := [] |}.

(** The first start asks the pipeline for the build; the second is refused. *)
Lemma build_announced_once_witness :
  exists s', build_start_build Docker "alpine:3" FromSource announcing_builder = (Ok "b1", s')
    /\ fst (build_start_build Docker "alpine:3" FromSource s')
       = Err (InitializationFailed (NetMsg (AnswerError "Duplicate"))).
Proof.
  assert (build_start_build Docker "alpine:3" FromSource announcing_builder
    = (Ok "b1", snd (build_start_build Docker "alpine:3" FromSource announcing_builder))) as Hs.
  { rewrite (surjective_pairing (build_start_build Docker "alpine:3" FromSource announcing_builder)) at 1.
    f_equal. }
  eexists. split; [exact Hs|]. exact (proj2 (build_announced_once Docker "alpine:3" announcing_builder) _ _ Hs).
Defined.
End Remembering.
