(* ===== verification/Node.v ===== *)
(** * Node: the executable that connects the network to the services

    Models pyrsia_node/src/network/handlers.rs, pyrsia_node/src/args/parser.rs,
    pyrsia_node/src/main.rs and setup_libp2p_swarm of network/p2p.rs: the answers to the events of
    the network, how a node joins the network, its identity and how its services are set up.  Multiaddresses are the class [Multiaddrs], the
    lookup of the bootstrap node is the class [Bootstrap]. *)

From S2P Require Import Prelude Crypto Structures Sample FileSystem Chain Blockchain BlockchainService BlockchainEvents Sql SqlSample Model Text TransparencyLog EventLoop Client Build Artifact Verification BuildEvents Metrics Util Regex Config Protocols Swarm.

(** ** Multiaddresses and the bootstrap node *)
Inductive AddrProtocol `{Crypto} := P2p (hash : Multihash) | OtherProtocol.

Class Multiaddrs `{Libp2p} := {
  (** [addr.iter().last()] *)
  multiaddr_last : Multiaddr -> option AddrProtocol;
  peer_id_from_multihash : Multihash -> option PeerId;
  peer_id_try_from_multiaddr : Multiaddr -> option PeerId;
  parse_multiaddr : string -> option Multiaddr;
}.

(** [PeerId::try_from_multiaddr] takes the peer id at the end of an address. *)
Class MultiaddrsOk `{Multiaddrs} : Prop :=
  try_from_multiaddr_last a :
    peer_id_try_from_multiaddr a =
      match multiaddr_last a with Some (P2p hash) => peer_id_from_multihash hash | _ => None end.

(** reqwest and the json crate, on the status page of the bootstrap node. *)
Inductive JsonAddrs := JsonArray (elements : list string) | JsonOther.

Class Bootstrap := {
  (** [client.get(url).send()]: the error of the request, or the response, whose [text()] may fail. *)
  send_get : string -> (string + string) + string;
  (** [json::parse], and of the page its [peer_addrs] with the elements as strings. *)
  parse_status_page : string -> option JsonAddrs;
}.

(** ** args/parser.rs *)
Record PyrsiaNodeArgs `{Libp2p} := {
  arg_host : string;
  arg_listen_address : Multiaddr;
  arg_port : string;
  arg_peer : option Multiaddr;
  arg_init_blockchain : bool;
  arg_probe : option Multiaddr;
  arg_listen_only : bool;
  arg_bootstrap_url : string;
  arg_max_provided_keys : Z;
  arg_mapping_service_endpoint : string;
  arg_pipeline_service_endpoint : string;
}.

Definition DEFAULT_HOST : string := "127.0.0.1".
Definition DEFAULT_LISTEN_ADDRESS : string := "/ip4/0.0.0.0/tcp/0".
Definition DEFAULT_MAX_PROVIDED_KEYS : string := "32768".
Definition DEFAULT_MAPPING_SERVICE_ENDPOINT : string :=
  "https://raw.githubusercontent.com/pyrsia/pyrsia-mappings/main/".
Definition DEFAULT_PIPELINE_SERVICE_ENDPOINT : string := "http://localhost:8080".
Definition DEFAULT_PORT : string := "7888".
Definition DEFAULT_BOOTSTRAP_URL : string := "http://boot.pyrsia.link/status".

(** ** Errors, by where they come from *)
(** What is appended to "Could not read status from {} error". *)
Inductive status_error := Unreachable (err : string) | EmptyArray | NoArray.

Inductive NodeError `{Crypto} :=
| NodeMsg (msg : string)
| NodeStatus (url : string) (e : status_error)
| NodeNoPeerAddrs (url : string)
| NodeReqwest (err : string)
| NodeJson
| NodeMultiaddr
| NodeNet (e : net_error)
| NodeArtifact (e : artifact_error)
| NodeBuild (e : BuildError)
| NodeChain (e : BlockchainError)
| NodeAny (e : anyhow_error)
| NodeLog (e : TransparencyLogError)
| NodeIo (e : io_error).

Section Node.
Context `{Libp2p} `{!Multiaddrs} `{Sqlite} `{!LogJson} `{!Sha256} `{!BlockBincode} `{!Sysinfo} `{!Bootstrap}.
Context {B : Type} `{!BlockAdder B} {W : Type} `{!CommandChannel W} {C : Type} `{!BuildClient C}.
Context {N : Type} `{!BlockchainNet N} {A : Type} `{!BlockAddedHandler A}.

Abbreviation Artifacts := (ArtifactService (B := B) (W := W) (C := C)).

(** What the main function owns: the artifact service, which has the clients of the network and of the
    build event loop, the task of the blockchain event loop and the metrics. *)
Record Node := {
  node_artifacts : Artifacts;
  node_blockchain : Task N A;
  node_metrics : PeerMetrics;
}.

Definition on_artifact_service {E R} (c : stm Artifacts E R) : stm Node E R :=
  szoom node_artifacts (fun a n => {| node_artifacts := a; node_blockchain := node_blockchain n;
                                      node_metrics := node_metrics n |}) c.
Definition on_blockchain {E R} (c : stm (Task N A) E R) : stm Node E R :=
  szoom node_blockchain (fun t n => {| node_artifacts := node_artifacts n; node_blockchain := t;
                                       node_metrics := node_metrics n |}) c.
Definition on_p2p {E R} (c : stm W E R) : stm Node E R := on_artifact_service (on_net c).

(** ** network/handlers.rs *)
Definition dial_other_peer (to_dial : Multiaddr) : stm W NodeError unit :=
  match multiaddr_last to_dial with
  | Some (P2p hash) =>
      match peer_id_from_multihash hash with
      | Some peer_id => smap_err NodeNet (dial peer_id to_dial)
      | None => serr (NodeMsg "Invalid hash provided for Peer ID.")
      end
  | _ => serr (NodeMsg "Expect peer address to contain Peer ID.")
  end.

Definition probe_other_peer (to_probe : Multiaddr) : stm W NodeError unit :=
  match multiaddr_last to_probe with
  | Some (P2p hash) =>
      match peer_id_from_multihash hash with
      | Some peer_id => smap_err NodeNet (add_probe_address peer_id to_probe)
      | None => serr (NodeMsg "Invalid hash provided for Peer ID.")
      end
  | _ => serr (NodeMsg "Expect peer address to contain Peer ID.")
  end.

Definition handle_request_artifact (artifact_id : string) (ch : channel) : stm Artifacts NodeError unit :=
  let! content := smap_err NodeArtifact (get_artifact_locally artifact_id) in
  smap_err NodeNet (on_net (respond_artifact content ch)).

Definition handle_request_build (t : PackageType) (p : string) (ch : channel) : stm Artifacts NodeError unit :=
  let! build_id := smap_err NodeBuild (on_builds (be_start_build t p)) in
  smap_err NodeNet (on_net (respond_build build_id ch)).

Definition handle_verify_build (peer_id : PeerId) (t : PackageType) (p : string) : stm Artifacts NodeError unit :=
  let! _ := smap_err NodeBuild (on_builds (be_verify_build peer_id t p)) in
  sret tt.

Definition handle_request_idle_metric (ch : channel) : stm Node NodeError unit :=
  let! n := sget in
  let '(metric, m) := get_quality_metric (node_metrics n) in
  let! _ := sput {| node_artifacts := node_artifacts n; node_blockchain := node_blockchain n; node_metrics := m |} in
  smap_err NodeNet (on_p2p (respond_idle_metric (f64_to_le_bytes metric) ch)).

Definition handle_request_build_status (build_id : string) (ch : channel) : stm Artifacts NodeError unit :=
  let! build_status := smap_err NodeBuild (on_builds (be_get_build_status build_id)) in
  smap_err NodeNet (on_net (respond_build_status build_status ch)).

(** ** main.rs, the loop over the events of the network: an error is logged, a panic ends the node *)
Definition logged {E R} (c : stm Node E R) : stm Node Empty_set unit :=
  let! _ := scatch c in sret tt.

Definition handle_p2p_event (e : PyrsiaEvent) (d_tx d_block : draw) : stm Node Empty_set unit :=
  match e with
  | EvRequestArtifact artifact_id ch => logged (on_artifact_service (handle_request_artifact artifact_id ch))
  | EvRequestBuild t p ch => logged (on_artifact_service (handle_request_build t p ch))
  | EvVerifyBuild peer_id t p => logged (on_artifact_service (handle_verify_build peer_id t p))
  | EvIdleMetricRequest ch => logged (handle_request_idle_metric ch)
  | EvBlockchainRequest data ch =>
      let! r := scatch (on_blockchain (handle_incoming_blockchain_command data d_tx d_block)) in
      match r with
      | inl response_data =>
          match ch with
          | Some ch => logged (on_p2p (respond_blockchain response_data ch))
          | None => sret tt
          end
      | inr _ => sret tt
      end
  | EvRequestBuildStatus build_id ch => logged (on_artifact_service (handle_request_build_status build_id ch))
  end.

Definition listen_for_events (events : list (PyrsiaEvent * draw * draw)) : stm Node Empty_set unit :=
  sfor events (fun '(e, d1, d2) => handle_p2p_event e d1 d2).

(** ** main.rs, joining the network *)
Definition load_peer_addrs (peer_url : string) : outcome NodeError string :=
  match send_get peer_url with
  | inl body =>
      let? text := match body with inl text => Ok text | inr err => Err (NodeReqwest err) end in
      let? arr := ok_or (parse_status_page text) NodeJson in
      match arr with
      | JsonArray [] => Err (NodeStatus peer_url EmptyArray)
      | JsonArray (peer_addrs :: _) =>
          if bool_decide (peer_addrs = "") then Err (NodeNoPeerAddrs peer_url) else Ok peer_addrs
      | JsonOther => Err (NodeStatus peer_url NoArray)
      end
  | inr err => Err (NodeStatus peer_url (Unreachable err))
  end.

Definition connect_to_p2p_network (args : PyrsiaNodeArgs) : stm W NodeError (option PeerId) :=
  let! _ := smap_err NodeNet (listen (arg_listen_address args)) in
  match arg_probe args, arg_peer args with
  | Some to_probe, _ =>
      let! _ := probe_other_peer to_probe in
      sret (peer_id_try_from_multiaddr to_probe)
  | None, Some to_dial =>
      let! _ := dial_other_peer to_dial in
      sret (peer_id_try_from_multiaddr to_dial)
  | None, None =>
      if arg_listen_only args then sret None
      else
        let! peer_addrs := slift (load_peer_addrs (arg_bootstrap_url args)) in
        let! pa := slift (ok_or (parse_multiaddr peer_addrs) NodeMultiaddr) in
        let! _ := probe_other_peer pa in
        sret (peer_id_try_from_multiaddr pa)
  end.

Definition pull_block_from_other_nodes (other_peer_id : PeerId) (d1 d2 : draw) : stm Node NodeError unit :=
  let! ordinal := smap_err NodeChain (on_blockchain (client_pull_blocks_from_peer other_peer_id d1 d2)) in
  let! blocks := smap_err NodeChain (on_blockchain (client_pull_blocks_local 1%Z ordinal d1 d2)) in
  sfor blocks (fun block =>
    let payloads := fetch_payload block in
    smap_err NodeArtifact (on_artifact_service (service_handle_block_added payloads))).

(** The spawned task: a failed connection is logged, a failed pull panics. *)
Definition establish_connection_with_p2p_network (args : PyrsiaNodeArgs) (d1 d2 : draw) : stm Node Empty_set unit :=
  let! r := scatch (on_p2p (connect_to_p2p_network args)) in
  match r with
  | inl (Some other_peer_id) =>
      if arg_init_blockchain args then sret tt
      else
        let! p := scatch (pull_block_from_other_nodes other_peer_id d1 d2) in
        match p with inl _ => sret tt | inr _ => spanic end
  | _ => sret tt
  end.

(** ** main.rs, [setup_http]: the address to bind to *)
Definition setup_http {E} (args : PyrsiaNodeArgs) : outcome E (string * Z) :=
  let? ip := unwrap (if valid_ipv4_address (arg_host args) then Some (arg_host args) else None) in
  let? port := unwrap (parse_u16 (chars (arg_port args))) in
  Ok (ip, port).

(** ** main.rs, [main] after the services are set up

    The task that joins the network runs when it is spawned, and [main] goes on whatever becomes of it; the loop over
    the events ends with the events that are given. *)
Definition run_node (args : PyrsiaNodeArgs) (d1 d2 : draw) (events : list (PyrsiaEvent * draw * draw)) :
    stm Node NodeError unit :=
  let! _ := slift (setup_http args) in
  let! _ := (fun n => (Ok tt, snd (establish_connection_with_p2p_network args d1 d2 n))) in
  let! _ := smap_err NodeArtifact (on_artifact_service provide_local_artifacts) in
  fun n => let '(o, n') := listen_for_events events n in (map_err (fun e : Empty_set => match e with end) o, n').

(** Before the first event only the task that joins the network has changed the blockchain. *)
Lemma start_keeps_chain args d1 d2 n addr :
  setup_http (E := NodeError) args = Ok addr ->
  node_blockchain (snd (run_node args d1 d2 [] n))
  = node_blockchain (snd (establish_connection_with_p2p_network args d1 d2 n)).
Proof.
  intros Hh. unfold run_node, on_artifact_service. unfold_stm. rewrite Hh. cbv beta iota.
  generalize (snd (establish_connection_with_p2p_network args d1 d2 n)) as n1. intros n1.
  by destruct (provide_local_artifacts (node_artifacts n1)) as [[| |] a].
Qed.
End Node.

(** ** Connecting *)
Section Connecting.
Context `{Libp2p} `{!Multiaddrs, !MultiaddrsOk} `{!Bootstrap}.
Context {W : Type} `{!CommandChannel W}.

(** A connection that is made names the peer that was dialled or probed; only a node that is told to just listen is
    connected to nobody. *)
Lemma connected_peer args w r w' :
  connect_to_p2p_network args w = (Ok r, w') ->
  match r with
  | Some p => exists addr, peer_id_try_from_multiaddr addr = Some p
      /\ (arg_probe args = Some addr \/ arg_probe args = None /\ arg_peer args = Some addr
          \/ arg_probe args = None /\ arg_peer args = None /\ arg_listen_only args = false
             /\ exists text, load_peer_addrs (arg_bootstrap_url args) = Ok text /\ parse_multiaddr text = Some addr)
  | None => arg_listen_only args = true /\ arg_probe args = None /\ arg_peer args = None
  end.
Proof.
  unfold connect_to_p2p_network, probe_other_peer, dial_other_peer. unfold_stm.
  destruct (listen (arg_listen_address args) w) as [[x|x|] w1]; [|done..].
  destruct (arg_probe args) as [a|]; [|destruct (arg_peer args) as [a|]; [|destruct (arg_listen_only args)]];
    [| |by intros [= <- <-]|
     destruct (load_peer_addrs (arg_bootstrap_url args)) as [text|e|] eqn:El; [|done..]; simpl;
     destruct (parse_multiaddr text) as [a|] eqn:Ep; [|done]; simpl].
  all: rewrite try_from_multiaddr_last; destruct (multiaddr_last a) as [[hash|]|] eqn:Ea; [|done..];
    destruct (peer_id_from_multihash hash) as [q|] eqn:Eq; [|done]; intros Hc; repeat case_match; simplify_eq/=;
    exists a; rewrite try_from_multiaddr_last, Ea; naive_solver.
Qed.
End Connecting.

(** ** Replaying a chain *)
Section Replay.
Context `{Libp2p} `{Sqlite} `{!LogJson} `{!Sha256} `{!BlockBincode}.
Context {B : Type} `{!BlockAdder B} {W : Type} `{!CommandChannel W} {C : Type} `{!BuildClient C}.
Abbreviation Artifacts := (ArtifactService (B := B) (W := W) (C := C)).

(** What a block adds to the logs of a node: its one payload, unless the record is known. *)
Definition replay_block (logs : list TransparencyLog) (b : Block) : list TransparencyLog :=
  match fetch_payload b with
  | [payload] =>
      match log_from_json payload with
      | Some l => if decide (tl_id l ∈ tl_id <$> logs) then logs else logs ++ [l]
      | None => logs
      end
  | _ => logs
  end.

Definition replay (logs : list TransparencyLog) (bs : list Block) : list TransparencyLog :=
  fold_left replay_block bs logs.

(** A block whose payload is a record that the database can hold. *)
Definition readable_block (b : Block) : Prop :=
  match fetch_payload b with
  | [payload] => exists l, log_from_json payload = Some l /\ storable l /\ quotable (tl_id l) = true
  | _ => True
  end.

Context `{!SqliteOk}.

Lemma handle_block_replays b (s : Artifacts) logs :
  readable_block b -> holds (as_transparency_log s) logs ->
  exists s', service_handle_block_added (fetch_payload b) s = (Ok tt, s')
    /\ holds (as_transparency_log s') (replay_block logs b).
Proof.
  unfold readable_block, replay_block, service_handle_block_added. intros Hb Hh.
  destruct (fetch_payload b) as [|payload [|]]; [by exists s| |by exists s].
  destruct Hb as (l & Hl & Hs & Hq). rewrite Hl.
  destruct (write_if_not_exists_spec (as_transparency_log s) logs l Hh Hs Hq) as (y & Hw & Hy).
  unfold on_tlog. unfold_stm. simpl. rewrite Hw. simpl. by eexists.
Qed.

(** Replaying a chain writes every record once, and replaying it again nothing. *)
Lemma replay_ids logs bs : NoDup (tl_id <$> logs) -> NoDup (tl_id <$> replay logs bs).
Proof.
  revert logs; induction bs as [|b bs IH]; intros logs Hnd; simpl; [done|]. apply IH.
  unfold replay_block. repeat case_match; try done. rewrite fmap_app. simpl.
  apply NoDup_app. split; [done|]. split; [|apply NoDup_singleton].
  intros x Hx ->%list_elem_of_singleton. done.
Qed.
End Replay.

Section Joining.
Context `{Libp2p} `{!Multiaddrs} `{Sqlite} `{!LogJson} `{!Sha256} `{!BlockBincode} `{!Sysinfo} `{!Bootstrap}.
Context {B : Type} `{!BlockAdder B} {W : Type} `{!CommandChannel W} {C : Type} `{!BuildClient C}.
Context {N : Type} `{!BlockchainNet N} {A : Type} `{!BlockAddedHandler A} {A' : Type} `{!BlockAddedHandler A'}.
Context `{!CryptoOk, !BlockBincodeOk, !SqliteOk}.
Context (d1 d2 : draw).

(** The network of the newcomer is a live peer. *)
#[local] Instance peer_link : BlockchainNet (Task N A) := peer_net d1 d2.

Abbreviation Newcomer := (Node (B := B) (W := W) (C := C) (N := Task N A) (A := A')).
Abbreviation loop_chain l := (svc_chain (loop_blockchain_service l)).
Abbreviation loop_blocks l := (blocks (chain (bc (loop_chain l)))).

Lemma replay_chain bs (n : Newcomer) logs :
  Forall readable_block bs -> holds (as_transparency_log (node_artifacts n)) logs ->
  exists n',
    sfor bs (fun block => smap_err NodeArtifact
      (on_artifact_service (service_handle_block_added (fetch_payload block)))) n = (Ok tt, n')
    /\ holds (as_transparency_log (node_artifacts n')) (replay logs bs)
    /\ node_blockchain n' = node_blockchain n.
Proof.
  intros Hbs. revert n logs; induction Hbs as [|b bs Hb Hbs IH]; intros n logs Hh; simpl; [by exists n|].
  destruct (handle_block_replays b (node_artifacts n) logs Hb Hh) as (s' & Hs & Hh').
  unfold sbind at 1, smap_err at 1, on_artifact_service at 1, szoom at 1. rewrite Hs. simpl.
  apply (IH {| node_artifacts := s' |}); done.
Qed.

Lemma pull_local_all (l : BlockchainEventLoop (Task N A) A') :
  bc_inv (loop_chain l) -> 0 < length (loop_blocks l) ->
  exists l', client_pull_blocks_local 1%Z (Z.of_nat (length (loop_blocks l)) - 1)%Z d1 d2 (Some l)
      = (Ok (drop 1 (loop_blocks l)), Some l')
    /\ loop_blockchain_service l' = loop_blockchain_service l.
Proof.
  intros Hi Hpos.
  assert (service_pull_blocks (loop_blockchain_service l) 1%Z (Z.of_nat (length (loop_blocks l)) - 1)%Z
          = Ok (drop 1 (loop_blocks l))) as Hpull.
  { unfold service_pull_blocks, pull_blocks. rewrite retrieve_blocks_valid by (try apply Hi; lia). unfold Chain_len.
    f_equal. case_decide as Hd.
    - change (Z.to_nat 1) with 1. apply take_ge. rewrite length_drop. lia.
    - symmetry. apply drop_ge. lia. }
  unfold client_pull_blocks_local. unfold_stm.
  erewrite call_spec; [|done|simpl; unfold_stm; rewrite Hpull; done|done]. simpl. by eexists.
Qed.

(** What the task makes of a pull that succeeds, and of one that fails. *)
Lemma pulled_replays p (n : Newcomer) (l : BlockchainEventLoop (Task N A) A') s' bs logs :
  node_blockchain n = Some l ->
  init_pull_from_others p (loop_blockchain_service l) = (Ok (Z.of_nat (length bs) - 1)%Z, s') ->
  blocks (chain (bc (svc_chain s'))) = bs -> bc_inv (svc_chain s') -> 0 < length bs ->
  Forall readable_block (drop 1 bs) -> holds (as_transparency_log (node_artifacts n)) logs ->
  exists n' l', pull_block_from_other_nodes p d1 d2 n = (Ok tt, n')
    /\ node_blockchain n' = Some l' /\ loop_blockchain_service l' = s'
    /\ holds (as_transparency_log (node_artifacts n')) (replay logs (drop 1 bs)).
Proof.
  intros Hn Hpull Hbl His Hpos Hread Hh.
  set (l1 := {| loop_artifact_service := loop_artifact_service l; loop_blockchain_service := s';
    loop_replies := loop_replies l ++ [(fresh_sender l, RPullFromPeer (inl (Z.of_nat (length bs) - 1)%Z))] |}).
  assert (client_pull_blocks_from_peer p d1 d2 (Some l) = (Ok (Z.of_nat (length bs) - 1)%Z, Some l1)) as Hcall.
  { unfold client_pull_blocks_from_peer. unfold_stm.
    erewrite call_spec; [|done|simpl; unfold on_service; unfold_stm; rewrite Hpull; done|done].
    done. }
  destruct (pull_local_all l1) as (l2 & Hlocal & Hl2); [done|by simpl; rewrite Hbl|].
  simpl in Hlocal. rewrite Hbl in Hlocal.
  destruct (replay_chain (drop 1 bs)
    {| node_artifacts := node_artifacts n; node_blockchain := Some l2; node_metrics := node_metrics n |} logs Hread Hh)
    as (n' & Hr & Hh' & Hb').
  exists n', l2. split_and!; [|done|by rewrite Hl2|done].
  unfold pull_block_from_other_nodes, on_blockchain. unfold_stm. rewrite Hn, Hcall. simpl. rewrite Hlocal. simpl. by rewrite Hr.
Qed.

Lemma failed_pull_panics p (n : Newcomer) (l : BlockchainEventLoop (Task N A) A') s' e :
  node_blockchain n = Some l ->
  init_pull_from_others p (loop_blockchain_service l) = (Err e, s') ->
  exists n' l', pull_block_from_other_nodes p d1 d2 n = (Err (NodeChain e), n')
    /\ node_blockchain n' = Some l' /\ loop_blockchain_service l' = s' /\ node_artifacts n' = node_artifacts n.
Proof.
  intros Hn Hpull. set (l1 := {| loop_artifact_service := loop_artifact_service l; loop_blockchain_service := s';
    loop_replies := loop_replies l ++ [(fresh_sender l, RPullFromPeer (inr e))] |}).
  assert (client_pull_blocks_from_peer p d1 d2 (Some l) = (Err e, Some l1)) as Hcall.
  { unfold client_pull_blocks_from_peer. unfold_stm.
    erewrite call_spec; [|done|simpl; unfold on_service; unfold_stm; rewrite Hpull; done|done].
    done. }
  eexists _, l1. unfold pull_block_from_other_nodes, on_blockchain. unfold_stm. rewrite Hn, Hcall. done.
Qed.

(** C2. A newcomer that joins ends with the state of the network: starting from a chain that is a prefix of the chain of
    the peer it connects to (an empty one, in particular), and when all blocks of the peer fit into one message of the
    protocol (10 MiB) and those after the first carry records, the task that establishes the connection does not
    panic, the node then has the chain of the peer, in memory and in its directory, and its transparency log has the
    records of all blocks after the first, each once and in the order of the chain, after those it had.  When the
    blocks of the peer are too large for one message the task panics and the node keeps its own chain. *)
Theorem newcomer_synchronizes (args : PyrsiaNodeArgs) (p : PeerId) (n : Newcomer)
    (l : BlockchainEventLoop (Task N A) A') (peer : BlockchainEventLoop N A) logs w' bs :
  arg_init_blockchain args = false ->
  connect_to_p2p_network args (as_p2p_client (node_artifacts n)) = (Ok (Some p), w') ->
  node_blockchain n = Some l -> svc_p2p_client (loop_blockchain_service l) = Some peer ->
  bc_inv (loop_chain peer) -> 0 < length (loop_blocks peer) ->
  (Z.of_nat (length (loop_blocks peer)) < 2 ^ 128)%Z ->
  bc_inv (loop_chain l) -> loop_blocks l `prefix_of` loop_blocks peer ->
  Forall readable_block (drop 1 (loop_blocks peer)) ->
  holds (as_transparency_log (node_artifacts n)) logs -> NoDup (tl_id <$> logs) ->
  serialize (loop_blocks peer) = Some bs ->
  exists n' l',
    node_blockchain n' = Some l' /\ bc_inv (loop_chain l')
    /\ if decide (0 < length bs /\ (Z.of_nat (length bs) <= BLOCKCHAIN_MAX_SIZE_PER_MESSAGE)%Z) then
         establish_connection_with_p2p_network args d1 d2 n = (Ok tt, n')
         /\ loop_blocks l' = loop_blocks peer
         /\ holds (as_transparency_log (node_artifacts n')) (replay logs (drop 1 (loop_blocks peer)))
         /\ NoDup (tl_id <$> replay logs (drop 1 (loop_blocks peer)))
       else
         establish_connection_with_p2p_network args d1 d2 n = (Panic, n')
         /\ loop_chain l' = loop_chain l
         /\ holds (as_transparency_log (node_artifacts n')) logs.
Proof.
  intros Hinit Hconn Hn Hpeer Hip Hpos Hlen Hil Hpre Hread Hh Hnd Hbs.
  set (n1 := {| node_artifacts := snd (on_net (connect_to_p2p_network args) (node_artifacts n));
                node_blockchain := Some l; node_metrics := node_metrics n |} : Newcomer).
  assert (on_p2p (connect_to_p2p_network args) n = (Ok (Some p), n1)) as Hc.
  { unfold on_p2p, on_artifact_service, n1, on_net. unfold_stm. rewrite Hconn. simpl. by rewrite Hn. }
  assert (holds (as_transparency_log (node_artifacts n1)) logs) as Hh1.
  { unfold n1, on_net. unfold_stm. rewrite Hconn. done. }
  destruct (pull_synchronizes d1 d2 peer (loop_blockchain_service l) p bs Hpeer Hip Hpos Hlen Hil Hpre Hbs)
    as (s' & peer' & _ & _ & Hpull). change (peer_net d1 d2) with peer_link in Hpull.
  destruct (decide (0 < length bs /\ _)) as [Hfit|Hfit].
  - rewrite (proj1 (passes_iff bs) Hfit) in Hpull. destruct Hpull as (Hpull & Hbl & His).
    destruct (pulled_replays p n1 l s' (loop_blocks peer) logs) as (n' & l' & Hrun & Hn' & Hl' & Hh'); [done..|].
    exists n', l'. rewrite Hl'. split_and!; [done|done| |done|done|by apply replay_ids].
    unfold establish_connection_with_p2p_network. unfold_stm. by rewrite Hc, Hinit, Hrun.
  - rewrite passes_iff, not_true_iff_false in Hfit. rewrite Hfit in Hpull. destruct Hpull as (Hpull & Hsame).
    destruct (failed_pull_panics p n1 l s' (AnyhowError "outbound failure")) as (n' & l' & Hrun & Hn' & Hl' & Ha); [done..|].
    subst s'. exists n', l'. split_and!; [done|exact (eq_ind_r bc_inv Hil Hsame)| |exact Hsame|by rewrite Ha].
    unfold establish_connection_with_p2p_network. unfold_stm. by rewrite Hc, Hinit, Hrun.
Qed.
End Joining.

(** ** Answering peers *)
#[local] Arguments get_quality_metric : simpl never.

(** A channel to the network event loop that takes every command, with the commands it has taken. *)
Class ToldChannel `{Libp2p} (W : Type) `{!CommandChannel W} := {
  told : W -> list Command;
  tell_told c w : exists w', tell c w = (Ok tt, w') /\ told w' = told w ++ [c];
}.

Section Answering.
Context `{Libp2p} `{Sqlite} `{!LogJson} `{!Sha256} `{!BlockBincode} `{!Sysinfo}.
Context {B : Type} `{!BlockAdder B} {W : Type} `{!CommandChannel W} `{!ToldChannel W} {C : Type} `{!BuildClient C}.
Context {N : Type} `{!BlockchainNet N} {A : Type} `{!BlockAddedHandler A}.

Abbreviation ThisNode := (Node (B := B) (W := W) (C := C) (N := N) (A := A)).

Definition told_by (n : ThisNode) : list Command := told (as_p2p_client (node_artifacts n)).

(** A response of the right kind on the channel of the request. *)
Definition answers (e : PyrsiaEvent) (c : Command) : Prop :=
  match e, c with
  | EvRequestArtifact _ ch, RespondArtifact _ ch'
  | EvRequestBuild _ _ ch, RespondBuild _ ch'
  | EvIdleMetricRequest ch, RespondIdleMetric _ ch'
  | EvBlockchainRequest _ (Some ch), RespondBlockchain _ ch'
  | EvRequestBuildStatus _ ch, RespondBuildStatus _ ch' => ch = ch'
  | _, _ => False
  end.

(** The responses that an event is due: the artifact that is stored, the id of the build that was started, the
    metric, the answer of the blockchain, the status; none when the service fails. *)
Definition due (e : PyrsiaEvent) (d1 d2 : draw) (n : ThisNode) : list Command :=
  match e with
  | EvRequestArtifact id ch =>
      match fst (get_artifact_locally id (node_artifacts n)) with Ok content => [RespondArtifact content ch] | _ => [] end
  | EvRequestBuild t p ch =>
      match fst (be_start_build t p (as_build_event_client (node_artifacts n))) with
      | Ok id => [RespondBuild id ch] | _ => [] end
  | EvVerifyBuild _ _ _ => []
  | EvIdleMetricRequest ch => [RespondIdleMetric (f64_to_le_bytes (fst (get_quality_metric (node_metrics n)))) ch]
  | EvBlockchainRequest data ch =>
      match fst (handle_incoming_blockchain_command data d1 d2 (node_blockchain n)), ch with
      | Ok response, Some ch => [RespondBlockchain response ch]
      | _, _ => []
      end
  | EvRequestBuildStatus id ch =>
      match fst (be_get_build_status id (as_build_event_client (node_artifacts n))) with
      | Ok status => [RespondBuildStatus status ch] | _ => [] end
  end.

Lemma due_answers e d1 d2 n : due e d1 d2 n = [] \/ exists c, due e d1 d2 n = [c] /\ answers e c.
Proof.
  destruct e; simpl; repeat case_match; first [by left | right; by eexists].
Qed.

(** One response on the network client of the artifact service. *)
Lemma respond_told c (s : ArtifactService (B := B) (W := W) (C := C)) :
  exists s', on_net (tell c) s = (Ok tt, s') /\ told (as_p2p_client s') = told (as_p2p_client s) ++ [c].
Proof.
  unfold on_net, szoom. destruct (tell_told c (as_p2p_client s)) as (w' & -> & Hw). by eexists.
Qed.

(** A handler that asks a service of the node and responds. *)
Lemma respond_after {X E : Type} (c : stm (ArtifactService (B := B) (W := W) (C := C)) E X) (f : E -> NodeError)
    (g : net_error -> NodeError) (cmd : X -> Command) (n : ThisNode) n' :
  frames as_p2p_client c ->
  logged (E := NodeError) (on_artifact_service (let! x := smap_err f c in smap_err g (on_net (tell (cmd x))))) n
    = (Ok tt, n') ->
  told_by n' = told_by n ++ match fst (c (node_artifacts n)) with Ok x => [cmd x] | _ => [] end.
Proof.
  intros Hf. unfold logged, on_artifact_service, told_by. unfold_stm. specialize (Hf (node_artifacts n)).
  destruct (c (node_artifacts n)) as [[x|e|] s1]; simpl in *.
  - destruct (respond_told (cmd x) s1) as (s' & -> & Ht). intros [= <-]. simpl. by rewrite Ht, Hf.
  - intros [= <-]. simpl. by rewrite Hf, app_nil_r.
  - done.
Qed.

Lemma on_builds_frames {E X} (c : stm C E X) :
  frames (as_p2p_client (B := B) (W := W) (C := C)) (on_builds c).
Proof. by apply frames_zoom. Qed.

Lemma on_builds_fst {E X} (c : stm C E X) (s : ArtifactService (B := B) (W := W) (C := C)) :
  fst (on_builds c s) = fst (c (as_build_event_client s)).
Proof. unfold on_builds, szoom. by destruct (c (as_build_event_client s)). Qed.

Lemma get_locally_frames id :
  frames (as_p2p_client (B := B) (W := W) (C := C)) (get_artifact_locally id).
Proof.
  unfold get_artifact_locally. apply frames_bind; [apply frames_get|]. intros s. apply frames_map_err.
  by apply frames_zoom.
Qed.

(** Handling an event that does not panic tells the network what is due. *)
Lemma handle_p2p_told e d1 d2 (n n' : ThisNode) :
  handle_p2p_event e d1 d2 n = (Ok tt, n') -> told_by n' = told_by n ++ due e d1 d2 n.
Proof.
  intros Hh. destruct e as [id ch|t p ch|peer t p|ch|data ch|id ch]; simpl in Hh |- *.
  - by eapply (respond_after (get_artifact_locally id)); [apply get_locally_frames|].
  - apply (respond_after (on_builds (be_start_build t p))) in Hh; [|apply on_builds_frames].
    by rewrite on_builds_fst in Hh.
  - revert Hh. unfold logged, on_artifact_service, handle_verify_build, on_builds, told_by. unfold_stm.
    destruct (be_verify_build peer t p _) as [[x|x|] s1]; intros [= <-]; simpl; by rewrite app_nil_r.
  - revert Hh. unfold logged, handle_request_idle_metric. unfold_stm.
    destruct (get_quality_metric (node_metrics n)) as [qm m] eqn:Eq. apply (f_equal fst) in Eq. simpl in Eq |- *. unfold on_p2p, on_artifact_service. unfold_stm.
    destruct (respond_told (RespondIdleMetric (f64_to_le_bytes qm) ch) (node_artifacts n)) as (s' & Hs & Ht).
    simpl. unfold respond_idle_metric. rewrite Hs. intros [= <-]. unfold told_by. simpl. by rewrite Ht, <- Eq.
  - revert Hh. unfold on_blockchain. unfold_stm.
    destruct (handle_incoming_blockchain_command data d1 d2 (node_blockchain n)) as [[r|x|] t'];
      [|by intros [= <-]; unfold told_by; simpl; rewrite app_nil_r|done].
    destruct ch as [ch|]; [|by intros [= <-]; unfold told_by; simpl; rewrite app_nil_r].
    unfold logged, on_p2p, on_artifact_service, respond_blockchain. unfold_stm. simpl.
    destruct (respond_told (RespondBlockchain r ch) (node_artifacts n)) as (s' & Hs & Ht).
    rewrite Hs. intros [= <-]. unfold told_by. simpl. by rewrite Ht.
  - apply (respond_after (on_builds (be_get_build_status id))) in Hh; [|apply on_builds_frames].
    by rewrite on_builds_fst in Hh.
Qed.

(** A response that is due is given. *)
Lemma due_handled e d1 d2 (n : ThisNode) c :
  due e d1 d2 n = [c] -> exists n', handle_p2p_event e d1 d2 n = (Ok tt, n').
Proof.
  destruct e as [id ch|t p ch|peer t p|ch|data ch|id ch]; cbn [handle_p2p_event due]; intros Hd; try done.
  - unfold logged, handle_request_artifact, on_artifact_service. unfold_stm.
    destruct (get_artifact_locally id (node_artifacts n)) as [[x|x|] s1]; [|done..]. simpl.
    unfold respond_artifact. destruct (respond_told (RespondArtifact x ch) s1) as (s' & -> & _). by eexists.
  - unfold logged, handle_request_build, on_artifact_service. unfold_stm. rewrite <- on_builds_fst in Hd.
    destruct (on_builds (be_start_build t p) (node_artifacts n)) as [[x|x|] s1]; [|done..]. simpl.
    unfold respond_build. destruct (respond_told (RespondBuild x ch) s1) as (s' & -> & _). by eexists.
  - unfold logged, handle_request_idle_metric, on_p2p, on_artifact_service, respond_idle_metric. unfold_stm.
    destruct (get_quality_metric (node_metrics n)) as [qm m]. simpl.
    destruct (respond_told (RespondIdleMetric (f64_to_le_bytes qm) ch) (node_artifacts n)) as (s' & -> & _). by eexists.
  - unfold logged, on_blockchain, on_p2p, on_artifact_service, respond_blockchain. unfold_stm.
    destruct (handle_incoming_blockchain_command data d1 d2 (node_blockchain n)) as [[r|x|] t'];
      [|done..]. destruct ch as [ch|]; [|done]. simpl.
    destruct (respond_told (RespondBlockchain r ch) (node_artifacts n)) as (s' & -> & _). by eexists.
  - unfold logged, handle_request_build_status, on_artifact_service. unfold_stm. rewrite <- on_builds_fst in Hd.
    destruct (on_builds (be_get_build_status id) (node_artifacts n)) as [[x|x|] s1]; [|done..]. simpl.
    unfold respond_build_status. destruct (respond_told (RespondBuildStatus x ch) s1) as (s' & -> & _). by eexists.
Qed.

(** C18. A node answers a request of a peer with what its services have and with nothing else: handling an event of the
    network that does not panic sends exactly the response that is due, on the channel of the request, and
    at most one; when the service that is asked fails nothing is sent. *)
Theorem p2p_requests_answered (e : PyrsiaEvent) (d1 d2 : draw) (n n' : ThisNode) :
  handle_p2p_event e d1 d2 n = (Ok tt, n') ->
  told_by n' = told_by n ++ due e d1 d2 n
  /\ (due e d1 d2 n = [] \/ exists c, due e d1 d2 n = [c] /\ answers e c).
Proof. intros Hh. split; [by apply handle_p2p_told|apply due_answers]. Qed.

(** A message of the blockchain that the handler does not survive. *)
Definition fatal_message (data : bytes) : Prop :=
  match data with
  | [] => True
  | b :: _ => b = command_as_u8 PushToPeer
              \/ (b = command_as_u8 Broadcast \/ b = command_as_u8 PullFromPeer) /\ length data < 17
  end.

(** C40. A peer can stop a node with one message: a blockchain message with the command to push blocks, which is not
    implemented, or a broadcast or pull with fewer than 17 bytes makes the loop over the events of the
    network panic in every state of the node, so that the requests that follow are not answered. *)
Theorem peer_stops_node (data : bytes) (ch : option channel) (d1 d2 : draw) (n : ThisNode)
    (rest : list (PyrsiaEvent * draw * draw)) :
  fatal_message data ->
  exists n', listen_for_events ((EvBlockchainRequest data ch, d1, d2) :: rest) n = (Panic, n')
    /\ told_by n' = told_by n.
Proof.
  intros Hf. cbn [listen_for_events sfor handle_p2p_event]. unfold on_blockchain. unfold_stm.
  assert (handle_incoming_blockchain_command data d1 d2 (node_blockchain n) = (Panic, node_blockchain n)) as ->.
  { unfold handle_incoming_blockchain_command, slice. unfold_stm. destruct data as [|b data]; [done|].
    destruct Hf as [->|[[->| ->] Hlen]]; simpl; [done|..]; by rewrite decide_False by (simpl in Hlen; lia). }
  by eexists.
Qed.
End Answering.

(** ** p2p.rs, [setup_libp2p_swarm] *)
Section Swarming.
Context `{Libp2p} `{!SwarmBuild} `{!KeypairCodec}.

(** The peer id of the client, the key pair and the loop; [generated] is the key pair that is used when the key file has
    none. *)
Definition setup_libp2p_swarm (env : Env) (generated : Keypair) (max_provided_keys : Z) :
    stm Fs string (PeerId * Keypair * EventLoop) :=
  let! file := KEYPAIR_FILENAME env in
  let! local_keypair := load_or_generate_ed25519 file generated in
  let! created := slift (create_swarm local_keypair max_provided_keys) in
  let '(swarm, local_peer_id) := created in
  let '(initialized, pyrsia_event_loop) :=
    EventLoop.initialize (EventLoop_new swarm (read_var env "PYRSIA_EXTERNAL_IP" "")) in
  let! _ := slift initialized in
  sret (local_peer_id, local_keypair, pyrsia_event_loop).

(** The key pair of the blockchain, as [setup_pyrsia_services] gets it. *)
Definition blockchain_keypair {E} (env : Env) (generated : Keypair) : stm Fs E Keypair :=
  let! file := KEYPAIR_FILENAME env in
  load_or_generate_ed25519 file generated.

Context `{!KeypairCodecOk}.

(** C20. A node has one identity and keeps it: setting up the swarm on a disk without faults takes the key pair of the key
    file, or a generated one that is then in the file; the node has the peer id of that key pair, the blockchain
    uses the same key pair although it is loaded again, and the next start finds it too and changes nothing. *)
Theorem identity_stable {E : Type} (env : Env) (dir : string) (g1 g2 : Keypair) (keys : Z) (s : Fs) :
  let file := read_var env "PYRSIA_KEYPAIR" "pyrsia/p2p_keypair.ser" in
  let kp := default g1 (stored_keypair file s) in
  fs_reliable s -> can_hold file dir s ->
  (exists swarm peer, create_swarm kp keys = Ok (swarm, peer)
    /\ fst (EventLoop.initialize (EventLoop_new swarm (read_var env "PYRSIA_EXTERNAL_IP" ""))) = Ok tt) ->
  exists loop s1,
    setup_libp2p_swarm env g1 keys s = (Ok (peer_id_from_public_key (public kp), kp, loop), s1)
    /\ blockchain_keypair (E := E) env g2 s1 = (Ok kp, s1)
    /\ setup_libp2p_swarm env g2 keys s1 = (Ok (peer_id_from_public_key (public kp), kp, loop), s1).
Proof.
  intros file kp Hr Hc (swarm & peer & Hsw & Hin). pose proof (create_swarm_Ok _ _ _ _ Hsw) as [-> _].
  destruct (KEYPAIR_FILENAME_spec (E := string) env dir s Hr Hc) as (s0 & Hf0 & Hr0 & Hc0 & Hd0 & _ & Hk0).
  destruct (load_or_generate_spec (E := string) file dir g1 s0 Hr0 Hc0) as (s1 & Hl1 & Hr1 & Hk1 & _ & Hd1).
  fold file in Hk0. rewrite Hk0 in Hl1, Hk1. fold kp in Hl1, Hk1.
  assert (can_hold file dir s1) as Hc1 by (destruct Hc0 as (? & ? & _); by apply (can_hold_file _ _ _ kp); auto).
  assert (forall F : Type, blockchain_keypair (E := F) env g2 s1 = (Ok kp, s1)) as Hagain.
  { intros F. unfold blockchain_keypair. unfold_stm.
    destruct (KEYPAIR_FILENAME_spec (E := F) env dir s1 Hr1 Hc1) as (s2 & -> & Hr2 & Hc2 & _ & Hs2 & _).
    rewrite Hs2 by auto. fold file.
    destruct (load_or_generate_spec (E := F) file dir g2 s1 Hr1 Hc1) as (s3 & -> & _ & _ & Hs3 & _).
    rewrite Hk1. by rewrite Hs3 by (by rewrite Hk1). }
  assert (forall g s2 s3, blockchain_keypair (E := string) env g s2 = (Ok kp, s3) ->
    setup_libp2p_swarm env g keys s2 = (Ok (peer_id_from_public_key (public kp), kp,
      snd (EventLoop.initialize (EventLoop_new swarm (read_var env "PYRSIA_EXTERNAL_IP" "")))), s3)) as Hset.
  { intros g s2 s3. unfold blockchain_keypair, setup_libp2p_swarm. unfold_stm.
    destruct (KEYPAIR_FILENAME env s2) as [[f|e|] s2']; [|done..]. intros Hl. rewrite Hl. rewrite Hsw. simpl.
    destruct (EventLoop.initialize _) as [o l]. simpl in Hin. by subst o. }
  eexists _, s1. split_and!; [apply Hset|apply Hagain|by apply Hset].
  unfold blockchain_keypair. unfold_stm. by rewrite Hf0.
Qed.
End Swarming.

(** ** main.rs, [setup_pyrsia_services] *)
Section Setup.
Context `{Libp2p} `{!Multiaddrs} `{Sqlite} `{!LogJson} `{!BuildJson} `{!Sha256} `{!BlockBincode} `{!KeypairCodec}.
Context {B : Type} `{!BlockAdder B} {W : Type} `{!CommandChannel W} {C : Type} `{!BuildClient C}.
Context {Web : Type} `{!Http Web}.

Abbreviation Artifacts := (ArtifactService (B := B) (W := W) (C := C)).
Abbreviation Builds := (BuildService (N := Web) (B := B) (W := W)).

Definition setup_artifact_service (artifact_path : string) (log : TransparencyLogService B) (builds : C)
    (p2p_client : W) (local_peer_id : PeerId) : stm Fs NodeError Artifacts :=
  smap_err NodeMsg (ArtifactService_new artifact_path log builds p2p_client local_peer_id).

Definition setup_build_service (artifact_path : string) (p2p_client : W) (log : TransparencyLogService B)
    (args : PyrsiaNodeArgs) (web : Web) : stm Fs NodeError Builds :=
  smap_err NodeIo (BuildService_new artifact_path p2p_client log
    (arg_mapping_service_endpoint args) (arg_pipeline_service_endpoint args) web).

(** The clients of the two event loops, the database and the HTTP client are created with the services; [generated]
    is the key pair that is used when the key file has none. *)
Definition setup_pyrsia_services (env : Env) (args : PyrsiaNodeArgs) (p2p_client : W)
    (local_keypair generated : Keypair) (local_peer_id : PeerId) (db : Db) (blockchain : B) (builds : C) (web : Web)
    (d_tx d_block : draw) :
    stm Fs NodeError (BlockchainEventLoop W Artifacts * BuildEventLoop (N := Web) (B := B) (W := W) (C := C) * Artifacts) :=
  let! artifact_path := ARTIFACTS_DIR env in
  let pyrsia_blockchain_path := read_var env "PYRSIA_BLOCKCHAIN_PATH" "pyrsia/blockchain" in
  let! blockchain_service :=
    smap_err NodeChain
      (if arg_init_blockchain args then
         let! blockchain_ed25519_keypair := blockchain_keypair env generated in
         init_first_blockchain_node local_keypair blockchain_ed25519_keypair p2p_client pyrsia_blockchain_path d_tx d_block
       else init_other_blockchain_node local_keypair p2p_client pyrsia_blockchain_path) in
  let! log := smap_err NodeLog (TransparencyLogService_new artifact_path db blockchain) in
  let! artifact_service := setup_artifact_service artifact_path log builds p2p_client local_peer_id in
  let! build_service := setup_build_service artifact_path p2p_client log args web in
  let verification_service := VerificationService_new builds in
  sret ({| loop_artifact_service := artifact_service; loop_blockchain_service := blockchain_service;
           loop_replies := [] |},
        {| bl_artifact_service := artifact_service; bl_build_service := build_service;
           bl_verification_service := verification_service; bl_answers := [] |},
        artifact_service).
End Setup.

(** ** A concrete network

    Addresses of peers are [/p2p/] and the peer; the channel takes every command and records it. *)
#[export] Instance sample_multiaddrs : Multiaddrs :=
  let last (a : string) := if String.prefix "/p2p/" a
    then Some (P2p (H := sample_crypto) (as_bytes (String.substring 5 (String.length a - 5) a))) else None in
  {| multiaddr_last := last;
     peer_id_from_multihash := fun hash : Multihash => Some (String.string_of_list_byte hash);
     peer_id_try_from_multiaddr := fun a =>
       match last a with Some (P2p hash) => Some (String.string_of_list_byte hash) | _ => None end;
     parse_multiaddr := Some |}.

#[export] Instance sample_multiaddrs_ok : MultiaddrsOk.
Proof. done. Qed.

#[export] Instance sample_bootstrap : Bootstrap := {|
  send_get := fun url => if bool_decide (url = DEFAULT_BOOTSTRAP_URL) then inl (inl "page") else inr "not found";
  parse_status_page := fun text => if bool_decide (text = "page") then Some (JsonArray ["/p2p/boot"]) else None |}.

#[export] Instance recording_channel : CommandChannel (list Command) := {|
  ask := fun c =>
    let! _ := smodify (fun w => w ++ [c 0]) in
    match c 0 with
    | Listen _ _ | AddProbe _ _ _ | Dial _ _ _ | BootstrapDht _ => sret (AUnit (inl tt))
    | _ => serr RecvError
    end;
  tell := fun c => smodify (fun w => w ++ [c]) |}.

#[export] Instance recording_channel_told : ToldChannel (list Command).
Proof. refine {| told := fun w => w |}. intros c w. by eexists. Defined.

Definition sample_args : PyrsiaNodeArgs := {|
  arg_host := DEFAULT_HOST; arg_listen_address := DEFAULT_LISTEN_ADDRESS; arg_port := DEFAULT_PORT;
  arg_peer := None; arg_init_blockchain := false; arg_probe := None; arg_listen_only := false;
  arg_bootstrap_url := DEFAULT_BOOTSTRAP_URL; arg_max_provided_keys := 32768;
  arg_mapping_service_endpoint := DEFAULT_MAPPING_SERVICE_ENDPOINT;
  arg_pipeline_service_endpoint := DEFAULT_PIPELINE_SERVICE_ENDPOINT |}.

Example sample_http_address : @setup_http _ _ Empty_set sample_args = Ok ("127.0.0.1", 7888%Z).
Proof. vm_compute. reflexivity. Qed.

Definition sample_node (logs : list TransparencyLog) :
    ArtifactService (B := list bytes) (W := list Command) (C := unit) := {|
  as_storage := sample_storage;
  as_disk := {| fs_nodes := {[ "repo/artifacts/x1.file" := NFile (as_bytes "data") ]}; fs_fault := fun _ _ => None |};
  as_build_event_client := tt; as_transparency_log := sample_service logs;
  as_p2p_client := []; as_local_peer_id := sample_authorized; as_spawned := [] |}.

(** A peer whose second block has the record [data_log]. *)
Definition sample_chain : BcState := sample_add (default "" (log_to_json data_log)) sample_boot.

Lemma sample_chain_inv : bc_inv sample_chain.
Proof.
  eapply (node_steps_progress bc_inv next_block bc_inv_stored next_commit 1 sample_boot);
    [|vm_compute; lia|vm_compute; discriminate|].
  - apply booted_inv; [apply sample_fresh|apply sample_draw_ok..].
  - apply nsteps_once, sample_add_step.
Qed.

Lemma sample_chain_payloads :
  fetch_payload <$> drop 1 (blocks (chain (bc sample_chain))) = [[as_bytes (default "" (log_to_json data_log))]].
Proof. vm_compute. reflexivity. Qed.

Lemma sample_chain_replayed : replay [] (drop 1 (blocks (chain (bc sample_chain)))) = [data_log].
Proof. vm_compute. reflexivity. Qed.

Lemma sample_chain_readable : Forall readable_block (drop 1 (blocks (chain (bc sample_chain)))).
Proof.
  pose proof sample_chain_payloads as Hp.
  destruct (drop 1 (blocks (chain (bc sample_chain)))) as [|b [|]]; [done| |done].
  injection Hp as Hp. repeat constructor. unfold readable_block. rewrite Hp. exists data_log.
  split; [vm_compute; reflexivity|]. split; [|done].
  repeat split; unfold fits; simpl; lia.
Qed.

Definition sample_boot_node : BlockchainEventLoop unit unit := {|
  loop_artifact_service := tt;
  loop_blockchain_service := {| svc_chain := sample_chain; svc_keypair := sample_kp; svc_p2p_client := tt |};
  loop_replies := [] |}.

#[local] Instance sample_link : BlockchainNet (Task unit unit) := peer_net sample_draw sample_draw.

Definition sample_new_loop : BlockchainEventLoop (Task unit unit) unit := {|
  loop_artifact_service := tt;
  loop_blockchain_service := {| svc_chain := svc_chain sample_newcomer; svc_keypair := svc_keypair sample_newcomer;
                                svc_p2p_client := Some sample_boot_node |};
  loop_replies := [] |}.

Definition sample_new_node : Node (B := list bytes) (W := list Command) (C := unit) (N := Task unit unit) (A := unit) := {|
  node_artifacts := sample_node []; node_blockchain := Some sample_new_loop; node_metrics := PeerMetrics_new |}.

Lemma sample_empty_holds : holds (sample_service []) [].
Proof. split; simpl; [|done..]. apply (bool_decide_unpack _). vm_compute. done. Qed.

Lemma newcomer_synchronizes_witness :
  exists n' l',
    establish_connection_with_p2p_network sample_args sample_draw sample_draw sample_new_node = (Ok tt, n')
    /\ node_blockchain n' = Some l'
    /\ blocks (chain (bc (svc_chain (loop_blockchain_service l')))) = blocks (chain (bc sample_chain))
    /\ holds (as_transparency_log (node_artifacts n')) [data_log].
Proof.
  destruct (newcomer_synchronizes sample_draw sample_draw sample_args ("boot" : @PeerId sample_crypto) sample_new_node sample_new_loop
    sample_boot_node [] (snd (connect_to_p2p_network sample_args ([] : list Command)))
    (default [] (serialize (blocks (chain (bc sample_chain))))))
    as (n' & l' & Hb & _ & Hjoin).
  - reflexivity.
  - vm_compute. reflexivity.
  - reflexivity.
  - reflexivity.
  - apply sample_chain_inv.
  - vm_compute. lia.
  - vm_compute. reflexivity.
  - apply sample_newcomer_inv.
  - apply prefix_nil.
  - apply sample_chain_readable.
  - apply sample_empty_holds.
  - constructor.
  - vm_compute. reflexivity.
  - rewrite decide_True in Hjoin by (split; [vm_compute; lia|vm_compute; discriminate]).
    destruct Hjoin as (He & Hbl & Hh & _). exists n', l'. split; [exact He|]. split; [exact Hb|]. split; [exact Hbl|].
    rewrite <- sample_chain_replayed. exact Hh.
Defined.

Lemma p2p_requests_answered_witness :
  exists n',
    handle_p2p_event (EvRequestArtifact "x1" 4) sample_draw sample_draw sample_new_node = (Ok tt, n')
    /\ told_by n' = [RespondArtifact (as_bytes "data") 4].
Proof.
  destruct (handle_p2p_event (EvRequestArtifact "x1" 4) sample_draw sample_draw sample_new_node) as [o n'] eqn:He.
  assert (o = Ok tt) as Ho.
  { change o with (fst (o, n')). rewrite <- He. vm_compute. reflexivity. }
  subst o. exists n'. split; [reflexivity|].
  destruct (p2p_requests_answered (EvRequestArtifact "x1" 4) sample_draw sample_draw sample_new_node n' He) as [Ht _].
  rewrite Ht. vm_compute. reflexivity.
Defined.

Lemma peer_stops_node_witness :
  exists n',
    listen_for_events [(EvBlockchainRequest [command_as_u8 PushToPeer] (Some 3), sample_draw, sample_draw);
                       (EvRequestArtifact "x1" 4, sample_draw, sample_draw)] sample_new_node = (Panic, n')
    /\ told_by n' = [].
Proof.
  destruct (peer_stops_node [command_as_u8 PushToPeer] (Some 3) sample_draw sample_draw sample_new_node
    [(EvRequestArtifact "x1" 4, sample_draw, sample_draw)]) as (n' & Hl & Ht).
  - by left.
  - exists n'. split; [exact Hl|]. rewrite Ht. reflexivity.
Defined.

(** The first node of a network, in an empty directory: it starts with the genesis block of its chain, keeps
    its key and has the directories of its services. *)
Definition sample_first_args : PyrsiaNodeArgs := {|
  arg_host := DEFAULT_HOST; arg_listen_address := DEFAULT_LISTEN_ADDRESS; arg_port := DEFAULT_PORT;
  arg_peer := None; arg_init_blockchain := true; arg_probe := None; arg_listen_only := true;
  arg_bootstrap_url := DEFAULT_BOOTSTRAP_URL; arg_max_provided_keys := 32768;
  arg_mapping_service_endpoint := DEFAULT_MAPPING_SERVICE_ENDPOINT;
  arg_pipeline_service_endpoint := DEFAULT_PIPELINE_SERVICE_ENDPOINT |}.

Definition sample_setup :=
  setup_pyrsia_services ∅ sample_first_args ([] : list Command) sample_kp sample_kp2 ("boot" : @PeerId sample_crypto)
    [] ([] : list bytes) tt ([] : list HttpResponse) sample_draw sample_draw sample_fs.

Example first_node_sets_up :
  match sample_setup with
  | (Ok (bl, _, artifacts), s) =>
      length (blocks (chain (bc (svc_chain (loop_blockchain_service bl))))) = 1
      /\ repository_path (as_storage artifacts) = "pyrsia"
      /\ dom (fs_nodes s) = {[ "pyrsia"; "pyrsia/p2p_keypair.ser"; "pyrsia/blockchain"; "pyrsia/blockchain/0.ser" ]}
  | _ => False
  end.
Proof. vm_compute. repeat split. Qed.

#[local] Instance sample_swarm_build : SwarmBuild := {|
  NoiseKeys := unit; into_authentic := fun _ => Some tt; dns_system := Ok tt; gossipsub_config_build := fun _ => Ok tt;
  gossipsub_new := fun _ _ => Ok tt; swarm_builder := fun _ _ _ => sample_swarm |}.

Lemma identity_stable_witness :
  exists loop s1,
    setup_libp2p_swarm ∅ sample_kp1 32768 sample_key_fs = (Ok (peer_id_from_public_key sample_kp1, sample_kp1, loop), s1)
    /\ blockchain_keypair (E := unit) ∅ sample_kp2 s1 = (Ok sample_kp1, s1)
    /\ setup_libp2p_swarm ∅ sample_kp2 32768 s1 = (Ok (peer_id_from_public_key sample_kp1, sample_kp1, loop), s1).
Proof.
  assert (stored_keypair (read_var ∅ "PYRSIA_KEYPAIR" "pyrsia/p2p_keypair.ser") sample_key_fs = None) as Hk
    by (vm_compute; reflexivity).
  pose proof (identity_stable (E := unit) ∅ "pyrsia" sample_kp1 sample_kp2 32768 sample_key_fs) as Hi.
  cbv zeta in Hi. rewrite Hk in Hi. apply Hi.
  - done.
  - split_and!; [reflexivity|done|by vm_compute|right; by vm_compute].
  - eexists sample_swarm, _. split; [reflexivity|done].
Defined.
