(* ===== verification/Exchange.v ===== *)
(** * Exchange: a request from one node to another, over the bytes of its protocol

    Composes the network event loops of two nodes (EventLoop), the codecs of the
    request-response protocols (Protocols) and the handlers of the node that is asked (Node).  libp2p's
    request-response behaviour connects them as it documents: it runs the codec that writes a
    message on a stream, the codec of the other side on the bytes that arrive, and reports
    the message that was read. *)

From S2P Require Import Prelude Crypto Structures Sample FileSystem Chain Blockchain BlockchainService BlockchainEvents Sql SqlSample Model Text TransparencyLog EventLoop Client Build Artifact Verification BuildEvents Protocols Metrics Util Node.


Section Delivery.
Context `{SocketIo} `{!Bincode BuildStatus}.








Context `{!SocketIoOk} `{!BincodeOk BuildStatus (fun _ => True)}.
Context (cut : bytes -> list bytes) (Hcut : forall bs, concat (cut bs) = bs).


End Delivery.

(** ** Messages, commands and events *)
Section Messages.
Context `{Libp2p}.









Context `{!Bincode VerifyBuildData}.





End Messages.

(** ** Two nodes *)
Section Exchange.
Context `{Libp2p} `{Sqlite} `{!LogJson} `{!Sha256} `{!BlockBincode} `{!Sysinfo}.
Context `{!SocketIo} `{!Bincode BuildStatus} `{!Bincode VerifyBuildData}.
Context {B : Type} `{!BlockAdder B} {W : Type} `{!CommandChannel W} `{!ToldChannel W} {C : Type} `{!BuildClient C}.
Context {N : Type} `{!BlockchainNet N} {A : Type} `{!BlockAddedHandler A}.

Abbreviation ThisNode := (Node (B := B) (W := W) (C := C) (N := N) (A := A)).







Context `{!SocketIoOk} `{!BincodeOk BuildStatus (fun _ => True)}.

End Exchange.

(** ** An exchange

    A node fetches the artifact [x1] from [sample_new_node]; every byte arrives alone. *)
#[local] Existing Instance leb_socket_io.
#[local] Existing Instance leb_socket_io_ok.



#[local] Instance sample_exchange_link : BlockchainNet (Task unit unit) := peer_net sample_draw sample_draw.


