(* ===== verification/Tasks.v ===== *)
(** * Tasks: the loops of a node and their channels

    pyrsia_node/src/main.rs starts four loops, each the only receiver of a channel of 32 messages: the network
    event loop, the main loop over the events of the network, the blockchain event loop and the build event
    loop.  Their clients, which are HTTP handlers, polling tasks, the task that joins the network and the loops
    themselves, put messages into the channels, waiting while a channel is full, and wait for the
    answer on a oneshot channel.  This file is a step relation on these waits, over the messages of the other files: when
    a node is quiet although requests are waiting, which are the cycles of full channels, and which
    waits always end.  What a handler computes is left to the other files; here it is the
    sequence of its uses of channels, and a handler that panics is not considered. *)

From S2P Require Import Prelude Crypto Structures Sample Model EventLoop BlockchainService BlockchainEvents Build.
From stdpp Require Import relations functions.

(** ** Channels *)
Inductive queue := QCommand | QEvent | QBlockchain | QBuild.
#[export] Instance queue_eq_dec : EqDecision queue.
Proof. solve_decision. Defined.

(** [mpsc::channel(32)], in p2p.rs and main.rs. *)
Definition CHANNEL_CAPACITY : nat := 32.

Section Tasks.
Context `{Libp2p}.

Inductive Message :=
| MCommand (c : Command)
| MEvent (e : PyrsiaEvent)
| MBlockchain (e : BlockchainEvent)
| MBuild (e : BuildEvent).

Definition queue_of (m : Message) : queue :=
  match m with
  | MCommand _ => QCommand | MEvent _ => QEvent | MBlockchain _ => QBlockchain | MBuild _ => QBuild
  end.

(** The oneshot sender in a message. *)
Definition command_sender (c : Command) : option sender :=
  match c with
  | AddProbe _ _ s | BroadcastBlock _ s | BootstrapDht s | Listen _ s | Dial _ _ s | ListPeers s | CmdStatus s
  | Provide _ s | ListProviders _ s | RequestBuild _ _ _ s | VerifyBuild _ _ s | RequestArtifact _ _ s
  | RequestIdleMetric _ s | RequestBlockchain _ _ s | RequestBuildStatus _ _ s => Some s
  | RespondBuild _ _ | RespondArtifact _ _ | RespondIdleMetric _ _ | RespondBlockchain _ _ | RespondBuildStatus _ _ => None
  end.

Definition sender_of (m : Message) : option sender :=
  match m with
  | MCommand c => command_sender c
  | MEvent _ => None
  | MBlockchain e => Some (event_sender e)
  | MBuild (EvStart _ _ s _) | MBuild (EvStatus _ s) => Some s
  | MBuild _ => None
  end.

(** ** What a task does with channels

    [Call] creates a oneshot channel, puts the message with its sender and then waits for the answer; a sender that is
    dropped wakes the receiver as well, so that it counts as an answer.  [Poll] spawns the task that polls a build and
    puts the message at its end. *)
Inductive op :=
| Call (q : queue) (mk : sender -> Message)
| Put (m : Message)
| Wait (q : queue) (s : sender)
| Reply (s : sender)
| Pend (s : sender)
| Poll (m : Message).

Abbreviation script := (list op).

(** network/event_loop.rs, [handle_command]: the command is answered, or its sender is kept until an event of the swarm. *)
Definition network_handles (c : Command) (k : script) : Prop :=
  match c with
  | Listen _ s | ListPeers s | CmdStatus s | BroadcastBlock _ s | VerifyBuild _ _ s => k = [Reply s]
  | AddProbe _ _ s | Dial _ _ s | BootstrapDht s | Provide _ s => k = [Reply s] \/ k = [Pend s]
  | ListProviders _ s | RequestBuild _ _ _ s | RequestArtifact _ _ s | RequestIdleMetric _ s
  | RequestBlockchain _ _ s | RequestBuildStatus _ _ s => k = [Pend s]
  | RespondBuild _ _ | RespondArtifact _ _ | RespondIdleMetric _ _ | RespondBlockchain _ _ | RespondBuildStatus _ _ => k = []
  end.

(** pyrsia_node/src/main.rs and network/handlers.rs: a service is asked, then the answer is sent, unless an error is
    logged. *)
Definition answered_with (call : script) (respond : Command -> Prop) (k : script) : Prop :=
  k = call \/ exists c, respond c /\ k = call ++ [Put (MCommand c)].

Definition main_handles (e : PyrsiaEvent) (k : script) : Prop :=
  match e with
  | EvRequestArtifact _ ch => answered_with [] (fun c => exists x, c = RespondArtifact x ch) k
  | EvRequestBuild t p ch =>
      answered_with [Call QBuild (fun s => MBuild (EvStart t p s FromSource))] (fun c => exists x, c = RespondBuild x ch) k
  | EvVerifyBuild peer t p => k = [Call QBuild (fun s => MBuild (EvStart t p s (Verification peer)))]
  | EvIdleMetricRequest ch => exists x, k = [Put (MCommand (RespondIdleMetric x ch))]
  | EvBlockchainRequest _ ch =>
      k = [] \/ exists mk, (forall s, event_sender (mk s) = s) /\
        answered_with [Call QBlockchain (fun s => MBlockchain (mk s))]
          (fun c => exists x ch', ch = Some ch' /\ c = RespondBlockchain x ch') k
  | EvRequestBuildStatus id ch =>
      answered_with [Call QBuild (fun s => MBuild (EvStatus id s))] (fun c => exists x, c = RespondBuildStatus x ch) k
  end.

(** blockchain_service/event.rs, [handle_blockchain_event]: a block is broadcast, a peer is asked. *)
Definition blockchain_handles (e : BlockchainEvent) (k : script) : Prop :=
  match e with
  | AddBlock _ s =>
      k = [Reply s] \/ exists buf, k = [Call QCommand (fun o => MCommand (BroadcastBlock buf o)); Reply s]
  | PullBlocksFromPeer peer s =>
      exists requests, k = map (fun data => Call QCommand (fun o => MCommand (RequestBlockchain data peer o))) requests
                           ++ [Reply s]
  | PullBlocksLocal _ _ s | HandleBlockBroadcast _ _ s | HandlePullBlocks _ _ s | HandleQueryBlockOrdinal s => k = [Reply s]
  end.

(** build_service/service.rs, [start_build]: unless the start fails, a task polls the build and reports its end, if it
    ends. *)
Definition reports (t : PackageType) (p : string) (trigger : BuildTrigger) (m : Message) : Prop :=
  (exists id urls, m = MBuild (EvSucceeded id t p trigger urls)) \/ exists id err, m = MBuild (EvFailed id err).

Definition polls (t : PackageType) (p : string) (trigger : BuildTrigger) (k : script) : Prop :=
  k = [] \/ exists m, reports t p trigger m /\ k = [Poll m].

(** build_service/event.rs, [handle_build_event]: a build from source is announced first; a successful build puts its
    result, or its failure, into the channel of the loop itself; the artifacts of a result are provided, then the blocks
    with their logs are added. *)
Definition provides (o : op) : Prop := exists id, o = Call QCommand (fun s => MCommand (Provide id s)).
Definition adds (o : op) : Prop := exists payload, o = Call QBlockchain (fun s => MBlockchain (AddBlock payload s)).

Definition build_handles (e : BuildEvent) (k : script) : Prop :=
  match e with
  | EvStart t p s FromSource =>
      exists ks, polls t p FromSource ks /\ k = [Call QCommand (fun o => MCommand (VerifyBuild t p o))] ++ ks ++ [Reply s]
  | EvStart t p s (Verification peer) => exists ks, polls t p (Verification peer) ks /\ k = ks ++ [Reply s]
  | EvStatus _ s => k = [Reply s]
  | EvFailed _ _ => k = []
  | EvSucceeded id _ _ trigger _ =>
      (exists result, k = [Put (MBuild (EvResult id trigger result))]) \/ exists err, k = [Put (MBuild (EvFailed id err))]
  | EvResult _ FromSource _ => exists ks ks', Forall provides ks /\ Forall adds ks' /\ k = ks ++ ks'
  | EvResult _ (Verification _) _ => k = []
  end.

Definition handles (m : Message) (k : script) : Prop :=
  match m with
  | MCommand c => network_handles c k
  | MEvent e => main_handles e k
  | MBlockchain e => blockchain_handles e k
  | MBuild e => build_handles e k
  end.

(** The other tasks call the network, the blockchain and the build service. *)
Definition client_op (o : op) : Prop :=
  match o with
  | Call q mk => q <> QEvent /\ forall s, queue_of (mk s) = q /\ sender_of (mk s) = Some s
  | _ => False
  end.

(** pyrsia_node/src/main.rs, [main]: the main loop first provides the local artifacts. *)
Definition main_starts (k : script) : Prop :=
  Forall provides k.

(** ** States and steps *)
Record tasks := {
  channel_of : queue -> list Message;
  loop_of : queue -> option script;
  clients : list script;
  pending : gset sender;
  answered : gset sender;
  fresh : sender;
}.

Definition with_channel (q : queue) (ms : list Message) (t : tasks) : tasks := {|
  channel_of := <[q := ms]> (channel_of t); loop_of := loop_of t; clients := clients t;
  pending := pending t; answered := answered t; fresh := fresh t |}.
Definition with_loop (q : queue) (k : option script) (t : tasks) : tasks := {|
  channel_of := channel_of t; loop_of := <[q := k]> (loop_of t); clients := clients t;
  pending := pending t; answered := answered t; fresh := fresh t |}.
Definition with_clients (ks : list script) (t : tasks) : tasks := {|
  channel_of := channel_of t; loop_of := loop_of t; clients := ks;
  pending := pending t; answered := answered t; fresh := fresh t |}.

Definition has_room (q : queue) (t : tasks) : Prop := length (channel_of t q) < CHANNEL_CAPACITY.

Definition enqueue (m : Message) (t : tasks) : tasks := with_channel (queue_of m) (channel_of t (queue_of m) ++ [m]) t.

(** One operation of a task: the rest of its script and the state of the channels. *)
Inductive op_step : tasks -> op -> script -> tasks -> script -> Prop :=
| step_call t q mk k :
    has_room (queue_of (mk (fresh t))) t ->
    op_step t (Call q mk) k
      (enqueue (mk (fresh t)) {| channel_of := channel_of t; loop_of := loop_of t; clients := clients t;
         pending := pending t; answered := answered t; fresh := S (fresh t) |})
      (Wait q (fresh t) :: k)
| step_put t m k : has_room (queue_of m) t -> op_step t (Put m) k (enqueue m t) k
| step_wait t q s k : s ∈ answered t -> op_step t (Wait q s) k t k
| step_reply t s k :
    op_step t (Reply s) k {| channel_of := channel_of t; loop_of := loop_of t; clients := clients t;
      pending := pending t; answered := {[s]} ∪ answered t; fresh := fresh t |} k
| step_pend t s k :
    op_step t (Pend s) k {| channel_of := channel_of t; loop_of := loop_of t; clients := clients t;
      pending := {[s]} ∪ pending t; answered := answered t; fresh := fresh t |} k
| step_poll t m k : op_step t (Poll m) k (with_clients (clients t ++ [[Put m]]) t) k.

(** The steps of the node itself. *)
Inductive inner_step : tasks -> tasks -> Prop :=
| step_receive t q m ms k :
    loop_of t q = None -> channel_of t q = m :: ms -> handles m k ->
    inner_step t (with_loop q (Some k) (with_channel q ms t))
| step_loop t q o k t' k' :
    loop_of t q = Some (o :: k) -> op_step t o k t' k' -> inner_step t (with_loop q (Some k') t')
| step_done t q : loop_of t q = Some [] -> inner_step t (with_loop q None t)
| step_client t i o k t' k' :
    clients t !! i = Some (o :: k) -> op_step t o k t' k' ->
    inner_step t (with_clients (<[i := k']> (clients t')) t').

(** The steps of the world: a request or a message of a peer, an answer of the swarm, a new client. *)
Inductive outer_step : tasks -> tasks -> Prop :=
| step_peer t e : loop_of t QCommand = None -> outer_step t (with_loop QCommand (Some [Put (MEvent e)]) t)
| step_swarm t s :
    loop_of t QCommand = None -> s ∈ pending t ->
    outer_step t (with_loop QCommand (Some [Reply s])
      {| channel_of := channel_of t; loop_of := loop_of t; clients := clients t;
         pending := pending t ∖ {[s]}; answered := answered t; fresh := fresh t |})
| step_spawn t k : Forall client_op k -> outer_step t (with_clients (clients t ++ [k]) t).

Definition task_step (t t' : tasks) : Prop := inner_step t t' \/ outer_step t t'.

Definition tasks_init (main : script) : tasks := {|
  channel_of := fun _ => []; loop_of := <[QEvent := Some main]> (fun _ => None); clients := [];
  pending := ∅; answered := ∅; fresh := 0 |}.

Definition reachable (t : tasks) : Prop := exists main, main_starts main /\ rtc task_step (tasks_init main) t.

(** *** The scripts of the network loop *)
Section NetworkScripts.
Context `{!Bincode VerifyBuildData}.

Ltac find_sender :=
  first [apply value_inserted | apply provider_inserted | apply answered_owned | apply elem_of_app; left; find_sender | apply elem_of_app; right; find_sender].
Ltac unfold_commands :=
  unfold_exchanges; unfold cmd_add_probe, cmd_bootstrap_dht, cmd_listen, cmd_dial, cmd_list_peers, cmd_status,
      cmd_provide, cmd_list_providers, cmd_verify_build, cmd_broadcast_block,
      answer, swarm_try, swarm_do, set_swarm, set_answers, set_bootstrapped, set_bootstrap, set_dial,
      set_start_providing, set_list_providers, set_request_artifact, set_request_build,
      set_idle_metric, set_blockchain, set_build_status; unfold_stm; simpl.

(** When a command is handled, its sender is dropped, which wakes its receiver with an error, or it is answered, or it is
    kept in a pending map and nobody is answered. *)
Lemma command_script c s l l' :
  command_sender c = Some s -> s ∉ el_gone l -> handle_command c l = (Ok tt, l') ->
  (network_handles c [Reply s] /\ drops c l = true /\ el_answers l' = el_answers l)
  \/ (network_handles c [Reply s] /\ drops c l = false /\ exists r, el_answers l' = el_answers l ++ [(s, r)])
  \/ (network_handles c [Pend s] /\ drops c l = false /\ el_answers l' = el_answers l /\ s ∈ pending_senders l').
Proof.
  intros Hc Hg Hh.
  destruct c; simplify_eq/=; revert Hh; unfold_commands; intros Hh;
    repeat (case_match; simplify_eq/=);
    first [ left; split; [by auto|]; by rewrite ?bool_decide_eq_true_2
          | right; left; split; [by auto|]; split; [by rewrite ?bool_decide_eq_false_2|]; by eexists
          | right; right; split; [by auto|]; split; [by rewrite ?bool_decide_eq_false_2|]; split; [done|];
            unfold pending_senders; simpl; find_sender ].
Qed.

(** Every input of the loop emits at most one event, a command none. *)
Lemma input_events i l :
  exists es, el_events (snd (handle_input i l)) = el_events l ++ es /\ length es <= 1 /\ (forall c, i = InCommand c -> es = []).
Proof.
  assert (exists es, el_events l = el_events l ++ es /\ length es <= 1 /\ (forall c, i = InCommand c -> es = [])) as Hnone.
  { exists []. rewrite app_nil_r. split_and!; [done|simpl; lia|done]. }
  destruct i as [[]|[]| |[]|[]|[]|[]|[]|[]|[]|[]]; simpl; try done;
    unfold handle_gossipsub_event, handle_kademlia_event, handle_request_response_event, handle_idle_metric_request_response_event,
      handle_build_request_response_event, handle_build_status_request_response_event,
      handle_blockchain_request_response_event, handle_swarm_event, settle, emit; unfold_commands; repeat (case_match; simplify_eq/=); try done;
   try (eexists; split_and!; [done|simpl; lia|done]).
Qed.

End NetworkScripts.

(** ** Who waits for whom

    The network loop waits for nobody, the blockchain loop for the network loop, the build loop for both, the
    main loop for the blockchain and build loops, and a client for any loop but the main loop. *)
Definition rank (q : queue) : nat :=
  match q with QCommand => 0 | QBlockchain => 1 | QBuild => 2 | QEvent => 3 end.

Definition handler_op (n : nat) (o : op) : Prop :=
  match o with
  | Call q mk => rank q < n /\ forall s, queue_of (mk s) = q /\ sender_of (mk s) = Some s
  | Put m => sender_of m = None
  | Wait _ _ => False
  | Reply _ => n < 3
  | Pend _ => n = 0
  | Poll m => n = 2 /\ sender_of m = None
  end.

Definition op_ok (n : nat) (o : op) : Prop :=
  match o with Wait q _ => rank q < n | _ => handler_op n o end.

Lemma handler_op_ok n k : Forall (handler_op n) k -> Forall (op_ok n) k.
Proof. apply Forall_impl. by intros []. Qed.

Lemma handler_no_wait n k q s : Forall (handler_op n) k -> Wait q s ∉ k.
Proof. intros Hf Hw. rewrite Forall_forall in Hf. by apply (Hf (Wait q s)), list_elem_of_In. Qed.

Lemma answered_with_ok n call respond k :
  Forall (handler_op n) call -> (forall c, respond c -> command_sender c = None) ->
  answered_with call respond k -> Forall (handler_op n) k.
Proof.
  intros Hc Hr [->|(c & Hcr & ->)]; [done|]. apply Forall_app. split; [done|]. repeat constructor. simpl. by apply Hr.
Qed.

Lemma main_handles_ok e k : main_handles e k -> Forall (handler_op 3) k.
Proof.
  destruct e as [id ch|t p ch|peer t p|ch|data ch|id ch]; simpl.
  - apply answered_with_ok; [constructor|]. by intros c [x ->].
  - apply answered_with_ok; [|by intros c [x ->]]. repeat constructor; simpl; lia.
  - intros ->. repeat constructor; simpl; lia.
  - intros [x ->]. by repeat constructor.
  - intros [->|(mk & Hmk & Hk)]; [constructor|]. revert Hk.
    apply answered_with_ok; [|by intros c (x & ch' & _ & ->)].
    constructor; [|constructor]. split; [simpl; lia|]. intros s. simpl. by rewrite Hmk.
  - apply answered_with_ok; [|by intros c [x ->]]. repeat constructor; simpl; lia.
Qed.

Lemma blockchain_handles_ok e k : blockchain_handles e k -> Forall (handler_op 1) k.
Proof.
  destruct e as [payload s|peer s|a b s|n b s|a b s|s]; simpl; [|intros [requests ->]|intros ->..];
    [|apply Forall_app; split|..]; try (repeat constructor; simpl; lia).
  - intros [->|[buf ->]]; repeat constructor; simpl; lia.
  - apply Forall_map, Forall_true. intros data. simpl. split; [lia|done].
Qed.

Lemma polls_ok t p trigger k : polls t p trigger k -> Forall (handler_op 2) k.
Proof.
  intros [->|(m & Hm & ->)]; [constructor|]. repeat constructor. by destruct Hm as [(id & urls & ->)|(id & err & ->)].
Qed.

Lemma build_handles_ok e k : build_handles e k -> Forall (handler_op 2) k.
Proof.
  destruct e as [id err|id s|t p s [|peer]|id t p tr urls|id [|peer] r]; simpl;
    [intros ->..|intros (ks & Hks & ->)|intros (ks & Hks & ->)|intros [[r ->]|[err ->]]|intros (ks & ks' & Hk & Hk' & ->)|intros ->];
    try (repeat constructor; simpl; lia).
  - constructor; [simpl; split; [lia|done]|]. apply Forall_app. split; [by eapply polls_ok|]. repeat constructor; simpl; lia.
  - apply Forall_app. split; [by eapply polls_ok|]. repeat constructor; simpl; lia.
  - apply Forall_app. split; [revert Hk|revert Hk']; apply Forall_impl; intros o [x ->]; simpl; (split; [lia|done]).
Qed.

Lemma handles_ok m k : handles m k -> Forall (handler_op (rank (queue_of m))) k.
Proof.
  destruct m as [c|e|e|e]; simpl; [|apply main_handles_ok|apply blockchain_handles_ok|apply build_handles_ok].
  destruct c; simpl; intros Hk; destruct_or? Hk; subst k; repeat constructor; simpl; lia.
Qed.

(** Every message can be handled, and the handler answers or keeps the sender. *)
Lemma handles_total m : exists k, handles m k.
Proof.
  destruct m as [c|e|e|e]; simpl.
  - destruct c; simpl; eauto.
  - destruct e; simpl; unfold answered_with; try solve [eexists; by left | by eexists]. eexists. by exists [].
  - destruct e as [payload s|peer s|a b s|n b s|a b s|s]; simpl; try solve [by eexists | eexists; by left].
    eexists. by exists [].
  - destruct e as [id err|id s|t p s [|peer]|id t p tr urls|id [|peer] r]; simpl; try by eexists.
    1-2: (eexists; exists []; split; [by left|done]).
    + exists [Put (MBuild (EvFailed id InvalidMappingResponse))]. right. by eexists.
    + exists []. by exists [], [].
Qed.

Lemma handles_sender m k s : handles m k -> sender_of m = Some s -> Reply s ∈ k \/ Pend s ∈ k.
Proof.
  destruct m as [c|e|e|e]; simpl.
  - destruct c; simpl; intros Hk; destruct_or? Hk; subst k; intros [= <-]; first [left; by left | right; by left].
  - done.
  - intros Hk [= <-]. left. destruct e as [payload s|peer s|a b s|n b s|a b s|s]; simpl in *; subst; try by left.
    + destruct Hk as [->|[buf ->]]; set_solver.
    + destruct Hk as [requests ->]. set_solver.
  - destruct e as [id err|id s'|t p s' [|peer]|id t p tr urls|id [|peer] r]; simpl; intros Hk; intros [= <-];
      left; try destruct Hk as (ks & _ & ->); subst; set_solver.
Qed.

(** *** The invariant

    Waits go down in rank, and a sender that is waited for is answered, in the channel, at the loop that handles its
    message, or kept for the swarm. *)
Definition promised (t : tasks) (q : queue) (s : sender) : Prop :=
  s ∈ answered t
  \/ (exists m, m ∈ channel_of t q /\ sender_of m = Some s)
  \/ (exists k, loop_of t q = Some k /\ (Reply s ∈ k \/ Pend s ∈ k))
  \/ q = QCommand /\ s ∈ pending t.

Definition script_ok (t : tasks) (n : nat) (k : script) : Prop :=
  Forall (op_ok n) k /\ forall q s, Wait q s ∈ k -> promised t q s.

Record tasks_ok (t : tasks) : Prop := {
  ok_channels : forall q m, m ∈ channel_of t q -> queue_of m = q;
  ok_loops : forall q k, loop_of t q = Some k -> script_ok t (rank q) k;
  ok_clients : forall k, k ∈ clients t -> script_ok t 4 k;
}.

Lemma script_ok_mono t t' n k :
  (forall q s, promised t q s -> promised t' q s) -> script_ok t n k -> script_ok t' n k.
Proof. intros Hp [Hf Hw]. split; [done|]. intros q s Hs. by apply Hp, Hw. Qed.

Lemma handler_script_ok t n k : Forall (handler_op n) k -> script_ok t n k.
Proof. intros Hf. split; [by apply handler_op_ok|]. by intros q s Hw%(handler_no_wait n). Qed.

Lemma tasks_init_ok main : main_starts main -> tasks_ok (tasks_init main).
Proof.
  intros Hm. split; simpl; [by intros q m Hq%elem_of_nil| |by intros k Hk%elem_of_nil].
  intros q k. destruct (decide (QEvent = q)) as [<-|Hne]; [|by rewrite fn_lookup_insert_ne].
  rewrite fn_lookup_insert. intros [= <-]. apply handler_script_ok. revert Hm. apply Forall_impl.
  intros o [id ->]. simpl. split; [lia|done].
Qed.

Lemma enqueue_channel m t q :
  channel_of (enqueue m t) q = channel_of t q ++ (if decide (queue_of m = q) then [m] else []).
Proof.
  unfold enqueue, with_channel. simpl. case_decide as Hq.
  - subst q. apply fn_lookup_insert.
  - rewrite fn_lookup_insert_ne by done. by rewrite app_nil_r.
Qed.

(** What an operation changes: channels grow at the end; polling tasks, answers and kept senders are only added. *)
Definition grows (t t' : tasks) : Prop :=
  loop_of t' = loop_of t /\ (exists ms, clients t' = clients t ++ map (fun m => [Put m]) ms /\ Forall (fun m => sender_of m = None) ms)
  /\ (forall q, exists ms, channel_of t' q = channel_of t q ++ ms /\ Forall (fun m => queue_of m = q) ms)
  /\ answered t ⊆ answered t' /\ pending t ⊆ pending t'.

Lemma enqueue_grows m t : grows t (enqueue m t).
Proof.
  split_and!; [done|exists []; by rewrite app_nil_r| |done|done]. intros q. rewrite enqueue_channel. eexists. split; [done|].
  case_decide; by repeat constructor.
Qed.

Lemma same_channels_grow t t' :
  loop_of t' = loop_of t -> clients t' = clients t -> channel_of t' = channel_of t ->
  answered t ⊆ answered t' -> pending t ⊆ pending t' -> grows t t'.
Proof.
  intros Hl Hc Hch Ha Hp. split_and!; try done.
  - exists []. by rewrite Hc, app_nil_r.
  - intros q. exists []. rewrite Hch, app_nil_r. by split.
Qed.

Lemma op_step_grows t o k t' k' n : op_ok n o -> op_step t o k t' k' -> grows t t'.
Proof.
  intros Ho Hs; inversion Hs; subst; clear Hs; try (apply same_channels_grow; simpl; set_solver); [|apply enqueue_grows|].
  2: { split_and!; try done; [exists [m]; destruct Ho; by repeat constructor|].
       intros q. exists []. by rewrite app_nil_r. }
  destruct (enqueue_grows (mk (fresh t)) {| channel_of := channel_of t; loop_of := loop_of t; clients := clients t;
         pending := pending t; answered := answered t; fresh := S (fresh t) |}) as (? & ? & ? & ? & ?).
  by split_and!.
Qed.

(** The operations that stay. *)
Lemma op_step_rest t o k t' k' : op_step t o k t' k' ->
  forall x, x ∈ k -> x ∈ k'.
Proof. intros Hs; inversion Hs; subst; set_solver. Qed.

Lemma grows_promised t t' q s : grows t t' -> promised t q s -> promised t' q s.
Proof.
  intros (Hl & _ & Hch & Ha & Hp) [Hs|[(m & Hm & Hs)|[(k & Hk & Hs)|[-> Hs]]]]; unfold promised.
  - left. set_solver.
  - right; left. destruct (Hch q) as (ms & Hq & _). exists m. split; [|done]. rewrite Hq. set_solver.
  - right; right; left. rewrite Hl. eauto.
  - right; right; right. set_solver.
Qed.

(** The script of a task after its operation. *)
Lemma op_step_script t o k t' k' n :
  op_step t o k t' k' -> script_ok t n (o :: k) -> script_ok t' n k'.
Proof.
  intros Hs [Hf Hw]. apply Forall_cons_1 in Hf as [Ho Hf]. pose proof (op_step_grows _ _ _ _ _ _ Ho Hs) as Hg.
  assert (script_ok t' n k) as Hk.
  { split; [done|]. intros q s Hq. eapply grows_promised; [done|]. apply Hw. by right. }
  destruct Hk as [_ Hk]. inversion Hs; subst; try by split.
  destruct Ho as [Hq Hm]. split; [by constructor|]. intros q' s [Heq|Hs']%elem_of_cons; [injection Heq as -> ->|by apply Hk].
  right; left. destruct (Hm (fresh t)) as [Hqm Hsm]. exists (mk (fresh t)). rewrite enqueue_channel, decide_True by done.
  simpl. split; [set_solver|done].
Qed.

(** A loop that goes on with a script keeps its promises. *)
Lemma with_loop_promised t q k k' q' s :
  loop_of t q = Some k ->
  (forall s, Reply s ∈ k -> Reply s ∈ k' \/ s ∈ answered t) ->
  (forall s, Pend s ∈ k -> Pend s ∈ k' \/ q = QCommand /\ s ∈ pending t) ->
  promised t q' s -> promised (with_loop q (Some k') t) q' s.
Proof.
  intros Hk Hr Hp [Ha|[Hm|[(k1 & Hk1 & Hs1)|Hpe]]]; unfold promised; simpl; [by left|by right; left| |by do 3 right].
  destruct (decide (q = q')) as [<-|Hne].
  - rewrite Hk in Hk1. injection Hk1 as <-. rewrite fn_lookup_insert.
    destruct Hs1 as [Hs1|Hs1]; [destruct (Hr _ Hs1)|destruct (Hp _ Hs1)]; naive_solver.
  - right; right; left. exists k1. by rewrite fn_lookup_insert_ne.
Qed.

(** The clients of a state that has grown. *)
Lemma grows_clients t t' k :
  tasks_ok t -> grows t t' -> k ∈ clients t' -> script_ok t' 4 k.
Proof.
  intros Hok Hg Hk. pose proof Hg as (_ & (ms & Hc & Hms) & _). rewrite Hc in Hk. apply elem_of_app in Hk as [Hk|Hk].
  - eapply script_ok_mono; [by intros q s; apply grows_promised|]. by apply (ok_clients t Hok).
  - apply list_elem_of_fmap in Hk as (m & -> & Hm). apply handler_script_ok. repeat constructor. simpl.
    rewrite Forall_forall in Hms. by apply Hms, list_elem_of_In.
Qed.

Lemma grows_channels t t' q m : tasks_ok t -> grows t t' -> m ∈ channel_of t' q -> queue_of m = q.
Proof.
  intros Hok (_ & _ & Hch & _) Hm. destruct (Hch q) as (ms & Hq & Hms). rewrite Hq in Hm. apply elem_of_app in Hm as [Hm|Hm].
  - by apply (ok_channels t Hok).
  - rewrite Forall_forall in Hms. by apply Hms, list_elem_of_In.
Qed.

(** A task that goes on leaves the rest in order. *)
Lemma grows_ok t t' q k' :
  tasks_ok t -> grows t t' -> (forall q' s, promised t' q' s -> promised (with_loop q k' t') q' s) ->
  (forall k, k' = Some k -> script_ok t' (rank q) k) -> tasks_ok (with_loop q k' t').
Proof.
  intros Hok Hg Hpr Hk. assert (forall q' s, promised t q' s -> promised (with_loop q k' t') q' s) as Hpr'.
  { intros q' s Hs. by apply Hpr, (grows_promised t). }
  pose proof Hg as (Hl & _). split; simpl.
  - intros q' m. by apply (grows_channels t).
  - intros q' k1. destruct (decide (q = q')) as [<-|Hne].
    + rewrite fn_lookup_insert. intros Hk1. by eapply script_ok_mono; [exact Hpr|apply Hk].
    + rewrite fn_lookup_insert_ne, Hl by done. intros Hk1. eapply script_ok_mono; [exact Hpr'|]. by apply (ok_loops t Hok).
  - intros k1 Hk1. eapply script_ok_mono; [exact Hpr|]. by apply (grows_clients t).
Qed.

Lemma loop_step_ok t q o k t' k' :
  tasks_ok t -> loop_of t q = Some (o :: k) -> op_step t o k t' k' -> tasks_ok (with_loop q (Some k') t').
Proof.
  intros Hok Hq Hs. pose proof (ok_loops t Hok q _ Hq) as Hsc. assert (grows t t') as Hg.
  { destruct Hsc as [Hf _]. apply Forall_cons_1 in Hf as [Ho _]. by eapply op_step_grows. }
  apply (grows_ok t); [done..| |by intros ? [= <-]; eapply op_step_script].
  intros q' s. apply (with_loop_promised t' q (o :: k)); [by destruct Hg as [-> _]|..];
    intros s' [Hs'|Hs']%elem_of_cons; try (left; by eapply op_step_rest); subst o; right.
  - inversion Hs; subst; simpl; set_solver.
  - destruct Hsc as [Hf _]. apply Forall_cons_1 in Hf as [Hf _]. simpl in Hf.
    inversion Hs; subst; simpl. split; [by destruct q|]. set_solver.
Qed.

Lemma receive_step_ok t q m ms k :
  tasks_ok t -> loop_of t q = None -> channel_of t q = m :: ms -> handles m k ->
  tasks_ok (with_loop q (Some k) (with_channel q ms t)).
Proof.
  intros Hok Hq Hch Hk. assert (queue_of m = q) as Hm by (apply (ok_channels t Hok); rewrite Hch; by left).
  assert (forall q' s, promised t q' s -> promised (with_loop q (Some k) (with_channel q ms t)) q' s) as Hpr.
  { intros q' s [Ha|[(m' & Hm' & Hs)|[(k1 & Hk1 & Hs1)|Hpe]]]; unfold promised; simpl; [by left| | |by do 3 right].
    - destruct (decide (q = q')) as [<-|Hne]; [|right; left; exists m'; by rewrite fn_lookup_insert_ne].
      rewrite Hch in Hm'. rewrite !fn_lookup_insert. apply elem_of_cons in Hm' as [->|Hm']; [|right; left; by exists m'].
      right; right; left. exists k. split; [done|]. by apply (handles_sender m).
    - right; right; left. exists k1. rewrite fn_lookup_insert_ne by congruence. done. }
  split; simpl.
  - intros q' m'. destruct (decide (q = q')) as [<-|Hne].
    + rewrite fn_lookup_insert. intros Hm'. apply (ok_channels t Hok). rewrite Hch. by right.
    + rewrite fn_lookup_insert_ne by done. apply (ok_channels t Hok).
  - intros q' k1. destruct (decide (q = q')) as [<-|Hne].
    + rewrite fn_lookup_insert. intros [= <-]. apply handler_script_ok. rewrite <- Hm. by apply handles_ok.
    + rewrite fn_lookup_insert_ne by done. intros Hk1. eapply script_ok_mono; [exact Hpr|]. by apply (ok_loops t Hok).
  - intros k1 Hk1. eapply script_ok_mono; [exact Hpr|]. by apply (ok_clients t Hok).
Qed.

Lemma client_step_ok t i o k t' k' :
  tasks_ok t -> clients t !! i = Some (o :: k) -> op_step t o k t' k' ->
  tasks_ok (with_clients (<[i := k']> (clients t')) t').
Proof.
  intros Hok Hc Hs. assert (script_ok t 4 (o :: k)) as Hsc by (apply (ok_clients t Hok); by eapply list_elem_of_lookup_2).
  assert (grows t t') as Hg.
  { destruct Hsc as [Hf _]. apply Forall_cons_1 in Hf as [Ho _]. by eapply op_step_grows. }
  assert (forall q' s, promised t q' s -> promised (with_clients (<[i := k']> (clients t')) t') q' s) as Hpr.
  { intros q' s Hp. exact (grows_promised t t' q' s Hg Hp). }
  split; simpl.
  - intros q' m. by apply (grows_channels t).
  - pose proof Hg as (Hl & _). intros q' k1. rewrite Hl. intros Hk1. eapply script_ok_mono; [exact Hpr|]. by apply (ok_loops t Hok).
  - intros k1 [j Hj]%list_elem_of_lookup. apply list_lookup_insert_Some in Hj as [(_ & <- & _)|[_ Hj]].
    + exact (op_step_script t o k t' k' 4 Hs Hsc).
    + apply (grows_clients t t' k1 Hok Hg). by eapply list_elem_of_lookup_2.
Qed.

(** A loop that was idle and takes up a script. *)
Lemma idle_loop_ok t t' q k :
  tasks_ok t -> loop_of t q = None -> channel_of t' = channel_of t -> loop_of t' = loop_of t -> clients t' = clients t ->
  (forall q' s, promised t q' s -> promised (with_loop q (Some k) t') q' s) -> Forall (handler_op (rank q)) k ->
  tasks_ok (with_loop q (Some k) t').
Proof.
  intros Hok Hq Hch Hl Hc Hpr Hk. split; simpl.
  - rewrite Hch. apply (ok_channels t Hok).
  - intros q' k1. destruct (decide (q = q')) as [<-|Hne].
    + rewrite fn_lookup_insert. intros [= <-]. by apply handler_script_ok.
    + rewrite fn_lookup_insert_ne, Hl by done. intros Hk1. eapply script_ok_mono; [exact Hpr|]. by apply (ok_loops t Hok).
  - intros k1. rewrite Hc. intros Hk1. eapply script_ok_mono; [exact Hpr|]. by apply (ok_clients t Hok).
Qed.

Lemma task_step_ok t t' : tasks_ok t -> task_step t t' -> tasks_ok t'.
Proof.
  intros Hok [Hs|Hs]; destruct Hs.
  - by eapply receive_step_ok.
  - by eapply loop_step_ok.
  - apply (grows_ok t); [done|by apply same_channels_grow| |done].
    intros q' s [Ha|[Hm|[(k1 & Hk1 & Hs1)|Hpe]]]; unfold promised; simpl; [by left|by right; left| |by do 3 right].
    right; right; left. exists k1. destruct (decide (q = q')) as [<-|Hne]; [|by rewrite fn_lookup_insert_ne].
    rewrite Hk1 in *. simplify_eq. set_solver.
  - by eapply client_step_ok.
  - eapply idle_loop_ok; [done..| |repeat constructor].
    intros q' s [Ha|[Hm|[(k1 & Hk1 & Hs1)|Hpe]]]; unfold promised; simpl; [by left|by right; left| |by do 3 right].
    right; right; left. exists k1. rewrite fn_lookup_insert_ne by congruence. done.
  - eapply idle_loop_ok; [done..| |repeat constructor; simpl; lia].
    intros q' s' [Ha|[Hm|[(k1 & Hk1 & Hs1)|[-> Hpe]]]]; unfold promised; simpl; [by left|by right; left|..].
    + right; right; left. exists k1. rewrite fn_lookup_insert_ne by congruence. done.
    + destruct (decide (s' = s)) as [->|Hne]; [|right; right; right; set_solver].
      right; right; left. exists [Reply s]. rewrite fn_lookup_insert. set_solver.
  - split; simpl; [apply (ok_channels t Hok)|apply (ok_loops t Hok)|].
    intros k1 [Hk1| ->%list_elem_of_singleton]%elem_of_app; [by apply (ok_clients t Hok)|].
    apply handler_script_ok. revert H1. apply Forall_impl. intros [q mk|m|q s|s|s|m]; simpl; try done.
    intros [Hq Hm]. split; [destruct q; simpl; by try lia|done].
Qed.

Lemma reachable_ok t : reachable t -> tasks_ok t.
Proof.
  intros (main & Hm & Hr). apply (rtc_ind_r (R := task_step) (fun t => tasks_ok t) (tasks_init main)); [by apply tasks_init_ok| |done].
  intros t1 t2 _ Hs Hok. by eapply task_step_ok.
Qed.

(** ** Quiet nodes *)

(** With room in every channel only a wait can hold a task up. *)
Lemma held_up_waits t o k :
  (forall q, has_room q t) -> (forall t' k', ~ op_step t o k t' k') -> exists q s, o = Wait q s /\ s ∉ answered t.
Proof.
  intros Hroom Hno. destruct o as [q mk|m|q s|s|s|m].
  - destruct (Hno _ _ (step_call t q mk k (Hroom _))).
  - destruct (Hno _ _ (step_put t m k (Hroom _))).
  - exists q, s. split; [done|]. intros Ha. exact (Hno _ _ (step_wait t q s k Ha)).
  - destruct (Hno _ _ (step_reply t s k)).
  - destruct (Hno _ _ (step_pend t s k)).
  - destruct (Hno _ _ (step_poll t m k)).
Qed.

(** A promise of a loop that has nothing to do is kept. *)
Lemma idle_answered t q s :
  channel_of t q = [] -> loop_of t q = None -> pending t = ∅ -> promised t q s -> s ∈ answered t.
Proof.
  intros Hch Hl Hpe [Ha|[(m & Hm & _)|[(k & Hk & _)|[_ Hs]]]]; [done|..].
  - rewrite Hch in Hm. by apply elem_of_nil in Hm.
  - by rewrite Hl in Hk.
  - rewrite Hpe in Hs. set_solver.
Qed.

(** A task of rank [n] that cannot go on, above loops that have nothing to do, is done. *)
Lemma held_up_done t n k :
  (forall q, has_room q t) -> pending t = ∅ -> (forall q, rank q < n -> channel_of t q = [] /\ loop_of t q = None) ->
  script_ok t n k -> (forall o k1 t' k', k = o :: k1 -> ~ op_step t o k1 t' k') -> k = [].
Proof.
  intros Hroom Hpe Hlow [Hf Hw] Hno. destruct k as [|o k]; [done|]. exfalso.
  destruct (held_up_waits t o k) as (q & s & -> & Hs); [done|by intros; eapply Hno|].
  apply Forall_cons_1 in Hf as [Hq _]. destruct (Hlow q Hq) as [Hch Hl].
  apply Hs, (idle_answered t q); try done. apply Hw. by left.
Qed.

(** A loop above loops that have nothing to do has nothing to do. *)
Lemma quiet_loop t q :
  tasks_ok t -> (forall q, has_room q t) -> pending t = ∅ -> (forall t', ~ inner_step t t') ->
  (forall q', rank q' < rank q -> channel_of t q' = [] /\ loop_of t q' = None) ->
  channel_of t q = [] /\ loop_of t q = None.
Proof.
  intros Hok Hroom Hpe Hq Hlow. destruct (loop_of t q) as [k|] eqn:Hl.
  - exfalso. assert (k = []) as ->.
    { apply (held_up_done t (rank q)); try done; [by apply (ok_loops t Hok)|].
      intros o k1 t' k' -> Hs. exact (Hq _ (step_loop t q o k1 t' k' Hl Hs)). }
    exact (Hq _ (step_done t q Hl)).
  - split; [|done]. destruct (channel_of t q) as [|m ms] eqn:Hch; [done|].
    destruct (handles_total m) as [k Hk]. destruct (Hq _ (step_receive t q m ms k Hl Hch Hk)).
Qed.

(** A node whose channels all have room and whose swarm owes no answer stops only when all is done: in every state
    reached from the start in which no task can go on, the channels are empty, the four loops are idle
    and every client has ended; so no wait of a handler or of a client on a loop is part of a cycle. *)
Theorem quiet_node_done t :
  reachable t -> (forall q, has_room q t) -> pending t = ∅ -> (forall t', ~ inner_step t t') ->
  (forall q, channel_of t q = [] /\ loop_of t q = None) /\ Forall (fun k => k = []) (clients t).
Proof.
  intros Hr%reachable_ok Hroom Hpe Hq.
  assert (forall n q, rank q < n -> channel_of t q = [] /\ loop_of t q = None) as Hall.
  { induction n as [|n IH]; [lia|]. intros q Hn. apply quiet_loop; try done. intros q' Hq'. apply IH. lia. }
  split; [intros q; apply (Hall (S (rank q))); lia|].
  rewrite Forall_forall. intros k Hk%list_elem_of_In.
  apply (held_up_done t 4); try done; [by intros q _; apply (Hall (S (rank q))); lia|by apply (ok_clients t Hr)|].
  intros o k1 t' k' -> Hs. apply list_elem_of_lookup in Hk as [i Hc].
  exact (Hq _ (step_client t i o k1 t' k' Hc Hs)).
Qed.

(** ** Cycles of full channels

    A set of loops is blocked when each of them puts into a full channel of the set, or waits for an answer that only the
    set could give: no other task can send it. *)
Definition silent (S : gset sender) (o : op) : Prop :=
  match o with
  | Call _ mk => forall s, sender_of (mk s) = Some s
  | Put m | Poll m => sender_of m = None
  | Reply s => s ∉ S
  | Wait _ _ | Pend _ => True
  end.

Definition holds_up (B : list queue) (S : gset sender) (t : tasks) (o : op) : Prop :=
  match o with
  | Put m => queue_of m ∈ B /\ ~ has_room (queue_of m) t
  | Wait _ s => s ∈ S
  | _ => False
  end.

Record blocked (B : list queue) (S : gset sender) (t : tasks) : Prop := {
  blocked_loops : forall q, q ∈ B -> exists o k, loop_of t q = Some (o :: k) /\ holds_up B S t o;
  blocked_swarm : QCommand ∈ B \/ S = ∅;
  blocked_answers : S ## answered t;
  blocked_fresh : forall s, s ∈ S -> s < fresh t;
  blocked_channels : forall q m s, q ∉ B -> m ∈ channel_of t q -> sender_of m = Some s -> s ∉ S;
  blocked_others : forall q k, q ∉ B -> loop_of t q = Some k -> Forall (silent S) k;
  blocked_clients : Forall (Forall (silent S)) (clients t);
}.

(** A handler answers the sender of its message only. *)
Lemma handles_reply m k s : handles m k -> Reply s ∈ k -> sender_of m = Some s.
Proof.
  intros Hk Hs. destruct m as [c|e|e|e].
  - simpl in Hk. destruct c; simpl in *; destruct_or? Hk; subst k; set_solver.
  - apply handles_ok in Hk. rewrite Forall_forall in Hk. apply list_elem_of_In, Hk in Hs. simpl in Hs. lia.
  - simpl in Hk. destruct e as [payload s'|peer s'|a b s'|n b s'|a b s'|s']; simpl in *; subst; try set_solver.
    + destruct Hk as [->|[buf ->]]; set_solver.
    + destruct Hk as [requests ->]. set_solver.
  - simpl in Hk. destruct e as [id err|id s'|t p s' [|peer]|id t p tr urls|id [|peer] r]; simpl in *; subst; try set_solver.
    + destruct Hk as (ks & [->|(m & _ & ->)] & ->); set_solver.
    + destruct Hk as (ks & [->|(m & _ & ->)] & ->); set_solver.
    + destruct Hk as [[r ->]|[err ->]]; set_solver.
    + destruct Hk as (ks & ks' & Hk & Hk' & ->). rewrite Forall_forall in Hk, Hk'.
      apply elem_of_app in Hs as [Hs%list_elem_of_In%Hk|Hs%list_elem_of_In%Hk']; by destruct Hs.
Qed.

Lemma handler_silent S n o : handler_op n o -> (forall s, o = Reply s -> s ∉ S) -> silent S o.
Proof. destruct o as [q mk|m|q s|s|s|m]; simpl; try naive_solver. Qed.

Lemma handles_silent S m k :
  handles m k -> (forall s, sender_of m = Some s -> s ∉ S) -> Forall (silent S) k.
Proof.
  intros Hk Hm. pose proof (handles_ok _ _ Hk) as Hf. rewrite Forall_forall in *. intros o Ho.
  eapply handler_silent; [by apply Hf|]. intros s ->. apply Hm. by apply (handles_reply m k), list_elem_of_In.
Qed.

(** Channels that grow and answers for others leave a set blocked. *)
Lemma blocked_grow B S t t' :
  blocked B S t -> (forall q, q ∈ B -> loop_of t' q = loop_of t q) ->
  (forall q, q ∈ B -> length (channel_of t q) <= length (channel_of t' q)) ->
  S ## answered t' -> fresh t <= fresh t' ->
  (forall q m s, q ∉ B -> m ∈ channel_of t' q -> sender_of m = Some s -> s ∉ S) ->
  (forall q k, q ∉ B -> loop_of t' q = Some k -> Forall (silent S) k) ->
  Forall (Forall (silent S)) (clients t') -> blocked B S t'.
Proof.
  intros Hb Hl Hch Ha Hf Hm Hk Hc. split; try done; [|apply Hb|].
  - intros q Hq. destruct (blocked_loops _ _ _ Hb q Hq) as (o & k & Ho & Hh). exists o, k. rewrite Hl by done. split; [done|].
    destruct o as [q' mk|m|q' s|s|s|m]; simpl in *; try done. destruct Hh as [Hq' Hfull]. split; [done|].
    unfold has_room in *. specialize (Hch _ Hq'). lia.
  - intros s Hs. apply (blocked_fresh _ _ _ Hb) in Hs. lia.
Qed.

(** A message that is put for nobody in the set. *)
Lemma enqueue_blocked B S t m :
  blocked B S t -> (forall s, sender_of m = Some s -> s ∉ S) -> blocked B S (enqueue m t).
Proof.
  intros Hb Hm. apply (blocked_grow B S t); try done; try apply Hb.
  - intros q _. rewrite enqueue_channel, length_app. lia.
  - intros q m' s Hq. rewrite enqueue_channel. intros [Hm'|Hm']%elem_of_app; [by apply (blocked_channels _ _ _ Hb q)|].
    case_decide; [|by apply elem_of_nil in Hm']. apply list_elem_of_singleton in Hm' as ->. apply Hm.
Qed.

(** An operation of a task outside of the set. *)
Lemma op_step_blocked B S t o k t' k' :
  blocked B S t -> op_step t o k t' k' -> Forall (silent S) (o :: k) -> blocked B S t' /\ Forall (silent S) k'.
Proof.
  intros Hb Hs [Ho Hk]%Forall_cons_1. inversion Hs; subst; simpl in Ho; (split; [|by repeat constructor]).
  - apply enqueue_blocked.
    + apply (blocked_grow B S t); simpl; try done; try apply Hb; lia.
    + intros s. rewrite Ho. intros [= <-] Hin%(blocked_fresh _ _ _ Hb). lia.
  - apply enqueue_blocked; [done|]. by rewrite Ho.
  - done.
  - apply (blocked_grow B S t); simpl; try done; try apply Hb. pose proof (blocked_answers _ _ _ Hb). set_solver.
  - apply (blocked_grow B S t); simpl; try done; apply Hb.
  - apply (blocked_grow B S t); simpl; try done; try apply Hb. apply Forall_app. split; [apply Hb|by repeat constructor].
Qed.

(** A loop outside of the set takes up a script that answers nobody in it. *)
Lemma with_loop_blocked B S t q k :
  blocked B S t -> q ∉ B -> (forall k', k = Some k' -> Forall (silent S) k') -> blocked B S (with_loop q k t).
Proof.
  intros Hb Hq Hk. apply (blocked_grow B S t); simpl; try done; try apply Hb.
  - intros q' Hq'. rewrite fn_lookup_insert_ne; [done|]. by intros ->.
  - intros q' k' Hq'. destruct (decide (q = q')) as [<-|Hne]; [rewrite fn_lookup_insert; apply Hk|].
    rewrite fn_lookup_insert_ne by done. by apply Hb.
Qed.

(** A loop of the set makes no step. *)
Lemma blocked_stays B S t q o k t' k' :
  blocked B S t -> q ∈ B -> loop_of t q = Some (o :: k) -> ~ op_step t o k t' k'.
Proof.
  intros Hb Hq Hl Hs. destruct (blocked_loops _ _ _ Hb q Hq) as (o' & k1 & Hl' & Hh). rewrite Hl in Hl'.
  injection Hl' as <- <-. pose proof (blocked_answers _ _ _ Hb). inversion Hs; subst; simpl in Hh; naive_solver set_solver.
Qed.

Lemma blocked_busy B S t q : blocked B S t -> q ∈ B -> exists o k, loop_of t q = Some (o :: k).
Proof. intros Hb Hq. destruct (blocked_loops _ _ _ Hb q Hq) as (o & k & Hl & _). by exists o, k. Qed.

Lemma op_step_loops t o k t' k' : op_step t o k t' k' -> loop_of t' = loop_of t.
Proof. by intros Hs; inversion Hs. Qed.

Lemma other_loop (B : list queue) t t' q k q' : loop_of t' = loop_of t -> q ∉ B -> q' ∈ B -> loop_of (with_loop q k t') q' = loop_of t q'.
Proof. intros Hl Hq Hq'. simpl. rewrite fn_lookup_insert_ne, Hl; [done|]. by intros ->. Qed.

Lemma receive_blocked B S t q m ms k :
  blocked B S t -> q ∉ B -> channel_of t q = m :: ms -> handles m k ->
  blocked B S (with_loop q (Some k) (with_channel q ms t)).
Proof.
  intros Hb Hq Hch Hk.
  assert (forall m' s, m' ∈ m :: ms -> sender_of m' = Some s -> s ∉ S) as Hms.
  { intros m' s. rewrite <- Hch. by apply Hb. }
  apply with_loop_blocked; [|done|].
  - apply (blocked_grow B S t); simpl; try done; try apply Hb.
    + intros q' Hq'. rewrite fn_lookup_insert_ne; [done|]. by intros ->.
    + intros q' m' s Hq'. destruct (decide (q = q')) as [<-|Hne].
      * rewrite fn_lookup_insert. intros Hm'. apply Hms. by right.
      * rewrite fn_lookup_insert_ne by done. by apply Hb.
  - intros ? [= <-]. apply (handles_silent S m); [done|]. intros s. apply Hms. by left.
Qed.

Lemma inner_step_blocked B S t t' :
  blocked B S t -> inner_step t t' -> blocked B S t' /\ forall q, q ∈ B -> loop_of t' q = loop_of t q.
Proof.
  intros Hb Hs. destruct Hs as [t q m ms k Hl Hch Hk|t q o k t' k' Hl Ho|t q Hl|t i o k t' k' Hc Ho].
  - assert (q ∉ B) as Hq by (intros Hq; destruct (blocked_busy _ _ _ _ Hb Hq) as (? & ? & ?); congruence).
    split; [by apply (receive_blocked B S t q m)|]. intros q'. by apply (other_loop B).
  - assert (q ∉ B) as Hq by (intros Hq; by eapply blocked_stays).
    destruct (op_step_blocked B S t o k t' k') as [Hb' Hk']; [done..|by apply (blocked_others _ _ _ Hb q)|].
    split; [apply with_loop_blocked; naive_solver|]. intros q'. apply (other_loop B); [by eapply op_step_loops|done].
  - assert (q ∉ B) as Hq by (intros Hq; destruct (blocked_busy _ _ _ _ Hb Hq) as (? & ? & ?); congruence).
    split; [by apply with_loop_blocked|]. intros q'. by apply (other_loop B).
  - destruct (op_step_blocked B S t o k t' k') as [Hb' Hk']; [done..| |].
    { eapply Forall_lookup_1; [apply Hb|exact Hc]. }
    split; [|intros q' _; simpl; by erewrite op_step_loops].
    apply (blocked_grow B S t'); simpl; try done; try apply Hb'. by apply Forall_insert; [apply Hb'|].
Qed.

Lemma outer_step_blocked B S t t' :
  blocked B S t -> outer_step t t' -> blocked B S t' /\ forall q, q ∈ B -> loop_of t' q = loop_of t q.
Proof.
  intros Hb Hs. assert (forall q, loop_of t q = None -> q ∉ B) as Hidle.
  { intros q Hl Hq. destruct (blocked_busy _ _ _ _ Hb Hq) as (? & ? & ?); congruence. }
  destruct Hs as [t e Hl|t s Hl Hp|t k Hk].
  - split; [|intros q; apply (other_loop B); auto]. apply with_loop_blocked; [done|auto|]. intros ? [= <-]. by repeat constructor.
  - pose proof (Hidle _ Hl). split; [|intros q; by apply (other_loop B)].
    apply with_loop_blocked; [by apply (blocked_grow B S t); try apply Hb|done|]. intros ? [= <-]. repeat constructor. simpl.
    destruct (blocked_swarm _ _ _ Hb) as [?| ->]; set_solver.
  - split; [|done]. apply (blocked_grow B S t); simpl; try done; try apply Hb.
    apply Forall_app. split; [apply Hb|]. constructor; [|constructor]. revert Hk. apply Forall_impl.
    intros [q mk|m|q s|s|s|m]; simpl; naive_solver.
Qed.

Lemma task_step_blocked B S t t' :
  blocked B S t -> task_step t t' -> blocked B S t' /\ forall q, q ∈ B -> loop_of t' q = loop_of t q.
Proof. intros Hb [Hs|Hs]; [by apply inner_step_blocked|by apply outer_step_blocked]. Qed.

Lemma blocked_forever B S t t' q : blocked B S t -> rtc task_step t t' -> q ∈ B -> loop_of t' q = loop_of t q.
Proof.
  intros Hb Hr. revert Hb. induction Hr as [|t t1 t2 Hs _ IH]; [done|]. intros Hb Hq.
  destruct (task_step_blocked _ _ _ _ Hb Hs) as [Hb1 Hl]. rewrite <- Hl by done. by apply IH.
Qed.

Lemma ok_silent n k : Forall (op_ok n) k -> Forall (silent ∅) k.
Proof. apply Forall_impl. intros [q mk|m|q s|s|s|m]; simpl; naive_solver set_solver. Qed.

(** *** The build loop and its own channel *)
Lemma build_blocked t m k :
  reachable t -> loop_of t QBuild = Some (Put m :: k) -> queue_of m = QBuild -> ~ has_room QBuild t ->
  blocked [QBuild] ∅ t.
Proof.
  intros Hr%reachable_ok Hl Hm Hfull. split; try set_solver.
  - intros q ->%list_elem_of_singleton. exists (Put m), k. simpl. rewrite Hm. set_solver.
  - intros q k' _ Hk'. by apply (ok_silent (rank q)), (ok_loops t Hr).
  - rewrite Forall_forall. intros k' Hk'%list_elem_of_In. by apply (ok_silent 4), (ok_clients t Hr).
Qed.

(** A client in the list of clients goes on. *)
Lemma client_goes_on t before o k after t' k' :
  clients t = before ++ (o :: k) :: after -> op_step t o k t' k' -> clients t' = clients t ->
  task_step t (with_clients (before ++ k' :: after) t').
Proof.
  intros Hc Hs Hc'. left.
  replace (before ++ k' :: after) with (<[length before := k']> (clients t')).
  - eapply step_client; [|done]. rewrite Hc. by apply list_lookup_middle.
  - rewrite Hc', Hc, insert_app_r_alt, Nat.sub_diag by lia. done.
Qed.

Definition idle (t : tasks) : Prop := forall q, channel_of t q = [] /\ loop_of t q = None.

Definition start_message (s : sender) : Message := MBuild (EvStart Docker "alpine:3" s FromSource).
Definition end_message : Message := MBuild (EvSucceeded "id" Docker "alpine:3" FromSource []).

(** Steps of a run: a loop receives the only message, makes an operation, or is done. *)
Lemma run_receive t q m k t' :
  loop_of t q = None -> channel_of t q = [m] -> handles m k ->
  rtc task_step (with_loop q (Some k) (with_channel q [] t)) t' -> rtc task_step t t'.
Proof. intros Hl Hch Hk. apply rtc_l. left. by apply (step_receive t q m). Qed.

Lemma run_loop t q o k t1 k1 t' :
  loop_of t q = Some (o :: k) -> op_step t o k t1 k1 -> rtc task_step (with_loop q (Some k1) t1) t' -> rtc task_step t t'.
Proof. intros Hl Ho. apply rtc_l. left. by eapply step_loop. Qed.

Lemma run_done t q t' : loop_of t q = Some [] -> rtc task_step (with_loop q None t) t' -> rtc task_step t t'.
Proof. intros Hl. apply rtc_l. left. by apply step_done. Qed.

Lemma run_spawn t k t' :
  Forall client_op k -> rtc task_step (with_clients (clients t ++ [k]) t) t' -> rtc task_step t t'.
Proof. intros Hk. apply rtc_l. right. by apply step_spawn. Qed.

Lemma run_client t before o k after t1 k1 t' :
  clients t = before ++ (o :: k) :: after -> op_step t o k t1 k1 -> clients t1 = clients t ->
  rtc task_step (with_clients (before ++ k1 :: after) t1) t' -> rtc task_step t t'.
Proof. intros Hc Ho Hc'. apply rtc_l. by eapply client_goes_on. Qed.

(** A channel that was empty has room, and holds what was put. *)
Ltac look_up := cbn; repeat first [rewrite fn_lookup_insert | rewrite fn_lookup_insert_ne by done].
Ltac by_empty H := unfold has_room; look_up; rewrite ?H; cbn; unfold CHANNEL_CAPACITY; first [done | lia].

Lemma one_build t n :
  idle t -> replicate n [Put end_message] `sublist_of` clients t ->
  exists t', rtc task_step t t' /\ idle t' /\ replicate (S n) [Put end_message] `sublist_of` clients t'.
Proof.
  intros Hi Hn. pose proof (Hi QCommand) as [HcC HlC]. pose proof (Hi QBuild) as [HcB HlB].
  eexists. split; [|split].
  - apply (run_spawn t [Call QBuild start_message]); [by repeat constructor|].
    eapply run_client; [done|apply step_call; by_empty HcB|done|].
    apply (run_receive _ QBuild (start_message (fresh t)) ([Call QCommand (fun o => MCommand (VerifyBuild Docker "alpine:3" o))] ++ [Poll end_message] ++ [Reply (fresh t)]));
      [exact HlB|by_empty HcB| |].
    { exists [Poll end_message]. split; [|done]. right. eexists. split; [|done]. left. by do 2 eexists. }
    eapply (run_loop _ QBuild); [done|apply step_call; by_empty HcC|].
    eapply (run_receive _ QCommand); [exact HlC|by_empty HcC|done|].
    eapply (run_loop _ QCommand); [done|apply step_reply|].
    eapply (run_done _ QCommand); [done|].
    eapply (run_loop _ QBuild); [done|apply step_wait; cbn; set_solver|].
    eapply (run_loop _ QBuild); [done|apply step_poll|].
    eapply (run_loop _ QBuild); [done|apply step_reply|].
    eapply (run_done _ QBuild); [done|]. apply rtc_refl.
  - intros q. destruct (Hi q) as [Hc Hl]. destruct q; look_up; by rewrite ?Hc, ?Hl.
  - rewrite replicate_S_end. cbn. apply sublist_app; [|done]. by apply sublist_inserts_r.
Qed.

Lemma many_builds n t :
  idle t -> exists t', rtc task_step t t' /\ idle t' /\ replicate n [Put end_message] `sublist_of` clients t'.
Proof.
  intros Hi. induction n as [|n (t1 & Hr1 & Hi1 & Hn)]; [exists t; split_and!; [done|done|apply sublist_nil_l]|].
  destruct (one_build t1 n Hi1 Hn) as (t2 & Hr2 & Hi2 & Hs). exists t2. split; [by etrans|done].
Qed.

(** The polling tasks put their messages. *)
Lemma one_end t n :
  has_room QBuild t -> replicate (S n) [Put end_message] `sublist_of` clients t ->
  exists t', rtc task_step t t' /\ loop_of t' = loop_of t /\ channel_of t' QBuild = channel_of t QBuild ++ [end_message]
    /\ replicate n [Put end_message] `sublist_of` clients t'.
Proof.
  intros Hroom (before & after & Hc & Hn)%sublist_cons_l. eexists. split_and!.
  - eapply run_client; [exact Hc|by apply step_put|done|]. apply rtc_refl.
  - done.
  - by look_up.
  - cbn. apply sublist_inserts_l. by apply sublist_cons.
Qed.

Lemma many_ends n t :
  replicate n [Put end_message] `sublist_of` clients t -> length (channel_of t QBuild) + n <= CHANNEL_CAPACITY ->
  exists t', rtc task_step t t' /\ loop_of t' = loop_of t /\ length (channel_of t' QBuild) = length (channel_of t QBuild) + n.
Proof.
  revert t. induction n as [|n IH]; intros t Hn Hlen; [exists t; split_and!; [done|done|lia]|].
  destruct (one_end t n) as (t1 & Hr1 & Hl1 & Hc1 & Hn1); [unfold has_room; lia|done|].
  destruct (IH t1) as (t2 & Hr2 & Hl2 & Hc2); [done|rewrite Hc1, length_app; simpl; lia|].
  exists t2. split_and!; [by etrans|congruence|]. rewrite Hc2, Hc1, length_app. simpl. lia.
Qed.

Lemma build_fills : exists t, reachable t
  /\ loop_of t QBuild = Some [Put (MBuild (EvFailed "id" InvalidMappingResponse))] /\ ~ has_room QBuild t.
Proof.
  set (failed := MBuild (EvFailed "id" InvalidMappingResponse)).
  destruct (many_builds (S CHANNEL_CAPACITY) (with_loop QEvent None (tasks_init []))) as (t1 & Hr1 & Hi1 & Hn1).
  { intros q. split; [done|]. destruct q; look_up; done. }
  destruct (Hi1 QBuild) as [Hc1 Hl1].
  destruct (one_end t1 CHANNEL_CAPACITY) as (t2 & Hr2 & Hl2 & Hc2 & Hn2); [by_empty Hc1|done|].
  destruct (many_ends CHANNEL_CAPACITY (with_loop QBuild (Some [Put failed]) (with_channel QBuild [] t2))) as (t3 & Hr3 & Hl3 & Hc3);
    [done|by look_up|].
  exists t3. split_and!.
  - exists []. split; [constructor|]. apply (run_done _ QEvent); [by look_up|]. etrans; [exact Hr1|]. etrans; [exact Hr2|].
    apply (run_receive t2 QBuild end_message [Put failed]); [by rewrite Hl2|by rewrite Hc2, Hc1| |done]. right. by eexists.
  - rewrite Hl3. by look_up.
  - unfold has_room. rewrite Hc3. look_up. lia.
Qed.

(** *** The network loop and the channel of events *)
Definition gossip : PyrsiaEvent := EvBlockchainRequest query_message None.

Lemma many_events n t :
  loop_of t QCommand = None -> length (channel_of t QEvent) + n <= CHANNEL_CAPACITY ->
  exists t', rtc task_step t t' /\ (forall q, loop_of t' q = loop_of t q)
    /\ length (channel_of t' QEvent) = length (channel_of t QEvent) + n
    /\ (forall q, q <> QEvent -> channel_of t' q = channel_of t q)
    /\ clients t' = clients t /\ answered t' = answered t /\ fresh t' = fresh t.
Proof.
  revert t. induction n as [|n IH]; intros t Hl Hlen; [exists t; split_and!; try done; lia|].
  destruct (IH (with_loop QCommand None (with_loop QCommand (Some []) (enqueue (MEvent gossip)
    (with_loop QCommand (Some [Put (MEvent gossip)]) t))))) as (t1 & Hr & Hq & Hlen1 & Hch & Hc & Ha & Hf).
  { by look_up. }
  { revert Hlen. look_up. rewrite length_app. simpl. lia. }
  exists t1. split_and!; try done.
  - eapply rtc_l; [right; by apply (step_peer t gossip)|].
    eapply (run_loop _ QCommand); [by look_up|apply step_put; unfold has_room; simpl; lia|].
    apply (run_done _ QCommand); [by look_up|]. exact Hr.
  - intros q. rewrite Hq. by destruct q; look_up.
  - rewrite Hlen1. look_up. rewrite length_app. simpl. lia.
  - intros q Hne. rewrite Hch by done. by destruct q; look_up.
Qed.

(** The client's block is broadcast by the blockchain loop, which the main loop waits for. *)
Definition add_block_call : op := Call QBlockchain (fun s => MBlockchain (AddBlock [] s)).
Definition broadcast_call : op := Call QCommand (fun s => MCommand (BroadcastBlock [] s)).
Definition ordinal_call : op := Call QBlockchain (fun s => MBlockchain (HandleQueryBlockOrdinal s)).

Lemma waiting_loops : exists t, reachable t
  /\ loop_of t QCommand = None /\ loop_of t QEvent = Some [Wait QBlockchain 2]
  /\ loop_of t QBlockchain = Some [Wait QCommand 1; Reply 0] /\ loop_of t QBuild = None
  /\ channel_of t QEvent = [] /\ channel_of t QBuild = []
  /\ clients t = [[Wait QBlockchain 0]] /\ answered t = ∅ /\ fresh t = 3.
Proof.
  eexists. split.
  - exists []. split; [constructor|].
    apply (run_done _ QEvent); [by look_up|].
    apply (run_spawn _ [add_block_call]); [by repeat constructor|].
    eapply (run_client _ []); [done|apply step_call; by_empty I|done|].
    apply (run_receive _ QBlockchain (MBlockchain (AddBlock [] 0)) [broadcast_call; Reply 0]); [by look_up..|right; by eexists|].
    eapply (run_loop _ QBlockchain); [by look_up|apply step_call; by_empty I|].
    eapply rtc_l; [right; apply (step_peer _ gossip); by look_up|].
    eapply (run_loop _ QCommand); [by look_up|apply step_put; by_empty I|].
    eapply (run_done _ QCommand); [by look_up|].
    apply (run_receive _ QEvent (MEvent gossip) [ordinal_call]); [by look_up..| |].
    { right. exists HandleQueryBlockOrdinal. split; [done|]. by left. }
    eapply (run_loop _ QEvent); [by look_up|apply step_call; by_empty I|].
    apply rtc_refl.
  - split_and!; by look_up.
Qed.

Lemma events_fill : exists t, reachable t /\ blocked [QCommand; QEvent; QBlockchain] {[1; 2]} t.
Proof.
  destruct waiting_loops as (t1 & (main & Hm & Hr1) & Hl1 & Hev & Hbc & Hbu & Hch1 & Hcb & Hc1 & Ha1 & Hf1).
  destruct (many_events CHANNEL_CAPACITY t1) as (t2 & Hr2 & Hl2 & Hlen & Hch & Hc & Ha & Hf); [done|by rewrite Hch1|].
  exists (with_loop QCommand (Some [Put (MEvent gossip)]) t2). split.
  - exists main. split; [done|]. etrans; [exact Hr1|]. eapply rtc_r; [exact Hr2|]. right. apply step_peer. by rewrite Hl2.
  - split; simpl.
    + intros q Hq. rewrite !elem_of_cons in Hq. destruct Hq as [->|[->|[->|Hq%elem_of_nil]]]; look_up; rewrite ?Hl2; try done.
      * do 2 eexists. split; [done|]. split; [set_solver|]. unfold has_room. simpl. rewrite Hlen, Hch1. simpl. lia.
      * rewrite Hev. do 2 eexists. split; [done|]. set_solver.
      * rewrite Hbc. do 2 eexists. split; [done|]. set_solver.
    + left. by left.
    + rewrite Ha, Ha1. set_solver.
    + intros s Hs. rewrite Hf, Hf1. set_solver by lia.
    + intros q m s Hq. destruct q; try (destruct Hq; set_solver). rewrite Hch, Hcb by done. by intros ?%elem_of_nil.
    + intros q k Hq. destruct q; try (destruct Hq; set_solver). look_up. by rewrite Hl2, Hbu.
    + rewrite Hc, Hc1. by repeat constructor.
Qed.

(** C13. Full channels stop the node for good.  A build loop that puts the outcome of a build into its own channel while the
    channel is full never goes on, whatever the node and its peers do, and 33 builds that end while the loop
    is at work lead there.  The network, main and blockchain loops stop for good as well when the channel of events
    fills while the main loop waits for the blockchain loop, which waits for the network loop, which waits for
    the main loop to take an event: messages of peers during a broadcast lead there. *)
Theorem full_channels_deadlock :
  (forall t m k t', reachable t -> loop_of t QBuild = Some (Put m :: k) -> queue_of m = QBuild -> ~ has_room QBuild t ->
     rtc task_step t t' -> loop_of t' QBuild = loop_of t QBuild)
  /\ (exists t m, reachable t /\ loop_of t QBuild = Some [Put m] /\ queue_of m = QBuild /\ ~ has_room QBuild t)
  /\ exists t, reachable t /\ forall q, q <> QBuild ->
       loop_of t q <> None /\ forall t', rtc task_step t t' -> loop_of t' q = loop_of t q.
Proof.
  split_and!.
  - intros t m k t' Hr Hl Hm Hfull Hrun. apply (blocked_forever [QBuild] ∅); [by eapply build_blocked|done|by left].
  - destruct build_fills as (t & Hr & Hl & Hfull). by eexists t, _.
  - destruct events_fill as (t & Hr & Hb). exists t. split; [done|]. intros q Hq.
    assert (q ∈ [QCommand; QEvent; QBlockchain]) as Hin by (destruct q; set_solver). split.
    + destruct (blocked_busy _ _ _ _ Hb Hin) as (o & k & ->). done.
    + intros t' Hrun. by apply (blocked_forever [QCommand; QEvent; QBlockchain] {[1; 2]}).
Qed.

(** *** A quiet run: an HTTP handler asks for the peers and is answered. *)
Lemma list_peers_run : exists t, reachable t /\ idle t /\ clients t = [[]] /\ pending t = ∅.
Proof.
  eexists. split.
  - exists []. split; [constructor|].
    apply (run_done _ QEvent); [by look_up|].
    apply (run_spawn _ [Call QCommand (fun s => MCommand (ListPeers s))]); [by repeat constructor|].
    eapply (run_client _ []); [done|apply step_call; by_empty I|done|].
    eapply (run_receive _ QCommand (MCommand (ListPeers 0)) [Reply 0]); [by look_up..|].
    eapply (run_loop _ QCommand); [by look_up|apply step_reply|].
    eapply (run_done _ QCommand); [by look_up|].
    eapply (run_client _ []); [done|apply step_wait; cbn; set_solver|done|]. apply rtc_refl.
  - split_and!; try by look_up. intros q. by destruct q; look_up.
Qed.

(** Nothing is left to do. *)
Lemma idle_stops t t' : idle t -> Forall (fun k => k = []) (clients t) -> ~ inner_step t t'.
Proof.
  intros Hi Hc Hs. destruct Hs as [t q m ms k Hl Hch Hk|t q o k t' k' Hl Ho|t q Hl|t i o k t' k' Hk Ho].
  - destruct (Hi q). congruence.
  - destruct (Hi q). congruence.
  - destruct (Hi q). congruence.
  - by apply (Forall_lookup_1 _ _ _ _ Hc) in Hk.
Qed.
End Tasks.
