(* ===== verification/Quiescence.v ===== *)
(** * Quiescence: a node that is left alone comes to rest

    The steps of the tasks of a node (Tasks) without requests, messages of peers or events of the swarm: every run of them
    ends.  A message is handled by operations that are less work than it, and an operation becomes messages and waits
    that are less work than it; the work that is left is a multiset of numbers, which every step decreases
    in the multiset order. *)

From S2P Require Import Prelude Crypto Structures Sample Model EventLoop BlockchainService BlockchainEvents Build Tasks.
From stdpp Require Import relations functions gmultiset.
From Stdlib Require Import Wellfounded.List_Extension Wf_nat.

(** ** The multiset order *)
Definition less_work (M' M : gmultiset nat) : Prop :=
  exists a B R, M = {[+ a +]} ⊎ R /\ M' = B ⊎ R /\ forall b, b ∈ B -> b < a.

Lemma list_to_set_disj_elements (M : gmultiset nat) : list_to_set_disj (elements M) = M.
Proof.
  induction M as [|x M IH] using gmultiset_ind; [done|].
  rewrite gmultiset_elements_disj_union, gmultiset_elements_singleton, list_to_set_disj_app, IH. simpl. multiset_solver.
Qed.

Lemma less_work_wf : well_founded less_work.
Proof.
  assert (forall l : list nat, Acc less_work (list_to_set_disj l)) as Hl.
  { intros l. induction (wf_list_ext nat lt lt_wf l) as [l _ IH]. constructor. intros M' (a & B & R & Hl & -> & HB).
    assert (a ∈ l) as Ha by (apply elem_of_list_to_set_disj; rewrite Hl; multiset_solver).
    apply list_elem_of_split in Ha as (l1 & l2 & ->).
    assert (R = list_to_set_disj (l1 ++ l2)) as ->.
    { revert Hl. rewrite !list_to_set_disj_app, list_to_set_disj_cons. multiset_solver. }
    replace (B ⊎ list_to_set_disj (l1 ++ l2)) with (list_to_set_disj (l1 ++ elements B ++ l2) : gmultiset nat).
    - apply IH. constructor. rewrite Forall_forall. intros b Hb%list_elem_of_In%gmultiset_elem_of_elements. by apply HB.
    - rewrite !list_to_set_disj_app, list_to_set_disj_elements. multiset_solver. }
  intros M. rewrite <- (list_to_set_disj_elements M). apply Hl.
Qed.

Section Quiescence.
Context `{Libp2p}.

(** ** The work that is left *)
Definition message_work (m : Message) : nat :=
  match m with
  | MCommand _ | MBuild (EvFailed _ _) | MBuild (EvStatus _ _) => 2
  | MBlockchain _ => 4
  | MBuild (EvResult _ _ _) => 6
  | MBuild (EvSucceeded _ _ _ _ _) => 8
  | MBuild (EvStart _ _ _ _) => 11
  | MEvent _ => 14
  end.

Definition op_work (o : op) : nat :=
  match o with
  | Wait _ _ | Reply _ | Pend _ => 1
  | Put m => S (message_work m)
  | Poll m => S (S (message_work m))
  | Call QCommand _ => 3
  | Call QBlockchain _ => 5
  | Call QBuild _ => 12
  | Call QEvent _ => 15
  end.

Definition script_work (k : list op) : gmultiset nat := list_to_set_disj (op_work <$> k).
Definition loop_work (k : option (list op)) : gmultiset nat :=
  match k with Some k => {[+ 0 +]} ⊎ script_work k | None => ∅ end.
Definition channel_work (ms : list Message) : gmultiset nat := list_to_set_disj (message_work <$> ms).
Definition clients_work (ks : list (list op)) : gmultiset nat := script_work (concat ks).
Definition queue_work (t : tasks) (q : queue) : gmultiset nat := channel_work (channel_of t q) ⊎ loop_work (loop_of t q).
Definition work (t : tasks) : gmultiset nat :=
  queue_work t QCommand ⊎ queue_work t QEvent ⊎ queue_work t QBlockchain ⊎ queue_work t QBuild ⊎ clients_work (clients t).

Lemma script_work_cons o k : script_work (o :: k) = {[+ op_work o +]} ⊎ script_work k.
Proof. done. Qed.
Lemma script_work_app k k' : script_work (k ++ k') = script_work k ⊎ script_work k'.
Proof. unfold script_work. by rewrite fmap_app, list_to_set_disj_app. Qed.
Lemma channel_work_cons m ms : channel_work (m :: ms) = {[+ message_work m +]} ⊎ channel_work ms.
Proof. done. Qed.
Lemma clients_work_app ks ks' : clients_work (ks ++ ks') = clients_work ks ⊎ clients_work ks'.
Proof. unfold clients_work. by rewrite concat_app, script_work_app. Qed.
Lemma clients_work_insert ks i k k' :
  ks !! i = Some k -> clients_work (<[i := k']> ks) ⊎ script_work k = clients_work ks ⊎ script_work k'.
Proof.
  intros Hi. rewrite <- (take_drop_middle ks i k Hi) at 2. rewrite insert_take_drop by (by eapply lookup_lt_Some).
  rewrite !clients_work_app. unfold clients_work. simpl. rewrite !script_work_app. multiset_solver.
Qed.

Lemma elem_of_script_work b k : b ∈ script_work k <-> exists o, o ∈ k /\ b = op_work o.
Proof. unfold script_work. rewrite elem_of_list_to_set_disj, list_elem_of_fmap. naive_solver. Qed.

(** Replacing the script of a loop, a message received, a message put. *)
Ltac look_up := cbn [with_loop with_channel channel_of loop_of clients]; repeat first [rewrite fn_lookup_insert | rewrite fn_lookup_insert_ne by done].

Lemma work_with_loop q k t : work (with_loop q k t) ⊎ loop_work (loop_of t q) = work t ⊎ loop_work k.
Proof. unfold work, queue_work. destruct q; look_up; multiset_solver. Qed.
Lemma work_with_channel q ms t :
  work (with_channel q ms t) ⊎ channel_work (channel_of t q) = work t ⊎ channel_work ms.
Proof. unfold work, queue_work. destruct q; look_up; multiset_solver. Qed.
Lemma work_with_clients ks t : work (with_clients ks t) ⊎ clients_work (clients t) = work t ⊎ clients_work ks.
Proof.
  unfold work. change (queue_work (with_clients ks t)) with (queue_work t). cbn [with_clients clients]. multiset_solver.
Qed.
Lemma work_with_client i k k' t :
  clients t !! i = Some k -> work (with_clients (<[i := k']> (clients t)) t) ⊎ script_work k = work t ⊎ script_work k'.
Proof.
  intros Hi. pose proof (work_with_clients (<[i := k']> (clients t)) t). pose proof (clients_work_insert _ _ _ k' Hi). multiset_solver.
Qed.
Lemma work_enqueue m t : work (enqueue m t) = {[+ message_work m +]} ⊎ work t.
Proof.
  unfold enqueue. pose proof (work_with_channel (queue_of m) (channel_of t (queue_of m) ++ [m]) t) as Hw.
  revert Hw. unfold channel_work. rewrite fmap_app, list_to_set_disj_app. simpl. multiset_solver.
Qed.

(** ** Every step leaves less work *)

(** A handler does less work than its message stands for. *)
Ltac by_work := repeat constructor; simpl; try lia.

Lemma handles_work m k : handles m k -> Forall (fun o => op_work o < message_work m) k.
Proof.
  destruct m as [c|e|e|e]; simpl; intros Hk.
  - destruct c; simpl in Hk; destruct_or? Hk; subst k; by_work.
  - assert (forall call respond, Forall (fun o => op_work o < 14) call -> answered_with call respond k ->
      Forall (fun o => op_work o < 14) k) as Hans.
    { intros call respond Hc [->|(c & _ & ->)]; [done|]. apply Forall_app. split; [done|]. by_work. }
    destruct e as [id ch|t p ch|peer t p|ch|data ch|id ch]; simpl in Hk.
    + eapply Hans; [|exact Hk]. constructor.
    + eapply Hans; [|exact Hk]. by_work.
    + subst k. by_work.
    + destruct Hk as [x ->]. by_work.
    + destruct Hk as [->|(mk & _ & Hk)]; [constructor|]. eapply Hans; [|exact Hk]. by_work.
    + eapply Hans; [|exact Hk]. by_work.
  - destruct e as [payload s|peer s|a b s|n b s|a b s|s]; simpl in Hk; subst; try solve [by_work].
    + destruct Hk as [->|[buf ->]]; by_work.
    + destruct Hk as [requests ->]. apply Forall_app. split; [|by_work].
      apply Forall_map, Forall_true. intros data. simpl. lia.
  - destruct e as [id err|id s|t p s [|peer]|id t p tr urls|id [|peer] r]; simpl in Hk; subst; try solve [by_work].
    + destruct Hk as (ks & [->|(m & [(x & y & ->)|(x & y & ->)] & ->)] & ->); by_work.
    + destruct Hk as (ks & [->|(m & [(x & y & ->)|(x & y & ->)] & ->)] & ->); by_work.
    + destruct Hk as [[r ->]|[err ->]]; by_work.
    + destruct Hk as (ks & ks' & Hk & Hk' & ->). apply Forall_app.
      split; [revert Hk|revert Hk']; apply Forall_impl; intros o [x ->]; simpl; lia.
Qed.

(** A message with a sender is less work than the call that puts it. *)
Lemma call_work q mk s :
  queue_of (mk s) = q -> sender_of (mk s) = Some s -> message_work (mk s) < op_work (Call q mk).
Proof. intros <- Hs. destruct (mk s) as [c|e|e|e]; simpl in *; [lia|done|lia|destruct e; simpl in *; try done; lia]. Qed.

(** An operation becomes less work. *)
Lemma op_step_work t o k t' k' n :
  op_ok n o -> op_step t o k t' k' ->
  exists B, (forall b, b ∈ B -> b < op_work o) /\ work t' ⊎ script_work k' = B ⊎ work t ⊎ script_work k.
Proof.
  intros Ho Hs. inversion Hs; subst; clear Hs.
  - destruct Ho as [_ Hm]. destruct (Hm (Tasks.fresh t)) as [Hq Hsd]. pose proof (call_work _ _ _ Hq Hsd) as Hw.
    exists ({[+ message_work (mk (Tasks.fresh t)) +]} ⊎ {[+ 1 +]}). split.
    + intros b Hb. assert (1 < op_work (Call q mk)) by (destruct q; simpl; lia). multiset_solver.
    + rewrite work_enqueue, script_work_cons. change (work {| channel_of := channel_of t; loop_of := loop_of t;
        clients := clients t; pending := pending t; answered := answered t; Tasks.fresh := S (Tasks.fresh t) |}) with (work t). simpl. multiset_solver.
  - exists {[+ message_work m +]}. split; [intros b Hb; simpl; multiset_solver|]. rewrite work_enqueue. multiset_solver.
  - exists ∅. split; [multiset_solver|]. multiset_solver.
  - exists ∅. split; [multiset_solver|]. unfold work, queue_work. cbn [channel_of loop_of clients]. multiset_solver.
  - exists ∅. split; [multiset_solver|]. unfold work, queue_work. cbn [channel_of loop_of clients]. multiset_solver.
  - exists {[+ S (message_work m) +]}. split; [intros b Hb; simpl; multiset_solver|].
    pose proof (work_with_clients (clients t ++ [[Put m]]) t) as Hw. rewrite clients_work_app in Hw.
    change (clients_work [[Put m]]) with ({[+ S (message_work m) +]} ⊎ ∅ : gmultiset nat) in Hw. multiset_solver.
Qed.

Lemma script_less a k b : Forall (fun o => op_work o < a) k -> b ∈ script_work k -> b < a.
Proof. intros Hk (o & Ho & ->)%elem_of_script_work. rewrite Forall_forall in Hk. by apply Hk, list_elem_of_In. Qed.

Lemma message_work_pos m : 0 < message_work m.
Proof. destruct m as [c|e|e|[]]; simpl; lia. Qed.

Lemma inner_step_work t t' : tasks_ok t -> inner_step t t' -> less_work (work t') (work t).
Proof.
  intros Hok Hs. destruct Hs as [t q m ms k Hl Hch Hk|t q o k t' k' Hl Ho|t q Hl|t i o k t' k' Hc Ho].
  - pose proof (work_with_loop q (Some k) (with_channel q ms t)) as Hw. pose proof (work_with_channel q ms t) as Hw'.
    cbn [with_channel loop_of] in Hw. rewrite Hl in Hw. cbn [loop_work] in Hw. rewrite Hch, channel_work_cons in Hw'.
    exists (message_work m), ({[+ 0 +]} ⊎ script_work k), (work (with_channel q ms t)). split_and!.
    + clear -Hw'. multiset_solver.
    + clear -Hw. multiset_solver.
    + intros b [->%gmultiset_elem_of_singleton|Hb]%gmultiset_elem_of_disj_union; [apply message_work_pos|].
      by eapply script_less; [apply handles_work|].
  - destruct (ok_loops t Hok q _ Hl) as [Hf _]. apply Forall_cons_1 in Hf as [Hop _].
    destruct (op_step_work _ _ _ _ _ _ Hop Ho) as (B & HB & Hw). pose proof (work_with_loop q (Some k') t') as Hw'.
    rewrite (op_step_loops _ _ _ _ _ Ho), Hl in Hw'.
    assert (exists R, work t = {[+ op_work o +]} ⊎ R) as [R HR].
    { pose proof (work_with_loop q None t) as Hn. rewrite Hl in Hn. cbn [loop_work] in Hn. rewrite script_work_cons in Hn.
      exists (work (with_loop q None t) ⊎ {[+ 0 +]} ⊎ script_work k). clear -Hn. multiset_solver. }
    exists (op_work o), B, R. split_and!; [done| |done].
    cbn [loop_work] in Hw'. rewrite script_work_cons in Hw'. clear -Hw Hw' HR. multiset_solver.
  - pose proof (work_with_loop q None t) as Hw. rewrite Hl in Hw. exists 0, ∅, (work (with_loop q None t)).
    cbn [loop_work] in Hw. change (script_work []) with (∅ : gmultiset nat) in Hw. split_and!; multiset_solver.
  - destruct (ok_clients t Hok (o :: k)) as [Hf _]; [by eapply list_elem_of_lookup_2|]. apply Forall_cons_1 in Hf as [Hop _].
    destruct (op_step_work _ _ _ _ _ _ Hop Ho) as (B & HB & Hw).
    pose proof (op_step_grows _ _ _ _ _ _ Hop Ho) as (_ & (ms & Hc' & _) & _).
    pose proof (work_with_client i _ k t Hc) as Hold. rewrite script_work_cons in Hold.
    pose proof (work_with_client i (o :: k) k' t') as Hnew. rewrite Hc' in Hnew at 1. rewrite script_work_cons in Hnew.
    specialize (Hnew (lookup_app_l_Some _ _ _ _ Hc)).
    exists (op_work o), B, (work (with_clients (<[i := k]> (clients t)) t)). clear -Hold Hnew Hw HB. split_and!; [clear -Hold| |done]; multiset_solver.
Qed.

(** ** Every run ends *)

Lemma reachable_inner t t' : reachable t -> inner_step t t' -> reachable t'.
Proof. intros (main & Hm & Hr) Hs. exists main. split; [done|]. eapply rtc_r; [done|]. by left. Qed.

(** C12. A node that is left alone comes to rest: from every state it can reach, every run of its own steps, in whatever order
    the tasks go on, is finite; and where it ends with room in the channels and no answer owed by the swarm,
    everything that was asked has been answered, all channels are empty, the loops idle and the clients done. *)
Theorem left_alone_rests t :
  reachable t ->
  sn inner_step t
  /\ forall t', rtc inner_step t t' -> (forall t'', ~ inner_step t' t'') -> (forall q, has_room q t') -> pending t' = ∅ ->
       (forall q, channel_of t' q = [] /\ loop_of t' q = None) /\ Forall (fun k => k = []) (clients t').
Proof.
  intros Hr. split.
  - revert Hr. remember (work t) as M eqn:HM. revert t HM. induction (less_work_wf M) as [M _ IH]. intros t -> Hr.
    constructor. intros t' Hs. eapply IH; [|done|by eapply reachable_inner].
    apply inner_step_work; [by apply reachable_ok|done].
  - intros t' Hrun Hstop Hroom Hp. apply quiet_node_done; try done. revert Hr. induction Hrun as [|t t1 t2 Hs _ IHr]; [by auto|].
    intros Hr. apply IHr; [done..|]. by eapply reachable_inner.
Qed.
End Quiescence.

(** After an HTTP handler has asked for the peers. *)
Lemma left_alone_rests_witness :
  exists t : @tasks sample_crypto sample_libp2p, reachable t /\ sn inner_step t /\ clients t = [[]]
    /\ (forall q, channel_of t q = [] /\ loop_of t q = None) /\ Forall (fun k => k = []) (clients t).
Proof.
  destruct (@list_peers_run sample_crypto sample_libp2p) as (t & Hr & Hi & Hc & Hp). exists t. split; [done|].
  destruct (left_alone_rests t Hr) as [Hsn Hend]. split; [exact Hsn|]. split; [done|]. apply (Hend t).
  - done.
  - intros t'. apply idle_stops; [done|]. rewrite Hc. by repeat constructor.
  - intros q. unfold has_room, CHANNEL_CAPACITY. destruct (Hi q) as [-> _]. simpl. lia.
  - done.
Defined.
