(* ===== verification/Scripts.v ===== *)
(** * Scripts: the handlers use the channels as Tasks says

    Tasks gives each loop, for each message, the scripts of its handler: its calls, its messages and its answer.  Here the
    handlers of the blockchain loop, of the build loop and of the main loop (BlockchainEvents, BuildEvents, Node) are run
    over channels that remember what was sent, and what they sent is a script of their message, or the first part of one
    when they panic, which is how the order of operations on different channels shows.  The main loop of Node asks the
    blockchain loop in place, so that its questions are compared by the state that they lead to. *)

From S2P Require Import Prelude Crypto Structures FileSystem Chain Blockchain BlockchainService BlockchainEvents Sql Model TransparencyLog EventLoop Client Build Artifact Verification BuildEvents Metrics Tasks.
From S2P Require Import Sample SqlSample Node.

(** ** Channels that remember *)
Class AskedChannel `{Libp2p} (W : Type) `{!CommandChannel W} := {
  asked : W -> list Command;
  ask_asked mk w : exists s, asked (snd (ask mk w)) = asked w ++ [mk s];
}.
Class AddedBlocks (B : Type) `{!BlockAdder B} := {
  added : B -> list bytes;
  add_block_added payload b : added (snd (bc_add_block payload b)) = added b ++ [payload];
}.

Class RequestedBuilds `{Crypto} (C : Type) `{!BuildClient C} := {
  requested : C -> list BuildEvent;
  start_requested t p c : exists s, requested (snd (be_start_build t p c)) = requested c ++ [EvStart t p s FromSource];
  verify_requested peer t p c :
    exists s, requested (snd (be_verify_build peer t p c)) = requested c ++ [EvStart t p s (Verification peer)];
  status_requested id c : exists s, requested (snd (be_get_build_status id c)) = requested c ++ [EvStatus id s];
}.

(** The client of the build loop keeps to it over a channel that remembers. *)
Class AskedBuilds `{Crypto} (Q : Type) `{!BuildEventChannel Q} := {
  asked_builds : Q -> list BuildEvent;
  ask_asked_builds mk q : exists s, asked_builds (snd (bev_ask mk q)) = asked_builds q ++ [mk s];
}.
#[export] Instance build_client_requested `{Crypto} {Q} `{!BuildEventChannel Q} `{!AskedBuilds Q} : RequestedBuilds Q.
Proof.
  refine {| requested := asked_builds |}; intros; simpl;
    unfold client_start_build, client_verify_build, client_get_build_status; unfold_stm;
    match goal with |- context [bev_ask ?mk ?q] => destruct (ask_asked_builds mk q) as [s Hs]; destruct (bev_ask mk q) as [[]] end;
    by exists s.
Defined.

Section Performs.
Context `{Libp2p}.














(** ** The blockchain loop *)
Section BlockchainLoop.
Context `{!BlockBincode} {W : Type} `{!CommandChannel W} `{!AskedChannel W} {A : Type} `{!BlockAddedHandler A}.

Abbreviation Chainloop := (BlockchainEventLoop W A).











End BlockchainLoop.

(** ** The build loop *)
Section BuildLoop.
Context `{Sqlite} `{!LogJson} `{!BuildJson} `{!Sha256} {N : Type} `{!Http N}.
Context {B : Type} `{!BlockAdder B} `{!AddedBlocks B} {W : Type} `{!CommandChannel W} `{!AskedChannel W}.
Context {C : Type} `{!BuildClient C}.

Abbreviation Loop := (BuildEventLoop (N := N) (B := B) (W := W) (C := C)).
Abbreviation Builder := (BuildService (N := N) (B := B) (W := W)).
Abbreviation Storer := (ArtifactService (B := B) (W := W) (C := C)).






























End BuildLoop.

(** ** The main loop *)
Section MainLoop.
Context `{Sqlite} `{!LogJson} `{!Sha256} `{!BlockBincode} `{!Sysinfo}.
Context {B : Type} `{!BlockAdder B} {W : Type} `{!CommandChannel W} `{!ToldChannel W}.
Context {C : Type} `{!BuildClient C} `{!RequestedBuilds C}.
Context {N : Type} `{!BlockchainNet N} {A : Type} `{!BlockAddedHandler A}.

Abbreviation Main := (Node (B := B) (W := W) (C := C) (N := N) (A := A)).








End MainLoop.

(** ** All handlers *)
Section Sound.
Context `{!Bincode VerifyBuildData} `{!BlockBincode} {A : Type} `{!BlockAddedHandler A}.
Context `{Sqlite} `{!LogJson} `{!BuildJson} `{!Sha256} {N : Type} `{!Http N}.
Context {B : Type} `{!BlockAdder B} `{!AddedBlocks B} {W : Type} `{!CommandChannel W} `{!AskedChannel W}.
Context {C : Type} `{!BuildClient C} `{!RequestedBuilds C} `{!ToldChannel W} `{!Sysinfo}.
Context {NB : Type} `{!BlockchainNet NB}.

End Sound.
End Performs.

(** ** A run over channels that remember *)
#[local] Instance recording_asked : AskedChannel (list Command).
Proof.
  refine {| asked := fun w => w |}. intros mk w. exists 0. simpl. unfold_stm. by repeat case_match.
Defined.
#[local] Instance sample_added : AddedBlocks (list bytes).
Proof. by refine {| added := fun b => b |}. Defined.

#[local] Instance recording_builds : BuildEventChannel (list BuildEvent) := {|
  bev_ask := fun mk q => (Ok match mk 0 with EvStatus _ _ => AnsStatus (inl Running) | _ => AnsStart (inl "b1") end, q ++ [mk 0]) |}.
#[local] Instance recording_builds_asked : AskedBuilds (list BuildEvent).
Proof. refine {| asked_builds := fun q => q |}. by exists 0. Defined.



